(* ===== verification/_CoqProject ===== *)
-Q . S2P
Prelude.v
CInt.v
HashOrder.v
Mem.v
IOBuf.v
BufAlloc.v
BufPool.v
ReactorBuf.v
Message.v
EventLoop.v
ThreadQueue.v
NetState.v
Framing.v
TcpConn.v
TcpConnInv.v
TcpConnSpec.v
TcpServer.v
EchoServer.v
ServerLoop.v
ServerThreads.v
TcpClient.v
TcpClientSpec.v
Udp.v
ConfigFile.v
ConfigFloat.v
Protobuf.v
Varint.v
LbrssPb.v
Proto.v
LbrssPbSpec.v
LbrssPbTypes.v
LbrssPbAccess.v
Descriptor.v
DynCodec.v
LbrssPbDescriptor.v
HostInfo.v
LoadBalance.v
LoadBalanceInv.v
LoadBalanceUpdate.v
LoadBalanceSpec.v
RouteLB.v
RouteLBSpec.v
Links.v
ClientLoop.v
DnsRoute.v
Subscribe.v
SubscribeSpec.v
DnsNet.v
DnsService.v
RouteTrip.v
Reporter.v
ReportTrip.v
DnsThreads.v
DnsCheck.v
Setup.v
DnsPublish.v
ReporterService.v
Api.v
ApiSpec.v
EndToEnd.v
AgentSpec.v
AgentService.v
