(* ===== verification/Prelude.v ===== *)
(** * lb-rpc: a load-balancing RPC system in C++

    ** The program

    The repository is a reactor library and the services built on it (all paths
    are under src/):

    - reactor/: an epoll event loop, pooled buffers, a framed message protocol
      over TCP and UDP, server and client connections, a thread pool;
    - dns/: the dns service, which knows the hosts of each modid/cmdid pair from
      a MySQL table, answers requests and pushes changes to subscribers;
    - lb_agent/: the agent on each caller's machine: it keeps a balancer for
      each pair, fills it from the dns service, chooses hosts for its callers
      by UDP, counts their calls and reports them;
    - reporter/: the service that stores the reports;
    - api/cpp/api/: the library of the callers;
    - base/proto/: the protocol messages and the code protoc made of them.

    A call runs: [APIClient::get_host] (api.cpp) sends a datagram to one of the
    agent's three UDP servers; its handler (agent_udp_server.cpp) asks
    [RouteLB::get_host] and answers; a pair that is not known yet is queued for
    the dns client thread (dns_client.cpp), which sends it to the dns service;
    [get_route] (dns_service.cpp) answers and subscribes the connection;
    [deal_recv_route] hands the answer to [RouteLB::update_host].  The caller
    reports the outcome ([APIClient::report], [RouteLB::report_host]), the agent
    queues the counters for the reporter client thread, and the reporter
    (reporter_service.cpp) deals them out to its store threads.

    ** The files

    Foundations.
    - [Prelude]: outcomes of a computation ([res], [safe], [exits_or]).
    - [CInt]: machine integers, the 64-bit keys of two 32-bit values, bytes.
    - [Mem]: character arrays with indeterminate cells.
    - [HashOrder]: the order of a loop over a hash table, as an interface.
    The reactor.
    - [IOBuf], [BufAlloc], [BufPool], [ReactorBuf]: io_buf.*, buf_pool.*,
      reactor_buf.*.  [BufAlloc] is the interface of the pool to its users;
      [BufPool] implements it over a heap of linked buffers.
    - [Message], [Framing]: message.h, and the stream format as a specification.
    - [EventLoop]: event_loop.h, eventloop.cpp; [epoll_ctl] is the interface
      [Epoll].
    - [ThreadQueue]: thread_queue.h, task_msg.h, thread_pool.*; the eventfd is
      the interface [EventFd].
    - [NetState], [TcpConn], [TcpConnInv], [TcpConnSpec]: the state of a server
      thread, tcp_conn.*, its invariant [conn_inv], its theorems.
    - [TcpServer]: tcp_server.cpp and the worker threads of thread_pool.cpp;
      [ServerLoop]: such a thread's loop with all its callbacks; [ServerThreads]:
      the accepting thread and all workers on their shared state; [EchoServer]:
      the echo callbacks, which nothing registers any more.
    - [TcpClient], [TcpClientSpec]: tcp_client.*; [ClientLoop]: a thread that runs
      the loop of a client and of a message queue.
    - [Udp]: udp_server.* and udp_client.*.
    - [ConfigFile], [ConfigFloat]: config_file.*.
    The protocol.
    - [Protobuf]: what the generated code uses of the protocol-buffer library,
      as the class [PbRuntime] with the laws [PbLaws], and the parse loop that
      all messages share; [Varint] is an instance.
    - [LbrssPb], [LbrssPbAccess]: the generated classes of lbrss.pb.h and
      lbrss.pb.cpp; their accessors, copies and moves.
    - [Descriptor]: the description of the messages in the generated code, read
      back to lbrss.proto; [DynCodec]: the codec that only knows a description;
      [LbrssPbDescriptor]: the offset tables, and the generated codec against
      that one.
    - [Proto]: lbrss.proto as the services see it: records and the interface
      [Wire] with the laws [WireLaws].
    - [LbrssPbSpec]: the generated code is correct and implements [Wire];
      [LbrssPbTypes]: its parsers make exactly the well-typed messages.
    The services.
    - [HostInfo], [LoadBalance], [LoadBalanceInv], [LoadBalanceUpdate],
      [LoadBalanceSpec]: host_info.*, load_balance.*.
    - [RouteLB], [RouteLBSpec]: route_lb.*, agent_udp_server.cpp, dns_client.cpp,
      reporter_client.cpp, main_server.cpp.
    - [DnsRoute], [Subscribe], [SubscribeSpec]: dns_route.*, subscribe.*,
      dns_service.cpp; [DnsNet]: the service's callbacks on its server;
      [DnsService]: a running service and all its clients; [DnsThreads]: its
      subscriptions, with all its threads; [DnsCheck]: the thread that checks the
      database for changes, beside them.
    - [Reporter]: store_report.cpp, store_thread.cpp, reporter_service.cpp.
    - [Api], [ApiSpec]: api.cpp.
    The processes together.
    - [Links]: kernels, networks and the client's queue, for the round trips.
    - [RouteTrip]: the agent's dns client and the dns service.
    - [ReportTrip]: the agent's report client and the reporter.
    - [EndToEnd]: the caller and the agent.
    - [Setup]: the [main] functions and thread bodies up to their loops, and the
      dns service from [main] on.
    - [AgentSpec], [AgentService]: the agent from [main] on, with its five threads:
      what its balancers know and answer, as relations on sets of hosts; the
      specification of the whole process ([astep]) and the simulation.
    - [DnsPublish]: what the publication of a route change does to the service.
    - [ReporterService]: the reporter from [main] on, its store threads, and the
      race in [get_thread].

    ** How the code is modelled

    A class is a [Record] of its members and a method a function from the object
    to the object; definitions have the names of the source.  Assertions,
    [exit(1)] and undefined behaviour (array bounds, null and deleted pointers,
    invalid iterators, signed overflow, uninitialised reads) are the faults of
    [res]: a theorem that a call returns says that none of them happens.
    Pointers whose aliasing matters are locations in a heap ([BufPool] for the
    buffers, [hosts] of [LoadBalance] for the hosts that two lists and a map
    share, [nt_conns] of [NetState] for the connections).  System calls answer
    from a script, an argument with one entry for each call; when it is empty
    the call blocks ([Blocked]).  Clocks are arguments, uninitialised members
    are arguments too (the [junk] of the memory).  Of the order in which a loop
    visits a hash table nothing is assumed but that it is one of its entries, the
    same for the same table ([HashOrder]; the witnesses take one such order);
    [std::map] and [std::set] are visited in the order of their keys.  A method that holds a mutex
    throughout is one step, and so is a callback of a server thread, whose
    shared data is under mutexes (pool, connection table, subscriptions), except
    for the reporter's choice of a store thread, which is also modelled in finer
    steps ([gt_step] of [ReporterService]); the interleavings that remain are schedules or
      reachability relations over
    those steps ([thread_steps] of [ServerThreads], [DnsRoute.run],
    [RouteLBSpec.reachable], the reachability of [BufPool], [ThreadQueue],
    [EventLoop] and [Subscribe]).  Handlers and hooks of the applications are
    parameters of the reactor with contracts: [msg_ok], [hook_ok] and [start_ok]
    of a server ([TcpConnInv]), over an invariant [UI] of the application's
    state and the open descriptors, and with the effects [eff] of a handler and
    [hooked] of a hook, [handles] of a client ([TcpClientSpec]) and [umsg_ok] of a datagram socket
      ([Udp]).  [DnsNet],
    [ReportTrip], [RouteTrip] and [EndToEnd] instantiate them with the handlers
    of the services.

    Fuel: the read loops of [TcpConn] and [TcpClient] take one turn for each
    buffered byte at least ([S length]), which the theorems about [do_read]
    show to be enough; [split_sep] of [ConfigFile] takes the length of the
    string; a protocol parser takes a turn for each byte of its input and one
    more, and so does the loop over the elements of a repeated field inside it;
    running out of turns is an outcome of its own ([Exhausted], unlike a failed
    parse), and [codec_stops] shows that it does not occur and that more turns
    change nothing.

    ** What is shown

    - Streams: the calls that a server makes depend only on the bytes of the
      stream ([stream_segmentation]) and what is sent arrives
      ([sent_messages_arrive]); datagrams are delivered whole or not at all
      ([udp_do_read_exact]); the client's half of it
      ([client_do_read_whole]).
    - Resources: the pool implements lists of free buffers and loses none
      ([pool_refines_lists], [pool_invariant]); the loop, its map and the kernel
      agree ([registration_invariant]); queues are FIFO ([queue_fifo]).
    - Servers: a worker thread with all its connections implements a server
      without buffers, descriptors and event masks ([worker_refines]); the
      accepting thread and the workers, in any interleaving, implement such
      servers on one state, to which connections are dealt in turn
      ([server_refines]); connections do not disturb one another
      ([server_connections_independent]); the application's state changes by
      the effects of the handlers and hooks that were called, in their order.
      The conditions of these theorems are in their comments: above all the
      connection table has a place for every descriptor that is let in, no
      message is empty, and buffers stay below 8 MB; the code checks the
      last one only.
    - Services: the dns service, from its [main] on, answers every client from
      its table and books it for what it has asked, while the thread that checks
      the database finds no new version ([dns_service_runs]); the
      reporter, from its [main] on and with its store threads, stores every
      report once ([reporter_service_runs]); the agent, from its [main] on and in
      any order of the events of its threads, implements an agent without
      buffers and loops, if its ports are below 2^15, its connections stay up, and
      answers come whole and drop no host ([agent_service_runs]).
    - The codec: [codec_round_trips], [codec_parse_is_merge]; parsers make
      the well-typed messages, all of them and no other ([codec_types_exact]), and
      stop, their inner loops too ([codec_stops]); the generated classes do what the
      description in the same file says ([codec_follows_descriptor]), which is
      lbrss.proto without one value of an enum ([descriptor_of_proto]); the
      setters build what the codec is proved for ([messages_built]).
    - Balancing: [report_refines] (the state machine of a host),
      [update_replaces], [healthy_round_robin], [probe_cycle],
      [agent_never_faults].
    - The other services: [readers_see_snapshots], [subscriptions_exact],
      [store_statements_whole], [load_render].
    - Across processes: [api_call_end_to_end] (caller and agent),
      [get_host_own_answer], [route_lookup_end_to_end] (agent and dns service,
      over TCP), [reports_end_to_end] (agent and reporter, over TCP).
    - What goes wrong: the theorems of kind "error" prove the faults that the
      modelling found, each from the code as it is ([zero_pair_stops_service],
      [send_message_rollback_breaks], [removed_host_faults],
      [reconnect_aborts_agent], [failed_load_loses_update],
      [publication_stops_service], [client_fragment_overruns],
      [client_reconnect_resumes_mid_message], [store_pool_race]); others are
      lemmas (such as [udp_send_message_bounds], [accept_overcommits]).

    ** Not modelled

    The MySQL client library (what it answers is an argument); the kernel (its
    answers are arguments too); [print_log], which appends fixed lines to a file,
    and console output; other data races inside a callback than the one of
    [ReporterService]; runs of a server whose
    workers have tasks of one another in their queues (the one use, the
    publication of route changes, ends the service in the turn of its first
    task, [publication_stops_service]); events of the agent before its queues and
    connections are there, and after a connection is lost or data stops inside a
    message (that these go wrong is [reconnect_aborts_agent],
    [client_reconnect_resumes_mid_message] and [client_fragment_overruns]), and
    answers with more than [AGENT_HOSTS] hosts (1500: the reply is a datagram);
    arenas and
    the registration of the generated messages with the library; base/proto/lars.*
    and lbrpc.*, the same messages under older names that no component uses, but
    for their descriptors ([older_descriptors]); the MySQL headers; the
    examples, the tests and the web interface. *)

From stdpp Require Export base gmap sets list fin_maps.
From Stdlib Require Export ZArith Lia.
From Stdlib Require Import Strings.Byte.

(** ** Outcomes of a C++ computation *)

(** The ways in which a run of the modelled code can go wrong.  [exit(1)]
    and a failed [assert] are deliberate; the others are undefined behaviour
    that the model detects. *)
Inductive fault : Type :=
  | AssertFail      (** a failed [assert] *)
  | ExitFail        (** [exit(1)] *)
  | NullDeref       (** a method call or a read through [NULL] *)
  | OutOfBounds     (** a read or write outside an array *)
  | UseAfterFree    (** a read or write through a deleted pointer *)
  | DoubleFree      (** [delete] of a deleted pointer *)
  | IterInvalid     (** use of an invalidated iterator *)
  | EmptyFront      (** [front()] or [pop_front()] of an empty container *)
  | IntOverflow     (** signed overflow *)
  | Uninit          (** a read of an indeterminate byte *)
  | Blocked.        (** the scripted environment has no further answer *)

#[global] Instance fault_eq_dec : EqDecision fault.
Proof. solve_decision. Defined.

(** A run either returns or faults. *)
Inductive res (A : Type) : Type :=
  | Ret (a : A)
  | Fault (f : fault).
Arguments Ret {A} a.
Arguments Fault {A} f.

#[global] Instance res_ret : MRet res := @Ret.
#[global] Instance res_bind : MBind res :=
  fun A B k m => match m with Ret a => k a | Fault f => Fault f end.
#[global] Instance res_fmap : FMap res :=
  fun A B g m => match m with Ret a => Ret (g a) | Fault f => Fault f end.

(** [assert(b)] *)
Definition c_assert (b : bool) : res unit :=
  if b then Ret tt else Fault AssertFail.

(** [guard f b] is the check of the model that [b] holds, fault [f] otherwise. *)
Definition check (f : fault) (b : bool) : res unit :=
  if b then Ret tt else Fault f.

(** [safe m P]: [m] returns, and its result satisfies [P]. *)
Definition safe {A} (m : res A) (P : A -> Prop) : Prop :=
  match m with Ret a => P a | Fault _ => False end.

(** [exits_or m P]: [m] returns a result that satisfies [P], or calls
    [exit(1)]; nothing else goes wrong. *)
Definition exits_or {A} (m : res A) (P : A -> Prop) : Prop :=
  match m with Ret a => P a | Fault ExitFail => True | Fault _ => False end.

Lemma res_bind_Ret {A B} (m : res A) (k : A -> res B) b :
  (m ≫= k) = Ret b <-> exists a, m = Ret a /\ k a = Ret b.
Proof.
  destruct m; cbn; split; [eauto | by intros (? & [= ->] & ?) | done |].
  by intros (? & ? & ?).
Qed.

Lemma safe_Ret {A} (m : res A) P : safe m P <-> exists a, m = Ret a /\ P a.
Proof.
  destruct m; cbn; split; [eauto | by intros (? & [= ->] & ?) | done |].
  by intros (? & ? & ?).
Qed.

Lemma safe_bind {A B} (m : res A) (k : A -> res B) P Q :
  safe m P -> (forall a, P a -> safe (k a) Q) -> safe (m ≫= k) Q.
Proof. destruct m; cbn; [eauto|done]. Qed.

Lemma safe_mono {A} (m : res A) (P Q : A -> Prop) :
  safe m P -> (forall a, P a -> Q a) -> safe m Q.
Proof. destruct m; cbn; [eauto|done]. Qed.

Lemma safe_exits_or {A} (m : res A) P : safe m P -> exits_or m P.
Proof. by destruct m. Qed.

Lemma exits_or_bind {A B} (m : res A) (k : A -> res B) P Q :
  exits_or m P -> (forall a, P a -> exits_or (k a) Q) -> exits_or (m ≫= k) Q.
Proof. destruct m as [|[]]; cbn; try done. eauto. Qed.

Lemma exits_or_mono {A} (m : res A) (P Q : A -> Prop) :
  exits_or m P -> (forall a, P a -> Q a) -> exits_or m Q.
Proof. destruct m as [|[]]; cbn; try done. eauto. Qed.

Lemma exits_or_and {A} (m : res A) P Q :
  exits_or m P -> exits_or m Q -> exits_or m (fun a => P a /\ Q a).
Proof. destruct m as [|[]]; cbn; auto. Qed.

Lemma exits_or_Ret {A} (m : res A) P a : exits_or m P -> m = Ret a -> P a.
Proof. by intros H ->. Qed.

Lemma safe_check f (b : bool) : b = true -> safe (check f b) (fun _ => True).
Proof. intros ->. done. Qed.

Lemma check_Ret f b u : check f b = Ret u <-> b = true.
Proof. destruct b, u; cbn; split; congruence. Qed.

Lemma c_assert_Ret b u : c_assert b = Ret u <-> b = true.
Proof. destruct b, u; cbn; split; congruence. Qed.

(** Open a returned computation into the returns of its parts. *)
Ltac inv_res :=
  repeat match goal with
  | H : (_ ≫= _) = Ret _ |- _ =>
      apply res_bind_Ret in H; destruct H as [? [? H]]
  | H : check _ _ = Ret _ |- _ => apply check_Ret in H
  | H : c_assert _ = Ret _ |- _ => apply c_assert_Ret in H
  | H : Ret _ = Ret _ |- _ => injection H as H
  | H : Fault _ = Ret _ |- _ => discriminate H
  | H : Ret _ = Fault _ |- _ => discriminate H
  | H : (_, _) = (_, _) |- _ => injection H as ? ?
  | x : _ * _ |- _ => destruct x
  | x : unit |- _ => destruct x
  end; simplify_eq/=.

(** ** Sets *)

(** Two maps that agree everywhere but at a key. *)
Lemma delete_same `{Countable K} {A} (m1 m2 : gmap K A) k :
  (forall k', k <> k' -> m1 !! k' = m2 !! k') -> delete k m1 = delete k m2.
Proof.
  intros He. apply map_eq. intros k'. destruct (decide (k = k')) as [<-|Hk].
  - by rewrite !lookup_delete_eq.
  - by rewrite !lookup_delete_ne, He.
Qed.

Lemma size_list_to_set_le `{Countable A} (xs : list A) :
  (size (list_to_set (C := gset A) xs) <= length xs)%nat.
Proof.
  induction xs as [|x xs IH]; [done|]. cbn [list_to_set list_to_set length].
  rewrite size_union_alt, size_singleton.
  assert (Hs : (list_to_set xs : gset A) ∖ {[x]} ⊆ list_to_set xs) by set_solver.
  apply subseteq_size in Hs. cbn in *. lia.
Qed.
