(* ===== verification/CInt.v ===== *)
(** * Machine integers and bytes

    The C++ integer types the program uses, as integers in [Z] with the
    conversions of the language written out ([i32], [u32], [u64], [i16]), the
    checked signed addition, the packing of two 32-bit values in a 64-bit key
    that every component uses for [modid/cmdid] and [ip/port], and the
    little-endian bytes of an [int] (the program's [memcpy] of a [MsgHead]). *)

From S2P Require Import Prelude.
From Stdlib Require Import Strings.Byte.
Local Open Scope Z_scope.

(** ** Conversions *)

Definition u32 (z : Z) : Z := z `mod` 2 ^ 32.
Definition u64 (z : Z) : Z := z `mod` 2 ^ 64.
Definition i32 (z : Z) : Z := (z + 2 ^ 31) `mod` 2 ^ 32 - 2 ^ 31.
Definition i16 (z : Z) : Z := (z + 2 ^ 15) `mod` 2 ^ 16 - 2 ^ 15.
Definition u16 (z : Z) : Z := z `mod` 2 ^ 16.
(** A [char] is signed here. *)
Definition i8 (z : Z) : Z := (z + 2 ^ 7) `mod` 2 ^ 8 - 2 ^ 7.

(** The values of [int] and of [uint32_t]. *)
Definition is_i32 (z : Z) : Prop := - 2 ^ 31 <= z < 2 ^ 31.
Definition is_u32 (z : Z) : Prop := 0 <= z < 2 ^ 32.

Definition i32_ok (z : Z) : bool := (- 2 ^ 31 <=? z) && (z <? 2 ^ 31).

(** Signed addition: overflow is undefined. *)
Definition int_add (a b : Z) : res Z :=
  if i32_ok (a + b) then Ret (a + b) else Fault IntOverflow.

(** [((uint64_t)hi << 32) + lo], with [hi] and [lo] of a 32-bit type. *)
Definition pack64 (hi lo : Z) : Z := u64 (u64 (Z.shiftl (u64 hi) 32) + u64 lo).

(** [(int)(k >> 32)] and [(int)k] for a [uint64_t k]. *)
Definition unpack_hi (k : Z) : Z := i32 (Z.shiftr k 32).
Definition unpack_lo (k : Z) : Z := i32 k.
(** [(uint32_t)(k >> 32)] *)
Definition unpack_hi_u (k : Z) : Z := u32 (Z.shiftr k 32).

Ltac zwrap :=
  unfold is_i32, is_u32, i32, u32, u64, i16 in *;
  change (2 ^ 64) with 18446744073709551616 in *;
  change (2 ^ 32) with 4294967296 in *;
  change (2 ^ 31) with 2147483648 in *;
  change (2 ^ 16) with 65536 in *;
  change (2 ^ 15) with 32768 in *;
  Z.to_euclidean_division_equations; lia.

Lemma i32_id z : is_i32 z -> i32 z = z.
Proof. intros. zwrap. Qed.

Lemma u32_id z : is_u32 z -> u32 z = z.
Proof. intros. zwrap. Qed.

Lemma i32_is z : is_i32 (i32 z).
Proof. zwrap. Qed.

Lemma u32_is z : is_u32 (u32 z).
Proof. zwrap. Qed.

Lemma i32_u32 z : i32 (u32 z) = i32 z.
Proof. zwrap. Qed.

Lemma u32_i32 z : u32 (i32 z) = u32 z.
Proof. zwrap. Qed.

Lemma i32_ok_spec z : i32_ok z = true <-> is_i32 z.
Proof. unfold i32_ok, is_i32. rewrite andb_true_iff, Z.leb_le, Z.ltb_lt. done. Qed.

Lemma int_add_Ret a b c : int_add a b = Ret c <-> is_i32 (a + b) /\ c = a + b.
Proof.
  unfold int_add. rewrite <- i32_ok_spec.
  destruct (i32_ok (a + b)); split; [intros [= ->] | intros [? ->] | | intros []]; done.
Qed.

Lemma int_add_ok a b : is_i32 (a + b) -> int_add a b = Ret (a + b).
Proof. intros. by apply int_add_Ret. Qed.

(** ** Packed keys *)

Lemma pack64_eq hi lo : pack64 hi lo = (hi * 2 ^ 32 + lo) `mod` 2 ^ 64.
Proof.
  unfold pack64. rewrite Z.shiftl_mul_pow2 by lia. zwrap.
Qed.

Lemma pack64_range hi lo : 0 <= pack64 hi lo < 2 ^ 64.
Proof. rewrite pack64_eq. zwrap. Qed.

(** Two [int]s are determined by their key, negative ones included. *)
Lemma pack64_inj hi lo hi' lo' :
  is_i32 hi -> is_i32 lo -> is_i32 hi' -> is_i32 lo' ->
  pack64 hi lo = pack64 hi' lo' -> hi = hi' /\ lo = lo'.
Proof. rewrite !pack64_eq. intros. zwrap. Qed.

(** The low half always comes back. *)
Lemma unpack_lo_pack hi lo : is_i32 lo -> unpack_lo (pack64 hi lo) = lo.
Proof. rewrite pack64_eq. unfold unpack_lo. intros. zwrap. Qed.

(** The high half comes back, less one for a negative low half: the
    sign-extended low half borrows from it. *)
Lemma unpack_hi_pack hi lo :
  is_i32 hi -> is_i32 lo ->
  unpack_hi (pack64 hi lo) = if 0 <=? lo then hi else i32 (hi - 1).
Proof.
  rewrite pack64_eq. unfold unpack_hi.
  rewrite Z.shiftr_div_pow2 by lia.
  intros. destruct (Z.leb_spec 0 lo); zwrap.
Qed.

Lemma unpack_hi_u_pack hi lo :
  is_u32 hi -> 0 <= lo < 2 ^ 31 -> unpack_hi_u (pack64 hi lo) = hi.
Proof.
  rewrite pack64_eq. unfold unpack_hi_u.
  rewrite Z.shiftr_div_pow2 by lia. intros. zwrap.
Qed.

(** Only the 32-bit patterns matter for the low half, all of the high one. *)
Lemma pack64_u32_hi hi lo : pack64 (u32 hi) lo = pack64 hi lo.
Proof. rewrite !pack64_eq. zwrap. Qed.

(** ** Bytes *)

#[global] Instance byte_eq_dec' : EqDecision byte := Byte.byte_eq_dec.

Definition byte_of_Z (z : Z) : byte :=
  default x00 (Byte.of_N (Z.to_N (z `mod` 256))).
Definition Z_of_byte (b : byte) : Z := Z.of_N (Byte.to_N b).

Lemma Z_of_byte_range b : 0 <= Z_of_byte b < 256.
Proof. unfold Z_of_byte. pose proof (Byte.to_N_bounded b). lia. Qed.

Lemma Z_of_byte_of_Z z : Z_of_byte (byte_of_Z z) = z `mod` 256.
Proof.
  unfold Z_of_byte, byte_of_Z.
  pose proof (Z.mod_pos_bound z 256 eq_refl) as Hb.
  destruct (Byte.of_N (Z.to_N (z `mod` 256))) as [b|] eqn:E; cbn.
  - apply Byte.to_of_N in E. rewrite E. lia.
  - apply Byte.of_N_None_iff in E. lia.
Qed.

Lemma byte_of_Z_of_byte b : byte_of_Z (Z_of_byte b) = b.
Proof.
  unfold byte_of_Z. rewrite Z.mod_small by apply Z_of_byte_range.
  unfold Z_of_byte. rewrite N2Z.id, Byte.of_to_N. done.
Qed.

(** The four bytes of an [int] in memory (little endian). *)
Definition le32 (z : Z) : list byte :=
  [byte_of_Z z; byte_of_Z (z / 2 ^ 8); byte_of_Z (z / 2 ^ 16); byte_of_Z (z / 2 ^ 24)].

(** The [int] that four bytes hold; [None] for any other number of bytes. *)
Definition de32 (bs : list byte) : option Z :=
  match bs with
  | [a; b; c; d] =>
      Some (i32 (Z_of_byte a + Z_of_byte b * 2 ^ 8
                 + Z_of_byte c * 2 ^ 16 + Z_of_byte d * 2 ^ 24))
  | _ => None
  end.

Lemma le32_length z : List.length (le32 z) = 4%nat.
Proof. done. Qed.

Lemma de32_le32 z : is_i32 z -> de32 (le32 z) = Some z.
Proof.
  intros Hz. unfold de32, le32. f_equal. rewrite !Z_of_byte_of_Z.
  change (2 ^ 8) with 256. change (2 ^ 24) with 16777216. zwrap.
Qed.

Lemma byte_of_Z_mod z b : z `mod` 256 = Z_of_byte b -> byte_of_Z z = b.
Proof.
  intros E. rewrite <- (byte_of_Z_of_byte b), <- E. unfold byte_of_Z.
  by rewrite Z.mod_mod by lia.
Qed.

Lemma le32_de32 bs z : de32 bs = Some z -> le32 z = bs.
Proof.
  destruct bs as [|a [|b [|c [|d [|]]]]]; try done. unfold de32. intros [= <-].
  pose proof (Z_of_byte_range a). pose proof (Z_of_byte_range b).
  pose proof (Z_of_byte_range c). pose proof (Z_of_byte_range d).
  unfold le32. repeat f_equal; apply byte_of_Z_mod;
    change (2 ^ 8) with 256; change (2 ^ 24) with 16777216; zwrap.
Qed.

Lemma de32_is_i32 bs z : de32 bs = Some z -> is_i32 z.
Proof.
  unfold de32. intros. repeat case_match; simplify_eq. apply i32_is.
Qed.

Lemma de32_total bs : List.length bs = 4%nat -> exists z, de32 bs = Some z.
Proof. destruct bs as [|? [|? [|? [|? [|]]]]]; naive_solver. Qed.
