(* ===== verification/HashOrder.v ===== *)
(** * HashOrder: loops over hash tables

    [__gnu_cxx::hash_map], [__gnu_cxx::hash_set] and [std::unordered_set] do not
    say in which order a loop over them visits their entries.  The models keep
    such a table as a finite map or set; a loop takes its order from this
    interface, of which nothing is known but that each entry is visited once.
    The first argument names the table (for instance by the key it is stored
    under), as two tables with the same entries may have different orders.
    [std::set] is ordered and does not need it. *)

From S2P Require Import Prelude.
Local Open Scope Z_scope.

Class HashOrder : Type := {
  set_order : Z -> gset Z -> list Z;
  map_order : forall A : Type, Z -> gmap Z A -> list (Z * A);
  set_order_perm t s : set_order t s ≡ₚ elements s;
  map_order_perm A t m : map_order A t m ≡ₚ map_to_list m
}.
Arguments map_order {_ A} t m.

Section Facts.
Context `{HO : HashOrder}.

Lemma elem_of_set_order t s x : x ∈ set_order t s <-> x ∈ s.
Proof. by rewrite set_order_perm, elem_of_elements. Qed.

Lemma length_set_order t s : length (set_order t s) = size s.
Proof. by rewrite set_order_perm. Qed.

Lemma NoDup_set_order t s : NoDup (set_order t s).
Proof. rewrite set_order_perm. apply NoDup_elements. Qed.

Lemma elem_of_map_order {A} t (m : gmap Z A) k a : (k, a) ∈ map_order t m <-> m !! k = Some a.
Proof. by rewrite map_order_perm, elem_of_map_to_list. Qed.

Lemma length_map_order {A} t (m : gmap Z A) : length (map_order t m) = size m.
Proof. by rewrite map_order_perm, length_map_to_list. Qed.

Lemma NoDup_map_order {A} t (m : gmap Z A) : NoDup (map_order t m).*1.
Proof. rewrite map_order_perm. apply NoDup_fst_map_to_list. Qed.

Lemma map_order_empty {A} t : map_order t (∅ : gmap Z A) = [].
Proof. apply Permutation_nil_r. by rewrite map_order_perm, map_to_list_empty. Qed.

Lemma set_order_empty t : set_order t ∅ = [].
Proof. apply Permutation_nil_r. by rewrite set_order_perm, elements_empty. Qed.
End Facts.

(** One such order, for the witnesses. *)
Module FixedOrder.
#[export] Instance fixed_order : HashOrder := {|
  set_order _ s := elements s;
  map_order _ _ m := map_to_list m;
  set_order_perm _ _ := reflexivity _;
  map_order_perm _ _ _ := reflexivity _
|}.
End FixedOrder.
