(* ===== verification/Mem.v ===== *)
(** * Character arrays

    The contents of a [char] array: the bytes that have been written, by
    index; an index without a byte is indeterminate ([new char[size]] does not
    initialise).  [mread], [mwrite] and [mmove] are what [memcpy], [memmove],
    [read(2)] and [write(2)] do to such an array; the callers check bounds. *)

From S2P Require Import Prelude.
From Stdlib Require Import Strings.Byte.
Local Open Scope Z_scope.

Abbreviation mem := (gmap Z byte).

(** The [n] bytes from [off], when all of them have been written. *)
Fixpoint mread (d : mem) (off : Z) (n : nat) : option (list byte) :=
  match n with
  | O => Some []
  | S n' => b ← d !! off; bs ← mread d (off + 1) n'; Some (b :: bs)
  end.

(** Write [bs] from [off] on. *)
Fixpoint mwrite (d : mem) (off : Z) (bs : list byte) : mem :=
  match bs with
  | [] => d
  | b :: bs' => <[off := b]> (mwrite d (off + 1) bs')
  end.

(** Copy [n] cells of [s] from [src] to [dst] of [d], indeterminate ones too. *)
Fixpoint mcopy (d : mem) (dst : Z) (s : mem) (src : Z) (n : nat) : mem :=
  match n with
  | O => d
  | S n' => partial_alter (fun _ => s !! src) dst (mcopy d (dst + 1) s (src + 1) n')
  end.

(** [memmove] inside one array: the source is read before it is written. *)
Definition mmove (d : mem) (dst src : Z) (n : nat) : mem := mcopy d dst d src n.

Lemma mwrite_lookup d off bs i :
  mwrite d off bs !! i =
    if decide (off <= i < off + Z.of_nat (length bs))
    then bs !! Z.to_nat (i - off) else d !! i.
Proof.
  revert off. induction bs as [|b bs IH]; intros off; cbn [mwrite length].
  - rewrite decide_False by lia. done.
  - rewrite lookup_insert. case_decide as Hoff; [subst|].
    + rewrite decide_True by lia. by rewrite Z.sub_diag.
    + rewrite IH. repeat case_decide; try lia; [|done].
      replace (Z.to_nat (i - off)) with (S (Z.to_nat (i - (off + 1)))) by lia.
      done.
Qed.

Lemma mcopy_lookup d dst s src n i :
  mcopy d dst s src n !! i =
    if decide (dst <= i < dst + Z.of_nat n)
    then s !! (src + (i - dst)) else d !! i.
Proof.
  revert dst src. induction n as [|n IH]; intros dst src; cbn [mcopy].
  - rewrite decide_False by lia. done.
  - rewrite lookup_partial_alter. case_decide as Hd; [subst|].
    + rewrite decide_True by lia. f_equal. lia.
    + rewrite IH. repeat case_decide; try lia; [|done]. f_equal. lia.
Qed.

(** [mread] succeeds exactly when the cells hold the bytes. *)
Lemma mread_Some d off n bs :
  mread d off n = Some bs <->
  length bs = n /\ forall i : nat, (i < n)%nat -> d !! (off + Z.of_nat i) = bs !! i.
Proof.
  revert off bs. induction n as [|n IH]; intros off bs; cbn [mread].
  - split.
    + intros [= <-]. split; [done|lia].
    + intros [Hl _]. by destruct bs.
  - split.
    + destruct (d !! off) as [b|] eqn:Hb; cbn; [|done].
      destruct (mread d (off + 1) n) as [bs'|] eqn:Hr; cbn; [|done].
      intros [= <-]. apply IH in Hr as [Hl Hi]. cbn. split; [lia|].
      intros [|i] Hlt; cbn.
      * by rewrite Z.add_0_r.
      * etrans; [|apply Hi; lia]. f_equal. lia.
    + intros [Hl Hi]. destruct bs as [|b bs]; [done|]. cbn in Hl.
      pose proof (Hi 0%nat ltac:(lia)) as H0. cbn in H0. rewrite Z.add_0_r in H0.
      rewrite H0. cbn. rewrite (proj2 (IH (off + 1) bs)); [done|].
      split; [lia|]. intros i Hlt. specialize (Hi (S i) ltac:(lia)).
      etrans; [|exact Hi]. f_equal. lia.
Qed.

Lemma mread_length d off n bs : mread d off n = Some bs -> length bs = n.
Proof. by intros [? _]%mread_Some. Qed.

(** Only the cells that are read matter. *)
Lemma mread_ext d d' off off' n :
  (forall i : nat, (i < n)%nat -> d !! (off + Z.of_nat i) = d' !! (off' + Z.of_nat i)) ->
  mread d off n = mread d' off' n.
Proof.
  revert off off'. induction n as [|n IH]; intros off off' H; cbn [mread]; [done|].
  pose proof (H 0%nat ltac:(lia)) as H0. cbn in H0. rewrite !Z.add_0_r in H0.
  rewrite H0. destruct (d' !! off'); [|done]. cbn.
  rewrite (IH (off + 1) (off' + 1)); [done|].
  intros i Hi. specialize (H (S i) ltac:(lia)).
  replace (off + 1 + Z.of_nat i) with (off + Z.of_nat (S i)) by lia.
  replace (off' + 1 + Z.of_nat i) with (off' + Z.of_nat (S i)) by lia. done.
Qed.

(** What was written is read back. *)
Lemma mread_mwrite d off bs : mread (mwrite d off bs) off (length bs) = Some bs.
Proof.
  apply mread_Some. split; [done|]. intros i Hi.
  rewrite mwrite_lookup, decide_True by lia. f_equal. lia.
Qed.

(** A write elsewhere does not matter. *)
Lemma mread_mwrite_disjoint d off bs o n :
  o + Z.of_nat n <= off \/ off + Z.of_nat (length bs) <= o ->
  mread (mwrite d off bs) o n = mread d o n.
Proof.
  intros Hd. apply mread_ext. intros i Hi.
  rewrite mwrite_lookup, decide_False by lia. done.
Qed.

Lemma mread_mcopy d dst s src n : mread (mcopy d dst s src n) dst n = mread s src n.
Proof.
  apply mread_ext. intros i Hi. rewrite mcopy_lookup, decide_True by lia. f_equal. lia.
Qed.

(** Reads compose. *)
Lemma mread_app d off n m :
  mread d off (n + m) =
    xs ← mread d off n; ys ← mread d (off + Z.of_nat n) m; Some (xs ++ ys).
Proof.
  revert off. induction n as [|n IH]; intros off; cbn [mread Nat.add].
  - cbn. replace (off + Z.of_nat 0) with off by lia. by destruct (mread d off m).
  - destruct (d !! off); [|done]. cbn. rewrite IH.
    replace (off + 1 + Z.of_nat n) with (off + Z.of_nat (S n)) by lia.
    destruct (mread d (off + 1) n); [|done]. cbn.
    by destruct (mread d (off + Z.of_nat (S n)) m).
Qed.

(** A written array grows by what is written after it. *)
Lemma mread_mwrite_app d off n xs ys :
  mread d off n = Some xs ->
  mread (mwrite d (off + Z.of_nat n) ys) off (n + length ys) = Some (xs ++ ys).
Proof.
  intros Hx. rewrite mread_app.
  rewrite (mread_mwrite_disjoint d (off + Z.of_nat n) ys off n) by lia.
  rewrite Hx. cbn. rewrite mread_mwrite. done.
Qed.

(** Reading from further on drops bytes. *)
Lemma mread_drop d off n bs k :
  mread d off n = Some bs -> (k <= n)%nat ->
  mread d (off + Z.of_nat k) (n - k) = Some (drop k bs).
Proof.
  intros [Hl Hi]%mread_Some Hk. apply mread_Some. rewrite length_drop.
  split; [lia|]. intros i Hlt. rewrite lookup_drop, <- Hi by lia. f_equal. lia.
Qed.

Lemma mread_take d off n bs k :
  mread d off n = Some bs -> (k <= n)%nat -> mread d off k = Some (take k bs).
Proof.
  intros [Hl Hi]%mread_Some Hk. apply mread_Some. rewrite length_take.
  split; [lia|]. intros i Hlt. rewrite lookup_take_lt by lia. apply Hi. lia.
Qed.
