(* ===== verification/IOBuf.v ===== *)
(** * IOBuf: one buffer (reactor/include/io_buf.h, reactor/src/io_buf.cpp)

    The object, its operations and the relation [holds b bs] that says which
    bytes it still has to deliver.  Pointers are integers; the objects they
    point to live in the heap of [BufPool]. *)

From S2P Require Import Prelude CInt Mem.
From Stdlib Require Import Strings.Byte.
Local Open Scope Z_scope.

(** A pointer to an [IOBuf] object; [NULL] is [None] of [option loc]. *)
Abbreviation loc := Z.

Record IOBuf : Type := mkIOBuf {
  io_next : option loc;   (** link of the pool's free lists *)
  io_capacity : Z;
  io_length : Z;          (** bytes not yet processed *)
  io_head : Z;            (** index of the first of them *)
  io_data : mem
}.

Definition io_set_next (o : option loc) (b : IOBuf) : IOBuf :=
  mkIOBuf o (io_capacity b) (io_length b) (io_head b) (io_data b).
Definition io_set_view (len hd : Z) (b : IOBuf) : IOBuf :=
  mkIOBuf (io_next b) (io_capacity b) len hd (io_data b).
Definition io_set_data (d : mem) (b : IOBuf) : IOBuf :=
  mkIOBuf (io_next b) (io_capacity b) (io_length b) (io_head b) d.

(** Are [n] bytes from index [off] inside an array of [cap] bytes?  A negative
    [n] is converted to a huge [size_t]. *)
Definition in_array (cap off n : Z) : bool :=
  (0 <=? off) && (0 <=? n) && (off + n <=? cap).

(** ** Operations *)

Definition IOBuf_new (size : Z) : IOBuf := mkIOBuf None size 0 0 ∅.

Definition clear (b : IOBuf) : IOBuf := io_set_view 0 0 b.

Definition adjust (b : IOBuf) : res IOBuf :=
  if io_head b =? 0 then Ret b
  else
    d ← (if io_length b =? 0 then Ret (io_data b)
         else check OutOfBounds (in_array (io_capacity b) (io_head b) (io_length b));;
              Ret (mmove (io_data b) 0 (io_head b) (Z.to_nat (io_length b))));
    Ret (io_set_view (io_length b) 0 (io_set_data d b)).

Definition copy (b other : IOBuf) : res IOBuf :=
  check OutOfBounds (in_array (io_capacity other) (io_head other) (io_length other)
                     && in_array (io_capacity b) 0 (io_length other));;
  Ret (io_set_view (io_length other) 0
         (io_set_data (mcopy (io_data b) 0 (io_data other) (io_head other)
                         (Z.to_nat (io_length other))) b)).

Definition pop (len : Z) (b : IOBuf) : IOBuf :=
  io_set_view (io_length b - len) (io_head b + len) b.

(** [memcpy(data + length, src, n)] or [read(fd, data + length, ..)] followed by
    [length += n]: the append that [ReactorBuf] does on the fields. *)
Definition append (bs : list byte) (b : IOBuf) : res IOBuf :=
  check OutOfBounds (in_array (io_capacity b) (io_length b) (Z.of_nat (length bs)));;
  Ret (io_set_view (io_length b + Z.of_nat (length bs)) (io_head b)
         (io_set_data (mwrite (io_data b) (io_length b) bs) b)).

(** The unprocessed bytes, if none of them is indeterminate. *)
Definition io_bytes (b : IOBuf) : option (list byte) :=
  mread (io_data b) (io_head b) (Z.to_nat (io_length b)).

(** ** Well-formedness and contents *)

Record io_wf (b : IOBuf) : Prop := {
  wf_head : 0 <= io_head b;
  wf_length : 0 <= io_length b;
  wf_cap : io_head b + io_length b <= io_capacity b
}.

(** [holds b bs]: the unprocessed bytes of [b] are [bs]. *)
Definition holds (b : IOBuf) (bs : list byte) : Prop :=
  io_wf b /\ io_bytes b = Some bs.

Lemma in_array_spec cap off n :
  in_array cap off n = true <-> 0 <= off /\ 0 <= n /\ off + n <= cap.
Proof. unfold in_array. rewrite !andb_true_iff, !Z.leb_le. tauto. Qed.

Lemma holds_length b bs : holds b bs -> io_length b = Z.of_nat (length bs).
Proof. intros [[] H%mread_length]. lia. Qed.

Lemma holds_inj b xs ys : holds b xs -> holds b ys -> xs = ys.
Proof. intros [_ H1] [_ H2]. congruence. Qed.

Lemma holds_next b o bs : holds (io_set_next o b) bs <-> holds b bs.
Proof.
  destruct b as [n c l h d]. unfold holds, io_bytes. cbn.
  split; intros [[] ?]; by split.
Qed.

Lemma IOBuf_new_holds size : 0 <= size -> holds (IOBuf_new size) [].
Proof. by split. Qed.

Lemma clear_holds b : 0 <= io_capacity b -> holds (clear b) [].
Proof. by split. Qed.

Lemma adjust_holds b bs :
  holds b bs ->
  safe (adjust b) (fun b' => holds b' bs /\ io_head b' = 0 /\
    io_capacity b' = io_capacity b /\ io_next b' = io_next b).
Proof.
  intros [[Hh Hl Hc] Hb]. unfold adjust. case_match eqn:E1.
  { apply Z.eqb_eq in E1. cbn. unfold holds. by repeat split. }
  apply Z.eqb_neq in E1. case_match eqn:E2; cbn.
  - apply Z.eqb_eq in E2. repeat split; cbn; try lia.
    unfold io_bytes in *. rewrite E2 in *. by rewrite <- Hb.
  - rewrite (proj2 (in_array_spec _ _ _)) by lia. cbn.
    repeat split; cbn; try lia. unfold io_bytes in *. cbn.
    unfold mmove. by rewrite mread_mcopy.
Qed.

Lemma copy_holds b other bs :
  holds other bs -> Z.of_nat (length bs) <= io_capacity b ->
  safe (copy b other) (fun b' => holds b' bs /\ io_head b' = 0 /\
    io_capacity b' = io_capacity b /\ io_next b' = io_next b).
Proof.
  intros Ho Hc. pose proof (holds_length _ _ Ho). destruct Ho as [[] Hb]. unfold copy.
  rewrite (proj2 (andb_true_iff _ _)) by (rewrite !in_array_spec; lia). cbn.
  repeat split; cbn; try lia. unfold io_bytes in *. cbn. by rewrite mread_mcopy.
Qed.

Lemma pop_holds b bs k :
  holds b bs -> (k <= length bs)%nat -> holds (pop (Z.of_nat k) b) (drop k bs).
Proof.
  intros Hb Hk. pose proof (holds_length _ _ Hb). destruct Hb as [[] Hb].
  repeat split; cbn; try lia. unfold io_bytes in *. cbn.
  replace (Z.to_nat (io_length b - Z.of_nat k))
    with (Z.to_nat (io_length b) - k)%nat by lia.
  apply mread_drop; [done|lia].
Qed.

(** Appending to a buffer whose data start at index 0. *)
Lemma append_holds b xs ys :
  holds b xs -> io_head b = 0 ->
  Z.of_nat (length xs + length ys) <= io_capacity b ->
  safe (append ys b) (fun b' => holds b' (xs ++ ys) /\ io_head b' = 0 /\
    io_capacity b' = io_capacity b /\ io_next b' = io_next b).
Proof.
  intros Hb Hh Hc. pose proof (holds_length _ _ Hb). destruct Hb as [[] Hb]. unfold append.
  rewrite (proj2 (in_array_spec _ _ _)) by lia. cbn.
  repeat split; cbn; try lia. unfold io_bytes in *. cbn.
  rewrite Hh in *.
  replace (Z.to_nat (io_length b + Z.of_nat (length ys)))
    with (Z.to_nat (io_length b) + length ys)%nat by lia.
  pose proof (mread_mwrite_app _ _ _ _ ys Hb) as Ha. rewrite <- Ha. repeat f_equal. lia.
Qed.

(** An append that does not fit is the overrun the model detects. *)
Lemma append_overflow b bs :
  io_capacity b < io_length b + Z.of_nat (length bs) ->
  append bs b = Fault OutOfBounds.
Proof.
  intros Ho. unfold append. destruct (in_array _ _ _) eqn:E; [|done].
  apply in_array_spec in E. lia.
Qed.
