(* ===== verification/BufAlloc.v ===== *)
(** * What a buffer user needs from the pool

    The interface between [ReactorBuf] and [BufPool]: four operations on the
    pool's state and a view [ba_view p o] of the buffers in use ([o] maps each
    of them to the object behind the pointer).  The laws say that buffers in
    use are private: an operation on one of them, or an allocation, leaves the
    others as they are. *)

From S2P Require Import Prelude IOBuf.
Local Open Scope Z_scope.

Class BufAlloc (P : Type) : Type := {
  ba_alloc : Z -> P -> res (option loc * P);   (** [alloc_buf(N)] *)
  ba_revert : loc -> P -> res P;               (** [revert(buffer)] *)
  ba_deref : P -> loc -> res IOBuf;            (** read [*buffer] *)
  ba_store : loc -> IOBuf -> P -> P;           (** write [*buffer] *)
  ba_max : Z                                   (** the largest capacity *)
}.

Class BufAllocLaws (P : Type) `{BufAlloc P} : Type := {
  ba_view : P -> gmap loc IOBuf -> Prop;
  ba_max_ok : 0 <= ba_max <= 2 ^ 24;
  ba_deref_law p o l b : ba_view p o -> o !! l = Some b -> ba_deref p l = Ret b;
  ba_store_law p o l b b' :
    ba_view p o -> o !! l = Some b -> io_capacity b' = io_capacity b ->
    ba_view (ba_store l b' p) (<[l := b']> o);
  ba_alloc_law p o N :
    ba_view p o ->
    exits_or (ba_alloc N p) (fun '(r, p') =>
      match r with
      | None => ba_max < N /\ p' = p
      | Some l => N <= ba_max /\ o !! l = None /\ exists b,
          ba_view p' (<[l := b]> o) /\ holds b [] /\ io_head b = 0 /\
          N <= io_capacity b <= ba_max
      end);
  ba_revert_law p o l b :
    ba_view p o -> o !! l = Some b ->
    safe (ba_revert l p) (fun p' => ba_view p' (delete l o));
  ba_cap_law p o l b : ba_view p o -> o !! l = Some b -> io_capacity b <= ba_max
}.
