(* ===== verification/BufPool.v ===== *)
(** * BufPool: the buffer pool (reactor/include/buf_pool.h, reactor/src/buf_pool.cpp)

    The detailed model keeps the heap of [IOBuf] objects with the [next] links
    the code follows; the specification [APool] keeps one list of free buffers
    per size class and the set of buffers handed out.  [pool_rel] relates the
    two, and the refinement lemmas say that [alloc_buf] and [revert] implement
    the list operations, the [exit(1)] on the memory limit included. *)

From S2P Require Import Prelude CInt Mem IOBuf BufAlloc.
Local Open Scope Z_scope.

(** ** Size classes and the limit *)

Definition m4K : Z := 4096.
Definition m16K : Z := 16384.
Definition m64K : Z := 65536.
Definition m256K : Z := 262144.
Definition m1M : Z := 1048576.
Definition m4M : Z := 4194304.
Definition m8M : Z := 8388608.

(** [enum MEM_CAP] *)
Definition MEM_CAP : list Z := [m4K; m16K; m64K; m256K; m1M; m4M; m8M].

(** In KB. *)
Definition EXTRA_MEM_LIMIT : Z := 5 * 1024 * 1024.

(** ** State *)

Record BufPool : Type := mkPool {
  heap : gmap loc IOBuf;         (** every [IOBuf] that [new] returned *)
  hnext : loc;                   (** the address the next [new] returns *)
  pool : gmap Z (option loc);    (** [_pool]: head of each free list *)
  total_mem : Z                  (** [_total_mem], [uint64_t], in KB *)
}.

Definition set_pool (k : Z) (o : option loc) (p : BufPool) : BufPool :=
  mkPool (heap p) (hnext p) (<[k := o]> (pool p)) (total_mem p).
Definition add_mem (kb : Z) (p : BufPool) : BufPool :=
  mkPool (heap p) (hnext p) (pool p) (u64 (total_mem p + kb)).
Definition store (l : loc) (b : IOBuf) (p : BufPool) : BufPool :=
  mkPool (<[l := b]> (heap p)) (hnext p) (pool p) (total_mem p).

(** [_pool[k]]: a key that is absent is inserted with [NULL]. *)
Definition pool_get (k : Z) (p : BufPool) : option loc := default None (pool p !! k).

(** Reading the object behind a pointer. *)
Definition deref (p : BufPool) (l : loc) : res IOBuf :=
  match heap p !! l with Some b => Ret b | None => Fault UseAfterFree end.

(** [new IOBuf(size)]: a fresh address. *)
Definition new_IOBuf (size : Z) (p : BufPool) : loc * BufPool :=
  (hnext p,
   mkPool (<[hnext p := IOBuf_new size]> (heap p)) (hnext p + 1) (pool p) (total_mem p)).

(** ** The constructor *)

(** [for (int i = 1; i < cnt; i++) { prev->next = new IOBuf(cap); prev = prev->next; }] *)
Fixpoint prealloc_loop (n : nat) (cap : Z) (prev : loc) (p : BufPool) : res BufPool :=
  match n with
  | O => Ret p
  | S n' =>
      let '(q, p) := new_IOBuf cap p in
      b ← deref p prev;
      prealloc_loop n' cap q (store prev (io_set_next (Some q) b) p)
  end.

(** One size class: [_pool[cap] = new IOBuf(cap)], the loop,
    [_total_mem += kb * cnt]. *)
Definition prealloc (cap cnt kb : Z) (p : BufPool) : res BufPool :=
  let '(q, p) := new_IOBuf cap p in
  p ← prealloc_loop (Z.to_nat (cnt - 1)) cap q (set_pool cap (Some q) p);
  Ret (add_mem (kb * cnt) p).

Definition BufPool_empty : BufPool := mkPool ∅ 1 ∅ 0.

Definition BufPool_new : res BufPool :=
  p ← prealloc m4K 5000 4 BufPool_empty;
  p ← prealloc m16K 1000 16 p;
  p ← prealloc m64K 500 64 p;
  p ← prealloc m256K 200 256 p;
  p ← prealloc m1M 50 1024 p;
  p ← prealloc m4M 20 4096 p;
  prealloc m8M 10 8192 p.

(** ** alloc_buf and revert *)

(** The size class [alloc_buf] selects; [None] is its [return NULL]. *)
Definition buf_index (N : Z) : option Z :=
  if N <=? m4K then Some m4K
  else if N <=? m16K then Some m16K
  else if N <=? m64K then Some m64K
  else if N <=? m256K then Some m256K
  else if N <=? m1M then Some m1M
  else if N <=? m4M then Some m4M
  else if N <=? m8M then Some m8M
  else None.

Definition alloc_buf (N : Z) (p : BufPool) : res (option loc * BufPool) :=
  match buf_index N with
  | None => Ret (None, p)
  | Some index =>
      match pool_get index p with
      | None =>
          if EXTRA_MEM_LIMIT <=? u64 (total_mem p + index `div` 1024)
          then Fault ExitFail
          else
            let '(new_buf, p) := new_IOBuf index p in
            Ret (Some new_buf, add_mem (index `div` 1024) p)
      | Some target =>
          b ← deref p target;
          let p := set_pool index (io_next b) p in
          Ret (Some target, store target (io_set_next None b) p)
      end
  end.

Definition revert (buffer : loc) (p : BufPool) : res BufPool :=
  b ← deref p buffer;
  let index := io_capacity b in
  let b := io_set_view 0 0 b in
  c_assert (bool_decide (is_Some (pool p !! index)));;
  Ret (set_pool index (Some buffer)
         (store buffer (io_set_next (pool_get index p) b) p)).

(** ** Specification: lists of free buffers and the set of buffers in use *)

Record APool : Type := mkAPool {
  a_free : gmap Z (list loc);   (** free buffers of each class, next one first *)
  a_owned : gmap loc Z;         (** buffers in use, with their capacity *)
  a_next : loc;
  a_kb : Z
}.

Definition a_list (k : Z) (a : APool) : list loc := default [] (a_free a !! k).

Definition a_alloc (N : Z) (a : APool) : res (option loc * APool) :=
  match buf_index N with
  | None => Ret (None, a)
  | Some k =>
      match a_list k a with
      | l :: ls =>
          Ret (Some l, mkAPool (<[k := ls]> (a_free a)) (<[l := k]> (a_owned a))
                         (a_next a) (a_kb a))
      | [] =>
          if EXTRA_MEM_LIMIT <=? a_kb a + k `div` 1024 then Fault ExitFail
          else Ret (Some (a_next a),
                    mkAPool (a_free a) (<[a_next a := k]> (a_owned a))
                      (a_next a + 1) (a_kb a + k `div` 1024))
      end
  end.

(** Giving back a buffer that is in use. *)
Definition a_revert (l : loc) (k : Z) (a : APool) : APool :=
  mkAPool (<[k := l :: a_list k a]> (a_free a)) (delete l (a_owned a))
    (a_next a) (a_kb a).

(** ** Free lists in the heap *)

(** A free buffer of class [k] is empty. *)
Definition free_buf (k : Z) (b : IOBuf) : Prop :=
  io_capacity b = k /\ io_length b = 0 /\ io_head b = 0.

(** [chain h k o ls]: following [next] from [o] visits exactly the buffers
    [ls], all free buffers of class [k], and ends at [NULL]. *)
Fixpoint chain (h : gmap loc IOBuf) (k : Z) (o : option loc) (ls : list loc) : Prop :=
  match ls with
  | [] => o = None
  | l :: ls' => o = Some l /\
      exists b, h !! l = Some b /\ free_buf k b /\ chain h k (io_next b) ls'
  end.

Lemma chain_frame h k o ls l b :
  l ∉ ls -> chain h k o ls -> chain (<[l := b]> h) k o ls.
Proof.
  revert o. induction ls as [|x ls IH]; intros o Hl; cbn; [done|].
  apply not_elem_of_cons in Hl as [Hx Hl].
  intros [-> (bx & Hbx & Hk & Hc)]. split; [done|].
  exists bx. rewrite lookup_insert_ne by done. eauto.
Qed.

(** A chain is determined by its first pointer. *)
Lemma chain_det h k k' o ls ls' : chain h k o ls -> chain h k' o ls' -> ls = ls'.
Proof.
  revert o ls'. induction ls as [|x ls IH]; intros o [|y ls']; cbn;
    [done | by intros -> [? _] | by intros [-> _] |].
  intros [-> (b & Hb & _ & Hc)] [[= <-] (b' & Hb' & _ & Hc')].
  rewrite Hb in Hb'. injection Hb' as <-. f_equal. eauto.
Qed.

Lemma chain_elem h k o ls l :
  chain h k o ls -> l ∈ ls -> exists b, h !! l = Some b /\ free_buf k b.
Proof.
  revert o. induction ls as [|x ls IH]; intros o; [by intros _ ?%elem_of_nil|].
  cbn. intros [-> (b & Hb & Hk & Hc)] [->|Hl]%elem_of_cons; eauto.
Qed.

(** The rest of a chain, from a member on. *)
Lemma chain_suffix h k o ls1 l ls2 :
  chain h k o (ls1 ++ l :: ls2) -> chain h k (Some l) (l :: ls2).
Proof.
  revert o. induction ls1 as [|x ls1 IH]; intros o; cbn [app].
  - cbn. intros [-> H]. done.
  - intros [-> (b & _ & _ & Hc)]. eauto.
Qed.

(** A chain that ends does not visit a buffer twice. *)
Lemma chain_nodup h k o ls : chain h k o ls -> NoDup ls.
Proof.
  revert o. induction ls as [|x ls IH]; intros o Hc; [constructor|].
  pose proof Hc as (-> & b & Hb & Hk & Hc'). constructor; [|eauto].
  intros (l1 & l2 & ->)%list_elem_of_split.
  assert (Hs : chain h k (Some x) (x :: l2)) by eapply (chain_suffix _ _ _ (x :: l1)), Hc.
  pose proof (chain_det _ _ _ _ _ _ Hc Hs) as E.
  apply (f_equal length) in E. cbn in E. rewrite length_app in E. cbn in E. lia.
Qed.

(** Link a fresh buffer behind the last one. *)
Lemma chain_snoc h k o ls l b q bq :
  chain h k o (ls ++ [l]) -> h !! l = Some b ->
  h !! q = None -> free_buf k bq -> io_next bq = None ->
  chain (<[l := io_set_next (Some q) b]> (<[q := bq]> h)) k o (ls ++ [l; q]).
Proof.
  intros Hc Hl Hq Hk Hn.
  assert (Hlq : l <> q) by congruence.
  pose proof (chain_nodup _ _ _ _ Hc) as Hnd.
  revert o Hc. induction ls as [|x ls IH]; intros o; cbn [app chain].
  - intros [-> (b' & Hb' & Hkb & _)]. rewrite Hl in Hb'. injection Hb' as <-.
    split; [done|]. exists (io_set_next (Some q) b). rewrite lookup_insert_eq.
    split; [done|]. split; [done|]. cbn. split; [done|].
    exists bq. rewrite lookup_insert_ne, lookup_insert_eq by done. done.
  - intros [-> (b' & Hb' & Hkb & Hc)]. split; [done|].
    apply NoDup_cons in Hnd as [Hx Hnd]. rewrite elem_of_app, list_elem_of_singleton in Hx.
    exists b'. rewrite !lookup_insert_ne by naive_solver. eauto.
Qed.

(** ** Memory accounting *)

(** What the buffers of a heap occupy, in KB. *)
Definition heap_kb (h : gmap loc IOBuf) : Z :=
  map_fold (fun _ b acc => io_capacity b `div` 1024 + acc) 0 h.

Lemma heap_kb_new h l b :
  h !! l = None -> heap_kb (<[l := b]> h) = io_capacity b `div` 1024 + heap_kb h.
Proof. intros Hl. unfold heap_kb. rewrite map_fold_insert_L; [done| |done]. intros; lia. Qed.

Lemma heap_kb_update h l b b' :
  h !! l = Some b -> io_capacity b' = io_capacity b ->
  heap_kb (<[l := b']> h) = heap_kb h.
Proof.
  intros Hl Hc. rewrite <- (insert_delete_id h l b Hl) at 2.
  rewrite <- insert_delete_eq.
  rewrite !heap_kb_new by apply lookup_delete_eq. by rewrite Hc.
Qed.

(** ** The representation relation *)

Record pool_shape (p : BufPool) (a : APool) : Prop := {
  r_chain : forall k, chain (heap p) k (pool_get k p) (a_list k a);
  r_keys : dom (pool p) = dom (a_free a);
  r_next : hnext p = a_next a;
  r_fresh : forall l, is_Some (heap p !! l) -> l < hnext p;
  r_class : forall l b, heap p !! l = Some b -> io_capacity b ∈ MEM_CAP;
  r_owned : forall l k, a_owned a !! l = Some k <->
    exists b, heap p !! l = Some b /\ io_capacity b = k /\ l ∉ a_list k a
}.

Record pool_rel (p : BufPool) (a : APool) : Prop := {
  r_shape :> pool_shape p a;
  r_kb : total_mem p = a_kb a;
  r_mem : a_kb a = heap_kb (heap p);
  r_limit : 0 <= a_kb a < EXTRA_MEM_LIMIT
}.

(** Every class has its list once the constructor has run. *)
Definition ready (a : APool) : Prop := forall k, k ∈ MEM_CAP -> is_Some (a_free a !! k).

Lemma pool_get_set k k' o p :
  pool_get k (set_pool k' o p) = if decide (k = k') then o else pool_get k p.
Proof.
  unfold pool_get. cbn. rewrite lookup_insert. repeat case_decide; by subst.
Qed.

Lemma pool_get_store k l b p : pool_get k (store l b p) = pool_get k p.
Proof. done. Qed.

Lemma pool_get_new k sz p : pool_get k (new_IOBuf sz p).2 = pool_get k p.
Proof. done. Qed.

Lemma a_list_insert k k' ls a ow n kb :
  a_list k (mkAPool (<[k' := ls]> (a_free a)) ow n kb) =
    if decide (k = k') then ls else a_list k a.
Proof.
  unfold a_list. cbn. rewrite lookup_insert. repeat case_decide; by subst.
Qed.

Lemma buf_index_spec N k : buf_index N = Some k ->
  N <= k /\ k ∈ MEM_CAP /\ forall k', k' ∈ MEM_CAP -> N <= k' -> k <= k'.
Proof.
  unfold buf_index, MEM_CAP, m4K, m16K, m64K, m256K, m1M, m4M, m8M.
  intros H. repeat case_match; simplify_eq;
    repeat match goal with
    | H : (_ <=? _) = true |- _ => apply Z.leb_le in H
    | H : (_ <=? _) = false |- _ => apply Z.leb_gt in H
    end; (split; [done|split; [set_solver|]]);
    intros k' Hk'; rewrite !elem_of_cons, elem_of_nil in Hk'; lia.
Qed.

Lemma buf_index_None N : buf_index N = None <-> m8M < N.
Proof.
  unfold buf_index, m4K, m16K, m64K, m256K, m1M, m4M, m8M.
  repeat case_match;
    repeat match goal with
    | H : (_ <=? _) = true |- _ => apply Z.leb_le in H
    | H : (_ <=? _) = false |- _ => apply Z.leb_gt in H
    end; split; intros; try done; lia.
Qed.

Lemma MEM_CAP_range k : k ∈ MEM_CAP -> 4096 <= k <= 8388608.
Proof.
  unfold MEM_CAP, m4K, m16K, m64K, m256K, m1M, m4M, m8M.
  rewrite !elem_of_cons, elem_of_nil. lia.
Qed.

Section shape.
Context {p : BufPool} {a : APool}.

Lemma shape_elem (S : pool_shape p a) k l :
  l ∈ a_list k a -> exists b, heap p !! l = Some b /\ free_buf k b.
Proof. intros. eapply chain_elem; [apply S|done]. Qed.

(** A buffer is in the list of its own class only. *)
Lemma shape_class (S : pool_shape p a) k l b :
  heap p !! l = Some b -> l ∈ a_list k a -> k = io_capacity b.
Proof. intros Hb (b' & Hb' & [<- _])%(shape_elem S). congruence. Qed.

Lemma shape_owned (S : pool_shape p a) l k :
  a_owned a !! l = Some k ->
  exists b, heap p !! l = Some b /\ io_capacity b = k /\ forall k', l ∉ a_list k' a.
Proof.
  intros (b & Hb & Hk & Hl)%(r_owned _ _ S). exists b. split; [done|]. split; [done|].
  intros k' Hk'. rewrite (shape_class S _ _ _ Hb Hk') in Hk'. by rewrite Hk in Hk'.
Qed.

Lemma shape_fresh (S : pool_shape p a) : heap p !! hnext p = None.
Proof.
  destruct (heap p !! hnext p) as [b|] eqn:E; [|done].
  pose proof (r_fresh _ _ S (hnext p) (mk_is_Some _ _ E)). lia.
Qed.

Lemma shape_fresh_list (S : pool_shape p a) k : hnext p ∉ a_list k a.
Proof. intros (b & Hb & _)%(shape_elem S). rewrite (shape_fresh S) in Hb. done. Qed.

Lemma deref_owned (S : pool_shape p a) l k :
  a_owned a !! l = Some k -> exists b, deref p l = Ret b /\ io_capacity b = k /\
    heap p !! l = Some b.
Proof.
  intros (b & Hb & Hk & _)%(shape_owned S). unfold deref. rewrite Hb. eauto.
Qed.
End shape.

(** Changing a buffer in use, its capacity kept, leaves the pool related. *)
Lemma store_shape p a l k b' :
  pool_shape p a -> a_owned a !! l = Some k -> io_capacity b' = k ->
  pool_shape (store l b' p) a.
Proof.
  intros S Ho Hk. pose proof (shape_owned S _ _ Ho) as (b & Hb & Hkb & Hl).
  destruct S as [Hc Hks Hn Hf Hcl How]. split; cbn; try done.
  - intros k'. by apply chain_frame.
  - intros x. rewrite lookup_insert. case_decide; [subst|]; eauto.
  - intros x bx. rewrite lookup_insert. case_decide; [|eauto].
    intros [= <-]. replace (io_capacity b') with (io_capacity b) by congruence. eauto.
  - intros x kx. rewrite How, lookup_insert. case_decide; [|done]. subst.
    rewrite Hb. split; intros (bx & [= <-] & E & ?); eexists; repeat split; try done;
      congruence.
Qed.

Lemma store_rel p a l k b' :
  pool_rel p a -> a_owned a !! l = Some k -> io_capacity b' = k ->
  pool_rel (store l b' p) a.
Proof.
  intros R Ho Hk. pose proof (shape_owned R _ _ Ho) as (b & Hb & Hkb & _).
  split; [eapply store_shape; [apply R|done|done]| | |]; cbn; try apply R.
  rewrite (heap_kb_update _ _ b); [apply R|done|congruence].
Qed.

(** Taking the first free buffer of class [k]. *)
Lemma take_shape p a k l ls b :
  pool_shape p a -> a_list k a = l :: ls -> heap p !! l = Some b ->
  pool_shape (store l (io_set_next None b) (set_pool k (io_next b) p))
    (mkAPool (<[k := ls]> (a_free a)) (<[l := k]> (a_owned a)) (a_next a) (a_kb a)).
Proof.
  intros S Hls Hb. pose proof (r_chain _ _ S k) as Hk.
  pose proof (chain_nodup _ _ _ _ Hk) as Hnd. rewrite Hls in Hk, Hnd.
  apply NoDup_cons in Hnd as [Hl _].
  destruct Hk as (Hp & b' & Hb' & [Hkb _] & Hc). rewrite Hb in Hb'. injection Hb' as <-.
  assert (Hl' : forall k', k' <> k -> l ∉ a_list k' a).
  { intros k' Hne Hin. apply Hne. rewrite <- Hkb. by eapply shape_class. }
  split; cbn.
  - intros k'. rewrite a_list_insert, pool_get_store, pool_get_set.
    destruct (decide (k' = k)) as [->|Hne].
    + by apply chain_frame.
    + apply chain_frame; [auto|apply S].
  - rewrite !dom_insert_L. by rewrite (r_keys _ _ S).
  - apply S.
  - intros x. rewrite lookup_insert. case_decide; [subst|]; intros; apply S; eauto.
  - intros x bx. rewrite lookup_insert. case_decide; [|apply S].
    intros [= <-]. cbn. eapply r_class; eauto.
  - intros x kx. rewrite !lookup_insert, a_list_insert.
    destruct (decide (l = x)) as [<-|Hne].
    + split; [intros [= <-]|intros (bx & [= <-] & <- & _); by rewrite <- Hkb].
      rewrite decide_True by done. eauto.
    + rewrite (r_owned _ _ S). apply exist_proper. intros bx.
      destruct (decide (kx = k)) as [->|]; [|done]. rewrite Hls, not_elem_of_cons.
      assert (x <> l) by congruence. tauto.
Qed.

(** [new] of a buffer that is handed out. *)
Lemma new_shape p a k b :
  pool_shape p a -> k ∈ MEM_CAP -> io_capacity b = k ->
  pool_shape (mkPool (<[hnext p := b]> (heap p)) (hnext p + 1) (pool p) (total_mem p))
    (mkAPool (a_free a) (<[a_next a := k]> (a_owned a)) (a_next a + 1) (a_kb a)).
Proof.
  intros S Hk Hb. pose proof (shape_fresh S) as Hf.
  rewrite <- (r_next _ _ S). split; cbn.
  - intros k'. apply chain_frame; [exact (shape_fresh_list S _)|apply S].
  - apply S.
  - done.
  - intros x. rewrite lookup_insert. case_decide; [lia|].
    intros Hx. pose proof (r_fresh _ _ S x Hx). lia.
  - intros x bx. rewrite lookup_insert. case_decide; [|apply S]. intros [= <-].
    congruence.
  - intros x kx. rewrite !lookup_insert. case_decide; subst.
    + split; [intros [= <-]|intros (bx & [= <-] & <- & _); congruence].
      eexists. split; [done|]. split; [done|]. exact (shape_fresh_list S _).
    + rewrite (r_owned _ _ S). done.
Qed.

(** Putting a buffer in use in front of its free list. *)
Lemma revert_shape p a l k b :
  pool_shape p a -> a_owned a !! l = Some k -> free_buf k b ->
  pool_shape (set_pool k (Some l) (store l (io_set_next (pool_get k p) b) p))
    (a_revert l k a).
Proof.
  intros S Ho Hb. pose proof (shape_owned S _ _ Ho) as (b' & Hb' & Hkb & Hl).
  split; cbn.
  - intros k'. unfold a_revert. rewrite a_list_insert, pool_get_set, pool_get_store.
    destruct (decide (k' = k)) as [->|Hne].
    + split; [done|].
      eexists. rewrite lookup_insert_eq. split; [done|]. split; [exact Hb|].
      cbn. apply chain_frame; [auto|apply S].
    + apply chain_frame; [auto|apply S].
  - rewrite !dom_insert_L. by rewrite (r_keys _ _ S).
  - apply S.
  - intros x. rewrite lookup_insert. case_decide; [subst|]; intros; apply S; eauto.
  - intros x bx. rewrite lookup_insert. case_decide; [|apply S].
    intros [= <-]. cbn. rewrite (proj1 Hb), <- Hkb. eapply r_class; eauto.
  - intros x kx. unfold a_revert. rewrite lookup_delete, lookup_insert, a_list_insert.
    destruct (decide (l = x)) as [<-|Hne].
    + split; [done|]. intros (bx & [= <-] & <- & Hn). cbn in Hn.
      rewrite decide_True in Hn by apply Hb. set_solver.
    + rewrite (r_owned _ _ S). apply exist_proper. intros bx.
      destruct (decide (kx = k)) as [->|]; [|done]. rewrite not_elem_of_cons.
      assert (x <> l) by congruence. tauto.
Qed.

(** ** Refinement *)

Lemma kb_u64 kb k : 0 <= kb < EXTRA_MEM_LIMIT -> k ∈ MEM_CAP ->
  u64 (kb + k `div` 1024) = kb + k `div` 1024 /\ 0 < k `div` 1024.
Proof.
  unfold EXTRA_MEM_LIMIT. intros Hkb Hk%MEM_CAP_range.
  split; [|Z.to_euclidean_division_equations; lia].
  apply Z.mod_small. change (2 ^ 64) with 18446744073709551616.
  Z.to_euclidean_division_equations; lia.
Qed.

(** [alloc_buf] implements [a_alloc]: the same pointer, the same [NULL] and the
    same [exit]. *)
Lemma alloc_buf_rel p a N :
  pool_rel p a ->
  match a_alloc N a with
  | Ret (o, a') => exists p', alloc_buf N p = Ret (o, p') /\ pool_rel p' a'
  | Fault f => alloc_buf N p = Fault f
  end.
Proof.
  intros R. unfold a_alloc, alloc_buf.
  destruct (buf_index N) as [k|] eqn:Hi; [|eauto].
  apply buf_index_spec in Hi as (_ & Hk & _).
  pose proof (r_chain _ _ R k) as Hc.
  pose proof (kb_u64 (a_kb a) k (r_limit _ _ R) Hk) as [Hu Hpos].
  destruct (a_list k a) as [|l ls] eqn:Hls.
  - cbn in Hc. rewrite Hc. rewrite (r_kb _ _ R), Hu.
    destruct (Z.leb_spec EXTRA_MEM_LIMIT (a_kb a + k `div` 1024)); [done|]. cbn.
    eexists. split; [by rewrite <- (r_next _ _ R)|].
    split; cbn; [| | |].
    + pose proof (new_shape p a k (IOBuf_new k) R Hk eq_refl) as S. by destruct S; split.
    + by rewrite (r_kb _ _ R).
    + rewrite heap_kb_new, (r_mem _ _ R) by apply (shape_fresh R). cbn. lia.
    + pose proof (r_limit _ _ R). lia.
  - destruct Hc as (-> & b & Hb & _ & _). unfold deref. rewrite Hb. cbn.
    eexists. split; [done|]. split; cbn; try apply R.
    + apply take_shape; [apply R|done|done].
    + rewrite (heap_kb_update _ _ b); [apply R|done|done].
Qed.

(** [revert] of a buffer in use implements [a_revert]; its [assert] holds. *)
Lemma revert_rel p a l k :
  pool_rel p a -> ready a -> a_owned a !! l = Some k ->
  exists p', revert l p = Ret p' /\ pool_rel p' (a_revert l k a).
Proof.
  intros R Hr Ho. pose proof (shape_owned R _ _ Ho) as (b & Hb & Hkb & _).
  pose proof (r_class _ _ R _ _ Hb) as Hk. rewrite Hkb in Hk.
  unfold revert, deref. rewrite Hb. cbn. rewrite Hkb.
  rewrite bool_decide_eq_true_2.
  2: { apply elem_of_dom. rewrite (r_keys _ _ R). apply elem_of_dom. by apply Hr. }
  cbn. eexists. split; [done|]. split; cbn; try apply R.
  - by apply revert_shape; [apply R| |].
  - rewrite (heap_kb_update _ _ b); [apply R|done|done].
Qed.

(** What a client sees of an allocation: the buffer is empty, large enough and
    nobody else's, and the buffers in use keep their contents. *)
Lemma alloc_buf_frame p a N o p' :
  pool_rel p a -> alloc_buf N p = Ret (o, p') ->
  (forall l, is_Some (a_owned a !! l) -> heap p' !! l = heap p !! l) /\
  match o with
  | None => p' = p /\ m8M < N
  | Some l => a_owned a !! l = None /\
      exists b k, heap p' !! l = Some b /\ free_buf k b /\ buf_index N = Some k /\
        io_next b = None
  end.
Proof.
  intros R. unfold alloc_buf. destruct (buf_index N) as [k|] eqn:Hi.
  2: { apply buf_index_None in Hi. intros [= <- <-]. eauto. }
  pose proof (r_chain _ _ R k) as Hc.
  destruct (a_list k a) as [|l ls] eqn:Hls.
  - cbn in Hc. rewrite Hc. case_match; [done|]. cbn. intros [= <- <-]. cbn.
    assert (Hno : a_owned a !! hnext p = None).
    { destruct (a_owned a !! hnext p) eqn:E; [|done].
      apply (shape_owned R) in E as (b & Hb & _). by rewrite (shape_fresh R) in Hb. }
    split.
    + intros x [? Hx]. apply lookup_insert_ne. congruence.
    + split; [done|]. exists (IOBuf_new k), k. rewrite lookup_insert_eq. done.
  - destruct Hc as (Hp & b & Hb & Hf & _). rewrite Hp. unfold deref. rewrite Hb. cbn.
    intros [= <- <-]. cbn.
    assert (Hno : a_owned a !! l = None).
    { destruct (a_owned a !! l) eqn:E; [|done].
      apply (shape_owned R) in E as (b' & _ & _ & Hl). destruct (Hl k).
      rewrite Hls. by left. }
    split.
    + intros x [? Hx]. apply lookup_insert_ne. congruence.
    + split; [done|]. eexists _, k. rewrite lookup_insert_eq. split; [done|].
      split; [apply Hf|]. done.
Qed.

Lemma revert_frame p l p' x :
  revert l p = Ret p' -> x <> l -> heap p' !! x = heap p !! x.
Proof.
  unfold revert, deref. intros H Hx. destruct (heap p !! l); [|done]. cbn in H.
  case_bool_decide; [|done]. cbn in H. injection H as <-. cbn.
  by rewrite lookup_insert_ne.
Qed.

(** ** The constructor builds a related pool *)

(** The free list [prealloc] builds: [cnt] consecutive addresses. *)
Definition a_prealloc (k cnt : Z) (a : APool) : APool :=
  mkAPool (<[k := seqZ (a_next a) cnt]> (a_free a)) (a_owned a) (a_next a + cnt)
    (a_kb a + k `div` 1024 * cnt).

(** The first buffer of a class. *)
Lemma first_shape p a k :
  pool_shape p a -> a_list k a = [] -> k ∈ MEM_CAP ->
  pool_shape (set_pool k (Some (hnext p)) (new_IOBuf k p).2)
    (mkAPool (<[k := [a_next a]]> (a_free a)) (a_owned a) (a_next a + 1) (a_kb a)).
Proof.
  intros S Hls Hk.
  pose proof (new_shape p a k (IOBuf_new k) S Hk eq_refl) as S1.
  pose proof (revert_shape _ _ (hnext p) k (IOBuf_new k) S1) as S2. cbn in S2.
  rewrite <- (r_next _ _ S) in *.
  specialize (S2 (lookup_insert_eq _ _ _) ltac:(done)).
  pose proof (r_chain _ _ S k) as Hc. rewrite Hls in Hc. cbn in Hc.
  unfold pool_get in S2 at 1. cbn in S2. fold (pool_get k p) in S2.
  unfold store, set_pool, a_revert, a_list in S2. cbn in S2.
  fold (a_list k a) in S2. fold (pool_get k p) in S2. rewrite Hc, Hls in S2.
  rewrite insert_insert_eq, delete_insert_id in S2; [exact S2|].
  destruct (a_owned a !! hnext p) eqn:E; [|done].
  apply (shape_owned S) in E as (b & Hb & _). by rewrite (shape_fresh S) in Hb.
Qed.

(** A further buffer, linked behind the last one. *)
Lemma link_shape p a k ls prev b :
  pool_shape p a -> a_list k a = ls ++ [prev] -> heap p !! prev = Some b ->
  pool_shape (store prev (io_set_next (Some (hnext p)) b) (new_IOBuf k p).2)
    (mkAPool (<[k := ls ++ [prev; hnext p]]> (a_free a)) (a_owned a)
       (a_next a + 1) (a_kb a)).
Proof.
  intros S Hls Hb. pose proof (shape_fresh S) as Hf.
  assert (Hin : prev ∈ a_list k a) by (rewrite Hls; set_solver).
  pose proof (shape_class S _ _ _ Hb Hin) as Hkb.
  assert (Hne : prev <> hnext p) by congruence.
  split; cbn.
  - intros k'. rewrite a_list_insert.
    change (pool_get k' _) with (pool_get k' p).
    pose proof (r_chain _ _ S k') as Hc. destruct (decide (k' = k)) as [->|Hk'].
    + apply chain_snoc; try done. by rewrite <- Hls.
    + apply chain_frame; [|apply chain_frame; [exact (shape_fresh_list S _)|done]].
      intros Hin'. apply Hk'. rewrite Hkb. by eapply shape_class.
  - rewrite dom_insert_L, <- (r_keys _ _ S). symmetry. apply subseteq_union_1_L.
    intros x ->%elem_of_singleton. apply elem_of_dom.
    pose proof (r_chain _ _ S k) as Hc. rewrite Hls in Hc. unfold pool_get in Hc.
    destruct (pool p !! k); [eauto|]. destruct ls; by destruct Hc.
  - by rewrite (r_next _ _ S).
  - intros x. rewrite !lookup_insert. repeat case_decide; subst; intros Hx; [|lia|];
      [pose proof (r_fresh _ _ S x (mk_is_Some _ _ Hb))|pose proof (r_fresh _ _ S x Hx)]; lia.
  - intros x bx. rewrite !lookup_insert. repeat case_decide; subst; [| |apply S].
    + intros [= <-]. exact (r_class _ _ S _ _ Hb).
    + intros [= <-]. exact (r_class _ _ S _ _ Hb).
  - intros x kx. rewrite (r_owned _ _ S), a_list_insert, !lookup_insert.
    destruct (decide (prev = x)) as [<-|]; [|destruct (decide (hnext p = x)) as [<-|]].
    + split; intros (bx & E & Ek & Hn); exfalso; apply Hn.
      * rewrite Hb in E. injection E as <-. by rewrite <- Ek, <- Hkb.
      * injection E as <-. cbn in Ek. rewrite decide_True by congruence. set_solver.
    + split; intros (bx & E & Ek & Hn); exfalso; [congruence|].
      injection E as <-. cbn in Ek. rewrite decide_True in Hn by congruence. set_solver.
    + apply exist_proper. intros bx. destruct (decide (kx = k)) as [->|]; [|done].
      rewrite Hls, !not_elem_of_app, !not_elem_of_cons.
      assert (x <> hnext p) by congruence. pose proof (not_elem_of_nil x). tauto.
Qed.

Lemma prealloc_loop_shape n k ls prev p a :
  pool_shape p a -> a_list k a = ls ++ [prev] ->
  exists p', prealloc_loop n k prev p = Ret p' /\ total_mem p' = total_mem p /\
    heap_kb (heap p') = heap_kb (heap p) + k `div` 1024 * Z.of_nat n /\
    pool_shape p' (mkAPool (<[k := ls ++ prev :: seqZ (a_next a) (Z.of_nat n)]> (a_free a))
      (a_owned a) (a_next a + Z.of_nat n) (a_kb a)).
Proof.
  revert ls prev p a. induction n as [|n IH]; intros ls prev p a S Hls.
  - exists p. cbn [prealloc_loop]. split; [done|]. split; [done|]. split; [lia|].
    change (seqZ (a_next a) (Z.of_nat 0)) with (@nil Z).
    rewrite Z.add_0_r, <- Hls. unfold a_list in *. rewrite insert_id; [by destruct a|].
    destruct (a_free a !! k); [done|]. by destruct ls.
  - assert (Hin : prev ∈ a_list k a) by (rewrite Hls; set_solver).
    pose proof (shape_elem S _ _ Hin) as (b & Hb & _).
    cbn [prealloc_loop]. unfold new_IOBuf at 1. cbn iota beta.
    assert (Hne : hnext p <> prev).
    { intros <-. by rewrite (shape_fresh S) in Hb. }
    unfold deref at 1. cbn [heap]. rewrite lookup_insert_ne, Hb by done. cbn [mbind res_bind].
    pose proof (link_shape p a k ls prev b S Hls Hb) as S'.
    destruct (IH (ls ++ [prev]) (hnext p) _ _ S') as (p' & E & Hm & Hkb & S'').
    { unfold a_list. cbn. rewrite lookup_insert_eq. cbn. by rewrite <- app_assoc. }
    exists p'. split; [exact E|]. split; [exact Hm|]. split.
    + rewrite Hkb. unfold store, new_IOBuf. cbn.
      rewrite (heap_kb_update _ _ b), heap_kb_new;
        [cbn; lia|apply (shape_fresh S)|by rewrite lookup_insert_ne|done].
    + cbn in S''. rewrite insert_insert_eq in S''.
      rewrite (seqZ_cons (a_next a)) by lia.
      rewrite <- app_assoc in S''. cbn in S''. rewrite <- (r_next _ _ S) in S'' |- *.
      replace (Z.pred (Z.of_nat (Datatypes.S n))) with (Z.of_nat n) by lia.
      replace (hnext p + Z.of_nat (Datatypes.S n)) with (hnext p + 1 + Z.of_nat n) by lia.
      exact S''.
Qed.

Lemma prealloc_rel p a k cnt kb :
  pool_rel p a -> kb = k `div` 1024 -> a_list k a = [] -> k ∈ MEM_CAP -> 1 <= cnt ->
  a_kb a + k `div` 1024 * cnt < EXTRA_MEM_LIMIT ->
  exists p', prealloc k cnt kb p = Ret p' /\ pool_rel p' (a_prealloc k cnt a).
Proof.
  intros R -> Hls Hk Hcnt Hlim.
  pose proof (first_shape p a k R Hls Hk) as S.
  destruct (prealloc_loop_shape (Z.to_nat (cnt - 1)) k [] (hnext p) _ _ S)
    as (p' & E & Hm & Hkb & S').
  { unfold a_list. cbn. rewrite lookup_insert_eq. cbn. by rewrite (r_next _ _ R). }
  unfold prealloc, new_IOBuf. unfold new_IOBuf in E. cbn [snd] in E. rewrite E.
  cbn. eexists. split; [done|].
  rewrite Z2Nat.id in * by lia. cbn in Hm, Hkb, S'.
  rewrite heap_kb_new in Hkb by apply (shape_fresh R). cbn in Hkb.
  pose proof (kb_u64 (a_kb a) k (r_limit _ _ R) Hk) as [_ Hpos].
  pose proof (r_limit _ _ R). unfold EXTRA_MEM_LIMIT in *.
  assert (0 <= k `div` 1024 * cnt) by (apply Z.mul_nonneg_nonneg; lia).
  assert (Hu : u64 (total_mem p' + k `div` 1024 * cnt) = a_kb a + k `div` 1024 * cnt).
  { rewrite Hm, (r_kb _ _ R). apply Z.mod_small.
    change (2 ^ 64) with 18446744073709551616. lia. }
  split; cbn; [|done| |unfold EXTRA_MEM_LIMIT; lia].
  - rewrite insert_insert_eq, (r_next _ _ R) in S'. unfold a_prealloc.
    rewrite (seqZ_cons (a_next a)) by lia. unfold Z.pred.
    replace (a_next a + 1 + (cnt - 1)) with (a_next a + cnt) in S' by lia.
    unfold Z.sub in S'. destruct S'; split; try assumption.
  - rewrite Hkb, <- (r_mem _ _ R). nia.
Qed.

Definition APool_empty : APool := mkAPool ∅ ∅ 1 0.

Lemma BufPool_empty_rel : pool_rel BufPool_empty APool_empty.
Proof.
  split; [split|done..]; [done| |done|..].
  - cbn. by rewrite !dom_empty_L.
  - intros l [b Hb]. cbn in Hb. by rewrite lookup_empty in Hb.
  - intros l b Hb. cbn in Hb. by rewrite lookup_empty in Hb.
  - intros l k. cbn. rewrite lookup_empty.
    split; [done|]. intros (b & Hb & _). by rewrite lookup_empty in Hb.
Qed.

(** What the constructor leaves. *)
Definition APool_new : APool :=
  a_prealloc m8M 10 (a_prealloc m4M 20 (a_prealloc m1M 50 (a_prealloc m256K 200
    (a_prealloc m64K 500 (a_prealloc m16K 1000 (a_prealloc m4K 5000 APool_empty)))))).

Lemma APool_new_owned : a_owned APool_new = ∅.
Proof. reflexivity. Qed.

Lemma prealloc_bind p a k cnt kb (K : BufPool -> res BufPool) (Q : BufPool -> Prop) :
  pool_rel p a -> kb = k `div` 1024 -> a_list k a = [] -> k ∈ MEM_CAP -> 1 <= cnt ->
  a_kb a + k `div` 1024 * cnt < EXTRA_MEM_LIMIT ->
  (forall p', pool_rel p' (a_prealloc k cnt a) -> exists q, K p' = Ret q /\ Q q) ->
  exists q, (prealloc k cnt kb p ≫= K) = Ret q /\ Q q.
Proof.
  intros R Hkb Hls Hk Hcnt Hlim HK.
  destruct (prealloc_rel p a k cnt kb R Hkb Hls Hk Hcnt Hlim) as (p' & E & R').
  destruct (HK p' R') as (q & Eq & Hq). exists q. rewrite E. done.
Qed.

Lemma in_MEM_CAP k : bool_decide (k ∈ MEM_CAP) = true -> k ∈ MEM_CAP.
Proof. apply bool_decide_eq_true. Qed.

(** One class of the constructor. *)
Ltac prealloc_class :=
  let p := fresh "p" in let R := fresh "R" in
  match goal with R0 : pool_rel _ _ |- _ =>
    apply (prealloc_bind _ _ _ _ _ _ _ R0);
      [reflexivity|reflexivity|apply in_MEM_CAP; reflexivity|lia|reflexivity|
       clear R0; intros p R]
  end.

Lemma BufPool_new_rel :
  exists p, BufPool_new = Ret p /\ pool_rel p APool_new /\ ready APool_new.
Proof.
  unfold BufPool_new, APool_new. pose proof BufPool_empty_rel as R0.
  do 6 prealloc_class.
  match goal with R : pool_rel _ _ |- _ =>
    destruct (prealloc_rel _ _ m8M 10 8192 R) as (p' & E & R');
      [reflexivity|reflexivity|apply in_MEM_CAP; reflexivity|lia|reflexivity|]
  end.
  exists p'. split; [exact E|]. split; [exact R'|]. clear.
  intros k. unfold MEM_CAP. rewrite !elem_of_cons, elem_of_nil.
  intros Hk. destruct_or!; subst; [..|done]; eexists; reflexivity.
Qed.

(** The constructed pool is large: no tactic should evaluate it by accident. *)
#[global] Opaque APool_new BufPool_new.

(** ** The pool is a buffer allocator *)

#[global] Instance BufPool_alloc : BufAlloc BufPool := {
  ba_alloc := alloc_buf;
  ba_revert := revert;
  ba_deref := deref;
  ba_store := store;
  ba_max := m8M
}.

(** [o] is exactly the set of buffers in use, with their contents. *)
Definition pool_view (p : BufPool) (o : gmap loc IOBuf) : Prop :=
  exists a, pool_rel p a /\ ready a /\ dom o = dom (a_owned a) /\
    forall l b, o !! l = Some b -> heap p !! l = Some b.

Lemma ready_alloc a N o a' : ready a -> a_alloc N a = Ret (o, a') -> ready a'.
Proof.
  intros Hr. unfold a_alloc. repeat case_match; intros [= <- <-]; try done.
  intros k Hk. cbn. rewrite lookup_insert. case_decide; eauto.
Qed.

Lemma ready_revert a l k : ready a -> ready (a_revert l k a).
Proof. intros Hr k' Hk'. cbn. rewrite lookup_insert. case_decide; eauto. Qed.

Lemma a_alloc_owned a N l a' :
  a_alloc N a = Ret (Some l, a') -> exists k, a_owned a' = <[l := k]> (a_owned a).
Proof.
  unfold a_alloc. repeat case_match; intros [=]; subst; eauto.
Qed.

Lemma pool_view_owned p (o : gmap loc IOBuf) a l b :
  pool_rel p a -> dom o = dom (a_owned a) ->
  (forall l b, o !! l = Some b -> heap p !! l = Some b) ->
  o !! l = Some b -> a_owned a !! l = Some (io_capacity b).
Proof.
  intros R Hd Hh Hl. assert (Hin : l ∈ dom o) by (apply elem_of_dom; eauto).
  rewrite Hd in Hin. apply elem_of_dom in Hin as [k Hk].
  pose proof (shape_owned R _ _ Hk) as (b' & Hb' & <- & _).
  specialize (Hh _ _ Hl). congruence.
Qed.

Lemma pool_view_alloc p o N :
  pool_view p o ->
  exits_or (alloc_buf N p) (fun '(r, p') =>
    match r with
    | None => m8M < N /\ p' = p
    | Some l => N <= m8M /\ o !! l = None /\ exists b,
        pool_view p' (<[l := b]> o) /\ holds b [] /\ io_head b = 0 /\
        N <= io_capacity b <= m8M
    end).
Proof.
  intros (a & R & Hr & Hd & Hh).
  pose proof (alloc_buf_rel p a N R) as Hrel.
  destruct (a_alloc N a) as [[r a']|f] eqn:Ea.
  2: { rewrite Hrel. unfold a_alloc in Ea. repeat case_match; simplify_eq. done. }
  destruct Hrel as (p' & E & R'). rewrite E. cbn.
  destruct (alloc_buf_frame _ _ _ _ _ R E) as [Hfr Hc].
  destruct r as [l|]; [|tauto].
  destruct Hc as (Hno & b & k & Hb & (Hk & Hlen & Hhd) & Hi & _).
  pose proof (buf_index_spec _ _ Hi) as (HN & Hin & _).
  pose proof (MEM_CAP_range _ Hin) as Hrg. unfold m8M. split; [lia|].
  assert (Hol : o !! l = None).
  { apply not_elem_of_dom. rewrite Hd. by apply not_elem_of_dom. }
  split; [done|]. exists b.
  destruct (a_alloc_owned _ _ _ _ Ea) as (k' & Ho').
  split; [exists a'; split; [done|split; [by eapply ready_alloc|split]]|].
  - by rewrite Ho', !dom_insert_L, Hd.
  - intros x bx. rewrite lookup_insert. case_decide; [by intros [= <-]; subst|].
    intros Hx. rewrite Hfr; [eauto|]. eexists. by eapply pool_view_owned.
  - split; [|lia]. destruct b as [bn bc bl bh bd]. cbn in *. subst.
    repeat split; cbn; lia.
Qed.

Lemma pool_view_revert p o l b :
  pool_view p o -> o !! l = Some b ->
  safe (revert l p) (fun p' => pool_view p' (delete l o)).
Proof.
  intros (a & R & Hr & Hd & Hh) Hl.
  pose proof (pool_view_owned _ _ _ _ _ R Hd Hh Hl) as Ho.
  destruct (revert_rel p a l _ R Hr Ho) as (p' & E & R'). rewrite E. cbn.
  exists (a_revert l (io_capacity b) a). split; [done|].
  split; [by apply ready_revert|]. split; [cbn; by rewrite !dom_delete_L, Hd|].
  intros x bx. rewrite lookup_delete. case_decide; [done|]. intros Hx.
  rewrite (revert_frame _ _ _ _ E); [eauto|congruence].
Qed.

Lemma pool_view_store p o l b b' :
  pool_view p o -> o !! l = Some b -> io_capacity b' = io_capacity b ->
  pool_view (store l b' p) (<[l := b']> o).
Proof.
  intros (a & R & Hr & Hd & Hh) Hl Hc.
  pose proof (pool_view_owned _ _ _ _ _ R Hd Hh Hl) as Ho.
  exists a. split; [by eapply store_rel|]. split; [done|]. split.
  - rewrite dom_insert_L, <- Hd. apply subseteq_union_1_L.
    apply singleton_subseteq_l, elem_of_dom. eauto.
  - intros x bx. cbn. rewrite !lookup_insert. case_decide; eauto.
Qed.

#[global] Instance BufPool_laws : BufAllocLaws BufPool.
Proof.
  refine {| ba_view := pool_view |}.
  - done.
  - intros p o l b (a & _ & _ & _ & Hh) Hl. cbn. unfold deref. by rewrite (Hh _ _ Hl).
  - apply pool_view_store.
  - intros p o N. apply pool_view_alloc.
  - intros p o l b. apply pool_view_revert.
  - intros p o l b (a & R & _ & _ & Hh) Hl. cbn.
    pose proof (MEM_CAP_range _ (r_class _ _ R _ _ (Hh _ _ Hl))). unfold m8M. lia.
Defined.

Lemma BufPool_new_view p : BufPool_new = Ret p -> pool_view p ∅.
Proof.
  destruct BufPool_new_rel as (p' & -> & R & Hr). intros [= <-].
  exists APool_new. split; [exact R|]. split; [exact Hr|].
  rewrite APool_new_owned. done.
Qed.

(** ** Properties of the pool *)

(** What the users of the pool do, in any order: allocate, change a buffer they
    hold (its capacity kept), give one back.  [o] is the set of buffers held. *)
Inductive user_step : BufPool * gset loc -> BufPool * gset loc -> Prop :=
  | user_alloc p o N l p' :
      alloc_buf N p = Ret (Some l, p') -> user_step (p, o) (p', {[l]} ∪ o)
  | user_write p o l b b' :
      l ∈ o -> heap p !! l = Some b -> io_capacity b' = io_capacity b ->
      user_step (p, o) (store l b' p, o)
  | user_revert p o l p' :
      l ∈ o -> revert l p = Ret p' -> user_step (p, o) (p', o ∖ {[l]}).

Definition user_inv (s : BufPool * gset loc) : Prop :=
  exists a, pool_rel s.1 a /\ ready a /\ s.2 = dom (a_owned a).

Lemma user_step_inv s s' : user_inv s -> user_step s s' -> user_inv s'.
Proof.
  intros (a & R & Hr & Ho) Hs. destruct Hs as [p o N l p' E|p o l b b' Hin Hb Hc|p o l p' Hin E];
    cbn in R, Ho; subst o.
  - pose proof (alloc_buf_rel p a N R) as Hrel.
    destruct (a_alloc N a) as [[r a']|f] eqn:Ea; [|congruence].
    destruct Hrel as (p'' & E' & R'). rewrite E in E'. injection E' as <- <-.
    exists a'. split; [done|]. split; [by eapply ready_alloc|]. cbn.
    destruct (a_alloc_owned _ _ _ _ Ea) as (k & ->). by rewrite dom_insert_L.
  - apply elem_of_dom in Hin as [k Hk].
    pose proof (shape_owned R _ _ Hk) as (b0 & Hb0 & Hk0 & _).
    exists a. split; [|done]. eapply store_rel; [done|done|congruence].
  - apply elem_of_dom in Hin as [k Hk].
    destruct (revert_rel p a l k R Hr Hk) as (p'' & E' & R').
    rewrite E in E'. injection E' as <-. exists (a_revert l k a).
    split; [done|]. split; [by apply ready_revert|]. cbn. by rewrite dom_delete_L.
Qed.

Lemma user_reachable_inv p0 p o :
  BufPool_new = Ret p0 -> rtc user_step (p0, ∅) (p, o) -> user_inv (p, o).
Proof.
  intros E Hr. destruct BufPool_new_rel as (p0' & E' & R & Hrd).
  rewrite E in E'. injection E' as <-.
  assert (Hi : user_inv (p0, ∅)).
  { exists APool_new. split; [exact R|]. split; [exact Hrd|].
    cbn [snd]. by rewrite APool_new_owned, dom_empty_L. }
  revert Hr Hi. generalize (p0, ∅ : gset loc) (p, o). induction 1; eauto using user_step_inv.
Qed.

(** *** Fixtures of the witnesses *)

(** A pool with one buffer per class, the 16 KB one in use. *)
Definition small_res : res (option loc * BufPool) :=
  p ← prealloc m4K 1 4 BufPool_empty;
  p ← prealloc m16K 1 16 p;
  p ← prealloc m64K 1 64 p;
  p ← prealloc m256K 1 256 p;
  p ← prealloc m1M 1 1024 p;
  p ← prealloc m4M 1 4096 p;
  p ← prealloc m8M 1 8192 p;
  alloc_buf m16K p.

Definition small_pool : BufPool :=
  Eval vm_compute in match small_res with Ret (_, p) => p | Fault _ => BufPool_empty end.

Definition small_apool : APool :=
  Eval vm_compute in
  match a_alloc m16K (a_prealloc m8M 1 (a_prealloc m4M 1 (a_prealloc m1M 1
    (a_prealloc m256K 1 (a_prealloc m64K 1 (a_prealloc m16K 1
    (a_prealloc m4K 1 APool_empty))))))) with
  | Ret (_, a) => a
  | Fault _ => APool_empty
  end.

Lemma small_pool_rel : pool_rel small_pool small_apool.
Proof.
  assert (exists p, small_res = Ret (Some 2, p) /\ pool_rel p small_apool) as (p & E & R).
  2: { assert (E' : small_res = Ret (Some 2, small_pool)) by (vm_compute; reflexivity).
       rewrite E in E'. injection E' as <-. exact R. }
  destruct (prealloc_bind BufPool_empty APool_empty m4K 1 4 (fun p =>
    p ← prealloc m16K 1 16 p;
    p ← prealloc m64K 1 64 p;
    p ← prealloc m256K 1 256 p;
    p ← prealloc m1M 1 1024 p;
    p ← prealloc m4M 1 4096 p;
    prealloc m8M 1 8192 p) (fun p => exists a, pool_rel p a /\
      a_alloc m16K a = Ret (Some 2, small_apool)))
    as (p & E & a & R & Ea);
    [exact BufPool_empty_rel|reflexivity|reflexivity|apply in_MEM_CAP; reflexivity|lia|
     reflexivity| |].
  { intros p R. do 5 prealloc_class.
    match goal with R : pool_rel _ _ |- _ =>
      destruct (prealloc_rel _ _ m8M 1 8192 R) as (p' & E & R');
        [reflexivity|reflexivity|apply in_MEM_CAP; reflexivity|lia|reflexivity|]
    end.
    exists p'. split; [exact E|]. eexists. split; [exact R'|]. vm_compute. reflexivity. }
  pose proof (alloc_buf_rel _ _ m16K R) as H. rewrite Ea in H.
  destruct H as (q & Eq & Rq). exists q. split; [|exact Rq].
  rewrite <- Eq. revert E. unfold small_res. clear.
  intros E. repeat (rewrite ?res_bind_Ret in E; destruct E as (? & E1 & E);
    rewrite E1; cbn [mbind res_bind]; clear E1). by rewrite E.
Qed.

Lemma small_pool_ready : ready small_apool.
Proof.
  intros k. unfold MEM_CAP. rewrite !elem_of_cons, elem_of_nil.
  intros Hk. destruct_or!; subst; [..|done]; vm_compute; eauto.
Qed.

(** The constructed pool, and the one after a first allocation. *)
Definition init_pool : BufPool :=
  match BufPool_new with Ret p => p | Fault _ => BufPool_empty end.
Definition init_pool1 : BufPool :=
  match alloc_buf 100 init_pool with Ret (_, p) => p | Fault _ => BufPool_empty end.

Lemma init_pool_eq : BufPool_new = Ret init_pool.
Proof. unfold init_pool. destruct BufPool_new_rel as (p & -> & _). reflexivity. Qed.

Lemma alloc_answer (m : res (option loc * BufPool)) l :
  match m with Ret (Some l', _) => bool_decide (l' = l) | _ => false end = true ->
  m = Ret (Some l, match m with Ret (_, p) => p | Fault _ => BufPool_empty end).
Proof. destruct m as [[[l'|] p]|]; [|done..]. by intros ->%bool_decide_eq_true. Qed.

Lemma init_pool1_eq : alloc_buf 100 init_pool = Ret (Some 1, init_pool1).
Proof. apply (alloc_answer _ 1). vm_compute. reflexivity. Qed.

#[global] Opaque init_pool init_pool1.

(** C15. The pool implements its specification by free lists: for a pool whose
    heap represents the abstract pool [a], [alloc_buf N] answers what the list
    operation answers (the head of the list of the smallest class that fits, a
    fresh buffer when the list is empty, [NULL] above 8 MB, [exit] at the memory
    limit) and the resulting heap represents the resulting lists; [revert] of a
    buffer in use never trips its [assert] and pushes it in front of its list. *)
Theorem pool_refines_lists p a N l k :
  pool_rel p a -> ready a -> a_owned a !! l = Some k ->
  match a_alloc N a with
  | Ret (o, a') => exists p', alloc_buf N p = Ret (o, p') /\ pool_rel p' a'
  | Fault f => alloc_buf N p = Fault f
  end /\
  exists p', revert l p = Ret p' /\ pool_rel p' (a_revert l k a).
Proof. intros R Hr Ho. split; [by apply alloc_buf_rel|by apply revert_rel]. Qed.

Lemma pool_refines_lists_witness :
  exists p1, pool_rel small_pool small_apool /\
    alloc_buf 5000 small_pool = Ret (Some 8, p1) /\
    exists p2, revert 2 small_pool = Ret p2 /\
      pool_rel p2 (a_revert 2 m16K small_apool).
Proof.
  destruct (pool_refines_lists small_pool small_apool 5000 2 m16K
              small_pool_rel small_pool_ready eq_refl) as [H1 H2].
  cbn in H1. destruct H1 as (p1 & E & _).
  exists p1. split; [exact small_pool_rel|]. split; [exact E|exact H2].
Defined.

(** C16. In every state the users of the pool can reach from the constructor's,
    whatever the order of their calls: an allocation never hands out a buffer
    somebody holds, and what it hands out is empty and large enough; a held
    buffer can always be given back; a buffer is either held or on exactly the
    free list of its capacity (none is lost); [_total_mem] is exactly what the
    buffers occupy and stays below the limit. *)
Theorem pool_invariant p0 p o :
  BufPool_new = Ret p0 -> rtc user_step (p0, ∅) (p, o) ->
  (forall N l p', alloc_buf N p = Ret (Some l, p') ->
     ~ (l ∈ o) /\ exists b, heap p' !! l = Some b /\ N <= io_capacity b /\
       io_length b = 0 /\ io_head b = 0) /\
  (forall l, l ∈ o -> exists p', revert l p = Ret p') /\
  (forall l b, heap p !! l = Some b ->
     (l ∈ o <-> ~ (exists k ls, chain (heap p) k (pool_get k p) ls /\ l ∈ ls))) /\
  total_mem p = heap_kb (heap p) /\ total_mem p < EXTRA_MEM_LIMIT.
Proof.
  intros E Hr. destruct (user_reachable_inv _ _ _ E Hr) as (a & R & Hrd & Ho).
  clear E Hr. cbn in R, Ho. subst o. repeat split.
  - intros Hin. apply elem_of_dom in Hin.
    destruct (alloc_buf_frame _ _ _ _ _ R H) as (_ & Hn & _).
    destruct Hin. congruence.
  - destruct (alloc_buf_frame _ _ _ _ _ R H) as (_ & _ & b & k & Hb & (Hk & Hl & Hh) & Hi & _).
    apply buf_index_spec in Hi as [Hi _]. rewrite <- Hk in Hi. eauto.
  - intros l [k Hk]%elem_of_dom. destruct (revert_rel p a l k R Hrd Hk) as (p' & ? & _). eauto.
  - intros [k Hk]%elem_of_dom (k' & ls & Hc & Hin).
    apply (shape_owned R) in Hk as (_ & _ & _ & Hn). apply (Hn k').
    by rewrite (chain_det _ _ _ _ _ _ (r_chain _ _ R k') Hc).
  - intros Hn. apply elem_of_dom.
    destruct (decide (l ∈ a_list (io_capacity b) a)) as [Hin|Hin].
    + destruct Hn. eexists _, _. split; [apply (r_chain _ _ R)|exact Hin].
    + exists (io_capacity b). apply (r_owned _ _ R). eauto.
  - rewrite (r_kb _ _ R). apply R.
  - rewrite (r_kb _ _ R). apply R.
Qed.

Lemma pool_invariant_witness :
  BufPool_new = Ret init_pool /\
  rtc user_step (init_pool, ∅) (init_pool1, {[1]} ∪ ∅) /\
  exists p', revert 1 init_pool1 = Ret p'.
Proof.
  assert (Hr : rtc user_step (init_pool, ∅) (init_pool1, {[1]} ∪ ∅))
    by exact (rtc_once (R := user_step) (init_pool, ∅) (init_pool1, {[1]} ∪ ∅)
                (user_alloc init_pool ∅ 100 1 init_pool1 init_pool1_eq)).
  split; [exact init_pool_eq|]. split; [exact Hr|].
  apply (pool_invariant _ _ _ init_pool_eq Hr). set_solver.
Defined.
