(* ===== verification/ReactorBuf.v ===== *)
(** * ReactorBuf: input and output buffers (reactor/include/reactor_buf.h,
    reactor/src/reactor_buf.cpp)

    [_buf] is a pointer to a pool buffer or [NULL].  The operations work on any
    buffer allocator ([BufAlloc]).  System calls are scripted: an operation
    that reads or writes a descriptor takes the answers the kernel will give,
    in order, and returns the unused ones; [Blocked] is a call without answer. *)

From S2P Require Import Prelude CInt Mem IOBuf BufAlloc.
From Stdlib Require Import Strings.Byte.
Local Open Scope Z_scope.

(** ** Answers of the kernel *)

Inductive errno : Type := EINTR | EAGAIN | EMFILE | EINPROGRESS | EOTHER.

#[global] Instance errno_eq_dec : EqDecision errno.
Proof. solve_decision. Defined.

(** [read(2)]: the bytes delivered (none at end of file), or an error. *)
Inductive rd_ans : Type := RdData (bs : list byte) | RdErr (e : errno).

(** [write(2)]: the number of bytes taken, or an error. *)
Inductive wr_ans : Type := WrOk (n : Z) | WrErr (e : errno).

(** [do ret = read(..) while (ret == -1 && errno == EINTR)] *)
Fixpoint read_retry (rs : list rd_ans) : res (rd_ans * list rd_ans) :=
  match rs with
  | [] => Fault Blocked
  | RdErr EINTR :: rs' => read_retry rs'
  | r :: rs' => Ret (r, rs')
  end.

(** [do ret = write(..) while (ret == -1 && errno == EINTR)] *)
Fixpoint write_retry (ws : list wr_ans) : res (wr_ans * list wr_ans) :=
  match ws with
  | [] => Fault Blocked
  | WrErr EINTR :: ws' => write_retry ws'
  | w :: ws' => Ret (w, ws')
  end.

Section ReactorBuf.
Context {P : Type} `{BufAlloc P}.

(** [_buf] *)
Implicit Types (rb : option loc) (p : P).

(** ** ReactorBuf *)

Definition rb_length rb p : res Z :=
  match rb with
  | None => Ret 0
  | Some l => b ← ba_deref p l; Ret (io_length b)
  end.

Definition rb_pop (len : Z) rb p : res (option loc * P) :=
  match rb with
  | None => Fault AssertFail
  | Some l =>
      b ← ba_deref p l;
      c_assert (len <=? io_length b);;
      let b := pop len b in
      let p := ba_store l b p in
      if io_length b =? 0 then p ← ba_revert l p; Ret (None, p)
      else Ret (Some l, p)
  end.

Definition rb_clear rb p : res (option loc * P) :=
  match rb with
  | None => Ret (None, p)
  | Some l => p ← ba_revert l p; Ret (None, p)
  end.

(** The first half of [read_data] and of [send_data]: a buffer with room for
    [need] more bytes, the old contents moved.  [None] is the [return -1]. *)
Definition reserve (need : Z) rb p : res (option loc * P) :=
  match rb with
  | None => ba_alloc need p
  | Some l =>
      b ← ba_deref p l;
      c_assert (io_head b =? 0);;
      if io_capacity b - io_length b <? need then
        n ← int_add need (io_length b);
        '(o, p) ← ba_alloc n p;
        match o with
        | None => Ret (None, p)
        | Some new_buf =>
            nb ← ba_deref p new_buf;
            b ← ba_deref p l;
            nb ← copy nb b;
            p ← ba_revert l (ba_store new_buf nb p);
            Ret (Some new_buf, p)
        end
      else Ret (Some l, p)
  end.

(** Append bytes behind the contents of the buffer [l]. *)
Definition append_at (l : loc) (bs : list byte) p : res P :=
  b ← ba_deref p l;
  b ← append bs b;
  Ret (ba_store l b p).

(** ** InputBuf *)

(** [read_data(fd)]; [ioctl] is the answer to [FIONREAD], [None] for -1.
    Returns the return value, [_buf], the pool and the unused answers. *)
Definition read_data (ioctl : option Z) (rs : list rd_ans) rb p
    : res (Z * option loc * P * list rd_ans) :=
  match ioctl with
  | None => Ret (-1, rb, p, rs)
  | Some need_read =>
      '(o, p) ← reserve need_read rb p;
      match o with
      | None => Ret (-1, rb, p, rs)
      | Some l =>
          '(r, rs) ← read_retry rs;
          match r with
          | RdErr _ => Ret (-1, Some l, p, rs)
          | RdData [] => Ret (0, Some l, p, rs)
          | RdData bs =>
              let already_read := Z.of_nat (length bs) in
              p ← append_at l bs p;
              (if negb (need_read =? 0) then c_assert (already_read =? need_read)
               else Ret tt);;
              Ret (already_read, Some l, p, rs)
          end
      end
  end.

(** [data()]: the bytes behind the returned pointer, [None] for [NULL]. *)
Definition ib_data rb p : res (option (list byte)) :=
  match rb with
  | None => Ret None
  | Some l =>
      b ← ba_deref p l;
      match io_bytes b with Some bs => Ret (Some bs) | None => Fault Uninit end
  end.

Definition ib_adjust rb p : res P :=
  match rb with
  | None => Ret p
  | Some l => b ← ba_deref p l; b ← adjust b; Ret (ba_store l b p)
  end.

(** ** OutputBuf *)

(** [send_data(data, datalen)]: [data] is what the pointer points to. *)
Definition send_data (data : list byte) (datalen : Z) rb p
    : res (Z * option loc * P) :=
  '(o, p) ← reserve datalen rb p;
  match o with
  | None => Ret (-1, rb, p)
  | Some l =>
      check OutOfBounds (in_array (Z.of_nat (length data)) 0 datalen);;
      p ← append_at l (take (Z.to_nat datalen) data) p;
      Ret (0, Some l, p)
  end.

(** [write2fd(fd)]: also returns the bytes the kernel took. *)
Definition write2fd (ws : list wr_ans) rb p
    : res (Z * list byte * P * list wr_ans) :=
  match rb with
  | None => Fault AssertFail
  | Some l =>
      b ← ba_deref p l;
      c_assert (io_head b =? 0);;
      '(w, ws) ← write_retry ws;
      match w with
      | WrOk n =>
          if 0 <? n then
            match mread (io_data b) 0 (Z.to_nat n) with
            | None => Fault Uninit
            | Some sent =>
                b ← adjust (pop n b);
                Ret (n, sent, ba_store l b p, ws)
            end
          else Ret (n, [], p, ws)
      | WrErr EAGAIN => Ret (0, [], p, ws)
      | WrErr _ => Ret (-1, [], p, ws)
      end
  end.
End ReactorBuf.

(** ** Ownership *)

(** [own z o rb bs rest]: among the buffers in use [o], [rb] holds the bytes
    [bs] and [rest] are the others; with [z], the bytes start at index 0. *)
Definition own (z : bool) (o : gmap loc IOBuf) (rb : option loc) (bs : list byte)
    (rest : gmap loc IOBuf) : Prop :=
  match rb with
  | None => bs = [] /\ o = rest
  | Some l => rest !! l = None /\ exists b,
      o = <[l := b]> rest /\ holds b bs /\ (z = true -> io_head b = 0)
  end.

Lemma own_weaken z o rb bs rest : own z o rb bs rest -> own false o rb bs rest.
Proof. destruct rb; [|done]. intros (? & b & ? & ? & _). split; [done|]. by exists b. Qed.

(** Two buffers may be looked at in either order. *)
Lemma own_swap z1 z2 o rb1 bs1 r rb2 bs2 rest :
  own z1 o rb1 bs1 r -> own z2 r rb2 bs2 rest ->
  exists r', own z2 o rb2 bs2 r' /\ own z1 r' rb1 bs1 rest.
Proof.
  destruct rb1 as [l1|], rb2 as [l2|]; cbn.
  - intros (Hl1 & b1 & -> & H1) (Hl2 & b2 & -> & H2).
    rewrite lookup_insert in Hl1. case_decide; [done|].
    exists (<[l1 := b1]> rest). split; [|eauto].
    split; [by rewrite lookup_insert_ne|].
    exists b2. rewrite insert_insert_ne by done. eauto.
  - intros H1 (-> & ->). exists o. eauto.
  - intros (-> & ->) H2. eauto.
  - intros (-> & ->) (-> & ->). eauto.
Qed.

(** Distinct buffers: [clear] of the one leaves the other. *)
Lemma own_empty z o bs rest : own z o None bs rest <-> bs = [] /\ o = rest.
Proof. done. Qed.

Section Laws.
Context {P : Type} `{LP : BufAllocLaws P}.
Implicit Types (rb : option loc) (p : P) (o rest : gmap loc IOBuf).

Lemma own_deref z p o l bs rest :
  ba_view p o -> own z o (Some l) bs rest ->
  exists b, ba_deref p l = Ret b /\ o = <[l := b]> rest /\ rest !! l = None /\
    holds b bs /\ (z = true -> io_head b = 0).
Proof.
  intros Hv (Hl & b & -> & Hb & Hz). exists b.
  split; [|done]. eapply ba_deref_law; [done|apply lookup_insert_eq].
Qed.

Lemma view_update p l b b' rest :
  ba_view p (<[l := b]> rest) -> io_capacity b' = io_capacity b ->
  ba_view (ba_store l b' p) (<[l := b']> rest).
Proof.
  intros Hv Hc. rewrite <- (insert_insert_eq rest l b' b).
  eapply ba_store_law; [done|apply lookup_insert_eq|done].
Qed.

Lemma view_release p l b rest :
  ba_view p (<[l := b]> rest) -> rest !! l = None ->
  safe (ba_revert l p) (fun p' => ba_view p' rest).
Proof.
  intros Hv Hl. eapply safe_mono.
  - eapply ba_revert_law; [done|apply lookup_insert_eq].
  - intros p' Hp. by rewrite delete_insert_id in Hp.
Qed.

Lemma view_cap p l b rest : ba_view p (<[l := b]> rest) -> io_capacity b <= ba_max.
Proof. intros Hv. eapply ba_cap_law; [done|apply lookup_insert_eq]. Qed.

(** *** Length, pop, clear *)

Lemma rb_length_ok z p o rb bs rest :
  ba_view p o -> own z o rb bs rest -> rb_length rb p = Ret (Z.of_nat (length bs)).
Proof.
  intros Hv Ho. destruct rb as [l|]; [|by destruct Ho as [-> _]].
  destruct (own_deref _ _ _ _ _ _ Hv Ho) as (b & E & _ & _ & Hb & _).
  unfold rb_length. rewrite E. cbn. by rewrite (holds_length _ _ Hb).
Qed.

(** [pop] drops from the front; the emptied buffer goes back to the pool. *)
Lemma rb_pop_ok z p o l bs rest k :
  ba_view p o -> own z o (Some l) bs rest -> (k <= length bs)%nat ->
  safe (rb_pop (Z.of_nat k) (Some l) p) (fun '(rb', p') => exists o',
    ba_view p' o' /\ own false o' rb' (drop k bs) rest /\
    (rb' = if bool_decide (k = length bs) then None else Some l)).
Proof.
  intros Hv Ho Hk. destruct (own_deref _ _ _ _ _ _ Hv Ho) as (b & E & -> & Hl & Hb & _).
  unfold rb_pop. rewrite E. cbn [mbind res_bind].
  pose proof (holds_length _ _ Hb) as Hlen.
  rewrite (proj2 (Z.leb_le _ _)) by lia. cbn [c_assert mbind res_bind].
  pose proof (pop_holds _ _ _ Hb Hk) as Hp.
  pose proof (view_update p l b (pop (Z.of_nat k) b) rest Hv eq_refl) as Hv'.
  change (io_length (pop (Z.of_nat k) b)) with (io_length b - Z.of_nat k).
  destruct (Z.eqb_spec (io_length b - Z.of_nat k) 0) as [Hz|Hz].
  - eapply safe_bind; [by apply (view_release _ _ _ _ Hv')|].
    intros p' Hp'. cbn. exists rest. split; [done|].
    rewrite bool_decide_eq_true_2 by lia. split; [|done].
    split; [|done]. apply drop_ge. lia.
  - cbn. eexists. split; [exact Hv'|]. rewrite bool_decide_eq_false_2 by lia.
    split; [|done]. split; [done|]. eexists. split; [done|]. by split.
Qed.

Lemma rb_clear_ok z p o rb bs rest :
  ba_view p o -> own z o rb bs rest ->
  safe (rb_clear rb p) (fun '(rb', p') => rb' = None /\ ba_view p' rest).
Proof.
  intros Hv Ho. destruct rb as [l|]; cbn; [|by destruct Ho as [_ ->]].
  destruct Ho as (Hl & b & -> & _).
  eapply safe_bind; [by apply (view_release _ _ _ _ Hv)|]. done.
Qed.

(** *** Room for more *)

Lemma append_at_ok p l b rest xs ys :
  ba_view p (<[l := b]> rest) -> holds b xs -> io_head b = 0 ->
  Z.of_nat (length xs + length ys) <= io_capacity b ->
  safe (append_at l ys p) (fun p' => exists b', ba_view p' (<[l := b']> rest) /\
    holds b' (xs ++ ys) /\ io_head b' = 0 /\ io_capacity b' = io_capacity b).
Proof.
  intros Hv Hb Hh Hc. unfold append_at.
  rewrite (ba_deref_law _ _ l b Hv) by apply lookup_insert_eq. cbn [mbind res_bind].
  eapply safe_bind; [by apply (append_holds _ _ _ Hb Hh)|].
  intros b' (Hb' & Hh' & Hc' & _). cbn. exists b'.
  split; [|done]. by eapply view_update.
Qed.

Lemma reserve_ok p o rb bs rest need :
  ba_view p o -> own true o rb bs rest -> 0 <= need <= 2 ^ 30 ->
  exits_or (reserve need rb p) (fun '(r, p') =>
    match r with
    | None => ba_max < need + Z.of_nat (length bs) /\ p' = p
    | Some l => rest !! l = None /\ exists b, ba_view p' (<[l := b]> rest) /\
        holds b bs /\ io_head b = 0 /\
        need + Z.of_nat (length bs) <= io_capacity b <= ba_max
    end).
Proof.
  intros Hv Ho Hn. pose proof ba_max_ok as Hmax. destruct rb as [l|]; cbn [reserve].
  2: { destruct Ho as [-> ->]. eapply exits_or_mono; [by apply ba_alloc_law|].
       intros [[l|] p']; cbn; [|intros; split; [lia|tauto]].
       intros (_ & Hl & b & Hb & Hh & Hz & Hc). split; [done|]. exists b.
       repeat split; try done; try apply Hh; lia. }
  destruct (own_deref _ _ _ _ _ _ Hv Ho) as (b & E & -> & Hl & Hb & Hz).
  specialize (Hz eq_refl). pose proof (holds_length _ _ Hb) as Hlen.
  pose proof (view_cap _ _ _ _ Hv) as Hcap. destruct (proj1 Hb) as [_ _ Hwf].
  rewrite E. cbn [mbind res_bind]. rewrite (proj2 (Z.eqb_eq _ _) Hz). cbn [c_assert].
  destruct (Z.ltb_spec (io_capacity b - io_length b) need).
  2: { cbn. split; [done|]. exists b. repeat split; try done; try apply Hb; lia. }
  rewrite int_add_ok by (unfold is_i32; lia). cbn [mbind res_bind].
  eapply exits_or_bind; [by apply ba_alloc_law|].
  intros [[nl|] p1]; cbn; [|intros; split; [lia|tauto]].
  intros (Hmx & Hnl & nb & Hv1 & Hnb & Hnz & Hnc).
  assert (Hne : l <> nl) by (intros ->; rewrite lookup_insert_eq in Hnl; done).
  rewrite (ba_deref_law _ _ nl nb Hv1) by apply lookup_insert_eq. cbn [mbind res_bind].
  rewrite (ba_deref_law _ _ l b Hv1) by
    (rewrite lookup_insert_ne by done; apply lookup_insert_eq). cbn [mbind res_bind].
  eapply exits_or_bind; [apply safe_exits_or, (copy_holds _ _ _ Hb); lia|].
  intros nb' (Hb' & Hh' & Hc' & _).
  pose proof (view_update _ _ _ nb' _ Hv1 Hc') as Hv2.
  rewrite insert_insert_ne in Hv2 by done.
  rewrite lookup_insert_ne in Hnl by done.
  eapply exits_or_bind; [apply safe_exits_or, (view_release _ _ _ _ Hv2)|].
  { by rewrite lookup_insert_ne. }
  intros p2 Hv3. cbn. split; [done|]. exists nb'.
  repeat split; try done; try apply Hb'; lia.
Qed.
End Laws.

Section Functional.
Context {P : Type} `{LP : BufAllocLaws P}.
Implicit Types (rb : option loc) (p : P) (o rest : gmap loc IOBuf).

Lemma ib_data_ok z p o rb bs rest :
  ba_view p o -> own z o rb bs rest ->
  ib_data rb p = Ret (match rb with None => None | Some _ => Some bs end).
Proof.
  intros Hv Ho. destruct rb as [l|]; [|done].
  destruct (own_deref _ _ _ _ _ _ Hv Ho) as (b & E & _ & _ & [_ Hb] & _).
  unfold ib_data. rewrite E. cbn. by rewrite Hb.
Qed.

Lemma ib_adjust_ok z p o rb bs rest :
  ba_view p o -> own z o rb bs rest ->
  safe (ib_adjust rb p) (fun p' => exists o', ba_view p' o' /\ own true o' rb bs rest).
Proof.
  intros Hv Ho. destruct rb as [l|]; cbn [ib_adjust]; [|cbn; eauto].
  destruct (own_deref _ _ _ _ _ _ Hv Ho) as (b & E & -> & Hl & Hb & _).
  rewrite E. cbn [mbind res_bind].
  eapply safe_bind; [by apply (adjust_holds _ _ Hb)|].
  intros b' (Hb' & Hh & Hc & _). cbn. exists (<[l := b']> rest).
  split; [by eapply view_update|]. split; [done|]. exists b'. by split.
Qed.

(** [send_data] appends all of the data, or nothing when they would not fit
    in the largest buffer. *)
Lemma send_data_ok p o rb bs rest data :
  ba_view p o -> own true o rb bs rest -> Z.of_nat (length data) <= 2 ^ 30 ->
  exits_or (send_data data (Z.of_nat (length data)) rb p) (fun '(ret, rb', p') =>
    if Z.of_nat (length bs + length data) <=? ba_max then
      ret = 0 /\ is_Some rb' /\
      exists o', ba_view p' o' /\ own true o' rb' (bs ++ data) rest
    else ret = -1 /\ rb' = rb /\ p' = p).
Proof.
  intros Hv Ho Hd. unfold send_data.
  eapply exits_or_bind; [apply (reserve_ok _ _ _ _ _ _ Hv Ho); lia|].
  intros [[l|] p1].
  2: { intros [Hm ->]. cbn. rewrite (proj2 (Z.leb_gt _ _)) by lia. done. }
  intros (Hl & b & Hv1 & Hb & Hz & Hc).
  rewrite (proj2 (in_array_spec _ _ _)) by lia. cbn [check mbind res_bind].
  rewrite Nat2Z.id, take_ge by lia.
  eapply exits_or_bind; [apply safe_exits_or, (append_at_ok _ _ _ _ _ _ Hv1 Hb Hz); lia|].
  intros p2 (b' & Hv2 & Hb' & Hz' & _). cbn.
  rewrite (proj2 (Z.leb_le _ _)) by lia. split; [done|]. split; [eauto|].
  exists (<[l := b']> rest). split; [done|]. split; [done|]. by exists b'.
Qed.

(** [write2fd] hands the kernel a prefix of the contents and keeps the rest. *)
Lemma write2fd_ok p o l bs rest ws w ws' :
  ba_view p o -> own true o (Some l) bs rest ->
  write_retry ws = Ret (w, ws') ->
  (forall n, w = WrOk n -> n <= Z.of_nat (length bs)) ->
  safe (write2fd ws (Some l) p) (fun '(ret, sent, p', ws'') =>
    ws'' = ws' /\
    ret = match w with WrOk n => n | WrErr EAGAIN => 0 | WrErr _ => -1 end /\
    sent = match w with WrOk n => take (Z.to_nat n) bs | WrErr _ => [] end /\
    exists o', ba_view p' o' /\ own true o' (Some l) (drop (length sent) bs) rest).
Proof.
  intros Hv Ho Hw Hn. pose proof Ho as Ho'.
  destruct (own_deref _ _ _ _ _ _ Hv Ho) as (b & E & -> & Hl & Hb & Hz).
  specialize (Hz eq_refl). unfold write2fd. rewrite E. cbn [mbind res_bind].
  rewrite (proj2 (Z.eqb_eq _ _) Hz). cbn [c_assert mbind res_bind].
  rewrite Hw. cbn [mbind res_bind].
  assert (Hsame : exists o', ba_view p o' /\
    own true o' (Some l) (drop (length (@nil byte)) bs) rest) by eauto.
  destruct w as [n|e].
  2: { destruct e; cbn; eauto 6. }
  specialize (Hn n eq_refl). destruct (Z.ltb_spec 0 n).
  2: { replace (Z.to_nat n) with 0%nat by lia. cbn. eauto 6. }
  pose proof (holds_length _ _ Hb) as Hlen.
  assert (Hrd : mread (io_data b) 0 (Z.to_nat n) = Some (take (Z.to_nat n) bs)).
  { rewrite <- Hz. eapply mread_take; [apply (proj2 Hb)|lia]. }
  rewrite Hrd.
  assert (Hk : (Z.to_nat n <= length bs)%nat) by lia.
  pose proof (pop_holds _ _ _ Hb Hk) as Hp. rewrite Z2Nat.id in Hp by lia.
  eapply safe_bind; [apply (adjust_holds _ _ Hp)|].
  intros b' (Hb' & Hz' & Hc' & _). cbn. split; [done|]. split; [done|]. split; [done|].
  exists (<[l := b']> rest). split; [by eapply view_update|]. split; [done|].
  exists b'. rewrite length_take, Nat.min_l by lia. done.
Qed.

(** [read_data], branch by branch.  [need] is what [FIONREAD] reported and
    [r] the answer of the (retried) [read]. *)
Lemma read_data_ok p o rb bs rest need rs r rs' :
  ba_view p o -> own true o rb bs rest -> 0 <= need <= 2 ^ 30 ->
  read_retry rs = Ret (r, rs') ->
  (forall data, r = RdData data -> data <> [] ->
     Z.of_nat (length data) = need /\ need <> 0) ->
  exits_or (read_data (Some need) rs rb p) (fun '(ret, rb', p', rs'') =>
    if ba_max <? need + Z.of_nat (length bs)
    then ret = -1 /\ rb' = rb /\ p' = p /\ rs'' = rs
    else rs'' = rs' /\ is_Some rb' /\
      ret = match r with RdData data => Z.of_nat (length data) | RdErr _ => -1 end /\
      exists o', ba_view p' o' /\
        own true o' rb' (bs ++ match r with RdData data => data | _ => [] end) rest).
Proof.
  intros Hv Ho Hn Hr Hd. unfold read_data.
  eapply exits_or_bind; [apply (reserve_ok _ _ _ _ _ _ Hv Ho); lia|].
  intros [[l|] p1].
  2: { intros [Hm ->]. cbn. by rewrite (proj2 (Z.ltb_lt _ _)). }
  intros (Hl & b & Hv1 & Hb & Hz & Hc). rewrite Hr. cbn [mbind res_bind].
  assert (Hnot : (ba_max <? need + Z.of_nat (length bs)) = false) by (apply Z.ltb_ge; lia).
  assert (Hsame : exists o', ba_view p1 o' /\ own true o' (Some l) (bs ++ []) rest).
  { rewrite app_nil_r. exists (<[l := b]> rest). split; [done|]. split; [done|]. by exists b. }
  destruct r as [[|x data]|e]; [|clear Hsame|].
  1, 3: cbn; rewrite Hnot; eauto 6.
  destruct (Hd (x :: data) eq_refl ltac:(done)) as [Hlen Hnz].
  eapply exits_or_bind; [apply safe_exits_or, (append_at_ok _ _ _ _ _ _ Hv1 Hb Hz); lia|].
  intros p2 (b' & Hv2 & Hb' & Hz' & _).
  rewrite (proj2 (Z.eqb_neq _ _) Hnz). cbn [negb].
  rewrite (proj2 (Z.eqb_eq _ _) Hlen). cbn. rewrite Hnot.
  split; [done|]. split; [eauto|]. split; [done|].
  exists (<[l := b']> rest). split; [done|]. split; [done|]. by exists b'.
Qed.
End Functional.

(** ** Runs of an output buffer *)

(** A kernel's answer to [write(fd, data, n)], as a function of [n]: it never
    takes more than it is given (write(2)). *)
Definition kernel_ok (k : Z -> wr_ans) : Prop :=
  forall m, 0 < m -> match k m with WrOk n => n <= m | WrErr e => e <> EINTR end.

Inductive obuf_op : Type :=
  | OSend (data : list byte)       (** [send_data(data, len)] *)
  | OWrite (k : Z -> wr_ans).      (** [write2fd(fd)] when there are data *)

Definition op_ok (op : obuf_op) : Prop :=
  match op with OSend data => Z.of_nat (length data) <= 2 ^ 30 | OWrite k => kernel_ok k end.

Section Stream.
Context {P : Type} `{BufAlloc P}.

(** Run the operations in order; [acc] collects what the kernel took,
    [wanted] what [send_data] accepted. *)
Fixpoint obuf_run (ops : list obuf_op) (rb : option loc) (p : P)
    (wanted acc : list byte) : res (option loc * P * list byte * list byte) :=
  match ops with
  | [] => Ret (rb, p, wanted, acc)
  | OSend data :: ops' =>
      '(ret, rb, p) ← send_data data (Z.of_nat (length data)) rb p;
      obuf_run ops' rb p (if ret =? 0 then wanted ++ data else wanted) acc
  | OWrite k :: ops' =>
      n ← rb_length rb p;
      if n =? 0 then obuf_run ops' rb p wanted acc
      else
        '(_, sent, p, _) ← write2fd [k n] rb p;
        obuf_run ops' rb p wanted (acc ++ sent)
  end.

Context {LP : BufAllocLaws P}.

Lemma obuf_run_ok ops rb p o bs rest wanted acc :
  ba_view p o -> own true o rb bs rest -> Forall op_ok ops ->
  acc ++ bs = wanted ->
  exits_or (obuf_run ops rb p wanted acc) (fun '(rb', p', wanted', acc') =>
    exists o' bs', ba_view p' o' /\ own true o' rb' bs' rest /\
      acc' ++ bs' = wanted' /\ acc `prefix_of` acc').
Proof.
  intros Hv Ho Hops. revert rb p o bs wanted acc Hv Ho.
  induction Hops as [|op ops Hop _ IH]; intros rb p o bs wanted acc Hv Ho Hw; cbn [obuf_run].
  { cbn. eauto 8. }
  destruct op as [data|k]; cbn in Hop.
  - eapply exits_or_bind; [by apply (send_data_ok _ _ _ _ _ _ Hv Ho)|].
    intros [[ret rb1] p1]. case_match.
    + intros (-> & _ & o1 & Hv1 & Ho1). apply (IH _ _ _ _ _ _ Hv1 Ho1).
      cbn. by rewrite app_assoc, Hw.
    + intros (-> & -> & ->). by apply (IH _ _ _ _ _ _ Hv Ho).
  - rewrite (rb_length_ok _ _ _ _ _ _ Hv Ho). cbn [mbind res_bind].
    destruct (Z.eqb_spec (Z.of_nat (length bs)) 0) as [|Hne]; [by eapply IH|].
    destruct rb as [l|]; [|by destruct Ho as [-> _]].
    specialize (Hop (Z.of_nat (length bs)) ltac:(lia)).
    eapply exits_or_bind; [apply safe_exits_or, (write2fd_ok _ _ _ _ _ _ (k (Z.of_nat (length
      bs))) [] Hv Ho)|].
    + destruct (k _) as [|[]]; done.
    + intros n Hn. by rewrite Hn in Hop.
    + intros [[[ret sent] p1] ws] (_ & _ & Hs & o1 & Hv1 & Ho1).
      assert (Hsp : sent ++ drop (length sent) bs = bs).
      { destruct (k _) as [n|e]; subst sent; [|done].
        rewrite length_take, Nat.min_l by lia. apply take_drop. }
      eapply exits_or_mono; [apply (IH _ _ _ _ wanted (acc ++ sent) Hv1 Ho1)|].
      * by rewrite <- app_assoc, Hsp.
      * intros [[[rb' p'] w'] a'] (o' & bs' & ? & ? & ? & ?). exists o', bs'.
        repeat split; try done. etrans; [|done]. by eexists.
Qed.
End Stream.
