(* ===== verification/Message.v ===== *)
(** * Message heads and the message router (reactor/include/message.h)

    [MsgHead] is two [int]s copied to and from the wire by [memcpy] on a
    little-endian machine; [MsgRouter] maps a message id to the callback and
    the argument registered for it. *)

From S2P Require Import Prelude CInt.
From Stdlib Require Import Strings.Byte.
Local Open Scope Z_scope.

Record MsgHead : Type := mkHead { msgid : Z; msglen : Z }.

Definition MESSAGE_HEAD_LEN : Z := 8.
Definition MESSAGE_LENGTH_LIMIT : Z := 65535 - MESSAGE_HEAD_LEN.

(** [memcpy(dst, &head, MESSAGE_HEAD_LEN)] *)
Definition head_bytes (h : MsgHead) : list byte := le32 (msgid h) ++ le32 (msglen h).

(** [memcpy(&head, src, MESSAGE_HEAD_LEN)]; [None] when [src] is shorter. *)
Definition head_of (bs : list byte) : option MsgHead :=
  i ← de32 (take 4 bs);
  n ← de32 (take 4 (drop 4 bs));
  Some (mkHead i n).

Lemma head_bytes_length h : length (head_bytes h) = 8%nat.
Proof. done. Qed.

Lemma head_of_bytes h tl :
  is_i32 (msgid h) -> is_i32 (msglen h) -> head_of (head_bytes h ++ tl) = Some h.
Proof.
  intros Hi Hl. unfold head_of, head_bytes. cbn -[de32 le32].
  change (take 4 ((le32 (msgid h) ++ le32 (msglen h)) ++ tl)) with (le32 (msgid h)).
  change (take 4 (drop 4 ((le32 (msgid h) ++ le32 (msglen h)) ++ tl)))
    with (le32 (msglen h)).
  rewrite !de32_le32 by done. cbn. by destruct h.
Qed.

Lemma head_of_Some bs : (8 <= length bs)%nat -> exists h, head_of bs = Some h.
Proof.
  intros Hl. unfold head_of.
  destruct (de32_total (take 4 bs)) as (i & ->); [rewrite length_take; lia|].
  destruct (de32_total (take 4 (drop 4 bs))) as (n & ->);
    [rewrite length_take, length_drop; lia|]. eauto.
Qed.

Lemma head_of_i32 bs h : head_of bs = Some h -> is_i32 (msgid h) /\ is_i32 (msglen h).
Proof.
  unfold head_of. destruct (de32 (take 4 bs)) eqn:E1; cbn; [|done].
  destruct (de32 (take 4 (drop 4 bs))) eqn:E2; cbn; [|done].
  intros [= <-]. cbn. split; by eapply de32_is_i32.
Qed.

(** The bytes of a head determine it and are determined by it. *)
Lemma head_of_inv bs h : head_of bs = Some h -> take 8 bs = head_bytes h.
Proof.
  unfold head_of. destruct (de32 (take 4 bs)) as [i|] eqn:E1; cbn; [|done].
  destruct (de32 (take 4 (drop 4 bs))) as [n|] eqn:E2; cbn; [|done].
  intros [= <-]. change (take 8 bs = le32 i ++ le32 n).
  rewrite (le32_de32 _ _ E1), (le32_de32 _ _ E2). symmetry. apply (take_take_drop bs 4 4).
Qed.

(** Only the first eight bytes matter. *)
Lemma head_of_app bs tl h : head_of bs = Some h -> head_of (bs ++ tl) = Some h.
Proof.
  unfold head_of. intros E.
  assert (Hl : (8 <= length bs)%nat).
  { destruct (de32 (take 4 bs)) eqn:E1; [|done].
    destruct (de32 (take 4 (drop 4 bs))) eqn:E2; [|done].
    clear E E1. unfold de32 in E2.
    destruct bs as [|? [|? [|? [|? [|? [|? [|? [|? bs]]]]]]]]; try done. cbn. lia. }
  rewrite drop_app_le, !take_app_le by (rewrite ?length_drop; lia). done.
Qed.

(** ** The router *)

Section MsgRouter.
Context {CB ARG : Type}.

Record MsgRouter : Type := mkRouter {
  _router : gmap Z CB;
  _args : gmap Z (option ARG)
}.

Definition MsgRouter_new : MsgRouter := mkRouter ∅ ∅.

(** The return value and the router. *)
Definition register_msg_router (id : Z) (msg_cb : CB) (user_data : option ARG)
    (r : MsgRouter) : Z * MsgRouter :=
  match _router r !! id with
  | Some _ => (-1, r)
  | None => (0, mkRouter (<[id := msg_cb]> (_router r)) (<[id := user_data]> (_args r)))
  end.

(** What [call] invokes: the callback and its argument, or nothing for an
    unregistered id. *)
Definition call (id : Z) (r : MsgRouter) : option (CB * option ARG) :=
  match _router r !! id with
  | None => None
  | Some callback => Some (callback, default None (_args r !! id))
  end.

Definition register_all (rs : list (Z * CB * option ARG)) (r : MsgRouter) : MsgRouter :=
  foldl (fun r '(id, cb, a) => (register_msg_router id cb a r).2) r rs.

Lemma register_ret id cb a r :
  (register_msg_router id cb a r).1 = if bool_decide (is_Some (call id r)) then -1 else 0.
Proof.
  unfold register_msg_router, call. by destruct (_router r !! id).
Qed.

Lemma call_register id id' cb a r :
  call id' (register_msg_router id cb a r).2 =
    match call id' r with
    | Some c => Some c
    | None => if decide (id = id') then Some (cb, a) else None
    end.
Proof.
  unfold register_msg_router, call.
  destruct (_router r !! id) as [c|] eqn:E; cbn.
  - destruct (_router r !! id') eqn:E'; [done|]. case_decide; [congruence|done].
  - rewrite !lookup_insert. case_decide; [subst|]; [by rewrite E|].
    by destruct (_router r !! id').
Qed.
End MsgRouter.
Arguments MsgRouter : clear implicits.
