(* ===== verification/EventLoop.v ===== *)
(** * EventLoop: the reactor (reactor/include/event_base.h, event_loop.h,
    reactor/src/eventloop.cpp)

    The maps of one loop and its operations.  The callbacks, their arguments
    and the tasks are values of abstract types; what running one of them does
    is a parameter ([run_cb], [run_task]) that may change the whole state [W]
    of which the loop is a part.  [epoll_ctl] is the interface [Epoll]. *)

From S2P Require Import Prelude CInt.
Local Open Scope Z_scope.

Definition EPOLLIN : Z := 1.
Definition EPOLLOUT : Z := 4.
Definition EPOLLERR : Z := 8.
Definition EPOLLHUP : Z := 16.
Definition MAXEVENTS : Z := 10.

(** ** The kernel's interest list *)

Inductive ep_op : Type := CTL_ADD | CTL_MOD | CTL_DEL.

(** [epoll_ctl(epfd, op, fd, events)]: success or -1, and the new state. *)
Class Epoll (E : Type) : Type := ep_ctl : ep_op -> Z -> Z -> E -> bool * E.

(** epoll_ctl(2): [ADD] of a watched descriptor and [MOD] or [DEL] of one that
    is not watched fail; a failed call changes nothing. *)
Class EpollLaws (E : Type) `{Epoll E} : Type := {
  interest : E -> gmap Z Z;
  ep_fail op fd m e e' : ep_ctl op fd m e = (false, e') -> interest e' = interest e;
  ep_add fd m e e' : ep_ctl CTL_ADD fd m e = (true, e') ->
    interest e !! fd = None /\ interest e' = <[fd := m]> (interest e);
  ep_mod fd m e e' : ep_ctl CTL_MOD fd m e = (true, e') ->
    is_Some (interest e !! fd) /\ interest e' = <[fd := m]> (interest e);
  ep_del fd m e e' : ep_ctl CTL_DEL fd m e = (true, e') ->
    interest e' = delete fd (interest e);
  ep_del_fail fd m e e' : ep_ctl CTL_DEL fd m e = (false, e') ->
    interest e !! fd = None
}.

(** ** State *)

Section EventLoop.
Context {CB ARG TASK E : Type} `{Epoll E}.

Record IOEvent : Type := mkEvent {
  mask : Z;
  read_callback : option CB;
  write_callback : option CB;
  rcb_args : option ARG;
  wcb_args : option ARG
}.

(** [IOEvent()]; the mask is indeterminate until it is set. *)
Definition IOEvent_new : IOEvent := mkEvent 0 None None None None.

(** A [std::vector]: its elements and its capacity. *)
Record vector (A : Type) : Type := mkVector { elts : list A; vcap : nat }.
Arguments mkVector {A} _ _.
Arguments elts {A} _.
Arguments vcap {A} _.

Record EventLoop : Type := mkLoop {
  io_evs : gmap Z IOEvent;
  listen_fds : gset Z;
  ready_tasks : vector TASK;
  epfd : E
}.

Definition EventLoop_new (e : E) : EventLoop := mkLoop ∅ ∅ (mkVector [] 0) e.

(** The constructor: [epoll_create1] may fail. *)
Definition EventLoop_open (e : option E) : res EventLoop :=
  match e with Some e => Ret (EventLoop_new e) | None => Fault ExitFail end.

(** ** Registering and removing events *)

(** Steps 1 to 3 of [add_io_event]: the mask and the operation for the kernel. *)
Definition add_op (fd m : Z) (L : EventLoop) : Z * ep_op :=
  match io_evs L !! fd with
  | None => (m, CTL_ADD)
  | Some ev => (Z.lor (mask ev) m, CTL_MOD)
  end.

Definition add_io_event (fd : Z) (proc : CB) (m : Z) (args : option ARG)
    (L : EventLoop) : EventLoop :=
  let '(final_mask, op) := add_op fd m L in
  let ev := default IOEvent_new (io_evs L !! fd) in
  let ev :=
    if negb (Z.land m EPOLLIN =? 0) then
      mkEvent (mask ev) (Some proc) (write_callback ev) args (wcb_args ev)
    else if negb (Z.land m EPOLLOUT =? 0) then
      mkEvent (mask ev) (read_callback ev) (Some proc) (rcb_args ev) args
    else ev in
  let ev := mkEvent final_mask (read_callback ev) (write_callback ev)
              (rcb_args ev) (wcb_args ev) in
  let evs := <[fd := ev]> (io_evs L) in
  let '(ok, e) := ep_ctl op fd final_mask (epfd L) in
  if ok then mkLoop evs ({[fd]} ∪ listen_fds L) (ready_tasks L) e
  else mkLoop evs (listen_fds L) (ready_tasks L) e.

(** [del_io_event(fd)] *)
Definition del_io_event (fd : Z) (L : EventLoop) : EventLoop :=
  mkLoop (delete fd (io_evs L)) (listen_fds L ∖ {[fd]}) (ready_tasks L)
    (ep_ctl CTL_DEL fd 0 (epfd L)).2.

(** [del_io_event(fd, mask)] *)
Definition del_io_event_mask (fd m : Z) (L : EventLoop) : EventLoop :=
  match io_evs L !! fd with
  | None => L
  | Some ev =>
      let o_mask := Z.land (mask ev) (Z.lnot m) in
      let ev := mkEvent o_mask (read_callback ev) (write_callback ev)
                  (rcb_args ev) (wcb_args ev) in
      let L := mkLoop (<[fd := ev]> (io_evs L)) (listen_fds L) (ready_tasks L) (epfd L) in
      if o_mask =? 0 then del_io_event fd L
      else mkLoop (io_evs L) (listen_fds L) (ready_tasks L)
             (ep_ctl CTL_MOD fd o_mask (epfd L)).2
  end.

(** [get_listen_fds(fds)] *)
Definition get_listen_fds (L : EventLoop) : gset Z := listen_fds L.

(** ** Ready tasks *)

(** The growth policy of [push_back] when the vector is full. *)
Variable grow : nat -> nat.

Definition push_back {A} (x : A) (v : vector A) : vector A :=
  mkVector (elts v ++ [x])
    (if decide (length (elts v) < vcap v)%nat then vcap v else grow (vcap v)).

Definition add_task (t : TASK) (L : EventLoop) : EventLoop :=
  mkLoop (io_evs L) (listen_fds L) (push_back t (ready_tasks L)) (epfd L).

Definition clear_tasks (L : EventLoop) : EventLoop :=
  mkLoop (io_evs L) (listen_fds L) (mkVector [] (vcap (ready_tasks L))) (epfd L).

(** ** One iteration of the loop *)

(** The state the loop lives in, and what running a callback or a task does. *)
Context {W : Type} (get_loop : W -> EventLoop) (set_loop : EventLoop -> W -> W).
Variable run_cb : CB -> Z -> option ARG -> W -> res W.
Variable run_task : TASK -> W -> res W.

(** The iteration over [_ready_tasks] with an iterator at index [i]: a task
    that makes the vector reallocate invalidates it. *)
Fixpoint exec_tasks (fuel i : nat) (w : W) : res W :=
  match elts (ready_tasks (get_loop w)) !! i with
  | None => Ret w
  | Some t =>
      match fuel with
      | O => Fault Blocked
      | S fuel =>
          w' ← run_task t w;
          check IterInvalid (bool_decide (vcap (ready_tasks (get_loop w'))
                                          = vcap (ready_tasks (get_loop w))));;
          exec_tasks fuel (S i) w'
      end
  end.

(** [execute_ready_tasks()]; the capacity bounds the number of rounds. *)
Definition execute_ready_tasks (w : W) : res W :=
  w ← exec_tasks (vcap (ready_tasks (get_loop w))) 0 w;
  Ret (set_loop (clear_tasks (get_loop w)) w).

(** One fired event: [(data.fd, events)]. *)
Definition dispatch (fd events : Z) (w : W) : res W :=
  match io_evs (get_loop w) !! fd with
  | None => Fault AssertFail
  | Some ev =>
      if negb (Z.land events EPOLLIN =? 0) then
        match read_callback ev with
        | Some cb => run_cb cb fd (rcb_args ev) w
        | None => Fault NullDeref
        end
      else if negb (Z.land events EPOLLOUT =? 0) then
        match write_callback ev with
        | Some cb => run_cb cb fd (wcb_args ev) w
        | None => Fault NullDeref
        end
      else if negb (Z.land events (Z.lor EPOLLHUP EPOLLERR) =? 0) then
        match read_callback ev, write_callback ev with
        | Some cb, _ => run_cb cb fd (rcb_args ev) w
        | None, Some cb => run_cb cb fd (wcb_args ev) w
        | None, None => Ret (set_loop (del_io_event fd (get_loop w)) w)
        end
      else Ret w
  end.

Fixpoint dispatch_all (fired : list (Z * Z)) (w : W) : res W :=
  match fired with
  | [] => Ret w
  | (fd, events) :: fired' => w ← dispatch fd events w; dispatch_all fired' w
  end.

(** The body of [while (true)], for the events [epoll_wait] reports. *)
Definition event_process (fired : list (Z * Z)) (w : W) : res W :=
  w ← dispatch_all fired w;
  execute_ready_tasks w.
End EventLoop.
Arguments IOEvent : clear implicits.
Arguments EventLoop : clear implicits.
Arguments vector : clear implicits.
Arguments mkVector {A} _ _.
Arguments elts {A} _.
Arguments vcap {A} _.

(** ** Invariant of a loop *)

Definition has_in (m : Z) : bool := negb (Z.land m EPOLLIN =? 0).
Definition has_out (m : Z) : bool := negb (Z.land m EPOLLOUT =? 0).

Lemma has_in_testbit m : has_in m = Z.testbit m 0.
Proof.
  unfold has_in, EPOLLIN. change 1 with (Z.ones 1). rewrite Z.land_ones by lia.
  rewrite Z.bit0_odd, (Zmod_odd m : m mod 2 ^ 1 = _). by destruct (Z.odd m).
Qed.

Lemma land_pow2 m n : 0 <= n -> negb (Z.land m (2 ^ n) =? 0) = Z.testbit m n.
Proof.
  intros Hn. destruct (Z.testbit m n) eqn:E.
  - apply negb_true_iff, Z.eqb_neq. intros H0.
    apply (f_equal (fun z => Z.testbit z n)) in H0.
    rewrite Z.land_spec, E, Z.pow2_bits_true, Z.bits_0 in H0 by done. done.
  - apply negb_false_iff, Z.eqb_eq. apply Z.bits_inj'. intros i Hi.
    rewrite Z.land_spec, Z.bits_0. destruct (decide (i = n)) as [->|Hne]; [by rewrite E|].
    rewrite (Z.pow2_bits_false n i) by lia. apply andb_false_r.
Qed.

Lemma has_out_testbit m : has_out m = Z.testbit m 2.
Proof. unfold has_out, EPOLLOUT. change 4 with (2 ^ 2). by apply land_pow2. Qed.

Lemma has_in_lor a b : has_in (Z.lor a b) = has_in a || has_in b.
Proof. rewrite !has_in_testbit. apply Z.lor_spec. Qed.
Lemma has_out_lor a b : has_out (Z.lor a b) = has_out a || has_out b.
Proof. rewrite !has_out_testbit. apply Z.lor_spec. Qed.
Lemma has_in_land a b : has_in (Z.land a b) = has_in a && has_in b.
Proof. rewrite !has_in_testbit. apply Z.land_spec. Qed.
Lemma has_out_land a b : has_out (Z.land a b) = has_out a && has_out b.
Proof. rewrite !has_out_testbit. apply Z.land_spec. Qed.

Section Invariant.
Context {CB ARG TASK E : Type} `{EpollLaws E}.
Local Abbreviation Loop := (EventLoop CB ARG TASK E).

(** Every watched direction has its callback. *)
Definition ev_ok (ev : IOEvent CB ARG) : Prop :=
  (has_in (mask ev) = true -> is_Some (read_callback ev)) /\
  (has_out (mask ev) = true -> is_Some (write_callback ev)).

(** The loop's maps and the kernel's interest list agree. *)
Record loop_inv (L : Loop) : Prop := {
  li_fds : listen_fds L = dom (io_evs L);
  li_interest : interest (epfd L) = mask <$> io_evs L;
  li_cbs : forall fd ev, io_evs L !! fd = Some ev -> ev_ok ev
}.

Lemma loop_inv_interest L fd :
  loop_inv L -> interest (epfd L) !! fd = mask <$> io_evs L !! fd.
Proof. intros I. by rewrite (li_interest _ I), lookup_fmap. Qed.

Lemma EventLoop_new_inv e : interest e = ∅ -> loop_inv (EventLoop_new e).
Proof.
  intros He. split; cbn; [by rewrite dom_empty_L|by rewrite fmap_empty|].
  intros fd ev. by rewrite lookup_empty.
Qed.

(** A direction is added with its callback; the other keeps its own. *)
Lemma add_io_event_inv fd cb m a (L : Loop) :
  loop_inv L -> m = EPOLLIN \/ m = EPOLLOUT ->
  (ep_ctl (add_op fd m L).2 fd (add_op fd m L).1 (epfd L)).1 = true ->
  loop_inv (add_io_event fd cb m a L) /\
  exists ev, io_evs (add_io_event fd cb m a L) !! fd = Some ev /\
    mask ev = Z.lor (default 0 (mask <$> io_evs L !! fd)) m /\
    (if has_in m then read_callback ev = Some cb /\ rcb_args ev = a
     else write_callback ev = Some cb /\ wcb_args ev = a).
Proof.
  intros I Hm. unfold add_io_event. destruct (add_op fd m L) as [fm op] eqn:Eop.
  cbn [fst snd]. destruct (ep_ctl op fd fm (epfd L)) as [ok e] eqn:Ec. cbn. intros ->.
  assert (Hint : interest e = <[fd := fm]> (interest (epfd L))).
  { unfold add_op in Eop. destruct (io_evs L !! fd); injection Eop as <- <-;
      [eapply ep_mod|eapply ep_add]; exact Ec. }
  assert (Hfm : fm = Z.lor (default 0 (mask <$> io_evs L !! fd)) m).
  { unfold add_op in Eop. destruct (io_evs L !! fd); by injection Eop as <- <-. }
  assert (Hok : ev_ok (default IOEvent_new (io_evs L !! fd))).
  { destruct (io_evs L !! fd) as [ev|] eqn:Ev; [by eapply li_cbs|done]. }
  split.
  - split; cbn.
    + rewrite dom_insert_L. f_equal. apply I.
    + by rewrite Hint, fmap_insert, (li_interest _ I).
    + intros fd' ev. rewrite lookup_insert. case_decide; [|apply (li_cbs _ I)].
      intros [= <-]. unfold ev_ok. cbn. rewrite Hfm, has_in_lor, has_out_lor.
      destruct (io_evs L !! fd); destruct Hm as [-> | ->]; cbn in *;
        unfold ev_ok in Hok; rewrite ?orb_true_r, ?orb_false_r; intuition eauto.
  - cbn. rewrite lookup_insert_eq. eexists. split; [done|]. cbn.
    split; [done|]. by destruct Hm as [-> | ->].
Qed.

Lemma del_io_event_inv fd (L : Loop) : loop_inv L -> loop_inv (del_io_event fd L).
Proof.
  intros I. split; cbn.
  - rewrite dom_delete_L. f_equal. apply I.
  - destruct (ep_ctl CTL_DEL fd 0 (epfd L)) as [[] e] eqn:Ec; cbn.
    + by rewrite (ep_del _ _ _ _ Ec), fmap_delete, (li_interest _ I).
    + rewrite (ep_fail _ _ _ _ _ Ec). pose proof (ep_del_fail _ _ _ _ Ec) as Hn.
      rewrite fmap_delete, <- (li_interest _ I). by rewrite delete_id.
  - intros fd' ev. rewrite lookup_delete. case_decide; [done|apply I].
Qed.

Lemma del_io_event_mask_inv fd m (L : Loop) :
  loop_inv L ->
  (forall fm, is_Some (interest (epfd L) !! fd) ->
     (ep_ctl CTL_MOD fd fm (epfd L)).1 = true) ->
  loop_inv (del_io_event_mask fd m L).
Proof.
  intros I Hctl. unfold del_io_event_mask.
  destruct (io_evs L !! fd) as [ev|] eqn:Ev; [|done].
  set (o := Z.land (mask ev) (Z.lnot m)).
  set (ev' := mkEvent o (read_callback ev) (write_callback ev) (rcb_args ev) (wcb_args ev)).
  assert (Hev' : ev_ok ev').
  { pose proof (li_cbs _ I _ _ Ev) as [H1 H2]. unfold ev_ok, ev', o. cbn.
    rewrite has_in_land, has_out_land, !andb_true_iff. tauto. }
  assert (Hint : is_Some (interest (epfd L) !! fd)).
  { rewrite (loop_inv_interest _ _ I), Ev. by eexists. }
  case_match.
  - (* deleting forgets the intermediate mask *)
    replace (del_io_event fd (mkLoop (<[fd := ev']> (io_evs L)) (listen_fds L)
      (ready_tasks L) (epfd L))) with (del_io_event fd L); [by apply del_io_event_inv|].
    unfold del_io_event. cbn. by rewrite delete_insert_eq.
  - specialize (Hctl o Hint). cbn.
    destruct (ep_ctl CTL_MOD fd o (epfd L)) as [ok e] eqn:Ec. cbn in Hctl. subst ok. cbn.
    apply ep_mod in Ec as [_ Hi]. split; cbn.
    + rewrite dom_insert_L, (li_fds _ I). symmetry. apply subseteq_union_1_L.
      apply singleton_subseteq_l, elem_of_dom. eauto.
    + by rewrite Hi, fmap_insert, (li_interest _ I).
    + intros fd' e'. rewrite lookup_insert. case_decide; [by intros [= <-]|apply I].
Qed.

(** The event of a descriptor after a direction is added to it. *)
Lemma add_io_event_out fd cb a (L : Loop) ev :
  io_evs L !! fd = Some ev ->
  io_evs (add_io_event fd cb EPOLLOUT a L) !! fd =
    Some (mkEvent (Z.lor (mask ev) EPOLLOUT) (read_callback ev) (Some cb) (rcb_args ev) a).
Proof.
  intros Ev. unfold add_io_event, add_op. rewrite Ev. cbn [default].
  destruct (ep_ctl _ _ _ _) as [[] e]; cbn; by rewrite lookup_insert_eq.
Qed.

Lemma add_io_event_in fd cb a (L : Loop) :
  io_evs L !! fd = None ->
  io_evs (add_io_event fd cb EPOLLIN a L) !! fd =
    Some (mkEvent EPOLLIN (Some cb) None a None).
Proof.
  intros Ev. unfold add_io_event, add_op. rewrite Ev. cbn [default].
  destruct (ep_ctl _ _ _ _) as [[] e]; cbn; by rewrite lookup_insert_eq.
Qed.

Lemma add_io_event_new_out fd cb a (L : Loop) :
  io_evs L !! fd = None ->
  io_evs (add_io_event fd cb EPOLLOUT a L) !! fd =
    Some (mkEvent EPOLLOUT None (Some cb) None a).
Proof.
  intros Ev. unfold add_io_event, add_op. rewrite Ev. cbn [default].
  destruct (ep_ctl _ _ _ _) as [[] e]; cbn; by rewrite lookup_insert_eq.
Qed.

Lemma del_io_event_mask_out fd (L : Loop) ev :
  io_evs L !! fd = Some ev -> has_in (mask ev) = true ->
  io_evs (del_io_event_mask fd EPOLLOUT L) !! fd =
    Some (mkEvent (Z.land (mask ev) (Z.lnot EPOLLOUT)) (read_callback ev)
            (write_callback ev) (rcb_args ev) (wcb_args ev)).
Proof.
  intros Ev Hin. unfold del_io_event_mask. rewrite Ev.
  destruct (Z.eqb_spec (Z.land (mask ev) (Z.lnot EPOLLOUT)) 0) as [E0|_].
  - apply (f_equal has_in) in E0. rewrite has_in_land, Hin in E0. done.
  - cbn. by rewrite lookup_insert_eq.
Qed.

(** Whatever was watched before, the added direction and callback are there. *)
Lemma add_io_event_writes fd cb a (L : Loop) :
  exists ev, io_evs (add_io_event fd cb EPOLLOUT a L) !! fd = Some ev /\
    has_out (mask ev) = true /\ write_callback ev = Some cb /\ wcb_args ev = a.
Proof.
  destruct (io_evs L !! fd) as [ev|] eqn:Ev.
  - eexists. split; [by apply add_io_event_out|]. cbn. by rewrite has_out_lor, orb_true_r.
  - unfold add_io_event, add_op. rewrite Ev. cbn [default].
    destruct (ep_ctl CTL_ADD fd EPOLLOUT (epfd L)) as [[] e]; cbn; rewrite lookup_insert_eq;
      by eexists.
Qed.

(** The other descriptors keep their events. *)
Lemma add_io_event_other fd fd' cb m a (L : Loop) :
  fd <> fd' -> io_evs (add_io_event fd cb m a L) !! fd' = io_evs L !! fd'.
Proof.
  intros Hne. unfold add_io_event. destruct (add_op fd m L) as [fm op].
  destruct (ep_ctl _ _ _ _) as [[] e]; cbn; by rewrite lookup_insert_ne.
Qed.

Lemma del_io_event_mask_other fd fd' m (L : Loop) :
  fd <> fd' -> io_evs (del_io_event_mask fd m L) !! fd' = io_evs L !! fd'.
Proof.
  intros Hne. unfold del_io_event_mask. destruct (io_evs L !! fd); [|done].
  destruct (_ =? 0); cbn; by rewrite ?lookup_delete_ne, lookup_insert_ne.
Qed.

Lemma add_io_event_tasks fd cb m a (L : Loop) :
  ready_tasks (add_io_event fd cb m a L) = ready_tasks L.
Proof.
  unfold add_io_event. destruct (add_op fd m L) as [fm op].
  by destruct (ep_ctl _ _ _ _) as [[] e].
Qed.

Lemma del_io_event_mask_tasks fd m (L : Loop) :
  ready_tasks (del_io_event_mask fd m L) = ready_tasks L.
Proof.
  unfold del_io_event_mask. destruct (io_evs L !! fd); [|done]. by destruct (_ =? 0).
Qed.

Lemma del_io_event_lookup fd fd' (L : Loop) :
  io_evs (del_io_event fd L) !! fd' = if decide (fd = fd') then None else io_evs L !! fd'.
Proof. cbn. apply lookup_delete. Qed.
End Invariant.

(** ** A kernel for the witnesses: a table without resource limits *)

Module TableKernel.
Definition ctl (op : ep_op) (fd m : Z) (e : gmap Z Z) : bool * gmap Z Z :=
  match op, e !! fd with
  | CTL_ADD, None => (true, <[fd := m]> e)
  | CTL_MOD, Some _ => (true, <[fd := m]> e)
  | CTL_DEL, Some _ => (true, delete fd e)
  | _, _ => (false, e)
  end.

#[global] Instance table_epoll : Epoll (gmap Z Z) := ctl.

#[global] Instance table_laws : EpollLaws (gmap Z Z).
Proof.
  refine {| interest := fun e => e |}; unfold ep_ctl, table_epoll, ctl; cbn.
  - intros op fd m e e'. destruct op, (e !! fd); by intros [=].
  - intros fd m e e'. destruct (e !! fd); [done|]. by intros [= <-].
  - intros fd m e e'. destruct (e !! fd); [|done]. intros [= <-]. eauto.
  - intros fd m e e'. destruct (e !! fd); [|done]. by intros [= <-].
  - intros fd m e e'. by destruct (e !! fd).
Defined.
End TableKernel.

(** ** Properties of the loop *)

(** The registration calls of the program's components. *)
Inductive reg_op (CB ARG : Type) : Type :=
  | RAdd (fd : Z) (cb : CB) (out : bool) (args : option ARG)
      (** [add_io_event] for [EPOLLIN], or for [EPOLLOUT] if [out] *)
  | RDel (fd : Z)
  | RDelMask (fd : Z) (out : bool).
Arguments RAdd {CB ARG} _ _ _ _.
Arguments RDel {CB ARG} _.
Arguments RDelMask {CB ARG} _ _.

Section Properties.
Context {CB ARG TASK E : Type} `{EpollLaws E}.

Definition dir_mask (out : bool) : Z := if out then EPOLLOUT else EPOLLIN.

Definition reg_run (op : reg_op CB ARG) (L : EventLoop CB ARG TASK E)
    : EventLoop CB ARG TASK E :=
  match op with
  | RAdd fd cb out args => add_io_event fd cb (dir_mask out) args L
  | RDel fd => del_io_event fd L
  | RDelMask fd out => del_io_event_mask fd (dir_mask out) L
  end.

(** The kernel accepts the additions and modifications that are in order. *)
Definition kernel_accepts : Prop := forall fd m e,
  (interest e !! fd = None -> (ep_ctl CTL_ADD fd m e).1 = true) /\
  (is_Some (interest e !! fd) -> (ep_ctl CTL_MOD fd m e).1 = true).

Lemma reg_run_inv op L : kernel_accepts -> loop_inv L -> loop_inv (reg_run op L).
Proof.
  intros K I. destruct op as [fd cb out args|fd|fd out]; cbn.
  - apply add_io_event_inv; [done|by destruct out; [right|left]|].
    unfold add_op. pose proof (loop_inv_interest _ fd I) as Hi.
    destruct (io_evs L !! fd); cbn in *; apply K; [|done]. rewrite Hi. eauto.
  - by apply del_io_event_inv.
  - apply del_io_event_mask_inv; [done|]. intros fm. apply K.
Qed.

(** C26. After any sequence of registrations and removals on a fresh loop, with
    a kernel that does not run out of resources, the fds the loop says it
    listens to, its event map and the kernel's interest list (masks included)
    are the same set, and whenever a direction is watched its callback is
    registered. *)
Theorem registration_invariant e ops :
  kernel_accepts -> interest e = ∅ ->
  let L := foldl (fun L op => reg_run op L) (EventLoop_new e) ops in
  get_listen_fds L = dom (io_evs L) /\
  interest (epfd L) = mask <$> io_evs L /\
  forall fd ev, io_evs L !! fd = Some ev -> ev_ok ev.
Proof.
  intros K He L.
  assert (I : loop_inv L).
  { subst L. pose proof (EventLoop_new_inv (CB := CB) (ARG := ARG) (TASK := TASK) e He) as I.
    revert I. generalize (EventLoop_new (CB := CB) (ARG := ARG) (TASK := TASK) e).
    induction ops as [|op ops IH]; intros L I; cbn; [done|].
    apply IH. by apply reg_run_inv. }
  split; [apply I|]. split; [apply I|]. intros fd ev. apply I.
Qed.

Context {W : Type} (get_loop : W -> EventLoop CB ARG TASK E)
  (set_loop : EventLoop CB ARG TASK E -> W -> W)
  (run_cb : CB -> Z -> option ARG -> W -> res W) (run_task : TASK -> W -> res W).

(** Dispatching an event the kernel can report (a watched descriptor, with
    watched directions, error or hang-up) never fails the loop's [assert] and
    never calls a null callback: it runs a registered callback of that
    descriptor with the argument registered with it, or nothing, or removes
    the descriptor. *)
Lemma dispatch_registered fd events w m :
  let L := get_loop w in
  loop_inv L -> interest (epfd L) !! fd = Some m ->
  (has_in events = true -> has_in m = true) ->
  (has_out events = true -> has_out m = true) ->
  exists ev, io_evs L !! fd = Some ev /\
    ((exists cb, read_callback ev = Some cb /\
        dispatch get_loop set_loop run_cb fd events w = run_cb cb fd (rcb_args ev) w) \/
     (exists cb, write_callback ev = Some cb /\
        dispatch get_loop set_loop run_cb fd events w = run_cb cb fd (wcb_args ev) w) \/
     dispatch get_loop set_loop run_cb fd events w = Ret w \/
     dispatch get_loop set_loop run_cb fd events w =
       Ret (set_loop (del_io_event fd L) w)).
Proof.
  intros L I Hm Hin Hout. rewrite (loop_inv_interest _ _ I) in Hm.
  destruct (io_evs L !! fd) as [ev|] eqn:Ev; [|done]. cbn in Hm. injection Hm as <-.
  exists ev. split; [done|]. destruct (li_cbs _ I _ _ Ev) as [Hr Hw].
  unfold dispatch. fold L. rewrite Ev. fold (has_in events) (has_out events).
  destruct (has_in events).
  { destruct (Hr (Hin eq_refl)) as [cb Hcb]. left. exists cb. by rewrite Hcb. }
  destruct (has_out events).
  { destruct (Hw (Hout eq_refl)) as [cb Hcb]. right. left. exists cb. by rewrite Hcb. }
  case_match; [|tauto].
  destruct (read_callback ev) as [cb|]; [eauto|].
  destruct (write_callback ev) as [cb|]; eauto.
Qed.

Lemma exec_tasks_inert ts :
  (forall t w w', run_task t w = Ret w' ->
     ready_tasks (get_loop w') = ready_tasks (get_loop w)) ->
  forall pre w fuel, elts (ready_tasks (get_loop w)) = pre ++ ts ->
  (length ts <= fuel)%nat ->
  exec_tasks get_loop run_task fuel (length pre) w =
    foldl (fun m t => w ← m; run_task t w) (Ret w) ts.
Proof.
  intros Hin. induction ts as [|t ts IH]; intros pre w fuel Hts Hf.
  - rewrite app_nil_r in Hts. destruct fuel; cbn;
      rewrite (proj2 (lookup_ge_None _ _)); try done; rewrite Hts; lia.
  - destruct fuel as [|fuel]; [cbn in Hf; lia|]. cbn [exec_tasks].
    rewrite (list_lookup_middle _ _ _ _ eq_refl Hts) || rewrite Hts, list_lookup_middle by done.
    cbn [foldl mbind res_bind]. destruct (run_task t w) as [w'|f] eqn:Er; cbn.
    + rewrite (Hin _ _ _ Er), bool_decide_eq_true_2 by done. cbn.
      specialize (IH (pre ++ [t]) w' fuel). rewrite length_app in IH. cbn in IH.
      rewrite Nat.add_1_r in IH. apply IH; [|cbn in Hf; lia].
      by rewrite (Hin _ _ _ Er), <- app_assoc.
    + clear. induction ts; cbn; [done|]. done.
Qed.

(** When no task adds tasks, [execute_ready_tasks] runs each ready task
    exactly once, in the order they were added, and leaves none. *)
Lemma execute_ready_tasks_in_order w :
  (forall t w w', run_task t w = Ret w' ->
     ready_tasks (get_loop w') = ready_tasks (get_loop w)) ->
  (length (elts (ready_tasks (get_loop w))) <= vcap (ready_tasks (get_loop w)))%nat ->
  execute_ready_tasks get_loop set_loop run_task w =
    (w' ← foldl (fun m t => w ← m; run_task t w) (Ret w)
            (elts (ready_tasks (get_loop w)));
     Ret (set_loop (clear_tasks (get_loop w')) w')).
Proof.
  intros Hin Hcap. unfold execute_ready_tasks.
  by rewrite (exec_tasks_inert _ Hin [] w _ eq_refl).
Qed.
End Properties.

(** ** Witnesses *)

Import TableKernel.

Lemma table_accepts : kernel_accepts (E := gmap Z Z).
Proof.
  intros fd m e. unfold ep_ctl, table_epoll, ctl. cbn. split; [by intros ->|].
  by intros [? ->].
Qed.

(** A loop that reads descriptor 5 and writes descriptor 6. *)
Definition demo_ops : list (reg_op nat nat) :=
  [RAdd 5 1%nat false (Some 10%nat); RAdd 6 2%nat false None; RAdd 6 3%nat true None;
   RDelMask 6 false; RAdd 7 4%nat true None; RDel 7].
Definition demo_loop : EventLoop nat nat nat (gmap Z Z) :=
  foldl (fun L op => reg_run op L) (EventLoop_new ∅) demo_ops.

Lemma registration_invariant_witness :
  get_listen_fds demo_loop = dom (io_evs demo_loop) /\
  interest (epfd demo_loop) = mask <$> io_evs demo_loop.
Proof.
  destruct (registration_invariant (TASK := nat) ∅ demo_ops table_accepts eq_refl)
    as (H1 & H2 & _).
  split; [exact H1|exact H2].
Defined.

Lemma demo_loop_inv : loop_inv demo_loop.
Proof.
  unfold demo_loop, demo_ops. cbn [foldl].
  do 6 (apply reg_run_inv; [exact table_accepts|]). by apply EventLoop_new_inv.
Qed.

Lemma dispatch_registered_witness :
  exists ev, io_evs demo_loop !! 6 = Some ev /\
    ((exists cb, read_callback ev = Some cb /\
       dispatch id (fun L _ => L) (fun _ _ _ w => Ret w) 6 EPOLLOUT demo_loop = Ret demo_loop) \/
     (exists cb, write_callback ev = Some cb /\
       dispatch id (fun L _ => L) (fun _ _ _ w => Ret w) 6 EPOLLOUT demo_loop = Ret demo_loop) \/
     dispatch id (fun L _ => L) (fun _ _ _ w => Ret w) 6 EPOLLOUT demo_loop = Ret demo_loop \/
     dispatch id (fun L _ => L) (fun _ _ _ w => Ret w) 6 EPOLLOUT demo_loop =
       Ret (del_io_event 6 demo_loop)).
Proof.
  exact (dispatch_registered (W := EventLoop nat nat nat (gmap Z Z)) id (fun L _ => L)
    (fun _ _ _ w => Ret w) 6 EPOLLOUT demo_loop 4 demo_loop_inv eq_refl
    ltac:(done) ltac:(done)).
Defined.

Definition demo_tasks : EventLoop nat nat nat (gmap Z Z) :=
  add_task (fun n => S n) 8%nat (add_task (fun n => S n) 7%nat demo_loop).

Lemma execute_ready_tasks_in_order_witness :
  execute_ready_tasks id (fun L _ => L) (fun _ w => Ret w) demo_tasks =
    Ret (clear_tasks demo_tasks).
Proof.
  refine (eq_trans (execute_ready_tasks_in_order id (fun L _ => L) (fun _ w => Ret w)
    demo_tasks _ _) _).
  - by intros t w w' [= <-].
  - vm_compute. lia.
  - reflexivity.
Defined.
