(* ===== verification/ThreadQueue.v ===== *)
(** * ThreadQueue and ThreadPool (reactor/include/task_msg.h, thread_queue.h,
    thread_pool.h, reactor/src/thread_pool.cpp; reporter/include/store_thread.h,
    the pool part of reporter/src/store_thread.cpp)

    A message queue with an eventfd that wakes the loop of its thread, and the
    pool that deals messages to its queues in turn.  Each operation runs under
    the queue's mutex and is one atomic step; a run is a sequence of steps of
    any threads.  The eventfd is the interface [EventFd]. *)

From S2P Require Import Prelude CInt.
Local Open Scope Z_scope.

(** ** The eventfd *)

Class EventFd (F : Type) : Type := {
  ev_write : F -> bool * F;   (** [write(_evfd, &one, 8)]; [false] for -1 *)
  ev_read : F -> bool * F     (** [read(_evfd, &n, 8)]; [false] for -1 *)
}.

(** eventfd(2): a counter that a write of one increments, or leaves when it is
    at its maximum, and that a read resets, or leaves when it is zero. *)
Class EventFdLaws (F : Type) `{EventFd F} : Type := {
  ev_count : F -> Z;
  ev_count_nonneg f : 0 <= ev_count f;
  ev_write_law f : ev_count (ev_write f).2 =
    if (ev_write f).1 then ev_count f + 1 else ev_count f;
  ev_write_fail f : (ev_write f).1 = false -> 0 < ev_count f;
  ev_read_law f : ev_count (ev_read f).2 = 0
}.

(** ** ThreadQueue *)

Section ThreadQueue.
Context {T F LOOP : Type} `{EventFd F}.

Record ThreadQueue : Type := mkQueue {
  evfd : F;
  q_loop : option LOOP;
  queue : list T         (** [std::queue], front first *)
}.

Definition ThreadQueue_new (f : F) : ThreadQueue := mkQueue f None [].

(** The constructor: [eventfd] may fail. *)
Definition ThreadQueue_open (f : option F) : res ThreadQueue :=
  match f with Some f => Ret (ThreadQueue_new f) | None => Fault ExitFail end.

Definition send (task : T) (q : ThreadQueue) : ThreadQueue :=
  mkQueue (ev_write (evfd q)).2 (q_loop q) (queue q ++ [task]).

(** [recv(new_queue)] swaps the caller's queue with the one of the object. *)
Definition recv (new_queue : list T) (q : ThreadQueue) : list T * ThreadQueue :=
  (queue q, mkQueue (ev_read (evfd q)).2 (q_loop q) new_queue).

Definition set_loop (l : LOOP) (q : ThreadQueue) : ThreadQueue :=
  mkQueue (evfd q) (Some l) (queue q).

Definition get_loop (q : ThreadQueue) : option LOOP := q_loop q.

(** [set_callback]: the registration it makes, if the queue has a loop. *)
Definition set_callback (add_io_event : F -> LOOP -> LOOP) (q : ThreadQueue)
    : ThreadQueue :=
  match q_loop q with
  | Some l => mkQueue (evfd q) (Some (add_io_event (evfd q) l)) (queue q)
  | None => q
  end.

(** One atomic step of some thread. *)
Inductive q_op : Type := QSend (t : T) | QRecv.

(** A run; [got] collects what the receiver has taken, in order. *)
Fixpoint q_run (ops : list q_op) (q : ThreadQueue) (got : list T)
    : ThreadQueue * list T :=
  match ops with
  | [] => (q, got)
  | QSend t :: ops' => q_run ops' (send t q) got
  | QRecv :: ops' => let '(ts, q) := recv [] q in q_run ops' q (got ++ ts)
  end.

Definition sent (ops : list q_op) : list T :=
  omap (fun op => match op with QSend t => Some t | QRecv => None end) ops.

Lemma q_run_fifo ops q got :
  let '(q', got') := q_run ops q got in
  got' ++ queue q' = got ++ queue q ++ sent ops.
Proof.
  revert q got. induction ops as [|[t|] ops IH]; intros q got; cbn -[app].
  - change (sent []) with (@nil T). by rewrite app_nil_r.
  - specialize (IH (send t q) got). destruct (q_run _ _ _). rewrite IH. cbn.
    by rewrite <- app_assoc.
  - specialize (IH (recv [] q).2 (got ++ queue q)). cbn in IH.
    destruct (q_run _ _ _). by rewrite IH, <- app_assoc.
Qed.

Context {EL : EventFdLaws F}.

(** A queue with messages has a readable eventfd. *)
Definition wakes (q : ThreadQueue) : Prop := queue q <> [] -> 0 < ev_count (evfd q).

Lemma empty_wakes q : queue q = [] -> wakes q.
Proof. by intros Hq Hne. Qed.

Lemma send_wakes t q : wakes (send t q).
Proof.
  intros _. cbn. rewrite ev_write_law. pose proof (ev_count_nonneg (evfd q)).
  destruct (ev_write (evfd q)).1 eqn:E; [lia|by apply ev_write_fail].
Qed.

Lemma q_run_wakes ops q got : wakes q -> wakes (q_run ops q got).1.
Proof.
  revert q got. induction ops as [|[t|] ops IH]; intros q got Hw; cbn; [done| |].
  - apply IH, send_wakes.
  - by apply IH, empty_wakes.
Qed.

(** C28. Whatever the interleaving of the senders with the receiver, the
    messages received so far followed by those still queued are exactly the
    messages sent, in order: none is lost, duplicated or reordered; and while
    a message is queued the eventfd is readable, so the receiver's loop is
    woken for it. *)
Theorem queue_fifo ops f :
  let '(q, got) := q_run ops (ThreadQueue_new f) [] in
  got ++ queue q = sent ops /\ wakes q.
Proof.
  pose proof (q_run_fifo ops (ThreadQueue_new f) []) as Hf.
  pose proof (q_run_wakes ops (ThreadQueue_new f) [] (empty_wakes (ThreadQueue_new f) eq_refl))
    as Hw.
  by destruct (q_run _ _ _).
Qed.
End ThreadQueue.
Arguments ThreadQueue : clear implicits.
Arguments q_op : clear implicits.

(** ** ThreadPool *)

(** [TaskMsg]: the tagged union of thread tasks. *)
Inductive TaskMsg (CB ARG : Type) : Type :=
  | NEW_CONN (connfd : Z)
  | NEW_TASK (task_cb : CB) (args : ARG).
Arguments NEW_CONN {CB ARG} _.
Arguments NEW_TASK {CB ARG} _ _.

Section ThreadPool.
Context {T F LOOP : Type} `{EventFd F}.

Record ThreadPool : Type := mkThreadPool {
  _queues : list (ThreadQueue T F LOOP);
  _thread_cnt : Z;
  _index : Z
}.

(** The loop of the constructor: a queue for each thread.  [evfds] are the
    answers of [eventfd()]. *)
Fixpoint new_queues (n : nat) (evfds : list (option F)) : res (list (ThreadQueue T F LOOP)) :=
  match n, evfds with
  | O, _ => Ret []
  | S _, [] => Fault Blocked
  | S n', f :: evfds' => q ← ThreadQueue_open f; qs ← new_queues n' evfds'; Ret (q :: qs)
  end.

Definition ThreadPool_new (thread_cnt : Z) (evfds : list (option F)) : res ThreadPool :=
  if thread_cnt <=? 0 then Fault ExitFail
  else
    qs ← new_queues (Z.to_nat thread_cnt) evfds;
    Ret (mkThreadPool qs thread_cnt 0).

(** [get_thread()]: the index of the queue it returns, and the pool. *)
Definition get_thread (tp : ThreadPool) : res (Z * ThreadPool) :=
  let i := _index tp in
  check OutOfBounds ((0 <=? i) && (i <? Z.of_nat (length (_queues tp))));;
  let n := i + 1 in
  Ret (i, mkThreadPool (_queues tp) (_thread_cnt tp)
            (if n =? _thread_cnt tp then 0 else n)).

(** Send to the queue at an index. *)
Definition send_to (i : Z) (t : T) (tp : ThreadPool) : ThreadPool :=
  mkThreadPool (alter (send t) (Z.to_nat i) (_queues tp)) (_thread_cnt tp) (_index tp).

(** [send_task]: every queue gets the task. *)
Definition send_task (t : T) (tp : ThreadPool) : ThreadPool :=
  mkThreadPool (send t <$> _queues tp) (_thread_cnt tp) (_index tp).

Record pool_ok (tp : ThreadPool) : Prop := {
  tp_cnt : _thread_cnt tp = Z.of_nat (length (_queues tp));
  tp_index : 0 <= _index tp < _thread_cnt tp
}.

Lemma new_queues_ok n : forall evfds qs,
  new_queues n evfds = Ret qs -> length qs = n /\ Forall (fun q => queue q = []) qs.
Proof.
  induction n as [|n IH]; intros evfds qs; cbn [new_queues].
  { intros [= <-]. by split. }
  destruct evfds as [|[f|] evfds]; cbn [ThreadQueue_open mbind res_bind]; [done| |done].
  destruct (new_queues n evfds) as [qs'|] eqn:E; [|done]. intros [= <-].
  destruct (IH _ _ E) as [Hl He]. split; [cbn; lia|by constructor].
Qed.

Lemma ThreadPool_new_ok n evfds tp :
  ThreadPool_new n evfds = Ret tp ->
  pool_ok tp /\ _thread_cnt tp = n /\ Forall (fun q => queue q = []) (_queues tp).
Proof.
  unfold ThreadPool_new. destruct (Z.leb_spec n 0); [done|].
  destruct (new_queues _ _) as [qs|] eqn:Eq; [|done]. intros [= <-].
  destruct (new_queues_ok _ _ _ Eq) as [Hl He]. split; [split; cbn; lia|done].
Qed.

(** It needs one descriptor for each thread. *)
Lemma ThreadPool_new_runs fs :
  fs <> [] -> ThreadPool_new (Z.of_nat (length fs)) (Some <$> fs) =
    Ret (mkThreadPool (ThreadQueue_new <$> fs) (Z.of_nat (length fs)) 0).
Proof.
  intros Hne. unfold ThreadPool_new.
  rewrite (proj2 (Z.leb_gt _ _)) by (destruct fs; [done|cbn; lia]).
  rewrite Nat2Z.id. assert (E : new_queues (length fs) (Some <$> fs) = Ret (ThreadQueue_new <$>
    fs)).
  { clear. induction fs as [|f fs IH]; [done|]. cbn. by rewrite IH. }
  by rewrite E.
Qed.

Lemma get_thread_ok tp :
  pool_ok tp ->
  exists tp', get_thread tp = Ret (_index tp, tp') /\ pool_ok tp' /\
    _queues tp' = _queues tp /\ _thread_cnt tp' = _thread_cnt tp /\
    _index tp' = (_index tp + 1) `mod` _thread_cnt tp.
Proof.
  intros [Hc Hi]. unfold get_thread.
  rewrite (proj2 (andb_true_iff _ _)) by (rewrite Z.leb_le, Z.ltb_lt; lia). cbn.
  eexists. split; [done|]. destruct (Z.eqb_spec (_index tp + 1) (_thread_cnt tp)) as [E|E].
  - repeat split; cbn; try lia. by rewrite E, Z.mod_same by lia.
  - repeat split; cbn; try lia. by rewrite Z.mod_small by lia.
Qed.

(** [n] calls in a row. *)
Fixpoint get_threads (n : nat) (tp : ThreadPool) : res (list Z * ThreadPool) :=
  match n with
  | O => Ret ([], tp)
  | S n' => '(i, tp) ← get_thread tp; '(js, tp) ← get_threads n' tp; Ret (i :: js, tp)
  end.

Lemma get_threads_ok n tp :
  pool_ok tp ->
  exists tp', get_threads n tp =
    Ret ((fun k => (_index tp + Z.of_nat k) `mod` _thread_cnt tp) <$> seq 0 n, tp') /\
    pool_ok tp' /\ _thread_cnt tp' = _thread_cnt tp.
Proof.
  revert tp. induction n as [|n IH]; intros tp Hok; cbn; [eauto|].
  destruct (get_thread_ok tp Hok) as (tp1 & -> & Hok1 & _ & Hc1 & Hi1). cbn.
  destruct (IH tp1 Hok1) as (tp2 & -> & Hok2 & Hc2). cbn.
  exists tp2. split; [|split; [done|congruence]]. destruct Hok as [_ Hidx].
  f_equal. f_equal. rewrite Z.add_0_r, Z.mod_small by lia. f_equal.
  rewrite <- fmap_S_seq, <- list_fmap_compose. apply list_fmap_ext. intros _ k _. cbn.
  rewrite Hi1, Hc1, Zplus_mod_idemp_l. f_equal. lia.
Qed.

(** The messages that a run of [send_to (get_thread())] leaves in the queues. *)
Fixpoint deal (ts : list T) (tp : ThreadPool) : res ThreadPool :=
  match ts with
  | [] => Ret tp
  | t :: ts' => '(i, tp) ← get_thread tp; deal ts' (send_to i t tp)
  end.

(** How often [i] is the answer in [n] calls. *)
Definition hits (i : Z) (js : list Z) : nat := length (filter (fun j => j = i) js).
End ThreadPool.
Arguments ThreadPool : clear implicits.

(** A quotient steps by one exactly at the multiples. *)
Lemma div_pred_step x c : 0 < c ->
  x / c = (x - 1) / c + (if decide (x `mod` c = 0) then 1 else 0).
Proof.
  intros Hc. pose proof (Z.div_mod x c ltac:(lia)). pose proof (Z.mod_pos_bound x c Hc).
  case_decide as E.
  - rewrite <- (Z.div_unique (x - 1) c (x / c - 1) (c - 1)); lia.
  - rewrite <- (Z.div_unique (x - 1) c (x / c) (x `mod` c - 1)); lia.
Qed.

Lemma mod_sub_zero x i c : 0 < c -> 0 <= i < c -> ((x - i) `mod` c = 0 <-> x `mod` c = i).
Proof.
  intros Hc Hi. rewrite Zminus_mod, (Z.mod_small i) by lia.
  pose proof (Z.mod_pos_bound x c Hc). split; intros E.
  - apply Z.div_exact in E; [|lia].
    set (q := (x `mod` c - i) / c) in *. clearbody q.
    assert (q <= -1 \/ q = 0 \/ 1 <= q) as [|[|]] by lia; nia.
  - rewrite E, Z.sub_diag. apply Z.mod_0_l. lia.
Qed.

(** Round robin hits every index about equally often. *)
Lemma round_robin_hits c a i n :
  0 < c -> 0 <= i < c ->
  let js := (fun k => (a + Z.of_nat k) `mod` c) <$> seq 0 n in
  Z.of_nat n / c <= Z.of_nat (hits i js) <= Z.of_nat n / c + 1.
Proof.
  intros Hc Hi js. subst js.
  assert (E : Z.of_nat (hits i ((fun k => (a + Z.of_nat k) `mod` c) <$> seq 0 n)) =
    (a - i + Z.of_nat n - 1) / c - (a - i - 1) / c).
  { induction n as [|n IH].
    { cbn. unfold hits. cbn. rewrite Z.add_0_r. lia. }
    rewrite seq_S, fmap_app. unfold hits in *. rewrite filter_app, length_app, Nat2Z.inj_add.
    rewrite IH. clear IH. cbn [fmap list_fmap Nat.add]. rewrite filter_cons.
    replace (a - i + Z.of_nat (S n) - 1) with (a + Z.of_nat n - i) by lia.
    rewrite (div_pred_step (a + Z.of_nat n - i) c Hc).
    replace (a + Z.of_nat n - i - 1) with (a - i + Z.of_nat n - 1) by lia.
    destruct (decide ((a + Z.of_nat n) `mod` c = i)) as [Ed|Ed];
      rewrite (decide_ext _ _ 1 0 (mod_sub_zero (a + Z.of_nat n) i c Hc Hi));
      [rewrite decide_True by done|rewrite decide_False by done]; cbn; lia. }
  rewrite E.
  pose proof (Z.div_mod (a - i - 1) c ltac:(lia)). pose proof (Z.mod_pos_bound (a - i - 1) c Hc).
  pose proof (Z.div_mod (a - i + Z.of_nat n - 1) c ltac:(lia)).
  pose proof (Z.mod_pos_bound (a - i + Z.of_nat n - 1) c Hc).
  pose proof (Z.div_mod (Z.of_nat n) c ltac:(lia)).
  pose proof (Z.mod_pos_bound (Z.of_nat n) c Hc).
  nia.
Qed.

(** ** A kernel for the witnesses: a counter with a maximum *)

Module CounterFd.
Definition max : N := (2 ^ 64 - 2)%N.
#[global] Instance counter_fd : EventFd N := {
  ev_write n := if (n <? max)%N then (true, (n + 1)%N) else (false, n);
  ev_read n := if (0 <? n)%N then (true, 0%N) else (false, n)
}.
#[global] Instance counter_fd_laws : EventFdLaws N.
Proof.
  refine {| ev_count := Z.of_N |}; unfold ev_write, ev_read, counter_fd, max; intros n.
  - lia.
  - destruct (N.ltb_spec n (2 ^ 64 - 2)); cbn [fst snd]; lia.
  - destruct (N.ltb_spec n (2 ^ 64 - 2)); cbn [fst snd]; [done|lia].
  - destruct (N.ltb_spec 0 n); cbn [fst snd]; lia.
Defined.
End CounterFd.

Section Fairness.
Context {T F LOOP : Type} `{EventFd F}.

(** Starting from a pool of [n] threads, every sequence of [get_thread]
    calls succeeds and visits the queues in round robin: in [m] calls each
    queue is chosen either [m / n] or [m / n + 1] times. *)
Lemma get_thread_round_robin n (evfds : list (option F)) (tp : ThreadPool T F LOOP) m :
  ThreadPool_new n evfds = Ret tp ->
  exists js tp', get_threads m tp = Ret (js, tp') /\ pool_ok tp' /\
    forall i, 0 <= i < n ->
      Z.of_nat m / n <= Z.of_nat (hits i js) <= Z.of_nat m / n + 1.
Proof.
  intros Hnew. destruct (ThreadPool_new_ok _ _ _ Hnew) as (Hok & Hn & _).
  destruct (get_threads_ok m tp Hok) as (tp' & E & Hok' & Hc').
  eexists _, tp'. split; [exact E|]. split; [done|]. intros i Hi.
  rewrite Hn. apply round_robin_hits; lia.
Qed.
End Fairness.

Lemma get_thread_round_robin_witness :
  exists js tp', get_threads 7 (mkThreadPool (T := nat) (LOOP := unit)
      (ThreadQueue_new <$> [0%N; 0%N; 0%N]) 3 0) = Ret (js, tp') /\ pool_ok tp' /\
    forall i, 0 <= i < 3 -> 7 / 3 <= Z.of_nat (hits i js) <= 7 / 3 + 1.
Proof.
  exact (get_thread_round_robin 3 [Some 0%N; Some 0%N; Some 0%N] _ 7 eq_refl).
Defined.
