(* ===== verification/NetState.v ===== *)
(** * State of a server thread (reactor/include/tcp_conn.h, tcp_server.h,
    the connection table of reactor/src/tcp_server.cpp)

    The objects a reactor thread works on: the buffer pool, the thread's loop,
    the [TCPConn] objects, the static members of [TCPServer] and the open
    descriptors.  Function and data pointers of the application are values of
    one abstract type [V]; the application's own state is [U]. *)

From S2P Require Import Prelude CInt IOBuf Message EventLoop.
Local Open Scope Z_scope.

(** ** Callbacks and arguments known to the reactor *)

Inductive io_cb (V : Type) : Type :=
  | conn_rd_callback | conn_wt_callback | accept_callback | deal_task_message_cb
  | cli_read_callback | cli_write_callback | cli_connection_delay
  | user_cb (f : V).
Arguments conn_rd_callback {V}.
Arguments conn_wt_callback {V}.
Arguments accept_callback {V}.
Arguments deal_task_message_cb {V}.
Arguments cli_read_callback {V}.
Arguments cli_write_callback {V}.
Arguments cli_connection_delay {V}.
Arguments user_cb {V} f.

Inductive io_arg (V : Type) : Type :=
  | arg_conn (c : Z)       (** a [TCPConn *] *)
  | arg_server             (** the [TCPServer *] *)
  | arg_client             (** the [TCPClient *] *)
  | arg_queue              (** the thread's [ThreadQueue<TaskMsg> *] *)
  | arg_user (x : V).
Arguments arg_conn {V} c.
Arguments arg_server {V}.
Arguments arg_client {V}.
Arguments arg_queue {V}.
Arguments arg_user {V} x.

Section NetState.
Context {P E V U : Type}.

Record TCPConn : Type := mkConn {
  _connfd : Z;
  ibuf : option loc;
  obuf : option loc;
  param : option V
}.

(** The static members of [TCPServer].  [conns] holds the cells that have
    been written of an array of [_max_conns + 3] pointers. *)
Record TCPServer : Type := mkServer {
  conns : gmap Z (option Z);
  _max_conns : Z;
  _curr_conns : Z;
  conn_start_cb : option V;
  conn_close_cb : option V;
  router : MsgRouter V V
}.

Record Net : Type := mkNet {
  nt_pool : P;
  nt_loop : EventLoop (io_cb V) (io_arg V) (V * option V) E;
  nt_conns : gmap Z TCPConn;    (** the [TCPConn] objects *)
  nt_next : Z;                  (** the next object [new TCPConn] makes *)
  nt_srv : TCPServer;
  nt_open : gset Z;             (** the open descriptors *)
  nt_user : U
}.

Definition set_ntpool (p : P) (w : Net) : Net :=
  mkNet p (nt_loop w) (nt_conns w) (nt_next w) (nt_srv w) (nt_open w) (nt_user w).
Definition set_ntloop (l : EventLoop (io_cb V) (io_arg V) (V * option V) E) (w : Net) : Net :=
  mkNet (nt_pool w) l (nt_conns w) (nt_next w) (nt_srv w) (nt_open w) (nt_user w).
Definition set_ntsrv (s : TCPServer) (w : Net) : Net :=
  mkNet (nt_pool w) (nt_loop w) (nt_conns w) (nt_next w) s (nt_open w) (nt_user w).
Definition set_ntuser (u : U) (w : Net) : Net :=
  mkNet (nt_pool w) (nt_loop w) (nt_conns w) (nt_next w) (nt_srv w) (nt_open w) u.
Definition set_conn (c : Z) (cn : TCPConn) (w : Net) : Net :=
  mkNet (nt_pool w) (nt_loop w) (<[c := cn]> (nt_conns w)) (nt_next w) (nt_srv w)
    (nt_open w) (nt_user w).
Definition new_conn (cn : TCPConn) (w : Net) : Z * Net :=
  (nt_next w, mkNet (nt_pool w) (nt_loop w) (<[nt_next w := cn]> (nt_conns w))
                (nt_next w + 1) (nt_srv w) (nt_open w) (nt_user w)).
(** [close(fd)]; closing -1 has no effect. *)
Definition close_fd (fd : Z) (w : Net) : Net :=
  mkNet (nt_pool w) (nt_loop w) (nt_conns w) (nt_next w) (nt_srv w)
    (nt_open w ∖ {[fd]}) (nt_user w).

Definition set_bufs (ib ob : option loc) (cn : TCPConn) : TCPConn :=
  mkConn (_connfd cn) ib ob (param cn).
Definition set_connfd (fd : Z) (cn : TCPConn) : TCPConn :=
  mkConn fd (ibuf cn) (obuf cn) (param cn).
Definition set_param (v : option V) (cn : TCPConn) : TCPConn :=
  mkConn (_connfd cn) (ibuf cn) (obuf cn) v.

(** A member access through a [TCPConn *]. *)
Definition get_conn (c : Z) (w : Net) : res TCPConn :=
  match nt_conns w !! c with Some cn => Ret cn | None => Fault UseAfterFree end.

(** ** The connection table *)

Definition conns_size (s : TCPServer) : Z := _max_conns s + 3.

Definition increase_conn (connfd : Z) (conn : Z) (s : TCPServer) : res TCPServer :=
  check OutOfBounds ((0 <=? connfd) && (connfd <? conns_size s));;
  n ← int_add (_curr_conns s) 1;
  Ret (mkServer (<[connfd := Some conn]> (conns s)) (_max_conns s) n
         (conn_start_cb s) (conn_close_cb s) (router s)).

Definition decrease_conn (connfd : Z) (s : TCPServer) : res TCPServer :=
  check OutOfBounds ((0 <=? connfd) && (connfd <? conns_size s));;
  n ← int_add (_curr_conns s) (-1);
  Ret (mkServer (<[connfd := None]> (conns s)) (_max_conns s) n
         (conn_start_cb s) (conn_close_cb s) (router s)).

Definition get_conn_num (s : TCPServer) : Z := _curr_conns s.

(** What the application has set up: the two hooks and the handlers. *)
Definition srv_cfg (s : TCPServer) : option V * option V * MsgRouter V V :=
  (conn_start_cb s, conn_close_cb s, router s).

(** ** The table counts the connections it lists *)

(** The descriptors of the connections in the table. *)
Definition listed (s : TCPServer) : gset Z :=
  dom (filter (fun kv => is_Some kv.2) (conns s)).

Definition in_table (fd : Z) (s : TCPServer) : Prop := 0 <= fd < conns_size s.

Record table_ok (s : TCPServer) : Prop := {
  tb_count : _curr_conns s = Z.of_nat (size (listed s));
  tb_range : forall fd, fd ∈ listed s -> in_table fd s;
  tb_max : 0 <= _max_conns s < 2 ^ 30
}.

Lemma listed_insert fd c s n m a b r :
  listed (mkServer (<[fd := Some c]> (conns s)) n m a b r) = {[fd]} ∪ listed s.
Proof.
  unfold listed. cbn. rewrite map_filter_insert_True by (cbn; eauto).
  by rewrite dom_insert_L.
Qed.

Lemma listed_clear fd s n m a b r :
  listed (mkServer (<[fd := None]> (conns s)) n m a b r) = listed s ∖ {[fd]}.
Proof.
  unfold listed. cbn. rewrite map_filter_insert_False by (cbn; by intros [? ?]).
  rewrite map_filter_delete. by rewrite dom_delete_L.
Qed.

Lemma listed_size s : table_ok s -> Z.of_nat (size (listed s)) <= conns_size s.
Proof.
  intros [_ Hr Hm]. unfold conns_size in *.
  assert (Hs : listed s ⊆ list_to_set (seqZ 0 (_max_conns s + 3))).
  { intros fd Hfd. apply elem_of_list_to_set, elem_of_seqZ. apply Hr in Hfd.
    unfold in_table, conns_size in Hfd. lia. }
  apply subseteq_size in Hs. rewrite size_list_to_set in Hs by apply NoDup_seqZ.
  rewrite length_seqZ in Hs. lia.
Qed.

(** A fresh descriptor of the array's range is added and counted. *)
Lemma increase_conn_ok fd c s :
  table_ok s -> in_table fd s -> fd ∉ listed s ->
  safe (increase_conn fd c s) (fun s' => table_ok s' /\
    listed s' = {[fd]} ∪ listed s /\ _curr_conns s' = _curr_conns s + 1 /\
    _max_conns s' = _max_conns s /\ router s' = router s /\
    conn_start_cb s' = conn_start_cb s /\ conn_close_cb s' = conn_close_cb s).
Proof.
  intros Ht Hin Hn. pose proof (listed_size s Ht) as Hsz. destruct Ht as [Hc Hr Hm].
  unfold increase_conn. unfold in_table, conns_size in *.
  rewrite (proj2 (andb_true_iff _ _)) by (rewrite Z.leb_le, Z.ltb_lt; lia).
  cbn [check mbind res_bind]. rewrite int_add_ok by (unfold is_i32; lia).
  cbn [mbind res_bind safe]. rewrite listed_insert. split; [|done].
  split; cbn; try done.
  - rewrite listed_insert, size_union by set_solver. rewrite size_singleton. lia.
  - intros fd'. rewrite listed_insert. unfold in_table, conns_size. cbn.
    intros [->%elem_of_singleton|H]%elem_of_union; [lia|by apply Hr].
Qed.

(** A listed descriptor is removed and counted off. *)
Lemma decrease_conn_ok fd s :
  table_ok s -> fd ∈ listed s ->
  safe (decrease_conn fd s) (fun s' => table_ok s' /\
    listed s' = listed s ∖ {[fd]} /\ _curr_conns s' = _curr_conns s - 1 /\
    _max_conns s' = _max_conns s /\ router s' = router s /\
    conn_start_cb s' = conn_start_cb s /\ conn_close_cb s' = conn_close_cb s).
Proof.
  intros Ht Hin. pose proof (listed_size s Ht) as Hsz. destruct Ht as [Hc Hr Hm].
  pose proof (Hr _ Hin) as Hfd. unfold decrease_conn. unfold in_table, conns_size in *.
  rewrite (proj2 (andb_true_iff _ _)) by (rewrite Z.leb_le, Z.ltb_lt; lia).
  cbn [check mbind res_bind]. rewrite int_add_ok by (unfold is_i32; lia).
  cbn [mbind res_bind safe]. rewrite listed_clear. split; [|done].
  assert (Hsz1 : (1 <= size (listed s))%nat).
  { rewrite <- (size_singleton (C := gset Z) fd). apply subseteq_size. set_solver. }
  split; cbn; try done.
  - rewrite listed_clear, size_difference by set_solver. rewrite size_singleton. lia.
  - intros fd'. rewrite listed_clear. unfold in_table, conns_size. cbn.
    intros [H _]%elem_of_difference. by apply Hr.
Qed.
End NetState.
Arguments TCPConn : clear implicits.
Arguments TCPServer : clear implicits.
Arguments Net : clear implicits.
