(* ===== verification/Framing.v ===== *)
(** * The wire format: a specification of the TCP stream

    A stream is a sequence of frames, each an eight-byte [MsgHead] and
    [msglen] bytes of body (reactor/include/message.h).  [parse] cuts a
    received prefix of a stream into its frames; [TCPConn::do_read] is proved
    against it in [TcpConn]. *)

From S2P Require Import Prelude CInt Message.
From Stdlib Require Import Strings.Byte.
Local Open Scope Z_scope.

(** One delivered message. *)
Record frame : Type := mkFrame { f_id : Z; f_data : list byte }.

(** Does [do_read] accept a head? *)
Definition len_ok (h : MsgHead) : bool :=
  negb ((MESSAGE_LENGTH_LIMIT <? msglen h) || (msglen h <? 0)).

(** How a prefix of a stream ends: in the bytes of an incomplete frame; with a
    head whose length is out of bounds; or with a frame without body whose head
    is the last thing received. *)
Inductive tail : Type := More (rest : list byte) | BadHead | EmptyAtEnd (id : Z).

Definition body_of (h : MsgHead) (bs : list byte) : list byte :=
  take (Z.to_nat (msglen h)) (drop 8 bs).
Definition after (h : MsgHead) (bs : list byte) : list byte :=
  drop (Z.to_nat (msglen h)) (drop 8 bs).

Fixpoint parse_fuel (fuel : nat) (bs : list byte) : list frame * tail :=
  match fuel with
  | O => ([], More bs)
  | S fuel =>
      match head_of bs with
      | None => ([], More bs)
      | Some h =>
          if negb (len_ok h) then ([], BadHead)
          else if Z.of_nat (length bs) <? 8 + msglen h then ([], More bs)
          else if bool_decide (drop 8 bs = []) then ([], EmptyAtEnd (msgid h))
          else
            let '(fs, t) := parse_fuel fuel (after h bs) in
            (mkFrame (msgid h) (body_of h bs) :: fs, t)
      end
  end.

Definition parse (bs : list byte) : list frame * tail := parse_fuel (S (length bs)) bs.

(** The bytes of a frame, as [send_message] writes them. *)
Definition frame_bytes (f : frame) : list byte :=
  head_bytes (mkHead (f_id f) (Z.of_nat (length (f_data f)))) ++ f_data f.

(** Frames that a stream can carry and [do_read] takes everywhere. *)
Definition frame_ok (f : frame) : Prop :=
  is_i32 (f_id f) /\ f_data f <> [] /\ Z.of_nat (length (f_data f)) <= MESSAGE_LENGTH_LIMIT.

Lemma len_ok_spec h : len_ok h = true <-> 0 <= msglen h <= MESSAGE_LENGTH_LIMIT.
Proof. unfold len_ok. rewrite negb_true_iff, orb_false_iff, !Z.ltb_ge. lia. Qed.

Lemma len_ok_neg h :
  (MESSAGE_LENGTH_LIMIT <? msglen h) || (msglen h <? 0) = negb (len_ok h).
Proof. unfold len_ok. by rewrite negb_involutive. Qed.

Lemma head_of_length bs h : head_of bs = Some h -> (8 <= length bs)%nat.
Proof.
  unfold head_of. intros E.
  destruct bs as [|? [|? [|? [|? [|? [|? [|? [|? bs]]]]]]]]; try done; [..|cbn; lia];
    cbn -[de32] in E; by repeat (destruct (de32 _) in E; cbn in E; try done).
Qed.

Lemma head_of_None bs : head_of bs = None <-> (length bs < 8)%nat.
Proof.
  split.
  - intros E. destruct (decide (8 <= length bs)%nat) as [Hl|]; [|lia].
    destruct (head_of_Some bs Hl). congruence.
  - intros Hl. destruct (head_of bs) as [h|] eqn:E; [|done].
    apply head_of_length in E. lia.
Qed.

Lemma after_length h bs : (length (after h bs) <= length bs - 8)%nat.
Proof. unfold after. rewrite !length_drop. lia. Qed.

(** The fuel is enough. *)
Lemma parse_fuel_enough bs n m :
  (length bs < n)%nat -> (length bs < m)%nat -> parse_fuel n bs = parse_fuel m bs.
Proof.
  revert bs m. induction n as [|n IH]; intros bs m Hn Hm; [lia|].
  destruct m as [|m]; [lia|]. cbn [parse_fuel].
  destruct (head_of bs) as [h|] eqn:Eh; [|done].
  destruct (negb (len_ok h)); [done|]. destruct (_ <? _); [done|].
  case_bool_decide; [done|].
  pose proof (after_length h bs). apply head_of_length in Eh.
  by rewrite (IH (after h bs) m) by lia.
Qed.

Lemma parse_step bs :
  parse bs =
    match head_of bs with
    | None => ([], More bs)
    | Some h =>
        if negb (len_ok h) then ([], BadHead)
        else if Z.of_nat (length bs) <? 8 + msglen h then ([], More bs)
        else if bool_decide (drop 8 bs = []) then ([], EmptyAtEnd (msgid h))
        else
          let '(fs, t) := parse (after h bs) in
          (mkFrame (msgid h) (body_of h bs) :: fs, t)
    end.
Proof.
  unfold parse at 1. cbn [parse_fuel].
  destruct (head_of bs) as [h|] eqn:Eh; [|done].
  destruct (negb (len_ok h)); [done|]. destruct (_ <? _); [done|].
  case_bool_decide; [done|]. unfold parse.
  pose proof (after_length h bs). apply head_of_length in Eh.
  by rewrite (parse_fuel_enough (after h bs) (length bs) (S (length (after h bs)))) by lia.
Qed.

(** Induction along [parse]. *)
Lemma parse_ind (Q : list byte -> Prop) :
  (forall bs, (forall h, head_of bs = Some h -> len_ok h = true ->
     8 + msglen h <= Z.of_nat (length bs) -> Q (after h bs)) -> Q bs) ->
  forall bs, Q bs.
Proof.
  intros Hs bs. induction bs as [bs IH] using (induction_ltof1 _ length).
  apply Hs. intros h Eh _ _. apply IH. unfold ltof.
  pose proof (after_length h bs). apply head_of_length in Eh. lia.
Qed.

(** ** Appending to a prefix *)

Lemma body_of_app h a b :
  0 <= msglen h -> 8 + msglen h <= Z.of_nat (length a) -> body_of h (a ++ b) = body_of h a.
Proof.
  intros Hl Ha. unfold body_of. rewrite drop_app_le by lia.
  by rewrite take_app_le by (rewrite length_drop; lia).
Qed.

Lemma after_app h a b :
  0 <= msglen h -> 8 + msglen h <= Z.of_nat (length a) ->
  after h (a ++ b) = after h a ++ b.
Proof.
  intros Hl Ha. unfold after. rewrite drop_app_le by lia.
  by rewrite drop_app_le by (rewrite length_drop; lia).
Qed.

(** What more bytes do to a prefix that was cut: the frames found stay, and
    the rest of the stream is parsed from the remainder. *)
Lemma parse_app a b fs r :
  parse a = (fs, More r) ->
  parse (a ++ b) = let '(fs', t) := parse (r ++ b) in (fs ++ fs', t).
Proof.
  revert fs r. induction a as [a IH] using parse_ind. intros fs r.
  rewrite parse_step. destruct (head_of a) as [h|] eqn:Eh.
  2: { intros [= <- <-]. by destruct (parse (a ++ b)). }
  destruct (len_ok h) eqn:El; [|done]. cbn [negb].
  destruct (Z.ltb_spec (Z.of_nat (length a)) (8 + msglen h)).
  { intros [= <- <-]. by destruct (parse (a ++ b)). }
  case_bool_decide as Hd; [done|].
  destruct (parse (after h a)) as [fs1 t1] eqn:E1. intros [= <- ->].
  pose proof (proj1 (len_ok_spec h) El).
  rewrite (parse_step (a ++ b)), (head_of_app _ _ _ Eh), El. cbn [negb].
  rewrite (proj2 (Z.ltb_ge _ _)) by (rewrite length_app; lia).
  rewrite bool_decide_eq_false_2.
  2: { apply head_of_length in Eh. rewrite drop_app_le by lia.
       by intros [? _]%app_eq_nil. }
  rewrite after_app, body_of_app by lia.
  rewrite (IH h eq_refl El ltac:(lia) fs1 r E1). by destruct (parse (r ++ b)).
Qed.

(** What is left has no complete frame. *)
Lemma parse_left bs fs r : parse bs = (fs, More r) -> parse r = ([], More r).
Proof.
  intros Ep. pose proof (parse_app _ [] _ _ Ep) as H1. rewrite !app_nil_r, Ep in H1.
  destruct (parse r) as [fs' t']. injection H1 as H1 ->.
  by rewrite (app_inv_head fs [] fs') by (by rewrite app_nil_r).
Qed.

(** A prefix of a stream of frames with bodies is cut at the end of a frame. *)
Lemma parse_prefix a b fs r :
  parse (a ++ b) = (fs, More r) -> Forall (fun f => f_data f <> []) fs ->
  exists fs1 r1, parse a = (fs1, More r1) /\
    exists fs2, parse (r1 ++ b) = (fs2, More r) /\ fs = fs1 ++ fs2.
Proof.
  intros Hp Hf. assert (Ha : exists fs1 r1, parse a = (fs1, More r1)).
  { revert fs Hp Hf. induction a as [a IH] using parse_ind. intros fs.
    rewrite (parse_step a). destruct (head_of a) as [h|] eqn:Eh; [|by eauto].
    rewrite (parse_step (a ++ b)), (head_of_app _ _ _ Eh).
    destruct (len_ok h) eqn:El; cbn [negb]; [|done].
    destruct (Z.ltb_spec (Z.of_nat (length a)) (8 + msglen h)); [by eauto|].
    pose proof (proj1 (len_ok_spec h) El).
    rewrite (proj2 (Z.ltb_ge _ _)) by (rewrite length_app; lia).
    case_bool_decide as Hd; [done|]. rewrite after_app, body_of_app by lia.
    destruct (parse (after h a ++ b)) as [fs2 t2] eqn:E2. intros [= <- ->] Hf.
    apply Forall_cons in Hf as [Hne Hf]. cbn in Hne.
    destruct (IH h eq_refl El ltac:(lia) fs2 E2 Hf) as (fs1 & r1 & E1).
    case_bool_decide as Hd'.
    - unfold body_of in Hne. rewrite Hd' in Hne. by rewrite take_nil in Hne.
    - rewrite E1. eauto. }
  destruct Ha as (fs1 & r1 & E1). exists fs1, r1. split; [done|].
  rewrite (parse_app _ _ _ _ E1) in Hp. destruct (parse (r1 ++ b)) as [fs2 t2].
  injection Hp as <- ->. eauto.
Qed.

(** ** Round trip *)

(** A message without a body *)
Lemma parse_empty_frame id :
  is_i32 id -> parse (frame_bytes (mkFrame id [])) = ([], EmptyAtEnd id).
Proof. intros Hid. rewrite parse_step. unfold frame_bytes. by rewrite head_of_bytes. Qed.

Lemma parse_short bs : (length bs < 8)%nat -> parse bs = ([], More bs).
Proof. intros Hl. rewrite parse_step. by apply head_of_None in Hl as ->. Qed.

Lemma frame_bytes_length f : length (frame_bytes f) = (8 + length (f_data f))%nat.
Proof. unfold frame_bytes. by rewrite length_app, head_bytes_length. Qed.

Lemma parse_frame f tl :
  frame_ok f ->
  parse (frame_bytes f ++ tl) = let '(fs, t) := parse tl in (f :: fs, t).
Proof.
  intros (Hi & Hne & Hl). unfold MESSAGE_LENGTH_LIMIT, MESSAGE_HEAD_LEN in *.
  set (h := mkHead (f_id f) (Z.of_nat (length (f_data f)))).
  assert (Eh : head_of (frame_bytes f ++ tl) = Some h).
  { unfold frame_bytes. rewrite <- app_assoc. apply head_of_bytes; cbn; [done|].
    unfold is_i32. lia. }
  assert (El : len_ok h = true) by (apply len_ok_spec; unfold MESSAGE_LENGTH_LIMIT,
    MESSAGE_HEAD_LEN; cbn; lia).
  assert (Ed : drop 8 (frame_bytes f ++ tl) = f_data f ++ tl).
  { unfold frame_bytes. rewrite <- app_assoc. done. }
  rewrite parse_step, Eh, El. cbn [negb].
  rewrite (proj2 (Z.ltb_ge _ _)) by
    (rewrite length_app, frame_bytes_length; cbn; lia).
  rewrite bool_decide_eq_false_2 by (rewrite Ed; by intros [? _]%app_eq_nil).
  unfold after, body_of. rewrite Ed. cbn [msglen h]. rewrite Nat2Z.id.
  rewrite drop_app_length, take_app_length. destruct (parse tl). by destruct f.
Qed.

Lemma parse_frames fs tl :
  Forall frame_ok fs ->
  parse (concat (frame_bytes <$> fs) ++ tl) = let '(fs', t) := parse tl in (fs ++ fs', t).
Proof.
  induction 1 as [|f fs Hf _ IH]; cbn [fmap list_fmap concat app].
  - by destruct (parse tl).
  - rewrite <- app_assoc, parse_frame, IH by done. by destruct (parse tl).
Qed.

Lemma parse_nil : parse [] = ([], More []).
Proof. done. Qed.

(** A remainder is shorter than the largest frame. *)
Lemma parse_rest bs fs r :
  parse bs = (fs, More r) -> Z.of_nat (length r) < 65535.
Proof.
  revert fs. induction bs as [bs IH] using parse_ind. intros fs. rewrite parse_step.
  destruct (head_of bs) as [h|] eqn:Eh.
  2: { intros [= <- <-]. apply head_of_None in Eh. lia. }
  destruct (len_ok h) eqn:El; [|done]. cbn [negb].
  pose proof (proj1 (len_ok_spec h) El) as Hl.
  unfold MESSAGE_LENGTH_LIMIT, MESSAGE_HEAD_LEN in Hl.
  destruct (Z.ltb_spec (Z.of_nat (length bs)) (8 + msglen h)).
  { intros [= <- <-]. lia. }
  case_bool_decide; [done|]. destruct (parse (after h bs)) as [fs1 t1] eqn:E1.
  intros [= <- ->]. by eapply IH.
Qed.
