(* ===== verification/TcpConn.v ===== *)
(** * TCPConn: a server connection (reactor/src/tcp_conn.cpp)

    The operations of a connection on the state [Net].  A message handler and a
    connection hook are parameters: functions of the callback pointer that may
    change the whole state.  [do_read] also returns the [router.call]s it makes,
    [do_write] the bytes the kernel took. *)

From S2P Require Import Prelude CInt IOBuf BufAlloc ReactorBuf Message.
From S2P Require Import EventLoop NetState Framing.
From Stdlib Require Import Strings.Byte.
Local Open Scope Z_scope.

Section TcpConn.
Context {P E V U : Type} `{BufAlloc P} `{Epoll E}.
Local Abbreviation Net := (Net P E V U).

(** [cb(data, len, msgid, conn, args)]; [data] is [None] for [NULL]. *)
Variable run_msg : V -> option (list byte) -> Z -> Z -> Z -> option V -> Net -> res Net.
(** [hook(conn, args)]; the argument is part of the pointer. *)
Variable run_hook : V -> Z -> Net -> res Net.

Definition run_opt_hook (h : option V) (c : Z) (w : Net) : res Net :=
  match h with Some h => run_hook h c w | None => Ret w end.

(** [TCPConn(connfd, loop)] and the pointer to it. *)
Definition TCPConn_new (connfd : Z) (w : Net) : res (Z * Net) :=
  let '(c, w) := new_conn (mkConn connfd None None None) w in
  w ← run_opt_hook (conn_start_cb (nt_srv w)) c w;
  cn ← get_conn c w;
  let w := set_ntloop (add_io_event (_connfd cn) conn_rd_callback EPOLLIN
                         (Some (arg_conn c)) (nt_loop w)) w in
  s ← increase_conn (_connfd cn) c (nt_srv w);
  Ret (c, set_ntsrv s w).

Definition get_fd (c : Z) (w : Net) : res Z := cn ← get_conn c w; Ret (_connfd cn).

Definition clean_conn (c : Z) (w : Net) : res Net :=
  w ← run_opt_hook (conn_close_cb (nt_srv w)) c w;
  cn ← get_conn c w;
  s ← decrease_conn (_connfd cn) (nt_srv w);
  let w := set_ntsrv s w in
  let w := set_ntloop (del_io_event (_connfd cn) (nt_loop w)) w in
  '(ib, p) ← rb_clear (ibuf cn) (nt_pool w);
  '(ob, p) ← rb_clear (obuf cn) p;
  let w := set_ntpool p (set_conn c (set_connfd (-1) (set_bufs ib ob cn)) w) in
  Ret (close_fd (_connfd cn) w).

(** [ibuf.pop(n)] of the connection [c]. *)
Definition ibuf_pop (n : Z) (c : Z) (w : Net) : res Net :=
  cn ← get_conn c w;
  '(ib, p) ← rb_pop n (ibuf cn) (nt_pool w);
  Ret (set_ntpool p (set_conn c (set_bufs ib (obuf cn) cn) w)).

(** [router.call(msgid, msglen, data, conn)] *)
Definition router_call (id len : Z) (data : option (list byte)) (c : Z) (w : Net)
    : res Net :=
  match call id (router (nt_srv w)) with
  | None => Ret w
  | Some (cb, arg) => run_msg cb data len id c arg w
  end.

(** The [while] of [do_read]; each round takes a head off the buffer.  [tr]
    collects the messages handed to the router. *)
Fixpoint read_loop (fuel : nat) (c : Z) (tr : list frame) (w : Net)
    : res (Net * list frame) :=
  match fuel with
  | O => Fault Blocked
  | S fuel =>
      cn ← get_conn c w;
      len ← rb_length (ibuf cn) (nt_pool w);
      if len <? MESSAGE_HEAD_LEN then Ret (w, tr)
      else
        data ← ib_data (ibuf cn) (nt_pool w);
        match data with
        | None => Fault NullDeref
        | Some bs =>
            match head_of bs with
            | None => Fault OutOfBounds
            | Some head =>
                if (MESSAGE_LENGTH_LIMIT <? msglen head) || (msglen head <? 0) then
                  w ← clean_conn c w; Ret (w, tr)
                else if len <? MESSAGE_HEAD_LEN + msglen head then Ret (w, tr)
                else
                  w ← ibuf_pop MESSAGE_HEAD_LEN c w;
                  cn ← get_conn c w;
                  data ← ib_data (ibuf cn) (nt_pool w);
                  w ← router_call (msgid head) (msglen head) data c w;
                  w ← ibuf_pop (msglen head) c w;
                  read_loop fuel c
                    (tr ++ [mkFrame (msgid head)
                              (take (Z.to_nat (msglen head)) (default [] data))]) w
            end
        end
  end.

Definition do_read (c : Z) (ioctl : option Z) (rs : list rd_ans) (w : Net)
    : res (Net * list frame) :=
  cn ← get_conn c w;
  '(ret, ib, p, _) ← read_data ioctl rs (ibuf cn) (nt_pool w);
  let w := set_ntpool p (set_conn c (set_bufs ib (obuf cn) cn) w) in
  if ret =? -1 then w ← clean_conn c w; Ret (w, [])
  else if ret =? 0 then w ← clean_conn c w; Ret (w, [])
  else
    len ← rb_length ib p;
    '(w, tr) ← read_loop (S (Z.to_nat len)) c [] w;
    cn ← get_conn c w;
    p ← ib_adjust (ibuf cn) (nt_pool w);
    Ret (set_ntpool p w, tr).

(** The [while (obuf.length())] of [do_write]: the last return value of
    [write2fd] (1 when there was none), the bytes written, the state. *)
Fixpoint write_loop (fuel : nat) (c : Z) (ws : list wr_ans) (tr : list byte) (w : Net)
    : res (Z * list byte * Net) :=
  match fuel with
  | O => Fault Blocked
  | S fuel =>
      cn ← get_conn c w;
      len ← rb_length (obuf cn) (nt_pool w);
      if len =? 0 then Ret (1, tr, w)
      else
        '(ret, sent, p, ws) ← write2fd ws (obuf cn) (nt_pool w);
        let w := set_ntpool p w in
        if ret =? -1 then Ret (-1, tr ++ sent, w)
        else if ret =? 0 then Ret (0, tr ++ sent, w)
        else write_loop fuel c ws (tr ++ sent) w
  end.

Definition do_write (c : Z) (ws : list wr_ans) (w : Net) : res (Net * list byte) :=
  '(ret, tr, w) ← write_loop (S (length ws)) c ws [] w;
  if ret =? -1 then w ← clean_conn c w; Ret (w, tr)
  else
    cn ← get_conn c w;
    len ← rb_length (obuf cn) (nt_pool w);
    if len =? 0 then
      Ret (set_ntloop (del_io_event_mask (_connfd cn) EPOLLOUT (nt_loop w)) w, tr)
    else Ret (w, tr).

(** [send_message(data, msglen, msgid)]: the return value and the state. *)
Definition send_message (data : list byte) (len id : Z) (c : Z) (w : Net)
    : res (Z * Net) :=
  cn ← get_conn c w;
  olen ← rb_length (obuf cn) (nt_pool w);
  let active_epollout := olen =? 0 in
  '(ret, ob, p) ← send_data (head_bytes (mkHead id len)) MESSAGE_HEAD_LEN
                    (obuf cn) (nt_pool w);
  let w := set_ntpool p (set_conn c (set_bufs (ibuf cn) ob cn) w) in
  if negb (ret =? 0) then Ret (-1, w)
  else
    '(ret, ob, p) ← send_data data len ob p;
    let w := set_ntpool p (set_conn c (set_bufs (ibuf cn) ob cn) w) in
    if negb (ret =? 0) then
      '(ob, p) ← rb_pop MESSAGE_HEAD_LEN ob p;
      Ret (-1, set_ntpool p (set_conn c (set_bufs (ibuf cn) ob cn) w))
    else
      Ret (0, if active_epollout
              then set_ntloop (add_io_event (_connfd cn) conn_wt_callback EPOLLOUT
                                 (Some (arg_conn c)) (nt_loop w)) w
              else w).

(** [callback_busi]: the echo handler. *)
Definition callback_busi (data : list byte) (len id c : Z) (w : Net) : res Net :=
  '(_, w) ← send_message data len id c w; Ret w.
End TcpConn.
