(* ===== verification/TcpConnInv.v ===== *)
(** * The invariant of a server connection

    [conn_inv z c cn w ib ob rest]: in the state [w] the connection [c] (the
    object [cn]) has received [ib] and not processed it, has [ob] to send, its
    two buffers are private ([rest] are the other buffers in use), its thread's
    loop watches its descriptor for reading, and for writing exactly while
    there is something to send, the connection table lists it, and the
    application's state is ready for the closing hook ([UI]). *)

From S2P Require Import Prelude CInt IOBuf BufAlloc ReactorBuf Message.
From S2P Require Import EventLoop NetState Framing TcpConn.
From Stdlib Require Import Strings.Byte.
Local Open Scope Z_scope.

Section Invariant.
Context {P E V U : Type} `{LP : BufAllocLaws P} `{LE : EpollLaws E}.
Local Abbreviation Net := (Net P E V U).
Local Abbreviation Loop := (EventLoop (io_cb V) (io_arg V) (V * option V) E).
Implicit Types (w : Net) (cn : TCPConn V) (ib ob : list byte).

(** What holds of the application's state: [UI cfg fds u] when it has set up
    [cfg], [fds] are the descriptors of the open connections and [u] is the
    state. *)
Context (UI : option V * option V * MsgRouter V V -> gset Z -> U -> Prop).

(** The event of a connection: read by [conn_rd_callback], and written by
    [conn_wt_callback] exactly when [ob] is not empty. *)
Definition watch_ev (c : Z) ob (ev : IOEvent (io_cb V) (io_arg V)) : Prop :=
  has_in (mask ev) = true /\
  read_callback ev = Some conn_rd_callback /\ rcb_args ev = Some (arg_conn c) /\
  has_out (mask ev) = bool_decide (ob <> []) /\
  (ob <> [] -> write_callback ev = Some conn_wt_callback /\ wcb_args ev = Some (arg_conn c)).

Definition watched (c fd : Z) ob (L : Loop) : Prop :=
  exists ev, io_evs L !! fd = Some ev /\ watch_ev c ob ev.

(** The two buffers of a connection among the buffers in use. *)
Definition bufs_ok (z : bool) (p : P) cn ib ob (bufs : gmap loc IOBuf) : Prop :=
  exists o r, ba_view p o /\ own z o (ibuf cn) ib r /\ own true r (obuf cn) ob bufs.

(** Everything but the connection: the other buffers in use, the other
    connections and their events, and what no connection changes. *)
Record Rest : Type := mkRest {
  r_bufs : gmap loc IOBuf;
  r_conns : gmap Z (TCPConn V);
  r_evs : gmap Z (IOEvent (io_cb V) (io_arg V));
  r_fds : gset Z;
  r_next : Z;
  r_max : Z;
  r_cfg : option V * option V * MsgRouter V V;
  r_tasks : vector (V * option V)
}.
Implicit Types rest : Rest.

Definition others (c fd : Z) (bufs : gmap loc IOBuf) w : Rest :=
  mkRest bufs (delete c (nt_conns w)) (delete fd (io_evs (nt_loop w)))
    (listed (nt_srv w) ∖ {[fd]}) (nt_next w) (_max_conns (nt_srv w)) (srv_cfg (nt_srv w))
    (ready_tasks (nt_loop w)).

Record conn_inv (z : bool) (c : Z) cn w ib ob rest : Prop := {
  ci_conn : nt_conns w !! c = Some cn;
  ci_bufs : bufs_ok z (nt_pool w) cn ib ob (r_bufs rest);
  ci_loop : loop_inv (nt_loop w);
  ci_watch : watched c (_connfd cn) ob (nt_loop w);
  ci_table : table_ok (nt_srv w);
  ci_listed : _connfd cn ∈ listed (nt_srv w);
  ci_user : UI (srv_cfg (nt_srv w)) (listed (nt_srv w)) (nt_user w);
  ci_rest : rest = others c (_connfd cn) (r_bufs rest) w
}.

(** What the events of the connection itself leave alone. *)
Ltac rest_done := etrans; [eassumption|]; unfold others; cbn; by rewrite ?delete_insert_eq.

(** The same two buffers, the output buffer first. *)
Lemma bufs_ok_out z p cn ib ob (bufs : gmap loc IOBuf) :
  bufs_ok z p cn ib ob bufs <->
  exists o r, ba_view p o /\ own true o (obuf cn) ob r /\ own z r (ibuf cn) ib bufs.
Proof.
  split; intros (o & r & Hv & H1 & H2);
    destruct (own_swap _ _ _ _ _ _ _ _ _ H1 H2) as (r' & ? & ?); by exists o, r'.
Qed.

Lemma conn_inv_get z c cn w ib ob rest :
  conn_inv z c cn w ib ob rest -> get_conn c w = Ret cn.
Proof. intros I. unfold get_conn. by rewrite (ci_conn _ _ _ _ _ _ _ I). Qed.

Lemma conn_inv_olen z c cn w ib ob rest :
  conn_inv z c cn w ib ob rest ->
  rb_length (obuf cn) (nt_pool w) = Ret (Z.of_nat (length ob)).
Proof.
  intros I. destruct (proj1 (bufs_ok_out _ _ _ _ _ _) (ci_bufs _ _ _ _ _ _ _ I))
    as (o & r & Hv & Ho & _). by eapply rb_length_ok.
Qed.

Lemma conn_inv_ilen z c cn w ib ob rest :
  conn_inv z c cn w ib ob rest ->
  rb_length (ibuf cn) (nt_pool w) = Ret (Z.of_nat (length ib)).
Proof.
  intros I. destruct (ci_bufs _ _ _ _ _ _ _ I) as (o & r & Hv & Ho & _).
  by eapply rb_length_ok.
Qed.

Lemma conn_inv_idata z c cn w ib ob rest :
  conn_inv z c cn w ib ob rest ->
  ib_data (ibuf cn) (nt_pool w) =
    Ret (match ibuf cn with None => None | Some _ => Some ib end).
Proof.
  intros I. destruct (ci_bufs _ _ _ _ _ _ _ I) as (o & r & Hv & Ho & _).
  by eapply ib_data_ok.
Qed.

(** New contents of the buffers; the watch is for the new output. *)
Lemma conn_inv_bufs z z' c cn w ib ob rest i' o' p' ib' ob' :
  conn_inv z c cn w ib ob rest ->
  bufs_ok z' p' (set_bufs i' o' cn) ib' ob' (r_bufs rest) ->
  bool_decide (ob' <> []) = bool_decide (ob <> []) ->
  conn_inv z' c (set_bufs i' o' cn) (set_ntpool p' (set_conn c (set_bufs i' o' cn) w))
    ib' ob' rest.
Proof.
  intros [Hc Hb Hl Hw Ht Hd Hu Hr] Hb' Hne. split; cbn; try done; [..|rest_done].
  - by rewrite lookup_insert_eq.
  - destruct Hw as (ev & Hev & Hin & Hrd & Hra & Hout & Hwr). exists ev.
    split; [done|]. rewrite <- Hne in Hout. do 4 (split; [done|]).
    intros Hn. apply Hwr. rewrite <- (bool_decide_eq_true (ob <> [])), <- Hne.
    by apply bool_decide_eq_true.
Qed.

(** A new state of the application. *)
Lemma conn_inv_user z c cn w ib ob rest u :
  conn_inv z c cn w ib ob rest -> UI (srv_cfg (nt_srv w)) (listed (nt_srv w)) u ->
  conn_inv z c cn (set_ntuser u w) ib ob rest.
Proof. intros [] Hu. by split. Qed.

(** Nothing happened to the buffers. *)
Lemma conn_inv_same z c cn w ib ob rest :
  conn_inv z c cn w ib ob rest ->
  conn_inv z c (set_bufs (ibuf cn) (obuf cn) cn)
    (set_ntpool (nt_pool w) (set_conn c (set_bufs (ibuf cn) (obuf cn) cn) w)) ib ob rest.
Proof. intros I. eapply conn_inv_bufs; [done| |done]. destruct cn. apply I. Qed.

Context (K : kernel_accepts (E := E)).

(** Activating [EPOLLOUT] *)
Lemma watched_activate c fd ob (L : Loop) :
  loop_inv L -> watched c fd [] L -> ob <> [] ->
  let L' := add_io_event fd conn_wt_callback EPOLLOUT (Some (arg_conn c)) L in
  loop_inv L' /\ watched c fd ob L' /\ delete fd (io_evs L') = delete fd (io_evs L) /\
  ready_tasks L' = ready_tasks L.
Proof.
  intros I (ev & Hev & Hin & Hr & Hra & Hout & Hwr) Hne L'. split_and!.
  3: apply delete_same; intros fd' Hfd; by apply add_io_event_other.
  3: apply add_io_event_tasks.
  - apply (reg_run_inv (RAdd fd conn_wt_callback true (Some (arg_conn c))) L K I).
  - eexists. split; [by apply add_io_event_out|].
    unfold watch_ev. cbn. rewrite has_in_lor, has_out_lor, Hin, orb_true_r.
    rewrite bool_decide_eq_true_2 by done. done.
Qed.

(** Cancelling it *)
Lemma watched_cancel c fd ob (L : Loop) :
  loop_inv L -> watched c fd ob L ->
  let L' := del_io_event_mask fd EPOLLOUT L in
  loop_inv L' /\ watched c fd [] L' /\ delete fd (io_evs L') = delete fd (io_evs L) /\
  ready_tasks L' = ready_tasks L.
Proof.
  intros I (ev & Hev & Hin & Hr & Hra & Hout & Hwr) L'. split_and!.
  3: apply delete_same; intros fd' Hfd; by apply del_io_event_mask_other.
  3: apply del_io_event_mask_tasks.
  - apply (reg_run_inv (RDelMask fd true) L K I).
  - eexists. split; [by apply del_io_event_mask_out|].
    unfold watch_ev. cbn -[bool_decide]. rewrite has_in_land, has_out_land, Hin.
    rewrite bool_decide_eq_false_2 by (intros Hn; by apply Hn).
    change (has_out (Z.lnot EPOLLOUT)) with false. rewrite andb_false_r. done.
Qed.

Lemma conn_inv_loop z c cn w ib ob ob' rest L :
  conn_inv z c cn w ib ob rest -> bufs_ok z (nt_pool w) cn ib ob' (r_bufs rest) ->
  loop_inv L -> watched c (_connfd cn) ob' L ->
  delete (_connfd cn) (io_evs L) = delete (_connfd cn) (io_evs (nt_loop w)) ->
  ready_tasks L = ready_tasks (nt_loop w) ->
  conn_inv z c cn (set_ntloop L w) ib ob' rest.
Proof.
  intros [] Hb HL Hw Hd Htk. split; cbn; try done. etrans; [eassumption|]. unfold others. cbn.
  by rewrite Hd, Htk.
Qed.

(** ** send_message *)

(** A message that fits behind the pending output is appended whole. *)
Lemma send_message_fits z c cn w ib ob rest data id :
  conn_inv z c cn w ib ob rest ->
  Z.of_nat (length ob) + 8 + Z.of_nat (length data) <= ba_max ->
  exits_or (send_message data (Z.of_nat (length data)) id c w) (fun '(ret, w') =>
    ret = 0 /\ exists cn', ibuf cn' = ibuf cn /\ _connfd cn' = _connfd cn /\
    param cn' = param cn /\ nt_srv w' = nt_srv w /\ nt_user w' = nt_user w /\
    conn_inv z c cn' w' ib
      (ob ++ head_bytes (mkHead id (Z.of_nat (length data))) ++ data) rest).
Proof.
  intros I Hfit. pose proof ba_max_ok as Hmax. unfold send_message.
  rewrite (conn_inv_get _ _ _ _ _ _ _ I). cbn [mbind res_bind].
  rewrite (conn_inv_olen _ _ _ _ _ _ _ I). cbn [mbind res_bind].
  destruct (proj1 (bufs_ok_out _ _ _ _ _ _) (ci_bufs _ _ _ _ _ _ _ I))
    as (o & r & Hv & Ho & Hi).
  set (hd := head_bytes _).
  assert (Hhd : Z.of_nat (length hd) = MESSAGE_HEAD_LEN) by done.
  rewrite <- Hhd.
  eapply exits_or_bind; [by apply (send_data_ok _ _ _ _ _ hd Hv Ho)|].
  intros [[ret ob1] p1]. rewrite (proj2 (Z.leb_le _ _)) by (change (length hd) with 8%nat; lia).
  intros (-> & _ & o1 & Hv1 & Ho1). cbn [negb Z.eqb].
  eapply exits_or_bind; [apply (send_data_ok _ _ _ _ _ data Hv1 Ho1); lia|].
  intros [[ret ob2] p2].
  rewrite (proj2 (Z.leb_le _ _)) by (rewrite length_app; change (length hd) with 8%nat; lia).
  intros (-> & _ & o2 & Hv2 & Ho2). cbn [negb Z.eqb exits_or].
  rewrite <- app_assoc in Ho2. split; [done|].
  exists (set_bufs (ibuf cn) ob2 cn). do 3 (split; [done|]).
  do 2 (split; [by destruct (_ =? 0)|]).
  assert (Hne : ob ++ hd ++ data <> []) by (by intros [_ ?]%app_eq_nil).
  assert (Hb2 : bufs_ok z p2 (set_bufs (ibuf cn) ob2 cn) ib (ob ++ hd ++ data) (r_bufs rest)).
  { apply bufs_ok_out. by exists o2, r. }
  destruct I as [Hc Hb HL Hw Ht Hd Hu Hrest].
  destruct (Z.eqb_spec (Z.of_nat (length ob)) 0) as [E0|E0].
  - assert (ob = []) as -> by (apply nil_length_inv; lia).
    destruct (watched_activate c (_connfd cn) _ _ HL Hw Hne) as (HL' & Hw' & Hd' & Htk).
    split; cbn; try done; [by rewrite lookup_insert_eq|]. etrans; [exact Hrest|].
    unfold others. cbn. by rewrite !delete_insert_eq, Hd', Htk.
  - assert (ob <> []) by (intros ->; done).
    split; cbn; try done; [by rewrite lookup_insert_eq| |rest_done].
    destruct Hw as (ev & Hev & Hin & Hr & Hra & Hout & Hwr). exists ev.
    split; [done|]. rewrite bool_decide_eq_true_2 in Hout by done.
    unfold watch_ev. rewrite bool_decide_eq_true_2 by done.
    split_and!; try done; intros; by apply Hwr.
Qed.

(** A message of which not even the head fits is refused. *)
Lemma send_message_full z c cn w ib ob rest data id :
  conn_inv z c cn w ib ob rest -> ba_max < Z.of_nat (length ob) + 8 ->
  exits_or (send_message data (Z.of_nat (length data)) id c w) (fun '(ret, w') =>
    ret = -1 /\ conn_inv z c cn w' ib ob rest).
Proof.
  intros I Hfit. unfold send_message.
  rewrite (conn_inv_get _ _ _ _ _ _ _ I). cbn [mbind res_bind].
  rewrite (conn_inv_olen _ _ _ _ _ _ _ I). cbn [mbind res_bind].
  destruct (proj1 (bufs_ok_out _ _ _ _ _ _) (ci_bufs _ _ _ _ _ _ _ I))
    as (o & r & Hv & Ho & Hi).
  set (hd := head_bytes _). change MESSAGE_HEAD_LEN with (Z.of_nat (length hd)).
  eapply exits_or_bind; [by apply (send_data_ok _ _ _ _ _ hd Hv Ho)|].
  intros [[ret ob1] p1]. rewrite (proj2 (Z.leb_gt _ _)) by (change (length hd) with 8%nat; lia).
  intros (-> & -> & ->). cbn. split; [done|].
  replace cn with (set_bufs (ibuf cn) (obuf cn) cn) at 1 by (by destruct cn).
  eapply conn_inv_bufs; [done| |done]. destruct cn. apply I.
Qed.

(** [pop] of a part of the contents moves the head. *)
Lemma rb_pop_part p o l bs (bufs : gmap loc IOBuf) k :
  ba_view p o -> own true o (Some l) bs bufs -> (k < length bs)%nat ->
  safe (rb_pop (Z.of_nat k) (Some l) p) (fun '(rb', p') => rb' = Some l /\
    bufs !! l = None /\ exists b, ba_view p' (<[l := b]> bufs) /\
      holds b (drop k bs) /\ io_head b = Z.of_nat k).
Proof.
  intros Hv Ho Hk. destruct (own_deref _ _ _ _ _ _ Hv Ho) as (b & E1 & -> & Hl & Hb & Hz).
  unfold rb_pop. rewrite E1. cbn [mbind res_bind].
  pose proof (holds_length _ _ Hb) as Hlen.
  rewrite (proj2 (Z.leb_le _ _)) by lia. cbn [c_assert mbind res_bind].
  change (io_length (pop (Z.of_nat k) b)) with (io_length b - Z.of_nat k).
  rewrite (proj2 (Z.eqb_neq _ _)) by lia. cbn. do 2 (split; [done|]).
  exists (pop (Z.of_nat k) b). split; [by eapply view_update|].
  split; [apply pop_holds; [done|lia]|]. cbn. specialize (Hz eq_refl). lia.
Qed.

(** A message of which only the head fits: without pending output, the state
    is as before; otherwise the roll-back takes eight bytes of the pending
    output and leaves the head. *)
Lemma send_message_rollback z c cn w ib ob rest data id :
  conn_inv z c cn w ib ob rest -> Z.of_nat (length data) <= 2 ^ 30 ->
  Z.of_nat (length ob) + 8 <= ba_max < Z.of_nat (length ob) + 8 + Z.of_nat (length data) ->
  exits_or (send_message data (Z.of_nat (length data)) id c w) (fun '(ret, w') =>
    ret = -1 /\ exists cn', _connfd cn' = _connfd cn /\ ibuf cn' = ibuf cn /\
    if decide (ob = []) then conn_inv z c cn' w' ib ob rest
    else nt_conns w' !! c = Some cn' /\ exists l b o r,
      obuf cn' = Some l /\ ba_view (nt_pool w') o /\ o = <[l := b]> r /\
      r !! l = None /\ own z r (ibuf cn') ib (r_bufs rest) /\ io_head b = 8 /\
      holds b (drop 8 (ob ++ head_bytes (mkHead id (Z.of_nat (length data)))))).
Proof.
  intros I Hd Hfit. unfold send_message.
  rewrite (conn_inv_get _ _ _ _ _ _ _ I). cbn [mbind res_bind].
  rewrite (conn_inv_olen _ _ _ _ _ _ _ I). cbn [mbind res_bind].
  destruct (proj1 (bufs_ok_out _ _ _ _ _ _) (ci_bufs _ _ _ _ _ _ _ I))
    as (o & r & Hv & Ho & Hi).
  set (hd := head_bytes _).
  assert (Hhd : length hd = 8%nat) by done.
  change MESSAGE_HEAD_LEN with (Z.of_nat (length hd)).
  eapply exits_or_bind; [by apply (send_data_ok _ _ _ _ _ hd Hv Ho)|].
  intros [[ret ob1] p1]. rewrite (proj2 (Z.leb_le _ _)) by lia.
  intros (-> & _ & o1 & Hv1 & Ho1). cbn [negb Z.eqb].
  eapply exits_or_bind; [by apply (send_data_ok _ _ _ _ _ data Hv1 Ho1)|].
  intros [[ret ob2] p2].
  rewrite (proj2 (Z.leb_gt _ _)) by (rewrite length_app; lia).
  intros (-> & -> & ->). cbn [negb Z.eqb].
  destruct ob1 as [l|]; [|by destruct Ho1 as [[_ ?]%app_eq_nil _]].
  case_decide as Hne.
  - subst ob. eapply exits_or_bind.
    { apply safe_exits_or, (rb_pop_ok _ _ _ _ _ _ (length hd) Hv1 Ho1). done. }
    intros [rb3 p3] (o3 & Hv3 & Ho3 & Erb). cbn [app] in *.
    rewrite bool_decide_eq_true_2 in Erb by done. subst rb3.
    rewrite drop_all in Ho3. cbn. split; [done|].
    exists (set_bufs (ibuf cn) None cn). do 2 (split; [done|]).
    destruct I as [Hc Hb HL Hw Ht Hd' Hu Hrest]. split; cbn; try done; [..|rest_done].
    + by rewrite lookup_insert_eq.
    + apply bufs_ok_out. by exists o3, r.
  - eapply exits_or_bind.
    { apply safe_exits_or, (rb_pop_part _ _ _ _ _ (length hd) Hv1 Ho1).
      rewrite length_app. destruct ob; [done|]. cbn. lia. }
    intros [rb3 p3] (-> & Hl & b & Hv3 & Hb & Hh). cbn. split; [done|].
    exists (set_bufs (ibuf cn) (Some l) cn). do 2 (split; [done|]).
    split; [by rewrite lookup_insert_eq|].
    exists l, b, (<[l := b]> r), r. rewrite Hhd in Hb, Hh. done.
Qed.

(** ** Hooks and clean_conn *)

Context (run_hook : V -> Z -> Net -> res Net).
(** The effects of the hooks: [hooked h fd u u'] when the call of [h] for the
    connection on [fd] may take the application's state from [u] to [u']. *)
Context (hooked : V -> Z -> U -> U -> Prop).

Definition opt_hooked (h : option V) (fd : Z) (u u' : U) : Prop :=
  match h with Some h => hooked h fd u u' | None => u' = u end.

(** A connection hook may set [conn->param] and the application's state. *)
Definition hook_runs (h : option V) (c : Z) w cn (Q : U -> Prop) : Prop :=
  exists v u, run_opt_hook run_hook h c w = Ret (set_ntuser u (set_conn c (set_param v cn) w)) /\
    Q u.

(** The closing hook keeps [UI], for the connections that stay. *)
Definition hook_ok : Prop := forall c w cn,
  let s := nt_srv w in
  nt_conns w !! c = Some cn -> _connfd cn ∈ listed s -> UI (srv_cfg s) (listed s) (nt_user w) ->
  hook_runs (conn_close_cb s) c w cn (fun u => UI (srv_cfg s) (listed s ∖ {[_connfd cn]}) u /\
    opt_hooked (conn_close_cb s) (_connfd cn) (nt_user w) u).

(** The opening hook extends it to the new one. *)
Definition start_ok (cfg : option V * option V * MsgRouter V V) : Prop := forall c w cn,
  let s := nt_srv w in
  nt_conns w !! c = Some cn -> srv_cfg s = cfg -> _connfd cn ∉ listed s ->
  UI cfg (listed s) (nt_user w) ->
  hook_runs (conn_start_cb s) c w cn (fun u => UI cfg ({[_connfd cn]} ∪ listed s) u /\
    opt_hooked (conn_start_cb s) (_connfd cn) (nt_user w) u).

(** No hook *)
Lemma hook_runs_None c w cn Q :
  nt_conns w !! c = Some cn -> Q (nt_user w) -> hook_runs None c w cn Q.
Proof.
  intros Hc HQ. exists (param cn), (nt_user w). split; [|done]. cbn. f_equal.
  destruct w as [p l cs n s op u], cn.
  unfold set_ntuser, set_conn, set_param. cbn in *. by rewrite insert_id.
Qed.

Record conn_closed (c fd : Z) w w' rest : Prop := {
  cc_conn : exists v, nt_conns w' !! c = Some (mkConn (-1) None None v);
  cc_pool : ba_view (nt_pool w') (r_bufs rest);
  cc_loop : loop_inv (nt_loop w');
  cc_event : forall fd', io_evs (nt_loop w') !! fd' =
    if decide (fd = fd') then None else io_evs (nt_loop w) !! fd';
  cc_table : table_ok (nt_srv w');
  cc_listed : listed (nt_srv w') = listed (nt_srv w) ∖ {[fd]};
  cc_open : nt_open w' = nt_open w ∖ {[fd]};
  cc_user : UI (srv_cfg (nt_srv w')) (listed (nt_srv w')) (nt_user w');
  cc_hook : opt_hooked (conn_close_cb (nt_srv w')) fd (nt_user w) (nt_user w');
  cc_rest : rest = others c fd (r_bufs rest) w'
}.

Context (Hhook : hook_ok).

Lemma clean_conn_ok z c cn w ib ob rest :
  conn_inv z c cn w ib ob rest ->
  safe (clean_conn run_hook c w) (fun w' => conn_closed c (_connfd cn) w w' rest).
Proof.
  intros [Hc Hb HL Hw Ht Hd Hu Hrest]. unfold clean_conn.
  destruct (Hhook c w cn Hc Hd Hu) as (v & u & -> & Hu' & Hk).
  cbn [mbind res_bind]. unfold get_conn. cbn [nt_conns set_ntuser set_conn].
  rewrite lookup_insert_eq. cbn [mbind res_bind _connfd set_param nt_srv set_ntuser set_conn].
  eapply safe_bind; [by apply decrease_conn_ok|].
  intros s (Ht' & Hl' & _ & Hmx & Hrt & Hst & Hcl).
  assert (Hcfg : srv_cfg s = srv_cfg (nt_srv w)) by (unfold srv_cfg; congruence).
  destruct Hb as (o & r & Hv & Hi & Ho). cbn [ibuf set_param obuf].
  cbn [nt_pool set_ntloop set_ntsrv set_ntuser set_conn].
  eapply safe_bind; [by apply (rb_clear_ok _ _ _ _ _ _ Hv Hi)|].
  intros [ib' p1] [-> Hv1].
  eapply safe_bind; [by apply (rb_clear_ok _ _ _ _ _ _ Hv1 Ho)|].
  intros [ob' p2] [-> Hv2]. cbn. split; cbn; try done.
  - exists v. by rewrite lookup_insert_eq.
  - by apply del_io_event_inv.
  - intros fd'. rewrite lookup_delete. done.
  - by rewrite Hl', Hcfg.
  - by rewrite Hcl.
  - etrans; [exact Hrest|]. unfold others. cbn.
    rewrite !delete_insert_eq, delete_delete_eq, Hl', Hmx, Hcfg. f_equal. clear. set_solver.
Qed.

(** ** A new connection *)

(** What was there before a connection. *)
Definition before (bufs : gmap loc IOBuf) w : Rest :=
  mkRest bufs (delete (nt_next w) (nt_conns w)) (io_evs (nt_loop w)) (listed (nt_srv w))
    (nt_next w + 1) (_max_conns (nt_srv w)) (srv_cfg (nt_srv w)) (ready_tasks (nt_loop w)).

Lemma TCPConn_new_ok fd w bufs :
  ba_view (nt_pool w) bufs -> loop_inv (nt_loop w) -> io_evs (nt_loop w) !! fd = None ->
  table_ok (nt_srv w) -> in_table fd (nt_srv w) -> fd ∉ listed (nt_srv w) ->
  start_ok (srv_cfg (nt_srv w)) -> UI (srv_cfg (nt_srv w)) (listed (nt_srv w)) (nt_user w) ->
  safe (TCPConn_new run_hook fd w) (fun '(c, w') => c = nt_next w /\
    exists cn, _connfd cn = fd /\ conn_inv true c cn w' [] [] (before bufs w) /\
    listed (nt_srv w') = {[fd]} ∪ listed (nt_srv w) /\
    _curr_conns (nt_srv w') = _curr_conns (nt_srv w) + 1 /\
    _max_conns (nt_srv w') = _max_conns (nt_srv w) /\ nt_pool w' = nt_pool w /\
    nt_next w' = nt_next w + 1 /\
    srv_cfg (nt_srv w') = srv_cfg (nt_srv w) /\
    ready_tasks (nt_loop w') = ready_tasks (nt_loop w) /\
    opt_hooked (conn_start_cb (nt_srv w)) fd (nt_user w) (nt_user w') /\
    (forall fd', fd' <> fd -> io_evs (nt_loop w') !! fd' = io_evs (nt_loop w) !! fd')).
Proof.
  intros Hv HL Hev Ht Hin Hnl Hst Hui. unfold TCPConn_new, new_conn. cbv beta iota zeta.
  set (w0 := mkNet _ _ _ _ _ _ _).
  assert (Hc : nt_conns w0 !! nt_next w = Some (mkConn fd None None None)) by
    apply lookup_insert_eq.
  destruct (Hst _ w0 _ Hc eq_refl Hnl Hui) as (v & u & -> & Hu & Hk).
  cbn [mbind res_bind]. unfold get_conn. cbn [nt_conns set_ntuser set_conn].
  rewrite lookup_insert_eq. cbn [mbind res_bind _connfd set_param nt_srv set_ntuser set_conn].
  eapply safe_bind; [by apply (increase_conn_ok fd (nt_next w) _ Ht Hin Hnl)|].
  intros s (Ht' & Hl' & Hcnt & Hmx & Hrt & Hst' & Hcl'). cbn. split; [done|].
  exists (mkConn fd None None v). split; [done|]. split.
  2: { do 5 (split; [done|]). split; [unfold srv_cfg; by rewrite Hst', Hcl', Hrt|].
       split; [apply add_io_event_tasks|]. split; [exact Hk|]. intros fd' Hne. by apply
         add_io_event_other. }
  pose proof (add_io_event_in fd conn_rd_callback (Some (arg_conn (nt_next w))) _ Hev) as Hnew.
  split; cbn; try done.
  - by rewrite lookup_insert_eq.
  - by exists bufs, bufs.
  - apply (reg_run_inv (RAdd fd conn_rd_callback false (Some (arg_conn (nt_next w)))) _ K HL).
  - eexists. split; [exact Hnew|]. done.
  - rewrite Hl'. by apply elem_of_union_l, elem_of_singleton_2.
  - unfold srv_cfg. rewrite Hst', Hcl', Hrt, Hl'. exact Hu.
  - unfold before, others. cbn. rewrite !delete_insert_eq, Hl', Hmx. unfold srv_cfg.
    rewrite Hst', Hcl', Hrt, add_io_event_tasks. f_equal; [|clear -Hnl; set_solver].
    rewrite (delete_same _ (io_evs (nt_loop w)) fd); [by rewrite delete_id|].
    intros fd' Hne. by apply add_io_event_other.
Qed.

(** ** do_read *)

(** Nothing is left of the connection; [u] is the application's state before
    the closing hook. *)
Record conn_gone (c fd : Z) (u : U) w rest : Prop := {
  cg_conn : exists v, nt_conns w !! c = Some (mkConn (-1) None None v);
  cg_pool : ba_view (nt_pool w) (r_bufs rest);
  cg_loop : loop_inv (nt_loop w);
  cg_event : io_evs (nt_loop w) !! fd = None;
  cg_table : table_ok (nt_srv w);
  cg_listed : fd ∉ listed (nt_srv w);
  cg_open : fd ∉ nt_open w;
  cg_user : UI (srv_cfg (nt_srv w)) (listed (nt_srv w)) (nt_user w);
  cg_hook : opt_hooked (conn_close_cb (nt_srv w)) fd u (nt_user w);
  cg_rest : rest = others c fd (r_bufs rest) w
}.

Lemma conn_closed_gone c fd w0 w rest :
  conn_closed c fd w0 w rest -> conn_gone c fd (nt_user w0) w rest.
Proof.
  clear Hhook K. intros [Hc Hp HL He Ht Hl Ho Hu Hk Hr]. split; try done.
  - by rewrite He, decide_True.
  - rewrite Hl. set_solver.
  - rewrite Ho. set_solver.
Qed.

Lemma clean_conn_gone {A} z c cn w ib ob rest (a : A) :
  conn_inv z c cn w ib ob rest ->
  exits_or (w' ← clean_conn run_hook c w; Ret (w', a)) (fun '(w', a') =>
    a' = a /\ conn_gone c (_connfd cn) (nt_user w) w' rest).
Proof.
  intros I. eapply exits_or_bind; [by apply safe_exits_or, (clean_conn_ok _ _ _ _ _ _ _ I)|].
  intros w' Hw'. cbn. split; [done|]. exact (conn_closed_gone _ _ _ _ _ Hw').
Qed.

Lemma ibuf_pop_ok z c cn w ib ob rest l k :
  conn_inv z c cn w ib ob rest -> ibuf cn = Some l -> (k <= length ib)%nat ->
  safe (ibuf_pop (Z.of_nat k) c w) (fun w' => exists cn',
    conn_inv false c cn' w' (drop k ib) ob rest /\ _connfd cn' = _connfd cn /\
    nt_srv w' = nt_srv w /\ nt_user w' = nt_user w /\
    ibuf cn' = if bool_decide (k = length ib) then None else Some l).
Proof.
  intros I Hl Hk. unfold ibuf_pop. rewrite (conn_inv_get _ _ _ _ _ _ _ I). cbn [mbind res_bind].
  destruct (ci_bufs _ _ _ _ _ _ _ I) as (o & r & Hv & Hi & Ho). rewrite Hl in *.
  eapply safe_bind; [by apply (rb_pop_ok _ _ _ _ _ _ _ Hv Hi Hk)|].
  intros [ib' p'] (o' & Hv' & Hi' & Erb). cbn.
  exists (set_bufs ib' (obuf cn) cn). split; [|done].
  eapply conn_inv_bufs; [done| |done]. exists o', r. done.
Qed.

Context (run_msg : V -> option (list byte) -> Z -> Z -> Z -> option V -> Net -> res Net).
(** What a message handler adds to the output, at most; and its effect:
    [eff cb arg f fd u u' out] when the call of [cb] for the message [f] may
    take the application's state from [u] to [u'] and reply [out]. *)
Context (grow : nat) (eff : V -> option V -> frame -> Z -> U -> U -> list byte -> Prop).

(** A message handler may send replies on the connection and change the
    application's state. *)
Definition handled (c : Z) cn w ib ob rest (R : U -> list byte -> Prop) (w' : Net) : Prop :=
  exists cn' out, conn_inv false c cn' w' ib (ob ++ out) rest /\
    ibuf cn' = ibuf cn /\ _connfd cn' = _connfd cn /\ nt_srv w' = nt_srv w /\
    (length out <= grow)%nat /\ R (nt_user w') out.

Definition msg_ok : Prop := forall cb data len id c arg w cn ib ob rest,
  conn_inv false c cn w ib ob rest -> call id (router (nt_srv w)) = Some (cb, arg) ->
  0 <= len <= MESSAGE_LENGTH_LIMIT -> len <= Z.of_nat (length (default [] data)) ->
  Z.of_nat (length ob + grow) <= ba_max ->
  exits_or (run_msg cb data len id c arg w) (handled c cn w ib ob rest
    (eff cb arg (mkFrame id (take (Z.to_nat len) (default [] data))) (_connfd cn) (nt_user w))).

(** What the router [rt] makes of a message, and of several. *)
Definition serve (rt : MsgRouter V V) (fd : Z) (f : frame) (u u' : U) (out : list byte) : Prop :=
  match call (f_id f) rt with
  | None => u' = u /\ out = []
  | Some (cb, arg) => eff cb arg f fd u u' out
  end.

Inductive served (rt : MsgRouter V V) (fd : Z) : list frame -> U -> U -> list byte -> Prop :=
  | served_nil u : served rt fd [] u u []
  | served_cons f fs u u1 u2 out1 out2 :
      serve rt fd f u u1 out1 -> served rt fd fs u1 u2 out2 ->
      served rt fd (f :: fs) u u2 (out1 ++ out2).

Lemma served_app rt fd fs1 fs2 u u1 u2 out1 out2 :
  served rt fd fs1 u u1 out1 -> served rt fd fs2 u1 u2 out2 ->
  served rt fd (fs1 ++ fs2) u u2 (out1 ++ out2).
Proof.
  intros H1 H2. induction H1 as [u|f fs u u0 u1 o1 o2 Hf _ IH]; [done|].
  cbn [app]. rewrite <- app_assoc. econstructor; [exact Hf|by apply IH].
Qed.

Context (Hmsg : msg_ok).

Lemma router_call_ok data len id c w cn ib ob rest :
  conn_inv false c cn w ib ob rest ->
  0 <= len <= MESSAGE_LENGTH_LIMIT -> len <= Z.of_nat (length (default [] data)) ->
  Z.of_nat (length ob + grow) <= ba_max ->
  exits_or (router_call run_msg id len data c w) (handled c cn w ib ob rest
    (serve (router (nt_srv w)) (_connfd cn) (mkFrame id (take (Z.to_nat len) (default [] data)))
       (nt_user w))).
Proof.
  intros I Hlen Hd Hg. unfold router_call, serve. cbn [f_id].
  destruct (call id (router (nt_srv w))) as [[cb arg]|] eqn:Ec.
  - by apply (Hmsg cb data len id c arg w cn ib ob rest).
  - exists cn, []. rewrite app_nil_r. split_and!; try done. cbn. lia.
Qed.

(** The state of the connection after the router has served [fs]. *)
Definition conn_served (z : bool) (c fd : Z) (s : TCPServer V) (u : U) ob rest
    (fs : list frame) (ib : list byte) (w' : Net) : Prop :=
  exists cn' out, conn_inv z c cn' w' ib (ob ++ out) rest /\ _connfd cn' = fd /\
    nt_srv w' = s /\ served (router s) fd fs u (nt_user w') out /\
    (length out <= grow * length fs)%nat.

(** The connection is closed after that. *)
Definition conn_ended (c fd : Z) (s : TCPServer V) (u : U) rest (fs : list frame) (w' : Net)
    : Prop :=
  exists u1 out, served (router s) fd fs u u1 out /\ conn_gone c fd u1 w' rest.

(** What the loop makes of the bytes [ib], from the state [u] of the
    application. *)
Definition read_result (z : bool) (m : res (Net * list frame)) (c fd : Z) (s : TCPServer V)
    (u : U) ob rest (tr fs : list frame) (t : tail) : Prop :=
  match t with
  | More r => exits_or m (fun '(w', tr') => tr' = tr ++ fs /\ conn_served z c fd s u ob rest fs
    r w')
  | BadHead => exits_or m (fun '(w', tr') => tr' = tr ++ fs /\ conn_ended c fd s u rest fs w')
  | EmptyAtEnd _ => m = Fault AssertFail \/ m = Fault ExitFail
  end.

Lemma exits_or_EmptyAtEnd {A B} (m : res A) (k : A -> res B) Q :
  exits_or m Q -> (forall a, Q a -> k a = Fault AssertFail \/ k a = Fault ExitFail) ->
  (m ≫= k) = Fault AssertFail \/ (m ≫= k) = Fault ExitFail.
Proof. destruct m as [a|[]]; cbn; auto; try done. Qed.

Lemma read_result_bind {A} z (m : res A) k Q c fd s u ob rest tr fs t :
  exits_or m Q -> (forall a, Q a -> read_result z (k a) c fd s u ob rest tr fs t) ->
  read_result z (m ≫= k) c fd s u ob rest tr fs t.
Proof.
  intros Hm Hk. destruct m as [a|f]; cbn in *; [by apply Hk|].
  destruct f; try done. destruct t; cbn; auto.
Qed.

Lemma read_result_frame z m c fd s u u1 ob out rest tr f fs t :
  serve (router s) fd f u u1 out -> (length out <= grow)%nat ->
  read_result z m c fd s u1 (ob ++ out) rest (tr ++ [f]) fs t ->
  read_result z m c fd s u ob rest tr (f :: fs) t.
Proof.
  intros Hs Hle. unfold read_result. rewrite <- app_assoc. cbn [app].
  destruct t; [| |done]; intros Hm; (eapply exits_or_mono; [exact Hm|]).
  - intros [w' tr'] (-> & cn' & out2 & I & Hfd & Hsrv & Hs2 & Hle2). split; [done|].
    exists cn', (out ++ out2). rewrite app_assoc. do 3 (split; [done|]).
    split; [by econstructor|]. rewrite length_app. cbn. lia.
  - intros [w' tr'] (-> & u2 & out2 & Hs2 & G). split; [done|].
    exists u2, (out ++ out2). split; [by econstructor|done].
Qed.

Lemma conn_served_nil z c cn w ib ob rest :
  conn_inv z c cn w ib ob rest ->
  conn_served z c (_connfd cn) (nt_srv w) (nt_user w) ob rest [] ib w.
Proof.
  intros I. exists cn, []. rewrite app_nil_r. split_and!; try done; [constructor|cbn; lia].
Qed.

(** One step of the loop hands one frame to the router. *)
Lemma read_loop_ok c rest fuel : forall tr w cn ib ob,
  conn_inv false c cn w ib ob rest -> (length ib < fuel)%nat ->
  Z.of_nat (length ob + grow * S (length (parse ib).1)) <= ba_max ->
  read_result false (read_loop run_msg run_hook fuel c tr w) c (_connfd cn) (nt_srv w)
    (nt_user w) ob rest tr (parse ib).1 (parse ib).2.
Proof.
  induction fuel as [|fuel IH]; intros tr w cn ib ob I Hf Hg; [lia|].
  cbn [read_loop]. rewrite (conn_inv_get _ _ _ _ _ _ _ I). cbn [mbind res_bind].
  rewrite (conn_inv_ilen _ _ _ _ _ _ _ I). cbn [mbind res_bind].
  rewrite (conn_inv_idata _ _ _ _ _ _ _ I). cbn [mbind res_bind].
  rewrite parse_step in Hg |- *.
  destruct (Z.ltb_spec (Z.of_nat (length ib)) MESSAGE_HEAD_LEN) as [Hs|Hs];
    unfold MESSAGE_HEAD_LEN in Hs.
  { rewrite (proj2 (head_of_None ib)) by lia. cbn. rewrite app_nil_r.
    split; [done|]. by apply conn_served_nil. }
  destruct (head_of_Some ib ltac:(lia)) as [h Eh]. rewrite Eh in Hg |- *.
  destruct (ibuf cn) as [l|] eqn:El.
  2: { destruct (ci_bufs _ _ _ _ _ _ _ I) as (o & r & _ & Hi & _). rewrite El in Hi.
       destruct Hi as [-> _]. cbn in Hs. lia. }
  rewrite Eh, len_ok_neg. destruct (len_ok h) eqn:Ek; cbn [negb] in Hg |- *.
  2: { cbn [read_result fst snd].
       rewrite app_nil_r. eapply exits_or_mono; [apply (clean_conn_gone _ _ _ _ _ _ _ tr I)|].
       intros [w' tr'] [-> G]. split; [done|]. exists (nt_user w), []. split; [constructor|done]. }
  pose proof (proj1 (len_ok_spec h) Ek) as Hl.
  change (MESSAGE_HEAD_LEN + msglen h) with (8 + msglen h).
  destruct (Z.ltb_spec (Z.of_nat (length ib)) (8 + msglen h)) as [Hsh|Hsh].
  { cbn. rewrite app_nil_r. split; [done|]. by apply conn_served_nil. }
  (* a complete frame: its head is popped *)
  pose proof (ibuf_pop_ok _ _ _ _ _ _ _ l 8 I El ltac:(lia)) as Hp1.
  destruct (decide (drop 8 ib = [])) as [Hd|Hd];
    [rewrite (bool_decide_eq_true_2 _ Hd) in Hg |- *|rewrite (bool_decide_eq_false_2 _ Hd) in
      Hg |- *];
    cbn [fst snd] in Hg |- *.
  - (* the buffer is empty now *)
    assert (length ib = 8%nat) as L8.
    { apply (f_equal length) in Hd. rewrite length_drop in Hd. cbn in Hd. lia. }
    rewrite bool_decide_eq_true_2 in Hp1 by done.
    apply safe_Ret in Hp1 as (w1 & E1 & cn1 & I1 & _ & _ & _ & Hn1). unfold MESSAGE_HEAD_LEN.
    change 8 with (Z.of_nat 8). rewrite E1. cbn [mbind res_bind].
    rewrite (conn_inv_get _ _ _ _ _ _ _ I1). cbn [mbind res_bind].
    rewrite (conn_inv_idata _ _ _ _ _ _ _ I1), Hn1. cbn [mbind res_bind read_result].
    eapply exits_or_EmptyAtEnd.
    { apply (router_call_ok None (msglen h) (msgid h) c w1 _ _ _ _ I1); cbn; lia. }
    intros w2 (cn2 & out & I2 & Hn2 & _). unfold ibuf_pop.
    rewrite (conn_inv_get _ _ _ _ _ _ _ I2). cbn [mbind res_bind].
    rewrite Hn2, Hn1. cbn. by left.
  - rewrite bool_decide_eq_false_2 in Hp1.
    2: { intros E8. apply Hd. apply nil_length_inv. rewrite length_drop. lia. }
    apply safe_Ret in Hp1 as (w1 & E1 & cn1 & I1 & Hfd1 & Hs1 & Hu1 & Hn1).
    unfold MESSAGE_HEAD_LEN.
    change 8 with (Z.of_nat 8). rewrite E1. cbn [mbind res_bind].
    rewrite (conn_inv_get _ _ _ _ _ _ _ I1). cbn [mbind res_bind].
    rewrite (conn_inv_idata _ _ _ _ _ _ _ I1), Hn1. cbn [mbind res_bind default].
    unfold after, body_of in Hg |- *. set (ib1 := drop 8 ib) in *.
    assert (L1 : length ib1 = (length ib - 8)%nat) by apply length_drop.
    destruct (parse (drop (Z.to_nat (msglen h)) ib1)) as [fs t] eqn:Ep. cbn [fst snd] in Hg |- *.
    eapply read_result_bind.
    { apply (router_call_ok (Some ib1) (msglen h) (msgid h) c w1 _ _ _ _ I1);
        [done|cbn; lia|cbn in Hg; lia]. }
    intros w2 (cn2 & out & I2 & Hn2 & Hfd2 & Hs2 & Hlen & Hsv). rewrite Hn1 in Hn2.
    pose proof (ibuf_pop_ok _ _ _ _ _ _ _ l (Z.to_nat (msglen h)) I2 Hn2 ltac:(lia)) as Hp3.
    rewrite Z2Nat.id in Hp3 by lia.
    apply safe_Ret in Hp3 as (w3 & -> & cn3 & I3 & Hfd3 & Hs3 & Hu3 & _).
    cbn [mbind res_bind]. cbn [default] in Hsv. rewrite Hs1, Hu1, Hfd1, <- Hu3 in Hsv.
    eapply read_result_frame; [exact Hsv|exact Hlen|].
    replace (_connfd cn) with (_connfd cn3) by congruence.
    replace (nt_srv w) with (nt_srv w3) by congruence.
    specialize (IH (tr ++ [mkFrame (msgid h) (take (Z.to_nat (msglen h)) ib1)]) w3 cn3 _ (ob ++
      out) I3).
    rewrite Ep in IH. apply IH; [rewrite length_drop; lia|].
    rewrite length_app. cbn [fst length] in Hg |- *. lia.
Qed.

Lemma conn_inv_weaken z c cn w ib ob rest :
  conn_inv z c cn w ib ob rest -> conn_inv false c cn w ib ob rest.
Proof.
  intros [Hc (o & r & Hv & Hi & Ho) HL Hw Ht Hd Hu]. split; try done.
  exists o, r. split; [done|]. split; [|done]. destruct z; by eapply own_weaken.
Qed.

(** [ibuf.adjust()] at the end of [do_read] *)
Lemma read_loop_finish m c s u ob rest fs fd t :
  read_result false m c fd s u ob rest [] fs t ->
  read_result true ('(w, tr) ← m; cn ← get_conn c w;
                    p ← ib_adjust (ibuf cn) (nt_pool w); Ret (set_ntpool p w, tr))
    c fd s u ob rest [] fs t.
Proof.
  unfold read_result. destruct t as [r| |id]; intros Hm.
  - eapply exits_or_bind; [exact Hm|]. intros [w tr] (-> & cn & out & I & Hfd & Hp).
    rewrite (conn_inv_get _ _ _ _ _ _ _ I). cbn [mbind res_bind].
    destruct (ci_bufs _ _ _ _ _ _ _ I) as (o & r' & Hv & Hi & Ho).
    eapply exits_or_bind; [apply safe_exits_or, (ib_adjust_ok _ _ _ _ _ _ Hv Hi)|].
    intros p' (o' & Hv' & Hi'). cbn. split; [done|]. exists cn, out.
    split; [|done]. destruct I. split; try done. exists o', r'. done.
  - eapply exits_or_bind; [exact Hm|]. intros [w tr] (-> & u1 & out & Hsv & G).
    destruct (cg_conn _ _ _ _ _ G) as [v Hv]. unfold get_conn. rewrite Hv. cbn.
    split; [done|]. exists u1, out. split; [done|]. by destruct G; split.
  - destruct Hm as [-> | ->]; cbn; auto.
Qed.

(** A read of [data] delivers the frames that are complete now, keeps the
    bytes of the last one, and closes or aborts as [parse] says. *)
Lemma do_read_ok c cn w ib ob rest data rs :
  conn_inv true c cn w ib ob rest -> data <> [] ->
  Z.of_nat (length ib + length data) <= ba_max ->
  Z.of_nat (length ob + grow * S (length (parse (ib ++ data)).1)) <= ba_max ->
  read_result true (do_read run_msg run_hook c (Some (Z.of_nat (length data)))
    (RdData data :: rs) w) c (_connfd cn) (nt_srv w) (nt_user w) ob rest []
    (parse (ib ++ data)).1 (parse (ib ++ data)).2.
Proof.
  intros I Hne Hlen Hg. pose proof ba_max_ok as Hmax. unfold do_read.
  rewrite (conn_inv_get _ _ _ _ _ _ _ I). cbn [mbind res_bind].
  destruct (ci_bufs _ _ _ _ _ _ _ I) as (o & r & Hv & Hi & Ho).
  assert (Hdata : (0 < length data)%nat) by (destruct data; [done|cbn; lia]).
  pose proof (read_data_ok (P := P) _ _ _ _ _ (Z.of_nat (length data)) (RdData data :: rs)
    (RdData data) rs Hv Hi ltac:(lia) eq_refl) as Hrd.
  specialize (Hrd ltac:(intros ? [= <-] _; lia)).
  eapply read_result_bind; [exact Hrd|]. clear Hrd.
  intros [[[ret ib'] p'] rs']. rewrite (proj2 (Z.ltb_ge _ _)) by lia.
  intros (-> & [l ->] & -> & o' & Hv' & Hi').
  rewrite (proj2 (Z.eqb_neq _ _)) by lia. rewrite (proj2 (Z.eqb_neq _ _)) by lia.
  rewrite (rb_length_ok _ _ _ _ _ _ Hv' Hi'). cbn [mbind res_bind]. rewrite Nat2Z.id.
  assert (I1 : conn_inv true c (set_bufs (Some l) (obuf cn) cn)
    (set_ntpool p' (set_conn c (set_bufs (Some l) (obuf cn) cn) w)) (ib ++ data) ob rest).
  { eapply conn_inv_bufs; [done| |done]. exists o', r. done. }
  apply (read_loop_finish _ _ _ _ _ _ _ (_connfd cn)).
  apply (read_loop_ok c rest _ [] _ _ _ _ (conn_inv_weaken _ _ _ _ _ _ _ I1)); [lia|done].
Qed.

(** ** do_write *)

(** What the answers of the kernel make of [n] bytes to write: the last
    return value ([1] when all was written) and the number of bytes written;
    [None] for answers that no kernel gives or that do not suffice. *)
Fixpoint drain (ws : list wr_ans) (n : nat) : option (Z * nat) :=
  match n with
  | O => Some (1, 0%nat)
  | S _ =>
      match ws with
      | [] => None
      | WrErr EINTR :: ws => drain ws n
      | WrErr EAGAIN :: _ => Some (0, 0%nat)
      | WrErr _ :: _ => Some (-1, 0%nat)
      | WrOk k :: ws =>
          if k =? 0 then Some (0, 0%nat)
          else if (k <? 0) || (Z.of_nat n <? k) then None
          else '(r, s) ← drain ws (n - Z.to_nat k)%nat; Some (r, (Z.to_nat k + s)%nat)
      end
  end.

Lemma drain_retry ws n r s :
  drain ws (S n) = Some (r, s) ->
  exists a ws', write_retry ws = Ret (a, ws') /\ (length ws' < length ws)%nat /\
    drain (a :: ws') (S n) = Some (r, s) /\ a <> WrErr EINTR.
Proof.
  induction ws as [|a ws IH]; [done|]. intros Hd.
  destruct a as [k|e]; [|destruct e].
  2: { destruct (IH Hd) as (a & ws' & E1 & Hl & Hd' & Ha). exists a, ws'. cbn. auto with lia. }
  all: eexists _, ws; cbn; auto with lia.
Qed.

Lemma drain_le ws n r s : drain ws n = Some (r, s) -> (s <= n)%nat /\ (r = 1 <-> s = n).
Proof.
  revert n r s. induction ws as [|a ws IH]; intros [|n] r s; cbn;
    try by (intros [= <- <-]; lia).
  destruct a as [k|[]]; try by (intros [= <- <-]; lia).
  - destruct (Z.eqb_spec k 0); [intros [= <- <-]; lia|].
    destruct (Z.ltb_spec k 0); cbn [orb]; [done|].
    destruct (Z.ltb_spec (Z.of_nat (S n)) k); [done|].
    destruct (drain ws _) as [[r' s']|] eqn:Ed; cbn; [|done]. intros [= <- <-].
    apply IH in Ed. lia.
  - apply IH.
Qed.

Lemma write_loop_ok z c cn ib (bufs : gmap loc IOBuf) fuel : forall ws tr w ob r s,
  nt_conns w !! c = Some cn -> bufs_ok z (nt_pool w) cn ib ob bufs ->
  drain ws (length ob) = Some (r, s) -> (length ws < fuel)%nat ->
  safe (write_loop fuel c ws tr w) (fun '(ret, tr', w') => ret = r /\
    tr' = tr ++ take s ob /\
    exists p', w' = set_ntpool p' w /\ bufs_ok z p' cn ib (drop s ob) bufs).
Proof.
  induction fuel as [|fuel IH]; intros ws tr w ob r s Hc Hb Hd Hf; [lia|].
  cbn [write_loop]. unfold get_conn. rewrite Hc. cbn [mbind res_bind].
  destruct (proj1 (bufs_ok_out _ _ _ _ _ _) Hb) as (o & r1 & Hv & Ho & Hi).
  rewrite (rb_length_ok _ _ _ _ _ _ Hv Ho). cbn [mbind res_bind].
  assert (Hw0 : set_ntpool (nt_pool w) w = w) by (by destruct w).
  destruct (length ob) as [|n0] eqn:Hlen.
  { apply nil_length_inv in Hlen as ->. destruct ws; cbn in Hd; injection Hd as <- <-; cbn;
      rewrite app_nil_r; (split; [done|]; split; [done|]; exists (nt_pool w); done). }
  rewrite (proj2 (Z.eqb_neq _ _)) by lia.
  destruct (obuf cn) as [l|] eqn:El; [|by destruct Ho as [-> _]].
  destruct (drain_retry _ _ _ _ Hd) as (wa & ws' & Hr & Hl & Hd' & Hne).
  cbn [drain] in Hd'.
  eapply safe_bind.
  { apply (write2fd_ok _ _ _ _ _ _ _ _ Hv Ho Hr). intros n ->.
    destruct (Z.eqb_spec n 0); [lia|]. destruct (Z.ltb_spec n 0); [done|].
    cbn [orb] in Hd'. destruct (Z.ltb_spec (Z.of_nat (S n0)) n); [done|]. lia. }
  intros [[[ret sent] p1] ws1] (-> & -> & -> & o1 & Hv1 & Ho1).
  assert (Hb1 : bufs_ok z p1 cn ib (drop (length (match wa with
    | WrOk n => take (Z.to_nat n) ob | WrErr _ => [] end)) ob) bufs).
  { apply bufs_ok_out. exists o1, r1. by rewrite El. }
  destruct wa as [n|e].
  2: { destruct e; try done; injection Hd' as <- <-; cbn;
         (split; [done|]; split; [done|]; exists p1; done). }
  destruct (Z.eqb_spec n 0) as [->|Hn0].
  { injection Hd' as <- <-. cbn. split; [done|]. split; [done|]. exists p1. done. }
  destruct (Z.ltb_spec n 0); [done|]. cbn [orb] in Hd'.
  destruct (Z.ltb_spec (Z.of_nat (S n0)) n); [done|].
  destruct (drain ws' _) as [[r' s']|] eqn:Ed; cbn in Hd'; [|done]. injection Hd' as <- <-.
  rewrite (proj2 (Z.eqb_neq n (-1))) by lia.
  assert (Hlt : length (take (Z.to_nat n) ob) = Z.to_nat n).
  { rewrite length_take. lia. }
  rewrite Hlt in Hb1.
  eapply safe_mono; [apply (IH ws' _ (set_ntpool p1 w) _ r' s' Hc Hb1); [|lia]|].
  - rewrite length_drop, Hlen. exact Ed.
  - intros [[ret tr'] w'] (-> & -> & p' & -> & Hb'). split; [done|]. split.
    + rewrite <- app_assoc. f_equal. apply take_take_drop.
    + exists p'. split; [done|]. by rewrite drop_drop in Hb'.
Qed.

(** [do_write] writes what the kernel takes, keeps the rest, cancels
    [EPOLLOUT] when nothing is left, and closes on an error. *)
Lemma do_write_ok z c cn w ib ob rest ws r s :
  conn_inv z c cn w ib ob rest -> drain ws (length ob) = Some (r, s) ->
  safe (do_write run_hook c ws w) (fun '(w', sent) => sent = take s ob /\
    if r =? -1 then conn_gone c (_connfd cn) (nt_user w) w' rest
    else conn_inv z c cn w' ib (drop s ob) rest /\ nt_user w' = nt_user w).
Proof.
  intros I Hd. unfold do_write.
  eapply safe_bind.
  { apply (write_loop_ok z c cn ib (r_bufs rest) _ _ [] w ob r s (ci_conn _ _ _ _ _ _ _ I)
      (ci_bufs _ _ _ _ _ _ _ I) Hd). lia. }
  intros [[ret tr] w'] (-> & -> & p' & -> & Hb'). cbn [app].
  destruct (drain_le _ _ _ _ Hd) as [Hsl Hr1].
  destruct (Z.eqb_spec r (-1)) as [->|Hr].
  - (* the connection is closed: its output is not empty *)
    assert (Hne : bool_decide (drop s ob <> []) = bool_decide (ob <> [])).
    { apply bool_decide_ext. split; [by intros H1 ->; rewrite drop_nil in H1|].
      intros _ H1. apply (f_equal length) in H1. rewrite length_drop in H1. cbn in H1. lia. }
    assert (I' : conn_inv z c cn (set_ntpool p' w) ib (drop s ob) rest).
    { destruct I as [Hc Hb HL (ev & Hev & Hin & Hr & Hra & Hout & Hwr) Ht Hl Hu Hrest].
      split; try done. exists ev. split; [done|]. unfold watch_ev. rewrite Hne.
      split_and!; try done; intros Hn; apply Hwr;
        rewrite <- (bool_decide_eq_true (ob <> [])), <- Hne; by apply bool_decide_eq_true. }
    eapply safe_bind; [by apply (clean_conn_ok _ _ _ _ _ _ _ I')|].
    intros w' Hw'. cbn. split; [done|]. exact (conn_closed_gone _ _ _ _ _ Hw').
  - pose proof (proj1 (bufs_ok_out _ _ _ _ _ _) Hb') as (o & r1 & Hv & Ho & _).
    unfold get_conn. cbn [nt_conns set_ntpool nt_pool].
    rewrite (ci_conn _ _ _ _ _ _ _ I). cbn [mbind res_bind].
    rewrite (rb_length_ok _ _ _ _ _ _ Hv Ho). cbn [mbind res_bind].
    destruct I as [Hc Hb HL Hw Ht Hl Hu Hrest].
    destruct (Z.eqb_spec (Z.of_nat (length (drop s ob))) 0) as [E0|E0]; cbn.
    + assert (drop s ob = []) as E1 by (apply nil_length_inv; lia). rewrite E1 in *.
      split; [done|]. split; [|done]. destruct (watched_cancel c (_connfd cn) ob _ HL Hw) as
        (HL' & Hw' & Hd' & Htk).
      split; cbn; try done. etrans; [exact Hrest|]. unfold others. cbn.
      by rewrite Hd', Htk.
    + split; [done|]. split; [|done]. destruct Hw as (ev & Hev & Hin & Hrd & Hra & Hout & Hwr).
      assert (Hob : ob <> []) by (intros ->; rewrite drop_nil in E0; done).
      assert (Hdr : drop s ob <> []) by (intros E1; by rewrite E1 in E0).
      rewrite bool_decide_eq_true_2 in Hout by done.
      split; try done. exists ev. split; [done|]. unfold watch_ev.
      rewrite bool_decide_eq_true_2 by done. split_and!; try done; intros _; by apply Hwr.
Qed.
End Invariant.
