(* ===== verification/TcpConnSpec.v ===== *)
(** * What a server connection promises

    The properties of [TCPConn]: framing of the byte stream against the
    specification [parse], delivery that does not depend on how the stream is
    cut into reads, output as a queue of bytes, and two ways in which the code
    breaks its own promises.  The message handlers and hooks are any that meet
    the contracts [msg_ok] and [hook_ok]; the echo handler does. *)

From S2P Require Import Prelude CInt IOBuf BufAlloc BufPool ReactorBuf.
From S2P Require Import Message EventLoop NetState Framing TcpConn TcpConnInv.
From Stdlib Require Import Strings.Byte.
Local Open Scope Z_scope.

Section Spec.
Context {P E V U : Type} `{LP : BufAllocLaws P} `{LE : EpollLaws E}.
Local Abbreviation Net := (Net P E V U).
Implicit Types (w : Net) (cn : TCPConn V) (rest : Rest (V := V)) (ib ob : list byte).
Context (K : kernel_accepts (E := E)) (run_hook : V -> Z -> Net -> res Net).
Context (UI : option V * option V * MsgRouter V V -> gset Z -> U -> Prop).
Context (hooked : V -> Z -> U -> U -> Prop) (Hhook : hook_ok UI run_hook hooked).
Local Abbreviation conn_inv := (conn_inv UI).
Local Abbreviation conn_gone := (conn_gone UI hooked).

(** *** The echo handler *)

Lemma send_data_take data n rb (p : P) :
  0 <= n <= Z.of_nat (length data) ->
  send_data data n rb p = send_data (take (Z.to_nat n) data) n rb p.
Proof.
  intros Hn. unfold send_data. destruct (reserve n rb p) as [[[l|] p']|]; cbn; try done.
  rewrite (proj2 (in_array_spec _ _ _)) by lia.
  rewrite (proj2 (in_array_spec _ _ _)) by (rewrite length_take; lia).
  cbn. by rewrite take_take, Nat.min_id.
Qed.

Lemma send_message_take data n id c w :
  0 <= n <= Z.of_nat (length data) ->
  send_message data n id c w = send_message (take (Z.to_nat n) data) n id c w.
Proof.
  intros Hn. unfold send_message. destruct (get_conn c w) as [cn|]; [|done]. cbn.
  destruct (rb_length (obuf cn) (nt_pool w)) as [l|]; [|done]. cbn.
  destruct (send_data _ _ (obuf cn) (nt_pool w)) as [[[r o] p]|]; [|done]. cbn.
  destruct (negb (r =? 0)); [done|]. by rewrite (send_data_take data).
Qed.

Definition echo (cb : V) (data : option (list byte)) (len id c : Z) (arg : option V)
    (w : Net) : res Net := callback_busi (default [] data) len id c w.

Definition echo_eff (cb : V) (arg : option V) (f : frame) (fd : Z) (u u' : U) (out : list byte)
    : Prop := u' = u /\ out = frame_bytes f.

Lemma echo_ok : msg_ok UI echo (Z.to_nat 65535) echo_eff.
Proof.
  intros cb data len id c arg w cn ib ob rest I _ Hl Hd Hg. unfold echo, callback_busi.
  unfold MESSAGE_LENGTH_LIMIT, MESSAGE_HEAD_LEN in Hl.
  rewrite send_message_take by lia. set (data' := take _ _).
  assert (Hlen : length data' = Z.to_nat len) by (unfold data'; rewrite length_take; lia).
  replace len with (Z.of_nat (length data')) by lia.
  eapply exits_or_bind; [apply (send_message_fits UI K _ _ _ _ _ _ _ _ id I); lia|].
  intros [ret w'] (_ & cn' & Hi & Hfd & _ & Hs & Hu & I'). cbn. exists cn'. eexists.
  split; [exact I'|]. do 3 (split; [done|]). split; [|by split].
  rewrite !length_app, head_bytes_length. lia.
Qed.

Context (run_msg : V -> option (list byte) -> Z -> Z -> Z -> option V -> Net -> res Net)
  (grow : nat) (eff : V -> option V -> frame -> Z -> U -> U -> list byte -> Prop)
  (Hmsg : msg_ok UI run_msg grow eff).
Local Abbreviation conn_served := (conn_served UI grow eff).
Local Abbreviation conn_ended := (conn_ended UI hooked eff).

(** *** Runs of reads *)

(** One [do_read] for each chunk of the stream; [FIONREAD] reports what the
    [read] delivers. *)
Fixpoint reads (chunks : list (list byte)) (c : Z) (w : Net) : res (Net * list frame) :=
  match chunks with
  | [] => Ret (w, [])
  | d :: ds =>
      '(w, tr) ← do_read run_msg run_hook c (Some (Z.of_nat (length d))) [RdData d] w;
      '(w, tr') ← reads ds c w;
      Ret (w, tr ++ tr')
  end.

Lemma conn_served_app c fd sv u ob out rest fs1 fs2 r w1 w2 :
  served eff (router sv) fd fs1 u (nt_user w1) out -> (length out <= grow * length fs1)%nat ->
  conn_served true c fd sv (nt_user w1) (ob ++ out) rest fs2 r w2 ->
  conn_served true c fd sv u ob rest (fs1 ++ fs2) r w2.
Proof.
  intros H1 Hl1 (cn2 & out2 & I2 & Hfd2 & Hs2 & H2 & Hl2). exists cn2, (out ++ out2).
  rewrite app_assoc. do 3 (split; [done|]). split; [by eapply served_app|].
  rewrite !length_app. lia.
Qed.

Lemma reads_ok c rest r chunks : forall w cn ib ob fs,
  conn_inv true c cn w ib ob rest ->
  Forall (fun d => d <> [] /\ Z.of_nat (length d) + 65535 <= ba_max) chunks ->
  Z.of_nat (length ib) <= 65535 ->
  parse (ib ++ concat chunks) = (fs, More r) -> Forall (fun f => f_data f <> []) fs ->
  Z.of_nat (length ob + grow * S (length fs)) <= ba_max ->
  parse ib = ([], More ib) ->
  exits_or (reads chunks c w) (fun '(w', tr) => tr = fs /\
    conn_served true c (_connfd cn) (nt_srv w) (nt_user w) ob rest fs r w').
Proof.
  induction chunks as [|d ds IH]; intros w cn ib ob fs I Hch Hib Hp Hne Hg Hcut.
  { cbn [concat] in Hp. rewrite app_nil_r, Hcut in Hp. injection Hp as <- <-. cbn.
    split; [done|]. by apply conn_served_nil. }
  apply Forall_cons in Hch as [[Hd Hdl] Hch]. cbn [concat] in Hp. rewrite app_assoc in Hp.
  destruct (parse_prefix _ _ _ _ Hp Hne) as (fs1 & r1 & Ep & fs2 & Ep2 & ->).
  apply Forall_app in Hne as [_ Hne2]. cbn [reads].
  rewrite length_app in Hg.
  pose proof (do_read_ok UI run_hook hooked Hhook run_msg grow eff Hmsg c cn w ib ob rest d [] I Hd)
    as Hr.
  rewrite Ep in Hr. cbn [fst snd read_result] in Hr.
  eapply exits_or_bind; [apply Hr; lia|]. clear Hr.
  intros [w1 tr1] (-> & cn1 & out1 & I1 & Hfd1 & Hs1 & Hsv1 & Hl1). cbn [app].
  pose proof (parse_left _ _ _ Ep) as Hcut1.
  eapply exits_or_bind.
  { apply (IH w1 cn1 r1 (ob ++ out1) fs2 I1 Hch); try done; [|rewrite length_app; lia].
    pose proof (parse_rest _ _ _ Ep). lia. }
  intros [w2 tr2] (-> & Hsv2). cbn. split; [done|]. rewrite Hfd1, Hs1 in Hsv2.
  by apply (conn_served_app c _ _ _ _ _ _ _ _ _ _ _ Hsv1 Hl1 Hsv2).
Qed.

(** C1. The messages a server connection hands to its router do not depend on
    how TCP cuts the stream: when what the peer sent is the encoding of the
    messages [fs] (each with a body of at most the length limit) followed by an
    incomplete message [tl], then every sequence of reads that delivers these
    bytes makes exactly the calls for [fs], in order, each with its id and body,
    and keeps [tl] as the unprocessed input; the state of the application and
    the output are what the handlers of these messages make of them, one after
    the other, the output behind what was pending; and the connection stays
    open. Each read, with an incomplete message before it, and the output, with
    [grow] bytes for each message, are within the pool's largest buffer (8 MB);
    if the pool's memory is used up, the process exits. *)
Theorem stream_segmentation c cn w ob rest chunks fs tl :
  conn_inv true c cn w [] ob rest ->
  Forall (fun d => d <> [] /\ Z.of_nat (length d) + 65535 <= ba_max) chunks ->
  concat chunks = concat (frame_bytes <$> fs) ++ tl ->
  Forall frame_ok fs -> parse tl = ([], More tl) ->
  Z.of_nat (length ob + grow * S (length fs)) <= ba_max ->
  exits_or (reads chunks c w) (fun '(w', tr) => tr = fs /\
    conn_served true c (_connfd cn) (nt_srv w) (nt_user w) ob rest fs tl w').
Proof.
  intros I Hch Hc Hfs Htl Hg.
  apply (reads_ok c rest tl chunks w cn [] ob fs I Hch); try done.
  - cbn [app]. rewrite Hc, parse_frames, Htl, app_nil_r by done. done.
  - eapply Forall_impl; [exact Hfs|]. by intros f (_ & ? & _).
Qed.

(** One [do_read], on every outcome of the frame parser: it hands the
    router exactly the complete messages of the pending and the new bytes,
    in order, and their handlers' effects are all that happens; it keeps an
    incomplete message for the next read; a head with
    a length outside [0..65527] closes the connection (descriptor, loop
    registration, table entry and both buffers released). *)
Lemma do_read_frames c cn w ib ob rest data rs fs t :
  conn_inv true c cn w ib ob rest -> data <> [] ->
  Z.of_nat (length ib + length data) <= ba_max ->
  parse (ib ++ data) = (fs, t) ->
  Z.of_nat (length ob + grow * S (length fs)) <= ba_max ->
  let m := do_read run_msg run_hook c (Some (Z.of_nat (length data))) (RdData data :: rs) w in
  match t with
  | More r => exits_or m (fun '(w', tr) => tr = fs /\
      conn_served true c (_connfd cn) (nt_srv w) (nt_user w) ob rest fs r w')
  | BadHead => exits_or m (fun '(w', tr) => tr = fs /\
      conn_ended c (_connfd cn) (nt_srv w) (nt_user w) rest fs w')
  | EmptyAtEnd _ => m = Fault AssertFail \/ m = Fault ExitFail
  end.
Proof.
  intros I Hd Hl Ep Hg m.
  pose proof (do_read_ok UI run_hook hooked Hhook run_msg grow eff Hmsg c cn w ib ob rest data rs
    I Hd
    Hl)
    as Hr.
  rewrite Ep in Hr. specialize (Hr Hg). by destruct t.
Qed.

(** A peer can stop the server: when a message without a body (eight bytes
    with [msglen = 0]) is the last thing a read delivers, [do_read] fails the
    [assert] of [ibuf.pop] (unless the pool or the handler has called [exit]
    before).  Such a message is what [send_message] sends for an empty
    protobuf message. *)
Lemma empty_message_aborts c cn w ob rest id rs :
  conn_inv true c cn w [] ob rest -> is_i32 id -> 8 <= ba_max ->
  Z.of_nat (length ob + grow) <= ba_max ->
  let m := do_read run_msg run_hook c (Some 8)
             (RdData (frame_bytes (mkFrame id [])) :: rs) w in
  m = Fault AssertFail \/ m = Fault ExitFail.
Proof.
  intros I Hid Hmax Hg m.
  pose proof (parse_empty_frame id Hid) as Ep.
  pose proof (do_read_ok UI run_hook hooked Hhook run_msg grow eff Hmsg c cn w [] ob rest
    (frame_bytes (mkFrame id [])) rs I ltac:(done)) as Hr.
  change (Z.of_nat (length (frame_bytes (mkFrame id [])))) with 8 in Hr.
  cbn [app] in Hr. rewrite Ep in Hr. cbn [fst snd read_result length] in Hr.
  apply Hr; cbn; lia.
Qed.

(** The same however the eight bytes are cut. *)
Lemma reads_empty_message c rest id chunks : forall w cn ib ob,
  is_i32 id -> conn_inv true c cn w ib ob rest ->
  Forall (fun d => d <> [] /\ Z.of_nat (length d) + 65535 <= ba_max) chunks ->
  ib ++ concat chunks = frame_bytes (mkFrame id []) -> (length ib < 8)%nat ->
  Z.of_nat (length ob + grow) <= ba_max ->
  reads chunks c w = Fault AssertFail \/ reads chunks c w = Fault ExitFail.
Proof.
  induction chunks as [|d ds IH]; intros w cn ib ob Hid I Hch Hb Hib Hg;
    pose proof (f_equal length Hb) as Hlen; rewrite frame_bytes_length in Hlen;
    cbn [concat f_data length] in Hlen; [rewrite app_nil_r in Hlen; lia|].
  apply Forall_cons in Hch as [[Hd Hdl] Hch]. cbn [concat] in Hb. rewrite app_assoc in Hb.
  rewrite !length_app in Hlen. cbn [reads].
  pose proof (do_read_ok UI run_hook hooked Hhook run_msg grow eff Hmsg c cn w ib ob rest d [] I Hd
    ltac:(lia)) as Hr.
  destruct (decide (length (ib ++ d) < 8)%nat) as [Hs|Hs].
  - rewrite (parse_short _ Hs) in Hr. cbn [fst snd length read_result app] in Hr.
    specialize (Hr ltac:(lia)). destruct (do_read _ _ _ _ _ _) as [[w1 tr]|[]]; [|by auto..].
    destruct Hr as (_ & cn1 & out & I1 & _ & _ & _ & Hl). cbn [mbind res_bind].
    assert (out = []) as -> by (destruct out; [done|cbn in Hl; lia]). rewrite app_nil_r in I1.
    by destruct (IH w1 cn1 _ ob Hid I1 Hch Hb Hs Hg) as [-> | ->]; [left|right].
  - rewrite length_app in Hs. assert (Hds : concat ds = []).
    { destruct (concat ds); [done|]. cbn in Hlen. lia. }
    rewrite Hds, app_nil_r in Hb. rewrite Hb, (parse_empty_frame id Hid) in Hr.
    cbn [fst snd length read_result] in Hr. by destruct Hr as [-> | ->]; [lia|left|right].
Qed.

(** A read that fails or finds the end of the stream closes the
    connection; so does a read of more than fits in the largest buffer. *)
Lemma do_read_closes c cn w ib ob rest need rs r rs' :
  conn_inv true c cn w ib ob rest -> 0 <= need <= 2 ^ 30 ->
  read_retry rs = Ret (r, rs') ->
  (ba_max < need + Z.of_nat (length ib) \/ r = RdData [] \/ exists e, r = RdErr e) ->
  (forall data, r = RdData data -> data <> [] ->
     Z.of_nat (length data) = need /\ need <> 0) ->
  exits_or (do_read run_msg run_hook c (Some need) rs w) (fun '(w', tr) =>
    tr = [] /\ conn_gone c (_connfd cn) (nt_user w) w' rest) /\
  exits_or (do_read run_msg run_hook c None rs w) (fun '(w', tr) =>
    tr = [] /\ conn_gone c (_connfd cn) (nt_user w) w' rest).
Proof.
  intros I Hn Hr Hcase Hd.
  assert (Hclose : forall cn' w', conn_inv true c cn' w' ib ob rest ->
    _connfd cn' = _connfd cn -> nt_user w' = nt_user w ->
    exits_or (w0 ← clean_conn run_hook c w'; Ret (w0, @nil frame)) (fun '(w'', tr) =>
      tr = [] /\ conn_gone c (_connfd cn) (nt_user w) w'' rest)).
  { intros cn' w' I' <- <-.
    by apply (clean_conn_gone UI run_hook hooked Hhook _ _ _ _ _ _ _ [] I'). }
  split.
  2: { unfold do_read. rewrite (conn_inv_get UI _ _ _ _ _ _ _ I). cbn [mbind res_bind read_data].
       cbn [Z.eqb Pos.eqb]. by apply (Hclose _ _ (conn_inv_same UI true c cn w ib ob rest I)). }
  destruct (ci_bufs UI _ _ _ _ _ _ _ I) as (o & rr & Hv & Hi & Ho).
  unfold do_read. rewrite (conn_inv_get UI _ _ _ _ _ _ _ I). cbn [mbind res_bind].
  eapply exits_or_bind; [apply (read_data_ok _ _ _ _ _ _ _ _ _ Hv Hi Hn Hr Hd)|].
  intros [[[ret rb'] p'] rs2].
  destruct (Z.ltb_spec ba_max (need + Z.of_nat (length ib))) as [Hbig|Hbig].
  - intros (-> & -> & -> & ->). cbn [Z.eqb Pos.eqb].
    by apply (Hclose _ _ (conn_inv_same UI true c cn w ib ob rest I)).
  - intros (-> & _ & -> & o' & Hv' & Hi').
    assert (I' : conn_inv true c (set_bufs rb' (obuf cn) cn)
      (set_ntpool p' (set_conn c (set_bufs rb' (obuf cn) cn) w)) ib ob rest).
    { eapply conn_inv_bufs; [done| |done]. exists o', rr. split; [done|]. split; [|done].
      destruct Hcase as [|[-> | [e ->]]]; [lia|by rewrite app_nil_r in Hi'..]. }
    destruct Hcase as [|[-> | [e ->]]]; [lia|cbn [length Z.of_nat Z.eqb Pos.eqb]..];
      by apply (Hclose _ _ I').
Qed.

(** *** Output *)

(** [send_message], on every outcome but the broken roll-back: a message
    that fits is queued behind the pending output as its frame (head and
    body) and the descriptor is watched for writing; one whose head does not
    fit, or that is too long for an empty queue, is refused with -1 and
    changes neither the pending output nor the watch. *)
Lemma send_message_queues c cn w ib ob rest data id :
  conn_inv true c cn w ib ob rest -> Z.of_nat (length data) <= 2 ^ 30 ->
  exits_or (send_message data (Z.of_nat (length data)) id c w) (fun '(ret, w') =>
    if Z.of_nat (length ob) + 8 + Z.of_nat (length data) <=? ba_max then
      ret = 0 /\ exists cn', _connfd cn' = _connfd cn /\
        conn_inv true c cn' w' ib (ob ++ frame_bytes (mkFrame id data)) rest
    else ret = -1 /\ (ob = [] \/ ba_max < Z.of_nat (length ob) + 8 ->
      exists cn', _connfd cn' = _connfd cn /\ conn_inv true c cn' w' ib ob rest)).
Proof.
  intros I Hd. destruct (Z.leb_spec (Z.of_nat (length ob) + 8 + Z.of_nat (length data)) ba_max)
    as [Hfit|Hfit].
  - eapply exits_or_mono; [apply (send_message_fits UI K _ _ _ _ _ _ _ _ id I Hfit)|].
    intros [ret w'] (-> & cn' & _ & Hfd & _ & _ & _ & I'). eauto.
  - destruct (decide (ba_max < Z.of_nat (length ob) + 8)) as [Hh|Hh].
    + eapply exits_or_mono; [apply (send_message_full UI _ _ _ _ _ _ _ data id I Hh)|].
      intros [ret w'] (-> & I'). eauto.
    + eapply exits_or_mono;
        [apply (send_message_rollback UI _ _ _ _ _ _ _ data id I Hd); lia|].
      intros [ret w'] (-> & cn' & Hfd & _ & Hc). split; [done|].
      intros [-> | ?]; [|lia]. rewrite decide_True in Hc by done. eauto.
Qed.

(** C33. The roll-back of [send_message] destroys the stream: when there is
    pending output and only the head of the message fits, the call reports
    -1, but has taken eight bytes off the FRONT of the pending output and left
    the head of the refused message at its end, and the next [do_write] of
    the connection fails the [assert] of [write2fd] and ends the process. *)
Theorem send_message_rollback_breaks c cn w ib ob rest data id :
  conn_inv true c cn w ib ob rest -> ob <> [] -> Z.of_nat (length data) <= 2 ^ 30 ->
  Z.of_nat (length ob) + 8 <= ba_max < Z.of_nat (length ob) + 8 + Z.of_nat (length data) ->
  exits_or (send_message data (Z.of_nat (length data)) id c w) (fun '(ret, w') =>
    ret = -1 /\
    (exists cn' o r, nt_conns w' !! c = Some cn' /\ ba_view (nt_pool w') o /\
       own false o (obuf cn')
         (drop 8 (ob ++ head_bytes (mkHead id (Z.of_nat (length data))))) r) /\
    forall ws, do_write run_hook c ws w' = Fault AssertFail).
Proof.
  intros I Hne Hd Hfit.
  eapply exits_or_mono; [apply (send_message_rollback UI _ _ _ _ _ _ _ data id I Hd Hfit)|].
  intros [ret w'] (-> & cn' & _ & _ & Hc). rewrite decide_False in Hc by done.
  destruct Hc as (Hc & l & b & o & r & Hob & Hv & -> & Hr & _ & Hh & Hb).
  split; [done|]. split.
  - exists cn', (<[l := b]> r), r. rewrite Hob. split; [done|]. split; [done|].
    split; [done|]. by exists b.
  - intros ws. unfold do_write. cbn [write_loop]. unfold get_conn. rewrite Hc.
    cbn [mbind res_bind]. rewrite Hob. cbn [rb_length write2fd].
    rewrite (ba_deref_law _ _ _ _ Hv (lookup_insert_eq _ _ _)). cbn [mbind res_bind].
    pose proof (holds_length _ _ Hb) as Hl. rewrite length_drop, length_app in Hl.
    rewrite head_bytes_length in Hl. destruct ob as [|x ob]; [done|]. cbn [length] in Hl.
    rewrite (proj2 (Z.eqb_neq _ _)) by lia. by rewrite Hh.
Qed.

(** [do_write] against the kernel's answers ([drain] says how many of the
    pending bytes they take): exactly those bytes, from the front, go to the
    kernel; the rest stays queued and watched; when none are left [EPOLLOUT]
    is cancelled (the watch of [conn_inv]); a write error closes the
    connection. *)
Lemma do_write_drains c cn w ib ob rest ws r s :
  conn_inv true c cn w ib ob rest -> drain ws (length ob) = Some (r, s) ->
  safe (do_write run_hook c ws w) (fun '(w', sent) => sent = take s ob /\
    if r =? -1 then conn_gone c (_connfd cn) (nt_user w) w' rest
    else conn_inv true c cn w' ib (drop s ob) rest /\ nt_user w' = nt_user w).
Proof. intros I Hd. by apply (do_write_ok UI K run_hook hooked Hhook true c cn w ib ob rest ws r
  s). Qed.

(** *** Both ends *)

Inductive conn_op : Type :=
  | CSend (data : list byte) (id : Z)            (** [send_message] *)
  | CWrite (answers : nat -> list wr_ans).       (** [do_write]; answers for [n] bytes *)

(** A run that fits, with [n] bytes pending: each message is one that the other
    end takes, and with it what is then pending fits into the largest buffer;
    the kernel's answers are some that it can give, and none is an error. *)
Fixpoint ops_fit (ops : list conn_op) (n : nat) : Prop :=
  match ops with
  | [] => True
  | CSend data id :: ops =>
      let n' := (n + length (frame_bytes (mkFrame id data)))%nat in
      frame_ok (mkFrame id data) /\ Z.of_nat n' <= ba_max /\ ops_fit ops n'
  | CWrite answers :: ops =>
      exists r s, drain (answers n) n = Some (r, s) /\ r <> -1 /\ ops_fit ops (n - s)
  end.

Definition messages (ops : list conn_op) : list frame :=
  omap (fun op => match op with CSend data id => Some (mkFrame id data) | CWrite _ => None end)
    ops.

(** A run of sends and writes, and the bytes the kernel took. *)
Fixpoint conn_run (ops : list conn_op) (c : Z) (w : Net) : res (Net * list byte) :=
  match ops with
  | [] => Ret (w, [])
  | CSend data id :: ops =>
      '(_, w) ← send_message data (Z.of_nat (length data)) id c w;
      conn_run ops c w
  | CWrite answers :: ops =>
      cn ← get_conn c w;
      n ← rb_length (obuf cn) (nt_pool w);
      '(w, sent) ← do_write run_hook c (answers (Z.to_nat n)) w;
      '(w, sent') ← conn_run ops c w;
      Ret (w, sent ++ sent')
  end.

Lemma conn_run_ok c ib rest ops : forall w cn ob,
  conn_inv true c cn w ib ob rest -> ops_fit ops (length ob) ->
  exits_or (conn_run ops c w) (fun '(w', taken) => exists cn' pending,
    conn_inv true c cn' w' ib pending rest /\
    taken ++ pending = ob ++ concat (frame_bytes <$> messages ops)).
Proof.
  induction ops as [|op ops IH]; intros w cn ob I Hok; cbn [conn_run].
  { cbn. exists cn, ob. split; [done|]. by rewrite app_nil_r. }
  destruct op as [data id|answers]; cbn [ops_fit] in Hok.
  - destruct Hok as (_ & Hmax & Hok). rewrite frame_bytes_length in Hmax, Hok. cbn [f_data] in *.
    cbn [messages omap list_omap fmap list_fmap concat]. fold (messages ops).
    fold (fmap (M := list) frame_bytes (messages ops)).
    eapply exits_or_bind; [apply (send_message_fits UI K _ _ _ _ _ _ _ data id I); lia|].
    intros [ret w1] (_ & cn1 & _ & _ & _ & _ & _ & I1).
    eapply exits_or_mono; [apply (IH _ _ _ I1)|].
    + by rewrite !length_app, head_bytes_length.
    + intros [w' taken] (cn' & pending & I' & E'). exists cn', pending. split; [done|].
      rewrite E', <- !app_assoc. done.
  - change (messages (CWrite answers :: ops)) with (messages ops).
    rewrite (conn_inv_get UI _ _ _ _ _ _ _ I). cbn [mbind res_bind].
    rewrite (conn_inv_olen UI _ _ _ _ _ _ _ I). cbn [mbind res_bind]. rewrite Nat2Z.id.
    destruct Hok as (r & s & Hd & Hr & Hok).
    eapply exits_or_bind;
      [apply safe_exits_or, (do_write_ok UI K run_hook hooked Hhook _ _ _ _ _ _ _ _ _ _ I Hd)|].
    intros [w1 sent]. rewrite (proj2 (Z.eqb_neq _ _)) by done. intros (-> & I1 & _).
    eapply exits_or_bind; [apply (IH _ _ _ I1); by rewrite length_drop|].
    intros [w2 taken] (cn2 & pending & I2 & E2). cbn. exists cn2, pending. split; [done|].
    rewrite <- app_assoc, E2, app_assoc. by rewrite take_drop.
Qed.

Lemma fitting_messages ops n : ops_fit ops n -> Forall frame_ok (messages ops).
Proof.
  revert n. induction ops as [|[data id|answers] ops IH]; intros n; cbn [ops_fit]; [done| |].
  - intros (Hf & _ & Hok). constructor; [done|by eapply IH].
  - intros (r & s & _ & _ & Hok). by eapply IH.
Qed.

(** C2. End to end. Take a connection with an empty output queue, and any
    interleaving of [send_message] and partial [do_write] in which every message
    has a body of at least one byte and at most the length limit, no write
    fails, and what is pending after a send fits into the largest buffer of the
    pool (8 MB; all this is [ops_fit]; a message that does not fit is refused,
    or rolled back and the stream spoiled, C33). Then the process does not fail,
    unless it exits because the pool's memory is used up, and the bytes that the
    kernel took so far parse, at the other end, to a prefix of the messages
    sent, in order and unchanged; and when nothing is pending, to all of them.
    *)
Theorem sent_messages_arrive c cn w ib rest ops :
  conn_inv true c cn w ib [] rest -> ops_fit ops 0 ->
  exits_or (conn_run ops c w) (fun '(w', taken) => exists cn' pending,
    conn_inv true c cn' w' ib pending rest /\
    exists fs1 fs2 r, messages ops = fs1 ++ fs2 /\ parse taken = (fs1, More r) /\
      (pending = [] -> fs2 = [] /\ r = [])).
Proof.
  intros I Hok.
  eapply exits_or_mono; [apply (conn_run_ok c ib rest ops w cn [] I Hok)|].
  intros [w' taken] (cn' & pending & I' & E'). exists cn', pending. split; [done|].
  cbn [app] in E'. pose proof (fitting_messages _ _ Hok) as Hfs.
  pose proof (parse_frames _ [] Hfs) as Hp. rewrite parse_nil, !app_nil_r, <- E' in Hp.
  assert (Hne : Forall (fun f => f_data f <> []) (messages ops)).
  { eapply Forall_impl; [exact Hfs|]. by intros f (_ & ? & _). }
  destruct (parse_prefix _ _ _ _ Hp Hne) as (fs1 & r & E1 & fs2 & E2 & Efs).
  exists fs1, fs2, r. split; [done|]. split; [done|]. intros ->.
  rewrite app_nil_r in Hp. rewrite Hp in E1. injection E1 as <- <-.
  split; [|done]. by rewrite <- (app_nil_r (messages ops)) in Efs at 1; apply app_inv_head in Efs.
Qed.
End Spec.

(** ** Witnesses: one echo connection *)

Import TableKernel.

Definition demo_hook (h : unit) (c : Z) (w : Net BufPool (gmap Z Z) unit unit)
    : res (Net BufPool (gmap Z Z) unit unit) := Ret w.

(** The demo keeps nothing for its connections. *)
Definition demo_ui (cfg : option unit * option unit * MsgRouter unit unit) (fds : gset Z)
  (u : unit) : Prop := True.
Local Abbreviation conn_inv := (conn_inv demo_ui).
Definition demo_hooked (h : unit) (fd : Z) (u u' : unit) : Prop := u' = u.
Local Abbreviation conn_gone := (conn_gone demo_ui demo_hooked).

Lemma demo_hook_runs cfg fds h c w cn :
  nt_conns w !! c = Some cn -> hook_runs demo_hook h c w cn (fun u =>
    demo_ui cfg fds u /\ opt_hooked demo_hooked h (_connfd cn) (nt_user w) u).
Proof.
  intros Hc. destruct (hook_runs_None demo_hook c w cn (fun _ => True) Hc I) as (v & u & E1 & _).
  exists v, u. split; [by destruct h|]. by destruct h, u, (nt_user w).
Qed.

Lemma demo_hook_ok : hook_ok demo_ui demo_hook demo_hooked.
Proof. intros c w cn s Hc _ _. by apply demo_hook_runs. Qed.

(** Message 1 goes to the echo handler; descriptor 5 is the connection 100. *)
Definition demo_server : TCPServer unit :=
  mkServer {[5 := Some 100]} 10 1 None None (register_msg_router 1 tt None MsgRouter_new).2.

Definition demo_watch (out : bool) : EventLoop (io_cb unit) (io_arg unit) (unit * option unit)
  (gmap Z Z) :=
  let L := add_io_event 5 conn_rd_callback EPOLLIN (Some (arg_conn 100)) (EventLoop_new ∅) in
  if out then add_io_event 5 conn_wt_callback EPOLLOUT (Some (arg_conn 100)) L else L.

Definition demo_net (p : BufPool) (out : bool) (cn : TCPConn unit)
    : Net BufPool (gmap Z Z) unit unit :=
  mkNet p (demo_watch out) {[100 := cn]} 101 demo_server {[5]} tt.

Lemma demo_watch_inv out : loop_inv (demo_watch out).
Proof.
  assert (I : loop_inv (demo_watch false)).
  { apply (reg_run_inv (RAdd 5 conn_rd_callback false (Some (arg_conn 100)))
      (EventLoop_new ∅) table_accepts). by apply EventLoop_new_inv. }
  destruct out; [|done].
  apply (reg_run_inv (RAdd 5 conn_wt_callback true (Some (arg_conn 100))) _ table_accepts I).
Qed.

Lemma demo_server_ok : table_ok demo_server /\ 5 ∈ listed demo_server.
Proof.
  assert (El : listed demo_server = {[5]}) by (vm_compute; reflexivity).
  split; [|rewrite El; set_solver]. split; cbn.
  - by rewrite El, size_singleton.
  - rewrite El. intros fd ->%elem_of_singleton. done.
  - lia.
Qed.

(** Nothing else is there. *)
Definition demo_rest : Rest :=
  mkRest ∅ ∅ ∅ ∅ 101 10 (srv_cfg demo_server) (mkVector [] 0).

Lemma demo_inv p cn ob :
  bufs_ok true p cn [] ob ∅ -> _connfd cn = 5 ->
  conn_inv true 100 cn (demo_net p (bool_decide (ob <> [])) cn) [] ob demo_rest.
Proof.
  intros Hb Hfd. destruct demo_server_ok as [Ht Hl]. split; cbn; try done.
  - apply demo_watch_inv.
  - rewrite Hfd. case_bool_decide as Hne.
    + eexists. split; [vm_compute; reflexivity|]. unfold watch_ev.
      rewrite bool_decide_eq_true_2 by done. split_and!; reflexivity || done.
    + eexists. split; [vm_compute; reflexivity|]. unfold watch_ev.
      subst ob. split_and!; try reflexivity. by intros.
  - by rewrite Hfd.
  - rewrite Hfd. case_bool_decide; vm_compute; reflexivity.
Qed.

(** The connection without pending output. *)
Definition demo_conn : TCPConn unit := mkConn 5 None None None.
Definition demo_idle : Net BufPool (gmap Z Z) unit unit := demo_net init_pool false demo_conn.

Lemma demo_idle_inv : conn_inv true 100 demo_conn demo_idle [] [] demo_rest.
Proof.
  apply (demo_inv init_pool demo_conn []); [|done].
  exists ∅, ∅. split; [|done]. exact (BufPool_new_view _ init_pool_eq).
Qed.

(** One with a byte to send. *)
Lemma demo_busy_inv : exists p cn, _connfd cn = 5 /\ ibuf cn = None /\
  conn_inv true 100 cn (demo_net p true cn) [] [x41] demo_rest.
Proof.
  pose proof (ba_alloc_law init_pool ∅ 100 (BufPool_new_view _ init_pool_eq)) as Ha.
  change (ba_alloc 100 init_pool) with (alloc_buf 100 init_pool) in Ha.
  rewrite init_pool1_eq in Ha. cbn [exits_or] in Ha.
  destruct Ha as (_ & _ & b & Hv & Hb & Hh & Hc). revert Hv. generalize init_pool1. intros q Hv.
  pose proof (append_at_ok _ 1 b ∅ [] [x41] Hv Hb Hh ltac:(cbn; lia)) as Hs.
  apply safe_Ret in Hs as (p & _ & b' & Hv' & Hb' & Hh' & _).
  exists p, (mkConn 5 None (Some 1) None). split; [done|]. split; [done|].
  apply (demo_inv p (mkConn 5 None (Some 1) None) [x41]); [|done].
  exists (<[1 := b']> ∅), (<[1 := b']> ∅). split; [done|]. split; [done|].
  split; [done|]. by exists b'.
Qed.

Definition demo_frames : list frame := [mkFrame 1 [x41; x42]; mkFrame 2 [x43]].
Definition demo_stream : list byte := concat (frame_bytes <$> demo_frames).
Definition demo_echo := echo (P := BufPool) (E := gmap Z Z) (V := unit) (U := unit).

Definition demo_eff := echo_eff (V := unit) (U := unit).
Local Abbreviation conn_served := (conn_served demo_ui (Z.to_nat 65535) demo_eff).

Lemma demo_echo_ok : msg_ok demo_ui demo_echo (Z.to_nat 65535) demo_eff.
Proof. apply (echo_ok table_accepts). Qed.

Lemma demo_frames_ok : Forall frame_ok demo_frames.
Proof.
  unfold demo_frames, frame_ok, is_i32, MESSAGE_LENGTH_LIMIT, MESSAGE_HEAD_LEN.
  repeat constructor; cbn; done || lia.
Qed.

Lemma stream_segmentation_witness :
  exits_or (reads demo_hook demo_echo [take 5 demo_stream; drop 5 demo_stream; [x01]] 100
      demo_idle)
    (fun '(w', tr) => tr = demo_frames /\
      conn_served true 100 5 demo_server tt [] demo_rest demo_frames [x01] w').
Proof.
  apply (stream_segmentation demo_hook demo_ui demo_hooked demo_hook_ok demo_echo (Z.to_nat 65535)
    demo_eff
    demo_echo_ok
    100 demo_conn demo_idle [] demo_rest _ demo_frames [x01] demo_idle_inv).
  - repeat constructor; done.
  - reflexivity.
  - apply demo_frames_ok.
  - reflexivity.
  - change ba_max with m8M. unfold m8M. cbn [length demo_frames]. lia.
Defined.

(** The first frame and a part of the second arrive. *)
Lemma do_read_frames_witness :
  exits_or (do_read demo_echo demo_hook 100 (Some 15) [RdData (take 15 demo_stream)] demo_idle)
    (fun '(w', tr) => tr = [mkFrame 1 [x41; x42]] /\
      conn_served true 100 5 demo_server tt [] demo_rest [mkFrame 1 [x41; x42]]
        (drop 10 (take 15 demo_stream)) w').
Proof.
  apply (do_read_frames demo_hook demo_ui demo_hooked demo_hook_ok demo_echo (Z.to_nat 65535)
    demo_eff
    demo_echo_ok
    100 demo_conn demo_idle [] [] demo_rest (take 15 demo_stream) []
    [mkFrame 1 [x41; x42]] (More (drop 10 (take 15 demo_stream))) demo_idle_inv).
  - done.
  - change ba_max with m8M. unfold m8M. cbn. lia.
  - reflexivity.
  - change ba_max with m8M. unfold m8M. cbn [length]. lia.
Defined.

Lemma empty_message_aborts_witness :
  let m := do_read demo_echo demo_hook 100 (Some 8)
             [RdData (frame_bytes (mkFrame 1 []))] demo_idle in
  m = Fault AssertFail \/ m = Fault ExitFail.
Proof.
  apply (empty_message_aborts demo_hook demo_ui demo_hooked demo_hook_ok demo_echo (Z.to_nat 65535)
    demo_eff demo_echo_ok
    100 demo_conn demo_idle [] demo_rest 1 [] demo_idle_inv).
  - unfold is_i32. lia.
  - change ba_max with m8M. unfold m8M. lia.
  - change ba_max with m8M. unfold m8M. cbn [length]. lia.
Defined.

Lemma do_read_closes_witness :
  exits_or (do_read demo_echo demo_hook 100 (Some 0) [RdErr EINTR; RdData []] demo_idle)
    (fun '(w', tr) => tr = [] /\ conn_gone 100 5 tt w' demo_rest).
Proof.
  refine (proj1 (do_read_closes demo_hook demo_ui demo_hooked demo_hook_ok demo_echo
    100 demo_conn demo_idle [] [] demo_rest 0 [RdErr EINTR; RdData []] (RdData []) [] demo_idle_inv
    _ _ _ _)).
  - lia.
  - reflexivity.
  - right. by left.
  - by intros data [= <-].
Defined.

Lemma send_message_queues_witness :
  exits_or (send_message [x41] (Z.of_nat (length [x41])) 7 100 demo_idle) (fun '(ret, w') =>
    if 9 <=? ba_max then
      ret = 0 /\ exists cn', _connfd cn' = 5 /\
        conn_inv true 100 cn' w' [] (frame_bytes (mkFrame 7 [x41])) demo_rest
    else ret = -1 /\ ([] = @nil byte \/ ba_max < 8 ->
      exists cn', _connfd cn' = 5 /\ conn_inv true 100 cn' w' [] [] demo_rest)).
Proof.
  apply (send_message_queues table_accepts demo_ui 100 demo_conn demo_idle [] [] demo_rest [x41] 7
    demo_idle_inv).
  cbn. lia.
Defined.

Lemma send_message_rollback_breaks_witness :
  exists cn w data, conn_inv true 100 cn w [] [x41] demo_rest /\
    exits_or (send_message data (Z.of_nat (length data)) 7 100 w) (fun '(ret, w') =>
      ret = -1 /\
      (exists cn' o r, nt_conns w' !! 100 = Some cn' /\ ba_view (nt_pool w') o /\
         own false o (obuf cn')
           (drop 8 ([x41] ++ head_bytes (mkHead 7 (Z.of_nat (length data))))) r) /\
      forall ws, do_write demo_hook 100 ws w' = Fault AssertFail).
Proof.
  destruct demo_busy_inv as (p & cn & _ & _ & I).
  exists cn, (demo_net p true cn), (replicate (Z.to_nat 8388608) x42). split; [exact I|].
  apply (send_message_rollback_breaks demo_hook demo_ui 100 cn (demo_net p true cn) [] [x41]
    demo_rest
    _ 7 I).
  - done.
  - rewrite length_replicate. lia.
  - rewrite length_replicate. change ba_max with 8388608. cbn [length]. lia.
Defined.

Lemma do_write_drains_witness :
  exists p cn, conn_inv true 100 cn (demo_net p true cn) [] [x41] demo_rest /\
    safe (do_write demo_hook 100 [WrErr EINTR; WrOk 1] (demo_net p true cn)) (fun '(w', sent) =>
      sent = [x41] /\ conn_inv true 100 cn w' [] [] demo_rest /\ nt_user w' = tt).
Proof.
  destruct demo_busy_inv as (p & cn & _ & _ & I). exists p, cn. split; [exact I|].
  apply (do_write_drains table_accepts demo_hook demo_ui demo_hooked demo_hook_ok 100 cn
    (demo_net p true cn)
    [] [x41] demo_rest [WrErr EINTR; WrOk 1] 1 1 I). reflexivity.
Defined.

(** Two messages, with a write of nine bytes after the first. *)
Definition demo_ops : list conn_op :=
  [CSend [x41; x42] 1; CWrite (fun n => [WrOk (Z.min 9 (Z.of_nat n)); WrErr EAGAIN]);
   CSend [x43] 2].

Lemma demo_ops_fit : ops_fit (P := BufPool) demo_ops 0.
Proof.
  pose proof demo_frames_ok as Hf. unfold demo_frames in Hf.
  rewrite !Forall_cons in Hf. destruct Hf as (H1 & H2 & _). unfold demo_ops.
  change ba_max with m8M. cbn [ops_fit].
  split; [exact H1|]. split; [by vm_compute|]. exists 0, 9%nat.
  split; [reflexivity|]. split; [done|]. split; [exact H2|]. split; [by vm_compute|done].
Qed.

Lemma sent_messages_arrive_witness :
  messages demo_ops = demo_frames /\
  exits_or (conn_run demo_hook demo_ops 100 demo_idle)
    (fun '(w', taken) => exists cn' pending,
      conn_inv true 100 cn' w' [] pending demo_rest /\
      exists fs1 fs2 r, messages demo_ops = fs1 ++ fs2 /\ parse taken = (fs1, More r) /\
        (pending = [] -> fs2 = [] /\ r = [])).
Proof.
  split; [reflexivity|].
  refine (sent_messages_arrive table_accepts demo_hook demo_ui demo_hooked demo_hook_ok 100
    demo_conn
    demo_idle [] demo_rest demo_ops demo_idle_inv demo_ops_fit).
Defined.
