(* ===== verification/TcpServer.v ===== *)
(** * TCPServer: accepting connections (reactor/src/tcp_server.cpp,
    [deal_task_message] and [thread_main] of reactor/src/thread_pool.cpp)

    [do_accept] takes the answers of [accept(2)] in order.  With a thread pool
    it hands each new descriptor to a thread's queue, and [deal_task_message]
    makes the connection there; without one it makes the connection itself. *)

From S2P Require Import Prelude CInt IOBuf BufAlloc ReactorBuf Message.
From S2P Require Import EventLoop ThreadQueue NetState TcpConn TcpConnInv BufPool.
From S2P Require Import TcpConnSpec.
Local Open Scope Z_scope.

(** ** Operations *)

(** [accept(2)]: a descriptor or an error. *)
Inductive acc_ans : Type := AccFd (fd : Z) | AccErr (e : errno).

(** The member [_thread_pool], which the constructor sets only for a positive
    [threadNum]. *)
Inductive pool_ptr (T : Type) : Type := PoolUnset | PoolNull | PoolSet (tp : T).
Arguments PoolUnset {T}.
Arguments PoolNull {T}.
Arguments PoolSet {T} tp.

Section TcpServer.
Context {P E V U F LOOP : Type} `{BufAlloc P} `{Epoll E} `{EventFd F}.
Local Abbreviation Net := (Net P E V U).
Local Abbreviation Task := (TaskMsg V (option V)).
Local Abbreviation Pool := (ThreadPool Task F LOOP).
Variable run_hook : V -> Z -> Net -> res Net.
Variable vgrow : nat -> nat.   (** growth of a [std::vector] *)

(** [TCPServer(loop, ip, port)]: [sock] is the answer of [socket], [bound] and
    [listening] those of [bind] and [listen], [max_conns] and [thread_cnt] the
    configured numbers, [evfds] the descriptors [eventfd] returns.  A negative
    array size ends the process. *)
Definition TCPServer_new (sock : option Z) (bound listening : bool)
    (max_conns thread_cnt : Z) (evfds : list (option F)) (w : Net) : res (pool_ptr Pool * Net) :=
  match sock with
  | None => Fault ExitFail
  | Some sockfd =>
      check ExitFail bound;;
      check ExitFail listening;;
      check AssertFail (0 <=? max_conns + 3);;
      let s := nt_srv w in
      let w := set_ntsrv (mkServer ∅ max_conns (_curr_conns s) (conn_start_cb s)
                            (conn_close_cb s) (router s)) w in
      tp ← (if 0 <? thread_cnt
            then tp ← ThreadPool_new thread_cnt evfds; Ret (PoolSet tp)
            else Ret PoolUnset);
      Ret (tp, set_ntloop (add_io_event sockfd accept_callback EPOLLIN (Some arg_server)
                             (nt_loop w)) w)
  end.

(** [do_accept()] *)
Fixpoint do_accept (answers : list acc_ans) (tp : pool_ptr Pool) (w : Net)
    : res (pool_ptr Pool * Net) :=
  match answers with
  | [] => Fault Blocked
  | AccErr EINTR :: answers => do_accept answers tp w
  | AccErr EMFILE :: answers => do_accept answers tp w
  | AccErr EAGAIN :: _ => Ret (tp, w)
  | AccErr _ :: _ => Fault ExitFail
  | AccFd connfd :: answers =>
      let cur_conns := get_conn_num (nt_srv w) in
      if _max_conns (nt_srv w) <=? cur_conns then do_accept answers tp (close_fd connfd w)
      else
        match tp with
        | PoolUnset => Fault Uninit
        | PoolSet tp =>
            '(i, tp) ← get_thread tp;
            do_accept answers (PoolSet (send_to i (NEW_CONN connfd) tp)) w
        | PoolNull => '(_, w) ← TCPConn_new run_hook connfd w; Ret (PoolNull, w)
        end
  end.

(** The [while] of [deal_task_message]. *)
Fixpoint deal_tasks (tasks : list Task) (w : Net) : res Net :=
  match tasks with
  | [] => Ret w
  | NEW_CONN connfd :: tasks => '(_, w) ← TCPConn_new run_hook connfd w; deal_tasks tasks w
  | NEW_TASK cb args :: tasks =>
      deal_tasks tasks (set_ntloop (add_task vgrow (cb, args) (nt_loop w)) w)
  end.

Definition deal_task_message (q : ThreadQueue Task F LOOP) (w : Net)
    : res (ThreadQueue Task F LOOP * Net) :=
  let '(tasks, q) := recv [] q in
  w ← deal_tasks tasks w;
  Ret (q, w).

(** [thread_main(queue)] up to the loop: a fresh loop watches the queue. *)
Definition thread_main (evfd_num : F -> Z) (e : E) (q : ThreadQueue Task F LOOP) (w : Net) :
  Net :=
  set_ntloop (add_io_event (evfd_num (evfd q)) deal_task_message_cb EPOLLIN (Some arg_queue)
                (EventLoop_new e)) w.

(** ** Properties *)

Context {LP : BufAllocLaws P} {LE : EpollLaws E} (K : kernel_accepts (E := E)).
Context (UI : option V * option V * MsgRouter V V -> gset Z -> U -> Prop).
Context (hooked : V -> Z -> U -> U -> Prop).
Local Abbreviation conn_inv := (conn_inv UI).

(** The opening hook prepares the application for a new connection. *)
Definition starts (s : TCPServer V) : Prop :=
  start_ok UI run_hook hooked (srv_cfg s).

(** What the application needs to know for its connections. *)
Definition user_ok (w : Net) : Prop := UI (srv_cfg (nt_srv w)) (listed (nt_srv w)) (nt_user w).

(** What holds between the steps of a server thread: [bufs] are the buffers in
    use, each listed descriptor is below the limit of the table. *)
Record srv_inv (w : Net) (bufs : gmap loc IOBuf) : Prop := {
  sv_pool : ba_view (nt_pool w) bufs;
  sv_loop : loop_inv (nt_loop w);
  sv_table : table_ok (nt_srv w);
  sv_max : _curr_conns (nt_srv w) <= _max_conns (nt_srv w);
  sv_start : starts (nt_srv w);
  sv_user : user_ok w
}.

(** A descriptor [accept] may return: not watched, not listed (it was closed, if
    it ever was), and within the table. *)
Definition fresh_fd (fd : Z) (w : Net) : Prop :=
  io_evs (nt_loop w) !! fd = None /\ in_table fd (nt_srv w) /\ fd ∉ listed (nt_srv w).

(** Without a thread pool, [do_accept] on a descriptor within the table
    makes exactly one connection, watched and listed, and never exceeds the
    configured maximum: at the maximum it closes the descriptor and accepts on
    instead. *)
Lemma accept_bounds_connections fd answers (w : Net) bufs :
  srv_inv w bufs -> fresh_fd fd w ->
  if _max_conns (nt_srv w) <=? _curr_conns (nt_srv w)
  then do_accept (AccFd fd :: answers) (PoolNull (T := Pool)) w =
         do_accept answers PoolNull (close_fd fd w) /\ srv_inv (close_fd fd w) bufs
  else safe (do_accept (AccFd fd :: answers) (PoolNull (T := Pool)) w) (fun '(tp, w') =>
         tp = PoolNull /\ srv_inv w' bufs /\
         _curr_conns (nt_srv w') = _curr_conns (nt_srv w) + 1 /\
         listed (nt_srv w') = {[fd]} ∪ listed (nt_srv w) /\
         exists cn, _connfd cn = fd /\ conn_inv true (nt_next w) cn w' [] [] (before bufs w)).
Proof.
  intros [Hp HL Ht Hm Hst Hu] (Hev & Hin & Hnl). cbn [do_accept]. unfold get_conn_num.
  destruct (Z.leb_spec (_max_conns (nt_srv w)) (_curr_conns (nt_srv w))); [done|].
  eapply safe_bind;
    [by apply (TCPConn_new_ok UI K run_hook hooked fd w bufs Hp HL Hev Ht Hin Hnl Hst Hu)|].
  intros [c w'] (-> & cn & Hfd & I & Hl & Hc & Hmx & Hpl & _ & Hs1 & _). cbn. split; [done|].
  split; [|split; [done|]; split; [done|]; by exists cn].
  split; [by rewrite Hpl|apply I|apply I|lia| |apply I]. unfold starts. by rewrite Hs1.
Qed.

(** The table has [_max_conns + 3] cells, which is enough only if every
    descriptor of the process but the three standard ones is a connection: a
    connection on a descriptor at or above that (the listening socket, the
    epoll and event descriptors of each thread come before it) writes behind
    the end of [conns], whether it is accepted directly or by a thread. *)
Lemma accept_high_fd_overruns fd answers (q : ThreadQueue Task F LOOP) w :
  starts (nt_srv w) -> user_ok w -> fd ∉ listed (nt_srv w) ->
  _curr_conns (nt_srv w) < _max_conns (nt_srv w) -> _max_conns (nt_srv w) + 3 <= fd ->
  do_accept (AccFd fd :: answers) (PoolNull (T := Pool)) w = Fault OutOfBounds /\
  deal_task_message (mkQueue (evfd q) (q_loop q) [NEW_CONN fd]) w = Fault OutOfBounds.
Proof.
  intros Hst Hu Hnl Hlt Hfd.
  assert (E1 : TCPConn_new run_hook fd w = Fault OutOfBounds).
  { unfold TCPConn_new, new_conn. cbv beta iota zeta. set (w0 := mkNet _ _ _ _ _ _ _).
    assert (Hc : nt_conns w0 !! nt_next w = Some (mkConn fd None None None)) by
      apply lookup_insert_eq.
    destruct (Hst _ w0 _ Hc eq_refl Hnl Hu) as (v & u & -> & _).
    cbn [mbind res_bind]. unfold get_conn. cbn [nt_conns set_ntuser set_conn].
    rewrite lookup_insert_eq. cbn [mbind res_bind _connfd set_param nt_srv set_ntuser set_conn].
    unfold increase_conn, conns_size. cbn [nt_srv set_ntloop set_ntuser set_conn w0].
    rewrite (proj2 (Z.ltb_ge fd _)) by lia. by rewrite andb_false_r. }
  split.
  - cbn [do_accept]. unfold get_conn_num. rewrite (proj2 (Z.leb_gt _ _)) by lia. by rewrite E1.
  - unfold deal_task_message. cbn [recv queue deal_tasks]. by rewrite E1.
Qed.

(** The connections that [deal_tasks] makes of a list of fresh descriptors. *)
Lemma deal_tasks_ok tasks : forall w bufs,
  ba_view (nt_pool w) bufs -> loop_inv (nt_loop w) -> table_ok (nt_srv w) -> starts (nt_srv w) ->
  user_ok w ->
  let fds := omap (fun t => match t with NEW_CONN fd => Some fd | NEW_TASK _ _ => None end)
    tasks in
  NoDup fds -> Forall (fun fd => fresh_fd fd w) fds ->
  safe (deal_tasks tasks w) (fun w' => loop_inv (nt_loop w') /\ table_ok (nt_srv w') /\
    nt_pool w' = nt_pool w /\
    listed (nt_srv w') = list_to_set fds ∪ listed (nt_srv w) /\
    _curr_conns (nt_srv w') = _curr_conns (nt_srv w) + Z.of_nat (length fds) /\
    elts (ready_tasks (nt_loop w')) = elts (ready_tasks (nt_loop w)) ++
      omap (fun t => match t with NEW_CONN _ => None | NEW_TASK cb a => Some (cb, a) end) tasks).
Proof.
  induction tasks as [|[fd|cb args] tasks IH]; intros w bufs Hp HL Ht Hst Hu; cbn [omap list_omap
    deal_tasks].
  - intros _ _. cbn. rewrite app_nil_r, (left_id_L ∅ (∪)), Z.add_0_r. done.
  - intros [Hni Hnd]%NoDup_cons [(Hev & Hin & Hnl) Hf]%Forall_cons.
    eapply safe_bind;
      [by apply (TCPConn_new_ok UI K run_hook hooked fd w bufs Hp HL Hev Ht Hin Hnl Hst Hu)|].
    intros [c w1] (-> & cn & Hfd & I & Hl & Hc & Hmx & Hpl & Hnx & Hs1 & Hrt & _ & Hoth).
    eapply safe_mono; [apply (IH w1 bufs); try done|].
    + by rewrite Hpl.
    + apply I.
    + apply I.
    + unfold starts. by rewrite Hs1.
    + apply I.
    + apply Forall_forall. intros fd' Hfd'. rewrite Forall_forall in Hf.
      destruct (Hf _ Hfd') as (H1' & H2' & H3').
      assert (Hne : fd' <> fd) by (by intros ->).
      split; [by rewrite Hoth|]. split; [unfold in_table, conns_size in *; lia|].
      rewrite Hl. by rewrite elem_of_union, elem_of_singleton; intros [|].
    + intros w' (? & ? & Hpl' & Hl' & Hc' & Htk). split; [done|]. split; [done|].
      split; [congruence|]. split; [rewrite Hl', Hl; cbn; by rewrite (assoc_L (∪)), (comm_L (∪)
        (list_to_set _))|].
      split; [cbn [length]; lia|].
      by rewrite Htk, Hrt.
  - intros Hnd Hf. eapply safe_mono; [apply (IH _ bufs); try done|].
    + destruct HL. by split.
    + intros w' (? & ? & ? & ? & ? & Htk). do 5 (split; [done|]).
      rewrite Htk. cbn. by rewrite <- app_assoc.
Qed.

(** A thread takes all the tasks of its queue in one go and leaves none:
    every [NEW_CONN] becomes a connection that the thread's loop watches and the
    table lists and counts, every [NEW_TASK] is appended to the ready tasks, in
    the order of the queue. *)
Lemma deal_task_message_all (q : ThreadQueue Task F LOOP) w bufs :
  let fds := omap (fun t => match t with NEW_CONN fd => Some fd | NEW_TASK _ _ => None end)
               (queue q) in
  ba_view (nt_pool w) bufs -> loop_inv (nt_loop w) -> table_ok (nt_srv w) -> starts (nt_srv w) ->
  user_ok w -> NoDup fds -> Forall (fun fd => fresh_fd fd w) fds ->
  safe (deal_task_message q w) (fun '(q', w') => queue q' = [] /\
    loop_inv (nt_loop w') /\ table_ok (nt_srv w') /\
    listed (nt_srv w') = list_to_set fds ∪ listed (nt_srv w) /\
    _curr_conns (nt_srv w') = _curr_conns (nt_srv w) + Z.of_nat (length fds) /\
    elts (ready_tasks (nt_loop w')) = elts (ready_tasks (nt_loop w)) ++
      omap (fun t => match t with NEW_CONN _ => None | NEW_TASK cb a => Some (cb, a) end)
        (queue q)).
Proof.
  intros fds Hp HL Ht Hst Hu Hnd Hf. unfold deal_task_message. cbn [recv].
  eapply safe_bind; [by apply (deal_tasks_ok (queue q) w bufs)|].
  intros w' (? & ? & ? & ? & ? & ?). by cbn.
Qed.

(** Descriptors queued for a pool of one thread. *)
Fixpoint queued (fds : list Z) (q : ThreadQueue Task F LOOP) : ThreadQueue Task F LOOP :=
  match fds with [] => q | fd :: fds => queued fds (send (NEW_CONN fd) q) end.

Lemma queued_queue fds : forall q, queue (queued fds q) = queue q ++ (NEW_CONN <$> fds).
Proof.
  induction fds as [|fd fds IH]; intros q; cbn [queued]; [by rewrite app_nil_r|].
  rewrite IH. cbn. by rewrite <- app_assoc.
Qed.

(** With a thread pool, [do_accept] only queues descriptors: the counter it
    compares with the maximum does not move. *)
Lemma do_accept_queues fds : forall q w,
  _curr_conns (nt_srv w) < _max_conns (nt_srv w) ->
  do_accept (map AccFd fds ++ [AccErr EAGAIN]) (PoolSet (mkThreadPool [q] 1 0)) w =
    Ret (PoolSet (mkThreadPool [queued fds q] 1 0), w).
Proof.
  induction fds as [|fd fds IH]; intros q w Hlt; cbn [map app do_accept]; [done|].
  unfold get_conn_num. rewrite (proj2 (Z.leb_gt _ _)) by lia.
  apply (IH (send (NEW_CONN fd) q) w Hlt).
Qed.

(** With a thread pool the configured maximum is not enforced: while the
    counter is below it, [do_accept] queues every descriptor that [accept]
    returns and closes none, because only the threads count; the thread then
    makes all these connections, whose number may exceed the maximum. *)
Lemma accept_overcommits fds q w bufs :
  ba_view (nt_pool w) bufs -> loop_inv (nt_loop w) -> table_ok (nt_srv w) -> starts (nt_srv w) ->
  user_ok w ->
  _curr_conns (nt_srv w) < _max_conns (nt_srv w) -> queue q = [] ->
  NoDup fds -> Forall (fun fd => fresh_fd fd w) fds ->
  exists q', do_accept (map AccFd fds ++ [AccErr EAGAIN]) (PoolSet (mkThreadPool [q] 1 0)) w =
      Ret (PoolSet (mkThreadPool [q'] 1 0), w) /\
    safe (deal_task_message q' w) (fun '(_, w') =>
      _curr_conns (nt_srv w') = _curr_conns (nt_srv w) + Z.of_nat (length fds)).
Proof.
  intros Hp HL Ht Hst Hu Hlt Hq Hnd Hf. exists (queued fds q).
  split; [by apply do_accept_queues|]. unfold deal_task_message. cbn [recv].
  rewrite queued_queue, Hq. cbn [app].
  assert (E1 : omap (fun t : Task => match t with NEW_CONN fd => Some fd | NEW_TASK _ _ => None
    end)
    (NEW_CONN <$> fds) = fds).
  { clear. induction fds as [|fd fds IH]; [done|]. cbn. by f_equal. }
  eapply safe_bind; [apply (deal_tasks_ok (NEW_CONN <$> fds) w bufs Hp HL Ht Hst Hu); by rewrite
    E1|].
  intros w' (_ & _ & _ & _ & Hc & _). rewrite E1 in Hc. by cbn.
Qed.
End TcpServer.

(** ** Witnesses *)

Import TableKernel CounterFd.

(** A server with room for [max] connections and none yet. *)
Definition empty_server (max : Z) : Net BufPool (gmap Z Z) unit unit :=
  mkNet init_pool (EventLoop_new ∅) ∅ 100 (mkServer ∅ max 0 None None MsgRouter_new) ∅ tt.

Lemma empty_server_listed max : listed (nt_srv (empty_server max)) = ∅.
Proof. reflexivity. Qed.

Lemma empty_server_table max : 0 <= max < 2 ^ 30 -> table_ok (nt_srv (empty_server max)).
Proof.
  intros Hm. split; [done| |done]. intros fd. rewrite empty_server_listed. set_solver.
Qed.

Lemma empty_server_loop max : loop_inv (nt_loop (empty_server max)).
Proof. by apply EventLoop_new_inv. Qed.

Lemma empty_server_fresh max fd : 0 <= fd < max + 3 -> fresh_fd fd (empty_server max).
Proof.
  intros Hfd. split; [done|]. split; [exact Hfd|].
  rewrite empty_server_listed. set_solver.
Qed.

Lemma empty_server_view max : ba_view (nt_pool (empty_server max)) ∅.
Proof. exact (BufPool_new_view _ init_pool_eq). Qed.

Lemma empty_server_starts max : starts demo_hook demo_ui demo_hooked (nt_srv (empty_server max)).
Proof. intros c w cn s Hc _ _ _. by apply demo_hook_runs. Qed.

Lemma accept_bounds_connections_witness :
  safe (do_accept demo_hook [AccFd 7] (PoolNull (T :=
    ThreadPool (TaskMsg unit (option unit)) N unit))
      (empty_server 10)) (fun '(tp, w') =>
    tp = PoolNull /\ srv_inv demo_hook demo_ui demo_hooked w' ∅ /\ _curr_conns (nt_srv w') = 1 /\
    listed (nt_srv w') = {[7]} ∪ ∅ /\
    exists cn, _connfd cn = 7 /\ conn_inv demo_ui true 100 cn w' [] [] (before ∅ (empty_server
      10))).
Proof.
  refine (accept_bounds_connections (F := N) (LOOP := unit) demo_hook table_accepts demo_ui
    demo_hooked
    7 [] (empty_server 10) ∅ _ (empty_server_fresh 10 7 ltac:(lia))).
  split; [apply empty_server_view|apply empty_server_loop|by apply empty_server_table|done
    |apply empty_server_starts|done].
Defined.

Lemma accept_overcommits_witness :
  exists q', do_accept demo_hook (map AccFd [1; 2; 3] ++ [AccErr EAGAIN])
      (PoolSet (mkThreadPool [ThreadQueue_new (T := TaskMsg unit (option unit)) (LOOP :=
        unit) 0%N] 1 0))
      (empty_server 1) = Ret (PoolSet (mkThreadPool [q'] 1 0), empty_server 1) /\
    safe (deal_task_message demo_hook S q' (empty_server 1)) (fun '(_, w') =>
      _curr_conns (nt_srv w') = 3).
Proof.
  apply (accept_overcommits demo_hook S table_accepts demo_ui demo_hooked [1; 2; 3]
    (ThreadQueue_new 0%N)
    (empty_server 1) ∅ (empty_server_view 1) (empty_server_loop 1)).
  - by apply empty_server_table.
  - apply empty_server_starts.
  - done.
  - done.
  - done.
  - by apply (bool_decide_eq_true_1 (NoDup [1; 2; 3])).
  - repeat (apply Forall_cons_2; [by apply empty_server_fresh|]). apply Forall_nil_2.
Defined.

Lemma accept_high_fd_overruns_witness :
  do_accept demo_hook [AccFd 15] (PoolNull (T := ThreadPool (TaskMsg unit (option unit)) N unit))
    (empty_server 10) = Fault OutOfBounds /\
  deal_task_message demo_hook S (mkQueue (LOOP :=
    unit) 0%N None [NEW_CONN 15]) (empty_server 10) =
    Fault OutOfBounds.
Proof.
  apply (accept_high_fd_overruns demo_hook S demo_ui demo_hooked 15 [] (ThreadQueue_new 0%N)
    (empty_server 10) (empty_server_starts 10)); [done| |cbn; lia..].
  rewrite empty_server_listed. apply not_elem_of_empty.
Defined.

Lemma deal_task_message_all_witness :
  safe (deal_task_message demo_hook S
      (mkQueue (LOOP := unit) 0%N None [NEW_CONN 7; NEW_TASK tt None; NEW_CONN 8])
        (empty_server 10))
    (fun '(q', w') => queue q' = [] /\ loop_inv (nt_loop w') /\ table_ok (nt_srv w') /\
      listed (nt_srv w') = list_to_set [7; 8] ∪ ∅ /\ _curr_conns (nt_srv w') = 2 /\
      elts (ready_tasks (nt_loop w')) = [(tt, None)]).
Proof.
  apply (deal_task_message_all demo_hook S table_accepts demo_ui demo_hooked
    (mkQueue (LOOP := unit) 0%N None [NEW_CONN 7; NEW_TASK tt None; NEW_CONN 8]) (empty_server
      10) ∅
    (empty_server_view 10) (empty_server_loop 10)).
  - by apply empty_server_table.
  - apply empty_server_starts.
  - done.
  - by apply (bool_decide_eq_true_1 (NoDup [7; 8])).
  - repeat (apply Forall_cons_2; [by apply empty_server_fresh|]). apply Forall_nil_2.
Defined.
