(* ===== verification/EchoServer.v ===== *)
(** * EchoServer: the echo callbacks of the server
    (server_rd_callback and server_wt_callback of reactor/src/tcp_server.cpp)

    A first version of the server that nothing registers any more: one message
    buffer for all connections, and its length in a [char].  An echo is right up
    to 127 bytes ([echo_reply]). *)

From S2P Require Import Prelude CInt IOBuf BufAlloc BufPool ReactorBuf EventLoop TcpConnInv.
From Stdlib Require Import Strings.Byte.
Local Open Scope Z_scope.

(** [struct message]; the object [msg] is global and starts with zero bytes. *)
Record message : Type := mkMsg { msg_data : list byte; msg_len : Z }.

Inductive echo_cb : Type := server_rd | server_wt.

Section Echo.
Context {P E : Type} `{BufAlloc P} `{Epoll E}.
Local Abbreviation Loop := (EventLoop echo_cb unit unit E).

(** The pool, the loop, the message and the calls of [close]. *)
Record Echo : Type := mkEcho {
  e_pool : P;
  e_loop : Loop;
  e_msg : message;
  e_closed : list Z
}.

(** The local buffers go back to the pool when a callback returns ([rb_clear]). *)
Definition server_rd_callback (fd : Z) (ioctl : option Z) (rs : list rd_ans) (w : Echo)
    : res Echo :=
  '(ret, ibuf, p, _) ← read_data ioctl rs None (e_pool w);
  if (ret =? -1) || (ret =? 0) then
    '(_, p) ← rb_clear ibuf p;
    Ret (mkEcho p (del_io_event fd (e_loop w)) (e_msg w) (e_closed w ++ [fd]))
  else
    n ← rb_length ibuf p;
    let len := i8 n in
    check OutOfBounds (in_array m4K 0 len);;
    data ← ib_data ibuf p;
    match data with
    | None => Fault NullDeref
    | Some bs =>
        let d := take (Z.to_nat len) bs ++ drop (Z.to_nat len) (msg_data (e_msg w)) in
        '(ibuf, p) ← rb_pop len ibuf p;
        p ← ib_adjust ibuf p;
        '(_, p) ← rb_clear ibuf p;
        let L := del_io_event_mask fd EPOLLIN (e_loop w) in
        Ret (mkEcho p (add_io_event fd server_wt EPOLLOUT (Some tt) L) (mkMsg d len)
               (e_closed w))
    end.

(** The [while (obuf.length())]: whether it was left by the [return], the bytes
    written, the buffer's pool. *)
Fixpoint echo_loop (fuel : nat) (obuf : option loc) (ws : list wr_ans) (tr : list byte) (p : P)
    : res (bool * list byte * P) :=
  match fuel with
  | O => Fault Blocked
  | S fuel =>
      n ← rb_length obuf p;
      if n =? 0 then Ret (true, tr, p)
      else
        '(ret, sent, p, ws) ← write2fd ws obuf p;
        if ret =? -1 then Ret (false, tr ++ sent, p)
        else if ret =? 0 then Ret (true, tr ++ sent, p)
        else echo_loop fuel obuf ws (tr ++ sent) p
  end.

Definition server_wt_callback (fd : Z) (ws : list wr_ans) (w : Echo) : res (Echo * list byte) :=
  '(_, obuf, p) ← send_data (msg_data (e_msg w)) (msg_len (e_msg w)) None (e_pool w);
  '(go, sent, p) ← echo_loop (S (length ws)) obuf ws [] p;
  '(_, p) ← rb_clear obuf p;
  let L := e_loop w in
  let L := if (go : bool)
           then add_io_event fd server_rd EPOLLIN (Some tt) (del_io_event_mask fd EPOLLOUT L)
           else L in
  Ret (mkEcho p L (e_msg w) (e_closed w), sent).
End Echo.
Arguments Echo : clear implicits.

(** ** Echoes *)

Section Spec.
Context {P E : Type} `{LP : BufAllocLaws P} `{Epoll E}.
Local Abbreviation Echo := (Echo P E).

(** No buffer is kept between callbacks. *)
Definition echo_ok (o : gmap loc IOBuf) (w : Echo) : Prop :=
  ba_view (e_pool w) o /\ length (msg_data (e_msg w)) = Z.to_nat m4K.

Lemma i8_range n : - 2 ^ 7 <= i8 n < 2 ^ 7.
Proof. unfold i8. pose proof (Z.mod_pos_bound (n + 2 ^ 7) (2 ^ 8)). lia. Qed.

Lemma i8_le n : 0 <= n -> i8 n <= n.
Proof.
  intros Hn. unfold i8. pose proof (Z.mod_le (n + 2 ^ 7) (2 ^ 8)). lia.
Qed.

(** What arrives is the message, cut to the length that fits a [char]; when that
    is negative, [bzero] writes behind every array. *)
Lemma echo_read fd o w bs :
  echo_ok o w -> bs <> [] -> Z.of_nat (length bs) <= ba_max ->
  let n := Z.of_nat (length bs) in
  let m := server_rd_callback fd (Some n) [RdData bs] w in
  if i8 n <? 0 then m = Fault OutOfBounds \/ m = Fault ExitFail
  else exits_or m (fun w' => echo_ok o w' /\ msg_len (e_msg w') = i8 n /\
    take (Z.to_nat (i8 n)) (msg_data (e_msg w')) = take (Z.to_nat (i8 n)) bs /\
    e_closed w' = e_closed w).
Proof.
  intros [Hv Hd] Hne Hlen n m. subst m. unfold server_rd_callback. subst n.
  set (n := Z.of_nat (length bs)) in *. assert (Hn : 0 < n) by (destruct bs; [done|cbn in n; lia]).
  pose proof ba_max_ok as Hmax.
  assert (Hr : exits_or (read_data (Some n) [RdData bs] None (e_pool w)) (fun '(ret, rb, p, _) =>
    ret = n /\ exists o' l, rb = Some l /\ ba_view p o' /\ own true o' rb bs o)).
  { eapply exits_or_mono.
    - apply (read_data_ok (e_pool w) o None [] o n [RdData bs] (RdData bs) [] Hv ltac:(done));
        [lia|done|]. intros d [= <-] _. split; [done|lia].
    - intros [[[ret rb] p] rs]. cbn [length app]. rewrite (proj2 (Z.ltb_ge _ _)) by lia.
      intros (_ & [l ->] & -> & o' & Hv' & Ho'). split; [done|]. by exists o', l. }
  destruct (read_data _ _ _ _) as [[[[ret rb] p] rs]|[]]; cbn in Hr |- *; try done.
  2: { destruct (i8 n <? 0); [by right|done]. }
  destruct Hr as (-> & o' & l & -> & Hv' & Ho').
  rewrite (proj2 (Z.eqb_neq n (-1))), (proj2 (Z.eqb_neq n 0)) by lia. cbn [orb].
  rewrite (rb_length_ok _ _ _ _ _ _ Hv' Ho'). cbn [mbind res_bind]. fold n.
  pose proof (i8_range n) as Hi. pose proof (i8_le n ltac:(lia)) as Hle.
  destruct (Z.ltb_spec (i8 n) 0) as [Hneg|Hpos].
  { left. destruct (in_array m4K 0 (i8 n)) eqn:Ea; [|done]. apply in_array_spec in Ea. lia. }
  rewrite (proj2 (in_array_spec _ _ _)) by (unfold m4K; lia). cbn [check mbind res_bind].
  rewrite (ib_data_ok _ _ _ _ _ _ Hv' Ho'). cbn [mbind res_bind].
  set (k := Z.to_nat (i8 n)) in *. replace (i8 n) with (Z.of_nat k) at 1 by lia.
  apply safe_exits_or. eapply safe_bind; [apply (rb_pop_ok _ _ _ _ _ _ k Hv' Ho'); lia|].
  intros [rb2 p2] (o2 & Hv2 & Ho2 & _).
  eapply safe_bind; [by apply (ib_adjust_ok _ _ _ _ _ _ Hv2 Ho2)|].
  intros p3 (o3 & Hv3 & Ho3). eapply safe_bind; [by apply (rb_clear_ok _ _ _ _ _ _ Hv3 Ho3)|].
  intros [rb4 p4] (_ & Hv4). cbn. unfold echo_ok. cbn.
  assert (Hk : (k <= Z.to_nat m4K)%nat) by (unfold m4K; lia).
  rewrite length_app, length_take, length_drop, Hd.
  split; [split; [done|lia]|]. split; [done|]. split; [|done].
  rewrite take_app_le by (rewrite length_take; lia). by rewrite take_take, Nat.min_id.
Qed.

Lemma echo_loop_ok fuel : forall ws tr p o' rb ob rest r s,
  ba_view p o' -> own true o' rb ob rest -> drain ws (length ob) = Some (r, s) ->
  (length ws < fuel)%nat ->
  safe (echo_loop fuel rb ws tr p) (fun '(go, tr', p') => go = negb (r =? -1) /\
    tr' = tr ++ take s ob /\ exists o2, ba_view p' o2 /\ own true o2 rb (drop s ob) rest).
Proof.
  induction fuel as [|fuel IH]; intros ws tr p o' rb ob rest r s Hv Ho Hd Hf; [lia|].
  cbn [echo_loop]. rewrite (rb_length_ok _ _ _ _ _ _ Hv Ho). cbn [mbind res_bind].
  destruct (length ob) as [|n0] eqn:Hlen.
  { apply nil_length_inv in Hlen as ->. destruct ws; cbn in Hd; injection Hd as <- <-; cbn;
      rewrite app_nil_r; (split; [done|]; split; [done|]; by exists o'). }
  rewrite (proj2 (Z.eqb_neq _ _)) by lia.
  destruct rb as [l|]; [|by destruct Ho as [-> _]].
  destruct (drain_retry _ _ _ _ Hd) as (wa & ws' & Hr & Hl & Hd' & Hne). cbn [drain] in Hd'.
  eapply safe_bind.
  { apply (write2fd_ok _ _ _ _ _ _ _ _ Hv Ho Hr). intros n ->.
    destruct (Z.eqb_spec n 0); [lia|]. destruct (Z.ltb_spec n 0); [done|].
    cbn [orb] in Hd'. destruct (Z.ltb_spec (Z.of_nat (S n0)) n); [done|]. lia. }
  intros [[[ret sent] p1] ws1] (-> & -> & -> & o1 & Hv1 & Ho1).
  destruct wa as [n|e].
  2: { destruct e; try done; injection Hd' as <- <-; cbn; (split; [done|]; split; [done|]);
         by exists o1. }
  destruct (Z.eqb_spec n 0) as [->|Hn0].
  { injection Hd' as <- <-. cbn. split; [done|]. split; [done|]. by exists o1. }
  destruct (Z.ltb_spec n 0); [done|]. cbn [orb] in Hd'.
  destruct (Z.ltb_spec (Z.of_nat (S n0)) n); [done|].
  destruct (drain ws' _) as [[r' s']|] eqn:Ed; cbn in Hd'; [|done]. injection Hd' as <- <-.
  rewrite (proj2 (Z.eqb_neq n (-1))) by lia.
  assert (Hlt : length (take (Z.to_nat n) ob) = Z.to_nat n) by (rewrite length_take; lia).
  rewrite Hlt in Ho1.
  eapply safe_mono; [apply (IH ws' _ p1 o1 (Some l) _ rest r' s' Hv1 Ho1); [|lia]|].
  - by rewrite length_drop, Hlen.
  - intros [[go tr'] p'] (-> & -> & o2 & Hv2 & Ho2). split; [done|]. split.
    + rewrite <- app_assoc. f_equal. apply take_take_drop.
    + exists o2. split; [done|]. by rewrite drop_drop in Ho2.
Qed.

(** The message goes out, as far as the kernel takes it at once. *)
Lemma echo_write fd o w ws r s :
  echo_ok o w -> 0 <= msg_len (e_msg w) < 2 ^ 7 -> msg_len (e_msg w) <= ba_max ->
  drain ws (Z.to_nat (msg_len (e_msg w))) = Some (r, s) ->
  exits_or (server_wt_callback fd ws w) (fun '(w', sent) => echo_ok o w' /\
    sent = take s (take (Z.to_nat (msg_len (e_msg w))) (msg_data (e_msg w)))).
Proof.
  intros [Hv Hd] Hn Hmax Hdr. unfold server_wt_callback.
  set (n := msg_len (e_msg w)) in *. set (d := msg_data (e_msg w)) in *.
  set (k := Z.to_nat n) in *. set (bs := take k d).
  assert (Hk : length bs = k) by (unfold bs; rewrite length_take, Hd; unfold m4K; lia).
  assert (Hs : send_data d n None (e_pool w) = send_data bs (Z.of_nat (length bs)) None (e_pool w)).
  { rewrite Hk. replace (Z.of_nat k) with n by lia. unfold send_data.
    destruct (reserve n None (e_pool w)) as [[[l|] p]|]; cbn [mbind res_bind]; [|done..].
    rewrite (proj2 (in_array_spec (Z.of_nat (length d)) 0 n)) by (rewrite Hd; unfold m4K; lia).
    rewrite (proj2 (in_array_spec (Z.of_nat (length bs)) 0 n)) by lia. cbn [check mbind res_bind].
    fold k. unfold bs. by rewrite take_take, Nat.min_id. }
  rewrite Hs. eapply exits_or_bind;
    [apply (send_data_ok (e_pool w) o None [] o bs Hv ltac:(done)); lia|].
  intros [[ret rb] p]. cbn [length app]. rewrite (proj2 (Z.leb_le _ _)) by lia.
  intros (_ & _ & o1 & Hv1 & Ho1). apply safe_exits_or.
  eapply safe_bind; [apply (echo_loop_ok _ ws [] p o1 rb bs o r s Hv1 Ho1); [by rewrite Hk|lia]|].
  intros [[go sent] p2] (_ & -> & o2 & Hv2 & Ho2).
  eapply safe_bind; [by apply (rb_clear_ok _ _ _ _ _ _ Hv2 Ho2)|].
  intros [rb3 p3] (_ & Hv3). cbn. done.
Qed.

(** An echo is right up to 127 bytes: of a longer message either a part comes
    back, as many bytes as the low eight bits of its length say, or, when these
    are the two's complement of a negative number, the server writes outside
    the message. *)
Lemma echo_reply fd o w bs ws r s :
  echo_ok o w -> bs <> [] -> Z.of_nat (length bs) <= ba_max ->
  let n := Z.of_nat (length bs) in
  drain ws (Z.to_nat (i8 n)) = Some (r, s) ->
  let m := w ← server_rd_callback fd (Some n) [RdData bs] w; server_wt_callback fd ws w in
  if i8 n <? 0 then m = Fault OutOfBounds \/ m = Fault ExitFail
  else exits_or m (fun '(w', sent) => echo_ok o w' /\ sent = take s (take (Z.to_nat (i8 n)) bs)).
Proof.
  intros Hw Hne Hlen n Hd m. subst m. pose proof (echo_read fd o w bs Hw Hne Hlen) as Hr.
  cbv zeta in Hr. fold n in Hr. pose proof (i8_range n). pose proof (i8_le n ltac:(lia)).
  destruct (Z.ltb_spec (i8 n) 0) as [Hneg|Hpos].
  { destruct Hr as [-> | ->]; [by left|by right]. }
  eapply exits_or_bind; [exact Hr|]. intros w1 (Hw1 & Hl & Ht & _).
  eapply exits_or_mono; [apply (echo_write fd o w1 ws r s Hw1); rewrite Hl; [lia|lia|exact Hd]|].
  intros [w2 sent] [Hw2 ->]. split; [done|]. by rewrite Hl, Ht.
Qed.
End Spec.
