(* ===== verification/ServerLoop.v ===== *)
(** * ServerLoop: a worker thread and all its connections

    The loop of [thread_main] (reactor/src/thread_pool.cpp): [event_process] of
    [EventLoop] with the callbacks that a worker has, on any number of
    connections.  The specification is a server without buffers, descriptors
    and event masks: what each connection has received and has to send, the
    accepted descriptors that wait, the application's state ([Serving], [sstep]).
    The worker refines it ([worker_refines]), and so what a connection is served
    depends on its own bytes only ([connections_independent]). *)

From S2P Require Import Prelude CInt IOBuf BufAlloc BufPool ReactorBuf Message.
From S2P Require Import EventLoop ThreadQueue NetState Framing TcpConn TcpConnInv TcpConnSpec.
From S2P Require Import TcpServer.
From Stdlib Require Import Strings.Byte.
Local Open Scope Z_scope.

(** ** The worker *)

(** What the kernel answers to the calls of one callback. *)
Inductive answer : Type :=
  | AnsRead (ioctl : option Z) (rs : list rd_ans)
  | AnsWrite (ws : list wr_ans).

Section Worker.
Context {P E V U F LOOP : Type} `{BufAlloc P} `{Epoll E} `{EventFd F}.
Local Abbreviation Net := (Net P E V U).
Local Abbreviation Task := (TaskMsg V (option V)).
Local Abbreviation Loop := (EventLoop (io_cb V) (io_arg V) (V * option V) E).

(** The thread's state, its queue, the answers to come, and what it has done:
    the messages handed to the router and the bytes sent, with descriptors. *)
Record Worker : Type := mkWorker {
  wk_net : Net;
  wk_queue : ThreadQueue Task F LOOP;
  wk_in : list answer;
  wk_calls : list (Z * frame);
  wk_sent : list (Z * list byte)
}.

Definition set_wknet (w : Net) (wk : Worker) : Worker :=
  mkWorker w (wk_queue wk) (wk_in wk) (wk_calls wk) (wk_sent wk).
Definition wk_loop (wk : Worker) : Loop := nt_loop (wk_net wk).
Definition set_wkloop (L : Loop) (wk : Worker) : Worker :=
  set_wknet (set_ntloop L (wk_net wk)) wk.

Variable run_msg : V -> option (list byte) -> Z -> Z -> Z -> option V -> Net -> res Net.
Variable run_hook : V -> Z -> Net -> res Net.
Variable vgrow : nat -> nat.
Variable run_task : V * option V -> Worker -> res Worker.

(** The callbacks on a worker's loop; a callback that asks the kernel for
    something else than it answers blocks. *)
Definition worker_cb (cb : io_cb V) (fd : Z) (arg : option (io_arg V)) (wk : Worker)
    : res Worker :=
  match cb, arg, wk_in wk with
  | conn_rd_callback, Some (arg_conn c), AnsRead ioctl rs :: ins =>
      '(w, tr) ← do_read run_msg run_hook c ioctl rs (wk_net wk);
      Ret (mkWorker w (wk_queue wk) ins (wk_calls wk ++ (pair fd <$> tr)) (wk_sent wk))
  | conn_wt_callback, Some (arg_conn c), AnsWrite ws :: ins =>
      '(w, sent) ← do_write run_hook c ws (wk_net wk);
      Ret (mkWorker w (wk_queue wk) ins (wk_calls wk) (wk_sent wk ++ [(fd, sent)]))
  | deal_task_message_cb, Some arg_queue, ins =>
      '(q, w) ← deal_task_message run_hook vgrow (wk_queue wk) (wk_net wk);
      Ret (mkWorker w q ins (wk_calls wk) (wk_sent wk))
  | _, _, _ => Fault Blocked
  end.

(** One turn of the loop. *)
Definition worker_turn (fired : list (Z * Z)) (wk : Worker) : res Worker :=
  event_process wk_loop set_wkloop worker_cb run_task fired wk.

(** [queue->send(task)] of [do_accept], in the accepting thread. *)
Definition arrive (fd : Z) (wk : Worker) : Worker :=
  mkWorker (wk_net wk) (send (NEW_CONN fd) (wk_queue wk)) (wk_in wk) (wk_calls wk) (wk_sent wk).
End Worker.
Arguments Worker : clear implicits.

(** ** Events *)

(** What [epoll_wait] reports, with what the kernel answers then: the queue has
    tasks; data, the end of the stream or an error on a connection; room for
    output. *)
Inductive wk_event : Type :=
  | ENew (m : Z)
  | EData (fd m : Z) (data : list byte) (rs : list rd_ans)
  | EEnd (fd m : Z) (ioctl : option Z) (rs : list rd_ans)
  | EWrite (fd m : Z) (ws : list wr_ans).

(** A turn of the loop; or the accepting thread has queued a descriptor. *)
Inductive wk_item : Type := Turn (es : list wk_event) | Arrive (fd : Z).

Definition fired_of (qfd : Z) (e : wk_event) : Z * Z :=
  match e with
  | ENew m => (qfd, m)
  | EData fd m _ _ | EEnd fd m _ _ | EWrite fd m _ => (fd, m)
  end.

Definition answer_of (e : wk_event) : list answer :=
  match e with
  | ENew _ => []
  | EData _ _ data rs => [AnsRead (Some (Z.of_nat (length data))) (RdData data :: rs)]
  | EEnd _ _ ioctl rs => [AnsRead ioctl rs]
  | EWrite _ _ ws => [AnsWrite ws]
  end.

(** The loop of a worker whose queue has the event descriptor [qfd]. *)
Section Work.
Context {P E V U F LOOP : Type} `{BufAlloc P} `{Epoll E} `{EventFd F}.
Local Abbreviation Net := (Net P E V U).
Local Abbreviation Worker := (Worker P E V U F LOOP).
Variable run_msg : V -> option (list byte) -> Z -> Z -> Z -> option V -> Net -> res Net.
Variable run_hook : V -> Z -> Net -> res Net.
Variable vgrow : nat -> nat.
Variable run_task : V * option V -> Worker -> res Worker.
Variable qfd : Z.

Definition with_answers (ins : list answer) (wk : Worker) : Worker :=
  mkWorker (wk_net wk) (wk_queue wk) ins (wk_calls wk) (wk_sent wk).

Fixpoint work (its : list wk_item) (wk : Worker) : res Worker :=
  match its with
  | [] => Ret wk
  | Turn es :: its =>
      wk ← worker_turn run_msg run_hook vgrow run_task (fired_of qfd <$> es)
             (with_answers (mjoin (answer_of <$> es)) wk);
      work its wk
  | Arrive fd :: its => work its (arrive fd wk)
  end.
End Work.

(** Events that lead to the read callback: [EPOLLIN], or an error alone. *)
Definition is_read (m : Z) : bool :=
  has_in m || (negb (has_out m) && negb (Z.land m (Z.lor EPOLLHUP EPOLLERR) =? 0)).
Definition is_write (m : Z) : bool := negb (has_in m) && has_out m.

(** The read ends the connection. *)
Definition ends (ioctl : option Z) (rs : list rd_ans) : Prop :=
  match ioctl with
  | None => True
  | Some need => 0 <= need <= 2 ^ 30 /\ exists r rs', read_retry rs = Ret (r, rs') /\
      (r = RdData [] \/ exists e, r = RdErr e)
  end.

(** ** The specification *)

Section Spec.
Context {V U : Type}.

(** Of each connection, by descriptor, what it has received and not processed
    and what it has to send; the descriptors that wait; the application's state. *)
Record Serving : Type := mkServing {
  s_conns : gmap Z (list byte * list byte);
  s_waiting : list Z;
  s_user : U
}.

(** What the server offers, its hooks and handlers, and their effects. *)
Context (cfg : option V * option V * MsgRouter V V)
  (eff : V -> option V -> frame -> Z -> U -> U -> list byte -> Prop)
  (hooked : V -> Z -> U -> U -> Prop).

(** The opening hook for each of the descriptors; the closing hook. *)
Fixpoint all_opened (fds : list Z) (u u' : U) : Prop :=
  match fds with
  | [] => u' = u
  | fd :: fds => exists u1, opt_hooked hooked cfg.1.1 fd u u1 /\ all_opened fds u1 u'
  end.
Definition closed (fd : Z) (u u' : U) : Prop := opt_hooked hooked cfg.1.2 fd u u'.

Inductive sstep : Serving -> wk_event -> Serving -> list (Z * frame) -> list (Z * list byte)
    -> Prop :=
  | ss_new C W u u' m :
      all_opened W u u' ->
      sstep (mkServing C W u) (ENew m)
        (mkServing (C ∪ list_to_map ((fun fd => (fd, ([], []))) <$> W)) [] u') [] []
  | ss_data C W u u' fd m data rs i o fs r out :
      C !! fd = Some (i, o) -> parse (i ++ data) = (fs, More r) ->
      served eff cfg.2 fd fs u u' out ->
      sstep (mkServing C W u) (EData fd m data rs)
        (mkServing (<[fd := (r, o ++ out)]> C) W u') (pair fd <$> fs) []
  | ss_bad C W u u1 u' fd m data rs i o fs out :
      C !! fd = Some (i, o) -> parse (i ++ data) = (fs, BadHead) ->
      served eff cfg.2 fd fs u u1 out -> closed fd u1 u' ->
      sstep (mkServing C W u) (EData fd m data rs)
        (mkServing (delete fd C) W u') (pair fd <$> fs) []
  | ss_end C W u u' fd m ioctl rs :
      closed fd u u' ->
      sstep (mkServing C W u) (EEnd fd m ioctl rs) (mkServing (delete fd C) W u') [] []
  | ss_write C W u fd m ws i o r n :
      C !! fd = Some (i, o) -> drain ws (length o) = Some (r, n) -> r <> -1 ->
      sstep (mkServing C W u) (EWrite fd m ws)
        (mkServing (<[fd := (i, drop n o)]> C) W u) [] [(fd, take n o)]
  | ss_broken C W u u' fd m ws i o n :
      C !! fd = Some (i, o) -> drain ws (length o) = Some (-1, n) -> closed fd u u' ->
      sstep (mkServing C W u) (EWrite fd m ws)
        (mkServing (delete fd C) W u') [] [(fd, take n o)].

Inductive ssteps : Serving -> list wk_event -> Serving -> list (Z * frame) ->
    list (Z * list byte) -> Prop :=
  | ss_nil S : ssteps S [] S [] []
  | ss_cons S e S1 es S2 cs1 sn1 cs2 sn2 :
      sstep S e S1 cs1 sn1 -> ssteps S1 es S2 cs2 sn2 ->
      ssteps S (e :: es) S2 (cs1 ++ cs2) (sn1 ++ sn2).

Inductive sruns : Serving -> list wk_item -> Serving -> list (Z * frame) ->
    list (Z * list byte) -> Prop :=
  | sr_nil S : sruns S [] S [] []
  | sr_turn S es S1 its S2 cs1 sn1 cs2 sn2 :
      ssteps S es S1 cs1 sn1 -> sruns S1 its S2 cs2 sn2 ->
      sruns S (Turn es :: its) S2 (cs1 ++ cs2) (sn1 ++ sn2)
  | sr_arrive C W u fd its S2 cs sn :
      sruns (mkServing C (W ++ [fd]) u) its S2 cs sn ->
      sruns (mkServing C W u) (Arrive fd :: its) S2 cs sn.

(** What the kernel can report in a state, and what fits: [grow] is what a
    message adds to the output at most, [room] the largest buffer, [lim] the size
    of the connection table.  Beside what a kernel does anyway (events on what
    is watched, no more bytes taken than there are) this bounds what a
    connection has received and not processed and what it has to send, and
    excludes an input that ends with an empty message ([EmptyAtEnd]): the code
    fails an assertion then ([zero_pair_stops_service]). *)
Context (grow : nat) (room lim qfd : Z).

Definition fits (S : Serving) (e : wk_event) : Prop :=
  match e with
  | ENew m => is_read m = true
  | EData fd m data rs => is_read m = true /\ data <> [] /\ exists i o,
      s_conns S !! fd = Some (i, o) /\ Z.of_nat (length i + length data) <= room /\
      let '(fs, t) := parse (i ++ data) in
      Z.of_nat (length o + grow * Datatypes.S (length fs)) <= room /\
      match t with EmptyAtEnd _ => False | _ => True end
  | EEnd fd m ioctl rs => is_read m = true /\ is_Some (s_conns S !! fd) /\ ends ioctl rs
  | EWrite fd m ws => is_write m = true /\ exists i o, s_conns S !! fd = Some (i, o) /\ o <> [] /\
      is_Some (drain ws (length o))
  end.

Fixpoint all_fit (es : list wk_event) (k : Serving -> Prop) (S : Serving) : Prop :=
  match es with
  | [] => k S
  | e :: es => fits S e /\ forall S' cs sn, sstep S e S' cs sn -> all_fit es k S'
  end.

(** A descriptor that [accept] returns is not open. *)
Definition new_fd (fd : Z) (S : Serving) : Prop :=
  0 <= fd < lim /\ fd <> qfd /\ s_conns S !! fd = None /\ fd ∉ s_waiting S.

Fixpoint run_fits (its : list wk_item) (S : Serving) : Prop :=
  match its with
  | [] => True
  | Turn es :: its => all_fit es (run_fits its) S
  | Arrive fd :: its =>
      new_fd fd S /\ run_fits its (mkServing (s_conns S) (s_waiting S ++ [fd]) (s_user S))
  end.
End Spec.
Arguments Serving : clear implicits.

(** ** Connections are independent *)

(** What the items say of the descriptor [fd]: the bytes it receives; it is not
    ended from outside, and no write to it fails. *)
Definition event_data (fd : Z) (e : wk_event) : list byte :=
  match e with EData fd' _ data _ => if decide (fd' = fd) then data else [] | _ => [] end.
Definition item_data (fd : Z) (it : wk_item) : list byte :=
  match it with Turn es => mjoin (event_data fd <$> es) | Arrive _ => [] end.
Definition stream_of (fd : Z) (its : list wk_item) : list byte := mjoin (item_data fd <$> its).

Definition quiet_event (fd : Z) (e : wk_event) : Prop :=
  match e with
  | EEnd fd' _ _ _ => fd' <> fd
  | EWrite fd' _ ws => fd' = fd -> forall n k, drain ws n <> Some (-1, k)
  | _ => True
  end.
Definition quiet (fd : Z) (it : wk_item) : Prop :=
  match it with Turn es => Forall (quiet_event fd) es | Arrive _ => True end.

(** What a trace has of it. *)
Definition of_fd {A : Type} (fd : Z) (tr : list (Z * A)) : list A :=
  omap (fun x => if decide (x.1 = fd) then Some x.2 else None) tr.

Lemma of_fd_app {A} fd (tr1 tr2 : list (Z * A)) :
  of_fd fd (tr1 ++ tr2) = of_fd fd tr1 ++ of_fd fd tr2.
Proof. apply omap_app. Qed.

Lemma of_fd_pair {A} fd (xs : list A) : of_fd fd (pair fd <$> xs) = xs.
Proof.
  induction xs as [|x xs IH]; [done|]. unfold of_fd in *. cbn. rewrite decide_True by done.
  by f_equal.
Qed.

Lemma snd_pair {A} (fd : Z) (xs : list A) : (pair fd <$> xs).*2 = xs.
Proof. rewrite <- list_fmap_compose. apply list_fmap_id. Qed.

Lemma of_fd_other {A} fd fd' (xs : list A) : fd' <> fd -> of_fd fd (pair fd' <$> xs) = [].
Proof.
  intros Hne. induction xs as [|x xs IH]; [done|]. unfold of_fd in *. cbn.
  by rewrite decide_False.
Qed.

Section Independent.
Context {V U : Type} (cfg : option V * option V * MsgRouter V V)
  (eff : V -> option V -> frame -> Z -> U -> U -> list byte -> Prop)
  (hooked : V -> Z -> U -> U -> Prop).

(** Each message is answered as its handler may answer it in some state. *)
Inductive answered (fd : Z) : list frame -> list byte -> Prop :=
  | an_nil : answered fd [] []
  | an_cons f fs u u' out1 out2 :
      serve eff cfg.2 fd f u u' out1 -> answered fd fs out2 -> answered fd (f :: fs) (out1 ++ out2).

Lemma answered_app fd fs1 fs2 out1 out2 :
  answered fd fs1 out1 -> answered fd fs2 out2 -> answered fd (fs1 ++ fs2) (out1 ++ out2).
Proof.
  intros H1 H2. induction H1; [done|]. cbn [app]. rewrite <- app_assoc. by econstructor.
Qed.

Lemma served_answered fd fs u u' out : served eff cfg.2 fd fs u u' out -> answered fd fs out.
Proof. induction 1; by econstructor. Qed.

(** What the connection [fd] has; a new one has nothing. *)
Definition conn_of (fd : Z) (S : Serving U) : list byte * list byte :=
  default ([], []) (s_conns S !! fd).

(** Of the connection [fd], which is [c'] then: the messages [fs] were handled,
    [r] is left of the input, and what is sent and pending is what was pending and the answers. *)
Definition served_alone (fd : Z) (o : list byte) (c' : list byte * list byte)
    (cs : list (Z * frame)) (sn : list (Z * list byte)) (fs : list frame) (r : list byte) : Prop :=
  of_fd fd cs = fs /\ exists o' out, c' = (r, o') /\ answered fd fs out /\
    concat (of_fd fd sn) ++ o' = o ++ out.

Lemma conn_of_new fd C W (u u' : U) :
  conn_of fd (mkServing (C ∪ list_to_map ((fun fd => (fd, ([], []))) <$> W)) [] u') =
    conn_of fd (mkServing C W u).
Proof.
  unfold conn_of. cbn [s_conns]. rewrite lookup_union. destruct (C !! fd) as [x|].
  { by rewrite union_Some_l. }
  rewrite (left_id_L None (∪)). induction W as [|fd' W IH]; [done|]. cbn.
  rewrite lookup_insert. by case_decide.
Qed.

Lemma sstep_alone S e S' cs sn fd i o fs r :
  sstep cfg eff hooked S e S' cs sn -> conn_of fd S = (i, o) -> quiet_event fd e ->
  parse i = ([], More i) ->
  parse (i ++ event_data fd e) = (fs, More r) -> served_alone fd o (conn_of fd S') cs sn fs r.
Proof.
  intros Hst Hfd Hq Hi Hp.
  assert (Hother : conn_of fd S' = (i, o) -> of_fd fd cs = [] -> concat (of_fd fd sn) = [] ->
    event_data fd e = [] -> served_alone fd o (conn_of fd S') cs sn fs r).
  { intros Hfd' Hcs Hsn He. rewrite He, app_nil_r, Hi in Hp. injection Hp as <- <-. split; [done|].
    exists o, []. rewrite Hsn, app_nil_r. split; [done|]. split; [constructor|done]. }
  unfold conn_of in Hfd, Hother |- *.
  destruct Hst as [C W u u' m _|C W u u' fd' m data rs i' o' fs' r' out Hc Hp' Hsv
    |C W u u1 u' fd' m data rs i' o' fs' out' Hc Hp' _ _|C W u u' fd' m ioctl rs _
    |C W u fd' m ws i' o' r' n Hc Hd Hr|C W u u' fd' m ws i' o' n Hc Hd _];
    cbn [s_conns event_data quiet_event] in *.
  - apply Hother; try done. rewrite <- Hfd. apply (conn_of_new fd C W u u').
  - case_decide as Hf.
    + subst fd'. rewrite Hc in Hfd. injection Hfd as -> ->. rewrite Hp' in Hp.
      injection Hp as <- <-.
      split; [apply of_fd_pair|]. exists (o ++ out), out. unfold conn_of. cbn.
      rewrite lookup_insert_eq. split; [done|]. split; [by eapply served_answered|done].
    + apply Hother; try done; [by rewrite lookup_insert_ne|by apply of_fd_other].
  - case_decide as Hf.
    + subst fd'. rewrite Hc in Hfd. injection Hfd as -> ->. by rewrite Hp' in Hp.
    + apply Hother; try done; [by rewrite lookup_delete_ne|by apply of_fd_other].
  - apply Hother; try done. by rewrite lookup_delete_ne.
  - destruct (decide (fd' = fd)) as [->|Hf].
    + rewrite Hc in Hfd. injection Hfd as -> ->. rewrite app_nil_r, Hi in Hp. injection Hp as <- <-.
      split; [done|]. exists (drop n o), []. unfold conn_of. cbn. rewrite lookup_insert_eq.
      split; [done|]. split; [constructor|]. unfold of_fd. cbn. rewrite decide_True by done. cbn.
      by rewrite !app_nil_r, take_drop.
    + apply Hother; try done; [by rewrite lookup_insert_ne|].
      unfold of_fd. cbn. by rewrite decide_False.
  - destruct (decide (fd' = fd)) as [->|Hf]; [by destruct (Hq eq_refl _ _ Hd)|].
    apply Hother; try done; [by rewrite lookup_delete_ne|].
    unfold of_fd. cbn. by rewrite decide_False.
Qed.

(** A run in which [fd] receives [data], from the state [c] of its connection to
    the state [c']. *)
Definition alone (fd : Z) (data : list byte) (c c' : list byte * list byte)
    (cs : list (Z * frame)) (sn : list (Z * list byte)) : Prop :=
  forall i o fs r, c = (i, o) -> parse i = ([], More i) ->
    parse (i ++ data) = (fs, More r) -> Forall (fun f => f_data f <> []) fs ->
    served_alone fd o c' cs sn fs r.

Lemma alone_nil fd c : alone fd [] c c [] [].
Proof.
  intros i o fs r Hfd Hi Hp _. rewrite app_nil_r, Hi in Hp. injection Hp as <- <-.
  split; [done|]. exists o, []. cbn. rewrite app_nil_r. split; [done|]. split; [constructor|done].
Qed.

Lemma alone_app fd d1 d2 c c1 c2 cs1 cs2 sn1 sn2 :
  alone fd d1 c c1 cs1 sn1 -> alone fd d2 c1 c2 cs2 sn2 ->
  alone fd (d1 ++ d2) c c2 (cs1 ++ cs2) (sn1 ++ sn2).
Proof.
  intros H1 H2 i o fs r Hfd Hi Hp Hne. rewrite app_assoc in Hp.
  destruct (parse_prefix _ _ _ _ Hp Hne) as (fs1 & r1 & Ep1 & fs2 & Ep2 & ->).
  apply Forall_app in Hne as [Hne1 Hne2].
  destruct (H1 i o fs1 r1 Hfd Hi Ep1 Hne1) as (Ec1 & o1 & out1 & Hfd1 & Ha1 & Eo1).
  destruct (H2 r1 o1 fs2 r Hfd1 (parse_left _ _ _ Ep1) Ep2 Hne2)
    as (Ec2 & o2 & out2 & Hfd2 & Ha2 & Eo2).
  split; [by rewrite of_fd_app, Ec1, Ec2|]. exists o2, (out1 ++ out2). split; [done|].
  split; [by apply answered_app|]. rewrite of_fd_app, concat_app, <- app_assoc, Eo2.
  by rewrite !app_assoc, Eo1.
Qed.

Lemma ssteps_alone fd S es S' cs sn :
  ssteps cfg eff hooked S es S' cs sn -> Forall (quiet_event fd) es ->
  alone fd (mjoin (event_data fd <$> es)) (conn_of fd S) (conn_of fd S') cs sn.
Proof.
  induction 1 as [S|S e S1 es S2 cs1 sn1 cs2 sn2 Hst _ IH]; intros Hq; [apply alone_nil|].
  apply Forall_cons in Hq as [He Hq]. cbn.
  apply (alone_app _ _ _ _ (conn_of fd S1)); [|by apply IH].
  intros i o fs r Hfd Hi Hp _. by eapply sstep_alone.
Qed.

Lemma sruns_alone fd S its S' cs sn :
  sruns cfg eff hooked S its S' cs sn -> Forall (quiet fd) its ->
  alone fd (stream_of fd its) (conn_of fd S) (conn_of fd S') cs sn.
Proof.
  induction 1 as [S|S es S1 its S2 cs1 sn1 cs2 sn2 Hst _ IH|C W u fd' its S2 cs sn _ IH]; intros Hq;
    [apply alone_nil|apply Forall_cons in Hq as [Hq1 Hq]..].
  - apply (alone_app _ (item_data fd (Turn es)) _ _ (conn_of fd S1));
    [by apply ssteps_alone|by apply IH].
  - by apply IH.
Qed.
End Independent.

(** ** The invariant of a worker *)

(** A connection of the worker: the object, its place, and what it holds. *)
Record Live (V : Type) : Type := mkLive {
  l_id : Z;
  l_conn : TCPConn V;
  l_in : list byte;
  l_out : list byte
}.
Arguments mkLive {V} _ _ _ _.
Arguments l_id {V} _.
Arguments l_conn {V} _.
Arguments l_in {V} _.
Arguments l_out {V} _.

Section Owns.
Context {V : Type}.
Implicit Types (l : Live V) (o r : gmap loc IOBuf).

(** Among the buffers in use [o], those of the connection; [r] are the others. *)
Definition own_live o l r : Prop :=
  exists x, own true o (ibuf (l_conn l)) (l_in l) x /\ own true x (obuf (l_conn l)) (l_out l) r.

Fixpoint owns (ls : list (Live V)) o (spare : gmap loc IOBuf) : Prop :=
  match ls with
  | [] => o = spare
  | l :: ls => exists r, own_live o l r /\ owns ls r spare
  end.

Lemma own_live_swap o l1 l2 x r :
  own_live o l1 x -> own_live x l2 r -> exists y, own_live o l2 y /\ own_live y l1 r.
Proof.
  intros (a & Hi1 & Ho1) (b & Hi2 & Ho2).
  destruct (own_swap _ _ _ _ _ _ _ _ _ Ho1 Hi2) as (c & Hi2' & Ho1').
  destruct (own_swap _ _ _ _ _ _ _ _ _ Hi1 Hi2') as (d & Hi2'' & Hi1').
  destruct (own_swap _ _ _ _ _ _ _ _ _ Ho1' Ho2) as (e & Ho2' & Ho1'').
  destruct (own_swap _ _ _ _ _ _ _ _ _ Hi1' Ho2') as (f & Ho2'' & Hi1'').
  exists f. split; [by exists d|by exists e].
Qed.

#[global] Instance owns_perm : Proper ((≡ₚ) ==> (=) ==> (=) ==> iff) owns.
Proof.
  assert (Hp : forall ls1 ls2, ls1 ≡ₚ ls2 -> forall o sp, owns ls1 o sp -> owns ls2 o sp).
  { induction 1 as [|l ls1 ls2 _ IH|l1 l2 ls|ls1 ls2 ls3 _ IH1 _ IH2]; intros o sp; cbn.
    - done.
    - intros (r & Hl & Hr). exists r. split; [done|by apply IH].
    - intros (r1 & H1 & r2 & H2 & H3). destruct (own_live_swap _ _ _ _ _ H1 H2) as (y & ? & ?).
      exists y. split; [done|by exists r2].
    - intros Ho. by apply IH2, IH1. }
  intros ls1 ls2 Hls o ? <- sp ? <-. split; by apply Hp.
Qed.

(** The buffers of a map of connections. *)
Definition owns_map (M : gmap Z (Live V)) o (spare : gmap loc IOBuf) : Prop :=
  owns (map_to_list M).*2 o spare.

Lemma owns_map_delete M fd l o sp :
  M !! fd = Some l -> owns_map M o sp <-> exists r, own_live o l r /\ owns_map (delete fd M) r sp.
Proof.
  intros Hl. unfold owns_map.
  by rewrite (fmap_Permutation _ _ _ (symmetry (map_to_list_delete M fd l Hl))).
Qed.

Lemma owns_map_insert M fd l o sp :
  M !! fd = None ->
  owns_map (<[fd := l]> M) o sp <-> exists r, own_live o l r /\ owns_map M r sp.
Proof.
  intros Hl. unfold owns_map. by rewrite (fmap_Permutation _ _ _ (map_to_list_insert M fd l Hl)).
Qed.
End Owns.

Section Invariant.
Context {P E V U F LOOP : Type} `{LP : BufAllocLaws P} `{LE : EpollLaws E} `{EventFd F}.
Local Abbreviation Net := (Net P E V U).
Local Abbreviation Task := (TaskMsg V (option V)).
Local Abbreviation Worker := (Worker P E V U F LOOP).
Local Abbreviation Loop := (EventLoop (io_cb V) (io_arg V) (V * option V) E).
Context (K : kernel_accepts (E := E)) (run_hook : V -> Z -> Net -> res Net).
Context (UI : option V * option V * MsgRouter V V -> gset Z -> U -> Prop).
Context (cfg : option V * option V * MsgRouter V V) (lim qfd : Z).
Context (hooked : V -> Z -> U -> U -> Prop).
Local Abbreviation conn_inv := (conn_inv UI).
Local Abbreviation conn_gone := (conn_gone UI hooked).
Local Abbreviation closed := (closed cfg hooked).
Local Abbreviation all_opened := (all_opened cfg hooked).

(** The event of the queue *)
Definition queue_ev (ev : IOEvent (io_cb V) (io_arg V)) : Prop :=
  read_callback ev = Some deal_task_message_cb /\ rcb_args ev = Some arg_queue.

(** What the threads share, where [A] are the connections of all of them: they are
    the ones the table lists, their buffers are separate, and no object belongs
    to two of them. *)
Record all_inv (A : gmap Z (Live V)) (w : Net) : Prop := {
  nv_bufs : exists o spare, ba_view (nt_pool w) o /\ owns_map A o spare;
  nv_table : table_ok (nt_srv w);
  nv_lim : conns_size (nt_srv w) = lim;
  nv_cfg : srv_cfg (nt_srv w) = cfg;
  nv_listed : listed (nt_srv w) = dom A;
  nv_user : UI cfg (dom A) (nt_user w);
  nv_objs fd l : A !! fd = Some l -> nt_conns w !! l_id l = Some (l_conn l) /\
    _connfd (l_conn l) = fd /\ l_id l < nt_next w;
  nv_ids fd1 fd2 l1 l2 : A !! fd1 = Some l1 -> A !! fd2 = Some l2 -> l_id l1 = l_id l2 -> fd1 = fd2
}.

(** The loop of a worker with the connections [M]: it watches them and the queue. *)
Record mine_inv (M : gmap Z (Live V)) (L : Loop) : Prop := {
  mv_loop : loop_inv L;
  mv_queue : (qfd ∉ dom M) /\ exists ev, io_evs L !! qfd = Some ev /\ queue_ev ev;
  mv_evs : forall fd, is_Some (io_evs L !! fd) -> fd = qfd \/ fd ∈ dom M;
  mv_tasks : elts (ready_tasks L) = [];
  mv_watch fd l : M !! fd = Some l -> watched (l_id l) fd (l_out l) L
}.

(** Beside the connections of the worker there are those of the other threads. *)
Context (O : gmap Z (Live V)).

Record net_inv (M : gmap Z (Live V)) (w : Net) : Prop := {
  nv_all : all_inv (M ∪ O) w;
  nv_mine : mine_inv M (nt_loop w);
  nv_apart : M ##ₘ O
}.

Lemma net_inv_live M w fd l :
  net_inv M w -> M !! fd = Some l ->
  (M ∪ O) !! fd = Some l /\ O !! fd = None /\ nt_conns w !! l_id l = Some (l_conn l) /\
  _connfd (l_conn l) = fd /\ watched (l_id l) fd (l_out l) (nt_loop w) /\ l_id l < nt_next w.
Proof.
  intros [IA IM Ha] Hl. assert (Hl' : (M ∪ O) !! fd = Some l) by by apply lookup_union_Some_l.
  destruct (nv_objs _ _ IA _ _ Hl') as (? & ? & ?). split; [done|].
  split; [by apply (map_disjoint_Some_l M O fd l)|]. split_and!; try done. by apply IM.
Qed.

(** What did not change beside a connection. *)
Lemma others_same c fd r (w w' : Net) :
  others c fd r w' = others c fd r w ->
  (forall c', c' <> c -> nt_conns w' !! c' = nt_conns w !! c') /\
  (forall fd', fd' <> fd -> io_evs (nt_loop w') !! fd' = io_evs (nt_loop w) !! fd') /\
  nt_next w' = nt_next w /\ conns_size (nt_srv w') = conns_size (nt_srv w) /\
  srv_cfg (nt_srv w') = srv_cfg (nt_srv w) /\
  ready_tasks (nt_loop w') = ready_tasks (nt_loop w).
Proof.
  intros E1. split_and!.
  - intros c' Hne. pose proof (f_equal (fun x => r_conns x !! c') E1) as E2. cbn in E2.
    by rewrite !lookup_delete_ne in E2.
  - intros fd' Hne. pose proof (f_equal (fun x => r_evs x !! fd') E1) as E2. cbn in E2.
    by rewrite !lookup_delete_ne in E2.
  - exact (f_equal r_next E1).
  - exact (f_equal (fun x => r_max x + 3) E1).
  - exact (f_equal r_cfg E1).
  - exact (f_equal r_tasks E1).
Qed.

(** A state in which only the connection on [fd] is different, or gone. *)
Lemma net_inv_put (M M' : gmap Z (Live V)) w w' fd l r :
  net_inv M w -> M !! fd = Some l -> others (l_id l) fd r w' = others (l_id l) fd r w ->
  (forall fd', fd' <> fd -> M' !! fd' = M !! fd') ->
  (exists o spare, ba_view (nt_pool w') o /\ owns_map (M' ∪ O) o spare) ->
  loop_inv (nt_loop w') -> table_ok (nt_srv w') -> listed (nt_srv w') = dom (M' ∪ O) ->
  UI (srv_cfg (nt_srv w')) (listed (nt_srv w')) (nt_user w') ->
  match M' !! fd with
  | None => io_evs (nt_loop w') !! fd = None
  | Some l' => l_id l' = l_id l /\ nt_conns w' !! l_id l = Some (l_conn l') /\
      _connfd (l_conn l') = fd /\ watched (l_id l) fd (l_out l') (nt_loop w')
  end ->
  net_inv M' w'.
Proof.
  intros I Hl E1 Hsame Hb HL Ht Els Hu Hfd.
  destruct (others_same _ _ _ _ _ E1) as (Hcs & Hevs & Enx & Ecz & Ecf & Ert).
  destruct (net_inv_live _ _ _ _ I Hl) as (HlA & HlO & _ & _ & _ & Hlt).
  destruct I as [IA IM Ha].
  assert (Hdom : forall fd', fd' <> fd -> fd' ∈ dom M' <-> fd' ∈ dom M).
  { intros fd' Hne. by rewrite !elem_of_dom, Hsame. }
  assert (HsameA : forall fd', fd' <> fd -> (M' ∪ O) !! fd' = (M ∪ O) !! fd').
  { intros fd' Hne. by rewrite !lookup_union, Hsame. }
  assert (HA : (M' ∪ O) !! fd = M' !! fd).
  { rewrite lookup_union, HlO. by destruct (M' !! fd). }
  assert (Hq : qfd <> fd).
  { intros Hq. apply (proj1 (mv_queue _ _ IM)). rewrite Hq. by apply (elem_of_dom_2 _ _ _ Hl). }
  rewrite Els, Ecf, (nv_cfg _ _ IA) in Hu. split; [split|split|].
  - done.
  - done.
  - rewrite Ecz. apply IA.
  - rewrite Ecf. apply IA.
  - done.
  - done.
  - intros fd' l' Hl'. destruct (decide (fd' = fd)) as [->|Hne].
    + rewrite HA in Hl'. rewrite Hl' in Hfd. destruct Hfd as (Hi & Hc' & Hf' & _).
      by rewrite Hi, Enx.
    + rewrite HsameA in Hl' by done. destruct (nv_objs _ _ IA _ _ Hl') as (Hc' & Hf' & Hi').
      rewrite Enx, Hcs; [done|]. intros Hii. by apply Hne, (nv_ids _ _ IA fd' fd l' l).
  - assert (Hid : forall fd' l', (M' ∪ O) !! fd' = Some l' -> exists l'',
      (M ∪ O) !! fd' = Some l'' /\ l_id l'' = l_id l').
    { intros fd' l' Hl'. destruct (decide (fd' = fd)) as [->|Hne].
      - rewrite HA in Hl'. rewrite Hl' in Hfd. exists l. by destruct Hfd as [-> _].
      - rewrite HsameA in Hl' by done. by exists l'. }
    intros fd1 fd2 l1 l2 (l1' & H1' & E2)%Hid (l2' & H2' & E3)%Hid Hii.
    apply (nv_ids _ _ IA fd1 fd2 l1' l2'); congruence.
  - done.
  - rewrite Hdom, Hevs by done. apply IM.
  - intros fd' Hev. destruct (decide (fd' = fd)) as [->|Hne].
    + right. destruct (M' !! fd) eqn:E2; [by apply (elem_of_dom_2 _ _ _ E2)|]. rewrite Hfd in Hev.
      by destruct Hev.
    + rewrite Hdom by done. rewrite Hevs in Hev by done. by apply IM.
  - rewrite Ert. apply IM.
  - intros fd' l' Hl'. destruct (decide (fd' = fd)) as [->|Hne].
    + rewrite Hl' in Hfd. destruct Hfd as (Hi & _ & _ & Hw'). by rewrite Hi.
    + rewrite Hsame in Hl' by done. pose proof (mv_watch _ _ IM _ _ Hl') as Hw'.
      unfold watched. by rewrite Hevs.
  - apply map_disjoint_spec. intros fd' x y Hx Hy. destruct (decide (fd' = fd)) as [->|Hne].
    + congruence.
    + rewrite Hsame in Hx by done. by apply (map_disjoint_spec M O) with fd' x y in Ha.
Qed.

(** Each connection of the worker is one as [TcpConnInv] sees it: the rest is the
    rest, and what is true of it there can be put back. *)
Lemma net_inv_focus M w fd l :
  net_inv M w -> M !! fd = Some l ->
  exists rest, conn_inv true (l_id l) (l_conn l) w (l_in l) (l_out l) rest /\
    (forall w' cn ib ob, conn_inv true (l_id l) cn w' ib ob rest -> _connfd cn = fd ->
       net_inv (<[fd := mkLive (l_id l) cn ib ob]> M) w') /\
    (forall u w', conn_gone (l_id l) fd u w' rest -> net_inv (delete fd M) w' /\
       closed fd u (nt_user w')).
Proof.
  intros I Hl. destruct (net_inv_live _ _ _ _ I Hl) as (HlA & HlO & Hc & Hfd & Hw & Hid).
  pose proof (nv_all _ _ I) as IA. pose proof (nv_mine _ _ I) as IM.
  destruct (nv_bufs _ _ IA) as (o & spare & Hv & Ho).
  apply (owns_map_delete _ _ _ _ _ HlA) in Ho as (r & (x & Hi & Hob) & Ho).
  exists (others (l_id l) fd r w).
  assert (Hdom : fd ∈ dom (M ∪ O)) by (by eapply elem_of_dom_2).
  pose proof (nv_listed _ _ IA) as El.
  assert (Hls : forall w' : Net, others (l_id l) fd r w' = others (l_id l) fd r w ->
    forall y, y <> fd -> y ∈ listed (nt_srv w') <-> y ∈ dom (M ∪ O)).
  { intros w' E1 y Hy. rewrite <- El.
    assert (E2 : listed (nt_srv w') ∖ {[fd]} = listed (nt_srv w) ∖ {[fd]})
      by exact (f_equal r_fds E1).
    assert (E3 : y ∈ listed (nt_srv w') ∖ {[fd]} <-> y ∈ listed (nt_srv w) ∖ {[fd]})
      by by rewrite E2.
    set_solver. }
  split; [|split].
  - split; cbn; try done; [by exists o, x|apply IM|by rewrite Hfd|apply IA| | |by rewrite Hfd].
    + by rewrite Hfd, El.
    + rewrite El, (nv_cfg _ _ IA). apply IA.
  - intros w' cn ib ob I' Hfd'. pose proof (eq_sym (ci_rest _ _ _ _ _ _ _ _ I')) as E1.
    rewrite Hfd' in E1. cbn [r_bufs others] in E1.
    destruct (ci_bufs _ _ _ _ _ _ _ _ I') as (o' & x' & Hv' & Hi' & Ho').
    apply (net_inv_put M _ w w' fd l r); try done; try apply I'.
    + intros fd' Hne. by apply lookup_insert_ne.
    + exists o', spare. split; [done|]. rewrite <- insert_union_l, <- insert_delete_eq.
      apply owns_map_insert; [apply lookup_delete_eq|]. exists r. split; [by exists x'|done].
    + apply set_eq. intros y. rewrite <- insert_union_l, dom_insert_L.
      destruct (decide (y = fd)) as [->|Hy].
      * pose proof (ci_listed _ _ _ _ _ _ _ _ I') as Hin. rewrite Hfd' in Hin. set_solver.
      * rewrite (Hls _ E1 y Hy). set_solver.
    + rewrite lookup_insert_eq. split; [done|]. split; [apply I'|]. split; [done|].
      rewrite <- Hfd'. apply I'.
  - intros u w' G. pose proof (eq_sym (cg_rest _ _ _ _ _ _ _ G)) as E1. split.
    2: { pose proof (cg_hook _ _ _ _ _ _ _ G) as Hk.
         destruct (others_same _ _ _ _ _ E1) as (_ & _ & _ & _ & Ecf & _).
         rewrite (nv_cfg _ _ IA) in Ecf. unfold ServerLoop.closed.
         by rewrite <- (f_equal (fun x => x.1.2) Ecf). }
    assert (Ed : delete fd M ∪ O = delete fd (M ∪ O)).
    { rewrite delete_union. by rewrite (delete_id O) by done. }
    apply (net_inv_put M _ w w' fd l r); try done; try apply G.
    + intros fd' Hne. by apply lookup_delete_ne.
    + exists r, spare. split; [apply G|by rewrite Ed].
    + apply set_eq. intros y. rewrite Ed, dom_delete_L. pose proof (cg_listed _ _ _ _ _ _ _ G).
      destruct (decide (y = fd)) as [->|Hy]; [set_solver|]. rewrite (Hls _ E1 y Hy). set_solver.
    + rewrite lookup_delete_eq. apply G.
Qed.

(** *** New connections *)

Definition view_of (M : gmap Z (Live V)) : gmap Z (list byte * list byte) :=
  (fun l => (l_in l, l_out l)) <$> M.

Context (Hstart : start_ok UI run_hook hooked cfg).

(** A descriptor that can become a connection. *)
Definition can_open (fd : Z) (M : gmap Z (Live V)) : Prop :=
  0 <= fd < lim /\ fd <> qfd /\ (M ∪ O) !! fd = None.

Lemma new_conn_ok M w fd :
  net_inv M w -> can_open fd M ->
  safe (TCPConn_new run_hook fd w) (fun '(_, w') => exists c cn,
    net_inv (<[fd := mkLive c cn [] []]> M) w' /\
    opt_hooked hooked cfg.1.1 fd (nt_user w) (nt_user w')).
Proof.
  intros [IA IM Ha] (Hlim & Hnq & HnewA). destruct (nv_bufs _ _ IA) as (o & spare & Hv & Ho).
  apply lookup_union_None in HnewA as Hnew. destruct Hnew as [Hnew HnewO].
  assert (Hnd : fd ∉ dom (M ∪ O)) by (by apply not_elem_of_dom).
  assert (Hev : io_evs (nt_loop w) !! fd = None).
  { destruct (io_evs (nt_loop w) !! fd) eqn:Ee; [|done].
    destruct (mv_evs _ _ IM fd) as [|Hd]; [by rewrite Ee|done|].
    by apply elem_of_dom in Hd as [? ?]; congruence. }
  pose proof (nv_listed _ _ IA) as El. pose proof (nv_cfg _ _ IA) as Ecf.
  eapply safe_mono; [apply (TCPConn_new_ok UI K run_hook hooked fd w o Hv (mv_loop _ _ IM) Hev
    (nv_table _ _ IA))|].
  - unfold in_table. by rewrite (nv_lim _ _ IA).
  - by rewrite El.
  - by rewrite Ecf.
  - rewrite El, Ecf. apply IA.
  - intros [c w'] (-> & cn & Hfd & I' & El' & _ & Emx & Ep & Enx & Ecf' & Etk & Hk & Hevs).
    exists (nt_next w), cn. split; [|by rewrite <- Ecf]. pose proof (ci_rest _ _ _ _ _ _ _ _ I')
      as E1. rewrite Hfd in E1.
    assert (Hcs : forall c', c' <> nt_next w -> nt_conns w' !! c' = nt_conns w !! c').
    { intros c' Hne. pose proof (f_equal (fun x => r_conns x !! c') E1) as E2. cbn in E2.
      by rewrite !lookup_delete_ne in E2. }
    destruct (ci_bufs _ _ _ _ _ _ _ _ I') as (o' & x & Hv' & Hi & Hob).
    set (l0 := mkLive (nt_next w) cn [] []).
    assert (Edm : dom (<[fd := l0]> (M ∪ O)) = {[fd]} ∪ dom (M ∪ O)) by apply dom_insert_L.
    split; [split|split|]; rewrite <- ?insert_union_l, ?Edm.
    + exists o', spare. split; [done|]. apply owns_map_insert; [done|]. exists o.
      split; [by exists x|done].
    + apply I'.
    + unfold conns_size. rewrite Emx. apply IA.
    + congruence.
    + by rewrite El', El.
    + rewrite <- Ecf, <- Ecf', <- El, <- El'. apply I'.
    + intros fd' l. rewrite lookup_insert, Enx. case_decide as Hd.
      * subst fd'. intros [= <-]. cbn. split; [apply I'|]. split; [done|]. lia.
      * intros Hl. destruct (nv_objs _ _ IA _ _ Hl) as (Hc' & Hf' & Hi').
        rewrite Hcs by lia. split_and!; try done. lia.
    + intros fd1 fd2 l1 l2. rewrite !lookup_insert. pose proof (nv_objs _ _ IA) as Hlive.
      repeat case_decide; subst; try done;
        [intros [= <-] H2'%Hlive|intros H1'%Hlive [= <-]|intros; by eapply (nv_ids _ _ IA)];
        cbn; lia.
    + apply I'.
    + destruct (mv_queue _ _ IM) as [Hq Hqe]. split; [|by rewrite Hevs].
      rewrite dom_insert_L. set_solver.
    + intros fd' Hsm. rewrite dom_insert_L. destruct (decide (fd' = fd)) as [->|Hne]; [set_solver|].
      rewrite Hevs in Hsm by done. apply (mv_evs _ _ IM) in Hsm. set_solver.
    + rewrite Etk. apply IM.
    + intros fd' l. rewrite lookup_insert. case_decide as Hd.
      * subst fd'. intros [= <-]. cbn. rewrite <- Hfd. apply I'.
      * intros Hl. pose proof (mv_watch _ _ IM _ _ Hl) as Hw'. unfold watched.
        by rewrite Hevs.
    + by apply map_disjoint_insert_l_2.
Qed.

Context (vgrow : nat -> nat).

(** All that waits in the queue. *)
Lemma new_conns_ok W : forall M w,
  net_inv M w -> NoDup W -> Forall (fun fd => can_open fd M) W ->
  safe (deal_tasks run_hook vgrow (NEW_CONN <$> W) w) (fun w' => exists M', net_inv M' w' /\
    all_opened W (nt_user w) (nt_user w') /\
    view_of M' = view_of M ∪ list_to_map ((fun fd => (fd, ([], []))) <$> W)).
Proof.
  induction W as [|fd W IH]; intros M w I Hnd Hok;
    cbn [fmap list_fmap deal_tasks list_to_map foldr].
  { exists M. split; [done|]. split; [done|]. by rewrite (right_id_L ∅ (∪)). }
  apply NoDup_cons in Hnd as [Hni Hnd]. apply Forall_cons in Hok as [Hfd Hok].
  eapply safe_bind; [by apply (new_conn_ok M w fd)|]. intros [c0 w1] (c & cn & I1 & Hk).
  eapply safe_mono; [apply (IH _ w1 I1 Hnd)|].
  - rewrite Forall_forall in Hok |- *. intros y Hy. destruct (Hok y Hy) as (Hl & Hq & Hn).
    split; [done|]. split; [done|]. rewrite <- insert_union_l, lookup_insert_ne; [done|].
    by intros ->.
  - intros w' (M' & I' & Hks & Hv). exists M'. split; [done|]. split; [by eexists|]. rewrite Hv.
      unfold view_of.
    rewrite fmap_insert. cbn [l_in l_out].
    rewrite <- insert_union_l, insert_union_r; [done|]. rewrite lookup_fmap.
    destruct Hfd as (_ & _ & [-> _]%lookup_union_None). done.
Qed.

(** *** Events *)

Context (run_msg : V -> option (list byte) -> Z -> Z -> Z -> option V -> Net -> res Net).
Context (run_task : V * option V -> Worker -> res Worker).
Context (grow : nat) (eff : V -> option V -> frame -> Z -> U -> U -> list byte -> Prop).
Context (Hhook : hook_ok UI run_hook hooked) (Hmsg : msg_ok UI run_msg grow eff).
Local Abbreviation worker_cb := (worker_cb run_msg run_hook vgrow).
Local Abbreviation worker_turn := (worker_turn run_msg run_hook vgrow run_task).
Local Abbreviation run_event := (dispatch wk_loop set_wkloop worker_cb).

(** The worker [wk] is where the specification [S] is, beside the others' [O]. *)
Definition beside (S : Serving U) (wk : Worker) : Prop :=
  exists M, net_inv M (wk_net wk) /\ s_conns S = view_of M /\ s_user S = nt_user (wk_net wk) /\
    queue (wk_queue wk) = NEW_CONN <$> s_waiting S /\
    NoDup (s_waiting S) /\ Forall (fun fd => can_open fd M) (s_waiting S).

(** What an event makes of both. *)
Definition event_result (S : Serving U) (e : wk_event) (wk : Worker) (ins : list answer)
    (wk' : Worker) : Prop :=
  exists S' cs sn, sstep cfg eff hooked S e S' cs sn /\ beside S' wk' /\ wk_in wk' = ins /\
    wk_calls wk' = wk_calls wk ++ cs /\ wk_sent wk' = wk_sent wk ++ sn.

Lemma run_read fd m (wk : Worker) ev cb :
  is_read m = true -> io_evs (wk_loop wk) !! fd = Some ev -> read_callback ev = Some cb ->
  run_event fd m wk = worker_cb cb fd (rcb_args ev) wk.
Proof.
  unfold is_read, has_in, has_out. intros Hm He Hcb. unfold dispatch. rewrite He, Hcb.
  destruct (negb (Z.land m EPOLLIN =? 0)); [done|]. cbn [orb] in Hm.
  destruct (negb (Z.land m EPOLLOUT =? 0)); [done|]. cbn [negb andb] in Hm. by rewrite Hm.
Qed.

Lemma run_write fd m (wk : Worker) ev cb :
  is_write m = true -> io_evs (wk_loop wk) !! fd = Some ev -> write_callback ev = Some cb ->
  run_event fd m wk = worker_cb cb fd (wcb_args ev) wk.
Proof.
  unfold is_write, has_in, has_out. intros Hm He Hcb. unfold dispatch. rewrite He, Hcb.
  destruct (negb (Z.land m EPOLLIN =? 0)); [done|]. cbn [negb andb] in Hm. by rewrite Hm.
Qed.

(** A waiting descriptor can still be opened when another connection changed or
    is gone. *)
Lemma can_open_put M M' fd l (W : list Z) :
  M !! fd = Some l -> (forall fd', fd' <> fd -> M' !! fd' = M !! fd') ->
  Forall (fun fd => can_open fd M) W -> Forall (fun fd => can_open fd M') W.
Proof.
  intros Hl Hsame HW. eapply Forall_impl; [exact HW|].
  intros y (Hlim & Hq & Hn). split; [done|]. split; [done|].
  rewrite lookup_union, Hsame, <- lookup_union; [done|]. intros ->.
  apply lookup_union_None in Hn as [? _]. congruence.
Qed.

Lemma new_event_ok S m wk ins :
  beside S wk -> wk_in wk = ins -> is_read m = true ->
  safe (run_event qfd m wk) (event_result S (ENew m) wk ins).
Proof.
  intros (M & I & Ec & Eu & Eq & Hnd & Hok) Hin Hm.
  destruct (mv_queue _ _ (nv_mine _ _ I)) as (Hqd & ev & Hev & Hcb & Harg).
  rewrite (run_read _ _ _ ev deal_task_message_cb) by done. rewrite Harg.
  unfold ServerLoop.worker_cb, deal_task_message. cbn [recv]. rewrite Eq.
  pose proof (new_conns_ok (s_waiting S) M (wk_net wk) I Hnd Hok) as Hs.
  apply safe_Ret in Hs as (w' & -> & M' & I' & Hk & Hv). cbn.
  destruct S as [C W u]. cbn [s_conns s_waiting s_user] in *. subst C u.
  eexists _, [], []. split; [by apply (ss_new _ _ _ _ _ _ (nt_user w'))|].
  rewrite !app_nil_r. split; [|done]. exists M'. cbn. rewrite <- Hv. split_and!; try done.
  by apply NoDup_nil_2.
Qed.

(** Put back what an event has left of the connection on [fd]. *)
Lemma beside_put C W u M fd l (wk wk' : Worker) (o : option (list byte * list byte)) :
  net_inv M (wk_net wk) -> M !! fd = Some l -> C = view_of M ->
  queue (wk_queue wk) = NEW_CONN <$> W -> NoDup W -> Forall (fun fd => can_open fd M) W ->
  wk_queue wk' = wk_queue wk -> u = nt_user (wk_net wk') ->
  match o with
  | Some (i, ob) => exists cn, net_inv (<[fd := mkLive (l_id l) cn i ob]> M) (wk_net wk')
  | None => net_inv (delete fd M) (wk_net wk')
  end ->
  beside (mkServing (partial_alter (fun _ => o) fd C) W u) wk'.
Proof.
  intros I Hl -> Hq Hnd Hok Hq' -> Ho. unfold beside. cbn [s_conns s_waiting s_user].
  rewrite Hq'. destruct o as [[i ob]|].
  - destruct Ho as [cn I']. eexists. split; [exact I'|]. split_and!; try done.
    + unfold view_of. by rewrite fmap_insert.
    + apply (can_open_put M _ fd l); [done| |done]. intros. by rewrite lookup_insert_ne.
  - eexists. split; [exact Ho|]. split_and!; try done.
    + unfold view_of. by rewrite fmap_delete.
    + apply (can_open_put M _ fd l); [done| |done]. intros. by rewrite lookup_delete_ne.
Qed.

(** The connection of an entry, and the read callback of its descriptor. *)
Lemma beside_conn S wk fd i o :
  beside S wk -> s_conns S !! fd = Some (i, o) ->
  exists M l, net_inv M (wk_net wk) /\ M !! fd = Some l /\ l_in l = i /\ l_out l = o /\
    s_conns S = view_of M /\ s_user S = nt_user (wk_net wk) /\
    queue (wk_queue wk) = NEW_CONN <$> s_waiting S /\ NoDup (s_waiting S) /\
    Forall (fun fd => can_open fd M) (s_waiting S) /\
    exists ev, io_evs (wk_loop wk) !! fd = Some ev /\ watch_ev (l_id l) o ev.
Proof.
  intros (M & I & Ec & Eu & Eq & Hnd & Hok) Hfd. rewrite Ec in Hfd. unfold view_of in Hfd.
  rewrite lookup_fmap in Hfd. destruct (M !! fd) as [l|] eqn:Hl; [|done]. injection Hfd as <- <-.
  exists M, l. split_and!; try done.
  by destruct (net_inv_live _ _ _ _ I Hl) as (_ & _ & _ & _ & Hw & _).
Qed.

Lemma end_event_ok S fd m ioctl rs wk ins :
  beside S wk -> wk_in wk = AnsRead ioctl rs :: ins -> is_read m = true ->
  is_Some (s_conns S !! fd) -> ends ioctl rs ->
  exits_or (run_event fd m wk) (event_result S (EEnd fd m ioctl rs) wk ins).
Proof.
  intros Hwk Hin Hm [[i o] Hfd] He.
  destruct (beside_conn _ _ _ _ _ Hwk Hfd)
    as (M & l & I & Hl & Ei & Eo & Ec & Eu & Eq & Hnd & Hok & ev & Hev & _ & Hcb & Harg & _).
  rewrite (run_read _ _ _ ev conn_rd_callback), Harg by done. unfold ServerLoop.worker_cb.
  rewrite Hin. destruct (net_inv_focus _ _ _ _ I Hl) as (rest & Ic & _ & Hgone).
  destruct (net_inv_live _ _ _ _ I Hl) as (_ & _ & _ & Hcfd & _).
  eapply (exits_or_bind _ _ (fun '(w', tr) => tr = [] /\
    conn_gone (l_id l) fd (nt_user (wk_net wk)) w' rest)).
  - rewrite <- Hcfd. destruct ioctl as [need|]; cbn [ends] in He.
    + destruct He as (Hn & r & rs' & Hr & Hcase).
      apply (do_read_closes run_hook UI hooked Hhook run_msg _ _ _ _ _ _ need rs r rs' Ic Hn Hr).
      * by right.
      * intros data -> Hd. by destruct Hcase as [[= ->]|[? ?]].
    + pose proof (do_read_closes run_hook UI hooked Hhook run_msg _ _ _ _ _ _ 0 [RdData []]
        (RdData []) []
        Ic ltac:(lia) eq_refl ltac:(by right; left) ltac:(by intros ? [= <-])) as [_ Hc].
      unfold do_read in Hc |- *. by destruct (get_conn _ _).
  - intros [w' tr] [-> G]. cbn. destruct S as [C W u]. cbn [s_conns s_waiting s_user] in *.
    apply Hgone in G as [I' Hk]. eexists _, [], [].
    split; [apply (ss_end _ _ _ _ _ _ (nt_user w')); by rewrite Eu|].
    rewrite !app_nil_r. split; [|done]. by apply (beside_put _ _ _ M fd l wk _ None).
Qed.

Lemma write_event_ok S fd m ws wk ins i o :
  beside S wk -> wk_in wk = AnsWrite ws :: ins -> is_write m = true ->
  s_conns S !! fd = Some (i, o) -> o <> [] -> is_Some (drain ws (length o)) ->
  exits_or (run_event fd m wk) (event_result S (EWrite fd m ws) wk ins).
Proof.
  intros Hwk Hin Hm Hfd Hne [[r n] Hd].
  destruct (beside_conn _ _ _ _ _ Hwk Hfd)
    as (M & l & I & Hl & Ei & Eo & Ec & Eu & Eq & Hnd & Hok & ev & Hev & _ & _ & _ & _ & Hwr).
  destruct (Hwr Hne) as [Hcb Harg].
  rewrite (run_write _ _ _ ev conn_wt_callback), Harg by done. unfold ServerLoop.worker_cb.
  rewrite Hin. destruct (net_inv_focus _ _ _ _ I Hl) as (rest & Ic & Hput & Hgone).
  rewrite Ei, Eo in Ic. destruct (net_inv_live _ _ _ _ I Hl) as (_ & _ & _ & Hcfd & _).
  eapply exits_or_bind.
  { apply safe_exits_or, (do_write_ok UI K run_hook hooked Hhook _ _ _ _ _ _ _ _ _ _ Ic Hd). }
  intros [w' sent] [-> Hr]. cbn. destruct S as [C W u]. cbn [s_conns s_waiting s_user] in *.
  destruct (Z.eqb_spec r (-1)) as [->|Hr1].
  - rewrite Hcfd in Hr. apply Hgone in Hr as [I' Hk]. eexists _, [], _.
    split; [eapply (ss_broken _ _ _ _ _ _ (nt_user w')); by rewrite ?Eu|].
    rewrite app_nil_r. split; [|done]. by apply (beside_put _ _ _ M fd l wk _ None).
  - destruct Hr as [Ic' Eu']. eexists _, [], _. split; [by eapply ss_write|].
    rewrite app_nil_r. split; [|done].
    apply (beside_put _ _ _ M fd l wk _ (Some (i, drop n o))); try done; [cbn; by rewrite Eu'|].
    exists (l_conn l). by apply Hput.
Qed.

Lemma data_event_ok S fd m data rs wk ins i o fs t :
  beside S wk ->
  wk_in wk = AnsRead (Some (Z.of_nat (length data))) (RdData data :: rs) :: ins ->
  is_read m = true -> data <> [] -> s_conns S !! fd = Some (i, o) ->
  Z.of_nat (length i + length data) <= ba_max -> parse (i ++ data) = (fs, t) ->
  Z.of_nat (length o + grow * Datatypes.S (length fs)) <= ba_max ->
  match t with EmptyAtEnd _ => False | _ => True end ->
  exits_or (run_event fd m wk) (event_result S (EData fd m data rs) wk ins).
Proof.
  intros Hwk Hin Hm Hne Hfd Hlen Hp Hg Ht.
  destruct (beside_conn _ _ _ _ _ Hwk Hfd)
    as (M & l & I & Hl & Ei & Eo & Ec & Eu & Eq & Hnd & Hok & ev & Hev & _ & Hcb & Harg & _).
  rewrite (run_read _ _ _ ev conn_rd_callback), Harg by done. unfold ServerLoop.worker_cb.
  rewrite Hin. destruct (net_inv_focus _ _ _ _ I Hl) as (rest & Ic & Hput & Hgone).
  rewrite Ei, Eo in Ic. destruct (net_inv_live _ _ _ _ I Hl) as (_ & _ & _ & Hcfd & _).
  pose proof (do_read_ok UI run_hook hooked Hhook run_msg grow eff Hmsg _ _ _ _ _ _ data rs Ic Hne
    Hlen)
    as Hr.
  rewrite Hp in Hr. cbn [fst snd] in Hr. specialize (Hr Hg). rewrite Hcfd in Hr.
  destruct S as [C W u]. cbn [s_conns s_waiting s_user] in *. subst u.
  assert (Hrt : router (nt_srv (wk_net wk)) = cfg.2)
    by exact (f_equal snd (nv_cfg _ _ (nv_all _ _ I))).
  destruct t as [r| |id]; [| |done]; cbn [read_result] in Hr; (eapply exits_or_bind; [exact Hr|]).
  - intros [w' tr] (-> & cn & out & Ic' & Hfd' & _ & Hsv & _). rewrite Hrt in Hsv. cbn.
    eexists _, _, []. split; [by eapply ss_data|]. rewrite app_nil_r. split; [|done].
    apply (beside_put _ _ _ M fd l wk _ (Some (r, o ++ out))); try done.
    exists cn. by apply Hput.
  - intros [w' tr] (-> & u1 & out & Hsv & G). rewrite Hrt in Hsv. apply Hgone in G as [I' Hk]. cbn.
    eexists _, _, []. split; [by eapply (ss_bad _ _ _ _ _ _ u1 (nt_user w'))|].
    rewrite app_nil_r. split; [|done]. by apply (beside_put _ _ _ M fd l wk _ None).
Qed.

Local Abbreviation sstep := (sstep cfg eff hooked).
Local Abbreviation ssteps := (ssteps cfg eff hooked).
Local Abbreviation sruns := (sruns cfg eff hooked).
Local Abbreviation fits := (fits grow ba_max).

Lemma event_ok S e wk ins :
  beside S wk -> wk_in wk = answer_of e ++ ins -> fits S e ->
  exits_or (run_event (fired_of qfd e).1 (fired_of qfd e).2 wk) (event_result S e wk ins).
Proof.
  intros Hwk Hin Hf. destruct e as [m|fd m data rs|fd m ioctl rs|fd m ws];
    cbn [answer_of app fired_of fst snd] in Hin |- *; cbn [ServerLoop.fits] in Hf.
  - by apply safe_exits_or, new_event_ok.
  - destruct Hf as (Hm & Hne & i & o & Hfd & Hlen & Hp).
    destruct (parse (i ++ data)) as [fs t] eqn:Ep. destruct Hp as [Hg Ht].
    by apply (data_event_ok S fd m data rs wk ins i o fs t).
  - destruct Hf as (Hm & Hfd & He). by apply end_event_ok.
  - destruct Hf as (Hm & i & o & Hfd & Hne & Hd). by apply (write_event_ok S fd m ws wk ins i o).
Qed.

(** What several events make of both. *)
Definition progress (R : Serving U -> list (Z * frame) -> list (Z * list byte) -> Prop)
    (wk wk' : Worker) : Prop :=
  exists S' cs sn, R S' cs sn /\ beside S' wk' /\
    wk_calls wk' = wk_calls wk ++ cs /\ wk_sent wk' = wk_sent wk ++ sn.

Lemma events_ok es k : forall S wk,
  beside S wk -> wk_in wk = mjoin (answer_of <$> es) ->
  all_fit cfg eff hooked grow ba_max es k S ->
  exits_or (dispatch_all wk_loop set_wkloop worker_cb (fired_of qfd <$> es) wk)
    (progress (fun S' cs sn => ssteps S es S' cs sn /\ k S') wk).
Proof.
  induction es as [|e es IH]; intros S wk Hwk Hin Hf; cbn [fmap list_fmap dispatch_all].
  { exists S, [], []. rewrite !app_nil_r. split; [|done]. split; [constructor|done]. }
  destruct Hf as [He Hes]. pose proof (event_ok S e wk _ Hwk Hin He) as Hr.
  destruct (fired_of qfd e) as [fd m]. cbn [fst snd] in Hr.
  eapply exits_or_bind; [exact Hr|]. intros wk1 (S1 & cs1 & sn1 & Hst & Hwk1 & Hin1 & Ec1 & Es1).
  eapply exits_or_mono; [apply (IH S1 wk1 Hwk1 Hin1 (Hes _ _ _ Hst))|].
  intros wk2 (S2 & cs2 & sn2 & [Hst2 Hk] & Hwk2 & Ec2 & Es2).
  exists S2, (cs1 ++ cs2), (sn1 ++ sn2). split; [split; [by econstructor|done]|].
  split; [done|]. by rewrite Ec2, Ec1, Es2, Es1, !app_assoc.
Qed.

(** The ready tasks at the end of a turn: there are none. *)
Lemma tasks_ok S wk : beside S wk ->
  exists wk', execute_ready_tasks wk_loop set_wkloop run_task wk = Ret wk' /\ beside S wk' /\
    wk_calls wk' = wk_calls wk /\ wk_sent wk' = wk_sent wk.
Proof.
  intros (M & I & Ec & Eu & Eq & Hnd & Hok). pose proof (mv_tasks _ _ (nv_mine _ _ I)) as Ht.
  unfold execute_ready_tasks.
  assert (Ex : exec_tasks wk_loop run_task (vcap (ready_tasks (wk_loop wk))) 0 wk = Ret wk).
  { destruct (vcap _); cbn [exec_tasks]; unfold wk_loop; by rewrite Ht. }
  rewrite Ex. cbn. eexists. split; [done|]. split; [|done]. exists M. split; [|done].
  destruct I as [[] [] ?]. split; [by split| |done]. split; try done. by destruct mv_loop0.
Qed.

Lemma turn_ok es k S wk :
  beside S wk -> wk_in wk = mjoin (answer_of <$> es) ->
  all_fit cfg eff hooked grow ba_max es k S ->
  exits_or (worker_turn (fired_of qfd <$> es) wk)
    (progress (fun S' cs sn => ssteps S es S' cs sn /\ k S') wk).
Proof.
  intros Hwk Hin Hf. unfold ServerLoop.worker_turn, event_process.
  eapply exits_or_bind; [by apply (events_ok es k S wk)|].
  intros wk1 (S1 & cs & sn & HR & Hwk1 & Ec & Es).
  destruct (tasks_ok S1 wk1 Hwk1) as (wk2 & -> & Hwk2 & Ec2 & Es2).
  exists S1, cs, sn. split; [done|]. split; [done|]. split; congruence.
Qed.

Lemma arrive_ok S fd wk :
  beside S wk -> new_fd lim qfd fd S -> O !! fd = None ->
  beside (mkServing (s_conns S) (s_waiting S ++ [fd]) (s_user S)) (arrive fd wk).
Proof.
  intros (M & I & Ec & Eu & Eq & Hnd & Hok) (Hlim & Hq & Hc & Hw) HO. exists M.
  cbn [s_conns s_waiting s_user arrive wk_net wk_queue send queue]. split_and!; try done.
  - by rewrite Eq, fmap_app.
  - apply NoDup_app. split; [done|]. split; [|by apply NoDup_singleton].
    intros y Hy ->%list_elem_of_singleton. done.
  - apply Forall_app. split; [done|]. apply Forall_singleton. split; [done|]. split; [done|].
    apply lookup_union_None. split; [|done]. rewrite Ec in Hc. unfold view_of in Hc.
    rewrite lookup_fmap in Hc. by destruct (M !! fd).
Qed.

(** The loop a thread starts with *)
Lemma thread_main_mine (evfd_num : F -> Z) e (q : ThreadQueue Task F LOOP) (w : Net) :
  interest e = ∅ -> evfd_num (evfd q) = qfd -> mine_inv ∅ (nt_loop (thread_main evfd_num e q w)).
Proof.
  intros He Hq. unfold thread_main. rewrite Hq.
  set (L := add_io_event qfd deal_task_message_cb EPOLLIN (Some arg_queue) (EventLoop_new e)).
  assert (Hev : io_evs L !! qfd = Some (mkEvent EPOLLIN (Some deal_task_message_cb) None
    (Some arg_queue) None)) by by apply add_io_event_in.
  split; cbn -[L]; try done.
  - apply (reg_run_inv (RAdd qfd deal_task_message_cb false (Some arg_queue))
      (EventLoop_new e) K). by apply EventLoop_new_inv.
  - rewrite dom_empty_L. split; [apply not_elem_of_empty|]. by eexists.
  - intros fd Hfd. destruct (decide (fd = qfd)) as [|Hne]; [by left|]. unfold L in Hfd.
    rewrite add_io_event_other in Hfd by done. by destruct Hfd.
  - unfold L. by rewrite add_io_event_tasks.
Qed.
End Invariant.

(** ** A worker alone *)

Section Run.
Context {P E V U F LOOP : Type} `{LP : BufAllocLaws P} `{LE : EpollLaws E} `{EventFd F}.
Local Abbreviation Net := (Net P E V U).
Local Abbreviation Task := (TaskMsg V (option V)).
Local Abbreviation Worker := (Worker P E V U F LOOP).
Context (K : kernel_accepts (E := E)) (run_hook : V -> Z -> Net -> res Net).
Context (UI : option V * option V * MsgRouter V V -> gset Z -> U -> Prop).
Context (cfg : option V * option V * MsgRouter V V) (lim qfd : Z).
Context (hooked : V -> Z -> U -> U -> Prop).
Context (Hstart : start_ok UI run_hook hooked cfg) (vgrow : nat -> nat).
Context (run_msg : V -> option (list byte) -> Z -> Z -> Z -> option V -> Net -> res Net).
Context (run_task : V * option V -> Worker -> res Worker).
Context (grow : nat) (eff : V -> option V -> frame -> Z -> U -> U -> list byte -> Prop).
Context (Hhook : hook_ok UI run_hook hooked) (Hmsg : msg_ok UI run_msg grow eff).
Local Abbreviation sruns := (sruns cfg eff hooked).

(** No other thread has connections. *)
Definition worker_inv (S : Serving U) (wk : Worker) : Prop := beside UI cfg lim qfd ∅ S wk.
Local Abbreviation progress := (progress UI cfg lim qfd ∅).

(** What the application knows of the connections. *)
Lemma worker_inv_user S wk :
  worker_inv S wk -> UI cfg (dom (s_conns S)) (nt_user (wk_net wk)).
Proof.
  intros (M & I & Ec & _). rewrite Ec. unfold view_of. rewrite dom_fmap_L.
  pose proof (nv_user _ _ _ _ _ (nv_all _ _ _ _ _ _ _ I)) as Hu.
  by rewrite (right_id_L ∅ (∪)) in Hu.
Qed.

Lemma work_ok its : forall S wk,
  worker_inv S wk -> run_fits cfg eff hooked grow ba_max lim qfd its S ->
  exits_or (work run_msg run_hook vgrow run_task qfd its wk)
    (progress (fun S' cs sn => sruns S its S' cs sn) wk).
Proof.
  induction its as [|[es|fd] its IH]; intros S wk Hwk Hf; cbn [work run_fits] in *.
  - exists S, [], []. rewrite !app_nil_r. split; [constructor|done].
  - eapply exits_or_bind.
    + apply (turn_ok K run_hook UI cfg lim qfd hooked ∅ Hstart vgrow run_msg run_task grow eff
        Hhook Hmsg
        es (run_fits cfg eff hooked grow ba_max lim qfd its) S); [|done|exact Hf].
      by destruct Hwk as (M & I & Hwk); exists M.
    + intros wk1 (S1 & cs1 & sn1 & [Hst Hk] & Hwk1 & Ec1 & Es1). cbn in Ec1, Es1.
      eapply exits_or_mono; [by apply (IH S1 wk1)|].
      intros wk2 (S2 & cs2 & sn2 & Hr & Hwk2 & Ec2 & Es2).
      exists S2, (cs1 ++ cs2), (sn1 ++ sn2). split; [by econstructor|].
      split; [done|]. by rewrite Ec2, Ec1, Es2, Es1, !app_assoc.
  - destruct Hf as [Hnew Hf].
    eapply exits_or_mono; [apply (IH _ _ (arrive_ok _ _ _ _ _ S fd wk Hwk Hnew eq_refl) Hf)|].
    intros wk2 (S2 & cs2 & sn2 & Hr & Hwk2 & Ec2 & Es2).
    exists S2, cs2, sn2. destruct S as [C W u]. split; [by constructor|done].
Qed.

(** A worker thread is a server: from a state where its connections are in
    order, for all turns of its loop that fit ([run_fits]: any connections, in any
    order, data in any pieces, ends, errors, room for output; and new
    descriptors in its queue in between), it does not fail (unless the
    pool's memory is used up) and what it does is a run of the specification:
    the router is handed the complete messages of each connection, in the
    order of its bytes; replies are queued behind what is pending; the kernel
    is given the pending bytes in order; and a connection that ends, or that
    sends a bad head, is closed without an effect on the others. *)
Lemma worker_refines its S wk :
  worker_inv S wk -> run_fits cfg eff hooked grow ba_max lim qfd its S ->
  exits_or (work run_msg run_hook vgrow run_task qfd its wk) (fun wk' => exists S' cs sn,
    sruns S its S' cs sn /\ worker_inv S' wk' /\
    wk_calls wk' = wk_calls wk ++ cs /\ wk_sent wk' = wk_sent wk ++ sn).
Proof. apply work_ok. Qed.

(** Connections do not disturb one another.  In any such run, take a
    connection, old or new, that is not ended from outside and to which no
    write fails:
    if its own bytes, appended to what it had received before, are complete
    messages [fs] and a remainder [r], then exactly [fs] were handed to the
    router for it, in this order, [r] is kept, and what was sent to it and is
    still pending is what was pending before followed by the answers to
    [fs], whatever the other connections did in between and however the
    bytes were cut. *)
Lemma connections_independent its S wk :
  worker_inv S wk -> run_fits cfg eff hooked grow ba_max lim qfd its S ->
  exits_or (work run_msg run_hook vgrow run_task qfd its wk) (fun wk' => exists S' cs sn,
    wk_calls wk' = wk_calls wk ++ cs /\ wk_sent wk' = wk_sent wk ++ sn /\ worker_inv S' wk' /\
    forall fd i o fs r, Forall (quiet fd) its ->
      conn_of fd S = (i, o) -> parse i = ([], More i) ->
      parse (i ++ stream_of fd its) = (fs, More r) -> Forall (fun f => f_data f <> []) fs ->
      of_fd fd cs = fs /\ exists o' out, conn_of fd S' = (r, o') /\
        answered cfg eff fd fs out /\ concat (of_fd fd sn) ++ o' = o ++ out).
Proof.
  intros Hwk Hf. eapply exits_or_mono; [by apply (work_ok its S wk)|].
  intros wk' (S' & cs & sn & Hr & Hwk' & Ec & Es). exists S', cs, sn. do 3 (split; [done|]).
  intros fd i o fs r Hq Hfd Hi Hp Hne. by apply (sruns_alone _ _ _ _ _ _ _ _ _ Hr Hq i o fs r).
Qed.

(** Where a thread starts: [thread_main], on a server without connections. *)
Lemma thread_main_ok (evfd_num : F -> Z) e (q : ThreadQueue Task F LOOP) (w : Net) bufs :
  interest e = ∅ -> ba_view (nt_pool w) bufs -> table_ok (nt_srv w) -> listed (nt_srv w) = ∅ ->
  conns_size (nt_srv w) = lim -> srv_cfg (nt_srv w) = cfg -> UI cfg ∅ (nt_user w) ->
  evfd_num (evfd q) = qfd -> queue q = [] ->
  worker_inv (mkServing ∅ [] (nt_user w)) (mkWorker (thread_main evfd_num e q w) q [] [] []).
Proof.
  intros He Hv Ht Hl Hlim Hcfg Hu Hq Hemp. exists ∅.
  split; [|split_and!; try done; by constructor].
  split; [split|by apply (thread_main_mine K)|apply map_disjoint_empty_l]; cbn; try done.
  exists bufs, bufs. by split.
Qed.
End Run.

(** ** Witnesses: two echo connections *)

Import TableKernel CounterFd.

Local Abbreviation DemoWorker := (Worker BufPool (gmap Z Z) unit unit N unit).

Definition no_task (t : unit * option unit) (wk : DemoWorker) : res DemoWorker := Ret wk.

(** The echo server's worker, with the queue on descriptor 4. *)
Definition loop_queue : ThreadQueue (TaskMsg unit (option unit)) N unit := ThreadQueue_new 0%N.

Definition loop_net : Net BufPool (gmap Z Z) unit unit :=
  mkNet init_pool (EventLoop_new ∅) ∅ 100 (mkServer ∅ 10 0 None None (router demo_server)) ∅ tt.

Definition loop_worker : DemoWorker :=
  mkWorker (thread_main (fun _ => 4) ∅ loop_queue loop_net) loop_queue [] [] [].

Definition loop_cfg : option unit * option unit * MsgRouter unit unit :=
  (None, None, router demo_server).

Lemma loop_start_ok : start_ok demo_ui demo_hook demo_hooked loop_cfg.
Proof. intros c w cn s Hc _ _ _. by apply demo_hook_runs. Qed.

Lemma loop_worker_inv :
  worker_inv demo_ui loop_cfg 13 4 (mkServing ∅ [] tt) loop_worker.
Proof.
  apply (thread_main_ok table_accepts demo_ui loop_cfg 13 4 (fun _ => 4) ∅ loop_queue loop_net ∅);
    try done.
  exact (BufPool_new_view _ init_pool_eq).
Qed.

(** Two clients arrive; the message of the first is cut by one of the second. *)
Definition loop_data : list byte := frame_bytes (mkFrame 1 [x41]).
Definition loop_items : list wk_item :=
  [Arrive 7; Arrive 8; Turn [ENew 1];
   Turn [EData 7 1 (take 5 loop_data) []; EData 8 1 loop_data []; EData 7 1 (drop 5 loop_data) []]].

Lemma loop_items_fit :
  run_fits loop_cfg demo_eff demo_hooked (Z.to_nat 65535) m8M 13 4 loop_items (mkServing ∅ [] tt).
Proof.
  cbn [run_fits loop_items s_conns s_waiting s_user app]. unfold new_fd. cbn [s_conns s_waiting].
  split; [split_and!; try lia; [done|by apply not_elem_of_nil]|].
  split; [split_and!; try lia; [done|by intros ?%list_elem_of_singleton]|].
  split; [done|]. intros S1 cs1 sn1 Hs1. inversion Hs1; subst. clear Hs1. cbn [all_fit run_fits].
  split.
  { split; [done|]. split; [done|]. exists [], []. split; [reflexivity|].
    split; [vm_compute; discriminate|]. vm_compute. split; [discriminate|done]. }
  intros S2 cs2 sn2 Hs2. inversion Hs2 as [|? ? ? ? ? ? ? ? i o fs r out Hc Hp Hsv
    |? ? ? ? ? ? ? ? ? i o fs ? Hc Hp| | |]; subst; clear Hs2;
    [|vm_compute in Hc; injection Hc as <- <-; vm_compute in Hp; discriminate].
  assert (E1 : i = [] /\ o = [] /\ fs = [] /\ r = take 5 loop_data).
  { vm_compute in Hc. injection Hc as <- <-. vm_compute in Hp. injection Hp as <- <-. done. }
  destruct E1 as (-> & -> & -> & ->). inversion Hsv; subst. clear Hc Hp Hsv.
  split.
  { split; [done|]. split; [done|]. exists [], []. split; [reflexivity|].
    split; [vm_compute; discriminate|]. vm_compute. split; [discriminate|done]. }
  intros S3 cs3 sn3 Hs3. split; [|done]. split; [done|]. split; [done|].
  exists (take 5 loop_data), []. split.
  - inversion Hs3; subst; cbn [s_conns];
      [rewrite lookup_insert_ne by done|rewrite lookup_delete_ne by done]; apply lookup_insert_eq.
  - split; [vm_compute; discriminate|]. vm_compute. split; [discriminate|done].
Qed.

Lemma worker_refines_witness :
  exits_or (work demo_echo demo_hook S no_task 4 loop_items loop_worker) (fun wk' =>
    exists S' cs sn, sruns loop_cfg demo_eff demo_hooked (mkServing ∅ [] tt) loop_items S' cs sn /\
      worker_inv demo_ui loop_cfg 13 4 S' wk' /\ wk_calls wk' = cs /\ wk_sent wk' = sn).
Proof.
  exact (worker_refines table_accepts demo_hook demo_ui loop_cfg 13 4 demo_hooked loop_start_ok S
    demo_echo
    no_task (Z.to_nat 65535) demo_eff demo_hook_ok demo_echo_ok loop_items (mkServing ∅ [] tt)
    loop_worker loop_worker_inv loop_items_fit).
Defined.

(** The message of the first client is handled, and its echo is pending or sent,
    whatever comes between its two parts. *)
Lemma connections_independent_witness :
  exits_or (work demo_echo demo_hook S no_task 4 loop_items loop_worker) (fun wk' =>
    of_fd 7 (wk_calls wk') = [mkFrame 1 [x41]]).
Proof.
  eapply exits_or_mono.
  - exact (connections_independent table_accepts demo_hook demo_ui loop_cfg 13 4 demo_hooked
      loop_start_ok S
      demo_echo no_task (Z.to_nat 65535) demo_eff demo_hook_ok demo_echo_ok loop_items
      (mkServing ∅ [] tt) loop_worker loop_worker_inv loop_items_fit).
  - intros wk' (S' & cs & sn & Ec & _ & _ & Hind). rewrite Ec. cbn [app].
    apply (Hind 7 [] [] [mkFrame 1 [x41]] []); try done.
    + repeat constructor; done.
    + by repeat constructor.
Defined.
