(* ===== verification/ServerThreads.v ===== *)
(** * ServerThreads: the server with all its threads

    The accepting thread and the workers of the pool (do_accept of
    reactor/src/tcp_server.cpp, thread_main of reactor/src/thread_pool.cpp).
    They share the buffer pool and the connection table, which are under
    mutexes, and the application's state, which has to be; each thread has its
    own loop, and each worker its queue.  A schedule is any interleaving of the
    threads' callbacks; a callback is one step.  The specification is one of [ServerLoop] for each
      worker, with
    one state of the application and descriptors dealt in turn ([tstep]). *)

From S2P Require Import Prelude CInt IOBuf BufAlloc BufPool ReactorBuf Message.
From S2P Require Import EventLoop ThreadQueue NetState Framing TcpConn TcpConnInv TcpConnSpec.
From S2P Require Import TcpServer ServerLoop.
From Stdlib Require Import Strings.Byte.
Local Open Scope Z_scope.

(** ** Schedules *)

(** The next callback of a worker; the end of its turn; the listening socket is
    readable, and what [accept] returns then. *)
Inductive th_item : Type :=
  | SEvent (i : nat) (e : wk_event)
  | STasks (i : nat)
  | SAccept (m : Z) (answers : list acc_ans).

(** ** The server *)

Section Threads.
Context {P E V U F LOOP : Type} `{BufAlloc P} `{Epoll E} `{EventFd F}.
Local Abbreviation Net := (Net P E V U).
Local Abbreviation Task := (TaskMsg V (option V)).
Local Abbreviation Loop := (EventLoop (io_cb V) (io_arg V) (V * option V) E).
Local Abbreviation Worker := (Worker P E V U F LOOP).
Local Abbreviation Queue := (ThreadQueue Task F LOOP).
Local Abbreviation Pool := (ThreadPool Task F LOOP).

(** A worker's loop, and the descriptor of its queue's eventfd. *)
Record Thread : Type := mkThread { t_loop : Loop; t_qfd : Z }.

(** The shared state, with the loop of the accepting thread; the pool with the
    queues; the workers; what they have done. *)
Record Threads : Type := mkThreads {
  th_net : Net;
  th_pool : Pool;
  th_threads : list Thread;
  th_calls : list (Z * frame);
  th_sent : list (Z * list byte)
}.

Definition th_loop (s : Threads) : Loop := nt_loop (th_net s).
Definition set_thnet (w : Net) (s : Threads) : Threads :=
  mkThreads w (th_pool s) (th_threads s) (th_calls s) (th_sent s).
Definition set_thloop (L : Loop) (s : Threads) : Threads := set_thnet (set_ntloop L (th_net s)) s.

(** What worker [i] sees, with the answers of the kernel to come. *)
Definition thread_at (i : nat) (ins : list answer) (s : Threads) : res Worker :=
  match th_threads s !! i, _queues (th_pool s) !! i with
  | Some t, Some q =>
      Ret (mkWorker (set_ntloop (t_loop t) (th_net s)) q ins (th_calls s) (th_sent s))
  | _, _ => Fault Blocked
  end.

Definition put_thread (i : nat) (wk : Worker) (s : Threads) : Threads :=
  let tp := th_pool s in
  mkThreads (set_ntloop (th_loop s) (wk_net wk))
    (mkThreadPool (<[i := wk_queue wk]> (_queues tp)) (_thread_cnt tp) (_index tp))
    (alter (fun t => mkThread (wk_loop wk) (t_qfd t)) i (th_threads s))
    (wk_calls wk) (wk_sent wk).

(** The descriptor of worker [i]'s queue. *)
Definition qfd_at (i : nat) (s : Threads) : Z :=
  match th_threads s !! i with Some t => t_qfd t | None => -1 end.

Variable run_msg : V -> option (list byte) -> Z -> Z -> Z -> option V -> Net -> res Net.
Variable run_hook : V -> Z -> Net -> res Net.
Variable vgrow : nat -> nat.
Variable run_task : V * option V -> Worker -> res Worker.
(** The listening socket *)
Variable lfd : Z.

(** The callback on the accepting thread's loop. *)
Definition main_cb (answers : list acc_ans) (cb : io_cb V) (fd : Z) (arg : option (io_arg V))
    (s : Threads) : res Threads :=
  match cb, arg with
  | accept_callback, Some arg_server =>
      '(tp, w) ← do_accept run_hook answers (PoolSet (th_pool s)) (th_net s);
      match tp with
      | PoolSet tp => Ret (mkThreads w tp (th_threads s) (th_calls s) (th_sent s))
      | _ => Fault NullDeref
      end
  | _, _ => Fault Blocked
  end.

Definition thread_step (it : th_item) (s : Threads) : res Threads :=
  match it with
  | SEvent i e =>
      wk ← thread_at i (answer_of e) s;
      let '(fd, m) := fired_of (qfd_at i s) e in
      wk ← dispatch wk_loop set_wkloop (worker_cb run_msg run_hook vgrow) fd m wk;
      Ret (put_thread i wk s)
  | STasks i =>
      wk ← thread_at i [] s;
      wk ← execute_ready_tasks wk_loop set_wkloop run_task wk;
      Ret (put_thread i wk s)
  | SAccept m answers => dispatch th_loop set_thloop (main_cb answers) lfd m s
  end.

Fixpoint thread_steps (its : list th_item) (s : Threads) : res Threads :=
  match its with
  | [] => Ret s
  | it :: its => s ← thread_step it s; thread_steps its s
  end.

(** The state in which the server's threads start: [es] are their epoll
    instances. *)
Definition start_threads (evfd_num : F -> Z) (es : list E) (tp : Pool) (w : Net) : Threads :=
  mkThreads w tp
    (zip_with (fun e q => mkThread (nt_loop (thread_main evfd_num e q w)) (evfd_num (evfd q)))
       es (_queues tp)) [] [].
End Threads.
Arguments Thread : clear implicits.
Arguments Threads : clear implicits.

(** ** The specification *)

Section Spec.
Context {V U : Type}.

Local Abbreviation conns_map := (gmap Z (list byte * list byte)).

(** For each worker its connections and the descriptors that wait for it; the
    application's state; the worker that is next. *)
Record Serve : Type := mkServe {
  ts_workers : list (conns_map * list Z);
  ts_user : U;
  ts_next : nat
}.

(** All connections; the descriptors that are open. *)
Definition all_conns (T : Serve) : conns_map := ⋃ (ts_workers T).*1.
Definition in_use (fd : Z) (T : Serve) : Prop :=
  exists i C W, ts_workers T !! i = Some (C, W) /\ (is_Some (C !! fd) \/ fd ∈ W).

Context (cfg : option V * option V * MsgRouter V V)
  (eff : V -> option V -> frame -> Z -> U -> U -> list byte -> Prop)
  (hooked : V -> Z -> U -> U -> Prop) (max_conns : Z).

(** A new descriptor is refused when there are [max_conns] connections. *)
Definition full (T : Serve) : bool := max_conns <=? Z.of_nat (size (all_conns T)).

Definition let_in (fd : Z) (T : Serve) : Serve :=
  if full T then T
  else mkServe (alter (prod_map id (fun W => W ++ [fd])) (ts_next T) (ts_workers T)) (ts_user T)
         (if decide (S (ts_next T) = length (ts_workers T)) then 0%nat else S (ts_next T)).

Fixpoint let_all_in (answers : list acc_ans) (T : Serve) : Serve :=
  match answers with
  | [] => T
  | AccFd fd :: answers => let_all_in answers (let_in fd T)
  | AccErr _ :: answers => let_all_in answers T
  end.

Inductive tstep : Serve -> th_item -> Serve -> list (Z * frame) -> list (Z * list byte) -> Prop :=
  | ts_event ws u n i e C W C' W' u' cs sn :
      ws !! i = Some (C, W) ->
      sstep cfg eff hooked (mkServing C W u) e (mkServing C' W' u') cs sn ->
      tstep (mkServe ws u n) (SEvent i e) (mkServe (<[i := (C', W')]> ws) u' n) cs sn
  | ts_tasks T i : tstep T (STasks i) T [] []
  | ts_accept T m answers : tstep T (SAccept m answers) (let_all_in answers T) [] [].

Inductive tsteps : Serve -> list th_item -> Serve -> list (Z * frame) -> list (Z * list byte) ->
    Prop :=
  | ts_nil T : tsteps T [] T [] []
  | ts_cons T it T1 its T2 cs1 sn1 cs2 sn2 :
      tstep T it T1 cs1 sn1 -> tsteps T1 its T2 cs2 sn2 ->
      tsteps T (it :: its) T2 (cs1 ++ cs2) (sn1 ++ sn2).

(** What the kernel can report, and what fits; [busy] are the descriptors the
    process uses otherwise, the queues' among them. *)
Context (grow : nat) (room lim : Z) (busy : gset Z).

(** [accept] returns descriptors that are not open, until there is none or it
    fails otherwise.  A descriptor that is let in has to have a place in the
    table: the code does not look, and with one from [lim] on it would write
    behind the table. *)
Fixpoint accept_fits (answers : list acc_ans) (T : Serve) : Prop :=
  match answers with
  | [] => False
  | AccFd fd :: answers =>
      (full T = false -> 0 <= fd < lim) /\ (fd ∉ busy) /\ ~ in_use fd T /\
      accept_fits answers (let_in fd T)
  | AccErr EINTR :: answers | AccErr EMFILE :: answers => accept_fits answers T
  | AccErr EAGAIN :: answers => answers = []
  | AccErr _ :: _ => True
  end.

(** An event that a worker's kernel can report, to a thread that is there, with
    the bounds of [fits]: what is kept of the input, and the output with the
    answers, fit into the largest buffer, and no input ends with an empty
    message. *)
Definition item_fits (T : Serve) (it : th_item) : Prop :=
  match it with
  | SEvent i e => exists C W, ts_workers T !! i = Some (C, W) /\
      fits grow room (mkServing C W (ts_user T)) e
  | STasks i => (i < length (ts_workers T))%nat
  | SAccept m answers => is_read m = true /\ accept_fits answers T
  end.

Fixpoint all_items_fit (its : list th_item) (T : Serve) : Prop :=
  match its with
  | [] => True
  | it :: its => item_fits T it /\ forall T' cs sn, tstep T it T' cs sn -> all_items_fit its T'
  end.
End Spec.
Arguments Serve : clear implicits.

(** ** Who has a descriptor *)

Section Owners.
Context {U : Type}.
Implicit Types (T : Serve U) (Cs : list (gmap Z (list byte * list byte))).

Lemma union_list_Some Cs fd x :
  (⋃ Cs) !! fd = Some x -> exists i C, Cs !! i = Some C /\ C !! fd = Some x.
Proof.
  induction Cs as [|C Cs IH]; cbn; [done|].
  intros [H1|[_ H2]]%lookup_union_Some_raw; [by exists 0%nat, C|].
  destruct (IH H2) as (i & C' & ? & ?). by exists (S i), C'.
Qed.

Lemma union_list_is_Some Cs i C fd :
  Cs !! i = Some C -> is_Some (C !! fd) -> is_Some ((⋃ Cs) !! fd).
Proof.
  revert i. induction Cs as [|C0 Cs IH]; intros i Hi HC; [done|]. cbn.
  apply lookup_union_is_Some. destruct i as [|i]; [injection Hi as ->; by left|].
  right. by apply (IH i).
Qed.

(** Worker [i] serves the descriptor, or will. *)
Definition has (i : nat) (fd : Z) T : Prop :=
  exists C W, ts_workers T !! i = Some (C, W) /\ (is_Some (C !! fd) \/ fd ∈ W).

(** A descriptor is one worker's only. *)
Record spec_ok (lim : Z) (busy : gset Z) T : Prop := {
  so_one fd i j : has i fd T -> has j fd T -> i = j;
  so_wait i C W : ts_workers T !! i = Some (C, W) -> NoDup W /\
    forall fd, fd ∈ W -> C !! fd = None /\ 0 <= fd < lim /\ fd ∉ busy;
  so_next : (ts_next T < length (ts_workers T))%nat
}.

Lemma all_conns_Some lim busy T fd x :
  spec_ok lim busy T ->
  all_conns T !! fd = Some x <->
    exists i C W, ts_workers T !! i = Some (C, W) /\ C !! fd = Some x.
Proof.
  intros Hok. unfold all_conns. split.
  - intros (i & C & Hi & Hx)%union_list_Some. rewrite list_lookup_fmap in Hi.
    destruct (ts_workers T !! i) as [[C' W]|] eqn:E; [|done]. injection Hi as ->. by exists i, C, W.
  - intros (i & C & W & Hi & Hx).
    assert (Hl : (ts_workers T).*1 !! i = Some C) by by rewrite list_lookup_fmap, Hi.
    destruct (union_list_is_Some _ i C fd Hl) as [y Hy]; [by rewrite Hx|].
    rewrite Hy. apply union_list_Some in Hy as (j & C' & Hj & Hy).
    rewrite list_lookup_fmap in Hj. destruct (ts_workers T !! j) as [[C2 W2]|] eqn:E; [|done].
    injection Hj as ->. assert (i = j) as <-.
    { apply (so_one _ _ _ Hok fd); [exists C, W|exists C', W2]; split; try done; left;
        by eexists. }
    rewrite Hi in E. injection E as -> ->. congruence.
Qed.

(** Others' descriptors stay theirs when a worker only opens its own. *)
Lemma spec_ok_insert lim busy ws (u u' : U) n i C W C' W' :
  spec_ok lim busy (mkServe ws u n) -> ws !! i = Some (C, W) ->
  (forall fd, is_Some (C' !! fd) -> is_Some (C !! fd) \/ fd ∈ W) -> W' ⊆ W -> NoDup W' ->
  (forall fd, fd ∈ W' -> C' !! fd = None) ->
  spec_ok lim busy (mkServe (<[i := (C', W')]> ws) u' n).
Proof.
  intros Hok Hi HC HW Hnd Hw.
  assert (Hhas : forall j fd, has j fd (mkServe (<[i := (C', W')]> ws) u' n) ->
    has j fd (mkServe ws u n)).
  { intros j fd (C2 & W2 & Hj & Hf). cbn in Hj.
    apply list_lookup_insert_Some in Hj as [(<- & [= <- <-] & _)|(Hne & Hj)]; cbn.
    - exists C, W. split; [done|]. destruct Hf as [Hf|Hf]; [by apply HC|right; by apply HW].
    - by exists C2, W2. }
  split.
  - intros fd j k Hj Hk. by apply (so_one _ _ _ Hok fd j k); apply Hhas.
  - intros j C2 W2 Hj. cbn in Hj.
    apply list_lookup_insert_Some in Hj as [(<- & [= <- <-] & _)|(Hne & Hj)].
    + split; [done|]. intros fd Hfd. split; [by apply Hw|].
      by apply (so_wait _ _ _ Hok i C W), HW.
    + by apply (so_wait _ _ _ Hok j).
  - cbn. rewrite length_insert. apply Hok.
Qed.

(** What an event makes of its worker's descriptors. *)
Lemma sstep_own {V : Type} (cfg : option V * option V * MsgRouter V V)
    (eff : V -> option V -> frame -> Z -> U -> U -> list byte -> Prop)
    (hooked : V -> Z -> U -> U -> Prop) S e S' cs sn :
  sstep cfg eff hooked S e S' cs sn ->
  (forall fd, is_Some (s_conns S' !! fd) -> is_Some (s_conns S !! fd) \/ fd ∈ s_waiting S) /\
  s_waiting S' ⊆ s_waiting S.
Proof.
  intros Hst. destruct Hst; cbn [s_conns s_waiting]; (split;
    [|by (done || apply list_subseteq_nil)]).
  - intros fd [Hf|[x Hx]]%lookup_union_is_Some; [by left|]. right.
    apply elem_of_list_to_map_2, list_elem_of_fmap in Hx as (y & [= -> _] & ?). done.
  - intros fd'. rewrite lookup_insert_is_Some. intros [<-|[_ ?]]; left; [by eexists|done].
  - intros fd' [_ ?]%lookup_delete_is_Some. by left.
  - intros fd' [_ ?]%lookup_delete_is_Some. by left.
  - intros fd'. rewrite lookup_insert_is_Some. intros [<-|[_ ?]]; left; [by eexists|done].
  - intros fd' [_ ?]%lookup_delete_is_Some. by left.
Qed.
End Owners.

(** ** The invariant *)

Section Invariant.
Context {P E V U F LOOP : Type} `{LP : BufAllocLaws P} `{LE : EpollLaws E} `{EventFd F}.
Local Abbreviation Net := (Net P E V U).
Local Abbreviation Worker := (Worker P E V U F LOOP).
Local Abbreviation Threads := (Threads P E V U F LOOP).
Local Abbreviation Queue := (ThreadQueue (TaskMsg V (option V)) F LOOP).
Context (K : kernel_accepts (E := E)) (run_hook : V -> Z -> Net -> res Net).
Context (UI : option V * option V * MsgRouter V V -> gset Z -> U -> Prop).
Context (cfg : option V * option V * MsgRouter V V) (lim lfd : Z) (busy : gset Z).
Local Abbreviation beside := (beside UI cfg lim).

(** The accepting thread watches the listening socket. *)
Definition accepts (s : Threads) : Prop :=
  exists ev, io_evs (th_loop s) !! lfd = Some ev /\
    read_callback ev = Some accept_callback /\ rcb_args ev = Some arg_server.

(** Worker [i] where its part [C], [W] of the specification is. *)
Definition worker_at (A : gmap Z (Live V)) (s : Threads) (i : nat)
    (C : gmap Z (list byte * list byte)) (W : list Z) : Prop :=
  exists M t q, th_threads s !! i = Some t /\ _queues (th_pool s) !! i = Some q /\
    M ⊆ A /\ C = view_of M /\ mine_inv (t_qfd t) M (t_loop t) /\
    queue q = NEW_CONN <$> W /\ t_qfd t ∈ busy.

(** [A] are the connections of all workers. *)
Record threads_with (A : gmap Z (Live V)) (T : Serve U) (s : Threads) : Prop := {
  ti_all : all_inv UI cfg lim A (th_net s);
  ti_view : view_of A = all_conns T;
  ti_spec : spec_ok lim busy T;
  ti_user : ts_user T = nt_user (th_net s);
  ti_worker i C W : ts_workers T !! i = Some (C, W) -> worker_at A s i C W;
  ti_pool : pool_ok (th_pool s);
  ti_len : length (_queues (th_pool s)) = length (ts_workers T);
  ti_next : _index (th_pool s) = Z.of_nat (ts_next T);
  ti_main : accepts s
}.

Definition threads_inv (T : Serve U) (s : Threads) : Prop := exists A, threads_with A T s.

Lemma all_inv_loop A (w : Net) L : all_inv UI cfg lim A w -> all_inv UI cfg lim A (set_ntloop L w).
Proof. intros []. by split. Qed.

Lemma view_of_Some (M : gmap Z (Live V)) fd x :
  view_of M !! fd = Some x <-> exists l, M !! fd = Some l /\ x = (l_in l, l_out l).
Proof.
  unfold view_of. rewrite lookup_fmap. destruct (M !! fd) as [l|]; cbn.
  - split; [intros [= <-]; by exists l|]. by intros (l' & [= <-] & ->).
  - split; [done|]. by intros (l' & [=] & _).
Qed.

Lemma view_of_is_Some (M : gmap Z (Live V)) fd : is_Some (view_of M !! fd) <-> is_Some (M !! fd).
Proof. unfold view_of. by rewrite lookup_fmap, fmap_is_Some. Qed.

(** What the application knows of the connections. *)
Lemma threads_inv_user T s :
  threads_inv T s -> UI cfg (dom (all_conns T)) (nt_user (th_net s)).
Proof.
  intros [A I]. rewrite <- (ti_view _ _ _ I). unfold view_of. rewrite dom_fmap_L.
  apply (nv_user _ _ _ _ _ (ti_all _ _ _ I)).
Qed.

(** Connections of two workers *)
Lemma threads_apart A T s i j C W C' W' (M M' : gmap Z (Live V)) :
  threads_with A T s -> ts_workers T !! i = Some (C, W) -> ts_workers T !! j = Some (C', W') ->
  i <> j -> C = view_of M -> C' = view_of M' -> M ##ₘ M'.
Proof.
  intros I Hi Hj Hne -> ->. apply map_disjoint_spec. intros fd x y Hx Hy. apply Hne.
  apply (so_one _ _ _ (ti_spec _ _ _ I) fd);
    [exists (view_of M), W|exists (view_of M'), W']; (split; [done|]); left;
    apply view_of_is_Some; by eexists.
Qed.

(** The connections of another worker are among the others. *)
Lemma threads_others A T s i j C W C' W' (M M' : gmap Z (Live V)) :
  threads_with A T s -> ts_workers T !! i = Some (C, W) -> ts_workers T !! j = Some (C', W') ->
  i <> j -> C = view_of M -> C' = view_of M' -> M' ⊆ A -> M' ⊆ A ∖ M.
Proof.
  intros I Hi Hj Hne HC HC' H'. apply map_subseteq_spec. intros fd x Hx.
  apply lookup_difference_Some. split; [by apply (lookup_weaken _ _ _ _ Hx)|].
  pose proof (threads_apart _ _ _ _ _ _ _ _ _ M M' I Hi Hj Hne HC HC') as Hap.
  by apply (map_disjoint_Some_r M M' fd x).
Qed.

(** What a worker sees of its descriptors is what the specification has. *)
Lemma threads_can_open A T s i C W fd :
  threads_with A T s -> ts_workers T !! i = Some (C, W) -> fd ∈ W -> A !! fd = None.
Proof.
  intros I Hi Hfd. pose proof (ti_spec _ _ _ I) as Hsp. apply eq_None_not_Some. intros Hs.
  apply view_of_is_Some in Hs as [x Hx]. rewrite (ti_view _ _ _ I) in Hx.
  apply (all_conns_Some _ _ _ _ _ Hsp) in Hx as (j & C2 & W2 & Hj & Hx).
  assert (i = j) as <-.
  { apply (so_one _ _ _ Hsp fd); [exists C, W|exists C2, W2]; (split; [done|]);
      [by right|left; by eexists]. }
  rewrite Hi in Hj. injection Hj as -> ->.
  destruct (so_wait _ _ _ Hsp i C2 W2 Hi) as [_ Hw]. destruct (Hw fd Hfd). congruence.
Qed.

(** A worker runs beside the connections of the others. *)
Lemma threads_beside A T (s : Threads) i C W ins M t (q : Queue) :
  threads_with A T s -> ts_workers T !! i = Some (C, W) -> M ⊆ A -> C = view_of M ->
  mine_inv (t_qfd t) M (t_loop t) -> queue q = NEW_CONN <$> W -> t_qfd t ∈ busy ->
  beside (t_qfd t) (A ∖ M) (mkServing C W (ts_user T))
    (mkWorker (set_ntloop (t_loop t) (th_net s)) q ins (th_calls s) (th_sent s)).
Proof.
  intros I Hi HM HC IM Eq Hb. assert (HA : M ∪ (A ∖ M) = A) by by apply map_difference_union.
  destruct (so_wait _ _ _ (ti_spec _ _ _ I) i C W Hi) as [Hnd Hw].
  exists M. cbn [s_conns s_waiting s_user wk_net wk_queue]. split_and!; try done.
  - split; [rewrite HA; apply all_inv_loop, I|exact IM|by apply map_disjoint_difference_r1].
  - apply (ti_user _ _ _ I).
  - apply Forall_forall. intros fd Hfd. destruct (Hw fd Hfd) as (_ & Hr & Hnb).
    split; [done|]. split; [by intros ->|]. rewrite HA. by eapply threads_can_open.
Qed.

(** The connections of all workers when one has changed its own. *)
Lemma threads_view A T s i C W M M' C' W' (u' : U) :
  threads_with A T s -> ts_workers T !! i = Some (C, W) -> C = view_of M -> C' = view_of M' ->
  M' ##ₘ A ∖ M ->
  let T' := mkServe (<[i := (C', W')]> (ts_workers T)) u' (ts_next T) in
  spec_ok lim busy T' -> view_of (M' ∪ A ∖ M) = all_conns T'.
Proof.
  intros I Hi HC HC' Hd T' Hsp. apply map_eq. intros fd. apply option_eq. intros x.
  pose proof (lookup_lt_Some _ _ _ Hi) as Hlt.
  rewrite (all_conns_Some _ _ _ _ _ Hsp), view_of_Some. cbn [T' ts_workers]. split.
  - intros (l & [Hl|Hl]%lookup_union_Some & ->); [| |done].
    + exists i, C', W'. split; [by apply list_lookup_insert_eq|].
      rewrite HC'. apply view_of_Some. by exists l.
    + apply lookup_difference_Some in Hl as [Hl Hn].
      assert (Hx : all_conns T !! fd = Some (l_in l, l_out l)).
      { rewrite <- (ti_view _ _ _ I). apply view_of_Some. by exists l. }
      apply (all_conns_Some _ _ _ _ _ (ti_spec _ _ _ I)) in Hx as (j & C2 & W2 & Hj & Hx).
      exists j, C2, W2. split; [|done]. rewrite list_lookup_insert_ne; [done|].
      intros <-. rewrite Hi in Hj. injection Hj as <- <-.
      rewrite HC in Hx. apply view_of_Some in Hx as (l' & Hl' & _). congruence.
  - intros (j & C2 & W2 & Hj & Hx).
    apply list_lookup_insert_Some in Hj as [(<- & [= <- <-] & _)|(Hne & Hj)].
    + rewrite HC' in Hx. apply view_of_Some in Hx as (l & Hl & ->). exists l.
      split; [by apply lookup_union_Some_l|done].
    + destruct (ti_worker _ _ _ I _ _ _ Hj) as (M2 & _ & _ & _ & _ & H2 & EC2 & _).
      pose proof (threads_others _ _ _ _ _ _ _ _ _ M M2 I Hi Hj Hne HC EC2 H2) as H3.
      rewrite EC2 in Hx. apply view_of_Some in Hx as (l & Hl & ->). exists l.
      split; [|done]. apply lookup_union_Some_r; [done|]. by apply (lookup_weaken _ _ _ _ Hl).
Qed.

(** What the worker makes of its own connections can be put back. *)
Lemma threads_put A T s i C W M t q (wk' : Worker) C' W' u' :
  threads_with A T s -> ts_workers T !! i = Some (C, W) -> C = view_of M ->
  th_threads s !! i = Some t -> _queues (th_pool s) !! i = Some q -> t_qfd t ∈ busy ->
  beside (t_qfd t) (A ∖ M) (mkServing C' W' u') wk' ->
  (forall fd, is_Some (C' !! fd) -> is_Some (C !! fd) \/ fd ∈ W) -> W' ⊆ W ->
  threads_inv (mkServe (<[i := (C', W')]> (ts_workers T)) u' (ts_next T)) (put_thread i wk' s).
Proof.
  intros I Hi HC Ht Hq Hb (M' & I' & Ec & Eu & Eq' & Hnd & Hok) Hown HWW.
  cbn [s_conns s_waiting s_user] in *. rewrite Forall_forall in Hok.
  assert (Hsp : spec_ok lim busy (mkServe (<[i := (C', W')]> (ts_workers T)) u' (ts_next T))).
  { destruct T as [ws u n]. eapply spec_ok_insert; try done; [apply I|].
    intros fd Hfd. destruct (Hok fd Hfd) as (_ & _ & [Hn _]%lookup_union_None).
    rewrite Ec. unfold view_of. by rewrite lookup_fmap, Hn. }
  exists (M' ∪ A ∖ M). split; cbn [th_net put_thread ts_user ts_next ts_workers th_pool
    _queues _index set_ntloop nt_user]; try done; try apply I.
  - apply all_inv_loop, I'.
  - by apply (threads_view A T s i C W M M' C' W' u' I Hi HC Ec (nv_apart _ _ _ _ _ _ _ I')).
  - intros j C2 W2 Hj.
    apply list_lookup_insert_Some in Hj as [(<- & [= <- <-] & Hlen)|(Hne & Hj)].
    + exists M', (mkThread (wk_loop wk') (t_qfd t)), (wk_queue wk'). unfold put_thread.
      cbn [th_threads th_pool _queues t_loop t_qfd]. split_and!; try done.
      * by rewrite list_lookup_alter_eq, Ht.
      * apply list_lookup_insert_eq. by apply (lookup_lt_Some _ _ _ Hq).
      * apply map_union_subseteq_l.
      * apply I'.
    + destruct (ti_worker _ _ _ I _ _ _ Hj)
        as (M2 & t2 & q2 & Ht2 & Hq2 & H2 & EC2 & IM2 & Eq2 & Hb2).
      exists M2, t2, q2. unfold put_thread. cbn [th_threads th_pool _queues].
      rewrite list_lookup_alter_ne, list_lookup_insert_ne by done. split_and!; try done.
      etrans; [by apply (threads_others _ _ _ _ _ _ _ _ _ M M2 I Hi Hj Hne HC EC2 H2)|].
      apply map_union_subseteq_r. apply I'.
  - destruct (ti_pool _ _ _ I) as [Hc Hx]. split; cbn; by rewrite ?length_insert.
  - rewrite !length_insert. apply I.
Qed.

(** Both together: a step of worker [i]. *)
Lemma threads_focus T (s : Threads) i C W ins :
  threads_inv T s -> ts_workers T !! i = Some (C, W) ->
  exists wk O, thread_at i ins s = Ret wk /\ wk_in wk = ins /\
    wk_calls wk = th_calls s /\ wk_sent wk = th_sent s /\
    beside (qfd_at i s) O (mkServing C W (ts_user T)) wk /\
    forall wk' C' W' u', beside (qfd_at i s) O (mkServing C' W' u') wk' ->
      (forall fd, is_Some (C' !! fd) -> is_Some (C !! fd) \/ fd ∈ W) -> W' ⊆ W ->
      threads_inv (mkServe (<[i := (C', W')]> (ts_workers T)) u' (ts_next T))
        (put_thread i wk' s).
Proof.
  intros [A I] Hi.
  destruct (ti_worker _ _ _ I _ _ _ Hi) as (M & t & q & Ht & Hq & HM & HC & IM & Eq & Hb).
  unfold thread_at, qfd_at. rewrite Ht, Hq. eexists _, (A ∖ M). do 4 (split; [done|]).
  split; [by eapply threads_beside|]. intros wk' C' W' u' Hwk Hown HW.
  by eapply threads_put.
Qed.
End Invariant.

(** Another thread of the process may change the application's state, and what is
    asked of it. *)
Section SetUser.
Context {P E V U F LOOP : Type} `{LP : BufAllocLaws P} `{LE : EpollLaws E} `{EventFd F}.
Context (UI UI' : option V * option V * MsgRouter V V -> gset Z -> U -> Prop).
Context (cfg : option V * option V * MsgRouter V V) (lim lfd : Z) (busy : gset Z).
Local Abbreviation Threads := (Threads P E V U F LOOP).

Definition set_thuser (u : U) (s : Threads) : Threads := set_thnet (set_ntuser u (th_net s)) s.

(** The specification with another state of the application. *)
Definition with_user (u : U) (T : Serve U) : Serve U := mkServe (ts_workers T) u (ts_next T).

Lemma threads_inv_set_user T s u :
  threads_inv UI cfg lim lfd busy T s -> UI' cfg (dom (all_conns T)) u ->
  threads_inv UI' cfg lim lfd busy (with_user u T) (set_thuser u s).
Proof.
  intros [A I] Hu. exists A. destruct I as [IA Hv Hsp _ Hw Hp Hl Hn Hm]. split; try done.
  - rewrite <- Hv in Hu. unfold view_of in Hu. rewrite dom_fmap_L in Hu. by destruct IA; split.
  - destruct Hsp. by split.
Qed.
End SetUser.

(** ** The start *)

Section Start.
Context {P E V U F LOOP : Type} `{LP : BufAllocLaws P} `{LE : EpollLaws E} `{EventFd F}.
Local Abbreviation Net := (Net P E V U).
Context (K : kernel_accepts (E := E)).
Context (UI : option V * option V * MsgRouter V V -> gset Z -> U -> Prop).
Context (cfg : option V * option V * MsgRouter V V) (lim lfd : Z) (busy : gset Z).

Definition serve_start (n : nat) (u : U) : Serve U := mkServe (replicate n (∅, [])) u 0.

Lemma serve_start_has n (u : U) i fd : ~ has i fd (serve_start n u).
Proof.
  intros (C & W & [[= -> ->] _]%lookup_replicate & [[? Hc]|Hw]).
  - by rewrite lookup_empty in Hc.
  - by apply not_elem_of_nil in Hw.
Qed.

Lemma serve_start_spec n (u : U) : (0 < n)%nat -> spec_ok lim busy (serve_start n u).
Proof.
  intros Hn. split.
  - by intros fd i j ?%serve_start_has.
  - intros i C W [[= -> ->] _]%lookup_replicate. split; [by apply NoDup_nil_2|].
    by intros fd ?%not_elem_of_nil.
  - cbn. by rewrite length_replicate.
Qed.

Lemma serve_start_conns n (u : U) : all_conns (serve_start n u) = ∅.
Proof.
  apply map_empty. intros fd. apply eq_None_not_Some. intros [x (i & C & Hi & Hx)%union_list_Some].
  cbn in Hi. rewrite list_lookup_fmap in Hi.
  destruct (replicate n _ !! i) as [[C' W]|] eqn:E1; [|done]. injection Hi as ->.
  apply lookup_replicate in E1 as [[= -> ->] _]. by rewrite lookup_empty in Hx.
Qed.

(** The workers of a fresh pool on a server without connections. *)
Lemma start_threads_ok (evfd_num : F -> Z) es (tp : ThreadPool (TaskMsg V (option V)) F LOOP)
    (w : Net) bufs :
  pool_ok tp -> _index tp = 0 -> Forall (fun q => queue q = []) (_queues tp) ->
  Forall (fun q => evfd_num (evfd q) ∈ busy) (_queues tp) ->
  length es = length (_queues tp) -> Forall (fun e => interest e = ∅) es ->
  ba_view (nt_pool w) bufs -> table_ok (nt_srv w) -> listed (nt_srv w) = ∅ ->
  conns_size (nt_srv w) = lim -> srv_cfg (nt_srv w) = cfg -> UI cfg ∅ (nt_user w) ->
  (exists ev, io_evs (nt_loop w) !! lfd = Some ev /\
    read_callback ev = Some accept_callback /\ rcb_args ev = Some arg_server) ->
  threads_inv UI cfg lim lfd busy (serve_start (length (_queues tp)) (nt_user w))
    (start_threads evfd_num es tp w).
Proof.
  intros Hp Hx Hq Hbusy Hlen He Hv Ht Hl Hlim Hcfg Hu Hm. exists ∅.
  assert (Hn : (0 < length (_queues tp))%nat) by (destruct Hp; lia).
  split; try done.
  - split; cbn; try done. exists bufs, bufs. by split.
  - rewrite serve_start_conns. apply fmap_empty.
  - by apply serve_start_spec.
  - intros i C W [[= -> ->] Hi]%lookup_replicate.
    destruct (lookup_lt_is_Some_2 _ _ Hi) as [q Eq].
    destruct (lookup_lt_is_Some_2 es i) as [e Ee]; [lia|].
    pose proof (Forall_lookup_1 _ _ _ _ He Ee) as Hei. cbn in Hei.
    pose proof (Forall_lookup_1 _ _ _ _ Hq Eq) as Hqi. cbn in Hqi.
    pose proof (Forall_lookup_1 _ _ _ _ Hbusy Eq) as Hbi. cbn in Hbi.
    exists ∅, (mkThread (nt_loop (thread_main evfd_num e q w)) (evfd_num (evfd q))), q.
    cbn [start_threads th_threads th_pool t_qfd t_loop]. split_and!; try done.
    + by rewrite lookup_zip_with, Ee, Eq.
    + by apply (thread_main_mine K).
  - cbn. by rewrite length_replicate.
Qed.
End Start.

(** ** Connections are independent, whichever worker has them *)

(** What the items say of the descriptor [fd], as in [ServerLoop]. *)
Definition th_data (fd : Z) (it : th_item) : list byte :=
  match it with SEvent _ e => event_data fd e | _ => [] end.
Definition th_stream (fd : Z) (its : list th_item) : list byte := mjoin (th_data fd <$> its).
Definition th_quiet (fd : Z) (it : th_item) : Prop :=
  match it with SEvent _ e => quiet_event fd e | _ => True end.

Section Independent.
Context {V U : Type} (cfg : option V * option V * MsgRouter V V)
  (eff : V -> option V -> frame -> Z -> U -> U -> list byte -> Prop)
  (hooked : V -> Z -> U -> U -> Prop).
Context (lim max_conns : Z) (busy : gset Z).
Implicit Types (T : Serve U).

Definition conn_all (fd : Z) T : list byte * list byte := default ([], []) (all_conns T !! fd).

(** The connection of a descriptor is the one its worker has. *)
Lemma all_conns_in T j C W fd :
  spec_ok lim busy T -> ts_workers T !! j = Some (C, W) -> is_Some (C !! fd) ->
  all_conns T !! fd = C !! fd.
Proof.
  intros Hok Hj [x Hx]. rewrite Hx. apply (all_conns_Some _ _ _ _ _ Hok). by exists j, C, W.
Qed.

Lemma all_conns_at T i C W fd :
  spec_ok lim busy T -> ts_workers T !! i = Some (C, W) ->
  (forall j C2 W2, j <> i -> ts_workers T !! j = Some (C2, W2) -> C2 !! fd = None) ->
  all_conns T !! fd = C !! fd.
Proof.
  intros Hok Hi Hno. destruct (C !! fd) as [x|] eqn:Hx.
  - apply (all_conns_Some _ _ _ _ _ Hok). by exists i, C, W.
  - apply eq_None_not_Some. intros [x Hy].
    apply (all_conns_Some _ _ _ _ _ Hok) in Hy as (j & C2 & W2 & Hj & Hy).
    destruct (decide (j = i)) as [->|Hne]; [congruence|]. rewrite (Hno j C2 W2) in Hy; done.
Qed.

(** A worker without the descriptor says nothing of it. *)
Lemma sstep_none S e S' cs sn fd :
  sstep cfg eff hooked S e S' cs sn -> s_conns S !! fd = None -> s_conns S' !! fd = None ->
  quiet_event fd e -> event_data fd e = [] /\ of_fd fd cs = [] /\ concat (of_fd fd sn) = [].
Proof.
  intros Hst Hn Hn' Hq. assert (He : event_data fd e = []).
  { destruct Hst as [|? ? ? ? fd' ? ? ? ? ? ? ? ? Hc|? ? ? ? ? fd' ? ? ? ? ? ? ? Hc| | |]; cbn;
      try done; cbn in Hn; case_decide; congruence. }
  split; [done|].
  assert (Ec : conn_of fd S = ([], [])) by (unfold conn_of; by rewrite Hn).
  destruct (sstep_alone cfg eff hooked S e S' cs sn fd [] [] [] [] Hst Ec Hq parse_nil)
    as (-> & o' & out & Hc & Ha & Ho); [by rewrite He|]. split; [done|].
  inversion Ha; subst. by apply app_eq_nil in Ho as [-> _].
Qed.

Lemma event_alone i e ws (u u' : U) n C W C' W' cs sn fd :
  let T := mkServe ws u n in let T' := mkServe (<[i := (C', W')]> ws) u' n in
  spec_ok lim busy T -> spec_ok lim busy T' -> ws !! i = Some (C, W) ->
  sstep cfg eff hooked (mkServing C W u) e (mkServing C' W' u') cs sn -> quiet_event fd e ->
  alone cfg eff fd (event_data fd e) (conn_all fd T) (conn_all fd T') cs sn.
Proof.
  intros T T' Hok Hok' Hi Hst Hq.
  assert (Hi' : ts_workers T' !! i = Some (C', W')).
  { apply list_lookup_insert_eq, (lookup_lt_Some _ _ _ Hi). }
  assert (Hall : (forall j C2 W2, j <> i -> ws !! j = Some (C2, W2) -> C2 !! fd = None) ->
    alone cfg eff fd (event_data fd e) (conn_all fd T) (conn_all fd T') cs sn).
  { intros Hno i0 o fs r Hc Hp0 Hp _. unfold conn_all in *.
    rewrite (all_conns_at T i C W fd Hok Hi Hno) in Hc.
    rewrite (all_conns_at T' i C' W' fd Hok' Hi').
    - by apply (sstep_alone cfg eff hooked _ _ _ _ _ fd i0 o fs r Hst Hc Hq Hp0).
    - intros j C2 W2 Hj H2. cbn in H2. rewrite list_lookup_insert_ne in H2 by done.
      by apply (Hno j C2 W2). }
  destruct (all_conns T !! fd) as [x|] eqn:Hx.
  - apply (all_conns_Some _ _ _ _ _ Hok) in Hx as (j & C2 & W2 & Hj & Hx).
    assert (Hone : forall k C3 W3, k <> j -> ws !! k = Some (C3, W3) -> C3 !! fd = None).
    { intros k C3 W3 Hk H3. apply eq_None_not_Some. intros Hs. apply Hk.
      by apply (so_one _ _ _ Hok fd); [exists C3, W3|exists C2, W2]; (split; [done|]);
        left; try (by eexists). }
    destruct (decide (j = i)) as [->|Hne]; [by apply Hall|].
    assert (Hj' : ts_workers T' !! j = Some (C2, W2)).
    { cbn. by rewrite list_lookup_insert_ne by done. }
    assert (Hn' : C' !! fd = None).
    { apply eq_None_not_Some. intros Hs. apply Hne. apply (so_one _ _ _ Hok' fd);
        [exists C2, W2|exists C', W']; (split; [done|]); left; [by eexists|done]. }
    destruct (sstep_none _ _ _ _ _ fd Hst (Hone i C W (not_eq_sym Hne) Hi) Hn' Hq) as (-> & E1 &
      E2).
    intros i0 o fs r Hc Hp0 Hp _. rewrite app_nil_r, Hp0 in Hp. injection Hp as <- <-.
    split; [done|]. exists o, []. rewrite E2, app_nil_r. split; [|split; [constructor|done]].
    rewrite <- Hc. unfold conn_all.
    rewrite (all_conns_in T j C2 W2), (all_conns_in T' j C2 W2); try done; by eexists.
  - apply Hall. intros j C2 W2 _ Hj. apply eq_None_not_Some. intros Hs.
    rewrite (all_conns_in T j C2 W2) in Hx by done. by rewrite Hx in Hs; destruct Hs.
Qed.

(** Accepting changes no connection. *)
Lemma alter_fst {A B : Type} (ws : list (A * B)) n f : (alter (prod_map id f) n ws).*1 = ws.*1.
Proof. revert n. induction ws as [|[C W] ws IH]; intros [|n]; cbn; [done..|]. by rewrite IH. Qed.

Lemma let_in_conns fd T : all_conns (let_in max_conns fd T) = all_conns T.
Proof. unfold let_in, all_conns. destruct (full _ _); [done|]. cbn. by rewrite alter_fst. Qed.

Lemma let_all_in_conns answers T : all_conns (let_all_in max_conns answers T) = all_conns T.
Proof.
  revert T. induction answers as [|[fd|e] answers IH]; intros T; cbn; [done| |done].
  by rewrite IH, let_in_conns.
Qed.

Lemma let_all_in_user answers T : ts_user (let_all_in max_conns answers T) = ts_user T.
Proof.
  revert T. induction answers as [|[fd|e] answers IH]; intros T; cbn; [done| |done].
  rewrite IH. unfold let_in. by destruct (full _ _).
Qed.

Lemma tstep_alone T it T' cs sn fd :
  tstep cfg eff hooked max_conns T it T' cs sn -> spec_ok lim busy T -> spec_ok lim busy T' ->
  th_quiet fd it -> alone cfg eff fd (th_data fd it) (conn_all fd T) (conn_all fd T') cs sn.
Proof.
  intros Hst Hok Hok' Hq. destruct Hst as [ws u n i e C W C' W' u' cs sn Hi Hst| |T m answers].
  - by eapply event_alone.
  - apply alone_nil.
  - unfold conn_all. rewrite let_all_in_conns. apply alone_nil.
Qed.
End Independent.

(** ** The server refines the specification *)

Section Refinement.
Context {P E V U F LOOP : Type} `{LP : BufAllocLaws P} `{LE : EpollLaws E} `{EventFd F}.
Local Abbreviation Net := (Net P E V U).
Local Abbreviation Worker := (Worker P E V U F LOOP).
Local Abbreviation Threads := (Threads P E V U F LOOP).
Context (K : kernel_accepts (E := E)) (run_hook : V -> Z -> Net -> res Net).
Context (UI : option V * option V * MsgRouter V V -> gset Z -> U -> Prop).
Context (cfg : option V * option V * MsgRouter V V) (lim lfd : Z) (busy : gset Z).
Context (hooked : V -> Z -> U -> U -> Prop).
Context (Hstart : start_ok UI run_hook hooked cfg) (vgrow : nat -> nat).
Context (run_msg : V -> option (list byte) -> Z -> Z -> Z -> option V -> Net -> res Net).
Context (run_task : V * option V -> Worker -> res Worker).
Context (grow : nat) (eff : V -> option V -> frame -> Z -> U -> U -> list byte -> Prop).
Context (Hhook : hook_ok UI run_hook hooked) (Hmsg : msg_ok UI run_msg grow eff).
Local Abbreviation threads_inv := (threads_inv UI cfg lim lfd busy).
Local Abbreviation threads_with := (threads_with UI cfg lim lfd busy).
Local Abbreviation thread_step := (thread_step run_msg run_hook vgrow run_task lfd).
Local Abbreviation thread_steps := (thread_steps run_msg run_hook vgrow run_task lfd).
Local Abbreviation tstep := (tstep cfg eff hooked (lim - 3)).
Local Abbreviation tsteps := (tsteps cfg eff hooked (lim - 3)).
Local Abbreviation item_fits := (item_fits (lim - 3) grow ba_max lim busy).
Local Abbreviation all_items_fit := (all_items_fit cfg eff hooked (lim - 3) grow ba_max lim busy).
Local Abbreviation let_in := (let_in (lim - 3)).
Local Abbreviation let_all_in := (let_all_in (lim - 3)).
Local Abbreviation accept_fits := (accept_fits (lim - 3) lim busy).

(** What items make of both. *)
Definition advance (R : Serve U -> list (Z * frame) -> list (Z * list byte) -> Prop)
    (s s' : Threads) : Prop :=
  exists T' cs sn, R T' cs sn /\ threads_inv T' s' /\
    th_calls s' = th_calls s ++ cs /\ th_sent s' = th_sent s ++ sn.

Lemma event_step_ok T s i e :
  threads_inv T s -> item_fits T (SEvent i e) ->
  exits_or (thread_step (SEvent i e) s) (advance (tstep T (SEvent i e)) s).
Proof.
  intros Hs (C & W & Hi & Hf).
  destruct (threads_focus _ _ _ _ _ T s i C W (answer_of e) Hs Hi)
    as (wk & O & Hat & Hin & Ecs & Esn & Hwk & Hput).
  unfold ServerThreads.thread_step. rewrite Hat. cbn [mbind res_bind].
  rewrite <- (app_nil_r (answer_of e)) in Hin.
  pose proof (event_ok K run_hook UI cfg lim (qfd_at i s) hooked O Hstart vgrow run_msg grow eff
    Hhook
    Hmsg _ e wk [] Hwk Hin Hf) as Hr.
  destruct (fired_of (qfd_at i s) e) as [fd m]. cbn [fst snd] in Hr.
  eapply exits_or_bind; [exact Hr|]. intros wk' ([C' W' u'] & cs & sn & Hst & Hwk' & _ & Ec & Es).
  destruct (sstep_own _ _ _ _ _ _ _ _ Hst) as [Hown HW]. cbn [s_conns s_waiting] in Hown, HW.
  cbn. exists (mkServe (<[i := (C', W')]> (ts_workers T)) u' (ts_next T)), cs, sn.
  split; [destruct T; by eapply ts_event|]. split; [by apply Hput|]. cbn.
  by rewrite Ec, Es, Ecs, Esn.
Qed.

Lemma tasks_step_ok T s i :
  threads_inv T s -> item_fits T (STasks i) ->
  exits_or (thread_step (STasks i) s) (advance (tstep T (STasks i)) s).
Proof.
  intros Hs Hf. cbn in Hf. destruct (lookup_lt_is_Some_2 _ _ Hf) as [[C W] Hi].
  destruct (threads_focus _ _ _ _ _ T s i C W [] Hs Hi)
    as (wk & O & Hat & Hin & Ecs & Esn & Hwk & Hput).
  unfold ServerThreads.thread_step. rewrite Hat. cbn [mbind res_bind].
  destruct (tasks_ok UI cfg lim (qfd_at i s) O run_task _ wk Hwk) as (wk' & -> & Hwk' & Ec & Es).
  cbn. exists T, [], []. split; [constructor|]. rewrite !app_nil_r.
  split; [|unfold put_thread; cbn [th_calls th_sent]; by rewrite Ec, Es, Ecs, Esn].
  replace T with (mkServe (<[i := (C, W)]> (ts_workers T)) (ts_user T) (ts_next T)).
  - apply Hput; [done| |done]. by left.
  - rewrite list_insert_id by done. by destruct T.
Qed.

(** *** Accepting *)

Lemma full_ok A T (s : Threads) :
  threads_with A T s ->
  full (lim - 3) T = (_max_conns (nt_srv (th_net s)) <=? get_conn_num (nt_srv (th_net s))).
Proof.
  intros I. pose proof (ti_all _ _ _ _ _ _ _ _ I) as IA. unfold full, get_conn_num.
  rewrite <- (ti_view _ _ _ _ _ _ _ _ I), (tb_count _ (nv_table _ _ _ _ _ IA)).
  rewrite (nv_listed _ _ _ _ _ IA), size_dom. unfold view_of. rewrite map_size_fmap.
  pose proof (nv_lim _ _ _ _ _ IA) as Hl. unfold conns_size in Hl. f_equal. lia.
Qed.

(** The worker whose turn it is gets the descriptor. *)
Lemma spec_ok_push fd (T : Serve U) :
  spec_ok lim busy T -> 0 <= fd < lim -> fd ∉ busy -> ~ in_use fd T ->
  spec_ok lim busy (mkServe (alter (prod_map id (fun W => W ++ [fd])) (ts_next T) (ts_workers T))
    (ts_user T) (if decide (S (ts_next T) = length (ts_workers T)) then 0%nat else S (ts_next T))).
Proof.
  intros [Hone Hw Hn] Hr Hb Hu. set (ws := alter _ _ _).
  assert (Hws : forall j C W, ws !! j = Some (C, W) -> exists W0,
    ts_workers T !! j = Some (C, W0) /\ (W = W0 \/ j = ts_next T /\ W = W0 ++ [fd])).
  { intros j C W. unfold ws. rewrite list_lookup_alter. case_decide as Hj.
    - rewrite Hj. destruct (ts_workers T !! j) as [[C0 W0]|]; cbn; [|done]. intros [= -> <-].
      exists W0. split; [done|]. by right.
    - intros E1. exists W. split; [done|by left]. }
  assert (Hhas : forall j x, has j x (mkServe ws (ts_user T) (ts_next T)) ->
    has j x T \/ j = ts_next T /\ x = fd).
  { intros j x (C & W & (W0 & HW0 & HW)%Hws & Hx). destruct HW as [->|[-> ->]].
    - left. by exists C, W0.
    - destruct Hx as [Hx|[Hx|Hx%list_elem_of_singleton]%elem_of_app]; [left|left|by right];
        exists C, W0; (split; [done|]); [by left|by right]. }
  split; cbn [ts_workers ts_next].
  - intros x j k [Hj|[-> ->]]%Hhas [Hk|[-> Hx]]%Hhas; [by apply (Hone x)|..|done];
      subst; exfalso; apply Hu; by eexists.
  - intros j C W (W0 & HW0 & HW)%Hws. destruct (Hw _ _ _ HW0) as [Hnd Hw0].
    destruct HW as [->|[-> ->]]; [done|]. split.
    + apply NoDup_app. split; [done|]. split; [|by apply NoDup_singleton].
      intros y Hy ->%list_elem_of_singleton. apply Hu. exists (ts_next T), C, W0. by auto.
    + intros y [Hy| ->%list_elem_of_singleton]%elem_of_app; [by apply Hw0|]. split; [|done].
      apply eq_None_not_Some. intros Hy. apply Hu. exists (ts_next T), C, W0. by auto.
  - unfold ws. rewrite length_alter. destruct (decide _); lia.
Qed.

Lemma threads_push fd T (s : Threads) :
  threads_inv T s -> full (lim - 3) T = false -> 0 <= fd < lim -> fd ∉ busy -> ~ in_use fd T ->
  exists tp, get_thread (th_pool s) = Ret (Z.of_nat (ts_next T), tp) /\
    threads_inv (let_in fd T) (mkThreads (th_net s)
      (send_to (Z.of_nat (ts_next T)) (NEW_CONN fd) tp) (th_threads s) (th_calls s) (th_sent s)).
Proof.
  intros [A I] Hfull Hr Hb Hu. pose proof (ti_pool _ _ _ _ _ _ _ _ I) as Hp.
  pose proof (ti_len _ _ _ _ _ _ _ _ I) as Hlen. pose proof (ti_next _ _ _ _ _ _ _ _ I) as Hx.
  pose proof (ti_spec _ _ _ _ _ _ _ _ I) as Hsp. pose proof (so_next _ _ _ Hsp) as Hn.
  destruct (get_thread_ok _ Hp) as (tp & Hg & Hp' & Eq & Ec & Ei). rewrite Hx in Hg, Ei.
  exists tp. split; [done|]. exists A. unfold ServerThreads.let_in. rewrite Hfull.
  assert (Ecnt : _thread_cnt (th_pool s) = Z.of_nat (length (ts_workers T))).
  { rewrite (tp_cnt _ Hp). by rewrite Hlen. }
  split; cbn [th_net th_pool th_threads ts_workers ts_user ts_next send_to _queues _index
    _thread_cnt]; try apply I.
  - rewrite (ti_view _ _ _ _ _ _ _ _ I). unfold all_conns. cbn [ts_workers]. by rewrite alter_fst.
  - by apply spec_ok_push.
  - intros j C W Hj. rewrite list_lookup_alter in Hj. case_decide as Hjn.
    + rewrite Hjn in Hj. destruct (ts_workers T !! j) as [[C0 W0]|] eqn:E1; cbn in Hj; [|done].
      injection Hj as -> <-.
      destruct (ti_worker _ _ _ _ _ _ _ _ I _ _ _ E1)
        as (M & t & q & Ht & Hq & HM & HC & IM & Eqq & Hbq).
      exists M, t, (send (NEW_CONN fd) q). cbn [th_threads th_pool _queues send_to queue send].
      split_and!; try done.
      * by rewrite Nat2Z.id, Hjn, list_lookup_alter_eq, Eq, Hq.
      * by rewrite Eqq, fmap_app.
    + destruct (ti_worker _ _ _ _ _ _ _ _ I _ _ _ Hj)
        as (M & t & q & Ht & Hq & HM & HC & IM & Eqq & Hbq).
      exists M, t, q. cbn [th_threads th_pool _queues send_to]. split_and!; try done.
      rewrite Nat2Z.id, list_lookup_alter_ne by done. by rewrite Eq.
  - destruct Hp'. split; cbn; by rewrite ?length_alter.
  - by rewrite !length_alter, Eq.
  - rewrite Ei, Ecnt. case_decide as Hd.
    + rewrite <- Hd. replace (Z.of_nat (ts_next T) + 1) with (Z.of_nat (S (ts_next T))) by lia.
      by rewrite Z.mod_same by lia.
    + rewrite Z.mod_small by lia. lia.
Qed.

Lemma do_accept_threads answers : forall T (s : Threads),
  threads_inv T s -> accept_fits answers T ->
  exits_or (do_accept run_hook answers (PoolSet (th_pool s)) (th_net s)) (fun '(p, w) =>
    exists tp, p = PoolSet tp /\
    threads_inv (let_all_in answers T) (mkThreads w tp (th_threads s) (th_calls s) (th_sent s))).
Proof.
  induction answers as [|[fd|[]] answers IH]; intros T s Hs Hf;
    cbn [ServerThreads.accept_fits do_accept ServerThreads.let_all_in] in *; try done.
  - destruct Hf as (Hr & Hb & Hu & Hf). destruct Hs as [A I]. rewrite <- (full_ok A T s I).
    unfold ServerThreads.let_in in Hf |- *. destruct (full (lim - 3) T) eqn:Hfull.
    + apply (IH T (set_thnet (close_fd fd (th_net s)) s)); [|done]. exists A. destruct I.
      split; try done. destruct ti_all0. by split.
    + destruct (threads_push fd T s) as (tp & -> & Hs'); try done; [by exists A|by apply Hr|].
      cbn [mbind res_bind]. unfold ServerThreads.let_in in Hs'. rewrite Hfull in Hs'.
      exact (IH _ _ Hs' Hf).
  - by apply IH.
  - subst. cbn. exists (th_pool s). by destruct s.
  - by apply IH.
Qed.

Lemma accept_step_ok T s m answers :
  threads_inv T s -> item_fits T (SAccept m answers) ->
  exits_or (thread_step (SAccept m answers) s) (advance (tstep T (SAccept m answers)) s).
Proof.
  intros Hs [Hm Hf]. pose proof (do_accept_threads answers T s Hs Hf) as Hacc.
  destruct Hs as [A I]. destruct (ti_main _ _ _ _ _ _ _ _ I) as (ev & Hev & Hcb & Harg).
  cbn [ServerThreads.thread_step]. unfold dispatch. unfold th_loop in Hev |- *.
  rewrite Hev, Hcb, Harg.
  unfold is_read, has_in, has_out in Hm.
  assert (Ec : exits_or (main_cb run_hook answers accept_callback lfd (Some arg_server) s)
    (advance (tstep T (SAccept m answers)) s)).
  { unfold main_cb. eapply exits_or_bind; [exact Hacc|]. intros [p w] (tp & -> & Hs').
    exists (let_all_in answers T), [], []. split; [constructor|]. by rewrite !app_nil_r. }
  destruct (negb (Z.land m EPOLLIN =? 0)); [done|]. cbn [orb] in Hm.
  destruct (negb (Z.land m EPOLLOUT =? 0)); [done|]. cbn [negb andb] in Hm. by rewrite Hm.
Qed.

Lemma step_ok T s it :
  threads_inv T s -> item_fits T it -> exits_or (thread_step it s) (advance (tstep T it) s).
Proof.
  destruct it; [apply event_step_ok|apply tasks_step_ok|apply accept_step_ok].
Qed.

(** What holds of an empty run, and of a run with one more step in front, holds of
    what the server does. *)
Lemma steps_ok_ind (R : Serve U -> list th_item -> Serve U -> list (Z * frame) ->
    list (Z * list byte) -> Prop) :
  (forall T, R T [] T [] []) ->
  (forall (T : Serve U) (s : Threads) it T1 (s1 : Threads) cs1 sn1 its T2 cs2 sn2,
     threads_inv T s -> threads_inv T1 s1 ->
     tstep T it T1 cs1 sn1 -> R T1 its T2 cs2 sn2 ->
     R T (it :: its) T2 (cs1 ++ cs2) (sn1 ++ sn2)) ->
  forall its T s, threads_inv T s -> all_items_fit its T ->
    exits_or (thread_steps its s) (advance (R T its) s).
Proof.
  intros Hnil Hcons. induction its as [|it its IH]; intros T s Hs Hf;
    cbn [ServerThreads.thread_steps].
  { exists T, [], []. by rewrite !app_nil_r. }
  destruct Hf as [Hit Hf]. eapply exits_or_bind; [by apply step_ok|].
  intros s1 (T1 & cs1 & sn1 & Hst & Hs1 & Ec1 & Es1).
  eapply exits_or_mono; [by apply (IH T1 s1 Hs1), (Hf _ _ _ Hst)|].
  intros s2 (T2 & cs2 & sn2 & HR & Hs2 & Ec2 & Es2). exists T2, (cs1 ++ cs2), (sn1 ++ sn2).
  split; [by apply (Hcons T s it T1 s1)|].
  split; [done|by rewrite Ec2, Ec1, Es2, Es1, !app_assoc].
Qed.

(** A run, and what it makes of each connection. *)
Definition run_of (T : Serve U) (its : list th_item) (T' : Serve U) (cs : list (Z * frame))
    (sn : list (Z * list byte)) : Prop :=
  tsteps T its T' cs sn /\ forall fd, Forall (th_quiet fd) its ->
    alone cfg eff fd (th_stream fd its) (conn_all fd T) (conn_all fd T') cs sn.

Lemma steps_ok its : forall T s,
  threads_inv T s -> all_items_fit its T ->
  exits_or (thread_steps its s) (advance (run_of T its) s).
Proof.
  apply (steps_ok_ind run_of).
  - intros T. split; [constructor|]. intros fd _. apply alone_nil.
  - intros T s it T1 s1 cs1 sn1 its' T2 cs2 sn2 [A I] [A1 I1] Hst [Hsts Ha].
    split; [by econstructor|]. intros fd [Hq Hqs]%Forall_cons.
    apply (alone_app _ _ _ (th_data fd it) _ _ (conn_all fd T1)); [|by apply Ha].
    apply (tstep_alone _ _ _ lim (lim - 3) busy _ _ _ _ _ _ Hst); [by apply I|by apply I1|done].
Qed.

(** C3. The server with all its threads, for an application whose handlers and
    hooks meet their contracts ([msg_ok], [hook_ok], [start_ok]), and as long as
    what happens is of the following kind ([all_items_fit]). A descriptor that
    [accept] returns is not one that the process uses already, and has a place
    in the table, that is, it is below [maxConn] + 3, unless it is refused (the
    code does not look, and writes behind the table with a larger one). The
    events of a worker are on its queue and its connections and are readable or
    writable; the bytes that a connection receives, with what is kept of before,
    fit into the pool's largest buffer (8 MB), and so does its output with
    [grow] bytes for each message in them and once more, [grow] being what a
    handler may add; and no input ends with a message without a body (one such
    ends the process, C32). Then, from a state in which the workers' connections
    are in order, for every such interleaving of the accepting thread and the
    workers, callback by callback, the server does not fail, except that it
    exits when the pool's memory is used up or when [accept] fails with an error
    other than [EINTR], [EMFILE] and [EAGAIN]; and it is a run of the
    specification: descriptors are dealt to the workers in turn, and refused
    while there are [maxConn] connections, and each worker serves the
    connections it was given as [worker_refines] says, on the state of the
    application that all of them share. *)
Theorem server_refines its T s :
  threads_inv T s -> all_items_fit its T ->
  exits_or (thread_steps its s) (fun s' => exists T' cs sn,
    tsteps T its T' cs sn /\ threads_inv T' s' /\
    th_calls s' = th_calls s ++ cs /\ th_sent s' = th_sent s ++ sn).
Proof.
  intros Hs Hf. eapply exits_or_mono; [by apply steps_ok|].
  intros s' (T' & cs & sn & [Hst _] & Hr). by exists T', cs, sn.
Qed.

(** C4. Connections of different workers do not disturb one another either. In a
    run under the conditions of C3 ([all_items_fit], which bind all clients:
    descriptors with a place in the table, buffers of at most 8 MB, no input of
    any connection that ends with an empty message), take a connection that is
    not ended from outside and to which no write fails, and in whose stream
    every complete message has a body. It is served by its own bytes alone,
    whichever worker has it: the complete messages in them are handled once each
    and in order, the rest is kept, and what is sent and pending is what was
    pending and the answers. (As in C3 the process may exit, when the pool's
    memory is used up or [accept] fails.) *)
Theorem server_connections_independent its T s :
  threads_inv T s -> all_items_fit its T ->
  exits_or (thread_steps its s) (fun s' => exists T' cs sn,
    th_calls s' = th_calls s ++ cs /\ th_sent s' = th_sent s ++ sn /\ threads_inv T' s' /\
    forall fd i o fs r, Forall (th_quiet fd) its ->
      conn_all fd T = (i, o) -> parse i = ([], More i) ->
      parse (i ++ th_stream fd its) = (fs, More r) -> Forall (fun f => f_data f <> []) fs ->
      of_fd fd cs = fs /\ exists o' out, conn_all fd T' = (r, o') /\
        answered cfg eff fd fs out /\ concat (of_fd fd sn) ++ o' = o ++ out).
Proof.
  intros Hs Hf. eapply exits_or_mono; [by apply steps_ok|].
  intros s' (T' & cs & sn & [_ Ha] & Hs' & Ec & Es). exists T', cs, sn. do 3 (split; [done|]).
  intros fd i o fs r Hq Hc Hi Hp Hne. by apply (Ha fd Hq i o fs r).
Qed.
End Refinement.

(** ** Witnesses: two echo workers *)

Import TableKernel CounterFd.

Local Abbreviation DemoThreads := (Threads BufPool (gmap Z Z) unit unit N unit).

(** Two workers, with queues on the descriptors 4 and 5, and the listening
    socket on 3. *)
Definition duo_net : Net BufPool (gmap Z Z) unit unit :=
  set_ntloop (add_io_event 3 accept_callback EPOLLIN (Some arg_server) (EventLoop_new ∅)) loop_net.
Definition duo_pool : ThreadPool (TaskMsg unit (option unit)) N unit :=
  mkThreadPool [ThreadQueue_new 4%N; ThreadQueue_new 5%N] 2 0.
Definition duo_threads : DemoThreads := start_threads Z.of_N [∅; ∅] duo_pool duo_net.

Lemma duo_inv :
  threads_inv demo_ui loop_cfg 13 3 {[4; 5]} (serve_start 2 tt) duo_threads.
Proof.
  apply (start_threads_ok table_accepts demo_ui loop_cfg 13 3 {[4; 5]} Z.of_N [∅; ∅] duo_pool
    duo_net ∅); try done.
  - repeat constructor.
  - apply Forall_cons; split; [vm_compute; set_solver|]. apply Forall_singleton. vm_compute.
    set_solver.
  - by repeat constructor.
  - exact (BufPool_new_view _ init_pool_eq).
  - by eexists.
Qed.

(** Two clients, one for each worker; the message of the first is cut by the
    whole one of the second. *)
Definition duo_items : list th_item :=
  [SAccept 1 [AccFd 7; AccErr EINTR; AccFd 8; AccErr EAGAIN]; SEvent 0 (ENew 1); SEvent 1 (ENew 1);
   SEvent 0 (EData 7 1 (take 5 loop_data) []); SEvent 1 (EData 8 1 loop_data []); STasks 1;
   SEvent 0 (EData 7 1 (drop 5 loop_data) [])].

Section Inversion.
Context {V U : Type} (cfg : option V * option V * MsgRouter V V)
  (eff : V -> option V -> frame -> Z -> U -> U -> list byte -> Prop)
  (hooked : V -> Z -> U -> U -> Prop) (max_conns : Z).

Lemma tstep_event_inv ws (u : U) n i e T' cs sn C W :
  tstep cfg eff hooked max_conns (mkServe ws u n) (SEvent i e) T' cs sn -> ws !! i = Some (C, W) ->
  exists S', sstep cfg eff hooked (mkServing C W u) e S' cs sn /\
    T' = mkServe (<[i := (s_conns S', s_waiting S')]> ws) (s_user S') n.
Proof.
  intros Hst Hi. inversion Hst as [? ? ? ? ? C0 W0 C' W' u' ? ? Hi0 Hs| |]; subst.
  rewrite Hi in Hi0. injection Hi0 as -> ->. by exists (mkServing C' W' u').
Qed.

Lemma sstep_new_inv C W (u : U) m S' cs sn :
  sstep cfg eff hooked (mkServing C W u) (ENew m) S' cs sn ->
  exists u', S' = mkServing (C ∪ list_to_map ((fun fd => (fd, ([], []))) <$> W)) [] u'.
Proof. intros Hst. inversion Hst; subst. by eexists. Qed.

(** A piece of a message is kept. *)
Lemma sstep_part_inv C W (u : U) fd m data rs S' cs sn i o r :
  sstep cfg eff hooked (mkServing C W u) (EData fd m data rs) S' cs sn -> C !! fd = Some (i, o) ->
  parse (i ++ data) = ([], More r) -> S' = mkServing (<[fd := (r, o)]> C) W u.
Proof.
  intros Hst Hc Hp. inversion Hst as [|? ? ? ? ? ? ? ? i0 o0 fs r0 out Hc0 Hp0 Hsv
    |? ? ? ? ? ? ? ? ? i0 o0 fs ? Hc0 Hp0| | |]; subst; rewrite Hc in Hc0; injection Hc0 as <- <-;
    rewrite Hp in Hp0; [|done]. injection Hp0 as <- <-. inversion Hsv; subst.
  by rewrite app_nil_r.
Qed.

(** Other workers keep what they have. *)
Lemma tstep_other T i e T' cs sn j CW :
  tstep cfg eff hooked max_conns T (SEvent i e) T' cs sn -> i <> j -> ts_workers T !! j = Some CW ->
  ts_workers T' !! j = Some CW.
Proof.
  intros Hst Hne Hj. inversion Hst; subst. cbn in *. by rewrite list_lookup_insert_ne.
Qed.

(** One connection of a worker: it is opened, and part of a message comes. *)
Lemma tstep_new T i fd m T' cs sn :
  ts_workers T !! i = Some (∅, [fd]) -> tstep cfg eff hooked max_conns T (SEvent i (ENew m)) T' cs
    sn ->
  ts_workers T' !! i = Some ({[fd := ([], [])]}, []).
Proof.
  destruct T as [ws u n]. intros Hi Hst.
  destruct (tstep_event_inv _ _ _ _ _ _ _ _ _ _ Hst Hi) as (S' & Hs & ->).
  destruct (sstep_new_inv _ _ _ _ _ _ _ Hs) as [u' ->]. cbn.
  rewrite (left_id_L ∅ (∪)). apply list_lookup_insert_eq, (lookup_lt_Some _ _ _ Hi).
Qed.

Lemma tstep_part T i fd m data rs T' cs sn ib r :
  tstep cfg eff hooked max_conns T (SEvent i (EData fd m data rs)) T' cs sn ->
  ts_workers T !! i = Some ({[fd := (ib, [])]}, []) -> parse (ib ++ data) = ([], More r) ->
  ts_workers T' !! i = Some ({[fd := (r, [])]}, []).
Proof.
  destruct T as [ws u n]. intros Hst Hi Hp.
  destruct (tstep_event_inv _ _ _ _ _ _ _ _ _ _ Hst Hi) as (S' & Hs & ->).
  rewrite (sstep_part_inv _ _ _ _ _ _ _ _ _ _ ib [] r Hs) by (done || apply lookup_singleton_eq).
  cbn. rewrite insert_singleton_eq. apply list_lookup_insert_eq, (lookup_lt_Some _ _ _ Hi).
Qed.

Context (grow : nat) (room lim : Z) (busy : gset Z).

Lemma fits_new T i C W m :
  ts_workers T !! i = Some (C, W) -> is_read m = true ->
  item_fits (U := U) max_conns grow room lim busy T (SEvent i (ENew m)).
Proof. intros Hi. by exists C, W. Qed.

Lemma fits_data T i fd m ib data :
  ts_workers T !! i = Some ({[fd := (ib, [])]}, []) -> is_read m = true -> data <> [] ->
  Z.of_nat (length ib + length data) <= room ->
  (let '(fs, t) := parse (ib ++ data) in
   Z.of_nat (grow * S (length fs)) <= room /\ match t with EmptyAtEnd _ => False | _ => True end) ->
  item_fits (U := U) max_conns grow room lim busy T (SEvent i (EData fd m data [])).
Proof.
  intros Hi Hm Hne Hlen Hp. exists {[fd := (ib, [])]}, []. split; [done|]. split; [done|].
  split; [done|]. exists ib, []. split; [apply lookup_singleton_eq|]. split; [done|].
  destruct (parse _). exact Hp.
Qed.
End Inversion.

(** A descriptor that neither has nor waits *)
Lemma not_in_use {U : Type} fd (T : Serve U) :
  (forall i C W, ts_workers T !! i = Some (C, W) -> C = ∅ /\ fd ∉ W) -> ~ in_use fd T.
Proof.
  intros HT (i & C & W & Hi & Hu). destruct (HT _ _ _ Hi) as [-> Hw].
  destruct Hu as [[? Hu]|]; [by rewrite lookup_empty in Hu|done].
Qed.

Lemma duo_accept :
  let_all_in 10 [AccFd 7; AccErr EINTR; AccFd 8; AccErr EAGAIN] (serve_start 2 tt) =
    mkServe [(∅, [7]); (∅, [8])] tt 0.
Proof. vm_compute. reflexivity. Qed.

Lemma duo_items_fit :
  all_items_fit loop_cfg demo_eff demo_hooked 10 (Z.to_nat 65535) m8M 13 {[4; 5]} duo_items
    (serve_start 2 tt).
Proof.
  cbn [all_items_fit duo_items]. split.
  { split; [done|]. cbn [accept_fits]. split_and!; try lia; try set_solver; apply not_in_use.
    - intros i C W [[= -> ->] _]%lookup_replicate. split; [done|apply not_elem_of_nil].
    - intros [|[|i]] C W; vm_compute; intros [= <- <-]; (split; [done|]); set_solver. }
  intros T1 cs1 sn1 Hst1. inversion Hst1; subst. clear Hst1. rewrite duo_accept.
  split; [by apply (fits_new _ _ _ _ _ _ _ ∅ [7])|]. intros T2 cs2 sn2 Hst2.
  pose proof (tstep_new _ _ _ _ (mkServe [(∅, [7]); (∅, [8])] tt 0) 0 7 _ _ _ _ eq_refl Hst2) as
    H20.
  pose proof (tstep_other _ _ _ _ _ _ _ _ _ _ 1 (∅, [8]) Hst2 ltac:(done) eq_refl) as H21.
  split; [by apply (fits_new _ _ _ _ _ _ _ ∅ [8])|]. intros T3 cs3 sn3 Hst3.
  pose proof (tstep_new _ _ _ _ _ 1 8 _ _ _ _ H21 Hst3) as H31.
  pose proof (tstep_other _ _ _ _ _ _ _ _ _ _ 0 _ Hst3 ltac:(done) H20) as H30.
  split; [apply (fits_data _ _ _ _ _ _ _ _ _ _ _ H30); vm_compute; try split; done|].
  intros T4 cs4 sn4 Hst4.
  pose proof (tstep_other _ _ _ _ _ _ _ _ _ _ 1 _ Hst4 ltac:(done) H31) as H41.
  pose proof (tstep_part _ _ _ _ _ _ _ _ _ _ _ _ _ _ (take 5 loop_data) Hst4 H30 eq_refl) as H40.
  split; [apply (fits_data _ _ _ _ _ _ _ _ _ _ _ H41); vm_compute; try split; done|].
  intros T5 cs5 sn5 Hst5.
  pose proof (tstep_other _ _ _ _ _ _ _ _ _ _ 0 _ Hst5 ltac:(done) H40) as H50.
  split.
  { destruct T4 as [ws u n].
    destruct (tstep_event_inv _ _ _ _ _ _ _ _ _ _ _ _ _ _ Hst5 H41) as (S' & _ & ->). cbn.
    rewrite length_insert. apply (lookup_lt_Some _ _ _ H41). }
  intros T6 cs6 sn6 Hst6. inversion Hst6; subst.
  split; [apply (fits_data _ _ _ _ _ _ _ _ _ _ _ H50); vm_compute; try split; done|done].
Qed.

Definition duo_task (t : unit * option unit) (wk : Worker BufPool (gmap Z Z) unit unit N unit)
    : res (Worker BufPool (gmap Z Z) unit unit N unit) := Ret wk.

Lemma server_refines_witness :
  exits_or (thread_steps demo_echo demo_hook S duo_task 3 duo_items duo_threads) (fun s' =>
    exists T' cs sn,
      tsteps loop_cfg demo_eff demo_hooked 10 (serve_start 2 tt) duo_items T' cs sn /\
      threads_inv demo_ui loop_cfg 13 3 {[4; 5]} T' s' /\ th_calls s' = cs /\ th_sent s' = sn).
Proof.
  exact (server_refines table_accepts demo_hook demo_ui loop_cfg 13 3 {[4; 5]} demo_hooked
    loop_start_ok S
    demo_echo duo_task (Z.to_nat 65535) demo_eff demo_hook_ok demo_echo_ok duo_items
    (serve_start 2 tt) duo_threads duo_inv duo_items_fit).
Defined.

(** The message of each client is handled by its worker. *)
Lemma server_connections_independent_witness :
  exits_or (thread_steps demo_echo demo_hook S duo_task 3 duo_items duo_threads) (fun s' =>
    of_fd 7 (th_calls s') = [mkFrame 1 [x41]] /\ of_fd 8 (th_calls s') = [mkFrame 1 [x41]]).
Proof.
  eapply exits_or_mono.
  - exact (server_connections_independent table_accepts demo_hook demo_ui loop_cfg 13 3 {[4; 5]}
      demo_hooked loop_start_ok S demo_echo duo_task (Z.to_nat 65535) demo_eff demo_hook_ok
        demo_echo_ok
      duo_items (serve_start 2 tt) duo_threads duo_inv duo_items_fit).
  - intros s' (T' & cs & sn & Ec & _ & _ & Hind). rewrite Ec. cbn [app].
    split; [apply (Hind 7 [] [] [mkFrame 1 [x41]] [])|apply (Hind 8 [] [] [mkFrame 1 [x41]] [])];
      try done; by repeat constructor.
Defined.

(** The run itself: the memory suffices, and the whole message comes first. *)
Lemma duo_runs :
  (th_calls <$> thread_steps demo_echo demo_hook S duo_task 3 duo_items duo_threads) =
    Ret [(8, mkFrame 1 [x41]); (7, mkFrame 1 [x41])].
Proof. vm_compute. reflexivity. Qed.
