(* ===== verification/TcpClient.v ===== *)
(** * TCPClient: a reconnecting client (reactor/include/tcp_client.h,
    reactor/src/tcp_client.cpp)

    The client owns two buffers of 4 MB.  [connect(2)] and [socket(2)] answer
    from a script, one entry for each [do_connect]; message handlers and hooks
    are parameters. *)

From S2P Require Import Prelude CInt Mem IOBuf ReactorBuf Message.
From S2P Require Import EventLoop NetState Framing TcpConnInv.
From Stdlib Require Import Strings.Byte.
Local Open Scope Z_scope.

Definition CLIENT_BUF : Z := 4194304.

(** The answers of [socket] ([None] for -1) and of [connect]. *)
Inductive conn_ans : Type := ConnOk | ConnErr (e : errno).
Definition sock_ans : Type := option Z * conn_ans.

Section TcpClient.
Context {E V U : Type} `{Epoll E}.

Record TCPClient : Type := mkClient {
  connected : option bool;      (** [None]: not initialised *)
  _obuf : IOBuf;
  _ibuf : IOBuf;
  _sockfd : Z;
  _conn_start_cb : option V;
  _conn_close_cb : option V;
  _router : MsgRouter V V
}.

(** The client, its loop, the calls of [close] so far, the application. *)
Record Cli : Type := mkCli {
  cl : TCPClient;
  cl_loop : EventLoop (io_cb V) (io_arg V) (V * option V) E;
  cl_closes : list Z;
  cl_user : U
}.

Definition set_cl (c : TCPClient) (w : Cli) : Cli :=
  mkCli c (cl_loop w) (cl_closes w) (cl_user w).
Definition set_cloop (l : EventLoop (io_cb V) (io_arg V) (V * option V) E) (w : Cli) : Cli :=
  mkCli (cl w) l (cl_closes w) (cl_user w).
Definition set_cuser (u : U) (w : Cli) : Cli := mkCli (cl w) (cl_loop w) (cl_closes w) u.
Definition cl_close (fd : Z) (w : Cli) : Cli :=
  mkCli (cl w) (cl_loop w) (cl_closes w ++ [fd]) (cl_user w).
Definition set_connected (b : bool) (w : Cli) : Cli :=
  let c := cl w in
  set_cl (mkClient (Some b) (_obuf c) (_ibuf c) (_sockfd c) (_conn_start_cb c)
            (_conn_close_cb c) (_router c)) w.
Definition set_sockfd (fd : Z) (w : Cli) : Cli :=
  let c := cl w in
  set_cl (mkClient (connected c) (_obuf c) (_ibuf c) fd (_conn_start_cb c)
            (_conn_close_cb c) (_router c)) w.
Definition set_obuf (b : IOBuf) (w : Cli) : Cli :=
  let c := cl w in
  set_cl (mkClient (connected c) b (_ibuf c) (_sockfd c) (_conn_start_cb c)
            (_conn_close_cb c) (_router c)) w.
Definition set_ibuf (b : IOBuf) (w : Cli) : Cli :=
  let c := cl w in
  set_cl (mkClient (connected c) (_obuf c) b (_sockfd c) (_conn_start_cb c)
            (_conn_close_cb c) (_router c)) w.

(** [cb(data, len, msgid, conn, args)]; [data] holds the [len] bytes behind the
    pointer, [None] when they are not all initialised bytes of the buffer. *)
Variable run_msg : V -> option (list byte) -> Z -> Z -> option V -> Cli -> res Cli.
Variable run_hook : V -> Cli -> res Cli.

Definition run_chook (h : option V) (w : Cli) : res Cli :=
  match h with Some h => run_hook h w | None => Ret w end.

Definition watch_cli (fd : Z) (cb : io_cb V) (m : Z) (w : Cli) : Cli :=
  set_cloop (add_io_event fd cb m (Some arg_client) (cl_loop w)) w.

(** ** Connecting *)

(** The end of [do_connect] and of [connection_delay]. *)
Definition watch_connected (fd : Z) (w : Cli) : Cli :=
  let w := watch_cli fd cli_read_callback EPOLLIN w in
  if negb (io_length (_obuf (cl w)) =? 0)
  then watch_cli fd cli_write_callback EPOLLOUT w else w.

Definition do_connect (a : sock_ans) (w : Cli) : res Cli :=
  let w := if negb (_sockfd (cl w) =? -1) then cl_close (_sockfd (cl w)) w else w in
  match a with
  | (None, _) => Fault ExitFail
  | (Some fd, r) =>
      let w := set_sockfd fd w in
      match r with
      | ConnOk =>
          let w := set_connected true w in
          w ← run_chook (_conn_start_cb (cl w)) w;
          Ret (watch_connected (_sockfd (cl w)) w)
      | ConnErr EINPROGRESS => Ret (watch_cli fd cli_connection_delay EPOLLOUT w)
      | ConnErr _ => Fault ExitFail
      end
  end.

(** [connection_delay(loop, fd, cli)]; [result] is the [SO_ERROR] of [fd]. *)
Definition connection_delay (fd result : Z) (w : Cli) : res Cli :=
  let w := set_cloop (del_io_event fd (cl_loop w)) w in
  if result =? 0 then
    let w := set_connected true w in
    w ← run_chook (_conn_start_cb (cl w)) w;
    Ret (watch_connected fd w)
  else Ret w.

(** [TCPClient(loop, ip, port, name)] *)
Definition TCPClient_new (l : EventLoop (io_cb V) (io_arg V) (V * option V) E) (u : U)
    (a : sock_ans) : res Cli :=
  do_connect a (mkCli (mkClient None (IOBuf_new CLIENT_BUF) (IOBuf_new CLIENT_BUF) (-1)
                         None None MsgRouter_new) l [] u).

Definition clean_conn (a : sock_ans) (w : Cli) : res Cli :=
  let w := if negb (_sockfd (cl w) =? -1)
           then cl_close (_sockfd (cl w))
                  (set_cloop (del_io_event (_sockfd (cl w)) (cl_loop w)) w)
           else w in
  let w := set_connected false w in
  w ← run_chook (_conn_close_cb (cl w)) w;
  do_connect a w.

(** ** Reading *)

(** What the handler finds at [_ibuf.data + _ibuf.head]. *)
Definition cli_data (len : Z) (w : Cli) : option (list byte) :=
  let b := _ibuf (cl w) in
  if in_array (io_capacity b) (io_head b) (u32 len)
  then mread (io_data b) (io_head b) (Z.to_nat (u32 len)) else None.

(** [_router.call(msgid, length, _ibuf.data + _ibuf.head, this)] *)
Definition cli_call (id len : Z) (w : Cli) : res Cli :=
  match call id (_router (cl w)) with
  | None => Ret w
  | Some (cb, arg) => run_msg cb (cli_data len w) (u32 len) id arg w
  end.

(** The [while] of [do_read]; [tr] collects the messages that are handed to the
    router. *)
Fixpoint cli_read_loop (fuel : nat) (tr : list (Z * option (list byte))) (w : Cli)
    : res (Cli * list (Z * option (list byte))) :=
  match fuel with
  | O => Fault Blocked
  | S fuel =>
      let b := _ibuf (cl w) in
      if io_length b <? MESSAGE_HEAD_LEN then Ret (w, tr)
      else
        check OutOfBounds (in_array (io_capacity b) (io_head b) MESSAGE_HEAD_LEN);;
        match bs ← mread (io_data b) (io_head b) 8; head_of bs with
        | None => Fault Uninit
        | Some head =>
            let w := set_ibuf (pop MESSAGE_HEAD_LEN b) w in
            let data := cli_data (msglen head) w in
            w ← cli_call (msgid head) (msglen head) w;
            cli_read_loop fuel (tr ++ [(msgid head, data)])
              (set_ibuf (pop (msglen head) (_ibuf (cl w))) w)
        end
  end.

(** [do_read()]: the return value, the client and the calls. *)
Definition do_read (ioctl : option Z) (rs : list rd_ans) (a : sock_ans) (w : Cli)
    : res (Z * Cli * list (Z * option (list byte))) :=
  conn ← (match connected (cl w) with Some b => Ret b | None => Fault Uninit end);
  c_assert conn;;
  match ioctl with
  | None => Ret (-1, w, [])
  | Some need_read =>
      let b := _ibuf (cl w) in
      c_assert (need_read <=? io_capacity b - io_length b);;
      '(r, _) ← read_retry rs;
      match r with
      | RdData [] | RdErr _ => w ← clean_conn a w; Ret (-1, w, [])
      | RdData bs =>
          c_assert (Z.of_nat (length bs) =? need_read);;
          b ← append bs b;
          '(w, tr) ← cli_read_loop (S (Z.to_nat (io_length b))) [] (set_ibuf b w);
          b ← adjust (_ibuf (cl w));
          Ret (0, set_ibuf b w, tr)
      end
  end.

(** ** Writing *)

(** The [while (_obuf.length)] of [do_write]: each failed write reconnects
    (with the next entry of [cs]) and goes on writing. *)
Fixpoint cli_write_loop (ws : list wr_ans) (cs : list sock_ans) (tr : list (Z * list byte))
    (w : Cli) : res (Cli * list (Z * list byte)) :=
  let b := _obuf (cl w) in
  if io_length b =? 0 then Ret (w, tr)
  else
    match ws with
    | [] => Fault Blocked
    | WrErr EINTR :: ws => cli_write_loop ws cs tr w
    | WrErr EAGAIN :: _ => Ret (w, tr)
    | WrErr _ :: ws =>
        match cs with
        | [] => Fault Blocked
        | a :: cs => w ← clean_conn a w; cli_write_loop ws cs tr w
        end
    | WrOk n :: ws =>
        if 0 <? n then
          match mread (io_data b) 0 (Z.to_nat n) with
          | None => Fault Uninit
          | Some sent =>
              b ← adjust (pop n b);
              cli_write_loop ws cs (tr ++ [(_sockfd (cl w), sent)]) (set_obuf b w)
          end
        else Ret (w, tr)
    end.

(** [do_write()]: also the bytes written, each with the socket they went to. *)
Definition do_write (ws : list wr_ans) (cs : list sock_ans) (w : Cli)
    : res (Cli * list (Z * list byte)) :=
  c_assert ((io_head (_obuf (cl w)) =? 0) && negb (io_length (_obuf (cl w)) =? 0));;
  '(w, tr) ← cli_write_loop ws cs [] w;
  if io_length (_obuf (cl w)) =? 0
  then Ret (set_cloop (del_io_event_mask (_sockfd (cl w)) EPOLLOUT (cl_loop w)) w, tr)
  else Ret (w, tr).

(** ** Sending *)

Definition send_message (data : list byte) (len id : Z) (w : Cli) : res (Z * Cli) :=
  conn ← (match connected (cl w) with Some b => Ret b | None => Fault Uninit end);
  if negb conn then Ret (-1, w)
  else
    let b := _obuf (cl w) in
    let need_add_event := io_length b =? 0 in
    sz ← int_add len MESSAGE_HEAD_LEN;
    if io_capacity b - io_length b <? sz then Ret (-1, w)
    else
      b ← append (head_bytes (mkHead id len)) b;
      check OutOfBounds (in_array (Z.of_nat (length data)) 0 len);;
      b ← append (take (Z.to_nat len) data) b;
      let w := set_obuf b w in
      Ret (0, if need_add_event
              then watch_cli (_sockfd (cl w)) cli_write_callback EPOLLOUT w else w).
End TcpClient.
Arguments TCPClient : clear implicits.
Arguments Cli : clear implicits.
