(* ===== verification/TcpClientSpec.v ===== *)
(** * What the client promises, and where it breaks

    Sending and reading of whole messages, the crash on a fragmented message,
    and what a lost connection leaves behind. *)

From S2P Require Import Prelude CInt Mem IOBuf ReactorBuf Message.
From S2P Require Import EventLoop NetState Framing TcpConnInv TcpClient.
From Stdlib Require Import Strings.Byte.
Local Open Scope Z_scope.

Section Spec.
Context {E V U : Type} `{EL : EpollLaws E}.
Local Abbreviation Cli := (Cli E V U).
Implicit Types (w : Cli) (ib ob : list byte).

(** A 4 MB buffer with its contents at the front. *)
Definition buf_ok (b : IOBuf) (bs : list byte) : Prop :=
  holds b bs /\ io_head b = 0 /\ io_capacity b = CLIENT_BUF.

(** The client has received [ib] and not processed it, and has [ob] to send. *)
Record cli_ok w ib ob : Prop := {
  ck_in : buf_ok (_ibuf (cl w)) ib;
  ck_out : buf_ok (_obuf (cl w)) ob
}.

Lemma buf_ok_fits b bs : buf_ok b bs -> Z.of_nat (length bs) <= CLIENT_BUF.
Proof. intros (Hb & Hh & Hc). pose proof (holds_length _ _ Hb). destruct Hb as [[] _]. lia. Qed.

Lemma buf_ok_length b bs : buf_ok b bs -> io_length b = Z.of_nat (length bs).
Proof. intros (Hb & _). by apply holds_length. Qed.

Lemma append_buf_ok b xs ys :
  buf_ok b xs -> Z.of_nat (length xs + length ys) <= CLIENT_BUF ->
  safe (append ys b) (fun b' => buf_ok b' (xs ++ ys)).
Proof.
  intros (Hb & Hh & Hc) Hl. eapply safe_mono; [apply (append_holds _ _ _ Hb Hh); lia|].
  intros b' (? & ? & ? & _). split; [done|]. split; congruence.
Qed.

(** Popping from the front and moving the rest there. *)
Lemma pop_adjust_buf_ok b bs k :
  buf_ok b bs -> (k <= length bs)%nat ->
  safe (adjust (pop (Z.of_nat k) b)) (fun b' => buf_ok b' (drop k bs)).
Proof.
  intros (Hb & Hh & Hc) Hk. eapply safe_mono; [apply adjust_holds, pop_holds; eauto|].
  intros b' (? & ? & Hc' & _). split; [done|]. split; [done|]. by rewrite Hc'.
Qed.

(** One [send_message], on every branch. *)
Lemma send_step data id w ib ob :
  cli_ok w ib ob -> Z.of_nat (length data) <= 2 ^ 30 ->
  match connected (cl w) with
  | None => send_message data (Z.of_nat (length data)) id w = Fault Uninit
  | Some false => send_message data (Z.of_nat (length data)) id w = Ret (-1, w)
  | Some true =>
      if CLIENT_BUF <? Z.of_nat (length ob) + 8 + Z.of_nat (length data)
      then send_message data (Z.of_nat (length data)) id w = Ret (-1, w)
      else safe (send_message data (Z.of_nat (length data)) id w) (fun '(ret, w') =>
        ret = 0 /\ cli_ok w' ib (ob ++ frame_bytes (mkFrame id data)) /\
        _sockfd (cl w') = _sockfd (cl w) /\ connected (cl w') = Some true /\
        _router (cl w') = _router (cl w) /\ cl_user w' = cl_user w /\
        (ob = [] -> exists ev, io_evs (cl_loop w') !! _sockfd (cl w) = Some ev /\
           has_out (mask ev) = true /\ write_callback ev = Some cli_write_callback))
  end.
Proof.
  intros [Hi Ho] Hd. unfold send_message. destruct (connected (cl w)) as [[]|] eqn:Ecn; [|done..].
  cbn [mbind res_bind negb]. unfold MESSAGE_HEAD_LEN.
  rewrite int_add_ok by (unfold is_i32; lia). cbn [mbind res_bind].
  pose proof (buf_ok_length _ _ Ho) as Hl. pose proof (proj2 (proj2 Ho)) as Hc.
  pose proof (buf_ok_fits _ _ Ho) as Hf.
  rewrite Hl, Hc.
  destruct (Z.ltb_spec CLIENT_BUF (Z.of_nat (length ob) + 8 + Z.of_nat (length data))) as
    [Hbig|Hfit].
  { by rewrite (proj2 (Z.ltb_lt _ _)) by lia. }
  rewrite (proj2 (Z.ltb_ge _ _)) by lia.
  eapply safe_bind; [apply (append_buf_ok _ _ _ Ho); rewrite head_bytes_length; lia|].
  intros b1 Hb1. rewrite (proj2 (in_array_spec _ _ _)) by lia. cbn [check mbind res_bind].
  rewrite Nat2Z.id, take_ge by lia.
  eapply safe_bind; [apply (append_buf_ok _ _ _ Hb1); rewrite length_app, head_bytes_length;
    lia|].
  intros b2 Hb2. rewrite <- app_assoc in Hb2. cbn [safe]. split; [done|].
  destruct (Z.eqb_spec (Z.of_nat (length ob)) 0) as [E0|E0].
  - split; [split; [exact Hi|exact Hb2]|]. do 4 (split; [done|]). intros _.
    destruct (add_io_event_writes (_sockfd (cl w)) cli_write_callback (Some arg_client)
      (cl_loop w))
      as (ev & Hev & Hout & Hcb & _). by exists ev.
  - split; [split; [exact Hi|exact Hb2]|]. do 4 (split; [done|]). intros ->. done.
Qed.

(** The client's [send_message], on every branch: while it is not connected
    nothing happens and it returns -1; a message that does not fit behind the
    pending output is refused with -1 and nothing changes; any other is queued
    as its frame, and the socket is watched for writing. *)
Lemma client_send_message data id w ib ob :
  cli_ok w ib ob -> Z.of_nat (length data) <= 2 ^ 30 ->
  match connected (cl w) with
  | None => send_message data (Z.of_nat (length data)) id w = Fault Uninit
  | Some false => send_message data (Z.of_nat (length data)) id w = Ret (-1, w)
  | Some true =>
      if CLIENT_BUF <? Z.of_nat (length ob) + 8 + Z.of_nat (length data)
      then send_message data (Z.of_nat (length data)) id w = Ret (-1, w)
      else safe (send_message data (Z.of_nat (length data)) id w) (fun '(ret, w') =>
        ret = 0 /\ cli_ok w' ib (ob ++ frame_bytes (mkFrame id data)) /\
        _sockfd (cl w') = _sockfd (cl w) /\ connected (cl w') = Some true /\
        _router (cl w') = _router (cl w) /\ cl_user w' = cl_user w /\
        (ob = [] -> exists ev, io_evs (cl_loop w') !! _sockfd (cl w) = Some ev /\
           has_out (mask ev) = true /\ write_callback ev = Some cli_write_callback))
  end.
Proof. apply send_step. Qed.

Context (run_msg : V -> option (list byte) -> Z -> Z -> option V -> Cli -> res Cli)
  (run_hook : V -> Cli -> res Cli).

(** The contract of the message handlers, for the messages that are to come:
    [P fs w] holds before the messages [fs]; the call for the first of them
    leaves the input buffer alone and establishes [P] for the rest.  [P] does
    not depend on the input buffer. *)
Record handles (P : list frame -> Cli -> Prop) : Prop := {
  hd_ibuf : forall fs w b, P fs w -> P fs (set_ibuf b w);
  hd_call : forall f fs w, P (f :: fs) w ->
    let len := Z.of_nat (length (f_data f)) in
    cli_data len w = Some (f_data f) ->
    exits_or (cli_call run_msg (f_id f) len w) (fun w' =>
      _ibuf (cl w') = _ibuf (cl w) /\ P fs w')
}.

(** A frame as it may come from the server: any body, empty ones too. *)
Definition wire_ok (f : frame) : Prop :=
  is_i32 (f_id f) /\ Z.of_nat (length (f_data f)) < 2 ^ 31.

Definition delivered (f : frame) : Z * option (list byte) := (f_id f, Some (f_data f)).

(** The client at the end of the loop. *)
Definition loop_end (m : res (Cli * list (Z * option (list byte))))
    (Q : list (Z * option (list byte)) -> Cli -> Prop) : Prop :=
  exits_or m (fun '(w', tr') => Q tr' w').

Context (P : list frame -> Cli -> Prop) (Hmsg : handles P).

(** Whole frames in front are delivered, each with its body. *)
Lemma cli_read_frames fs : forall tr w bs n Q,
  holds (_ibuf (cl w)) (concat (frame_bytes <$> fs) ++ bs) ->
  Forall wire_ok fs -> P fs w ->
  (forall tr' w', P [] w' -> holds (_ibuf (cl w')) bs ->
     io_capacity (_ibuf (cl w')) = io_capacity (_ibuf (cl w)) ->
     io_head (_ibuf (cl w')) = io_head (_ibuf (cl w)) +
       Z.of_nat (length (concat (frame_bytes <$> fs))) ->
     tr' = tr ++ (delivered <$> fs) ->
     loop_end (cli_read_loop run_msg n tr' w') Q) ->
  loop_end (cli_read_loop run_msg (length fs + n) tr w) Q.
Proof.
  induction fs as [|f fs IH]; intros tr w bs n Q Hb Hfs HP Hend.
  { cbn in *. apply Hend; [done|done|done|lia|by rewrite app_nil_r]. }
  apply Forall_cons in Hfs as [[Hid Hlen] Hfs].
  cbn [fmap list_fmap concat] in Hb. fold (fmap (M := list) frame_bytes fs) in Hb.
  set (len := Z.of_nat (length (f_data f))) in *.
  set (h := mkHead (f_id f) len).
  cbn [length Nat.add cli_read_loop]. pose proof (holds_length _ _ Hb) as Hl.
  rewrite !length_app, frame_bytes_length in Hl.
  unfold MESSAGE_HEAD_LEN. rewrite (proj2 (Z.ltb_ge _ _)) by lia.
  pose proof Hb as [[Hh Hl0 Hc] Hrd].
  rewrite (proj2 (in_array_spec _ _ _)) by lia. cbn [check mbind res_bind].
  assert (Hhd : mread (io_data (_ibuf (cl w))) (io_head (_ibuf (cl w))) 8 = Some (head_bytes h)).
  { etrans; [apply (mread_take _ _ _ _ 8 Hrd); lia|]. done. }
  rewrite Hhd. cbn [mbind option_bind].
  rewrite <- (app_nil_r (head_bytes h)), head_of_bytes by (cbn; unfold is_i32 in *; lia).
  cbn [msgid msglen h].
  set (w1 := set_ibuf (pop 8 (_ibuf (cl w))) w).
  assert (Hu : u32 len = len) by (apply u32_id; unfold is_u32; lia).
  assert (Hb1 : holds (pop (Z.of_nat 8) (_ibuf (cl w))) (f_data f ++ concat (frame_bytes <$>
    fs) ++ bs)).
  { assert (Hp := pop_holds _ _ 8 Hb ltac:(rewrite !length_app, frame_bytes_length; lia)).
    change (drop 8 _) with ((f_data f ++ concat (frame_bytes <$> fs)) ++ bs) in Hp.
    by rewrite <- app_assoc in Hp. }
  change (Z.of_nat 8) with 8 in Hb1.
  pose proof Hb1 as [[Hh1 Hl1 Hc1] Hrd1]. pose proof (holds_length _ _ Hb1) as Hl1'.
  rewrite !length_app in Hl1'.
  assert (Hdata : cli_data len w1 = Some (f_data f)).
  { unfold cli_data. cbn [cl set_cl set_ibuf _ibuf w1]. rewrite Hu.
    rewrite (proj2 (in_array_spec _ _ _)) by lia.
    etrans; [apply (mread_take _ _ _ _ (Z.to_nat len) Hrd1); lia|]. f_equal.
    unfold len. rewrite Nat2Z.id. apply take_app_length. }
  rewrite Hdata. eapply exits_or_bind.
  { apply (hd_call P Hmsg f fs w1); [by apply (hd_ibuf P Hmsg)|exact Hdata]. }
  intros w2 [Hib HP2]. cbn [cl set_cl set_ibuf _ibuf w1] in Hib. rewrite Hib.
  apply (IH _ _ bs n Q); [|done|by apply (hd_ibuf P Hmsg)|].
  - cbn [cl set_cl set_ibuf _ibuf].
    pose proof (pop_holds _ _ (length (f_data f)) Hb1) as Hp.
    rewrite drop_app_length in Hp. apply Hp. rewrite length_app. lia.
  - cbn [cl set_cl set_ibuf _ibuf]. intros tr' w' HP' Hb' Hcap Hhead ->.
    apply Hend; [done|done| | |].
    + done.
    + rewrite Hhead. cbn [pop io_set_view io_head fmap list_fmap concat].
      rewrite length_app, frame_bytes_length. fold (fmap (M := list) frame_bytes fs). lia.
    + cbn [fmap list_fmap]. by rewrite <- app_assoc.
Qed.

Lemma loop_end_fuel fs (b : IOBuf) bs :
  holds b (concat (frame_bytes <$> fs) ++ bs) ->
  exists n, S (Z.to_nat (io_length b)) = (length fs + S n)%nat /\
    (length bs <= n)%nat.
Proof.
  intros Hb. apply holds_length in Hb. rewrite length_app in Hb.
  assert (Hf : (length fs <= length (concat (frame_bytes <$> fs)))%nat).
  { clear. induction fs as [|f fs IH]; [done|]. cbn [fmap list_fmap concat].
    rewrite length_app, frame_bytes_length. cbn. fold (fmap (M := list) frame_bytes fs). lia. }
  exists (Z.to_nat (io_length b) - length fs)%nat. lia.
Qed.

(** Fewer than eight bytes are kept. *)
Lemma cli_read_short n tr w bs :
  holds (_ibuf (cl w)) bs -> (length bs < 8)%nat ->
  cli_read_loop run_msg (S n) tr w = Ret (w, tr).
Proof.
  intros Hb Hl. apply holds_length in Hb. cbn [cli_read_loop]. unfold MESSAGE_HEAD_LEN.
  by rewrite (proj2 (Z.ltb_lt _ _)) by lia.
Qed.

(** One [do_read] of whole messages. *)
Lemma read_step data rs a w ib ob fs tl :
  cli_ok w ib ob -> connected (cl w) = Some true -> data <> [] ->
  Z.of_nat (length ib + length data) <= CLIENT_BUF ->
  ib ++ data = concat (frame_bytes <$> fs) ++ tl -> Forall wire_ok fs -> (length tl < 8)%nat ->
  P fs w ->
  exits_or (do_read run_msg run_hook (Some (Z.of_nat (length data))) (RdData data :: rs) a w)
    (fun '(ret, w', tr) => ret = 0 /\ tr = (delivered <$> fs) /\ buf_ok (_ibuf (cl w')) tl /\
      P [] w').
Proof.
  intros [Hi Ho] Hcn Hd Hfit Hcut Hfs Htl HP. unfold do_read. rewrite Hcn.
  cbn [mbind res_bind c_assert]. rewrite (buf_ok_length _ _ Hi), (proj2 (proj2 Hi)).
  rewrite (proj2 (Z.leb_le _ _)) by lia. cbn [c_assert mbind res_bind read_retry].
  destruct data as [|x data']; [done|]. set (data := x :: data') in *.
  rewrite Z.eqb_refl. cbn [c_assert mbind res_bind].
  eapply exits_or_bind; [apply safe_exits_or, (append_buf_ok _ _ data Hi Hfit)|].
  intros b (Hb & Hh & Hc). rewrite Hcut in Hb.
  destruct (loop_end_fuel _ _ _ Hb) as (n & -> & _).
  eapply exits_or_bind.
  { apply (cli_read_frames fs [] (set_ibuf b w) tl (S n)
      (fun tr' w' => tr' = (delivered <$> fs) /\ holds (_ibuf (cl w')) tl /\
         io_capacity (_ibuf (cl w')) = CLIENT_BUF /\ P [] w')
      Hb Hfs (hd_ibuf P Hmsg _ _ _ HP)).
    intros tr' w' HP' Hb' Hcap _ ->. rewrite (cli_read_short n _ _ tl Hb' Htl). cbn.
    split; [done|]. split; [done|]. split; [by rewrite Hcap|done]. }
  intros [w' tr] (-> & Hb' & Hcap & HP').
  eapply exits_or_bind; [apply safe_exits_or, (adjust_holds _ _ Hb')|].
  intros b' (Hb2 & Hh2 & Hc2 & _). cbn. split; [done|]. split; [done|].
  split; [|by apply (hd_ibuf P Hmsg)]. split; [done|]. split; [done|]. congruence.
Qed.

(** C25. The client's [do_read] when what has arrived consists of whole messages
    and less than a head: exactly these messages go to the router, in order,
    each with its id and body (empty bodies too); what their handlers promise for
    these messages holds in the end, and the rest of the bytes stays at the front
    of the buffer. *)
Theorem client_do_read_whole data rs a w ib ob fs tl :
  cli_ok w ib ob -> connected (cl w) = Some true -> data <> [] ->
  Z.of_nat (length ib + length data) <= CLIENT_BUF ->
  ib ++ data = concat (frame_bytes <$> fs) ++ tl -> Forall wire_ok fs -> (length tl < 8)%nat ->
  P fs w ->
  exits_or (do_read run_msg run_hook (Some (Z.of_nat (length data))) (RdData data :: rs) a w)
    (fun '(ret, w', tr) => ret = 0 /\ tr = (delivered <$> fs) /\ buf_ok (_ibuf (cl w')) tl /\
      P [] w').
Proof. apply read_step. Qed.

Lemma adjust_negative b : io_length b < 0 -> io_head b <> 0 -> adjust b = Fault OutOfBounds.
Proof.
  intros Hl Hh. unfold adjust. rewrite (proj2 (Z.eqb_neq _ _)) by lia.
  rewrite (proj2 (Z.eqb_neq _ _)) by lia.
  destruct (in_array _ _ _) eqn:Ea; [|done]. apply in_array_spec in Ea. lia.
Qed.

(** C39. A message that TCP delivers in two pieces ends the client: [do_read]
    does not check that the body has arrived.  Whatever whole messages come
    first, when the head and only a part of the body of the next one are there,
    the router is called for it with bytes that were never received, the length
    becomes negative and [adjust] moves [(size_t)length] bytes over the end of
    the buffer (unless a handler exits before). *)
Theorem client_fragment_overruns data rs a w ib ob fs id len part :
  (forall w', P [] w' ->
     exits_or (cli_call run_msg id len w') (fun w2 => _ibuf (cl w2) = _ibuf (cl w'))) ->
  P fs w ->
  cli_ok w ib ob -> connected (cl w) = Some true -> data <> [] ->
  Z.of_nat (length ib + length data) <= CLIENT_BUF ->
  ib ++ data = concat (frame_bytes <$> fs) ++ head_bytes (mkHead id len) ++ part ->
  Forall wire_ok fs -> is_i32 id -> Z.of_nat (length part) < len < 2 ^ 31 ->
  let m := do_read run_msg run_hook (Some (Z.of_nat (length data))) (RdData data :: rs) a w in
  m = Fault OutOfBounds \/ m = Fault ExitFail.
Proof.
  intros Hlast HP [Hi Ho] Hcn Hd Hfit Hcut Hfs Hid Hlen m. subst m. unfold do_read. rewrite Hcn.
  cbn [mbind res_bind c_assert]. rewrite (buf_ok_length _ _ Hi), (proj2 (proj2 Hi)).
  rewrite (proj2 (Z.leb_le _ _)) by lia. cbn [c_assert mbind res_bind read_retry].
  destruct data as [|x data']; [done|]. set (data := x :: data') in *.
  rewrite Z.eqb_refl. cbn [c_assert mbind res_bind].
  pose proof (append_buf_ok _ _ data Hi Hfit) as Ha. apply safe_Ret in Ha as (b & ->
    & Hb & Hh & Hc).
  cbn [mbind res_bind]. rewrite Hcut in Hb.
  destruct (loop_end_fuel _ _ _ Hb) as (n & -> & Hn).
  assert (Hend : loop_end (cli_read_loop run_msg (length fs + S n) [] (set_ibuf b w))
    (fun _ w' => io_length (_ibuf (cl w')) < 0 /\ io_head (_ibuf (cl w')) <> 0)).
  { apply (cli_read_frames fs [] (set_ibuf b w) _ (S n) _ Hb Hfs (hd_ibuf P Hmsg _ _ _ HP)).
    intros tr' w' HP' Hb' _ _ _. rewrite length_app, head_bytes_length in Hn.
    destruct n as [|n]; [lia|]. cbn [cli_read_loop]. pose proof (holds_length _ _ Hb') as Hl.
    rewrite length_app, head_bytes_length in Hl. unfold MESSAGE_HEAD_LEN.
    rewrite (proj2 (Z.ltb_ge _ _)) by lia. pose proof Hb' as [[Hh0 Hl0 Hc0] Hrd].
    rewrite (proj2 (in_array_spec _ _ _)) by lia. cbn [check mbind res_bind].
    assert (Hhd : mread (io_data (_ibuf (cl w'))) (io_head (_ibuf (cl w'))) 8 =
      Some (head_bytes (mkHead id len))).
    { etrans; [apply (mread_take _ _ _ _ 8 Hrd); lia|]. done. }
    rewrite Hhd. cbn [mbind option_bind].
    rewrite <- (app_nil_r (head_bytes _)), head_of_bytes by (cbn; unfold is_i32 in *; lia).
    cbn [msgid msglen]. eapply exits_or_bind; [by apply Hlast, (hd_ibuf P Hmsg)|].
    intros w2 Hib. cbn [cl set_cl set_ibuf _ibuf] in Hib. cbn [cl set_cl set_ibuf _ibuf].
    rewrite Hib. cbn [pop io_set_view io_length].
    rewrite (proj2 (Z.ltb_lt _ _)) by lia. cbn. lia. }
  unfold loop_end in Hend.
  destruct (cli_read_loop _ _ _ _) as [[w' tr]|[]]; cbn in Hend |- *; try done; [|by right].
  destruct Hend as [Hl Hh']. rewrite adjust_negative by done. by left.
Qed.

(** A length of -8 puts [do_read] into an endless loop: the head is taken off and
    put back, and however many rounds the loop is given, it is not done. *)
Lemma client_negative_length_spins n tr w id tl :
  holds (_ibuf (cl w)) (head_bytes (mkHead id (-8)) ++ tl) -> is_i32 id ->
  call id (_router (cl w)) = None ->
  cli_read_loop run_msg n tr w = Fault Blocked.
Proof.
  intros Hb Hid Hr. revert tr. induction n as [|n IH]; intros tr; [done|]. cbn [cli_read_loop].
  pose proof (holds_length _ _ Hb) as Hl. rewrite length_app, head_bytes_length in Hl.
  unfold MESSAGE_HEAD_LEN. rewrite (proj2 (Z.ltb_ge _ _)) by lia.
  pose proof Hb as [[Hh0 Hl0 Hc0] Hrd].
  rewrite (proj2 (in_array_spec _ _ _)) by lia. cbn [check mbind res_bind].
  rewrite (mread_take _ _ _ _ 8 Hrd) by lia. cbn [mbind option_bind].
  change (take 8 (head_bytes (mkHead id (-8)) ++ tl)) with (head_bytes (mkHead id (-8)) ++ []).
  rewrite head_of_bytes by (cbn; unfold is_i32 in *; lia). cbn [msgid msglen].
  unfold cli_call. cbn [cl set_cl set_ibuf _router]. rewrite Hr. cbn [mbind res_bind].
  etrans; [|exact (IH (tr ++ [(id, cli_data (-8) (set_ibuf (pop 8 (_ibuf (cl w))) w))]))].
  f_equal. destruct w as [c L cs u], c as [cn ob b sfd h1 h2 r], b. cbn.
  unfold set_ibuf, set_cl, pop, io_set_view. cbn. repeat f_equal; lia.
Qed.

(** Reconnecting without hooks keeps both buffers. *)
Lemma clean_conn_plain fd2 w :
  _sockfd (cl w) <> -1 -> _conn_start_cb (cl w) = None -> _conn_close_cb (cl w) = None ->
  exists w', clean_conn run_hook (Some fd2, ConnOk) w = Ret w' /\
    _ibuf (cl w') = _ibuf (cl w) /\ _obuf (cl w') = _obuf (cl w) /\ _sockfd (cl w') = fd2 /\
    connected (cl w') = Some true /\
    cl_closes w' = cl_closes w ++ [_sockfd (cl w); _sockfd (cl w)].
Proof.
  destruct w as [[cn ob ib fd scb ccb rt] L cs u]. cbn. intros Hfd -> ->.
  unfold clean_conn. cbn. rewrite (proj2 (Z.eqb_neq _ _) Hfd). cbn. unfold do_connect. cbn.
  rewrite (proj2 (Z.eqb_neq _ _) Hfd). cbn. unfold watch_connected. cbn.
  eexists. split; [done|]. destruct (negb _); cbn; by rewrite <- app_assoc.
Qed.

(** Writing without a lost connection: exactly the bytes that the kernel takes
    are written, from the front, to the one socket. *)
Lemma cli_write_loop_ok ws cs : forall w ob tr r s,
  buf_ok (_obuf (cl w)) ob -> drain ws (length ob) = Some (r, s) -> r <> -1 ->
  safe (cli_write_loop run_hook ws cs tr w) (fun '(w', tr') => exists b sent,
    w' = set_obuf b w /\ buf_ok b (drop s ob) /\
    tr' = tr ++ ((fun bs => (_sockfd (cl w), bs)) <$> sent) /\ concat sent = take s ob).
Proof.
  assert (Hend : forall w ob tr, buf_ok (_obuf (cl w)) ob -> exists b (sent : list (list byte)),
    w = set_obuf b w /\ buf_ok b ob /\
    tr = tr ++ ((fun bs => (_sockfd (cl w), bs)) <$> sent) /\ concat sent = []).
  { intros w ob tr Ho. exists (_obuf (cl w)), []. rewrite app_nil_r.
    split; [by destruct w as [[] ? ? ?]|done]. }
  induction ws as [|a ws IH]; intros w ob tr r s Ho Hd Hr; cbn [cli_write_loop];
    rewrite (buf_ok_length _ _ Ho);
    (destruct ob as [|x ob0]; [cbn in Hd; injection Hd as <- <-; by apply Hend|]);
    set (ob := x :: ob0) in *; (rewrite (proj2 (Z.eqb_neq _ _)) by (unfold ob; cbn; lia)).
  { done. }
  change (length ob) with (S (length ob0)) in Hd. cbn [drain] in Hd.
  change (S (length ob0)) with (length ob) in Hd.
  destruct a as [k|e].
  2: { destruct e; first [by apply (IH w ob tr r s) | injection Hd as <- <-; first [done|by
    apply Hend]]. }
  destruct (Z.eqb_spec k 0) as [->|Hk]; [injection Hd as <- <-; by apply Hend|].
  destruct (Z.ltb_spec k 0); [done|]. cbn [orb] in Hd.
  destruct (Z.ltb_spec (Z.of_nat (length ob)) k); [done|].
  destruct (drain ws _) as [[r' s']|] eqn:Ed; [|done]. injection Hd as <- <-.
  rewrite (proj2 (Z.ltb_lt 0 k)) by lia.
  pose proof Ho as ([_ Hrd] & Hh & _). unfold io_bytes in Hrd. rewrite Hh in Hrd.
  pose proof (buf_ok_length _ _ Ho) as Hol.
  rewrite (mread_take _ _ _ _ (Z.to_nat k) Hrd) by lia.
  pose proof (pop_adjust_buf_ok _ _ (Z.to_nat k) Ho ltac:(lia)) as Ha.
  rewrite Z2Nat.id in Ha by lia. apply safe_Ret in Ha as (b1 & -> & Hb1). cbn [mbind res_bind].
  eapply safe_mono; [apply (IH (set_obuf b1 w) (drop (Z.to_nat k) ob) _ r' s')|].
  - exact Hb1.
  - by rewrite length_drop.
  - done.
  - intros [w' tr'] (b & sent & -> & Hb & -> & Hs). exists b, (take (Z.to_nat k) ob :: sent).
    split; [done|]. split; [by rewrite drop_drop in Hb|]. split; [by rewrite <- app_assoc|].
    cbn [concat]. rewrite Hs. apply take_take_drop.
Qed.

Lemma client_do_write_drains ws cs w ib ob r s :
  cli_ok w ib ob -> ob <> [] -> drain ws (length ob) = Some (r, s) -> r <> -1 ->
  safe (do_write run_hook ws cs w) (fun '(w', tr) => cli_ok w' ib (drop s ob) /\
    Forall (fun x => x.1 = _sockfd (cl w)) tr /\ concat tr.*2 = take s ob /\
    connected (cl w') = connected (cl w) /\ _router (cl w') = _router (cl w) /\
    cl_user w' = cl_user w).
Proof.
  intros [Hi Ho] Hne Hd Hr. unfold do_write. rewrite (proj1 (proj2 Ho)), (buf_ok_length _ _ Ho).
  rewrite (proj2 (Z.eqb_neq (Z.of_nat _) 0)) by (destruct ob; [done|cbn; lia]).
  cbn [Z.eqb negb andb c_assert mbind res_bind].
  eapply safe_bind; [by apply (cli_write_loop_ok ws cs w ob [] r s)|].
  intros [w' tr] (b & sent & -> & Hb & -> & Hs). cbn [app cl set_obuf set_cl _obuf].
  assert (Hc : Forall (fun x => x.1 = _sockfd (cl w)) ((fun bs => (_sockfd (cl w), bs)) <$>
    sent)).
  { apply Forall_fmap, Forall_forall. done. }
  assert (He : concat ((fun bs => (_sockfd (cl w), bs)) <$> sent).*2 = take s ob).
  { by rewrite <- list_fmap_compose, list_fmap_id. }
  destruct (io_length b =? 0); cbn; (split; [split; done|]); done.
Qed.

(** C40. A lost connection does not reset the stream: when a write fails in the
    middle of the pending output, the client reconnects, keeps the unsent rest
    of the half-written message (and the half-read input), and the first bytes
    on the new socket are that rest, not the head of a message.  The old
    descriptor is closed twice, by [clean_conn] and again by [do_connect]. *)
Theorem client_reconnect_resumes_mid_message w ib ob fd2 k m :
  cli_ok w ib ob -> _sockfd (cl w) <> -1 ->
  _conn_start_cb (cl w) = None -> _conn_close_cb (cl w) = None ->
  0 < k < Z.of_nat (length ob) -> 0 < m <= Z.of_nat (length ob) - k ->
  safe (do_write run_hook [WrOk k; WrErr EOTHER; WrOk m; WrErr EAGAIN] [(Some fd2, ConnOk)] w)
    (fun '(w', tr) =>
      tr = [(_sockfd (cl w), take (Z.to_nat k) ob);
            (fd2, take (Z.to_nat m) (drop (Z.to_nat k) ob))] /\
      cli_ok w' ib (drop (Z.to_nat m) (drop (Z.to_nat k) ob)) /\
      cl_closes w' = cl_closes w ++ [_sockfd (cl w); _sockfd (cl w)]).
Proof.
  intros [Hi Ho] Hfd Hs Hc Hk Hm. unfold do_write.
  pose proof (buf_ok_length _ _ Ho) as Hl. rewrite (proj1 (proj2 Ho)), Hl.
  rewrite (proj2 (Z.eqb_neq (Z.of_nat (length ob)) 0)) by lia.
  cbn [Z.eqb negb andb c_assert mbind res_bind].
  cbn [cli_write_loop]. rewrite Hl, (proj2 (Z.eqb_neq (Z.of_nat (length ob)) 0)) by lia.
  rewrite (proj2 (Z.ltb_lt 0 k)) by lia.
  assert (Hr1 : mread (io_data (_obuf (cl w))) 0 (Z.to_nat k) = Some (take (Z.to_nat k) ob)).
  { destruct Ho as ([_ Hrd] & Hh & _). unfold io_bytes in Hrd. rewrite Hh in Hrd.
    apply (mread_take _ _ _ _ _ Hrd). lia. }
  rewrite Hr1.
  pose proof (pop_adjust_buf_ok _ _ (Z.to_nat k) Ho ltac:(lia)) as Ha.
  rewrite Z2Nat.id in Ha by lia. apply safe_Ret in Ha as (b1 & -> & Hb1).
  cbn [mbind res_bind app]. pose proof (buf_ok_length _ _ Hb1) as Hl1. rewrite length_drop in Hl1.
  set (w1 := set_obuf b1 w). change (io_length (_obuf (cl w1))) with (io_length b1).
  rewrite Hl1. rewrite (proj2 (Z.eqb_neq (Z.of_nat (length ob - Z.to_nat k)) 0)) by lia.
  destruct (clean_conn_plain fd2 w1 Hfd Hs Hc) as (w2 & -> & Hi2 & Ho2 & Hf2 & _ & Hcl2).
  cbn [mbind res_bind]. rewrite Ho2, Hf2. change (_obuf (cl w1)) with b1.
  rewrite Hl1. rewrite (proj2 (Z.eqb_neq (Z.of_nat (length ob - Z.to_nat k)) 0)) by lia.
  rewrite (proj2 (Z.ltb_lt 0 m)) by lia.
  assert (Hr2 : mread (io_data b1) 0 (Z.to_nat m) = Some (take (Z.to_nat m) (drop (Z.to_nat k)
    ob))).
  { destruct Hb1 as ([_ Hrd] & Hh & _). unfold io_bytes in Hrd. rewrite Hh in Hrd.
    apply (mread_take _ _ _ _ _ Hrd). lia. }
  rewrite Hr2.
  assert (Hm' : (Z.to_nat m <= length (drop (Z.to_nat k) ob))%nat) by (rewrite length_drop; lia).
  pose proof (pop_adjust_buf_ok _ _ (Z.to_nat m) Hb1 Hm') as Ha.
  rewrite Z2Nat.id in Ha by lia. apply safe_Ret in Ha as (b2 & -> & Hb2).
  cbn [mbind res_bind]. set (w3 := set_obuf b2 w2).
  assert (Hok : cli_ok w3 ib (drop (Z.to_nat m) (drop (Z.to_nat k) ob))).
  { split; cbn; [|exact Hb2]. rewrite Hi2. exact Hi. }
  change (io_length (_obuf (cl w3))) with (io_length b2).
  destruct (io_length b2 =? 0) eqn:E0; cbn [mbind res_bind app];
    change (io_length (_obuf (cl w3))) with (io_length b2); rewrite E0; cbn [safe]; (split;
      [done|]);
    (split; [destruct Hok; by split|exact Hcl2]).
Qed.

(** A delayed connection that fails is never retried: [connection_delay]
    stops watching the descriptor and leaves the client unconnected, so the
    loop has no event left for it and every later [send_message] returns -1. *)
Lemma failed_connect_is_final fd result w :
  result <> 0 -> connected (cl w) = Some false ->
  exists w', connection_delay run_hook fd result w = Ret w' /\
    io_evs (cl_loop w') !! fd = None /\ connected (cl w') = Some false /\
    forall data len id, send_message data len id w' = Ret (-1, w').
Proof.
  intros Hr Hcn. unfold connection_delay. rewrite (proj2 (Z.eqb_neq _ _) Hr).
  eexists. split; [done|]. split; [cbn; by rewrite lookup_delete_eq|]. split; [done|].
  intros data len id. unfold send_message. cbn [cl set_cl set_cloop]. by rewrite Hcn.
Qed.
End Spec.

(** ** Witnesses *)

Import TableKernel.

Definition demo_run_msg (cb : unit) (data : option (list byte)) (len id : Z) (a : option unit)
    (w : Cli (gmap Z Z) unit unit) : res (Cli (gmap Z Z) unit unit) := Ret w.
Definition demo_run_hook (h : unit) (w : Cli (gmap Z Z) unit unit)
    : res (Cli (gmap Z Z) unit unit) := Ret w.

Lemma demo_call id len w : cli_call demo_run_msg id len w = Ret w.
Proof. unfold cli_call. by destruct (call _ _) as [[cb arg]|]. Qed.

Lemma demo_handles : handles demo_run_msg (fun _ _ => True).
Proof. split; [done|]. intros f fs w _ len _. by rewrite demo_call. Qed.

(** A client on descriptor 5 with [ob] to send. *)
Definition client_with (conn : bool) (ob : list byte) : Cli (gmap Z Z) unit unit :=
  mkCli (mkClient (Some conn)
           (mkIOBuf None CLIENT_BUF (Z.of_nat (length ob)) 0 (mwrite ∅ 0 ob))
           (IOBuf_new CLIENT_BUF) 5 None None MsgRouter_new)
    (EventLoop_new ∅) [] tt.

Lemma client_with_ok conn ob :
  Z.of_nat (length ob) <= CLIENT_BUF -> cli_ok (client_with conn ob) [] ob.
Proof.
  intros Hl. split; cbn.
  - split; [|done]. by apply IOBuf_new_holds.
  - split; [|done]. split; [split; cbn; lia|]. unfold io_bytes. cbn.
    rewrite Nat2Z.id. apply mread_mwrite.
Qed.

Lemma client_send_message_witness :
  safe (send_message [x41] 1 7 (client_with true [])) (fun '(ret, w') =>
    ret = 0 /\ cli_ok w' [] (frame_bytes (mkFrame 7 [x41])) /\ _sockfd (cl w') = 5 /\
    connected (cl w') = Some true /\ _router (cl w') = MsgRouter_new /\ cl_user w' = tt /\
    ([] = @nil byte -> exists ev, io_evs (cl_loop w') !! 5 = Some ev /\
       has_out (mask ev) = true /\ write_callback ev = Some cli_write_callback)).
Proof.
  exact (client_send_message [x41] 7 (client_with true []) [] []
    (client_with_ok true [] ltac:(done)) ltac:(cbn; lia)).
Defined.

Definition two_frames : list frame := [mkFrame 1 [x41; x42]; mkFrame 2 []].

Lemma two_frames_ok : Forall wire_ok two_frames.
Proof. repeat constructor; cbn; lia. Qed.

Lemma client_do_read_whole_witness :
  exits_or (do_read demo_run_msg demo_run_hook (Some 19)
      [RdData (concat (frame_bytes <$> two_frames) ++ [x01])] (None, ConnOk) (client_with true
        []))
    (fun '(ret, w', tr) => ret = 0 /\ tr = [(1, Some [x41; x42]); (2, Some [])] /\
      buf_ok (_ibuf (cl w')) [x01] /\ True).
Proof.
  apply (client_do_read_whole demo_run_msg demo_run_hook _ demo_handles
    (concat (frame_bytes <$> two_frames) ++ [x01]) [] (None, ConnOk) (client_with true []) [] []
    two_frames [x01] (client_with_ok true [] ltac:(done))); try done.
  - exact two_frames_ok.
  - cbn. lia.
Defined.

(** The head of a five-byte message and two of the bytes. *)
Lemma client_fragment_overruns_witness :
  let m := do_read demo_run_msg demo_run_hook (Some 10)
             [RdData (head_bytes (mkHead 1 5) ++ [x41; x42])] (None, ConnOk) (client_with true
               []) in
  m = Fault OutOfBounds \/ m = Fault ExitFail.
Proof.
  apply (client_fragment_overruns demo_run_msg demo_run_hook _ demo_handles
    (head_bytes (mkHead 1 5) ++ [x41; x42]) [] (None, ConnOk) (client_with true []) [] []
    [] 1 5 [x41; x42]); [|done|by apply client_with_ok|done..].
  intros w' _. by rewrite demo_call.
Defined.

Lemma client_reconnect_resumes_mid_message_witness :
  let ob := frame_bytes (mkFrame 1 [x41; x42]) in
  safe (do_write demo_run_hook [WrOk 4; WrErr EOTHER; WrOk 6; WrErr EAGAIN] [(Some 9, ConnOk)]
      (client_with true ob))
    (fun '(w', tr) =>
      tr = [(5, take 4 ob); (9, drop 4 ob)] /\ cli_ok w' [] [] /\ cl_closes w' = [5; 5]).
Proof.
  apply (client_reconnect_resumes_mid_message demo_run_hook
    (client_with true (frame_bytes (mkFrame 1 [x41; x42]))) [] _ 9 4 6
    (client_with_ok true (frame_bytes (mkFrame 1 [x41; x42])) ltac:(done))); try done; cbn; lia.
Defined.

Lemma failed_connect_is_final_witness :
  exists w', connection_delay demo_run_hook 5 111 (client_with false []) = Ret w' /\
    io_evs (cl_loop w') !! 5 = None /\ connected (cl w') = Some false /\
    forall data len id, send_message data len id w' = Ret (-1, w').
Proof. by apply (failed_connect_is_final demo_run_hook 5 111 (client_with false [])). Defined.
