(* ===== verification/Udp.v ===== *)
(** * UDPServer and UDPClient (reactor/src/udp_server.cpp,
    reactor/src/udp_client.cpp)

    The two classes have the same [do_read] and [send_message]; the server
    answers the sender of the last datagram, the client its connected peer (an
    address that never changes).  [recvfrom(2)] and [sendto(2)] answer from a
    script. *)

From S2P Require Import Prelude CInt IOBuf ReactorBuf Message EventLoop Framing.
From Stdlib Require Import Strings.Byte.
Local Open Scope Z_scope.

(** [sizeof(_read_buf)] and [sizeof(_write_buf)] *)
Definition UDP_BUF : Z := MESSAGE_LENGTH_LIMIT.

Section Udp.
Context {ADDR V U : Type}.

(** [recvfrom(2)]: a datagram and its sender, or an error. *)
Inductive recv_ans : Type := RecvData (d : list byte) (from : ADDR) | RecvErr (e : errno).

Record Udp : Type := mkUdp {
  _read_buf : list byte;     (** [UDP_BUF] bytes, unspecified at first *)
  _client_addr : ADDR;
  u_router : MsgRouter V V;
  u_sent : list (ADDR * list byte);   (** what [sendto] was given *)
  u_user : U
}.

Definition set_received (b : list byte) (a : ADDR) (w : Udp) : Udp :=
  mkUdp b a (u_router w) (u_sent w) (u_user w).
Definition add_sent (x : ADDR * list byte) (w : Udp) : Udp :=
  mkUdp (_read_buf w) (_client_addr w) (u_router w) (u_sent w ++ [x]) (u_user w).

(** [cb(data, len, msgid, server, args)]; [data] is the rest of the buffer. *)
Variable run_msg : V -> list byte -> Z -> Z -> option V -> Udp -> res Udp.

Definition udp_call (id len : Z) (data : list byte) (w : Udp) : res Udp :=
  match call id (u_router w) with
  | None => Ret w
  | Some (cb, arg) => run_msg cb data len id arg w
  end.

(** What [recvfrom] leaves in the buffer, and the length it returns. *)
Definition received (d buf : list byte) : list byte :=
  take (Z.to_nat UDP_BUF) d ++ drop (length d) buf.
Definition pkg_len (d : list byte) : Z := Z.min (Z.of_nat (length d)) UDP_BUF.

(** [do_read()]; [tr] collects the messages handed to the router with the
    address that a reply would go to. *)
Fixpoint do_read (answers : list recv_ans) (tr : list (ADDR * frame)) (w : Udp)
    : res (Udp * list (ADDR * frame)) :=
  match answers with
  | [] => Fault Blocked
  | RecvErr EINTR :: answers => do_read answers tr w
  | RecvErr _ :: _ => Ret (w, tr)
  | RecvData d from :: answers =>
      let w := set_received (received d (_read_buf w)) from w in
      match head_of (_read_buf w) with
      | None => Fault OutOfBounds
      | Some head =>
          if (MESSAGE_LENGTH_LIMIT <? msglen head) || (msglen head <? 0)
             || negb (msglen head + MESSAGE_HEAD_LEN =? pkg_len d)
          then do_read answers tr w
          else
            let data := drop 8 (_read_buf w) in
            let f := mkFrame (msgid head) (take (Z.to_nat (msglen head)) data) in
            let to := _client_addr w in
            w ← udp_call (msgid head) (msglen head) data w;
            do_read answers (tr ++ [(to, f)]) w
      end
  end.

(** [send_message(data, msglen, msgid)]; [ok] says whether [sendto] succeeds. *)
Definition send_message (ok : bool) (data : list byte) (len id : Z) (w : Udp) : res (Z * Udp) :=
  if MESSAGE_LENGTH_LIMIT <? len then Ret (-1, w)
  else
    check OutOfBounds (in_array UDP_BUF MESSAGE_HEAD_LEN len
                       && in_array (Z.of_nat (length data)) 0 len);;
    let pkt := head_bytes (mkHead id len) ++ take (Z.to_nat len) data in
    if ok then Ret (len + MESSAGE_HEAD_LEN, add_sent (_client_addr w, pkt) w)
    else Ret (-1, w).

(** [add_msg_router(msgid, cb, user_data)] *)
Definition add_msg_router (id : Z) (cb : V) (user_data : option V) (w : Udp) : Udp :=
  mkUdp (_read_buf w) (_client_addr w) (register_msg_router id cb user_data (u_router w)).2
    (u_sent w) (u_user w).

(** *** The sockets on a loop *)

Section Socket.
Context {CB ARG TASK E : Type} `{Epoll E}.
Local Abbreviation Loop := (EventLoop CB ARG TASK E).
Variables (read_callback : CB) (this : ARG).

(** [UDPServer(loop, ip, port)]: whether the two signals can be ignored, and the
    answer of [socket]; the one of [bind] is not looked at.  [buf] is what
    [_read_buf] holds, [zero] the address of zero bytes. *)
Definition UDPServer_new (hup pipe : bool) (sock : option Z) (buf : list byte) (zero : ADDR)
    (u : U) (L : Loop) : res (Z * Udp * Loop) :=
  check ExitFail hup;;
  check ExitFail pipe;;
  match sock with
  | None => Fault ExitFail
  | Some sockfd =>
      Ret (sockfd, mkUdp buf zero MsgRouter_new [] u,
           add_io_event sockfd read_callback EPOLLIN (Some this) L)
  end.

(** [UDPClient(loop, ip, port)]: the answers of [socket] and [connect]; [peer] is
    the address. *)
Definition UDPClient_new (sock : option Z) (conn : bool) (buf : list byte) (peer : ADDR)
    (u : U) (L : Loop) : res (Z * Udp * Loop) :=
  match sock with
  | None => Fault ExitFail
  | Some sockfd =>
      check ExitFail conn;;
      Ret (sockfd, mkUdp buf peer MsgRouter_new [] u,
           add_io_event sockfd read_callback EPOLLIN (Some this) L)
  end.

(** The destructors: the loop, and the descriptor that is closed. *)
Definition Udp_delete (sockfd : Z) (L : Loop) : Loop * Z := (del_io_event sockfd L, sockfd).
End Socket.

(** ** Properties *)

(** The message of a datagram: exactly a head and the body it announces. *)
Definition udp_frame (d : list byte) : option frame :=
  h ← head_of d;
  if (0 <=? msglen h) && (msglen h + 8 =? Z.of_nat (length d))
  then Some (mkFrame (msgid h) (drop 8 d)) else None.

Lemma udp_frame_bytes d f :
  Z.of_nat (length d) <= UDP_BUF -> udp_frame d = Some f <->
  d = frame_bytes f /\ is_i32 (f_id f).
Proof.
  intros Hd. unfold UDP_BUF, MESSAGE_LENGTH_LIMIT, MESSAGE_HEAD_LEN in Hd. unfold udp_frame.
  split.
  - destruct (head_of d) as [h|] eqn:Eh; [|done]. cbn [mbind option_bind].
    destruct (Z.leb_spec 0 (msglen h)); [|done].
    destruct (Z.eqb_spec (msglen h + 8) (Z.of_nat (length d))) as [Hl|]; [|done].
    cbn [andb]. intros [= <-]. cbn [f_id]. destruct (head_of_i32 _ _ Eh) as [Hi Hm].
    split; [|done]. unfold frame_bytes. cbn [f_id f_data].
    pose proof (head_of_length _ _ Eh) as H8. rewrite length_drop.
    replace (Z.of_nat (length d - 8)) with (msglen h) by lia.
    rewrite <- (take_drop 8 d) at 1. f_equal. rewrite (head_of_inv _ _ Eh). by destruct h.
  - intros [-> Hi]. rewrite frame_bytes_length in Hd. unfold frame_bytes.
    rewrite head_of_bytes by (cbn; unfold is_i32 in *; lia). cbn [mbind option_bind msglen msgid].
    rewrite length_app, head_bytes_length.
    rewrite (proj2 (Z.leb_le _ _)) by lia. rewrite (proj2 (Z.eqb_eq _ _)) by lia.
    cbn [andb]. by destruct f.
Qed.

(** A datagram that is one whole message, alone. *)
Lemma do_read_one f from last cb arg w w' :
  last <> EINTR -> is_i32 (f_id f) ->
  Z.of_nat (length (frame_bytes f)) <= UDP_BUF ->
  call (f_id f) (u_router w) = Some (cb, arg) ->
  let buf := received (frame_bytes f) (_read_buf w) in
  run_msg cb (drop 8 buf) (Z.of_nat (length (f_data f))) (f_id f) arg (set_received buf from w)
    = Ret w' ->
  take (length (f_data f)) (drop 8 buf) = f_data f /\
  do_read [RecvData (frame_bytes f) from; RecvErr last] [] w = Ret (w', [(from, f)]).
Proof.
  intros Hlast Hid Hlen Hcall buf Hrun.
  assert (Eb : buf = head_bytes (mkHead (f_id f) (Z.of_nat (length (f_data f)))) ++
    f_data f ++ drop (length (frame_bytes f)) (_read_buf w)).
  { unfold buf, received. rewrite take_ge by lia. unfold frame_bytes. by rewrite <- app_assoc. }
  assert (Ed : drop 8 buf = f_data f ++ drop (length (frame_bytes f)) (_read_buf w))
    by (rewrite Eb; done).
  assert (Et : take (length (f_data f)) (drop 8 buf) = f_data f)
    by (rewrite Ed; by apply take_app_length).
  split; [done|]. cbn [do_read]. fold buf.
  change (_read_buf (set_received buf from w)) with buf.
  pose proof (frame_bytes_length f) as Hfl.
  unfold UDP_BUF, MESSAGE_LENGTH_LIMIT, MESSAGE_HEAD_LEN in *.
  assert (Eh : head_of buf = Some (mkHead (f_id f) (Z.of_nat (length (f_data f))))).
  { rewrite Eb. apply head_of_bytes; cbn; [done|unfold is_i32; lia]. }
  rewrite Eh. cbn [msglen msgid].
  unfold pkg_len, UDP_BUF, MESSAGE_LENGTH_LIMIT, MESSAGE_HEAD_LEN.
  replace (_ || _ || _) with false by
    (symmetry; rewrite !orb_false_iff, negb_false_iff, !Z.ltb_ge, Z.eqb_eq; lia).
  unfold udp_call. cbn [u_router set_received]. rewrite Hcall. cbn [mbind res_bind].
  rewrite Hrun. cbn [mbind res_bind do_read].
  rewrite Nat2Z.id, Et. destruct f; cbn. by destruct last.
Qed.

(** A handler returns, or exits. *)
Definition umsg_ok : Prop := forall cb data len id arg w,
  exits_or (run_msg cb data len id arg w) (fun w' => length (_read_buf w') = length (_read_buf
    w)).

Context (Hmsg : umsg_ok).

(** The head that [do_read] sees: the datagram's if it has one. *)
Lemma received_head d buf :
  length buf = Z.to_nat UDP_BUF -> Z.of_nat (length d) <= UDP_BUF ->
  exists h, head_of (received d buf) = Some h /\
    ((8 <= length d)%nat -> head_of d = Some h /\ drop 8 (received d buf) = drop 8 d ++ drop
      (length d) buf).
Proof.
  intros Hb Hd. unfold received. rewrite take_ge by lia.
  unfold UDP_BUF, MESSAGE_LENGTH_LIMIT, MESSAGE_HEAD_LEN in *.
  destruct (head_of_Some (d ++ drop (length d) buf)) as [h Eh];
    [rewrite length_app, length_drop; lia|].
  exists h. split; [done|]. intros H8. destruct (head_of_Some d H8) as [h' Eh'].
  pose proof (head_of_app _ (drop (length d) buf) _ Eh') as E2. split; [congruence|].
  by rewrite drop_app_le by lia.
Qed.

Lemma received_length d buf :
  length buf = Z.to_nat UDP_BUF -> Z.of_nat (length d) <= UDP_BUF ->
  length (received d buf) = Z.to_nat UDP_BUF.
Proof.
  intros Hb Hd. unfold received. rewrite take_ge by lia. rewrite length_app, length_drop. lia.
Qed.

Definition data_ans (x : ADDR * list byte) : recv_ans := RecvData x.2 x.1.

Lemma do_read_datagrams ds last : forall tr w,
  last <> EINTR -> length (_read_buf w) = Z.to_nat UDP_BUF ->
  Forall (fun x => Z.of_nat (length x.2) <= UDP_BUF) ds ->
  exits_or (do_read (map data_ans ds ++ [RecvErr last]) tr w) (fun '(w', tr') =>
    tr' = tr ++ omap (fun x => f ← udp_frame x.2; Some (x.1, f)) ds).
Proof.
  induction ds as [|[from d] ds IH]; intros tr w Hlast Hb Hds.
  { cbn. rewrite app_nil_r. by destruct last. }
  apply Forall_cons in Hds as [Hd Hds]. cbn [snd] in Hd.
  cbn [map app do_read data_ans fst snd]. set (w1 := set_received _ _ w).
  change (_read_buf w1) with (received d (_read_buf w)).
  destruct (received_head d _ Hb Hd) as (h & -> & Hh).
  assert (Hb1 : length (_read_buf w1) = Z.to_nat UDP_BUF) by (by apply received_length).
  cbn [omap list_omap fst snd]. unfold udp_frame. unfold pkg_len. rewrite Z.min_l by done.
  unfold MESSAGE_HEAD_LEN. rewrite len_ok_neg.
  destruct (decide (8 <= length d)%nat) as [H8|H8].
  - destruct (Hh H8) as [-> Hdr]. cbn [mbind option_bind].
    destruct (Z.eqb_spec (msglen h + 8) (Z.of_nat (length d))) as [Hl|Hl]; cbn [negb].
    2: { rewrite orb_true_r, andb_false_r. cbn [option_bind]. by apply IH. }
    assert (El : len_ok h = (0 <=? msglen h)).
    { destruct (Z.leb_spec 0 (msglen h)); [apply len_ok_spec|
        apply not_true_iff_false; rewrite len_ok_spec];
        unfold UDP_BUF, MESSAGE_LENGTH_LIMIT, MESSAGE_HEAD_LEN in *; lia. }
    rewrite El, orb_false_r, andb_true_r.
    destruct (Z.leb_spec 0 (msglen h)) as [Hp|Hp]; cbn [negb mbind option_bind]; [|by apply IH].
    rewrite Hdr.
    assert (Hcall : exits_or (udp_call (msgid h) (msglen h) (drop 8 d ++ drop (length d)
      (_read_buf w)) w1)
      (fun w' => length (_read_buf w') = length (_read_buf w1))).
    { unfold udp_call. destruct (call _ _) as [[cb arg]|]; [apply Hmsg|done]. }
    eapply exits_or_bind; [exact Hcall|]. intros w2 Hb2.
    assert (Ht : take (Z.to_nat (msglen h)) (drop 8 d ++ drop (length d) (_read_buf w)) = drop
      8 d).
    { apply take_app_length'. rewrite length_drop. lia. }
    rewrite Ht. eapply exits_or_mono; [apply (IH _ w2 Hlast); [congruence|done]|].
    intros [w' tr'] ->. by rewrite <- app_assoc.
  - (* a short datagram is refused, whatever the buffer held *)
    rewrite (proj2 (head_of_None d)) by lia. cbn [mbind option_bind].
    replace (negb (len_ok h) || negb (msglen h + 8 =? Z.of_nat (length d))) with true.
    { by apply IH. }
    symmetry. apply orb_true_iff. rewrite !negb_true_iff, Z.eqb_neq.
    destruct (len_ok h) eqn:El; [right|by left]. apply len_ok_spec in El. lia.
Qed.

(** One datagram, whatever it is. *)
Lemma do_read_single d from last w :
  last <> EINTR -> length (_read_buf w) = Z.to_nat UDP_BUF -> Z.of_nat (length d) <= UDP_BUF ->
  let w1 := set_received (received d (_read_buf w)) from w in
  do_read [RecvData d from; RecvErr last] [] w =
    match udp_frame d with
    | None => Ret (w1, [])
    | Some f =>
        w2 ← udp_call (f_id f) (Z.of_nat (length (f_data f)))
               (f_data f ++ drop (length d) (_read_buf w)) w1;
        Ret (w2, [(from, f)])
    end.
Proof.
  intros Hlast Hb Hd w1. cbn [do_read]. fold w1. change (_read_buf w1) with
    (received d (_read_buf w)).
  destruct (received_head d _ Hb Hd) as (h & -> & Hh).
  assert (Hend : forall w' tr, do_read [RecvErr last] tr w' = Ret (w', tr)) by (by destruct last).
  unfold udp_frame, pkg_len. rewrite Z.min_l by done. unfold MESSAGE_HEAD_LEN. rewrite len_ok_neg.
  destruct (decide (8 <= length d)%nat) as [H8|H8].
  - destruct (Hh H8) as [-> Hdr]. cbn [mbind option_bind]. rewrite Hdr.
    destruct (Z.eqb_spec (msglen h + 8) (Z.of_nat (length d))) as [Hl|Hl]; cbn [negb].
    2: { rewrite orb_true_r, andb_false_r. apply Hend. }
    assert (El : len_ok h = (0 <=? msglen h)).
    { destruct (Z.leb_spec 0 (msglen h)); [apply len_ok_spec|
        apply not_true_iff_false; rewrite len_ok_spec];
        unfold UDP_BUF, MESSAGE_LENGTH_LIMIT, MESSAGE_HEAD_LEN in *; lia. }
    rewrite El, orb_false_r, andb_true_r.
    destruct (Z.leb_spec 0 (msglen h)) as [Hp|Hp]; cbn [negb]; [|apply Hend].
    cbn [f_id f_data]. replace (Z.of_nat (length (drop 8 d))) with (msglen h)
      by (rewrite length_drop; lia).
    rewrite take_app_length' by (rewrite length_drop; lia).
    destruct (udp_call _ _ _ _) as [w2|]; [|done]. cbn [mbind res_bind app]. apply Hend.
  - rewrite (proj2 (head_of_None d)) by lia. cbn [mbind option_bind].
    replace (negb (len_ok h) || negb (msglen h + 8 =? Z.of_nat (length d))) with true.
    { apply Hend. }
    symmetry. apply orb_true_iff. rewrite !negb_true_iff, Z.eqb_neq.
    destruct (len_ok h) eqn:El; [right|by left]. apply len_ok_spec in El. lia.
Qed.

(** A read of several datagrams is the reads of each of them. *)
Lemma do_read_split d from ans last tr w :
  last <> EINTR ->
  do_read (RecvData d from :: ans) tr w =
    ('(w, tr) ← do_read [RecvData d from; RecvErr last] tr w; do_read ans tr w).
Proof.
  intros Hlast. cbn [do_read].
  assert (Hend : forall w' tr, do_read [RecvErr last] tr w' = Ret (w', tr)) by (by destruct last).
  destruct (head_of _) as [h|]; [|done]. destruct (_ || _ || _).
  - change (do_read [RecvErr last] tr ?x) with (do_read [RecvErr last] tr x). by destruct last.
  - destruct (udp_call _ _ _ _) as [w2|]; [|done]. cbn [mbind res_bind]. by destruct last.
Qed.

(** C23. The datagram services hand their router exactly the datagrams that are
    one whole message (a head that announces exactly the bytes that follow),
    each once, in the order of arrival, with its sender as the address of the
    reply; a datagram that is too short, too long or lies about its length is
    dropped, whatever an earlier one left in the receive buffer. *)
Theorem udp_do_read_exact ds last w :
  last <> EINTR -> length (_read_buf w) = Z.to_nat UDP_BUF ->
  Forall (fun x => Z.of_nat (length x.2) <= UDP_BUF) ds ->
  exits_or (do_read (map data_ans ds ++ [RecvErr last]) [] w) (fun '(w', tr) =>
    tr = omap (fun x => f ← udp_frame x.2; Some (x.1, f)) ds) /\
  (forall x f, x ∈ ds -> udp_frame x.2 = Some f <-> x.2 = frame_bytes f /\ is_i32 (f_id f)).
Proof.
  intros Hlast Hb Hds. split; [by apply (do_read_datagrams ds last [] w)|].
  intros x f Hx. apply udp_frame_bytes. rewrite Forall_forall in Hds. by apply Hds.
Qed.

(** [send_message] on every length. *)
Lemma udp_send ok data id w :
  let len := Z.of_nat (length data) in
  send_message ok data len id w =
    if 65527 <? len then Ret (-1, w)
    else if 65519 <? len then Fault OutOfBounds
    else if ok then Ret (len + 8, add_sent (_client_addr w, frame_bytes (mkFrame id data)) w)
    else Ret (-1, w).
Proof.
  intros len. unfold send_message, UDP_BUF, MESSAGE_LENGTH_LIMIT, MESSAGE_HEAD_LEN.
  change (65535 - 8) with 65527. destruct (Z.ltb_spec 65527 len); [done|].
  destruct (Z.ltb_spec 65519 len) as [Hbig|Hfit].
  - destruct (in_array 65527 8 len) eqn:Ea; [|done]. apply in_array_spec in Ea. lia.
  - rewrite (proj2 (andb_true_iff _ _)) by (rewrite !in_array_spec; unfold len; lia).
    cbn [check mbind res_bind]. unfold len. rewrite Nat2Z.id, take_ge by lia. by destruct ok.
Qed.

(** A message that the services accept to send may overflow the send
    buffer: the limit leaves no room for the head in a buffer of
    [MESSAGE_LENGTH_LIMIT] bytes.  Up to 65519 bytes the datagram is exactly
    the frame and goes to the sender of the last request; from 65520 to 65527
    bytes the copy runs over the end of [_write_buf]; above that (and only
    above that) the message is refused with -1. *)
Lemma udp_send_message_bounds ok data id w :
  let len := Z.of_nat (length data) in
  send_message ok data len id w =
    if 65527 <? len then Ret (-1, w)
    else if 65519 <? len then Fault OutOfBounds
    else if ok then Ret (len + 8, add_sent (_client_addr w, frame_bytes (mkFrame id data)) w)
    else Ret (-1, w).
Proof. apply udp_send. Qed.
End Udp.
Arguments Udp : clear implicits.
Arguments recv_ans : clear implicits.
Arguments RecvErr {ADDR} e.

Lemma udp_do_read_exact_witness :
  let ds := [(1%nat, frame_bytes (mkFrame 7 [x41])); (2%nat, [x01; x02]);
             (3%nat, frame_bytes (mkFrame 8 []) ++ [x00])] in
  exits_or (do_read (ADDR := nat) (V := unit) (U := unit) (fun _ _ _ _ _ w => Ret w)
      (map data_ans ds ++ [RecvErr EAGAIN]) []
      (mkUdp (replicate (Z.to_nat UDP_BUF) x00) 0%nat MsgRouter_new [] tt))
    (fun '(w', tr) => tr = [(1%nat, mkFrame 7 [x41])]).
Proof.
  intros ds.
  refine (proj1 (udp_do_read_exact (ADDR := nat) (V := unit) (U :=
    unit) (fun _ _ _ _ _ w => Ret w) _
    ds EAGAIN (mkUdp (replicate (Z.to_nat UDP_BUF) x00) 0%nat MsgRouter_new [] tt) _ _ _)).
  - intros cb data len id arg w. done.
  - done.
  - apply length_replicate.
  - unfold UDP_BUF, MESSAGE_LENGTH_LIMIT, MESSAGE_HEAD_LEN. repeat constructor; cbn; lia.
Defined.
