(* ===== verification/ConfigFile.v ===== *)
(** * ConfigFile: the configuration of the services
    (reactor/include/config_file.h, reactor/src/config_file.cpp)

    A [std::string] is a list of characters; the map of maps is a [gmap] of
    [gmap]s, and the pointer [m] of [Load] is the section it points to.  The
    file's contents are an argument of [Load].  [GetFloat], with the library's
    decimal conversions, is modelled in [ConfigFloat]. *)

From S2P Require Import Prelude CInt.
From stdpp Require Import strings.
From Stdlib Require Import Ascii.
Local Open Scope Z_scope.

Abbreviation str := (list ascii).
(** A string literal. *)
Definition lit (s : string) : str := String.list_ascii_of_string s.

Abbreviation STR_MAP := (gmap str (gmap str str)).

(** ** Characters *)

(** [isspace], in the C locale *)
Definition isspace (c : ascii) : bool :=
  let n := Z.of_N (N_of_ascii c) in (n =? 32) || ((9 <=? n) && (n <=? 13)).

(** [tolower], in the C locale *)
Definition tolower (c : ascii) : ascii :=
  let n := Z.of_N (N_of_ascii c) in
  if (65 <=? n) && (n <=? 90) then ascii_of_N (Z.to_N (n + 32)) else c.

Definition is_digit (c : ascii) : option Z :=
  let n := Z.of_N (N_of_ascii c) in
  if (48 <=? n) && (n <=? 57) then Some (n - 48) else None.

(** ** trim *)

Fixpoint trimLeft (s : str) : str :=
  match s with
  | [] => []
  | c :: s' => if isspace c then trimLeft s' else s
  end.

(** The loop of [trimRight] from the end: [r] are the characters before the
    iterator, last one first. *)
Fixpoint last_not_empty (r : str) (n : nat) : nat :=
  match r with
  | [] => n
  | c :: r' => if isspace c then last_not_empty r' (n - 1) else n
  end.

Definition trimRight (s : str) : str := take (last_not_empty (rev s) (length s)) s.

Definition trim (s : str) : str := trimLeft (trimRight s).

(** ** Loading *)

(** [isSection(line, section)]: the section, if the line is one. *)
Definition isSection (line : str) : option str :=
  let section := trim line in
  if (Z.of_nat (length section) <=? 2) then None
  else
    if bool_decide (head section = Some "["%char) &&
       bool_decide (last section = Some "]"%char)
    then Some (trim (take (length section - 2) (drop 1 section)))
    else None.

(** [line.find('=')], [substr] before and behind it. *)
Fixpoint cut_equ (line : str) : option (str * str) :=
  match line with
  | [] => None
  | c :: line' =>
      if decide (c = "="%char) then Some ([], line')
      else '(k, v) ← cut_equ line'; Some (c :: k, v)
  end.

(** The pieces that [getline] delivers. *)
Fixpoint split_lines (content : str) : list str :=
  match content with
  | [] => [[]]
  | c :: content' =>
      if decide (c = ascii_of_N 10) then [] :: split_lines content'
      else match split_lines content' with
           | [] => [[c]]
           | l :: ls => (c :: l) :: ls
           end
  end.

(** One round of the loop of [Load], on the map and the pointer [m]. *)
Definition load_line (line : str) (st : STR_MAP * option str) : res (STR_MAP * option str) :=
  let '(map, m) := st in
  match isSection line with
  | Some section =>
      Ret (match map !! section with Some _ => map | None => <[section := ∅]> map end,
           Some section)
  | None =>
      match cut_equ line with
      | None => Ret st
      | Some (k, v) =>
          let key := trim k in
          let value := trim v in
          match key with
          | [] => Ret st
          | c :: _ =>
              if bool_decide (c = "#"%char) || bool_decide (c = ";"%char) then Ret st
              else
                match m with
                | None => Fault NullDeref
                | Some section =>
                    Ret (<[section := <[key := value]> (default ∅ (map !! section))]> map, m)
                end
          end
      end
  end.

Fixpoint load_lines (lines : list str) (st : STR_MAP * option str) : res (STR_MAP * option str) :=
  match lines with
  | [] => Ret st
  | l :: lines' => st ← load_line l st; load_lines lines' st
  end.

(** [Load(path)]: [file] is [None] when it cannot be opened. *)
Definition Load (file : option str) (map : STR_MAP) : res (bool * STR_MAP) :=
  match file with
  | None => Ret (false, map)
  | Some content => '(map, _) ← load_lines (split_lines content) (map, None); Ret (true, map)
  end.

(** [setPath] creates the only object; a second call fails its [assert]. *)
Definition setPath (file : option str) (config : option STR_MAP)
    : res (bool * option STR_MAP) :=
  c_assert (bool_decide (config = None));;
  '(ok, map) ← Load file ∅; Ret (ok, Some map).

Definition instance (config : option STR_MAP) : res STR_MAP :=
  match config with Some map => Ret map | None => Fault AssertFail end.

(** ** Reading *)

Definition find_value (section key : str) (map : STR_MAP) : option str :=
  m ← map !! section; m !! key.

Definition GetString (section key default_value : str) (map : STR_MAP) : str :=
  default default_value (find_value section key map).

Fixpoint skip_ws (s : str) : str :=
  match s with
  | [] => []
  | c :: s' => if isspace c then skip_ws s' else s
  end.

Fixpoint digits (s : str) (acc : Z) : Z :=
  match s with
  | [] => acc
  | c :: s' => match is_digit c with Some d => digits s' (acc * 10 + d) | None => acc end
  end.

(** [iss >> v] for a [long long]: a sign and digits, at most the limits. *)
Definition read_ll (s : str) : Z :=
  match skip_ws s with
  | c :: s' =>
      if decide (c = "-"%char) then Z.max (- 2 ^ 63) (- digits s' 0)
      else if decide (c = "+"%char) then Z.min (2 ^ 63 - 1) (digits s' 0)
      else Z.min (2 ^ 63 - 1) (digits (c :: s') 0)
  | [] => 0
  end.

Definition parseNumber (s : str) : Z := u32 (read_ll s).

Definition GetNumber (section key : str) (default_value : Z) (map : STR_MAP) : Z :=
  match find_value section key map with
  | Some text => parseNumber text
  | None => default_value
  end.

Definition GetBool (section key : str) (default_value : bool) (map : STR_MAP) : bool :=
  match find_value section key map with
  | Some text => if bool_decide (tolower <$> text = lit "true") then true else default_value
  | None => default_value
  end.

(** ** GetStringList *)

(** The separators: comma, space and tabulator. *)
Definition is_sep (c : ascii) : bool :=
  bool_decide (c = ","%char) || bool_decide (c = " "%char) || bool_decide (c = ascii_of_N 9).

(** The piece up to the first separator, and what starts with it if there is one. *)
Fixpoint cut_sep (s : str) : str * option str :=
  match s with
  | [] => ([], None)
  | c :: s' =>
      if is_sep c then ([], Some s)
      else let '(piece, r) := cut_sep s' in (c :: piece, r)
  end.

Fixpoint skip_sep (s : str) : str :=
  match s with
  | [] => []
  | c :: s' => if is_sep c then skip_sep s' else s
  end.

Fixpoint split_sep (fuel : nat) (s : str) : res (list str) :=
  match fuel with
  | O => Fault Blocked
  | S fuel =>
      match cut_sep s with
      | (piece, None) => Ret [piece]
      | (piece, Some r) =>
          match skip_sep r with
          | [] => Ret [piece]
          | r' => ps ← split_sep fuel r'; Ret (piece :: ps)
          end
      end
  end.

Definition GetStringList (section key : str) (map : STR_MAP) : res (list str) :=
  let s := GetString section key [] map in split_sep (S (length s)) s.

(** ** Facts on trim *)

Definition spaces (s : str) : Prop := Forall (fun c => isspace c = true) s.

Lemma spaces_nil : spaces [].
Proof. apply Forall_nil_2. Qed.
#[local] Hint Resolve spaces_nil : core.

Lemma trimLeft_spaces pre s : spaces pre -> trimLeft (pre ++ s) = trimLeft s.
Proof. induction 1 as [|c pre Hc _ IH]; cbn; [done|]. by rewrite Hc. Qed.

Lemma trimLeft_keep s : (forall c, head s = Some c -> isspace c = false) -> trimLeft s = s.
Proof. destruct s as [|c s]; [done|]. intros H. cbn. by rewrite (H c). Qed.

Lemma spaces_rev s : spaces (rev s) <-> spaces s.
Proof.
  unfold spaces. split; [|apply Forall_rev]. intros H. rewrite <- (rev_involutive s).
  by apply Forall_rev.
Qed.

Lemma trimLeft_split s : exists pre, spaces pre /\ s = pre ++ trimLeft s.
Proof.
  induction s as [|c s (pre & Hp & Hs)]; [exists []; auto|]. cbn.
  destruct (isspace c) eqn:E; [|exists []; auto].
  exists (c :: pre). split; [by constructor|]. cbn. by rewrite <- Hs.
Qed.

Lemma last_not_empty_trim r n :
  (length r <= n)%nat -> last_not_empty r n = (n - (length r - length (trimLeft r)))%nat.
Proof.
  revert n. induction r as [|c r IH]; intros n Hn; cbn [last_not_empty trimLeft]; [cbn; lia|].
  cbn in Hn. destruct (isspace c); [|cbn; lia].
  destruct (trimLeft_split r) as (pre & _ & Hr). apply (f_equal length) in Hr.
  rewrite length_app in Hr. rewrite IH by lia. cbn [length]. lia.
Qed.

Lemma trimRight_eq s : trimRight s = rev (trimLeft (rev s)).
Proof.
  unfold trimRight. rewrite last_not_empty_trim by (rewrite length_rev; lia).
  rewrite length_rev.
  destruct (trimLeft_split (rev s)) as (pre & _ & Hr).
  pose proof (f_equal length Hr) as Hl. rewrite length_rev, length_app in Hl.
  assert (Hs : s = rev (trimLeft (rev s)) ++ rev pre).
  { rewrite <- (rev_involutive s) at 1. rewrite Hr at 1. apply rev_app_distr. }
  etrans; [by apply (f_equal (take _)), Hs|]. apply take_app_length'. rewrite length_rev. lia.
Qed.

(** Nothing to trim. *)
Definition clean (s : str) : Prop :=
  (forall c, head s = Some c -> isspace c = false) /\
  (forall c, last s = Some c -> isspace c = false).

Lemma head_rev (s : str) : head (rev s) = last s.
Proof.
  induction s as [|x s IH] using rev_ind; [done|].
  by rewrite rev_app_distr, last_snoc.
Qed.

(** Spaces around a clean string are what [trim] removes. *)
Lemma trim_pad a s b : spaces a -> clean s -> spaces b -> trim (a ++ s ++ b) = s.
Proof.
  intros Ha [Hh Hl] Hb. unfold trim. rewrite trimRight_eq, app_assoc, rev_app_distr.
  rewrite trimLeft_spaces by (by apply spaces_rev).
  destruct (decide (s = [])) as [->|Hne].
  - rewrite app_nil_r. rewrite <- (app_nil_r (rev a)), trimLeft_spaces by (by apply spaces_rev).
    done.
  - rewrite (trimLeft_keep (rev (a ++ s))).
    + rewrite rev_involutive, trimLeft_spaces by done. by apply trimLeft_keep.
    + intros c. rewrite head_rev, last_app. destruct (last s) eqn:E; [intros [= <-]; by apply
      Hl|].
      by apply last_None in E.
Qed.

Lemma trim_clean s : clean s -> trim s = s.
Proof. intros Hc. rewrite <- (app_nil_r s) at 1. apply (trim_pad [] s []); auto. Qed.

(** And [trim] always returns a clean string. *)
Lemma clean_trim s : clean (trim s).
Proof.
  assert (Hh : forall s c, head (trimLeft s) = Some c -> isspace c = false).
  { clear. intros s c. induction s as [|x s IH]; [done|]. cbn.
    destruct (isspace x) eqn:E; [done|]. by intros [= <-]. }
  split; [apply Hh|]. intros c. unfold trim. rewrite trimRight_eq.
  set (r := trimLeft (rev s)).
  destruct (trimLeft_split (rev r)) as (pre & _ & Hr). intros Hc.
  apply (Hh (rev s) c). fold r. rewrite <- (rev_involutive r), head_rev, Hr, last_app.
  by rewrite Hc.
Qed.

(** ** Configuration files as lists of items *)

Inductive item : Type :=
  | ISection (name : str)         (** [[name]] *)
  | IKey (key value : str)        (** [key = value] *)
  | INote (text : str).           (** a comment or a blank line *)

Definition nl : ascii := ascii_of_N 10.
Definition no_char (c : ascii) (s : str) : Prop := Forall (fun x => x <> c) s.

Definition render (i : item) : str :=
  match i with
  | ISection name => lit "[" ++ name ++ lit "]"
  | IKey key value => key ++ lit " = " ++ value
  | INote text => text
  end.

(** The file: every line ends with a newline. *)
Definition render_file (its : list item) : str := concat ((fun i => render i ++ [nl]) <$> its).

Definition item_ok (i : item) : Prop :=
  no_char nl (render i) /\
  match i with
  | ISection name => name <> [] /\ clean name
  | IKey key value => clean key /\ clean value /\ no_char "="%char key /\
      exists c, head key = Some c /\ c <> "["%char /\ c <> "#"%char /\ c <> ";"%char
  | INote text => text = [] \/ head text = Some "#"%char
  end.

(** What a file means: sections accumulate, later values replace earlier ones;
    a key before the first section has no place. *)
Fixpoint meaning (its : list item) (map : STR_MAP) (cur : option str) : option STR_MAP :=
  match its with
  | [] => Some map
  | ISection name :: its =>
      meaning its (match map !! name with Some _ => map | None => <[name :=
        ∅]> map end) (Some name)
  | IKey key value :: its =>
      match cur with
      | None => None
      | Some name => meaning its (<[name := <[key := value]> (default ∅ (map !! name))]> map) cur
      end
  | INote _ :: its => meaning its map cur
  end.

Lemma split_lines_cons l rest : no_char nl l -> split_lines (l ++ nl :: rest) = l ::
  split_lines rest.
Proof.
  induction 1 as [|c l Hc _ IH]; cbn [app split_lines].
  - by rewrite decide_True.
  - rewrite decide_False by done. by rewrite IH.
Qed.

Lemma split_render its :
  Forall item_ok its -> split_lines (render_file its) = (render <$> its) ++ [[]].
Proof.
  induction 1 as [|i its [Hnl _] _ IH]; [done|].
  unfold render_file. cbn [fmap list_fmap concat]. rewrite <- app_assoc. cbn [app].
  rewrite split_lines_cons by done. f_equal. exact IH.
Qed.

Lemma cut_equ_spec k v : no_char "="%char k -> cut_equ (k ++ "="%char :: v) = Some (k, v).
Proof.
  induction 1 as [|c k Hc _ IH]; cbn [app cut_equ]; [by rewrite decide_True|].
  rewrite decide_False by done. by rewrite IH.
Qed.

(** What starts without a space still does when trimmed. *)
Lemma trim_head s c : head s = Some c -> isspace c = false -> head (trim s) = Some c.
Proof.
  intros Hh Hc. unfold trim. rewrite trimRight_eq.
  destruct (trimLeft_split (rev s)) as (pre & Hp & Hr).
  apply (f_equal (@rev _)) in Hr. rewrite rev_involutive, rev_app_distr in Hr.
  set (x := rev (trimLeft (rev s))) in *. destruct x as [|c' x].
  - exfalso. apply spaces_rev in Hp. cbn in Hr. rewrite <- Hr in Hp.
    destruct s as [|c' s]; [done|]. injection Hh as ->. inversion Hp. congruence.
  - rewrite Hr in Hh. injection Hh as ->. rewrite trimLeft_keep; [done|]. by intros c' [= <-].
Qed.

Lemma isSection_head s c :
  head s = Some c -> isspace c = false -> c <> "["%char -> isSection s = None.
Proof.
  intros Hh Hc Hb. unfold isSection. case_match; [done|].
  rewrite (trim_head s c Hh Hc). rewrite bool_decide_eq_false_2; [done|congruence].
Qed.

Lemma load_line_ok i map cur :
  item_ok i ->
  load_line (render i) (map, cur) =
    match i with
    | ISection name =>
        Ret (match map !! name with Some _ => map | None => <[name := ∅]> map end, Some name)
    | IKey key value =>
        match cur with
        | None => Fault NullDeref
        | Some name => Ret (<[name := <[key := value]> (default ∅ (map !! name))]> map, cur)
        end
    | INote _ => Ret (map, cur)
    end.
Proof.
  intros [Hnl Hi]. unfold load_line. destruct i as [name|key value|text]; cbn [render] in *.
  - destruct Hi as [Hne Hc].
    assert (Hs : isSection (lit "[" ++ name ++ lit "]") = Some name).
    { assert (Hlast : last (lit "[" ++ name ++ lit "]") = Some "]"%char).
      { rewrite app_assoc. apply last_snoc. }
      unfold isSection. rewrite trim_clean.
      2: { split; [by intros c [= <-]|]. intros c. rewrite Hlast. by intros [= <-]. }
      rewrite !length_app. cbn [lit String.list_ascii_of_string length].
      rewrite (proj2 (Z.leb_gt _ _)) by (destruct name; [done|cbn; lia]).
      rewrite bool_decide_eq_true_2 by done. rewrite (bool_decide_eq_true_2 (last _ = _)) by done.
      cbn [andb]. change (drop 1 (["["%char] ++ name ++ ["]"%char])) with (name ++ ["]"%char]).
      rewrite take_app_length' by lia. by rewrite trim_clean. }
    by rewrite Hs.
  - destruct Hi as (Hk & Hv & Heq & c & Hh & Hb & Hs & Hc).
    destruct key as [|c' key]; [done|]. injection Hh as ->.
    assert (Hline : (c :: key) ++ lit " = " ++ value = ((c :: key) ++ [" "%char]) ++ "="%char
      :: " "%char :: value)
      by (rewrite <- app_assoc; reflexivity).
    assert (Hsec : isSection ((c :: key) ++ lit " = " ++ value) = None).
    { apply (isSection_head _ c); [done| |done]. by apply (proj1 Hk). }
    rewrite Hsec, Hline, cut_equ_spec.
    2: { unfold no_char in *. apply Forall_app. split; [done|]. by constructor. }
    assert (Hsp : spaces [" "%char]) by (by constructor).
    pose proof (trim_pad [] (c :: key) [" "%char] (Forall_nil_2 _) Hk Hsp) as E1.
    cbn [app] in E1 |- *.
    rewrite E1. pose proof (trim_pad [" "%char] value [] Hsp Hv (Forall_nil_2 _)) as E2.
    rewrite app_nil_r in E2. cbn [app] in E2. rewrite E2.
    rewrite bool_decide_eq_false_2 by done. rewrite bool_decide_eq_false_2 by done. done.
  - destruct Hi as [-> | Hh]; [done|]. destruct text as [|c text]; [done|]. injection Hh as ->.
    rewrite (isSection_head _ "#"%char) by done.
    destruct (cut_equ ("#"%char :: text)) as [[k v]|] eqn:Ecut; [|done].
    assert (Hk : head (trim k) = Some "#"%char).
    { cbn in Ecut. destruct (cut_equ text) as [[k' v']|]; [|done]. injection Ecut as <- <-.
      by apply trim_head. }
    destruct (trim k) as [|c k']; [done|]. injection Hk as ->. done.
Qed.

(** C24. Reading back what is written: for every file of sections, keys, comments
    and blank lines (names and values without surrounding spaces, no ['='] in a
    key), [Load] builds exactly the map the file means, so that [GetString] and
    [GetNumber] find for each section and key the last value given; a key before
    the first section dereferences the null map pointer. *)
Theorem load_render its :
  Forall item_ok its ->
  Load (Some (render_file its)) ∅ =
    match meaning its ∅ None with
    | Some map => Ret (true, map)
    | None => Fault NullDeref
    end.
Proof.
  intros Hits. unfold Load. rewrite split_render by done. generalize (None (A := str)) as cur.
  generalize (∅ : STR_MAP) as map. induction Hits as [|i its Hi Hits IH]; intros map cur; [done|].
  cbn [fmap list_fmap app load_lines]. rewrite load_line_ok by done.
  destruct i as [name|key value|text]; cbn [meaning mbind res_bind].
  - apply IH.
  - destruct cur as [name|]; [apply IH|done].
  - apply IH.
Qed.

Definition demo_items : list item :=
  [INote (lit "# the services"); ISection (lit "reactor"); IKey (lit "maxConn") (lit "1024");
   IKey (lit "ip") (lit "127.0.0.1"); INote []; ISection (lit "mysql");
   IKey (lit "db_reconnect") (lit "true"); ISection (lit "reactor");
   IKey (lit "maxConn") (lit "16")].

Lemma load_render_witness :
  Load (Some (render_file demo_items)) ∅ =
    match meaning demo_items ∅ None with
    | Some map => Ret (true, map)
    | None => Fault NullDeref
    end /\
  option_map (GetNumber (lit "reactor") (lit "maxConn") 0) (meaning demo_items ∅ None) = Some 16.
Proof.
  split; [|reflexivity]. apply load_render.
  unfold demo_items, item_ok, clean, no_char, nl.
  repeat first [apply Forall_nil_2 | apply Forall_cons_2].
  all: cbn; repeat split.
  all: first
    [ by intros c [= <-] | by eexists | by left | by right | done
    | by apply (bool_decide_eq_true_1 (Forall _ _)) | by repeat constructor ].
Defined.

(** *** GetStringList *)

(** A piece without separators. *)
Definition piece_ok (p : str) : Prop := Forall (fun c => is_sep c = false) p.
(** One or more separators. *)
Definition sep_ok (s : str) : Prop := s <> [] /\ Forall (fun c => is_sep c = true) s.

(** A list of pieces, each with the separators behind it, and a last piece. *)
Definition join (ps : list (str * str)) (tl : str) : str :=
  foldr (fun x acc => x.1 ++ x.2 ++ acc) tl ps.

Lemma cut_sep_piece p r :
  piece_ok p -> (forall c, head r = Some c -> is_sep c = true) ->
  cut_sep (p ++ r) = (p, match r with [] => None | _ => Some r end).
Proof.
  intros Hp Hr. induction Hp as [|c p Hc _ IH]; cbn [app cut_sep].
  - destruct r as [|c r]; [done|]. cbn. by rewrite (Hr c).
  - by rewrite Hc, IH.
Qed.

Lemma cut_sep_length s piece r :
  cut_sep s = (piece, Some r) -> s = piece ++ r /\ r <> [].
Proof.
  revert piece. induction s as [|c s IH]; intros piece; cbn; [done|].
  destruct (is_sep c); [by intros [= <- <-]|].
  destruct (cut_sep s) as [p' [r'|]]; [|done]. intros [= <- <-].
  destruct (IH p' eq_refl) as [-> ?]. done.
Qed.

Lemma skip_sep_app s r :
  Forall (fun c => is_sep c = true) s -> (forall c, head r = Some c -> is_sep c = false) ->
  skip_sep (s ++ r) = r.
Proof.
  intros Hs Hr. induction Hs as [|c s Hc _ IH]; cbn [app skip_sep].
  - destruct r as [|c r]; [done|]. cbn. by rewrite (Hr c).
  - by rewrite Hc.
Qed.

Lemma skip_sep_length s : (length (skip_sep s) <= length s)%nat.
Proof. induction s as [|c s IH]; cbn; [lia|]. destruct (is_sep c); cbn; lia. Qed.

Lemma skip_sep_shorter s piece r :
  cut_sep s = (piece, Some r) -> (length (skip_sep r) < length s)%nat.
Proof.
  revert piece. induction s as [|c s IH]; intros piece; cbn; [done|].
  destruct (is_sep c) eqn:E.
  - intros [= <- <-]. cbn. rewrite E. pose proof (skip_sep_length s). lia.
  - destruct (cut_sep s) as [p' [r'|]]; [|done]. intros [= <- <-].
    specialize (IH p' eq_refl). lia.
Qed.

Lemma split_sep_total fuel : forall s, (length s < fuel)%nat ->
  exists ps, split_sep fuel s = Ret ps.
Proof.
  induction fuel as [|fuel IH]; intros s Hf; [lia|]. cbn [split_sep].
  destruct (cut_sep s) as [piece [r|]] eqn:E; [|by eexists].
  pose proof (skip_sep_shorter _ _ _ E). destruct (skip_sep r) as [|c r']; [by eexists|].
  destruct (IH (c :: r') ltac:(lia)) as [ps ->]. by eexists.
Qed.

Lemma split_sep_join fuel : forall ps tl,
  Forall (fun x => x.1 <> [] /\ piece_ok x.1 /\ sep_ok x.2) ps -> tl <> [] -> piece_ok tl ->
  (length (join ps tl) < fuel)%nat -> split_sep fuel (join ps tl) = Ret (ps.*1 ++ [tl]).
Proof.
  induction fuel as [|fuel IH]; intros ps tl Hps Hne Htl Hf; [lia|]. cbn [split_sep].
  destruct Hps as [|[p s] ps (Hp0 & Hp & Hs0 & Hs) Hps].
  - cbn [join foldr]. pose proof (cut_sep_piece tl [] Htl ltac:(done)) as E.
    rewrite app_nil_r in E. by rewrite E.
  - cbn [join foldr fst snd] in Hf |- *. fold (join ps tl) in Hf |- *.
    cbn [fst snd] in Hp0, Hp, Hs0, Hs.
    assert (Hj : forall c, head (join ps tl) = Some c -> is_sep c = false).
    { intros c. destruct Hps as [|[p' s'] ps' (Hp0' & Hp' & _) _]; cbn.
      - destruct Htl; [done|]. by intros [= <-].
      - cbn in Hp0', Hp'. destruct Hp'; [done|]. by intros [= <-]. }
    rewrite cut_sep_piece; [|done|].
    2: { intros c. destruct Hs; [done|]. by intros [= <-]. }
    destruct s as [|c s]; [done|]. cbn [app].
    change (c :: s ++ join ps tl) with ((c :: s) ++ join ps tl).
    rewrite (skip_sep_app (c :: s)) by done.
    assert (Hlen : (length (join ps tl) < fuel)%nat).
    { rewrite !length_app in Hf. cbn in Hf. lia. }
    destruct (join ps tl) as [|c' j] eqn:Ej.
    { destruct Hps as [|[p' s'] ps' (Hp0' & _) _]; cbn in Ej; [done|].
      cbn in Hp0'. by destruct p'. }
    rewrite <- Ej in Hlen |- *. rewrite IH by done. done.
Qed.

(** [GetStringList] always returns, and on a value made of pieces separated
    by any number of commas, spaces and tabulators it returns exactly the
    pieces. *)
Lemma GetStringList_pieces section key map ps tl :
  Forall (fun x => x.1 <> [] /\ piece_ok x.1 /\ sep_ok x.2) ps -> tl <> [] -> piece_ok tl ->
  find_value section key map = Some (join ps tl) ->
  GetStringList section key map = Ret (ps.*1 ++ [tl]) /\
  forall section' key', exists l, GetStringList section' key' map = Ret l.
Proof.
  intros Hps Hne Htl Hv. split.
  - unfold GetStringList, GetString. rewrite Hv. cbn [default].
    apply split_sep_join; auto with lia.
  - intros section' key'. unfold GetStringList. apply split_sep_total. lia.
Qed.

Lemma GetStringList_pieces_witness :
  GetStringList (lit "a") (lit "l") {[lit "a" := {[lit "l" := lit "x, y,	z"]}]} =
    Ret [lit "x"; lit "y"; lit "z"].
Proof.
  refine (proj1 (GetStringList_pieces (lit "a") (lit "l") _
    [(lit "x", lit ", "); (lit "y", lit ",	")] (lit "z") _ _ _ _)).
  - repeat constructor; done.
  - done.
  - by repeat constructor.
  - reflexivity.
Defined.

(** A switch that is on by default cannot be switched off. *)
Lemma GetBool_default_true section key map : GetBool section key true map = true.
Proof. unfold GetBool. destruct (find_value _ _ _); [|done]. by case_bool_decide. Qed.

(** The digits that programs write are the ones that are read. *)
Lemma is_digit_digit d : 0 <= d < 10 -> is_digit (ascii_of_N (Z.to_N (48 + d))) = Some d.
Proof.
  intros Hd. unfold is_digit. rewrite N_ascii_embedding by lia.
  rewrite Z2N.id by lia.
  rewrite (proj2 (Z.leb_le 48 _)), (proj2 (Z.leb_le _ 57)) by lia. cbn [andb]. f_equal. lia.
Qed.
