(* ===== verification/ConfigFloat.v ===== *)
(** * ConfigFloat: [ConfigFile::GetFloat] (reactor/src/config_file.cpp)

    The default goes through its own text: it is written to a stream and read
    back like the value of a key.  Both conversions are those of the C++ library
    with its default settings: [operator<<] writes six significant digits
    ([%g]), [operator>>] reads the longest text that looks like a number and
    rounds it to the nearest [float].  A [float] is a binary32 of [SpecFloat]. *)

From S2P Require Import Prelude CInt ConfigFile.
From stdpp Require Import strings.
From Stdlib Require Import Floats.SpecFloat Ascii.
Local Open Scope Z_scope.

(** ** Reading *)

Fixpoint take_digits (s : str) : list Z * str :=
  match s with
  | [] => ([], [])
  | c :: s' =>
      match is_digit c with
      | Some d => let '(ds, r) := take_digits s' in (d :: ds, r)
      | None => ([], s)
      end
  end.

Definition number (ds : list Z) : Z := foldl (fun acc d => acc * 10 + d) 0 ds.

Definition take_sign (s : str) : bool * str :=
  match s with
  | c :: s' =>
      if decide (c = "-"%char) then (true, s')
      else if decide (c = "+"%char) then (false, s') else (false, s)
  | [] => (false, s)
  end.

(** The decimal (-1)^neg * m * 10^e at the start of a text; [None] when there
    is none, or an [e] without an exponent. *)
Definition scan_float (s : str) : option (bool * Z * Z) :=
  let '(neg, s) := take_sign s in
  let '(ip, s) := take_digits s in
  let '(fp, s) :=
    match s with
    | c :: s' => if decide (c = "."%char) then take_digits s' else ([], s)
    | [] => ([], s)
    end in
  match ip ++ fp with
  | [] => None
  | ds =>
      let e := - Z.of_nat (length fp) in
      match s with
      | c :: s' =>
          if bool_decide (c = "e"%char) || bool_decide (c = "E"%char) then
            let '(eneg, s') := take_sign s' in
            match (take_digits s').1 with
            | [] => None
            | es => Some (neg, number ds, (if eneg then - number es else number es) + e)
            end
          else Some (neg, number ds, e)
      | [] => Some (neg, number ds, e)
      end
  end.

(** The nearest [float]. *)
Definition float_of (neg : bool) (m e : Z) : spec_float :=
  match m with
  | Z.pos p =>
      if 0 <=? e then
        binary_normalize 24 128 (if neg then - (m * 10 ^ e) else m * 10 ^ e) 0 neg
      else SFdiv 24 128 (S754_finite neg p 0) (S754_finite false (Z.to_pos (10 ^ (- e))) 0)
  | _ => S754_zero neg
  end.

(** [stream >> fresult]: [None] when it fails; a number that is too large does. *)
Definition read_float (s : str) : option spec_float :=
  '(neg, m, e) ← scan_float (skip_ws s);
  match float_of neg m e with
  | S754_infinity _ | S754_nan => None
  | f => Some f
  end.

(** ** Writing *)

(** 10^x <= num / den *)
Definition ten_le (x num den : Z) : bool :=
  if 0 <=? x then 10 ^ x * den <=? num else den <=? num * 10 ^ (- x).

(** The exponent of the first significant digit; those of a [float] are between
    -45 and 38. *)
Definition ten_exp (num den : Z) : Z :=
  default (-45) (last (filter (fun x => ten_le x num den = true) (seqZ (-45) 84))).

(** num / den, to the nearest integer, ties to even. *)
Definition div_even (num den : Z) : Z :=
  let q := num / den in
  let r := num mod den in
  if (2 * r <? den) || ((2 * r =? den) && Z.even q) then q else q + 1.

(** The six significant digits as a number, and the exponent of the first. *)
Definition six_digits (num den : Z) : Z * Z :=
  let x := ten_exp num den in
  let s := 5 - x in
  let d := if 0 <=? s then div_even (num * 10 ^ s) den else div_even num (den * 10 ^ (- s)) in
  if d =? 10 ^ 6 then (10 ^ 5, x + 1) else (d, x).

Definition digit (d : Z) : ascii := ascii_of_N (Z.to_N (48 + d)).

(** The [n] low decimal digits. *)
Fixpoint fixed_digits (n : nat) (z : Z) : str :=
  match n with
  | O => []
  | S n' => fixed_digits n' (z / 10) ++ [digit (z mod 10)]
  end.

Fixpoint drop_zeros (s : str) : str :=
  match s with
  | [] => []
  | c :: s' => if decide (c = "0"%char) then drop_zeros s' else s
  end.

Definition strip_zeros (s : str) : str := rev (drop_zeros (rev s)).

(** The fraction with its point, nothing when it is zero. *)
Definition fraction (s : str) : str :=
  match strip_zeros s with [] => [] | s' => "."%char :: s' end.

Definition show_digits (d x : Z) : str :=
  let ds := fixed_digits 6 d in
  if (-4 <=? x) && (x <? 6) then
    if 0 <=? x then take (Z.to_nat (x + 1)) ds ++ fraction (drop (Z.to_nat (x + 1)) ds)
    else lit "0" ++ fraction (replicate (Z.to_nat (- x - 1)) "0"%char ++ ds)
  else
    take 1 ds ++ fraction (drop 1 ds) ++ lit "e" ++ (if x <? 0 then lit "-" else lit "+")
    ++ fixed_digits 2 (Z.abs x).

(** [stream << value] *)
Definition show_float (f : spec_float) : str :=
  let sign (neg : bool) (s : str) := if neg then "-"%char :: s else s in
  match f with
  | S754_zero neg => sign neg (lit "0")
  | S754_infinity neg => sign neg (lit "inf")
  | S754_nan => lit "nan"
  | S754_finite neg m e =>
      let '(num, den) := if 0 <=? e then (Z.pos m * 2 ^ e, 1) else (Z.pos m, 2 ^ (- e)) in
      let '(d, x) := six_digits num den in
      sign neg (show_digits d x)
  end.

(** ** GetFloat *)

Definition GetFloat (section key : str) (default_value : spec_float) (map : STR_MAP)
    : spec_float :=
  let default_value_str := show_float default_value in
  let text := GetString section key default_value_str map in
  match read_float text with Some fresult => fresult | None => S754_zero false end.

(** ** Decimals *)

Lemma take_digits_digits ds s :
  Forall (fun d => 0 <= d < 10) ds ->
  match s with c :: _ => is_digit c = None | [] => True end ->
  take_digits ((digit <$> ds) ++ s) = (ds, s).
Proof.
  induction 1 as [|d ds Hd _ IH]; intros Hs; cbn [fmap list_fmap app take_digits].
  - destruct s as [|c s]; [done|]. cbn. by rewrite Hs.
  - unfold digit at 1. by rewrite is_digit_digit, IH.
Qed.

(** The value of a key written as a decimal, "12.345", is read as this number. *)
Lemma scan_decimal ip fp :
  Forall (fun d => 0 <= d < 10) ip -> Forall (fun d => 0 <= d < 10) fp -> ip <> [] ->
  scan_float ((digit <$> ip) ++ "."%char :: (digit <$> fp)) =
    Some (false, number (ip ++ fp), - Z.of_nat (length fp)).
Proof.
  intros Hi Hf Hne. unfold scan_float.
  assert (Es : take_sign ((digit <$> ip) ++ "."%char :: (digit <$> fp)) =
    (false, (digit <$> ip) ++ "."%char :: (digit <$> fp))).
  { destruct Hi as [|d ip Hd _]; [done|]. cbn [fmap list_fmap app take_sign].
    pose proof (is_digit_digit d Hd) as E1. rewrite !decide_False; [done|..];
      intros Hc; unfold digit in Hc; rewrite Hc in E1; discriminate E1. }
  rewrite Es, take_digits_digits by done. rewrite decide_True by done.
  pose proof (take_digits_digits fp [] Hf I) as E1. rewrite app_nil_r in E1. rewrite E1.
  destruct ip as [|d ip]; [done|]. reflexivity.
Qed.

(** The defaults of the agent survive the way through their text. *)
Lemma GetFloat_defaults section key :
  GetFloat section key (float_of false 1 (-1)) ∅ = float_of false 1 (-1) /\
  GetFloat section key (float_of false 92 (-2)) ∅ = float_of false 92 (-2) /\
  GetFloat section key (float_of false 7 (-1)) ∅ = float_of false 7 (-1).
Proof.
  unfold GetFloat, GetString, find_value. rewrite lookup_empty. cbn [mbind option_bind default].
  by split_and!; vm_compute.
Qed.
