(* ===== verification/Protobuf.v ===== *)
(** * Protobuf: the runtime library under the generated messages

    [base/proto/lbrss.pb.cpp] is code of this repository; the library that it
    calls (the varint readers and writers, the unknown fields, the driver that
    [ParseFromArray] and [SerializeToString] are) is not.  [PbRuntime] has one
    operation for each function of the library that the generated code uses,
    [PbLaws] what the library documents of them.  The parser that all generated
    messages share, a loop around a [switch], is here too, with the lemmas that
    reduce a message's parser to its [switch]. *)

From S2P Require Import Prelude CInt.
From Stdlib Require Import Strings.Byte.
Local Open Scope Z_scope.

(** How [_InternalParse] ends: with a null pointer, at the end of its input, or
    behind a tag that is 0 or closes a group ([SetLastTag]).  [Exhausted] is no
    end of the code: a loop of the model has used up its turns ([codec_stops]). *)
Inductive outcome : Type :=
  | Failed
  | AtLimit
  | AtTag (tag : Z) (rest : list byte)
  | Exhausted.

(** The pointer that a case of the [switch] leaves: into the input, null, or
    none yet when its loop has used up its turns. *)
Inductive pointer : Type :=
  | At (bs : list byte)
  | Null
  | OutOfTurns.

Definition ptr_of (ptr : option (list byte)) : pointer :=
  match ptr with Some bs => At bs | None => Null end.

(** ** The library *)

(** A pointer into the input is the bytes from there to the end of the current
    message; the pointer that a reader leaves is [None] when it is null. *)
Class PbRuntime : Type := {
  UnknownFieldSet : Type;
  ufs_empty : UnknownFieldSet;
  ufs_merge : UnknownFieldSet -> UnknownFieldSet -> UnknownFieldSet;
  have_unknown_fields : UnknownFieldSet -> bool;
  (* reading *)
  ReadTag : list byte -> option (Z * list byte);
  ReadVarint64 : list byte -> Z * option (list byte);
  ReadVarint32 : list byte -> Z * option (list byte);
  DataAvailable : list byte -> bool;
  ExpectTag : Z -> list byte -> bool;
  UnknownFieldParse : Z -> UnknownFieldSet -> list byte -> UnknownFieldSet * option (list byte);
  ParseMessage : forall M : Type, (M -> list byte -> M * outcome) -> M -> list byte ->
    M * option (list byte);
  (* writing: the bytes that are added at [target] *)
  WriteInt32ToArray : Z -> Z -> list byte;
  WriteUInt32ToArray : Z -> Z -> list byte;
  WriteBoolToArray : Z -> bool -> list byte;
  InternalWriteMessage : Z -> Z -> list byte -> list byte;
  InternalSerializeUnknownFieldsToArray : UnknownFieldSet -> list byte;
  (* sizes *)
  Int32Size : Z -> Z;
  UInt32Size : Z -> Z;
  LengthDelimitedSize : Z -> Z;
  ComputeUnknownFieldsSize : UnknownFieldSet -> Z -> Z;
  ToCachedSize : Z -> Z;
  (* the driver: [SerializeToString] and [ParseFromArray] of a message class *)
  SerializeMessage : forall M : Type, (M -> Z * M) -> (M -> list byte) -> M -> list byte;
  ParseWhole : forall M : Type, (M -> M) -> (M -> list byte -> M * outcome) -> M -> list byte ->
    M * bool
}.
Arguments ParseMessage {_ M} parse m bs.
Arguments SerializeMessage {_ M} size write m.
Arguments ParseWhole {_ M} clear parse m bs.

Section Loop.
Context {PB : PbRuntime}.

(** [(tag & 7) == 4 || tag == 0] *)
Definition ends_message (tag : Z) : bool := (Z.land tag 7 =? 4) || (tag =? 0).

(** [static_cast<uint8>(tag)] *)
Definition u8 (tag : Z) : Z := tag `mod` 2 ^ 8.

Context {M : Type}.
(** The unknown fields of a message, and the cases of its [switch]: [None] for
    [goto handle_unusual] and the default, otherwise the message and the
    pointer that the case leaves. *)
Variable (meta : M -> UnknownFieldSet) (set_meta : UnknownFieldSet -> M -> M).
Variable field : Z -> M -> list byte -> option (M * pointer).

(** The [while (!ctx->Done(&ptr))] of [_InternalParse]. *)
Fixpoint parse_loop (fuel : nat) (m : M) (bs : list byte) : M * outcome :=
  match bs with
  | [] => (m, AtLimit)
  | _ =>
    match fuel with
    | O => (m, Exhausted)
    | S fuel =>
      match ReadTag bs with
      | None => (m, Failed)
      | Some (tag, bs) =>
        match field tag m bs with
        | Some (m, At bs) => parse_loop fuel m bs
        | Some (m, Null) => (m, Failed)
        | Some (m, OutOfTurns) => (m, Exhausted)
        | None =>
          if ends_message tag then (m, AtTag tag bs)
          else
            let '(u, ptr) := UnknownFieldParse tag (meta m) bs in
            let m := set_meta u m in
            match ptr with
            | None => (m, Failed)
            | Some bs => parse_loop fuel m bs
            end
        end
      end
    end
  end.

(** Every turn reads at least one byte. *)
Definition run (m : M) (bs : list byte) : M * outcome := parse_loop (length bs) m bs.
End Loop.

(** The cases of a scalar field: [x_ = ReadVarint64(&ptr)] for [int32] and
    [bool], [ReadVarint32] for [uint32]. *)
Section Fields.
Context {PB : PbRuntime} {M : Type}.

Definition int32_case (set : Z -> M -> M) (m : M) (bs : list byte) : option (M * pointer) :=
  let '(v, ptr) := ReadVarint64 bs in Some (set (i32 v) m, ptr_of ptr).
Definition uint32_case (set : Z -> M -> M) (m : M) (bs : list byte) : option (M * pointer) :=
  let '(v, ptr) := ReadVarint32 bs in Some (set v m, ptr_of ptr).
Definition bool_case (set : bool -> M -> M) (m : M) (bs : list byte) : option (M * pointer) :=
  let '(v, ptr) := ReadVarint64 bs in Some (set (negb (v =? 0)) m, ptr_of ptr).

(** The case of a repeated message: [do ... while (ExpectTag<tag>(ptr))]. *)
Fixpoint repeated_loop {A : Type} (fuel : nat) (tag : Z) (fresh : A)
    (parse : A -> list byte -> A * outcome) (add : A -> M -> M) (m : M) (bs : list byte)
    : M * pointer :=
  match fuel with
  | O => (m, OutOfTurns)
  | S fuel =>
      let '(a, ptr) := ParseMessage parse fresh bs in
      let m := add a m in
      match ptr with
      | None => (m, Null)
      | Some bs =>
          if DataAvailable bs && ExpectTag tag bs
          then repeated_loop fuel tag fresh parse add m (drop 1 bs)
          else (m, At bs)
      end
  end.

Definition repeated_case {A : Type} (tag : Z) (fresh : A) (parse : A -> list byte -> A * outcome)
    (add : A -> M -> M) (m : M) (bs : list byte) : option (M * pointer) :=
  Some (repeated_loop (S (length bs)) tag fresh parse add m bs).

(** The case of a message field: [ParseMessage(_internal_mutable_x(), ptr)]. *)
Definition message_case {A : Type} (get : M -> A) (parse : A -> list byte -> A * outcome)
    (set : A -> M -> M) (m : M) (bs : list byte) : option (M * pointer) :=
  let '(a, ptr) := ParseMessage parse (get m) bs in Some (set a m, ptr_of ptr).
End Fields.

(** The parts of [_InternalSerialize]: a scalar field that is not zero, the
    unknown fields.  [InternalWriteMessage] writes the cached size of its
    message. *)
Section Write.
Context {PB : PbRuntime}.

Definition put_int32 (f v : Z) : list byte := if v =? 0 then [] else WriteInt32ToArray f v.
Definition put_uint32 (f v : Z) : list byte := if v =? 0 then [] else WriteUInt32ToArray f v.
Definition put_bool (f : Z) (b : bool) : list byte := if b then WriteBoolToArray f b else [].
Definition put_unknown (u : UnknownFieldSet) : list byte :=
  if have_unknown_fields u then InternalSerializeUnknownFieldsToArray u else [].
Definition put_repeated {A : Type} (f : Z) (cached : A -> Z) (write : A -> list byte)
    (ls : list A) : list byte :=
  mjoin ((fun a => InternalWriteMessage f (cached a) (write a)) <$> ls).

(** The parts of [ByteSizeLong], which also sets the cached size of every
    message that it sizes. *)
Definition size_int32 (v : Z) : Z := if v =? 0 then 0 else 1 + Int32Size v.
Definition size_uint32 (v : Z) : Z := if v =? 0 then 0 else 1 + UInt32Size v.
Definition size_bool (b : bool) : Z := if b then 1 + 1 else 0.
Definition size_total (u : UnknownFieldSet) (total : Z) : Z :=
  if have_unknown_fields u then ComputeUnknownFieldsSize u total else total.
Definition size_repeated {A : Type} (size : A -> Z * A) (ls : list A) : Z :=
  foldl (fun total a => total + LengthDelimitedSize (size a).1) (1 * Z.of_nat (length ls)) ls.

(** [if (from.x() != 0) _internal_set_x(from._internal_x())] *)
Definition merge_Z {M : Type} (set : Z -> M -> M) (v : Z) (m : M) : M :=
  if v =? 0 then m else set v m.
Definition merge_bool {M : Type} (set : bool -> M -> M) (b : bool) (m : M) : M :=
  if b then set b m else m.
End Write.

(** ** What the library documents *)

(** Field numbers of one tag byte, and lengths of an [int]. *)
Definition small_field (f : Z) : Prop := 1 <= f < 16.
Definition small_len (n : Z) : Prop := 0 <= n < 2 ^ 31.

Class PbLaws `{PB : PbRuntime} : Prop := {
  ufs_merge_empty_l u : ufs_merge ufs_empty u = u;
  ufs_merge_empty_r u : ufs_merge u ufs_empty = u;
  have_unknown_empty : have_unknown_fields ufs_empty = false;
  (* readers move forward *)
  ReadTag_shrinks bs tag bs' : ReadTag bs = Some (tag, bs') -> (length bs' < length bs)%nat;
  ReadVarint64_shrinks bs v bs' : ReadVarint64 bs = (v, Some bs') ->
    (length bs' <= length bs)%nat;
  ReadVarint32_shrinks bs v bs' : ReadVarint32 bs = (v, Some bs') ->
    (length bs' <= length bs)%nat;
  UnknownFieldParse_shrinks tag u bs u' bs' :
    UnknownFieldParse tag u bs = (u', Some bs') -> (length bs' <= length bs)%nat;
  ParseMessage_shrinks M parse (m : M) bs m' bs' :
    ParseMessage parse m bs = (m', Some bs') -> (length bs' <= length bs)%nat;
  ExpectTag_ReadTag tag bs : 0 < tag < 128 -> ExpectTag tag bs = true ->
    ReadTag bs = Some (tag, drop 1 bs);
  (* a message object is changed by its own parser only, on a part of the input *)
  ReadVarint32_range bs : is_u32 (ReadVarint32 bs).1;
  ParseMessage_parses M parse (m : M) bs : exists body,
    (ParseMessage parse m bs).1 = m \/ (ParseMessage parse m bs).1 = (parse m body).1;
  (* and looked at through its parser only *)
  ParseMessage_natural M N (r : M -> N) parse parse' (m : M) bs :
    (forall m bs, parse' (r m) bs = (r (parse m bs).1, (parse m bs).2)) ->
    ParseMessage parse' (r m) bs = (r (ParseMessage parse m bs).1, (ParseMessage parse m bs).2);
  (* what is written is read back *)
  int32_written f v rest : small_field f -> is_i32 v ->
    exists bs, ReadTag (WriteInt32ToArray f v ++ rest) = Some (f * 8, bs) /\
      ReadVarint64 bs = (u64 v, Some rest);
  uint32_written f v rest : small_field f -> is_u32 v ->
    exists bs, ReadTag (WriteUInt32ToArray f v ++ rest) = Some (f * 8, bs) /\
      ReadVarint32 bs = (v, Some rest);
  bool_written f b rest : small_field f ->
    exists bs, ReadTag (WriteBoolToArray f b ++ rest) = Some (f * 8, bs) /\
      ReadVarint64 bs = (Z.b2z b, Some rest);
  message_written f body rest : small_field f -> small_len (Z.of_nat (length body)) ->
    exists bs, ReadTag (InternalWriteMessage f (Z.of_nat (length body)) body ++ rest)
        = Some (f * 8 + 2, bs) /\
      forall M (parse : M -> list byte -> M * outcome) m m',
        parse m body = (m', AtLimit) -> ParseMessage parse m bs = (m', Some rest);
  (* sizes *)
  Int32Size_length f v : small_field f -> is_i32 v ->
    Z.of_nat (length (WriteInt32ToArray f v)) = 1 + Int32Size v;
  UInt32Size_length f v : small_field f -> is_u32 v ->
    Z.of_nat (length (WriteUInt32ToArray f v)) = 1 + UInt32Size v;
  BoolSize_length f b : small_field f -> Z.of_nat (length (WriteBoolToArray f b)) = 1 + 1;
  MessageSize_length f body : small_field f -> small_len (Z.of_nat (length body)) ->
    Z.of_nat (length (InternalWriteMessage f (Z.of_nat (length body)) body))
      = 1 + LengthDelimitedSize (Z.of_nat (length body));
  Int32Size_range v : is_i32 v -> 0 <= Int32Size v <= 10;
  UInt32Size_range v : is_u32 v -> 0 <= UInt32Size v <= 5;
  LengthDelimitedSize_le n : 0 <= n -> n <= LengthDelimitedSize n;
  LengthDelimitedSize_max n : small_len n -> LengthDelimitedSize n <= n + 5;
  Unknown_length u n : have_unknown_fields u = true ->
    ComputeUnknownFieldsSize u n
      = n + Z.of_nat (length (InternalSerializeUnknownFieldsToArray u));
  ToCachedSize_id n : small_len n -> ToCachedSize n = n;
  (* the driver *)
  SerializeMessage_runs M (size : M -> Z * M) write m : small_len (size m).1 ->
    SerializeMessage size write m = write (size m).2;
  ParseWhole_runs M (clear : M -> M) parse m bs m' :
    parse (clear m) bs = (m', AtLimit) -> ParseWhole clear parse m bs = (m', true);
  ParseWhole_parses M (clear : M -> M) parse m bs :
    (ParseWhole clear parse m bs).1 = (parse (clear m) bs).1
}.

(** ** The loop *)

(** What a case leaves is not in front of [bs], and its own loop has ended. *)
Definition ptr_on (ptr : pointer) (bs : list byte) : Prop :=
  match ptr with
  | At bs' => (length bs' <= length bs)%nat
  | Null => True
  | OutOfTurns => False
  end.
Definition case_on {M : Type} (r : option (M * pointer)) (bs : list byte) : Prop :=
  match r with Some (_, ptr) => ptr_on ptr bs | None => True end.

Section LoopFacts.
Context `{PL : PbLaws} {M : Type}.
Context (meta : M -> UnknownFieldSet) (set_meta : UnknownFieldSet -> M -> M).
Context (field : Z -> M -> list byte -> option (M * pointer)).

(** Every case reads forward, and its own loop ends. *)
Definition reads_on : Prop := forall tag m bs, case_on (field tag m bs) bs.

Context (Hfield : reads_on).
Abbreviation loop := (parse_loop meta set_meta field).
Abbreviation run := (run meta set_meta field).

Lemma field_on tag m bs m' ptr : field tag m bs = Some (m', ptr) -> ptr_on ptr bs.
Proof. intros E. pose proof (Hfield tag m bs) as H. by rewrite E in H. Qed.

(** More turns than bytes change nothing. *)
Lemma parse_loop_fuel n : forall fuel m bs,
  (length bs <= n)%nat -> (length bs <= fuel)%nat -> loop fuel m bs = loop n m bs.
Proof.
  induction n as [|n IH]; intros fuel m bs Hn Hf.
  { destruct bs; [by destruct fuel|cbn in Hn; lia]. }
  destruct bs as [|b bs]; [by destruct fuel|].
  destruct fuel as [|fuel]; [cbn in Hf; lia|]. cbn [parse_loop].
  destruct (ReadTag (b :: bs)) as [[tag bs1]|] eqn:Et; [|done].
  apply ReadTag_shrinks in Et. cbn [length] in *.
  destruct (field tag m bs1) as [[m1 [bs2| |]]|] eqn:Ef; [|done|done|].
  - apply field_on in Ef. cbn [ptr_on] in Ef. apply IH; lia.
  - destruct (ends_message tag); [done|].
    destruct (UnknownFieldParse tag (meta m) bs1) as [u [bs2|]] eqn:Eu; [|done].
    apply UnknownFieldParse_shrinks in Eu. apply IH; lia.
Qed.

(** Neither the loop nor those of its cases run out of turns. *)
Lemma parse_loop_ends n : forall m bs, (length bs <= n)%nat -> (loop n m bs).2 <> Exhausted.
Proof.
  induction n as [|n IH]; intros m [|b bs] Hn; cbn [parse_loop]; try done; [cbn in Hn; lia|].
  destruct (ReadTag (b :: bs)) as [[tag bs1]|] eqn:Et; [|done].
  apply ReadTag_shrinks in Et. cbn [length] in *.
  destruct (field tag m bs1) as [[m1 ptr]|] eqn:Ef.
  - apply field_on in Ef. destruct ptr as [bs2| |]; cbn in Ef; [apply IH; lia|done|done].
  - destruct (ends_message tag); [done|].
    destruct (UnknownFieldParse tag (meta m) bs1) as [u [bs2|]] eqn:Eu; [|done].
    apply UnknownFieldParse_shrinks in Eu. apply IH; lia.
Qed.

Lemma run_nil m : run m [] = (m, AtLimit).
Proof. done. Qed.

(** A turn that takes a case. *)
Lemma run_case m bs tag bs1 m' bs2 :
  ReadTag bs = Some (tag, bs1) -> field tag m bs1 = Some (m', At bs2) ->
  run m bs = run m' bs2.
Proof.
  intros Et Ef. pose proof (ReadTag_shrinks _ _ _ Et). pose proof (field_on _ _ _ _ _ Ef) as Hon.
    cbn [ptr_on] in Hon.
  unfold Protobuf.run. destruct bs as [|b bs]; [cbn in *; lia|]. cbn [length parse_loop].
  rewrite Et, Ef. cbn [length] in *. apply parse_loop_fuel; lia.
Qed.

(** The fields that [_InternalSerialize] writes. *)
Lemma run_int32 f v set m rest :
  (forall m bs, field (f * 8) m bs = int32_case set m bs) -> small_field f -> is_i32 v ->
  run m (WriteInt32ToArray f v ++ rest) = run (set v m) rest.
Proof.
  intros Hf Hs Hv. destruct (int32_written f v rest Hs Hv) as (bs & Et & Ev).
  eapply run_case; [exact Et|]. rewrite Hf. unfold int32_case. rewrite Ev. do 3 f_equal.
  unfold u64. zwrap.
Qed.

Lemma run_uint32 f v set m rest :
  (forall m bs, field (f * 8) m bs = uint32_case set m bs) -> small_field f -> is_u32 v ->
  run m (WriteUInt32ToArray f v ++ rest) = run (set v m) rest.
Proof.
  intros Hf Hs Hv. destruct (uint32_written f v rest Hs Hv) as (bs & Et & Ev).
  eapply run_case; [exact Et|]. rewrite Hf. unfold uint32_case. by rewrite Ev.
Qed.

Lemma run_bool f b set m rest :
  (forall m bs, field (f * 8) m bs = bool_case set m bs) -> small_field f ->
  run m (WriteBoolToArray f b ++ rest) = run (set b m) rest.
Proof.
  intros Hf Hs. destruct (bool_written f b rest Hs) as (bs & Et & Ev).
  eapply run_case; [exact Et|]. rewrite Hf. unfold bool_case. rewrite Ev. by destruct b.
Qed.

Context {A : Type} (parse : A -> list byte -> A * outcome).

Lemma run_message f body get set m a rest :
  (forall m bs, field (f * 8 + 2) m bs = message_case get parse set m bs) -> small_field f ->
  small_len (Z.of_nat (length body)) -> parse (get m) body = (a, AtLimit) ->
  run m (InternalWriteMessage f (Z.of_nat (length body)) body ++ rest) = run (set a m) rest.
Proof.
  intros Hf Hs Hl Hp. destruct (message_written f body rest Hs Hl) as (bs & Et & Hm).
  eapply run_case; [exact Et|]. rewrite Hf. unfold message_case. by rewrite (Hm _ _ _ _ Hp).
Qed.

(** An element has a tag in front, so that the inner loop ends too. *)
Lemma repeated_loop_on tag fresh add : 0 < tag < 128 -> forall fuel m bs m' ptr,
  (length bs < fuel)%nat -> repeated_loop (M := M) fuel tag fresh parse add m bs = (m', ptr) ->
    ptr_on ptr bs.
Proof.
  intros Ht. induction fuel as [|fuel IH]; intros m bs m' ptr Hf; cbn [repeated_loop]; [lia|].
  destruct (ParseMessage parse fresh bs) as [a [bs1|]] eqn:Ep; [|by intros [= <- <-]].
  apply ParseMessage_shrinks in Ep.
  destruct (DataAvailable bs1 && ExpectTag tag bs1) eqn:Eb; [|by intros [= <- <-]].
  apply andb_true_iff in Eb as [_ Eb]. apply (ExpectTag_ReadTag _ _ Ht) in Eb.
  apply ReadTag_shrinks in Eb. rewrite length_drop in Eb.
  intros H. apply IH in H; [|rewrite length_drop; lia].
  destruct ptr as [bs2| |]; cbn in H |- *; [rewrite length_drop in H; lia|done|done].
Qed.

Lemma repeated_loop_fuel n tag fresh add : 0 < tag < 128 -> forall fuel m bs,
  (length bs < n)%nat -> (length bs < fuel)%nat ->
  repeated_loop (M := M) fuel tag fresh parse add m bs = repeated_loop n tag fresh parse add m bs.
Proof.
  intros Ht. induction n as [|n IH]; intros fuel m bs Hn Hf; [lia|].
  destruct fuel as [|fuel]; [lia|]. cbn [repeated_loop].
  destruct (ParseMessage parse fresh bs) as [a [bs1|]] eqn:Ep; [|done].
  apply ParseMessage_shrinks in Ep.
  destruct (DataAvailable bs1 && ExpectTag tag bs1) eqn:Eb; [|done].
  apply andb_true_iff in Eb as [_ Eb]. apply (ExpectTag_ReadTag _ _ Ht) in Eb.
  apply ReadTag_shrinks in Eb. rewrite length_drop in Eb.
  apply IH; rewrite length_drop; lia.
Qed.

(** One element of a repeated field: whether the inner loop goes on to the next
    one or leaves it to the outer loop does not matter. *)
Lemma run_repeated f body fresh add m a rest :
  (forall m bs, field (f * 8 + 2) m bs = repeated_case (f * 8 + 2) fresh parse add m bs) ->
  small_field f -> small_len (Z.of_nat (length body)) -> parse fresh body = (a, AtLimit) ->
  run m (InternalWriteMessage f (Z.of_nat (length body)) body ++ rest) = run (add a m) rest.
Proof.
  intros Hf Hs Hl Hp. destruct (message_written f body rest Hs Hl) as (bs & Et & Hm).
  assert (Htag : 0 < f * 8 + 2 < 128) by (unfold small_field in Hs; lia).
  pose proof (Hm _ _ _ _ Hp) as Ep. pose proof (ParseMessage_shrinks _ _ _ _ _ _ Ep) as Hlen.
  destruct (DataAvailable rest && ExpectTag (f * 8 + 2) rest) eqn:Eb.
  - pose proof Eb as Eb'. apply andb_true_iff in Eb' as [_ Ee].
    apply (ExpectTag_ReadTag _ _ Htag) in Ee. pose proof (ReadTag_shrinks _ _ _ Ee) as Hd.
    rewrite length_drop in Hd.
    assert (Estep : field (f * 8 + 2) m bs = field (f * 8 + 2) (add a m) (drop 1 rest)).
    { rewrite !Hf. unfold repeated_case. f_equal.
      transitivity (repeated_loop (length bs) (f * 8 + 2) fresh parse add (add a m) (drop 1
        rest));
        [cbn [repeated_loop]; by rewrite Ep, Eb|].
      apply (repeated_loop_fuel _ _ _ _ Htag); rewrite length_drop; lia. }
    pose proof (ReadTag_shrinks _ _ _ Et) as Hd0.
    unfold Protobuf.run.
    destruct (InternalWriteMessage _ _ _ ++ rest) as [|b0 bs0] eqn:E0; [cbn in *; lia|].
    destruct rest as [|b1 rest1]; [cbn in *; lia|]. cbn [length parse_loop]. cbn [length] in *.
    rewrite Et, Ee, Estep.
    destruct (field (f * 8 + 2) (add a m) (drop 1 (b1 :: rest1))) as [[m1 [bs2| |]]|] eqn:Ef;
      [|done|done|].
    + apply field_on in Ef. cbn [ptr_on] in Ef. rewrite length_drop in Ef. cbn [length] in Ef.
      apply parse_loop_fuel; lia.
    + by rewrite Hf in Ef.
  - eapply run_case; [exact Et|]. rewrite Hf. unfold repeated_case. cbn [repeated_loop].
    by rewrite Ep, Eb.
Qed.
End LoopFacts.

(** The cases read forward. *)
Section CaseFacts.
Context `{PL : PbLaws} {M A : Type}.

Lemma ptr_of_on ptr (bs : list byte) :
  (forall bs', ptr = Some bs' -> (length bs' <= length bs)%nat) -> ptr_on (ptr_of ptr) bs.
Proof. destruct ptr as [bs'|]; cbn; auto. Qed.

Lemma int32_case_on (set : Z -> M -> M) m bs : case_on (int32_case set m bs) bs.
Proof.
  unfold int32_case, case_on. destruct (ReadVarint64 bs) as [v ptr] eqn:E. apply ptr_of_on.
  intros bs' ->. by eapply ReadVarint64_shrinks.
Qed.

Lemma uint32_case_on (set : Z -> M -> M) m bs : case_on (uint32_case set m bs) bs.
Proof.
  unfold uint32_case, case_on. destruct (ReadVarint32 bs) as [v ptr] eqn:E. apply ptr_of_on.
  intros bs' ->. by eapply ReadVarint32_shrinks.
Qed.

Lemma bool_case_on (set : bool -> M -> M) m bs : case_on (bool_case set m bs) bs.
Proof.
  unfold bool_case, case_on. destruct (ReadVarint64 bs) as [v ptr] eqn:E. apply ptr_of_on.
  intros bs' ->. by eapply ReadVarint64_shrinks.
Qed.

Lemma message_case_on (get : M -> A) parse set m bs : case_on (message_case get parse set m bs) bs.
Proof.
  unfold message_case, case_on. destruct (ParseMessage parse (get m) bs) as [v ptr] eqn:E.
  apply ptr_of_on. intros bs' ->. by eapply ParseMessage_shrinks.
Qed.

Lemma repeated_case_on tag (fresh : A) parse add (m : M) bs :
  0 < tag < 128 -> case_on (repeated_case tag fresh parse add m bs) bs.
Proof.
  intros Ht. unfold repeated_case, case_on.
  destruct (repeated_loop (S (length bs)) tag fresh parse add m bs) as [m' ptr] eqn:E.
  exact (repeated_loop_on parse tag fresh add Ht (S (length bs)) m bs m' ptr
    (Nat.lt_succ_diag_r _) E).
Qed.
End CaseFacts.

Create HintDb pb.
#[export] Hint Resolve int32_case_on uint32_case_on bool_case_on message_case_on
  repeated_case_on : pb.
#[export] Hint Extern 2 (_ < _ < _) => lia : pb.

(** ** Types: what holds of a message whatever bytes are parsed into it *)

Section Keeps.
Context `{PL : PbLaws} {M : Type} (Inv : M -> Prop).

(** A parser, or the cases of its [switch], keep the invariant. *)
Definition parser_keeps (parse : M -> list byte -> M * outcome) : Prop := forall m bs,
  Inv m -> Inv (parse m bs).1.
Definition case_keeps (r : option (M * pointer)) : Prop :=
  match r with Some (m', _) => Inv m' | None => True end.

Lemma run_keeps (meta : M -> UnknownFieldSet) set_meta field :
  (forall u m, Inv m -> Inv (set_meta u m)) ->
  (forall tag m bs, Inv m -> case_keeps (field tag m bs)) ->
  parser_keeps (run meta set_meta field).
Proof.
  intros Hmeta Hfield m bs. unfold run. generalize (length bs) as n. intros n. revert m bs.
  induction n as [|n IH]; intros m [|b bs] Hm; cbn [parse_loop]; try done.
  destruct (ReadTag _) as [[tag bs1]|]; [|done].
  pose proof (Hfield tag m bs1 Hm) as Hf. unfold case_keeps in Hf.
  destruct (field tag m bs1) as [[m1 [bs2| |]]|]; [by apply IH|done|done|].
  destruct (ends_message tag); [done|].
  destruct (UnknownFieldParse _ _ _) as [u [bs2|]]; cbn; [|by apply Hmeta].
  by apply IH, Hmeta.
Qed.

Lemma int32_case_keeps (set : Z -> M -> M) m bs :
  (forall v, is_i32 v -> Inv (set v m)) -> case_keeps (int32_case set m bs).
Proof. intros Hs. unfold int32_case. destruct (ReadVarint64 bs). apply Hs, i32_is. Qed.

Lemma uint32_case_keeps (set : Z -> M -> M) m bs :
  (forall v, is_u32 v -> Inv (set v m)) -> case_keeps (uint32_case set m bs).
Proof.
  intros Hs. unfold uint32_case. pose proof (ReadVarint32_range bs) as Hv.
  destruct (ReadVarint32 bs). by apply Hs.
Qed.

Lemma bool_case_keeps (set : bool -> M -> M) m bs :
  (forall b, Inv (set b m)) -> case_keeps (bool_case set m bs).
Proof. intros Hs. unfold bool_case. destruct (ReadVarint64 bs). apply Hs. Qed.
End Keeps.

Section KeepsNested.
Context `{PL : PbLaws} {M A : Type} (Inv : M -> Prop) (Sub : A -> Prop).
Context (parse : A -> list byte -> A * outcome) (Hparse : parser_keeps Sub parse).

Lemma ParseMessage_keeps a bs : Sub a -> Sub (ParseMessage parse a bs).1.
Proof.
  intros Ha. destruct (ParseMessage_parses _ parse a bs) as (body & [-> | ->]); [done|by apply
    Hparse].
Qed.

Lemma message_case_keeps (get : M -> A) set m bs :
  Sub (get m) -> (forall a, Sub a -> Inv (set a m)) ->
    case_keeps Inv (message_case get parse set m bs).
Proof.
  intros Hg Hs. unfold message_case. pose proof (ParseMessage_keeps (get m) bs Hg) as Ha.
  destruct (ParseMessage parse (get m) bs). by apply Hs.
Qed.

Lemma repeated_case_keeps tag (new : A) add m bs :
  Sub new -> (forall a m, Sub a -> Inv m -> Inv (add a m)) -> Inv m ->
  case_keeps Inv (repeated_case tag new parse add m bs).
Proof.
  intros Hf Hadd Hm. unfold repeated_case, case_keeps. set (n := S (length bs)). clearbody n.
  enough (Inv (repeated_loop n tag new parse add m bs).1) as Hi by by destruct (repeated_loop _
    _ _ _ _ _ _).
  revert m bs Hm. induction n as [|n IH]; intros m bs Hm; cbn [repeated_loop]; [done|].
  pose proof (ParseMessage_keeps new bs Hf) as Ha.
  destruct (ParseMessage parse new bs) as [a [bs1|]]; cbn [fst] in *; [|by apply Hadd].
  destruct (_ && _); [apply IH|]; by apply Hadd.
Qed.
End KeepsNested.

(** A [switch] all of whose cases read forward. *)
Ltac solve_reads_on :=
  intros tag m bs; cbv beta zeta; repeat case_match; (done || auto with pb).
