(* ===== verification/Varint.v ===== *)
(** * Varint: a runtime library that satisfies [PbLaws]

    The base-128 encoding of the protocol buffers, enough of it to be an
    instance of [PbRuntime]: the laws can be met, and the witnesses run the
    generated code on real bytes.  (It skips unknown fields of every wire type
    but groups, which it refuses.) *)

From S2P Require Import Prelude CInt.
From S2P Require Import Protobuf.
From Stdlib Require Import Strings.Byte.
Local Open Scope Z_scope.

(** At most [k] bytes, seven bits each, the lowest first. *)
Fixpoint write_varint (k : nat) (n : Z) : list byte :=
  match k with
  | O => []
  | S k => if n <? 128 then [byte_of_Z n]
           else byte_of_Z (n `mod` 128 + 128) :: write_varint k (n / 128)
  end.

Fixpoint read_varint (k : nat) (bs : list byte) : option (Z * list byte) :=
  match k, bs with
  | S k, b :: bs =>
      let z := Z_of_byte b in
      if z <? 128 then Some (z, bs)
      else '(v, r) ← read_varint k bs; Some (z - 128 + 128 * v, r)
  | _, _ => None
  end.

(** What at most [k] bytes were written for is read with a limit of [k']. *)
Lemma read_write_varint k k' n rest :
  (0 < k <= k')%nat -> 0 <= n < 128 ^ Z.of_nat k ->
  read_varint k' (write_varint k n ++ rest) = Some (n, rest).
Proof.
  revert k' n. induction k as [|k IH]; intros k' n Hk Hn; [lia|]. destruct k' as [|k']; [lia|].
  cbn [write_varint]. rewrite Nat2Z.inj_succ, Z.pow_succ_r in Hn by lia.
  pose proof (Z.mod_pos_bound n 128 ltac:(lia)). pose proof (Z.div_mod n 128 ltac:(lia)).
  destruct (Z.ltb_spec n 128); cbn [app read_varint]; rewrite Z_of_byte_of_Z, Z.mod_small by lia.
  - by rewrite (proj2 (Z.ltb_lt _ _)) by lia.
  - rewrite (proj2 (Z.ltb_ge _ _)) by lia.
    assert (k <> 0)%nat by (intros ->; cbn in Hn; lia).
    rewrite IH; [|lia|].
    + cbn [mbind option_bind]. f_equal. f_equal. lia.
    + split; [apply Z.div_pos; lia|apply Z.div_lt_upper_bound; lia].
Qed.

Lemma write_varint_length k n : (0 < k)%nat -> (1 <= length (write_varint k n) <= k)%nat.
Proof.
  revert n. induction k as [|k IH]; intros n Hk; [lia|]. cbn [write_varint].
  destruct (n <? 128); [cbn; lia|]. cbn [length]. destruct k as [|k]; [cbn; lia|].
  specialize (IH (n / 128) ltac:(lia)). lia.
Qed.

Lemma read_varint_shrinks k bs v r : read_varint k bs = Some (v, r) -> (length r < length bs)%nat.
Proof.
  revert bs v. induction k as [|k IH]; intros [|b bs] v; cbn [read_varint]; try done.
  destruct (_ <? _); [intros [= _ <-]; cbn; lia|].
  destruct (read_varint k bs) as [[v' r']|] eqn:E; [|done]. intros [= _ <-].
  apply IH in E. cbn. lia.
Qed.

Module Varint.
Definition tag_bytes (tag : Z) : list byte := write_varint 5 tag.

(** The reader of a value leaves a null pointer when there is none. *)
Definition read_value (k : nat) (wrap : Z -> Z) (bs : list byte) : Z * option (list byte) :=
  match read_varint k bs with Some (v, r) => (wrap v, Some r) | None => (0, None) end.

Definition skip (n : Z) (bs : list byte) : option (list byte) :=
  if n <=? Z.of_nat (length bs) then Some (drop (Z.to_nat n) bs) else None.

Definition unknown (tag : Z) (u bs : list byte) : list byte * option (list byte) :=
  let ptr :=
    match Z.land tag 7 with
    | 0 => '(_, r) ← read_varint 10 bs; Some r
    | 1 => skip 8 bs
    | 2 => '(n, r) ← read_varint 5 bs; skip n r
    | 5 => skip 4 bs
    | _ => None
    end in
  (u ++ tag_bytes tag ++ match ptr with
                         | Some r => take (length bs - length r) bs
                         | None => [] end, ptr).

Definition parse_message (M : Type) (parse : M -> list byte ->
  M * outcome) (m : M) (bs : list byte)
    : M * option (list byte) :=
  match read_varint 5 bs with
  | None => (m, None)
  | Some (n, r) =>
      let '(m, o) := parse m (take (Z.to_nat n) r) in
      (m, match o with AtLimit => skip n r | _ => None end)
  end.

#[export] Instance runtime : PbRuntime := {|
  UnknownFieldSet := list byte;
  ufs_empty := [];
  ufs_merge := app;
  have_unknown_fields u := match u with [] => false | _ :: _ => true end;
  ReadTag := read_varint 5;
  ReadVarint64 := read_value 10 u64;
  ReadVarint32 := read_value 10 u32;
  DataAvailable bs := match bs with [] => false | _ :: _ => true end;
  ExpectTag tag bs := match bs with b :: _ => Z_of_byte b =? tag | [] => false end;
  UnknownFieldParse := unknown;
  ParseMessage := parse_message;
  WriteInt32ToArray f v := tag_bytes (f * 8) ++ write_varint 10 (u64 v);
  WriteUInt32ToArray f v := tag_bytes (f * 8) ++ write_varint 5 v;
  WriteBoolToArray f b := tag_bytes (f * 8) ++ write_varint 1 (Z.b2z b);
  InternalWriteMessage f n body := tag_bytes (f * 8 + 2) ++ write_varint 5 n ++ body;
  InternalSerializeUnknownFieldsToArray u := u;
  Int32Size v := Z.of_nat (length (write_varint 10 (u64 v)));
  UInt32Size v := Z.of_nat (length (write_varint 5 v));
  LengthDelimitedSize n := n + Z.of_nat (length (write_varint 5 n));
  ComputeUnknownFieldsSize u n := n + Z.of_nat (length u);
  ToCachedSize := i32;
  SerializeMessage M size write m := if (size m).1 <? 2 ^ 31 then write (size m).2 else [];
  ParseWhole M clear parse m bs :=
    let '(m, o) := parse (clear m) bs in (m, match o with AtLimit => true | _ => false end)
|}.

Lemma skip_shrinks n bs r : skip n bs = Some r -> (length r <= length bs)%nat.
Proof. unfold skip. case_match; [|done]. intros [= <-]. rewrite length_drop. lia. Qed.

Lemma tag_bytes_read tag rest : 0 < tag < 128 ->
  read_varint 5 (tag_bytes tag ++ rest) = Some (tag, rest) /\ length (tag_bytes tag) = 1%nat.
Proof.
  intros Ht. split; [apply read_write_varint; [lia|cbn; lia]|].
  unfold tag_bytes. cbn [write_varint]. by rewrite (proj2 (Z.ltb_lt _ _)) by lia.
Qed.

Lemma value_read k k' wrap n rest : (0 < k <= k')%nat -> 0 <= n < 128 ^ Z.of_nat k ->
  wrap n = n ->
  read_value k' wrap (write_varint k n ++ rest) = (n, Some rest).
Proof. intros Hk Hn Hw. unfold read_value. rewrite read_write_varint by done. by rewrite Hw. Qed.

Lemma unknown_shrinks tag u bs u' r : unknown tag u bs = (u', Some r) ->
  (length r <= length bs)%nat.
Proof.
  unfold unknown. intros H. apply (f_equal snd) in H. cbn [snd] in H. revert H.
  destruct (Z.land tag 7) as [|p|]; [| |done].
  - destruct (read_varint 10 bs) as [[n r1]|] eqn:E; cbn [mbind option_bind]; [|done].
    apply read_varint_shrinks in E. intros [= <-]. lia.
  - destruct (read_varint 5 bs) as [[n r1]|] eqn:E; [apply read_varint_shrinks in E|];
      cbn [mbind option_bind]; repeat match goal with
      | |- context [match ?p with xI _ => _ | _ => _ end] => destruct p
      end; try done; intros H%skip_shrinks; lia.
Qed.

#[export] Instance laws : PbLaws.
Proof.
  split; cbn -[write_varint read_varint].
  - done.
  - apply app_nil_r.
  - done.
  - intros. by eapply read_varint_shrinks.
  - unfold read_value. intros bs v r. destruct (read_varint 10 bs) as [[? ?]|] eqn:E; [|done].
    intros [= _ <-]. apply read_varint_shrinks in E. lia.
  - unfold read_value. intros bs v r. destruct (read_varint 10 bs) as [[? ?]|] eqn:E; [|done].
    intros [= _ <-]. apply read_varint_shrinks in E. lia.
  - intros. by eapply unknown_shrinks.
  - unfold parse_message. intros M parse m bs m' r.
    destruct (read_varint 5 bs) as [[n r1]|] eqn:E; [|done].
    apply read_varint_shrinks in E. destruct (parse _ _) as [m1 []]; try done.
    intros [= _ H]. apply skip_shrinks in H. lia.
  - intros tag [|b bs] Ht; [done|]. intros <-%Z.eqb_eq. cbn [read_varint].
    by rewrite (proj2 (Z.ltb_lt _ _)) by lia.
  - intros bs. unfold read_value. destruct (read_varint 10 bs) as [[? ?]|]; [apply u32_is|].
    unfold is_u32. cbn. lia.
  - intros M parse m bs. unfold parse_message. destruct (read_varint 5 bs) as [[n r]|]; [|by
    exists []; left].
    exists (take (Z.to_nat n) r). right. by destruct (parse m _).
  - intros M N r parse parse' m bs Hp. unfold parse_message.
    destruct (read_varint 5 bs) as [[n r1]|]; [|done]. rewrite Hp. by destruct (parse m _).
  - intros f v rest Hf Hv. exists (write_varint 10 (u64 v) ++ rest).
    rewrite <- app_assoc. unfold small_field in Hf. split; [apply tag_bytes_read; lia|].
    apply value_read; [lia| |]; unfold u64.
    + pose proof (Z.mod_pos_bound v (2 ^ 64) ltac:(lia)). cbn. lia.
    + by apply Z.mod_mod.
  - intros f v rest Hf Hv. exists (write_varint 5 v ++ rest).
    rewrite <- app_assoc. unfold small_field in Hf. split; [apply tag_bytes_read; lia|].
    apply value_read; [lia| |by apply u32_id]. unfold is_u32 in Hv. cbn. lia.
  - intros f b rest Hf. exists (write_varint 1 (Z.b2z b) ++ rest).
    rewrite <- app_assoc. unfold small_field in Hf. split; [apply tag_bytes_read; lia|].
    apply value_read; [lia|destruct b; cbn; lia|by destruct b].
  - intros f body rest Hf Hl. exists (write_varint 5 (Z.of_nat (length body)) ++ body ++ rest).
    rewrite <- !app_assoc. unfold small_field in Hf. split; [apply tag_bytes_read; lia|].
    intros M parse m m' Hp. unfold parse_message, small_len in *.
    rewrite read_write_varint by (lia || cbn; lia). rewrite Nat2Z.id, take_app_length, Hp.
    unfold skip. rewrite length_app, (proj2 (Z.leb_le _ _)) by lia.
    by rewrite Nat2Z.id, drop_app_length.
  - intros f v Hf Hv. unfold small_field in Hf.
    rewrite length_app, (proj2 (tag_bytes_read (f * 8) [] ltac:(lia))). lia.
  - intros f v Hf Hv. unfold small_field in Hf.
    rewrite length_app, (proj2 (tag_bytes_read (f * 8) [] ltac:(lia))). lia.
  - intros f b Hf. unfold small_field in Hf.
    rewrite length_app, (proj2 (tag_bytes_read (f * 8) [] ltac:(lia))). by destruct b.
  - intros f body Hf Hl. unfold small_field in Hf.
    rewrite !length_app, (proj2 (tag_bytes_read (f * 8 + 2) [] ltac:(lia))). lia.
  - intros v Hv. pose proof (write_varint_length 10 (u64 v) ltac:(lia)). lia.
  - intros v Hv. pose proof (write_varint_length 5 v ltac:(lia)). lia.
  - intros n Hn. lia.
  - intros n Hn. pose proof (write_varint_length 5 n ltac:(lia)). lia.
  - done.
  - intros n Hn. apply i32_id. unfold small_len, is_i32 in *. lia.
  - intros M size write m Hs. unfold small_len in Hs. by rewrite (proj2 (Z.ltb_lt _ _)) by lia.
  - intros M clear parse m bs m' ->. done.
  - intros M clear parse m bs. by destruct (parse (clear m) bs).
Qed.
End Varint.
