(* ===== verification/LbrssPb.v ===== *)
(** * LbrssPb: the generated messages (base/proto/lbrss.pb.h,
    base/proto/lbrss.pb.cpp)

    One record for each message class, with its unknown fields and its cached
    size, and one definition for each of its methods.  [X_case] is the [switch]
    of [X::_InternalParse]; the loop around it is [run].  [ByteSizeLong] is a
    [const] method that sets the cached sizes of the message and of the messages
    in it, which [_InternalSerialize] then reads: it returns the message too. *)

From S2P Require Import Prelude CInt.
From S2P Require Import Protobuf.
From Stdlib Require Import Strings.Byte.
Local Open Scope Z_scope.

Module Pb.
Section Messages.
Context {PB : PbRuntime}.

(** ** HostInfo *)

Record HostInfo : Type := mkHostInfo {
  hi_ip_ : Z; hi_port_ : Z;
  hi_metadata : UnknownFieldSet; hi_cached_size : Z }.

Definition hi_set_ip (v : Z) (m : HostInfo) : HostInfo :=
  mkHostInfo v (hi_port_ m) (hi_metadata m) (hi_cached_size m).
Definition hi_set_port (v : Z) (m : HostInfo) : HostInfo :=
  mkHostInfo (hi_ip_ m) v (hi_metadata m) (hi_cached_size m).
Definition hi_set_metadata (v : UnknownFieldSet) (m : HostInfo) : HostInfo :=
  mkHostInfo (hi_ip_ m) (hi_port_ m) v (hi_cached_size m).
Definition hi_set_cached_size (v : Z) (m : HostInfo) : HostInfo :=
  mkHostInfo (hi_ip_ m) (hi_port_ m) (hi_metadata m) v.

Definition HostInfo_new : HostInfo := mkHostInfo 0 0 ufs_empty 0.

Definition HostInfo_Clear (m : HostInfo) : HostInfo :=
  mkHostInfo 0 0 ufs_empty (hi_cached_size m).

Definition HostInfo_case (tag : Z) (m : HostInfo) (bs : list byte)
    : option (HostInfo * pointer) :=
  match Z.shiftr tag 3 with
  | 1 => if u8 tag =? 8 then int32_case hi_set_ip m bs else None
  | 2 => if u8 tag =? 16 then int32_case hi_set_port m bs else None
  | _ => None
  end.

Definition HostInfo_InternalParse : HostInfo -> list byte -> HostInfo * outcome :=
  run hi_metadata hi_set_metadata HostInfo_case.

Definition HostInfo_InternalSerialize (m : HostInfo) : list byte :=
  put_int32 1 (hi_ip_ m) ++
  put_int32 2 (hi_port_ m) ++
  put_unknown (hi_metadata m).

Definition HostInfo_ByteSizeLong (m : HostInfo) : Z * HostInfo :=
  let total_size := size_total (hi_metadata m) (
    size_int32 (hi_ip_ m) +
    size_int32 (hi_port_ m)) in
  (total_size, hi_set_cached_size (ToCachedSize total_size) m).

Definition HostInfo_MergeFrom (m from : HostInfo) : HostInfo :=
  let m := hi_set_metadata (ufs_merge (hi_metadata m) (hi_metadata from)) m in
  let m := merge_Z hi_set_ip (hi_ip_ from) m in
  let m := merge_Z hi_set_port (hi_port_ from) m in
  m.

(** [CopyFrom(from)] of another object. *)
Definition HostInfo_CopyFrom (m from : HostInfo) : HostInfo :=
  HostInfo_MergeFrom (HostInfo_Clear m) from.

(** ** GetRouteRequest *)

Record GetRouteRequest : Type := mkGetRouteRequest {
  gq_modid_ : Z; gq_cmdid_ : Z;
  gq_metadata : UnknownFieldSet; gq_cached_size : Z }.

Definition gq_set_modid (v : Z) (m : GetRouteRequest) : GetRouteRequest :=
  mkGetRouteRequest v (gq_cmdid_ m) (gq_metadata m) (gq_cached_size m).
Definition gq_set_cmdid (v : Z) (m : GetRouteRequest) : GetRouteRequest :=
  mkGetRouteRequest (gq_modid_ m) v (gq_metadata m) (gq_cached_size m).
Definition gq_set_metadata (v : UnknownFieldSet) (m : GetRouteRequest) : GetRouteRequest :=
  mkGetRouteRequest (gq_modid_ m) (gq_cmdid_ m) v (gq_cached_size m).
Definition gq_set_cached_size (v : Z) (m : GetRouteRequest) : GetRouteRequest :=
  mkGetRouteRequest (gq_modid_ m) (gq_cmdid_ m) (gq_metadata m) v.

Definition GetRouteRequest_new : GetRouteRequest := mkGetRouteRequest 0 0 ufs_empty 0.

Definition GetRouteRequest_Clear (m : GetRouteRequest) : GetRouteRequest :=
  mkGetRouteRequest 0 0 ufs_empty (gq_cached_size m).

Definition GetRouteRequest_case (tag : Z) (m : GetRouteRequest) (bs : list byte)
    : option (GetRouteRequest * pointer) :=
  match Z.shiftr tag 3 with
  | 1 => if u8 tag =? 8 then int32_case gq_set_modid m bs else None
  | 2 => if u8 tag =? 16 then int32_case gq_set_cmdid m bs else None
  | _ => None
  end.

Definition GetRouteRequest_InternalParse : GetRouteRequest -> list byte ->
  GetRouteRequest * outcome :=
  run gq_metadata gq_set_metadata GetRouteRequest_case.

Definition GetRouteRequest_InternalSerialize (m : GetRouteRequest) : list byte :=
  put_int32 1 (gq_modid_ m) ++
  put_int32 2 (gq_cmdid_ m) ++
  put_unknown (gq_metadata m).

Definition GetRouteRequest_ByteSizeLong (m : GetRouteRequest) : Z * GetRouteRequest :=
  let total_size := size_total (gq_metadata m) (
    size_int32 (gq_modid_ m) +
    size_int32 (gq_cmdid_ m)) in
  (total_size, gq_set_cached_size (ToCachedSize total_size) m).

Definition GetRouteRequest_MergeFrom (m from : GetRouteRequest) : GetRouteRequest :=
  let m := gq_set_metadata (ufs_merge (gq_metadata m) (gq_metadata from)) m in
  let m := merge_Z gq_set_modid (gq_modid_ from) m in
  let m := merge_Z gq_set_cmdid (gq_cmdid_ from) m in
  m.

(** [CopyFrom(from)] of another object. *)
Definition GetRouteRequest_CopyFrom (m from : GetRouteRequest) : GetRouteRequest :=
  GetRouteRequest_MergeFrom (GetRouteRequest_Clear m) from.

(** ** GetRouteResponse *)

Record GetRouteResponse : Type := mkGetRouteResponse {
  gs_host_ : list HostInfo; gs_modid_ : Z; gs_cmdid_ : Z;
  gs_metadata : UnknownFieldSet; gs_cached_size : Z }.

Definition gs_set_host (v : list HostInfo) (m : GetRouteResponse) : GetRouteResponse :=
  mkGetRouteResponse v (gs_modid_ m) (gs_cmdid_ m) (gs_metadata m) (gs_cached_size m).
Definition gs_set_modid (v : Z) (m : GetRouteResponse) : GetRouteResponse :=
  mkGetRouteResponse (gs_host_ m) v (gs_cmdid_ m) (gs_metadata m) (gs_cached_size m).
Definition gs_set_cmdid (v : Z) (m : GetRouteResponse) : GetRouteResponse :=
  mkGetRouteResponse (gs_host_ m) (gs_modid_ m) v (gs_metadata m) (gs_cached_size m).
Definition gs_set_metadata (v : UnknownFieldSet) (m : GetRouteResponse) : GetRouteResponse :=
  mkGetRouteResponse (gs_host_ m) (gs_modid_ m) (gs_cmdid_ m) v (gs_cached_size m).
Definition gs_set_cached_size (v : Z) (m : GetRouteResponse) : GetRouteResponse :=
  mkGetRouteResponse (gs_host_ m) (gs_modid_ m) (gs_cmdid_ m) (gs_metadata m) v.

Definition GetRouteResponse_new : GetRouteResponse := mkGetRouteResponse [] 0 0 ufs_empty 0.

Definition GetRouteResponse_Clear (m : GetRouteResponse) : GetRouteResponse :=
  mkGetRouteResponse [] 0 0 ufs_empty (gs_cached_size m).

(** [_internal_add_host()] and what is parsed into it. *)
Definition gs_add_host (h : HostInfo) (m : GetRouteResponse) : GetRouteResponse :=
  gs_set_host (gs_host_ m ++ [h]) m.

Definition GetRouteResponse_case (tag : Z) (m : GetRouteResponse) (bs : list byte)
    : option (GetRouteResponse * pointer) :=
  match Z.shiftr tag 3 with
  | 1 => if u8 tag =? 8 then int32_case gs_set_modid m bs else None
  | 2 => if u8 tag =? 16 then int32_case gs_set_cmdid m bs else None
  | 3 =>
      if u8 tag =? 26
      then repeated_case 26 HostInfo_new HostInfo_InternalParse gs_add_host m bs
      else None
  | _ => None
  end.

Definition GetRouteResponse_InternalParse : GetRouteResponse -> list byte ->
  GetRouteResponse * outcome :=
  run gs_metadata gs_set_metadata GetRouteResponse_case.

Definition GetRouteResponse_InternalSerialize (m : GetRouteResponse) : list byte :=
  put_int32 1 (gs_modid_ m) ++
  put_int32 2 (gs_cmdid_ m) ++
  put_repeated 3 hi_cached_size HostInfo_InternalSerialize (gs_host_ m) ++
  put_unknown (gs_metadata m).

Definition GetRouteResponse_ByteSizeLong (m : GetRouteResponse) : Z * GetRouteResponse :=
  let total_size := size_total (gs_metadata m) (
    size_repeated HostInfo_ByteSizeLong (gs_host_ m) +
    size_int32 (gs_modid_ m) +
    size_int32 (gs_cmdid_ m)) in
  (total_size, gs_set_cached_size (ToCachedSize total_size)
    (gs_set_host ((fun h => (HostInfo_ByteSizeLong h).2) <$> gs_host_ m) m)).

Definition GetRouteResponse_MergeFrom (m from : GetRouteResponse) : GetRouteResponse :=
  let m := gs_set_metadata (ufs_merge (gs_metadata m) (gs_metadata from)) m in
  let m := gs_set_host (gs_host_ m ++ (HostInfo_MergeFrom HostInfo_new <$> gs_host_ from)) m in
  let m := merge_Z gs_set_modid (gs_modid_ from) m in
  let m := merge_Z gs_set_cmdid (gs_cmdid_ from) m in
  m.

(** [CopyFrom(from)] of another object. *)
Definition GetRouteResponse_CopyFrom (m from : GetRouteResponse) : GetRouteResponse :=
  GetRouteResponse_MergeFrom (GetRouteResponse_Clear m) from.

(** ** HostCallResult *)

Record HostCallResult : Type := mkHostCallResult {
  cr_ip_ : Z; cr_port_ : Z; cr_succ_ : Z; cr_err_ : Z; cr_overload_ : bool;
  cr_metadata : UnknownFieldSet; cr_cached_size : Z }.

Definition cr_set_ip (v : Z) (m : HostCallResult) : HostCallResult :=
  mkHostCallResult v (cr_port_ m) (cr_succ_ m) (cr_err_ m) (cr_overload_ m) (cr_metadata m)
    (cr_cached_size m).
Definition cr_set_port (v : Z) (m : HostCallResult) : HostCallResult :=
  mkHostCallResult (cr_ip_ m) v (cr_succ_ m) (cr_err_ m) (cr_overload_ m) (cr_metadata m)
    (cr_cached_size m).
Definition cr_set_succ (v : Z) (m : HostCallResult) : HostCallResult :=
  mkHostCallResult (cr_ip_ m) (cr_port_ m) v (cr_err_ m) (cr_overload_ m) (cr_metadata m)
    (cr_cached_size m).
Definition cr_set_err (v : Z) (m : HostCallResult) : HostCallResult :=
  mkHostCallResult (cr_ip_ m) (cr_port_ m) (cr_succ_ m) v (cr_overload_ m) (cr_metadata m)
    (cr_cached_size m).
Definition cr_set_overload (v : bool) (m : HostCallResult) : HostCallResult :=
  mkHostCallResult (cr_ip_ m) (cr_port_ m) (cr_succ_ m) (cr_err_ m) v (cr_metadata m)
    (cr_cached_size m).
Definition cr_set_metadata (v : UnknownFieldSet) (m : HostCallResult) : HostCallResult :=
  mkHostCallResult (cr_ip_ m) (cr_port_ m) (cr_succ_ m) (cr_err_ m) (cr_overload_ m) v
    (cr_cached_size m).
Definition cr_set_cached_size (v : Z) (m : HostCallResult) : HostCallResult :=
  mkHostCallResult (cr_ip_ m) (cr_port_ m) (cr_succ_ m) (cr_err_ m) (cr_overload_ m)
    (cr_metadata m) v.

Definition HostCallResult_new : HostCallResult := mkHostCallResult 0 0 0 0 false ufs_empty 0.

Definition HostCallResult_Clear (m : HostCallResult) : HostCallResult :=
  mkHostCallResult 0 0 0 0 false ufs_empty (cr_cached_size m).

Definition HostCallResult_case (tag : Z) (m : HostCallResult) (bs : list byte)
    : option (HostCallResult * pointer) :=
  match Z.shiftr tag 3 with
  | 1 => if u8 tag =? 8 then int32_case cr_set_ip m bs else None
  | 2 => if u8 tag =? 16 then int32_case cr_set_port m bs else None
  | 3 => if u8 tag =? 24 then uint32_case cr_set_succ m bs else None
  | 4 => if u8 tag =? 32 then uint32_case cr_set_err m bs else None
  | 5 => if u8 tag =? 40 then bool_case cr_set_overload m bs else None
  | _ => None
  end.

Definition HostCallResult_InternalParse : HostCallResult -> list byte ->
  HostCallResult * outcome :=
  run cr_metadata cr_set_metadata HostCallResult_case.

Definition HostCallResult_InternalSerialize (m : HostCallResult) : list byte :=
  put_int32 1 (cr_ip_ m) ++
  put_int32 2 (cr_port_ m) ++
  put_uint32 3 (cr_succ_ m) ++
  put_uint32 4 (cr_err_ m) ++
  put_bool 5 (cr_overload_ m) ++
  put_unknown (cr_metadata m).

Definition HostCallResult_ByteSizeLong (m : HostCallResult) : Z * HostCallResult :=
  let total_size := size_total (cr_metadata m) (
    size_int32 (cr_ip_ m) +
    size_int32 (cr_port_ m) +
    size_uint32 (cr_succ_ m) +
    size_uint32 (cr_err_ m) +
    size_bool (cr_overload_ m)) in
  (total_size, cr_set_cached_size (ToCachedSize total_size) m).

Definition HostCallResult_MergeFrom (m from : HostCallResult) : HostCallResult :=
  let m := cr_set_metadata (ufs_merge (cr_metadata m) (cr_metadata from)) m in
  let m := merge_Z cr_set_ip (cr_ip_ from) m in
  let m := merge_Z cr_set_port (cr_port_ from) m in
  let m := merge_Z cr_set_succ (cr_succ_ from) m in
  let m := merge_Z cr_set_err (cr_err_ from) m in
  let m := merge_bool cr_set_overload (cr_overload_ from) m in
  m.

(** [CopyFrom(from)] of another object. *)
Definition HostCallResult_CopyFrom (m from : HostCallResult) : HostCallResult :=
  HostCallResult_MergeFrom (HostCallResult_Clear m) from.

(** ** ReportStatusRequest *)

Record ReportStatusRequest : Type := mkReportStatusRequest {
  sr_results_ : list HostCallResult; sr_modid_ : Z; sr_cmdid_ : Z; sr_caller_ : Z; sr_ts_ : Z;
  sr_metadata : UnknownFieldSet; sr_cached_size : Z }.

Definition sr_set_results (v : list HostCallResult) (m : ReportStatusRequest) :
  ReportStatusRequest :=
  mkReportStatusRequest v (sr_modid_ m) (sr_cmdid_ m) (sr_caller_ m) (sr_ts_ m) (sr_metadata m)
    (sr_cached_size m).
Definition sr_set_modid (v : Z) (m : ReportStatusRequest) : ReportStatusRequest :=
  mkReportStatusRequest (sr_results_ m) v (sr_cmdid_ m) (sr_caller_ m) (sr_ts_ m) (sr_metadata
    m) (sr_cached_size m).
Definition sr_set_cmdid (v : Z) (m : ReportStatusRequest) : ReportStatusRequest :=
  mkReportStatusRequest (sr_results_ m) (sr_modid_ m) v (sr_caller_ m) (sr_ts_ m) (sr_metadata
    m) (sr_cached_size m).
Definition sr_set_caller (v : Z) (m : ReportStatusRequest) : ReportStatusRequest :=
  mkReportStatusRequest (sr_results_ m) (sr_modid_ m) (sr_cmdid_ m) v (sr_ts_ m) (sr_metadata
    m) (sr_cached_size m).
Definition sr_set_ts (v : Z) (m : ReportStatusRequest) : ReportStatusRequest :=
  mkReportStatusRequest (sr_results_ m) (sr_modid_ m) (sr_cmdid_ m) (sr_caller_ m) v
    (sr_metadata m) (sr_cached_size m).
Definition sr_set_metadata (v : UnknownFieldSet) (m : ReportStatusRequest) :
  ReportStatusRequest :=
  mkReportStatusRequest (sr_results_ m) (sr_modid_ m) (sr_cmdid_ m) (sr_caller_ m) (sr_ts_ m) v
    (sr_cached_size m).
Definition sr_set_cached_size (v : Z) (m : ReportStatusRequest) : ReportStatusRequest :=
  mkReportStatusRequest (sr_results_ m) (sr_modid_ m) (sr_cmdid_ m) (sr_caller_ m) (sr_ts_ m)
    (sr_metadata m) v.

Definition ReportStatusRequest_new : ReportStatusRequest :=
  mkReportStatusRequest [] 0 0 0 0 ufs_empty 0.

Definition ReportStatusRequest_Clear (m : ReportStatusRequest) : ReportStatusRequest :=
  mkReportStatusRequest [] 0 0 0 0 ufs_empty (sr_cached_size m).

(** [_internal_add_results()] and what is parsed into it. *)
Definition sr_add_results (h : HostCallResult) (m : ReportStatusRequest) : ReportStatusRequest
  := sr_set_results (sr_results_ m ++ [h]) m.

Definition ReportStatusRequest_case (tag : Z) (m : ReportStatusRequest) (bs : list byte)
    : option (ReportStatusRequest * pointer) :=
  match Z.shiftr tag 3 with
  | 1 => if u8 tag =? 8 then int32_case sr_set_modid m bs else None
  | 2 => if u8 tag =? 16 then int32_case sr_set_cmdid m bs else None
  | 3 => if u8 tag =? 24 then int32_case sr_set_caller m bs else None
  | 4 =>
      if u8 tag =? 34
      then repeated_case 34 HostCallResult_new HostCallResult_InternalParse sr_add_results m bs
      else None
  | 5 => if u8 tag =? 40 then uint32_case sr_set_ts m bs else None
  | _ => None
  end.

Definition ReportStatusRequest_InternalParse : ReportStatusRequest -> list byte ->
  ReportStatusRequest * outcome :=
  run sr_metadata sr_set_metadata ReportStatusRequest_case.

Definition ReportStatusRequest_InternalSerialize (m : ReportStatusRequest) : list byte :=
  put_int32 1 (sr_modid_ m) ++
  put_int32 2 (sr_cmdid_ m) ++
  put_int32 3 (sr_caller_ m) ++
  put_repeated 4 cr_cached_size HostCallResult_InternalSerialize (sr_results_ m) ++
  put_uint32 5 (sr_ts_ m) ++
  put_unknown (sr_metadata m).

Definition ReportStatusRequest_ByteSizeLong (m : ReportStatusRequest) : Z * ReportStatusRequest :=
  let total_size := size_total (sr_metadata m) (
    size_repeated HostCallResult_ByteSizeLong (sr_results_ m) +
    size_int32 (sr_modid_ m) +
    size_int32 (sr_cmdid_ m) +
    size_int32 (sr_caller_ m) +
    size_uint32 (sr_ts_ m)) in
  (total_size, sr_set_cached_size (ToCachedSize total_size)
    (sr_set_results ((fun h => (HostCallResult_ByteSizeLong h).2) <$> sr_results_ m) m)).

Definition ReportStatusRequest_MergeFrom (m from : ReportStatusRequest) : ReportStatusRequest :=
  let m := sr_set_metadata (ufs_merge (sr_metadata m) (sr_metadata from)) m in
  let m := sr_set_results (sr_results_ m ++ (HostCallResult_MergeFrom HostCallResult_new <$>
    sr_results_ from)) m in
  let m := merge_Z sr_set_modid (sr_modid_ from) m in
  let m := merge_Z sr_set_cmdid (sr_cmdid_ from) m in
  let m := merge_Z sr_set_caller (sr_caller_ from) m in
  let m := merge_Z sr_set_ts (sr_ts_ from) m in
  m.

(** [CopyFrom(from)] of another object. *)
Definition ReportStatusRequest_CopyFrom (m from : ReportStatusRequest) : ReportStatusRequest :=
  ReportStatusRequest_MergeFrom (ReportStatusRequest_Clear m) from.

(** ** GetHostRequest *)

Record GetHostRequest : Type := mkGetHostRequest {
  hq_seq_ : Z; hq_modid_ : Z; hq_cmdid_ : Z;
  hq_metadata : UnknownFieldSet; hq_cached_size : Z }.

Definition hq_set_seq (v : Z) (m : GetHostRequest) : GetHostRequest :=
  mkGetHostRequest v (hq_modid_ m) (hq_cmdid_ m) (hq_metadata m) (hq_cached_size m).
Definition hq_set_modid (v : Z) (m : GetHostRequest) : GetHostRequest :=
  mkGetHostRequest (hq_seq_ m) v (hq_cmdid_ m) (hq_metadata m) (hq_cached_size m).
Definition hq_set_cmdid (v : Z) (m : GetHostRequest) : GetHostRequest :=
  mkGetHostRequest (hq_seq_ m) (hq_modid_ m) v (hq_metadata m) (hq_cached_size m).
Definition hq_set_metadata (v : UnknownFieldSet) (m : GetHostRequest) : GetHostRequest :=
  mkGetHostRequest (hq_seq_ m) (hq_modid_ m) (hq_cmdid_ m) v (hq_cached_size m).
Definition hq_set_cached_size (v : Z) (m : GetHostRequest) : GetHostRequest :=
  mkGetHostRequest (hq_seq_ m) (hq_modid_ m) (hq_cmdid_ m) (hq_metadata m) v.

Definition GetHostRequest_new : GetHostRequest := mkGetHostRequest 0 0 0 ufs_empty 0.

Definition GetHostRequest_Clear (m : GetHostRequest) : GetHostRequest :=
  mkGetHostRequest 0 0 0 ufs_empty (hq_cached_size m).

Definition GetHostRequest_case (tag : Z) (m : GetHostRequest) (bs : list byte)
    : option (GetHostRequest * pointer) :=
  match Z.shiftr tag 3 with
  | 1 => if u8 tag =? 8 then uint32_case hq_set_seq m bs else None
  | 2 => if u8 tag =? 16 then int32_case hq_set_modid m bs else None
  | 3 => if u8 tag =? 24 then int32_case hq_set_cmdid m bs else None
  | _ => None
  end.

Definition GetHostRequest_InternalParse : GetHostRequest -> list byte ->
  GetHostRequest * outcome :=
  run hq_metadata hq_set_metadata GetHostRequest_case.

Definition GetHostRequest_InternalSerialize (m : GetHostRequest) : list byte :=
  put_uint32 1 (hq_seq_ m) ++
  put_int32 2 (hq_modid_ m) ++
  put_int32 3 (hq_cmdid_ m) ++
  put_unknown (hq_metadata m).

Definition GetHostRequest_ByteSizeLong (m : GetHostRequest) : Z * GetHostRequest :=
  let total_size := size_total (hq_metadata m) (
    size_uint32 (hq_seq_ m) +
    size_int32 (hq_modid_ m) +
    size_int32 (hq_cmdid_ m)) in
  (total_size, hq_set_cached_size (ToCachedSize total_size) m).

Definition GetHostRequest_MergeFrom (m from : GetHostRequest) : GetHostRequest :=
  let m := hq_set_metadata (ufs_merge (hq_metadata m) (hq_metadata from)) m in
  let m := merge_Z hq_set_seq (hq_seq_ from) m in
  let m := merge_Z hq_set_modid (hq_modid_ from) m in
  let m := merge_Z hq_set_cmdid (hq_cmdid_ from) m in
  m.

(** [CopyFrom(from)] of another object. *)
Definition GetHostRequest_CopyFrom (m from : GetHostRequest) : GetHostRequest :=
  GetHostRequest_MergeFrom (GetHostRequest_Clear m) from.

(** ** GetHostResponse *)

Record GetHostResponse : Type := mkGetHostResponse {
  hs_host_ : option HostInfo; hs_seq_ : Z; hs_modid_ : Z; hs_cmdid_ : Z; hs_retcode_ : Z;
  hs_metadata : UnknownFieldSet; hs_cached_size : Z }.

Definition hs_set_host (v : option HostInfo) (m : GetHostResponse) : GetHostResponse :=
  mkGetHostResponse v (hs_seq_ m) (hs_modid_ m) (hs_cmdid_ m) (hs_retcode_ m) (hs_metadata m)
    (hs_cached_size m).
Definition hs_set_seq (v : Z) (m : GetHostResponse) : GetHostResponse :=
  mkGetHostResponse (hs_host_ m) v (hs_modid_ m) (hs_cmdid_ m) (hs_retcode_ m) (hs_metadata m)
    (hs_cached_size m).
Definition hs_set_modid (v : Z) (m : GetHostResponse) : GetHostResponse :=
  mkGetHostResponse (hs_host_ m) (hs_seq_ m) v (hs_cmdid_ m) (hs_retcode_ m) (hs_metadata m)
    (hs_cached_size m).
Definition hs_set_cmdid (v : Z) (m : GetHostResponse) : GetHostResponse :=
  mkGetHostResponse (hs_host_ m) (hs_seq_ m) (hs_modid_ m) v (hs_retcode_ m) (hs_metadata m)
    (hs_cached_size m).
Definition hs_set_retcode (v : Z) (m : GetHostResponse) : GetHostResponse :=
  mkGetHostResponse (hs_host_ m) (hs_seq_ m) (hs_modid_ m) (hs_cmdid_ m) v (hs_metadata m)
    (hs_cached_size m).
Definition hs_set_metadata (v : UnknownFieldSet) (m : GetHostResponse) : GetHostResponse :=
  mkGetHostResponse (hs_host_ m) (hs_seq_ m) (hs_modid_ m) (hs_cmdid_ m) (hs_retcode_ m) v
    (hs_cached_size m).
Definition hs_set_cached_size (v : Z) (m : GetHostResponse) : GetHostResponse :=
  mkGetHostResponse (hs_host_ m) (hs_seq_ m) (hs_modid_ m) (hs_cmdid_ m) (hs_retcode_ m)
    (hs_metadata m) v.

Definition GetHostResponse_new : GetHostResponse := mkGetHostResponse None 0 0 0 0 ufs_empty 0.

Definition GetHostResponse_Clear (m : GetHostResponse) : GetHostResponse :=
  mkGetHostResponse None 0 0 0 0 ufs_empty (hs_cached_size m).

(** [_internal_mutable_host()]: a new message while the field is not set. *)
Definition hs_mutable_host (m : GetHostResponse) : HostInfo := default HostInfo_new (hs_host_ m).

Definition GetHostResponse_case (tag : Z) (m : GetHostResponse) (bs : list byte)
    : option (GetHostResponse * pointer) :=
  match Z.shiftr tag 3 with
  | 1 => if u8 tag =? 8 then uint32_case hs_set_seq m bs else None
  | 2 => if u8 tag =? 16 then int32_case hs_set_modid m bs else None
  | 3 => if u8 tag =? 24 then int32_case hs_set_cmdid m bs else None
  | 4 => if u8 tag =? 32 then int32_case hs_set_retcode m bs else None
  | 5 =>
      if u8 tag =? 42
      then message_case hs_mutable_host HostInfo_InternalParse (fun h => hs_set_host (Some h))
        m bs
      else None
  | _ => None
  end.

Definition GetHostResponse_InternalParse : GetHostResponse -> list byte ->
  GetHostResponse * outcome :=
  run hs_metadata hs_set_metadata GetHostResponse_case.

Definition GetHostResponse_InternalSerialize (m : GetHostResponse) : list byte :=
  put_uint32 1 (hs_seq_ m) ++
  put_int32 2 (hs_modid_ m) ++
  put_int32 3 (hs_cmdid_ m) ++
  put_int32 4 (hs_retcode_ m) ++
  match hs_host_ m with
     | Some h => InternalWriteMessage 5 (hi_cached_size h) (HostInfo_InternalSerialize h)
     | None => []
     end ++
  put_unknown (hs_metadata m).

Definition GetHostResponse_ByteSizeLong (m : GetHostResponse) : Z * GetHostResponse :=
  let total_size := size_total (hs_metadata m) (
    match hs_host_ m with
    | Some h => 1 + LengthDelimitedSize (HostInfo_ByteSizeLong h).1
    | None => 0
    end +
    size_uint32 (hs_seq_ m) +
    size_int32 (hs_modid_ m) +
    size_int32 (hs_cmdid_ m) +
    size_int32 (hs_retcode_ m)) in
  (total_size, hs_set_cached_size (ToCachedSize total_size)
    (hs_set_host ((fun h => (HostInfo_ByteSizeLong h).2) <$> hs_host_ m) m)).

Definition GetHostResponse_MergeFrom (m from : GetHostResponse) : GetHostResponse :=
  let m := hs_set_metadata (ufs_merge (hs_metadata m) (hs_metadata from)) m in
  let m := match hs_host_ from with
           | Some h => hs_set_host (Some (HostInfo_MergeFrom (hs_mutable_host m) h)) m
           | None => m
           end in
  let m := merge_Z hs_set_seq (hs_seq_ from) m in
  let m := merge_Z hs_set_modid (hs_modid_ from) m in
  let m := merge_Z hs_set_cmdid (hs_cmdid_ from) m in
  let m := merge_Z hs_set_retcode (hs_retcode_ from) m in
  m.

(** [CopyFrom(from)] of another object. *)
Definition GetHostResponse_CopyFrom (m from : GetHostResponse) : GetHostResponse :=
  GetHostResponse_MergeFrom (GetHostResponse_Clear m) from.

(** ** ReportRequest *)

Record ReportRequest : Type := mkReportRequest {
  rr_host_ : option HostInfo; rr_modid_ : Z; rr_cmdid_ : Z; rr_retcode_ : Z;
  rr_metadata : UnknownFieldSet; rr_cached_size : Z }.

Definition rr_set_host (v : option HostInfo) (m : ReportRequest) : ReportRequest :=
  mkReportRequest v (rr_modid_ m) (rr_cmdid_ m) (rr_retcode_ m) (rr_metadata m) (rr_cached_size
    m).
Definition rr_set_modid (v : Z) (m : ReportRequest) : ReportRequest :=
  mkReportRequest (rr_host_ m) v (rr_cmdid_ m) (rr_retcode_ m) (rr_metadata m) (rr_cached_size m).
Definition rr_set_cmdid (v : Z) (m : ReportRequest) : ReportRequest :=
  mkReportRequest (rr_host_ m) (rr_modid_ m) v (rr_retcode_ m) (rr_metadata m) (rr_cached_size m).
Definition rr_set_retcode (v : Z) (m : ReportRequest) : ReportRequest :=
  mkReportRequest (rr_host_ m) (rr_modid_ m) (rr_cmdid_ m) v (rr_metadata m) (rr_cached_size m).
Definition rr_set_metadata (v : UnknownFieldSet) (m : ReportRequest) : ReportRequest :=
  mkReportRequest (rr_host_ m) (rr_modid_ m) (rr_cmdid_ m) (rr_retcode_ m) v (rr_cached_size m).
Definition rr_set_cached_size (v : Z) (m : ReportRequest) : ReportRequest :=
  mkReportRequest (rr_host_ m) (rr_modid_ m) (rr_cmdid_ m) (rr_retcode_ m) (rr_metadata m) v.

Definition ReportRequest_new : ReportRequest := mkReportRequest None 0 0 0 ufs_empty 0.

Definition ReportRequest_Clear (m : ReportRequest) : ReportRequest :=
  mkReportRequest None 0 0 0 ufs_empty (rr_cached_size m).

(** [_internal_mutable_host()]: a new message while the field is not set. *)
Definition rr_mutable_host (m : ReportRequest) : HostInfo := default HostInfo_new (rr_host_ m).

Definition ReportRequest_case (tag : Z) (m : ReportRequest) (bs : list byte)
    : option (ReportRequest * pointer) :=
  match Z.shiftr tag 3 with
  | 1 => if u8 tag =? 8 then int32_case rr_set_modid m bs else None
  | 2 => if u8 tag =? 16 then int32_case rr_set_cmdid m bs else None
  | 3 =>
      if u8 tag =? 26
      then message_case rr_mutable_host HostInfo_InternalParse (fun h => rr_set_host (Some h))
        m bs
      else None
  | 4 => if u8 tag =? 32 then int32_case rr_set_retcode m bs else None
  | _ => None
  end.

Definition ReportRequest_InternalParse : ReportRequest -> list byte -> ReportRequest * outcome :=
  run rr_metadata rr_set_metadata ReportRequest_case.

Definition ReportRequest_InternalSerialize (m : ReportRequest) : list byte :=
  put_int32 1 (rr_modid_ m) ++
  put_int32 2 (rr_cmdid_ m) ++
  match rr_host_ m with
     | Some h => InternalWriteMessage 3 (hi_cached_size h) (HostInfo_InternalSerialize h)
     | None => []
     end ++
  put_int32 4 (rr_retcode_ m) ++
  put_unknown (rr_metadata m).

Definition ReportRequest_ByteSizeLong (m : ReportRequest) : Z * ReportRequest :=
  let total_size := size_total (rr_metadata m) (
    match rr_host_ m with
    | Some h => 1 + LengthDelimitedSize (HostInfo_ByteSizeLong h).1
    | None => 0
    end +
    size_int32 (rr_modid_ m) +
    size_int32 (rr_cmdid_ m) +
    size_int32 (rr_retcode_ m)) in
  (total_size, rr_set_cached_size (ToCachedSize total_size)
    (rr_set_host ((fun h => (HostInfo_ByteSizeLong h).2) <$> rr_host_ m) m)).

Definition ReportRequest_MergeFrom (m from : ReportRequest) : ReportRequest :=
  let m := rr_set_metadata (ufs_merge (rr_metadata m) (rr_metadata from)) m in
  let m := match rr_host_ from with
           | Some h => rr_set_host (Some (HostInfo_MergeFrom (rr_mutable_host m) h)) m
           | None => m
           end in
  let m := merge_Z rr_set_modid (rr_modid_ from) m in
  let m := merge_Z rr_set_cmdid (rr_cmdid_ from) m in
  let m := merge_Z rr_set_retcode (rr_retcode_ from) m in
  m.

(** [CopyFrom(from)] of another object. *)
Definition ReportRequest_CopyFrom (m from : ReportRequest) : ReportRequest :=
  ReportRequest_MergeFrom (ReportRequest_Clear m) from.
End Messages.
End Pb.
