(* ===== verification/Proto.v ===== *)
(** * Proto: the messages of the services (base/proto/lbrss.proto)

    Each message is a record of its fields; [int32] and [uint32] fields are the
    integers they hold.  What the services use of the generated code,
    [SerializeToString] and [ParseFromArray], is the interface [Wire], with the
    round trip as its law; [LbrssPbSpec] implements it. *)

From S2P Require Import Prelude CInt.
From Stdlib Require Import Strings.Byte.
Local Open Scope Z_scope.

(** ** Message identifiers and return codes *)

Definition ID_GetRouteRequest : Z := 1.
Definition ID_GetRouteResponse : Z := 2.
Definition ID_ReportStatusRequest : Z := 3.
Definition ID_GetHostRequest : Z := 4.
Definition ID_GetHostResponse : Z := 5.
Definition ID_ReportRequest : Z := 6.
Definition ID_API_GetRouteRequest : Z := 7.
Definition ID_API_GetRouteResponse : Z := 8.

Definition RET_SUCC : Z := 0.
Definition RET_OVERLOAD : Z := 1.
Definition RET_SYSTEM_ERROR : Z := 2.
Definition RET_NOEXIST : Z := 3.

(** ** Messages *)

Module lbrss.
Record HostInfo : Type := mkHostInfo { hi_ip : Z; hi_port : Z }.

Record GetRouteRequest : Type := mkGetRouteRequest { grq_modid : Z; grq_cmdid : Z }.

Record GetRouteResponse : Type := mkGetRouteResponse {
  grs_modid : Z; grs_cmdid : Z; grs_host : list HostInfo }.

Record HostCallResult : Type := mkHostCallResult {
  hcr_ip : Z; hcr_port : Z; hcr_succ : Z; hcr_err : Z; hcr_overload : bool }.

Record ReportStatusRequest : Type := mkReportStatusRequest {
  rsr_modid : Z; rsr_cmdid : Z; rsr_caller : Z;
  rsr_results : list HostCallResult; rsr_ts : Z }.

Record GetHostRequest : Type := mkGetHostRequest {
  ghq_seq : Z; ghq_modid : Z; ghq_cmdid : Z }.

(** [ghs_host] and [rr_host] are [None] while the field is not set. *)
Record GetHostResponse : Type := mkGetHostResponse {
  ghs_seq : Z; ghs_modid : Z; ghs_cmdid : Z; ghs_retcode : Z;
  ghs_host : option HostInfo }.

Record ReportRequest : Type := mkReportRequest {
  rr_modid : Z; rr_cmdid : Z; rr_host : option HostInfo; rr_retcode : Z }.

(** [message.host()] of an optional field: the default instance if it is not
    set. *)
Definition host_or_default (h : option HostInfo) : HostInfo := default (mkHostInfo 0 0) h.
End lbrss.

Definition set_retcode (ret : Z) (rsp : lbrss.GetHostResponse) : lbrss.GetHostResponse :=
  lbrss.mkGetHostResponse (lbrss.ghs_seq rsp) (lbrss.ghs_modid rsp) (lbrss.ghs_cmdid rsp)
    ret (lbrss.ghs_host rsp).

(** [rsp.mutable_host()] and the two assignments through it *)
Definition set_host (ip port : Z) (rsp : lbrss.GetHostResponse) : lbrss.GetHostResponse :=
  lbrss.mkGetHostResponse (lbrss.ghs_seq rsp) (lbrss.ghs_modid rsp) (lbrss.ghs_cmdid rsp)
    (lbrss.ghs_retcode rsp) (Some (lbrss.mkHostInfo ip port)).

(** [rsp.add_host()->CopyFrom(host)] *)
Definition add_host (h : lbrss.HostInfo) (rsp : lbrss.GetRouteResponse)
    : lbrss.GetRouteResponse :=
  lbrss.mkGetRouteResponse (lbrss.grs_modid rsp) (lbrss.grs_cmdid rsp)
    (lbrss.grs_host rsp ++ [h]).

(** ** The generated code *)

(** [ParseFromArray bs] is the message that the call leaves in its object,
    whatever the bytes are; [parse_ok bs] is its return value, which only the
    client library looks at. *)
Class Wire (A : Type) : Type := {
  SerializeToString : A -> list byte;
  ParseFromArray : list byte -> A;
  parse_ok : list byte -> bool
}.

(** A message whose fields are in the range of their types is parsed back. *)
Class WireLaws (A : Type) `{Wire A} : Type := {
  wire_ok : A -> Prop;
  parse_serialize a : wire_ok a -> ParseFromArray (SerializeToString a) = a;
  parse_ok_serialize a : wire_ok a -> parse_ok (A := A) (SerializeToString a) = true
}.
