(* ===== verification/LbrssPbSpec.v ===== *)
(** * LbrssPbSpec: the generated codec is correct

    For every message: [ByteSizeLong] is the number of bytes that
    [_InternalSerialize] writes, with the cached sizes that it has set; parsing
    what was written onto any message is [MergeFrom] of it, so that parsing onto
    a cleared message gives the message back; a parser stops on any input.  The
    messages are instances of one class, [PbMessage], and from its laws follow
    the instances of [Wire] and [WireLaws] that the services are proved
    against. *)

From S2P Require Import Prelude CInt.
From S2P Require Import Protobuf.
From S2P Require Import LbrssPb.
From S2P Require Import Proto.
From S2P Require Import Varint.
From Stdlib Require Import Strings.Byte.
Import Pb.
Local Open Scope Z_scope.

(** ** Lemmas on the parts *)

Section Parts.
Context `{PL : PbLaws}.

Lemma put_int32_length f v : small_field f -> is_i32 v ->
  Z.of_nat (length (put_int32 f v)) = size_int32 v.
Proof.
  intros. unfold put_int32, size_int32. destruct (v =? 0); [done|]. by apply Int32Size_length.
Qed.

Lemma put_uint32_length f v : small_field f -> is_u32 v ->
  Z.of_nat (length (put_uint32 f v)) = size_uint32 v.
Proof.
  intros. unfold put_uint32, size_uint32. destruct (v =? 0); [done|]. by apply UInt32Size_length.
Qed.

Lemma put_bool_length f b : small_field f -> Z.of_nat (length (put_bool f b)) = size_bool b.
Proof. intros. destruct b; [by apply BoolSize_length|done]. Qed.

Lemma put_unknown_length u n :
  size_total u n = n + Z.of_nat (length (put_unknown u)).
Proof.
  unfold size_total, put_unknown. destruct (have_unknown_fields u) eqn:E; [|cbn; lia].
  by apply Unknown_length.
Qed.

Lemma put_unknown_empty : put_unknown ufs_empty = [].
Proof. unfold put_unknown. by rewrite have_unknown_empty. Qed.

Lemma size_int32_range v : is_i32 v -> 0 <= size_int32 v <= 11.
Proof. intros H%Int32Size_range. unfold size_int32. case_match; lia. Qed.

Lemma size_uint32_range v : is_u32 v -> 0 <= size_uint32 v <= 6.
Proof. intros H%UInt32Size_range. unfold size_uint32. case_match; lia. Qed.

Lemma size_bool_range b : 0 <= size_bool b <= 2.
Proof. destruct b; cbn; lia. Qed.

Section Steps.
Context {M : Type} (meta : M -> UnknownFieldSet) (set_meta : UnknownFieldSet -> M -> M).
Context (field : Z -> M -> list byte -> option (M * pointer)).
Context (Hfield : reads_on field).
Abbreviation run := (run meta set_meta field).

Lemma run_put_int32 f v set m rest :
  (forall m bs, field (f * 8) m bs = int32_case set m bs) -> small_field f -> is_i32 v ->
  run m (put_int32 f v ++ rest) = run (merge_Z set v m) rest.
Proof.
  intros. unfold put_int32, merge_Z. destruct (v =? 0); [done|].
  by apply (run_int32 meta set_meta field Hfield).
Qed.

Lemma run_put_uint32 f v set m rest :
  (forall m bs, field (f * 8) m bs = uint32_case set m bs) -> small_field f -> is_u32 v ->
  run m (put_uint32 f v ++ rest) = run (merge_Z set v m) rest.
Proof.
  intros. unfold put_uint32, merge_Z. destruct (v =? 0); [done|].
  by apply (run_uint32 meta set_meta field Hfield).
Qed.

Lemma run_put_bool f b set m rest :
  (forall m bs, field (f * 8) m bs = bool_case set m bs) -> small_field f ->
  run m (put_bool f b ++ rest) = run (merge_bool set b m) rest.
Proof.
  intros. unfold put_bool, merge_bool. destruct b; [|done].
  by apply (run_bool meta set_meta field Hfield).
Qed.
End Steps.

(** A message inside another one. *)
Section Sub.
Context {A : Type} (size : A -> Z * A) (write : A -> list byte) (cached : A -> Z).
Context (range : A -> Prop).
Context (Hwrite : forall a, range a -> Z.of_nat (length (write (size a).2)) = (size a).1).
Context (Hcached : forall a, cached (size a).2 = ToCachedSize (size a).1).

Lemma sub_cached a : range a -> small_len (size a).1 ->
  cached (size a).2 = Z.of_nat (length (write (size a).2)) /\
  small_len (Z.of_nat (length (write (size a).2))).
Proof.
  intros Hr Hs. rewrite Hcached, Hwrite by done. split; [by apply ToCachedSize_id|done].
Qed.

Lemma sub_nonneg a : range a -> 0 <= (size a).1.
Proof. intros Hr. rewrite <- Hwrite by done. lia. Qed.

Lemma sub_length f a : small_field f -> range a -> small_len (size a).1 ->
  Z.of_nat (length (InternalWriteMessage f (cached (size a).2) (write (size a).2)))
    = 1 + LengthDelimitedSize (size a).1.
Proof.
  intros Hf Hr Hs. destruct (sub_cached a Hr Hs) as [-> Hl].
  rewrite MessageSize_length by done. by rewrite Hwrite.
Qed.

Lemma size_repeated_cons a ls :
  size_repeated size (a :: ls) = 1 + LengthDelimitedSize (size a).1 + size_repeated size ls.
Proof.
  unfold size_repeated. cbn [foldl].
  assert (H : forall ls x y, foldl (fun total a => total + LengthDelimitedSize (size a).1) (x +
    y) ls
    = x + foldl (fun total a => total + LengthDelimitedSize (size a).1) y ls).
  { clear. induction ls as [|b ls IH]; intros x y; [done|]. cbn [foldl].
    by rewrite <- Z.add_assoc, IH. }
  rewrite <- H. f_equal. cbn [length]. lia.
Qed.

Lemma size_repeated_nonneg ls : Forall range ls -> 0 <= size_repeated size ls.
Proof.
  induction 1 as [|a ls Ha Hls IH]; [done|]. rewrite size_repeated_cons.
  pose proof (LengthDelimitedSize_le _ (sub_nonneg a Ha)). pose proof (sub_nonneg a Ha). lia.
Qed.

Lemma size_repeated_elem a ls :
  Forall range (a :: ls) -> small_len (size_repeated size (a :: ls)) ->
  small_len (size a).1 /\ small_len (size_repeated size ls).
Proof.
  intros [Ha Hls]%Forall_cons. rewrite size_repeated_cons. unfold small_len.
  pose proof (LengthDelimitedSize_le _ (sub_nonneg a Ha)). pose proof (sub_nonneg a Ha).
  pose proof (size_repeated_nonneg ls Hls). lia.
Qed.

Lemma put_repeated_length f ls :
  small_field f -> Forall range ls -> small_len (size_repeated size ls) ->
  Z.of_nat (length (put_repeated f cached write ((fun a => (size a).2) <$> ls)))
    = size_repeated size ls.
Proof.
  intros Hf. induction ls as [|a ls IH]; intros Hr Hs; [done|].
  destruct (size_repeated_elem a ls Hr Hs) as [Ha Hls]. apply Forall_cons in Hr as [Hra Hr].
  rewrite size_repeated_cons, <- IH by done. unfold put_repeated.
  cbn [fmap list_fmap mjoin list_join].
  rewrite length_app, Nat2Z.inj_add. f_equal. by apply sub_length.
Qed.

Context {M : Type} (meta : M -> UnknownFieldSet) (set_meta : UnknownFieldSet -> M -> M).
Context (field : Z -> M -> list byte -> option (M * pointer)).
Context (Hfield : reads_on field).
Abbreviation run := (run meta set_meta field).
Context (parse : A -> list byte -> A * outcome) (merge : A -> A -> A).
Context (Hparse : forall m a, range a -> parse m (write (size a).2) = (merge m a, AtLimit)).

Lemma run_put_repeated f fresh add m ls rest :
  (forall m bs, field (f * 8 + 2) m bs = repeated_case (f * 8 + 2) fresh parse add m bs) ->
  small_field f -> Forall range ls -> small_len (size_repeated size ls) ->
  run m (put_repeated f cached write ((fun a => (size a).2) <$> ls) ++ rest)
    = run (foldl (fun m a => add (merge fresh a) m) m ls) rest.
Proof.
  intros Hc Hf. revert m. induction ls as [|a ls IH]; intros m Hr Hs; [done|].
  destruct (size_repeated_elem a ls Hr Hs) as [Ha Hls]. apply Forall_cons in Hr as [Hra Hr].
  unfold put_repeated. cbn [fmap list_fmap mjoin list_join]. rewrite <- app_assoc.
  destruct (sub_cached a Hra Ha) as [-> Hl].
  rewrite (run_repeated meta set_meta field Hfield parse f _ fresh add m (merge fresh a)) by auto.
  by apply IH.
Qed.

Lemma run_put_message f get set m a rest :
  (forall m bs, field (f * 8 + 2) m bs = message_case get parse set m bs) ->
  small_field f -> range a -> small_len (size a).1 ->
  run m (InternalWriteMessage f (cached (size a).2) (write (size a).2) ++ rest)
    = run (set (merge (get m) a) m) rest.
Proof.
  intros Hc Hf Hr Hs. destruct (sub_cached a Hr Hs) as [-> Hl].
  by apply (run_message meta set_meta field Hfield parse f _ get set m); auto.
Qed.
End Sub.
End Parts.

(** ** The messages *)

Ltac put_lengths :=
  rewrite ?length_app, ?Nat2Z.inj_add;
  repeat first
    [ rewrite put_int32_length by (assumption || (unfold small_field; lia))
    | rewrite put_uint32_length by (assumption || (unfold small_field; lia))
    | rewrite put_bool_length by (unfold small_field; lia)
    | rewrite put_unknown_length ].

(** A scalar field that the parser meets. *)
Ltac scalar_side := first [ reflexivity | assumption | unfold small_field; lia ].

(** Bounds of the sizes of the scalar fields in the goal. *)
Ltac size_bounds :=
  rewrite ?put_unknown_length in *;
  repeat match goal with
  | H : is_i32 ?v |- context [size_int32 ?v] =>
      lazymatch goal with _ : 0 <= size_int32 v <= 11 |- _ => fail | _ => pose proof
        (size_int32_range v H) end
  | H : is_u32 ?v |- context [size_uint32 ?v] =>
      lazymatch goal with _ : 0 <= size_uint32 v <= 6 |- _ => fail | _ => pose proof
        (size_uint32_range v H) end
  end.

Section Messages.
Context `{PL : PbLaws}.

(** *** HostInfo *)

(** The fields have values of their types. *)
Definition HostInfo_ok (m : HostInfo) : Prop :=
  is_i32 (hi_ip_ m) /\ is_i32 (hi_port_ m).

(** No unknown fields. *)
Definition HostInfo_plain (m : HostInfo) : Prop := hi_metadata m = ufs_empty.

Lemma HostInfo_reads_on : reads_on HostInfo_case.
Proof. unfold HostInfo_case. solve_reads_on. Qed.

Lemma HostInfo_size_write m : HostInfo_ok m ->
  Z.of_nat (length (HostInfo_InternalSerialize (HostInfo_ByteSizeLong m).2)) =
    (HostInfo_ByteSizeLong m).1.
Proof.
  intros (Hip & Hport). unfold HostInfo_InternalSerialize, HostInfo_ByteSizeLong.
  cbn [fst snd hi_ip_ hi_port_ hi_metadata hi_set_cached_size]. put_lengths. lia.
Qed.

Lemma HostInfo_parse_merge m b : HostInfo_ok b -> HostInfo_plain b ->
  HostInfo_InternalParse m (HostInfo_InternalSerialize (HostInfo_ByteSizeLong b).2) =
    (HostInfo_MergeFrom m b, AtLimit).
Proof.
  intros (Hip & Hport) Hu. unfold HostInfo_InternalParse, HostInfo_InternalSerialize,
    HostInfo_ByteSizeLong.
  cbn [snd hi_ip_ hi_port_ hi_metadata hi_set_cached_size].
  rewrite Hu, put_unknown_empty.
  rewrite (run_put_int32 _ _ _ HostInfo_reads_on 1 _ hi_set_ip) by scalar_side.
  rewrite (run_put_int32 _ _ _ HostInfo_reads_on 2 _ hi_set_port) by scalar_side.
  rewrite run_nil. unfold HostInfo_MergeFrom. rewrite Hu, ufs_merge_empty_r. by destruct m.
Qed.

(** *** GetRouteRequest *)

(** The fields have values of their types. *)
Definition GetRouteRequest_ok (m : GetRouteRequest) : Prop :=
  is_i32 (gq_modid_ m) /\ is_i32 (gq_cmdid_ m).

(** No unknown fields. *)
Definition GetRouteRequest_plain (m : GetRouteRequest) : Prop := gq_metadata m = ufs_empty.

Lemma GetRouteRequest_reads_on : reads_on GetRouteRequest_case.
Proof. unfold GetRouteRequest_case. solve_reads_on. Qed.

Lemma GetRouteRequest_size_write m : GetRouteRequest_ok m ->
  Z.of_nat (length (GetRouteRequest_InternalSerialize (GetRouteRequest_ByteSizeLong m).2)) =
    (GetRouteRequest_ByteSizeLong m).1.
Proof.
  intros (Hmodid & Hcmdid). unfold GetRouteRequest_InternalSerialize,
    GetRouteRequest_ByteSizeLong.
  cbn [fst snd gq_modid_ gq_cmdid_ gq_metadata gq_set_cached_size]. put_lengths. lia.
Qed.

Lemma GetRouteRequest_parse_merge m b : GetRouteRequest_ok b -> GetRouteRequest_plain b ->
  GetRouteRequest_InternalParse m (GetRouteRequest_InternalSerialize
    (GetRouteRequest_ByteSizeLong b).2) = (GetRouteRequest_MergeFrom m b, AtLimit).
Proof.
  intros (Hmodid & Hcmdid) Hu. unfold GetRouteRequest_InternalParse,
    GetRouteRequest_InternalSerialize, GetRouteRequest_ByteSizeLong.
  cbn [snd gq_modid_ gq_cmdid_ gq_metadata gq_set_cached_size].
  rewrite Hu, put_unknown_empty.
  rewrite (run_put_int32 _ _ _ GetRouteRequest_reads_on 1 _ gq_set_modid) by scalar_side.
  rewrite (run_put_int32 _ _ _ GetRouteRequest_reads_on 2 _ gq_set_cmdid) by scalar_side.
  rewrite run_nil. unfold GetRouteRequest_MergeFrom. rewrite Hu, ufs_merge_empty_r. by destruct m.
Qed.

(** *** GetRouteResponse *)

(** The fields have values of their types. *)
Definition GetRouteResponse_ok (m : GetRouteResponse) : Prop :=
  Forall HostInfo_ok (gs_host_ m) /\ is_i32 (gs_modid_ m) /\ is_i32 (gs_cmdid_ m).

(** No unknown fields, in it or in its messages. *)
Definition GetRouteResponse_plain (m : GetRouteResponse) : Prop :=
  gs_metadata m = ufs_empty /\ Forall HostInfo_plain (gs_host_ m).

Lemma GetRouteResponse_reads_on : reads_on GetRouteResponse_case.
Proof. unfold GetRouteResponse_case. solve_reads_on. Qed.

Lemma GetRouteResponse_sub_small m : GetRouteResponse_ok m ->
  small_len (GetRouteResponse_ByteSizeLong m).1 ->
  small_len (size_repeated HostInfo_ByteSizeLong (gs_host_ m)).
Proof.
  intros (Hhost & Hmodid & Hcmdid). unfold GetRouteResponse_ByteSizeLong, small_len.
  cbn [fst]. size_bounds.
  pose proof (size_repeated_nonneg _ _ _ HostInfo_size_write _ Hhost). lia.
Qed.

Lemma GetRouteResponse_size_write m : GetRouteResponse_ok m ->
  small_len (GetRouteResponse_ByteSizeLong m).1 ->
  Z.of_nat (length (GetRouteResponse_InternalSerialize (GetRouteResponse_ByteSizeLong m).2)) =
    (GetRouteResponse_ByteSizeLong m).1.
Proof.
  intros Hok Hs. pose proof (GetRouteResponse_sub_small m Hok Hs) as Hsub.
  destruct Hok as (Hhost & Hmodid & Hcmdid).
  unfold GetRouteResponse_InternalSerialize, GetRouteResponse_ByteSizeLong.
  cbn [fst snd gs_host_ gs_modid_ gs_cmdid_ gs_metadata gs_set_cached_size gs_set_host].
  put_lengths.
  rewrite (put_repeated_length _ _ _ _ HostInfo_size_write (fun _ => eq_refl)) by (assumption
    || (unfold small_field; lia)).
  lia.
Qed.

Lemma gs_add_all ls m :
  foldl (fun m a => gs_add_host (HostInfo_MergeFrom HostInfo_new a) m) m ls =
    gs_set_host (gs_host_ m ++ (HostInfo_MergeFrom HostInfo_new <$> ls)) m.
Proof.
  revert m. induction ls as [|a ls IH]; intros m; [destruct m; cbn; by rewrite app_nil_r|].
  cbn [foldl]. rewrite IH. destruct m. cbn. by rewrite <- app_assoc.
Qed.

Lemma GetRouteResponse_parse_merge m b : GetRouteResponse_ok b -> GetRouteResponse_plain b ->
  small_len (GetRouteResponse_ByteSizeLong b).1 ->
  GetRouteResponse_InternalParse m (GetRouteResponse_InternalSerialize
    (GetRouteResponse_ByteSizeLong b).2) = (GetRouteResponse_MergeFrom m b, AtLimit).
Proof.
  intros Hok [Hu Hpl] Hs. pose proof (GetRouteResponse_sub_small b Hok Hs) as Hsub.
  destruct Hok as (Hhost & Hmodid & Hcmdid).
  unfold GetRouteResponse_InternalParse, GetRouteResponse_InternalSerialize,
    GetRouteResponse_ByteSizeLong.
  cbn [snd gs_host_ gs_modid_ gs_cmdid_ gs_metadata gs_set_cached_size gs_set_host].
  rewrite Hu, put_unknown_empty.
  rewrite (run_put_int32 _ _ _ GetRouteResponse_reads_on 1 _ gs_set_modid) by scalar_side.
  rewrite (run_put_int32 _ _ _ GetRouteResponse_reads_on 2 _ gs_set_cmdid) by scalar_side.
  rewrite (run_put_repeated _ _ _ (fun a => HostInfo_ok a /\ HostInfo_plain a)
    (fun a H => HostInfo_size_write a (proj1 H))
      (fun _ => eq_refl) _ _ _ GetRouteResponse_reads_on HostInfo_InternalParse
        HostInfo_MergeFrom (fun m a H => HostInfo_parse_merge m a (proj1 H) (proj2 H)) 3
          HostInfo_new gs_add_host)
    by (scalar_side || by apply Forall_and).
  rewrite gs_add_all.
  rewrite run_nil. unfold GetRouteResponse_MergeFrom. rewrite Hu, ufs_merge_empty_r. cbv zeta.
  destruct m, b; cbn in *. unfold merge_Z.
  repeat case_match; done.
Qed.

(** *** HostCallResult *)

(** The fields have values of their types. *)
Definition HostCallResult_ok (m : HostCallResult) : Prop :=
  is_i32 (cr_ip_ m) /\ is_i32 (cr_port_ m) /\ is_u32 (cr_succ_ m) /\ is_u32 (cr_err_ m).

(** No unknown fields. *)
Definition HostCallResult_plain (m : HostCallResult) : Prop := cr_metadata m = ufs_empty.

Lemma HostCallResult_reads_on : reads_on HostCallResult_case.
Proof. unfold HostCallResult_case. solve_reads_on. Qed.

Lemma HostCallResult_size_write m : HostCallResult_ok m ->
  Z.of_nat (length (HostCallResult_InternalSerialize (HostCallResult_ByteSizeLong m).2)) =
    (HostCallResult_ByteSizeLong m).1.
Proof.
  intros (Hip & Hport & Hsucc & Herr). unfold HostCallResult_InternalSerialize,
    HostCallResult_ByteSizeLong.
  cbn [fst snd cr_ip_ cr_port_ cr_succ_ cr_err_ cr_overload_ cr_metadata cr_set_cached_size].
  put_lengths. lia.
Qed.

Lemma HostCallResult_parse_merge m b : HostCallResult_ok b -> HostCallResult_plain b ->
  HostCallResult_InternalParse m (HostCallResult_InternalSerialize (HostCallResult_ByteSizeLong
    b).2) = (HostCallResult_MergeFrom m b, AtLimit).
Proof.
  intros (Hip & Hport & Hsucc & Herr) Hu. unfold HostCallResult_InternalParse,
    HostCallResult_InternalSerialize, HostCallResult_ByteSizeLong.
  cbn [snd cr_ip_ cr_port_ cr_succ_ cr_err_ cr_overload_ cr_metadata cr_set_cached_size].
  rewrite Hu, put_unknown_empty.
  rewrite (run_put_int32 _ _ _ HostCallResult_reads_on 1 _ cr_set_ip) by scalar_side.
  rewrite (run_put_int32 _ _ _ HostCallResult_reads_on 2 _ cr_set_port) by scalar_side.
  rewrite (run_put_uint32 _ _ _ HostCallResult_reads_on 3 _ cr_set_succ) by scalar_side.
  rewrite (run_put_uint32 _ _ _ HostCallResult_reads_on 4 _ cr_set_err) by scalar_side.
  rewrite (run_put_bool _ _ _ HostCallResult_reads_on 5 _ cr_set_overload) by scalar_side.
  rewrite run_nil. unfold HostCallResult_MergeFrom. rewrite Hu, ufs_merge_empty_r. by destruct m.
Qed.

(** *** ReportStatusRequest *)

(** The fields have values of their types. *)
Definition ReportStatusRequest_ok (m : ReportStatusRequest) : Prop :=
  Forall HostCallResult_ok (sr_results_ m) /\ is_i32 (sr_modid_ m) /\ is_i32 (sr_cmdid_ m) /\
    is_i32 (sr_caller_ m) /\ is_u32 (sr_ts_ m).

(** No unknown fields, in it or in its messages. *)
Definition ReportStatusRequest_plain (m : ReportStatusRequest) : Prop :=
  sr_metadata m = ufs_empty /\ Forall HostCallResult_plain (sr_results_ m).

Lemma ReportStatusRequest_reads_on : reads_on ReportStatusRequest_case.
Proof. unfold ReportStatusRequest_case. solve_reads_on. Qed.

Lemma ReportStatusRequest_sub_small m : ReportStatusRequest_ok m ->
  small_len (ReportStatusRequest_ByteSizeLong m).1 ->
  small_len (size_repeated HostCallResult_ByteSizeLong (sr_results_ m)).
Proof.
  intros (Hresults & Hmodid & Hcmdid & Hcaller & Hts).
  unfold ReportStatusRequest_ByteSizeLong, small_len. cbn [fst]. size_bounds.
  pose proof (size_repeated_nonneg _ _ _ HostCallResult_size_write _ Hresults). lia.
Qed.

Lemma ReportStatusRequest_size_write m : ReportStatusRequest_ok m ->
  small_len (ReportStatusRequest_ByteSizeLong m).1 ->
  Z.of_nat (length (ReportStatusRequest_InternalSerialize (ReportStatusRequest_ByteSizeLong
    m).2)) = (ReportStatusRequest_ByteSizeLong m).1.
Proof.
  intros Hok Hs. pose proof (ReportStatusRequest_sub_small m Hok Hs) as Hsub.
  destruct Hok as (Hresults & Hmodid & Hcmdid & Hcaller & Hts).
  unfold ReportStatusRequest_InternalSerialize, ReportStatusRequest_ByteSizeLong.
  cbn [fst snd sr_results_ sr_modid_ sr_cmdid_ sr_caller_ sr_ts_ sr_metadata sr_set_cached_size
    sr_set_results]. put_lengths.
  rewrite (put_repeated_length _ _ _ _ HostCallResult_size_write (fun _ => eq_refl)) by
    (assumption || (unfold small_field; lia)).
  lia.
Qed.

Lemma sr_add_all ls m :
  foldl (fun m a => sr_add_results (HostCallResult_MergeFrom HostCallResult_new a) m) m ls =
    sr_set_results (sr_results_ m ++ (HostCallResult_MergeFrom HostCallResult_new <$> ls)) m.
Proof.
  revert m. induction ls as [|a ls IH]; intros m; [destruct m; cbn; by rewrite app_nil_r|].
  cbn [foldl]. rewrite IH. destruct m. cbn. by rewrite <- app_assoc.
Qed.

Lemma ReportStatusRequest_parse_merge m b : ReportStatusRequest_ok b ->
  ReportStatusRequest_plain b -> small_len (ReportStatusRequest_ByteSizeLong b).1 ->
  ReportStatusRequest_InternalParse m (ReportStatusRequest_InternalSerialize
    (ReportStatusRequest_ByteSizeLong b).2) = (ReportStatusRequest_MergeFrom m b, AtLimit).
Proof.
  intros Hok [Hu Hpl] Hs. pose proof (ReportStatusRequest_sub_small b Hok Hs) as Hsub.
  destruct Hok as (Hresults & Hmodid & Hcmdid & Hcaller & Hts).
  unfold ReportStatusRequest_InternalParse, ReportStatusRequest_InternalSerialize,
    ReportStatusRequest_ByteSizeLong.
  cbn [snd sr_results_ sr_modid_ sr_cmdid_ sr_caller_ sr_ts_ sr_metadata sr_set_cached_size
    sr_set_results].
  rewrite Hu, put_unknown_empty.
  rewrite (run_put_int32 _ _ _ ReportStatusRequest_reads_on 1 _ sr_set_modid) by scalar_side.
  rewrite (run_put_int32 _ _ _ ReportStatusRequest_reads_on 2 _ sr_set_cmdid) by scalar_side.
  rewrite (run_put_int32 _ _ _ ReportStatusRequest_reads_on 3 _ sr_set_caller) by scalar_side.
  rewrite (run_put_repeated _ _ _ (fun a => HostCallResult_ok a /\ HostCallResult_plain a) (fun
    a H => HostCallResult_size_write a (proj1 H))
      (fun _ => eq_refl) _ _ _ ReportStatusRequest_reads_on HostCallResult_InternalParse
        HostCallResult_MergeFrom (fun m a H => HostCallResult_parse_merge m a (proj1 H) (proj2
          H)) 4 HostCallResult_new sr_add_results)
    by (scalar_side || by apply Forall_and).
  rewrite sr_add_all.
  rewrite (run_put_uint32 _ _ _ ReportStatusRequest_reads_on 5 _ sr_set_ts) by scalar_side.
  rewrite run_nil. unfold ReportStatusRequest_MergeFrom. rewrite Hu, ufs_merge_empty_r. cbv zeta.
  destruct m, b; cbn in *. unfold merge_Z.
  repeat case_match; done.
Qed.

(** *** GetHostRequest *)

(** The fields have values of their types. *)
Definition GetHostRequest_ok (m : GetHostRequest) : Prop :=
  is_u32 (hq_seq_ m) /\ is_i32 (hq_modid_ m) /\ is_i32 (hq_cmdid_ m).

(** No unknown fields. *)
Definition GetHostRequest_plain (m : GetHostRequest) : Prop := hq_metadata m = ufs_empty.

Lemma GetHostRequest_reads_on : reads_on GetHostRequest_case.
Proof. unfold GetHostRequest_case. solve_reads_on. Qed.

Lemma GetHostRequest_size_write m : GetHostRequest_ok m ->
  Z.of_nat (length (GetHostRequest_InternalSerialize (GetHostRequest_ByteSizeLong m).2)) =
    (GetHostRequest_ByteSizeLong m).1.
Proof.
  intros (Hseq & Hmodid & Hcmdid). unfold GetHostRequest_InternalSerialize,
    GetHostRequest_ByteSizeLong.
  cbn [fst snd hq_seq_ hq_modid_ hq_cmdid_ hq_metadata hq_set_cached_size]. put_lengths. lia.
Qed.

Lemma GetHostRequest_parse_merge m b : GetHostRequest_ok b -> GetHostRequest_plain b ->
  GetHostRequest_InternalParse m (GetHostRequest_InternalSerialize (GetHostRequest_ByteSizeLong
    b).2) = (GetHostRequest_MergeFrom m b, AtLimit).
Proof.
  intros (Hseq & Hmodid & Hcmdid) Hu. unfold GetHostRequest_InternalParse,
    GetHostRequest_InternalSerialize, GetHostRequest_ByteSizeLong.
  cbn [snd hq_seq_ hq_modid_ hq_cmdid_ hq_metadata hq_set_cached_size].
  rewrite Hu, put_unknown_empty.
  rewrite (run_put_uint32 _ _ _ GetHostRequest_reads_on 1 _ hq_set_seq) by scalar_side.
  rewrite (run_put_int32 _ _ _ GetHostRequest_reads_on 2 _ hq_set_modid) by scalar_side.
  rewrite (run_put_int32 _ _ _ GetHostRequest_reads_on 3 _ hq_set_cmdid) by scalar_side.
  rewrite run_nil. unfold GetHostRequest_MergeFrom. rewrite Hu, ufs_merge_empty_r. by destruct m.
Qed.

(** *** GetHostResponse *)

(** The fields have values of their types. *)
Definition GetHostResponse_ok (m : GetHostResponse) : Prop :=
  from_option HostInfo_ok True (hs_host_ m) /\ is_u32 (hs_seq_ m) /\ is_i32 (hs_modid_ m) /\
    is_i32 (hs_cmdid_ m) /\ is_i32 (hs_retcode_ m).

(** No unknown fields, in it or in its messages. *)
Definition GetHostResponse_plain (m : GetHostResponse) : Prop :=
  hs_metadata m = ufs_empty /\ from_option HostInfo_plain True (hs_host_ m).

Lemma GetHostResponse_reads_on : reads_on GetHostResponse_case.
Proof. unfold GetHostResponse_case. solve_reads_on. Qed.

Lemma GetHostResponse_sub_small m a : GetHostResponse_ok m ->
  small_len (GetHostResponse_ByteSizeLong m).1 -> hs_host_ m = Some a ->
  HostInfo_ok a /\ small_len (HostInfo_ByteSizeLong a).1.
Proof.
  intros (Hhost & Hseq & Hmodid & Hcmdid & Hretcode) Hs E.
  unfold GetHostResponse_ByteSizeLong, small_len in *. rewrite E in *. cbn [from_option fst] in *.
  split; [done|]. pose proof (sub_nonneg _ _ _ HostInfo_size_write _ Hhost) as Hp.
  pose proof (LengthDelimitedSize_le _ Hp). revert Hs. size_bounds. lia.
Qed.

Lemma GetHostResponse_size_write m : GetHostResponse_ok m ->
  small_len (GetHostResponse_ByteSizeLong m).1 ->
  Z.of_nat (length (GetHostResponse_InternalSerialize (GetHostResponse_ByteSizeLong m).2)) =
    (GetHostResponse_ByteSizeLong m).1.
Proof.
  intros Hok Hs. pose proof (GetHostResponse_sub_small m) as Hsub.
  specialize (fun a => Hsub a Hok Hs). destruct Hok as (Hhost & Hseq & Hmodid & Hcmdid &
    Hretcode).
  unfold GetHostResponse_InternalSerialize, GetHostResponse_ByteSizeLong.
  cbn [fst snd hs_host_ hs_seq_ hs_modid_ hs_cmdid_ hs_retcode_ hs_metadata hs_set_cached_size
    hs_set_host]. put_lengths.
  destruct (hs_host_ m) as [a|]; cbn [fmap option_fmap option_map length]; [|lia].
  destruct (Hsub a eq_refl).
  rewrite (sub_length _ _ _ _ HostInfo_size_write (fun _ => eq_refl)) by (assumption || (unfold
    small_field; lia)).
  lia.
Qed.

Lemma GetHostResponse_parse_merge m b : GetHostResponse_ok b -> GetHostResponse_plain b ->
  small_len (GetHostResponse_ByteSizeLong b).1 ->
  GetHostResponse_InternalParse m (GetHostResponse_InternalSerialize
    (GetHostResponse_ByteSizeLong b).2) = (GetHostResponse_MergeFrom m b, AtLimit).
Proof.
  intros Hok [Hu Hpl] Hs. pose proof (GetHostResponse_sub_small b) as Hsub.
  specialize (fun a => Hsub a Hok Hs). destruct Hok as (Hhost & Hseq & Hmodid & Hcmdid &
    Hretcode).
  unfold GetHostResponse_InternalParse, GetHostResponse_InternalSerialize,
    GetHostResponse_ByteSizeLong.
  cbn [snd hs_host_ hs_seq_ hs_modid_ hs_cmdid_ hs_retcode_ hs_metadata hs_set_cached_size
    hs_set_host].
  rewrite Hu, put_unknown_empty.
  rewrite (run_put_uint32 _ _ _ GetHostResponse_reads_on 1 _ hs_set_seq) by scalar_side.
  rewrite (run_put_int32 _ _ _ GetHostResponse_reads_on 2 _ hs_set_modid) by scalar_side.
  rewrite (run_put_int32 _ _ _ GetHostResponse_reads_on 3 _ hs_set_cmdid) by scalar_side.
  rewrite (run_put_int32 _ _ _ GetHostResponse_reads_on 4 _ hs_set_retcode) by scalar_side.
  assert (Hm : forall m rest, run hs_metadata hs_set_metadata GetHostResponse_case m
    (match ((fun h => (HostInfo_ByteSizeLong h).2) <$> hs_host_ b) with
     | Some h => InternalWriteMessage 5 (hi_cached_size h) (HostInfo_InternalSerialize h)
     | None => [] end ++ rest) =
    run hs_metadata hs_set_metadata GetHostResponse_case
      (match hs_host_ b with
       | Some a => hs_set_host (Some (HostInfo_MergeFrom (hs_mutable_host m) a)) m
       | None => m end) rest).
  { intros m0 rest. destruct (hs_host_ b) as [a|]; [|done]. destruct (Hsub a eq_refl).
    cbn [fmap option_fmap option_map].
    by rewrite (run_put_message _ _ _ (fun a => HostInfo_ok a /\ HostInfo_plain a)
      (fun a H => HostInfo_size_write a (proj1 H))
        (fun _ => eq_refl) _ _ _ GetHostResponse_reads_on HostInfo_InternalParse
          HostInfo_MergeFrom (fun m a H => HostInfo_parse_merge m a (proj1 H) (proj2 H)) 5
            hs_mutable_host (fun h => hs_set_host (Some h)))
      by (scalar_side || done). }
  rewrite Hm.
  rewrite run_nil. unfold GetHostResponse_MergeFrom. rewrite Hu, ufs_merge_empty_r. cbv zeta.
  destruct m, b; cbn in *. unfold merge_Z, hs_mutable_host.
  repeat case_match; done.
Qed.

(** *** ReportRequest *)

(** The fields have values of their types. *)
Definition ReportRequest_ok (m : ReportRequest) : Prop :=
  from_option HostInfo_ok True (rr_host_ m) /\ is_i32 (rr_modid_ m) /\ is_i32 (rr_cmdid_ m) /\
    is_i32 (rr_retcode_ m).

(** No unknown fields, in it or in its messages. *)
Definition ReportRequest_plain (m : ReportRequest) : Prop :=
  rr_metadata m = ufs_empty /\ from_option HostInfo_plain True (rr_host_ m).

Lemma ReportRequest_reads_on : reads_on ReportRequest_case.
Proof. unfold ReportRequest_case. solve_reads_on. Qed.

Lemma ReportRequest_sub_small m a : ReportRequest_ok m ->
  small_len (ReportRequest_ByteSizeLong m).1 -> rr_host_ m = Some a ->
  HostInfo_ok a /\ small_len (HostInfo_ByteSizeLong a).1.
Proof.
  intros (Hhost & Hmodid & Hcmdid & Hretcode) Hs E.
  unfold ReportRequest_ByteSizeLong, small_len in *. rewrite E in *. cbn [from_option fst] in *.
  split; [done|]. pose proof (sub_nonneg _ _ _ HostInfo_size_write _ Hhost) as Hp.
  pose proof (LengthDelimitedSize_le _ Hp). revert Hs. size_bounds. lia.
Qed.

Lemma ReportRequest_size_write m : ReportRequest_ok m ->
  small_len (ReportRequest_ByteSizeLong m).1 ->
  Z.of_nat (length (ReportRequest_InternalSerialize (ReportRequest_ByteSizeLong m).2)) =
    (ReportRequest_ByteSizeLong m).1.
Proof.
  intros Hok Hs. pose proof (ReportRequest_sub_small m) as Hsub.
  specialize (fun a => Hsub a Hok Hs). destruct Hok as (Hhost & Hmodid & Hcmdid & Hretcode).
  unfold ReportRequest_InternalSerialize, ReportRequest_ByteSizeLong.
  cbn [fst snd rr_host_ rr_modid_ rr_cmdid_ rr_retcode_ rr_metadata rr_set_cached_size
    rr_set_host]. put_lengths.
  destruct (rr_host_ m) as [a|]; cbn [fmap option_fmap option_map length]; [|lia].
  destruct (Hsub a eq_refl).
  rewrite (sub_length _ _ _ _ HostInfo_size_write (fun _ => eq_refl)) by (assumption || (unfold
    small_field; lia)).
  lia.
Qed.

Lemma ReportRequest_parse_merge m b : ReportRequest_ok b -> ReportRequest_plain b ->
  small_len (ReportRequest_ByteSizeLong b).1 ->
  ReportRequest_InternalParse m (ReportRequest_InternalSerialize (ReportRequest_ByteSizeLong
    b).2) = (ReportRequest_MergeFrom m b, AtLimit).
Proof.
  intros Hok [Hu Hpl] Hs. pose proof (ReportRequest_sub_small b) as Hsub.
  specialize (fun a => Hsub a Hok Hs). destruct Hok as (Hhost & Hmodid & Hcmdid & Hretcode).
  unfold ReportRequest_InternalParse, ReportRequest_InternalSerialize, ReportRequest_ByteSizeLong.
  cbn [snd rr_host_ rr_modid_ rr_cmdid_ rr_retcode_ rr_metadata rr_set_cached_size rr_set_host].
  rewrite Hu, put_unknown_empty.
  rewrite (run_put_int32 _ _ _ ReportRequest_reads_on 1 _ rr_set_modid) by scalar_side.
  rewrite (run_put_int32 _ _ _ ReportRequest_reads_on 2 _ rr_set_cmdid) by scalar_side.
  assert (Hm : forall m rest, run rr_metadata rr_set_metadata ReportRequest_case m
    (match ((fun h => (HostInfo_ByteSizeLong h).2) <$> rr_host_ b) with
     | Some h => InternalWriteMessage 3 (hi_cached_size h) (HostInfo_InternalSerialize h)
     | None => [] end ++ rest) =
    run rr_metadata rr_set_metadata ReportRequest_case
      (match rr_host_ b with
       | Some a => rr_set_host (Some (HostInfo_MergeFrom (rr_mutable_host m) a)) m
       | None => m end) rest).
  { intros m0 rest. destruct (rr_host_ b) as [a|]; [|done]. destruct (Hsub a eq_refl).
    cbn [fmap option_fmap option_map].
    by rewrite (run_put_message _ _ _ (fun a => HostInfo_ok a /\ HostInfo_plain a)
      (fun a H => HostInfo_size_write a (proj1 H))
        (fun _ => eq_refl) _ _ _ ReportRequest_reads_on HostInfo_InternalParse
          HostInfo_MergeFrom (fun m a H => HostInfo_parse_merge m a (proj1 H) (proj2 H)) 3
            rr_mutable_host (fun h => rr_set_host (Some h)))
      by (scalar_side || done). }
  rewrite Hm.
  rewrite (run_put_int32 _ _ _ ReportRequest_reads_on 4 _ rr_set_retcode) by scalar_side.
  rewrite run_nil. unfold ReportRequest_MergeFrom. rewrite Hu, ufs_merge_empty_r. cbv zeta.
  destruct m, b; cbn in *. unfold merge_Z, rr_mutable_host.
  repeat case_match; done.
Qed.

(** ** The messages of the services

    What the accessors of a message see, and a message with given contents. *)

Definition HostInfo_value (m : HostInfo) : lbrss.HostInfo :=
  lbrss.mkHostInfo (hi_ip_ m) (hi_port_ m).
Definition HostInfo_of (v : lbrss.HostInfo) : HostInfo :=
  mkHostInfo (lbrss.hi_ip v) (lbrss.hi_port v) ufs_empty 0.

Lemma HostInfo_of_plain v : HostInfo_plain (HostInfo_of v).
Proof. done. Qed.

(** A copy has the contents of the original, and its unknown fields. *)
Lemma HostInfo_CopyFrom_value m b :
  HostInfo_value (HostInfo_CopyFrom m b) = HostInfo_value b /\ hi_metadata (HostInfo_CopyFrom m
    b) = hi_metadata b.
Proof.
  unfold HostInfo_CopyFrom, HostInfo_MergeFrom, HostInfo_Clear, HostInfo_value. destruct b; cbn.
  unfold merge_Z, merge_bool. rewrite ufs_merge_empty_l.
  repeat (case_match; try match goal with H : (_ =? _) = true |- _ => apply Z.eqb_eq in H;
    subst end); done.
Qed.

Lemma HostInfo_merge_new b : HostInfo_value (HostInfo_MergeFrom HostInfo_new b) =
  HostInfo_value b.
Proof. exact (proj1 (HostInfo_CopyFrom_value HostInfo_new b)). Qed.

Lemma HostInfo_value_of v : HostInfo_value (HostInfo_of v) = v.
Proof. by destruct v. Qed.

Definition GetRouteRequest_value (m : GetRouteRequest) : lbrss.GetRouteRequest :=
  lbrss.mkGetRouteRequest (gq_modid_ m) (gq_cmdid_ m).
Definition GetRouteRequest_of (v : lbrss.GetRouteRequest) : GetRouteRequest :=
  mkGetRouteRequest (lbrss.grq_modid v) (lbrss.grq_cmdid v) ufs_empty 0.

Lemma GetRouteRequest_of_plain v : GetRouteRequest_plain (GetRouteRequest_of v).
Proof. done. Qed.

(** A copy has the contents of the original, and its unknown fields. *)
Lemma GetRouteRequest_CopyFrom_value m b :
  GetRouteRequest_value (GetRouteRequest_CopyFrom m b) = GetRouteRequest_value b /\ gq_metadata
    (GetRouteRequest_CopyFrom m b) = gq_metadata b.
Proof.
  unfold GetRouteRequest_CopyFrom, GetRouteRequest_MergeFrom, GetRouteRequest_Clear,
    GetRouteRequest_value. destruct b; cbn.
  unfold merge_Z, merge_bool. rewrite ufs_merge_empty_l.
  repeat (case_match; try match goal with H : (_ =? _) = true |- _ => apply Z.eqb_eq in H;
    subst end); done.
Qed.

Lemma GetRouteRequest_merge_new b : GetRouteRequest_value (GetRouteRequest_MergeFrom
  GetRouteRequest_new b) = GetRouteRequest_value b.
Proof. exact (proj1 (GetRouteRequest_CopyFrom_value GetRouteRequest_new b)). Qed.

Lemma GetRouteRequest_value_of v : GetRouteRequest_value (GetRouteRequest_of v) = v.
Proof. by destruct v. Qed.

Definition GetRouteResponse_value (m : GetRouteResponse) : lbrss.GetRouteResponse :=
  lbrss.mkGetRouteResponse (gs_modid_ m) (gs_cmdid_ m) (HostInfo_value <$> gs_host_ m).
Definition GetRouteResponse_of (v : lbrss.GetRouteResponse) : GetRouteResponse :=
  mkGetRouteResponse (HostInfo_of <$> lbrss.grs_host v) (lbrss.grs_modid v) (lbrss.grs_cmdid v)
    ufs_empty 0.

Lemma GetRouteResponse_of_plain v : GetRouteResponse_plain (GetRouteResponse_of v).
Proof.
  split; [done|]. cbn. apply Forall_fmap, Forall_true. intros. apply HostInfo_of_plain.
Qed.

(** A copy has the contents of the original, and its unknown fields. *)
Lemma GetRouteResponse_CopyFrom_value m b :
  GetRouteResponse_value (GetRouteResponse_CopyFrom m b) = GetRouteResponse_value b /\
    gs_metadata (GetRouteResponse_CopyFrom m b) = gs_metadata b.
Proof.
  assert (Hl : HostInfo_value <$> (HostInfo_MergeFrom HostInfo_new <$> gs_host_ b) =
    HostInfo_value <$> gs_host_ b).
  { rewrite <- list_fmap_compose. apply list_fmap_ext. intros. apply HostInfo_merge_new. }
  unfold GetRouteResponse_CopyFrom, GetRouteResponse_MergeFrom, GetRouteResponse_Clear,
    GetRouteResponse_value. destruct b; cbn in *. rewrite <- Hl.
  unfold merge_Z. rewrite ufs_merge_empty_l.
  repeat (case_match; try match goal with H : (_ =? _) = true |- _ => apply Z.eqb_eq in H;
    subst end); done.
Qed.

Lemma GetRouteResponse_value_of v : GetRouteResponse_value (GetRouteResponse_of v) = v.
Proof.
  destruct v as [modid cmdid hs]. unfold GetRouteResponse_value. cbn. f_equal.
  rewrite <- list_fmap_compose.
  rewrite <- (list_fmap_id hs) at 2. apply list_fmap_ext. intros. apply HostInfo_value_of.
Qed.

Definition HostCallResult_value (m : HostCallResult) : lbrss.HostCallResult :=
  lbrss.mkHostCallResult (cr_ip_ m) (cr_port_ m) (cr_succ_ m) (cr_err_ m) (cr_overload_ m).
Definition HostCallResult_of (v : lbrss.HostCallResult) : HostCallResult :=
  mkHostCallResult (lbrss.hcr_ip v) (lbrss.hcr_port v) (lbrss.hcr_succ v) (lbrss.hcr_err v)
    (lbrss.hcr_overload v) ufs_empty 0.

Lemma HostCallResult_of_plain v : HostCallResult_plain (HostCallResult_of v).
Proof. done. Qed.

(** A copy has the contents of the original, and its unknown fields. *)
Lemma HostCallResult_CopyFrom_value m b :
  HostCallResult_value (HostCallResult_CopyFrom m b) = HostCallResult_value b /\ cr_metadata
    (HostCallResult_CopyFrom m b) = cr_metadata b.
Proof.
  unfold HostCallResult_CopyFrom, HostCallResult_MergeFrom, HostCallResult_Clear,
    HostCallResult_value. destruct b; cbn.
  unfold merge_Z, merge_bool. rewrite ufs_merge_empty_l.
  repeat (case_match; try match goal with H : (_ =? _) = true |- _ => apply Z.eqb_eq in H;
    subst end); done.
Qed.

Lemma HostCallResult_merge_new b : HostCallResult_value (HostCallResult_MergeFrom
  HostCallResult_new b) = HostCallResult_value b.
Proof. exact (proj1 (HostCallResult_CopyFrom_value HostCallResult_new b)). Qed.

Lemma HostCallResult_value_of v : HostCallResult_value (HostCallResult_of v) = v.
Proof. by destruct v. Qed.

Definition ReportStatusRequest_value (m : ReportStatusRequest) : lbrss.ReportStatusRequest :=
  lbrss.mkReportStatusRequest (sr_modid_ m) (sr_cmdid_ m) (sr_caller_ m) (HostCallResult_value
    <$> sr_results_ m) (sr_ts_ m).
Definition ReportStatusRequest_of (v : lbrss.ReportStatusRequest) : ReportStatusRequest :=
  mkReportStatusRequest (HostCallResult_of <$> lbrss.rsr_results v) (lbrss.rsr_modid v)
    (lbrss.rsr_cmdid v) (lbrss.rsr_caller v) (lbrss.rsr_ts v) ufs_empty 0.

Lemma ReportStatusRequest_of_plain v : ReportStatusRequest_plain (ReportStatusRequest_of v).
Proof.
  split; [done|]. cbn. apply Forall_fmap, Forall_true. intros. apply HostCallResult_of_plain.
Qed.

(** A copy has the contents of the original, and its unknown fields. *)
Lemma ReportStatusRequest_CopyFrom_value m b :
  ReportStatusRequest_value (ReportStatusRequest_CopyFrom m b) = ReportStatusRequest_value b /\
    sr_metadata (ReportStatusRequest_CopyFrom m b) = sr_metadata b.
Proof.
  assert (Hl : HostCallResult_value <$> (HostCallResult_MergeFrom HostCallResult_new <$>
    sr_results_ b) = HostCallResult_value <$> sr_results_ b).
  { rewrite <- list_fmap_compose. apply list_fmap_ext. intros. apply HostCallResult_merge_new. }
  unfold ReportStatusRequest_CopyFrom, ReportStatusRequest_MergeFrom,
    ReportStatusRequest_Clear, ReportStatusRequest_value. destruct b; cbn in *. rewrite <- Hl.
  unfold merge_Z. rewrite ufs_merge_empty_l.
  repeat (case_match; try match goal with H : (_ =? _) = true |- _ => apply Z.eqb_eq in H;
    subst end); done.
Qed.

Lemma ReportStatusRequest_value_of v : ReportStatusRequest_value (ReportStatusRequest_of v) = v.
Proof.
  destruct v as [modid cmdid caller hs ts]. unfold ReportStatusRequest_value. cbn. f_equal.
  rewrite <- list_fmap_compose.
  rewrite <- (list_fmap_id hs) at 2. apply list_fmap_ext. intros. apply HostCallResult_value_of.
Qed.

Definition GetHostRequest_value (m : GetHostRequest) : lbrss.GetHostRequest :=
  lbrss.mkGetHostRequest (hq_seq_ m) (hq_modid_ m) (hq_cmdid_ m).
Definition GetHostRequest_of (v : lbrss.GetHostRequest) : GetHostRequest :=
  mkGetHostRequest (lbrss.ghq_seq v) (lbrss.ghq_modid v) (lbrss.ghq_cmdid v) ufs_empty 0.

Lemma GetHostRequest_of_plain v : GetHostRequest_plain (GetHostRequest_of v).
Proof. done. Qed.

(** A copy has the contents of the original, and its unknown fields. *)
Lemma GetHostRequest_CopyFrom_value m b :
  GetHostRequest_value (GetHostRequest_CopyFrom m b) = GetHostRequest_value b /\ hq_metadata
    (GetHostRequest_CopyFrom m b) = hq_metadata b.
Proof.
  unfold GetHostRequest_CopyFrom, GetHostRequest_MergeFrom, GetHostRequest_Clear,
    GetHostRequest_value. destruct b; cbn.
  unfold merge_Z, merge_bool. rewrite ufs_merge_empty_l.
  repeat (case_match; try match goal with H : (_ =? _) = true |- _ => apply Z.eqb_eq in H;
    subst end); done.
Qed.

Lemma GetHostRequest_merge_new b : GetHostRequest_value (GetHostRequest_MergeFrom
  GetHostRequest_new b) = GetHostRequest_value b.
Proof. exact (proj1 (GetHostRequest_CopyFrom_value GetHostRequest_new b)). Qed.

Lemma GetHostRequest_value_of v : GetHostRequest_value (GetHostRequest_of v) = v.
Proof. by destruct v. Qed.

Definition GetHostResponse_value (m : GetHostResponse) : lbrss.GetHostResponse :=
  lbrss.mkGetHostResponse (hs_seq_ m) (hs_modid_ m) (hs_cmdid_ m) (hs_retcode_ m)
    (HostInfo_value <$> hs_host_ m).
Definition GetHostResponse_of (v : lbrss.GetHostResponse) : GetHostResponse :=
  mkGetHostResponse (HostInfo_of <$> lbrss.ghs_host v) (lbrss.ghs_seq v) (lbrss.ghs_modid v)
    (lbrss.ghs_cmdid v) (lbrss.ghs_retcode v) ufs_empty 0.

Lemma GetHostResponse_of_plain v : GetHostResponse_plain (GetHostResponse_of v).
Proof. split; [done|]. cbn. destruct (lbrss.ghs_host v); [apply HostInfo_of_plain|done]. Qed.

(** A copy has the contents of the original, and its unknown fields. *)
Lemma GetHostResponse_CopyFrom_value m b :
  GetHostResponse_value (GetHostResponse_CopyFrom m b) = GetHostResponse_value b /\ hs_metadata
    (GetHostResponse_CopyFrom m b) = hs_metadata b.
Proof.
  unfold GetHostResponse_CopyFrom, GetHostResponse_MergeFrom, GetHostResponse_Clear,
    GetHostResponse_value, hs_mutable_host. destruct b as [[h|]]; cbn.
  all: unfold merge_Z; rewrite ufs_merge_empty_l.
  all: repeat (case_match; try match goal with H : (_ =? _) = true |- _ => apply Z.eqb_eq in H;
    subst end);
    cbn; rewrite ?HostInfo_merge_new; done.
Qed.

Lemma GetHostResponse_value_of v : GetHostResponse_value (GetHostResponse_of v) = v.
Proof.
  destruct v as [seq modid cmdid retcode [a|]]; [|done]. unfold GetHostResponse_value. cbn.
  by rewrite HostInfo_value_of.
Qed.

Definition ReportRequest_value (m : ReportRequest) : lbrss.ReportRequest :=
  lbrss.mkReportRequest (rr_modid_ m) (rr_cmdid_ m) (HostInfo_value <$> rr_host_ m)
    (rr_retcode_ m).
Definition ReportRequest_of (v : lbrss.ReportRequest) : ReportRequest :=
  mkReportRequest (HostInfo_of <$> lbrss.rr_host v) (lbrss.rr_modid v) (lbrss.rr_cmdid v)
    (lbrss.rr_retcode v) ufs_empty 0.

Lemma ReportRequest_of_plain v : ReportRequest_plain (ReportRequest_of v).
Proof. split; [done|]. cbn. destruct (lbrss.rr_host v); [apply HostInfo_of_plain|done]. Qed.

(** A copy has the contents of the original, and its unknown fields. *)
Lemma ReportRequest_CopyFrom_value m b :
  ReportRequest_value (ReportRequest_CopyFrom m b) = ReportRequest_value b /\ rr_metadata
    (ReportRequest_CopyFrom m b) = rr_metadata b.
Proof.
  unfold ReportRequest_CopyFrom, ReportRequest_MergeFrom, ReportRequest_Clear,
    ReportRequest_value, rr_mutable_host. destruct b as [[h|]]; cbn.
  all: unfold merge_Z; rewrite ufs_merge_empty_l.
  all: repeat (case_match; try match goal with H : (_ =? _) = true |- _ => apply Z.eqb_eq in H;
    subst end);
    cbn; rewrite ?HostInfo_merge_new; done.
Qed.

Lemma ReportRequest_value_of v : ReportRequest_value (ReportRequest_of v) = v.
Proof.
  destruct v as [modid cmdid [a|] retcode]; [|done]. unfold ReportRequest_value. cbn.
  by rewrite HostInfo_value_of.
Qed.


(** Contents that are written are parsed onto a cleared message. *)
Definition written_is_parsed {X V : Type} (Clear : X -> X) (parse : X -> list byte -> X * outcome)
    (write : X -> list byte) (size : X -> Z * X) (value : X -> V) (build : V -> X)
    (ok : X -> Prop) : Prop :=
  forall m v, ok (build v) -> small_len (size (build v)).1 ->
  exists m', parse (Clear m) (write (size (build v)).2) = (m', AtLimit) /\ value m' = v.

Lemma HostInfo_written : written_is_parsed HostInfo_Clear HostInfo_InternalParse
  HostInfo_InternalSerialize HostInfo_ByteSizeLong HostInfo_value HostInfo_of HostInfo_ok.
Proof.
  intros m v Hok Hs. eexists. split; [apply HostInfo_parse_merge; [done|apply HostInfo_of_plain]|].
  etrans; [exact (proj1 (HostInfo_CopyFrom_value m _))|apply HostInfo_value_of].
Qed.

Lemma GetRouteRequest_written : written_is_parsed GetRouteRequest_Clear
  GetRouteRequest_InternalParse
  GetRouteRequest_InternalSerialize GetRouteRequest_ByteSizeLong GetRouteRequest_value
    GetRouteRequest_of GetRouteRequest_ok.
Proof.
  intros m v Hok Hs. eexists. split; [apply GetRouteRequest_parse_merge;
    [done|apply GetRouteRequest_of_plain]|].
  etrans; [exact (proj1 (GetRouteRequest_CopyFrom_value m _))|apply GetRouteRequest_value_of].
Qed.

Lemma GetRouteResponse_written : written_is_parsed GetRouteResponse_Clear
  GetRouteResponse_InternalParse
  GetRouteResponse_InternalSerialize GetRouteResponse_ByteSizeLong GetRouteResponse_value
    GetRouteResponse_of GetRouteResponse_ok.
Proof.
  intros m v Hok Hs. eexists. split; [apply GetRouteResponse_parse_merge;
    [done|apply GetRouteResponse_of_plain|done]|].
  etrans; [exact (proj1 (GetRouteResponse_CopyFrom_value m _))|apply GetRouteResponse_value_of].
Qed.

Lemma HostCallResult_written : written_is_parsed HostCallResult_Clear HostCallResult_InternalParse
  HostCallResult_InternalSerialize HostCallResult_ByteSizeLong HostCallResult_value
    HostCallResult_of HostCallResult_ok.
Proof.
  intros m v Hok Hs. eexists. split; [apply HostCallResult_parse_merge;
    [done|apply HostCallResult_of_plain]|].
  etrans; [exact (proj1 (HostCallResult_CopyFrom_value m _))|apply HostCallResult_value_of].
Qed.

Lemma ReportStatusRequest_written : written_is_parsed ReportStatusRequest_Clear
  ReportStatusRequest_InternalParse
  ReportStatusRequest_InternalSerialize ReportStatusRequest_ByteSizeLong ReportStatusRequest_value
    ReportStatusRequest_of ReportStatusRequest_ok.
Proof.
  intros m v Hok Hs. eexists. split; [apply ReportStatusRequest_parse_merge;
    [done|apply ReportStatusRequest_of_plain|done]|].
  etrans; [exact (proj1 (ReportStatusRequest_CopyFrom_value m _))|apply
    ReportStatusRequest_value_of].
Qed.

Lemma GetHostRequest_written : written_is_parsed GetHostRequest_Clear GetHostRequest_InternalParse
  GetHostRequest_InternalSerialize GetHostRequest_ByteSizeLong GetHostRequest_value
    GetHostRequest_of GetHostRequest_ok.
Proof.
  intros m v Hok Hs. eexists. split; [apply GetHostRequest_parse_merge;
    [done|apply GetHostRequest_of_plain]|].
  etrans; [exact (proj1 (GetHostRequest_CopyFrom_value m _))|apply GetHostRequest_value_of].
Qed.

Lemma GetHostResponse_written : written_is_parsed GetHostResponse_Clear
  GetHostResponse_InternalParse
  GetHostResponse_InternalSerialize GetHostResponse_ByteSizeLong GetHostResponse_value
    GetHostResponse_of GetHostResponse_ok.
Proof.
  intros m v Hok Hs. eexists. split; [apply GetHostResponse_parse_merge;
    [done|apply GetHostResponse_of_plain|done]|].
  etrans; [exact (proj1 (GetHostResponse_CopyFrom_value m _))|apply GetHostResponse_value_of].
Qed.

Lemma ReportRequest_written : written_is_parsed ReportRequest_Clear ReportRequest_InternalParse
  ReportRequest_InternalSerialize ReportRequest_ByteSizeLong ReportRequest_value ReportRequest_of
    ReportRequest_ok.
Proof.
  intros m v Hok Hs. eexists. split; [apply ReportRequest_parse_merge;
    [done|apply ReportRequest_of_plain|done]|].
  etrans; [exact (proj1 (ReportRequest_CopyFrom_value m _))|apply ReportRequest_value_of].
Qed.

(** ** The interface of the services *)

(** A message class [X] with contents [V]. *)
Class PbMessage (X V : Type) : Type := {
  m_new : X;
  m_Clear : X -> X;
  m_parse : X -> list byte -> X * outcome;
  m_write : X -> list byte;
  m_size : X -> Z * X;
  m_value : X -> V;
  m_of : V -> X;
  m_ok : X -> Prop
}.

(** [SerializeToString] and [ParseFromArray] of a message class. *)
Definition pb_wire {X V} `{PbMessage X V} : Wire V := {|
  SerializeToString v := SerializeMessage m_size m_write (m_of v);
  ParseFromArray bs := m_value (ParseWhole m_Clear m_parse m_new bs).1;
  parse_ok bs := (ParseWhole m_Clear m_parse m_new bs).2
|}.

(** What is written is parsed onto a cleared message, to the end. *)
Class PbMessageLaws (X V : Type) `{PbMessage X V} : Prop :=
  parse_written v : m_ok (m_of v) -> small_len (m_size (m_of v)).1 ->
    exists m, m_parse (m_Clear m_new) (m_write (m_size (m_of v)).2) = (m, AtLimit) /\ m_value m
      = v.

Lemma pb_written {X V} `{PbMessageLaws X V} v :
  m_ok (m_of v) -> small_len (m_size (m_of v)).1 ->
  exists m, ParseWhole m_Clear m_parse m_new (SerializeMessage m_size m_write (m_of v)) = (m,
    true) /\
    m_value m = v.
Proof.
  intros Hok Hs. destruct (parse_written v Hok Hs) as (m & Hp & Hv). exists m.
  rewrite SerializeMessage_runs by done. split; [by apply ParseWhole_runs|done].
Qed.

Definition pb_wire_laws {X V} `{PbMessageLaws X V} : @WireLaws V pb_wire.
Proof.
  refine (@Build_WireLaws V pb_wire
    (fun v => m_ok (m_of v) /\ small_len (m_size (m_of v)).1) _ _);
    intros v [Hok Hs]; destruct (pb_written v Hok Hs) as (m & E & Hv); cbn; by rewrite E.
Defined.

#[export] Instance HostInfo_message : PbMessage HostInfo lbrss.HostInfo := {|
  m_new := HostInfo_new; m_Clear := HostInfo_Clear; m_parse := HostInfo_InternalParse;
  m_write := HostInfo_InternalSerialize; m_size := HostInfo_ByteSizeLong;
  m_value := HostInfo_value; m_of := HostInfo_of; m_ok := HostInfo_ok |}.
#[export] Instance HostInfo_laws : PbMessageLaws HostInfo lbrss.HostInfo.
Proof. exact (HostInfo_written HostInfo_new). Qed.

#[export] Instance GetRouteRequest_message : PbMessage GetRouteRequest lbrss.GetRouteRequest := {|
  m_new := GetRouteRequest_new; m_Clear := GetRouteRequest_Clear; m_parse :=
    GetRouteRequest_InternalParse;
  m_write := GetRouteRequest_InternalSerialize; m_size := GetRouteRequest_ByteSizeLong;
  m_value := GetRouteRequest_value; m_of := GetRouteRequest_of; m_ok := GetRouteRequest_ok |}.
#[export] Instance GetRouteRequest_laws : PbMessageLaws GetRouteRequest lbrss.GetRouteRequest.
Proof. exact (GetRouteRequest_written GetRouteRequest_new). Qed.

#[export] Instance GetRouteResponse_message : PbMessage GetRouteResponse lbrss.GetRouteResponse
  := {|
  m_new := GetRouteResponse_new; m_Clear := GetRouteResponse_Clear; m_parse :=
    GetRouteResponse_InternalParse;
  m_write := GetRouteResponse_InternalSerialize; m_size := GetRouteResponse_ByteSizeLong;
  m_value := GetRouteResponse_value; m_of := GetRouteResponse_of; m_ok := GetRouteResponse_ok |}.
#[export] Instance GetRouteResponse_laws : PbMessageLaws GetRouteResponse lbrss.GetRouteResponse.
Proof. exact (GetRouteResponse_written GetRouteResponse_new). Qed.

#[export] Instance HostCallResult_message : PbMessage HostCallResult lbrss.HostCallResult := {|
  m_new := HostCallResult_new; m_Clear := HostCallResult_Clear; m_parse :=
    HostCallResult_InternalParse;
  m_write := HostCallResult_InternalSerialize; m_size := HostCallResult_ByteSizeLong;
  m_value := HostCallResult_value; m_of := HostCallResult_of; m_ok := HostCallResult_ok |}.
#[export] Instance HostCallResult_laws : PbMessageLaws HostCallResult lbrss.HostCallResult.
Proof. exact (HostCallResult_written HostCallResult_new). Qed.

#[export] Instance ReportStatusRequest_message : PbMessage ReportStatusRequest
  lbrss.ReportStatusRequest := {|
  m_new := ReportStatusRequest_new; m_Clear := ReportStatusRequest_Clear; m_parse :=
    ReportStatusRequest_InternalParse;
  m_write := ReportStatusRequest_InternalSerialize; m_size := ReportStatusRequest_ByteSizeLong;
  m_value := ReportStatusRequest_value; m_of := ReportStatusRequest_of; m_ok :=
    ReportStatusRequest_ok |}.
#[export] Instance ReportStatusRequest_laws : PbMessageLaws ReportStatusRequest
  lbrss.ReportStatusRequest.
Proof. exact (ReportStatusRequest_written ReportStatusRequest_new). Qed.

#[export] Instance GetHostRequest_message : PbMessage GetHostRequest lbrss.GetHostRequest := {|
  m_new := GetHostRequest_new; m_Clear := GetHostRequest_Clear; m_parse :=
    GetHostRequest_InternalParse;
  m_write := GetHostRequest_InternalSerialize; m_size := GetHostRequest_ByteSizeLong;
  m_value := GetHostRequest_value; m_of := GetHostRequest_of; m_ok := GetHostRequest_ok |}.
#[export] Instance GetHostRequest_laws : PbMessageLaws GetHostRequest lbrss.GetHostRequest.
Proof. exact (GetHostRequest_written GetHostRequest_new). Qed.

#[export] Instance GetHostResponse_message : PbMessage GetHostResponse lbrss.GetHostResponse := {|
  m_new := GetHostResponse_new; m_Clear := GetHostResponse_Clear; m_parse :=
    GetHostResponse_InternalParse;
  m_write := GetHostResponse_InternalSerialize; m_size := GetHostResponse_ByteSizeLong;
  m_value := GetHostResponse_value; m_of := GetHostResponse_of; m_ok := GetHostResponse_ok |}.
#[export] Instance GetHostResponse_laws : PbMessageLaws GetHostResponse lbrss.GetHostResponse.
Proof. exact (GetHostResponse_written GetHostResponse_new). Qed.

#[export] Instance ReportRequest_message : PbMessage ReportRequest lbrss.ReportRequest := {|
  m_new := ReportRequest_new; m_Clear := ReportRequest_Clear; m_parse :=
    ReportRequest_InternalParse;
  m_write := ReportRequest_InternalSerialize; m_size := ReportRequest_ByteSizeLong;
  m_value := ReportRequest_value; m_of := ReportRequest_of; m_ok := ReportRequest_ok |}.
#[export] Instance ReportRequest_laws : PbMessageLaws ReportRequest lbrss.ReportRequest.
Proof. exact (ReportRequest_written ReportRequest_new). Qed.

(** ** Properties *)

(** Parsing what was written of [b] onto [m] is merging [b] into [m]. *)
Definition parse_is_merge {X : Type} (parse : X -> list byte -> X * outcome) (write : X ->
  list byte)
    (size : X -> Z * X) (merge : X -> X -> X) (ok plain : X -> Prop) : Prop :=
  forall m b, ok b -> plain b -> small_len (size b).1 ->
    parse m (write (size b).2) = (merge m b, AtLimit).

(** The size is the number of bytes written with the cached sizes it leaves. *)
Definition size_is_length {X : Type} (write : X -> list byte) (size : X -> Z * X)
    (ok : X -> Prop) : Prop :=
  forall m, ok m -> small_len (size m).1 -> Z.of_nat (length (write (size m).2)) = (size m).1.

(** The parser never uses up its turns, nor those of the loops in its cases; and
    more turns than the input has bytes change nothing. *)
Definition stops {X : Type} (loop : nat -> X -> list byte -> X * outcome)
    (parse : X -> list byte -> X * outcome) : Prop :=
  forall m bs, (parse m bs).2 <> Exhausted /\
    forall fuel, (length bs <= fuel)%nat -> loop fuel m bs = parse m bs.

Lemma parser_stops {X : Type} meta set_meta
    (field : Z -> X -> list byte -> option (X * pointer)) :
  reads_on field -> stops (parse_loop meta set_meta field) (run meta set_meta field).
Proof.
  intros Hf m bs. split; [by apply parse_loop_ends|]. intros fuel Hl.
  by apply (parse_loop_fuel meta set_meta field Hf).
Qed.

(** The contents that were written come back, and a copy has them too. *)
Definition round_trips {X V : Type} (Clear : X -> X) (parse : X -> list byte -> X * outcome)
    (write : X -> list byte) (size : X -> Z * X) (copy : X -> X -> X) (value : X ->
      V) (build : V -> X)
    (ok : X -> Prop) : Prop :=
  forall m v, ok (build v) -> small_len (size (build v)).1 ->
    (exists m', parse (Clear m) (write (size (build v)).2) = (m', AtLimit) /\ value m' = v) /\
    value (copy m (build v)) = v.

(** C13. For every message class, what [ByteSizeLong] and then [_InternalSerialize]
    make of contents whose fields are in range (and shorter than 2^31 bytes) is
    parsed, to its end, onto a cleared message with exactly those contents; and
    [CopyFrom] makes a message with the same contents. *)
Theorem codec_round_trips :
  round_trips HostInfo_Clear HostInfo_InternalParse HostInfo_InternalSerialize
    HostInfo_ByteSizeLong
    HostInfo_CopyFrom HostInfo_value HostInfo_of HostInfo_ok /\
  round_trips GetRouteRequest_Clear GetRouteRequest_InternalParse
    GetRouteRequest_InternalSerialize GetRouteRequest_ByteSizeLong
    GetRouteRequest_CopyFrom GetRouteRequest_value GetRouteRequest_of GetRouteRequest_ok /\
  round_trips GetRouteResponse_Clear GetRouteResponse_InternalParse
    GetRouteResponse_InternalSerialize GetRouteResponse_ByteSizeLong
    GetRouteResponse_CopyFrom GetRouteResponse_value GetRouteResponse_of GetRouteResponse_ok /\
  round_trips HostCallResult_Clear HostCallResult_InternalParse
    HostCallResult_InternalSerialize HostCallResult_ByteSizeLong
    HostCallResult_CopyFrom HostCallResult_value HostCallResult_of HostCallResult_ok /\
  round_trips ReportStatusRequest_Clear ReportStatusRequest_InternalParse
    ReportStatusRequest_InternalSerialize ReportStatusRequest_ByteSizeLong
    ReportStatusRequest_CopyFrom ReportStatusRequest_value ReportStatusRequest_of
      ReportStatusRequest_ok /\
  round_trips GetHostRequest_Clear GetHostRequest_InternalParse
    GetHostRequest_InternalSerialize GetHostRequest_ByteSizeLong
    GetHostRequest_CopyFrom GetHostRequest_value GetHostRequest_of GetHostRequest_ok /\
  round_trips GetHostResponse_Clear GetHostResponse_InternalParse
    GetHostResponse_InternalSerialize GetHostResponse_ByteSizeLong
    GetHostResponse_CopyFrom GetHostResponse_value GetHostResponse_of GetHostResponse_ok /\
  round_trips ReportRequest_Clear ReportRequest_InternalParse ReportRequest_InternalSerialize
    ReportRequest_ByteSizeLong
    ReportRequest_CopyFrom ReportRequest_value ReportRequest_of ReportRequest_ok.
Proof.
  split_and!; intros m v Hok Hs; split.
  - by apply HostInfo_written.
  - etrans; [exact (proj1 (HostInfo_CopyFrom_value m _))|apply HostInfo_value_of].
  - by apply GetRouteRequest_written.
  - etrans; [exact (proj1 (GetRouteRequest_CopyFrom_value m _))|apply GetRouteRequest_value_of].
  - by apply GetRouteResponse_written.
  - etrans; [exact (proj1 (GetRouteResponse_CopyFrom_value m _))|apply GetRouteResponse_value_of].
  - by apply HostCallResult_written.
  - etrans; [exact (proj1 (HostCallResult_CopyFrom_value m _))|apply HostCallResult_value_of].
  - by apply ReportStatusRequest_written.
  - etrans; [exact (proj1 (ReportStatusRequest_CopyFrom_value m _))|apply
      ReportStatusRequest_value_of].
  - by apply GetHostRequest_written.
  - etrans; [exact (proj1 (GetHostRequest_CopyFrom_value m _))|apply GetHostRequest_value_of].
  - by apply GetHostResponse_written.
  - etrans; [exact (proj1 (GetHostResponse_CopyFrom_value m _))|apply GetHostResponse_value_of].
  - by apply ReportRequest_written.
  - etrans; [exact (proj1 (ReportRequest_CopyFrom_value m _))|apply ReportRequest_value_of].
Qed.

(** C22. For every message class, parsing the bytes of a message (in range,
    without unknown fields, shorter than 2^31 bytes) onto any other message is
    the same as [MergeFrom]: fields that are not zero are overwritten, repeated
    ones appended, messages merged. *)
Theorem codec_parse_is_merge :
  parse_is_merge HostInfo_InternalParse HostInfo_InternalSerialize HostInfo_ByteSizeLong
    HostInfo_MergeFrom
    HostInfo_ok HostInfo_plain /\
  parse_is_merge GetRouteRequest_InternalParse GetRouteRequest_InternalSerialize
    GetRouteRequest_ByteSizeLong GetRouteRequest_MergeFrom
    GetRouteRequest_ok GetRouteRequest_plain /\
  parse_is_merge GetRouteResponse_InternalParse GetRouteResponse_InternalSerialize
    GetRouteResponse_ByteSizeLong GetRouteResponse_MergeFrom
    GetRouteResponse_ok GetRouteResponse_plain /\
  parse_is_merge HostCallResult_InternalParse HostCallResult_InternalSerialize
    HostCallResult_ByteSizeLong HostCallResult_MergeFrom
    HostCallResult_ok HostCallResult_plain /\
  parse_is_merge ReportStatusRequest_InternalParse ReportStatusRequest_InternalSerialize
    ReportStatusRequest_ByteSizeLong ReportStatusRequest_MergeFrom
    ReportStatusRequest_ok ReportStatusRequest_plain /\
  parse_is_merge GetHostRequest_InternalParse GetHostRequest_InternalSerialize
    GetHostRequest_ByteSizeLong GetHostRequest_MergeFrom
    GetHostRequest_ok GetHostRequest_plain /\
  parse_is_merge GetHostResponse_InternalParse GetHostResponse_InternalSerialize
    GetHostResponse_ByteSizeLong GetHostResponse_MergeFrom
    GetHostResponse_ok GetHostResponse_plain /\
  parse_is_merge ReportRequest_InternalParse ReportRequest_InternalSerialize
    ReportRequest_ByteSizeLong ReportRequest_MergeFrom
    ReportRequest_ok ReportRequest_plain.
Proof.
  split_and!; intros m b Hok Hpl Hs.
  - by apply HostInfo_parse_merge.
  - by apply GetRouteRequest_parse_merge.
  - by apply GetRouteResponse_parse_merge.
  - by apply HostCallResult_parse_merge.
  - by apply ReportStatusRequest_parse_merge.
  - by apply GetHostRequest_parse_merge.
  - by apply GetHostResponse_parse_merge.
  - by apply ReportRequest_parse_merge.
Qed.

(** For every message class, [ByteSizeLong] is the number of bytes that
    [_InternalSerialize] then writes, unknown fields included, and the lengths
    that it writes in front of the messages inside are the right ones: it takes
    them from the cached sizes that [ByteSizeLong] has set. *)
Lemma codec_sizes :
  size_is_length HostInfo_InternalSerialize HostInfo_ByteSizeLong HostInfo_ok /\
  size_is_length GetRouteRequest_InternalSerialize GetRouteRequest_ByteSizeLong
    GetRouteRequest_ok /\
  size_is_length GetRouteResponse_InternalSerialize GetRouteResponse_ByteSizeLong
    GetRouteResponse_ok /\
  size_is_length HostCallResult_InternalSerialize HostCallResult_ByteSizeLong HostCallResult_ok /\
  size_is_length ReportStatusRequest_InternalSerialize ReportStatusRequest_ByteSizeLong
    ReportStatusRequest_ok /\
  size_is_length GetHostRequest_InternalSerialize GetHostRequest_ByteSizeLong GetHostRequest_ok /\
  size_is_length GetHostResponse_InternalSerialize GetHostResponse_ByteSizeLong
    GetHostResponse_ok /\
  size_is_length ReportRequest_InternalSerialize ReportRequest_ByteSizeLong ReportRequest_ok.
Proof.
  split_and!; intros m Hok Hs.
  - by apply HostInfo_size_write.
  - by apply GetRouteRequest_size_write.
  - by apply GetRouteResponse_size_write.
  - by apply HostCallResult_size_write.
  - by apply ReportStatusRequest_size_write.
  - by apply GetHostRequest_size_write.
  - by apply GetHostResponse_size_write.
  - by apply ReportRequest_size_write.
Qed.

(** C27. Every parser stops on every input, of any length and any bytes: the
    [while] of [_InternalParse] makes at most one turn for each byte, so that
    more turns change nothing, and neither it nor the [do ... while] over the
    elements of a repeated field in its cases ever uses up the turns that the
    model gives it, which would show as [Exhausted]; nor do, by the same theorem,
    the parsers of the messages inside. *)
Theorem codec_stops :
  stops (parse_loop hi_metadata hi_set_metadata HostInfo_case) HostInfo_InternalParse /\
  stops (parse_loop gq_metadata gq_set_metadata GetRouteRequest_case)
    GetRouteRequest_InternalParse /\
  stops (parse_loop gs_metadata gs_set_metadata GetRouteResponse_case)
    GetRouteResponse_InternalParse /\
  stops (parse_loop cr_metadata cr_set_metadata HostCallResult_case)
    HostCallResult_InternalParse /\
  stops (parse_loop sr_metadata sr_set_metadata ReportStatusRequest_case)
    ReportStatusRequest_InternalParse /\
  stops (parse_loop hq_metadata hq_set_metadata GetHostRequest_case)
    GetHostRequest_InternalParse /\
  stops (parse_loop hs_metadata hs_set_metadata GetHostResponse_case)
    GetHostResponse_InternalParse /\
  stops (parse_loop rr_metadata rr_set_metadata ReportRequest_case) ReportRequest_InternalParse.
Proof.
  split_and!; apply parser_stops.
  - apply HostInfo_reads_on.
  - apply GetRouteRequest_reads_on.
  - apply GetRouteResponse_reads_on.
  - apply HostCallResult_reads_on.
  - apply ReportStatusRequest_reads_on.
  - apply GetHostRequest_reads_on.
  - apply GetHostResponse_reads_on.
  - apply ReportRequest_reads_on.
Qed.
End Messages.

(** The instances of [Wire]. *)
Module PbWire.
Section Instances.
Context `{PL : PbLaws}.

#[export] Instance HostInfo_wire : Wire lbrss.HostInfo := pb_wire (X := HostInfo).
#[export] Instance HostInfo_wire_laws : WireLaws lbrss.HostInfo := pb_wire_laws (X := HostInfo).
#[export] Instance GetRouteRequest_wire : Wire lbrss.GetRouteRequest := pb_wire (X :=
  GetRouteRequest).
#[export] Instance GetRouteRequest_wire_laws : WireLaws lbrss.GetRouteRequest :=
  pb_wire_laws (X := GetRouteRequest).
#[export] Instance GetRouteResponse_wire : Wire lbrss.GetRouteResponse := pb_wire (X :=
  GetRouteResponse).
#[export] Instance GetRouteResponse_wire_laws : WireLaws lbrss.GetRouteResponse :=
  pb_wire_laws (X := GetRouteResponse).
#[export] Instance HostCallResult_wire : Wire lbrss.HostCallResult := pb_wire (X :=
  HostCallResult).
#[export] Instance HostCallResult_wire_laws : WireLaws lbrss.HostCallResult :=
  pb_wire_laws (X := HostCallResult).
#[export] Instance ReportStatusRequest_wire : Wire lbrss.ReportStatusRequest := pb_wire (X :=
  ReportStatusRequest).
#[export] Instance ReportStatusRequest_wire_laws : WireLaws lbrss.ReportStatusRequest :=
  pb_wire_laws (X := ReportStatusRequest).
#[export] Instance GetHostRequest_wire : Wire lbrss.GetHostRequest := pb_wire (X :=
  GetHostRequest).
#[export] Instance GetHostRequest_wire_laws : WireLaws lbrss.GetHostRequest :=
  pb_wire_laws (X := GetHostRequest).
#[export] Instance GetHostResponse_wire : Wire lbrss.GetHostResponse := pb_wire (X :=
  GetHostResponse).
#[export] Instance GetHostResponse_wire_laws : WireLaws lbrss.GetHostResponse :=
  pb_wire_laws (X := GetHostResponse).
#[export] Instance ReportRequest_wire : Wire lbrss.ReportRequest := pb_wire (X := ReportRequest).
#[export] Instance ReportRequest_wire_laws : WireLaws lbrss.ReportRequest :=
  pb_wire_laws (X := ReportRequest).
End Instances.
End PbWire.

(** ** Witnesses *)

Import Varint.

Definition demo_hosts : list lbrss.HostInfo := [lbrss.mkHostInfo (-1) 8080; lbrss.mkHostInfo 10
  0].

Lemma demo_hosts_ok : Forall HostInfo_ok (HostInfo_of <$> demo_hosts).
Proof. repeat constructor; cbn; unfold is_i32; lia. Qed.

Lemma demo_response_ok :
  GetRouteResponse_ok (GetRouteResponse_of (lbrss.mkGetRouteResponse 1 (-2) demo_hosts)).
Proof. split; [apply demo_hosts_ok|]. cbn. unfold is_i32. lia. Qed.

(** Two hosts with a negative and a zero field, through the real bytes. *)
Lemma codec_round_trips_witness :
  let v := lbrss.mkGetRouteResponse 1 (-2) demo_hosts in
  exists m', GetRouteResponse_InternalParse (GetRouteResponse_Clear GetRouteResponse_new)
      (GetRouteResponse_InternalSerialize (GetRouteResponse_ByteSizeLong (GetRouteResponse_of
        v)).2)
      = (m', AtLimit) /\ GetRouteResponse_value m' = v.
Proof.
  refine (proj1 (proj1 (proj2 (proj2 codec_round_trips)) GetRouteResponse_new
    (lbrss.mkGetRouteResponse 1 (-2) demo_hosts) demo_response_ok _)).
  vm_compute. by split.
Defined.

Lemma codec_parse_is_merge_witness :
  HostInfo_InternalParse (mkHostInfo 5 6 [] 0) [byte_of_Z 16; byte_of_Z 80] = (mkHostInfo 5 80
    [] 0, AtLimit).
Proof.
  refine (proj1 codec_parse_is_merge (mkHostInfo 5 6 [] 0) (mkHostInfo 0 80 [] 0) _ eq_refl _).
  - unfold HostInfo_ok, is_i32. cbn. lia.
  - vm_compute. by split.
Defined.

Lemma codec_sizes_witness :
  Z.of_nat (length (HostInfo_InternalSerialize (mkHostInfo (-1) 80 [byte_of_Z 24; byte_of_Z 1]
    2))) = 15.
Proof.
  refine (proj1 codec_sizes (mkHostInfo (-1) 80 [byte_of_Z 24; byte_of_Z 1] 2) _ _).
  - unfold HostInfo_ok, is_i32. cbn. lia.
  - vm_compute. by split.
Defined.

Lemma codec_stops_witness :
  (GetRouteResponse_InternalParse GetRouteResponse_new [byte_of_Z 26; byte_of_Z 0; byte_of_Z 26;
    byte_of_Z 200]).2 <> Exhausted /\
  parse_loop gs_metadata gs_set_metadata GetRouteResponse_case 1000 GetRouteResponse_new
    [byte_of_Z 26; byte_of_Z 0; byte_of_Z 26; byte_of_Z 200] =
    GetRouteResponse_InternalParse GetRouteResponse_new [byte_of_Z 26; byte_of_Z 0; byte_of_Z 26;
      byte_of_Z 200].
Proof.
  split; [|apply (proj1 (proj2 (proj2 codec_stops))); cbn; lia].
  apply (proj1 (proj2 (proj2 codec_stops))).
Defined.
