(* ===== verification/LbrssPbTypes.v ===== *)
(** * LbrssPbTypes: what the parsers can produce

    Whatever bytes a parser of lbrss.pb.cpp reads, complete or not, from a peer
    that keeps to the protocol or not, the message it leaves has values of the
    declared types in all its fields, also in the messages inside, and each such
    message is produced by some input ([codec_types_exact]).  The handlers
    of the services rely on it: they use the fields of messages from the network
    without looking at what [ParseFromArray] returned. *)

From S2P Require Import Prelude CInt.
From S2P Require Import Protobuf.
From S2P Require Import Varint.
From S2P Require Import LbrssPb.
From S2P Require Import Proto.
From S2P Require Import LbrssPbSpec.
From Stdlib Require Import Strings.Byte.
Import Pb.
Local Open Scope Z_scope.

(** The cases of a [switch], one by one. *)
Ltac solve_case_keeps :=
  intros; unfold
    HostInfo_case, GetRouteRequest_case, GetRouteResponse_case, HostCallResult_case,
    ReportStatusRequest_case, GetHostRequest_case, GetHostResponse_case, ReportRequest_case;
  repeat case_match; try exact I;
  first [ apply int32_case_keeps | apply uint32_case_keeps | apply bool_case_keeps | idtac ];
  try (unfold HostInfo_ok, GetRouteRequest_ok, GetRouteResponse_ok, HostCallResult_ok,
         ReportStatusRequest_ok, GetHostRequest_ok, GetHostResponse_ok, ReportRequest_ok in *;
       cbn; naive_solver).

Section Types.
Context `{PL : PbLaws}.

Lemma HostInfo_keeps : parser_keeps HostInfo_ok HostInfo_InternalParse.
Proof. apply run_keeps; [done|]. solve_case_keeps. Qed.

Lemma GetRouteRequest_keeps : parser_keeps GetRouteRequest_ok GetRouteRequest_InternalParse.
Proof. apply run_keeps; [done|]. solve_case_keeps. Qed.

Lemma HostInfo_new_ok : HostInfo_ok HostInfo_new.
Proof. split; cbn; unfold is_i32; lia. Qed.

Lemma HostCallResult_new_ok : HostCallResult_ok HostCallResult_new.
Proof. unfold HostCallResult_ok, is_i32, is_u32. cbn. lia. Qed.

Lemma GetRouteResponse_keeps : parser_keeps GetRouteResponse_ok GetRouteResponse_InternalParse.
Proof.
  apply run_keeps; [done|]. solve_case_keeps.
  apply (repeated_case_keeps _ HostInfo_ok _ HostInfo_keeps); [apply HostInfo_new_ok| |done].
  intros a m' Ha (Hh & ? & ?). split; [|done]. apply Forall_app. by split; [|constructor].
Qed.

Lemma HostCallResult_keeps : parser_keeps HostCallResult_ok HostCallResult_InternalParse.
Proof. apply run_keeps; [done|]. solve_case_keeps. Qed.

Lemma ReportStatusRequest_keeps :
  parser_keeps ReportStatusRequest_ok ReportStatusRequest_InternalParse.
Proof.
  apply run_keeps; [done|]. solve_case_keeps.
  apply (repeated_case_keeps _ HostCallResult_ok _ HostCallResult_keeps);
    [apply HostCallResult_new_ok| |done].
  intros a m' Ha (Hh & ?). split; [|done]. apply Forall_app. by split; [|constructor].
Qed.

Lemma GetHostRequest_keeps : parser_keeps GetHostRequest_ok GetHostRequest_InternalParse.
Proof. apply run_keeps; [done|]. solve_case_keeps. Qed.

Lemma default_host_ok (o : option HostInfo) :
  from_option HostInfo_ok True o -> HostInfo_ok (default HostInfo_new o).
Proof. destruct o; cbn; [done|]. intros _. apply HostInfo_new_ok. Qed.

Lemma GetHostResponse_keeps : parser_keeps GetHostResponse_ok GetHostResponse_InternalParse.
Proof.
  apply run_keeps; [done|]. solve_case_keeps.
  apply (message_case_keeps _ HostInfo_ok _ HostInfo_keeps).
  - apply default_host_ok; unfold GetHostResponse_ok in *; naive_solver.
  - intros a Ha. unfold GetHostResponse_ok in *. cbn. naive_solver.
Qed.

Lemma ReportRequest_keeps : parser_keeps ReportRequest_ok ReportRequest_InternalParse.
Proof.
  apply run_keeps; [done|]. solve_case_keeps.
  apply (message_case_keeps _ HostInfo_ok _ HostInfo_keeps).
  - apply default_host_ok; unfold ReportRequest_ok in *; naive_solver.
  - intros a Ha. unfold ReportRequest_ok in *. cbn. naive_solver.
Qed.

(** *** Values *)

(** A class is read exactly: the contents that its parser can leave, whatever it is
    given, are those whose fields are in the range of their types, no more and
    no less; and they survive being sent on. *)
Definition reads_exactly {X V : Type} (Clear : X -> X) (parse : X -> list byte -> X * outcome)
    (write : X -> list byte) (size : X -> Z * X) (value : X -> V) (build : V -> X)
    (ok : X -> Prop) : Prop :=
  forall m, let read bs := parse (Clear m) bs in
  (forall bs, ok (build (value (read bs).1))) /\
  (forall v, ok (build v) -> small_len (size (build v)).1 ->
     exists bs, (read bs).2 = AtLimit /\ value (read bs).1 = v) /\
  (forall bs, let v := value (read bs).1 in small_len (size (build v)).1 ->
     let sent := write (size (build v)).2 in
     (read sent).2 = AtLimit /\ value (read sent).1 = v).

Lemma read_exactly {X V : Type} Clear parse (write : X -> list byte) size (value : X -> V) build
  ok :
  written_is_parsed Clear parse write size value build ok ->
  parser_keeps ok parse -> (forall m, ok (Clear m)) -> (forall m, ok m -> ok (build (value m))) ->
  reads_exactly Clear parse write size value build ok.
Proof.
  intros Ht Hk Hc Hv m read. assert (Hok : forall bs, ok (build (value (read bs).1)))
    by (intros bs; apply Hv, Hk, Hc).
  split; [exact Hok|]. split.
  - intros v Hb Hs. destruct (Ht m v Hb Hs) as (m' & E & Em). unfold read. eexists. by rewrite E.
  - intros bs v Hs sent. destruct (Ht m v (Hok bs) Hs) as (m' & E & Em). unfold read, sent.
    by rewrite E.
Qed.

Lemma HostInfo_value_ok h : HostInfo_ok h -> HostInfo_ok (HostInfo_of (HostInfo_value h)).
Proof. by destruct h. Qed.

Lemma HostCallResult_value_ok h :
  HostCallResult_ok h -> HostCallResult_ok (HostCallResult_of (HostCallResult_value h)).
Proof. by destruct h. Qed.

Lemma GetRouteResponse_value_ok m :
  GetRouteResponse_ok m -> GetRouteResponse_ok (GetRouteResponse_of (GetRouteResponse_value m)).
Proof.
  intros (Hh & Hm). split; [|exact Hm]. cbn. apply Forall_fmap, Forall_fmap.
  by eapply Forall_impl; [exact Hh|apply HostInfo_value_ok].
Qed.

Lemma ReportStatusRequest_value_ok m : ReportStatusRequest_ok m ->
  ReportStatusRequest_ok (ReportStatusRequest_of (ReportStatusRequest_value m)).
Proof.
  intros (Hh & Hm). split; [|exact Hm]. cbn. apply Forall_fmap, Forall_fmap.
  by eapply Forall_impl; [exact Hh|apply HostCallResult_value_ok].
Qed.

Lemma GetHostResponse_value_ok m :
  GetHostResponse_ok m -> GetHostResponse_ok (GetHostResponse_of (GetHostResponse_value m)).
Proof. intros (Hh & Hm). split; [|exact Hm]. cbn. by destruct (hs_host_ m). Qed.

Lemma ReportRequest_value_ok m :
  ReportRequest_ok m -> ReportRequest_ok (ReportRequest_of (ReportRequest_value m)).
Proof. intros (Hh & Hm). split; [|exact Hm]. cbn. by destruct (rr_host_ m). Qed.

(** A cleared message has its fields at zero. *)
Lemma HostInfo_clear_ok m : HostInfo_ok (HostInfo_Clear m).
Proof. unfold HostInfo_ok, is_i32, is_u32. cbn. repeat split; first [constructor|lia]. Qed.

Lemma GetRouteRequest_clear_ok m : GetRouteRequest_ok (GetRouteRequest_Clear m).
Proof. unfold GetRouteRequest_ok, is_i32, is_u32. cbn. repeat split; first [constructor|lia]. Qed.

Lemma GetRouteResponse_clear_ok m : GetRouteResponse_ok (GetRouteResponse_Clear m).
Proof. unfold GetRouteResponse_ok, is_i32, is_u32. cbn. repeat split; first [constructor|lia]. Qed.

Lemma HostCallResult_clear_ok m : HostCallResult_ok (HostCallResult_Clear m).
Proof. unfold HostCallResult_ok, is_i32, is_u32. cbn. repeat split; first [constructor|lia]. Qed.

Lemma ReportStatusRequest_clear_ok m : ReportStatusRequest_ok (ReportStatusRequest_Clear m).
Proof. unfold ReportStatusRequest_ok, is_i32, is_u32. cbn. repeat split; first [constructor|lia].
  Qed.

Lemma GetHostRequest_clear_ok m : GetHostRequest_ok (GetHostRequest_Clear m).
Proof. unfold GetHostRequest_ok, is_i32, is_u32. cbn. repeat split; first [constructor|lia]. Qed.

Lemma GetHostResponse_clear_ok m : GetHostResponse_ok (GetHostResponse_Clear m).
Proof. unfold GetHostResponse_ok, is_i32, is_u32. cbn. repeat split; first [constructor|lia]. Qed.

Lemma ReportRequest_clear_ok m : ReportRequest_ok (ReportRequest_Clear m).
Proof. unfold ReportRequest_ok, is_i32, is_u32. cbn. repeat split; first [constructor|lia]. Qed.

(** C14. The types of the messages are exactly what the parsers produce.
    Whatever bytes a parser is given, complete or broken off, and whatever the
    object held before it was cleared, every field is left with a value of its
    type, also in the messages inside; every message with such values (shorter
    than 2^31 bytes) is what some input parses to, so none is lost or stored in
    another field; and what has been parsed, from any bytes, is the same after
    it is written and parsed again (if that is shorter than 2^31 bytes). *)
Theorem codec_types_exact :
  reads_exactly HostInfo_Clear HostInfo_InternalParse HostInfo_InternalSerialize
    HostInfo_ByteSizeLong HostInfo_value HostInfo_of HostInfo_ok /\
  reads_exactly GetRouteRequest_Clear GetRouteRequest_InternalParse
    GetRouteRequest_InternalSerialize
    GetRouteRequest_ByteSizeLong GetRouteRequest_value GetRouteRequest_of GetRouteRequest_ok /\
  reads_exactly GetRouteResponse_Clear GetRouteResponse_InternalParse
    GetRouteResponse_InternalSerialize GetRouteResponse_ByteSizeLong
    GetRouteResponse_value GetRouteResponse_of GetRouteResponse_ok /\
  reads_exactly HostCallResult_Clear HostCallResult_InternalParse HostCallResult_InternalSerialize
    HostCallResult_ByteSizeLong HostCallResult_value HostCallResult_of HostCallResult_ok /\
  reads_exactly ReportStatusRequest_Clear ReportStatusRequest_InternalParse
    ReportStatusRequest_InternalSerialize ReportStatusRequest_ByteSizeLong
    ReportStatusRequest_value ReportStatusRequest_of ReportStatusRequest_ok /\
  reads_exactly GetHostRequest_Clear GetHostRequest_InternalParse GetHostRequest_InternalSerialize
    GetHostRequest_ByteSizeLong GetHostRequest_value GetHostRequest_of GetHostRequest_ok /\
  reads_exactly GetHostResponse_Clear GetHostResponse_InternalParse
    GetHostResponse_InternalSerialize
    GetHostResponse_ByteSizeLong GetHostResponse_value GetHostResponse_of GetHostResponse_ok /\
  reads_exactly ReportRequest_Clear ReportRequest_InternalParse ReportRequest_InternalSerialize
    ReportRequest_ByteSizeLong ReportRequest_value ReportRequest_of ReportRequest_ok.
Proof.
  split_and!.
  - apply read_exactly; [apply HostInfo_written|apply HostInfo_keeps|apply HostInfo_clear_ok|].
    apply HostInfo_value_ok.
  - apply read_exactly; [apply GetRouteRequest_written|apply GetRouteRequest_keeps|apply
      GetRouteRequest_clear_ok|].
    by intros [].
  - apply read_exactly; [apply GetRouteResponse_written|apply GetRouteResponse_keeps|apply
      GetRouteResponse_clear_ok|].
    apply GetRouteResponse_value_ok.
  - apply read_exactly; [apply HostCallResult_written|apply HostCallResult_keeps|apply
      HostCallResult_clear_ok|].
    apply HostCallResult_value_ok.
  - apply read_exactly; [apply ReportStatusRequest_written|apply ReportStatusRequest_keeps|apply
      ReportStatusRequest_clear_ok|].
    apply ReportStatusRequest_value_ok.
  - apply read_exactly; [apply GetHostRequest_written|apply GetHostRequest_keeps|apply
      GetHostRequest_clear_ok|].
    by intros [].
  - apply read_exactly; [apply GetHostResponse_written|apply GetHostResponse_keeps|apply
      GetHostResponse_clear_ok|].
    apply GetHostResponse_value_ok.
  - apply read_exactly; [apply ReportRequest_written|apply ReportRequest_keeps|apply
      ReportRequest_clear_ok|].
    apply ReportRequest_value_ok.
Qed.

(** A host takes at most 22 bytes. *)
Lemma HostInfo_size_max h : HostInfo_ok h -> hi_metadata h = ufs_empty ->
  0 <= (HostInfo_ByteSizeLong h).1 <= 22.
Proof.
  intros (Hip & Hport) Hu. unfold HostInfo_ByteSizeLong. cbn [fst]. rewrite Hu.
  unfold size_total. rewrite have_unknown_empty. pose proof (size_int32_range _ Hip).
  pose proof (size_int32_range _ Hport). lia.
Qed.

Lemma HostCallResult_size_max h : HostCallResult_ok h -> cr_metadata h = ufs_empty ->
  0 <= (HostCallResult_ByteSizeLong h).1 <= 36.
Proof.
  intros (Hip & Hport & Hs & He) Hu. unfold HostCallResult_ByteSizeLong. cbn [fst]. rewrite Hu.
  unfold size_total. rewrite have_unknown_empty. pose proof (size_int32_range _ Hip).
  pose proof (size_int32_range _ Hport). pose proof (size_uint32_range _ Hs).
  pose proof (size_uint32_range _ He). pose proof (size_bool_range (cr_overload_ h)). lia.
Qed.

(** Messages of bounded size inside a message. *)
Lemma size_repeated_max {A : Type} (size : A -> Z * A) b ls :
  b < 2 ^ 31 -> Forall (fun a => 0 <= (size a).1 <= b) ls ->
  Z.of_nat (length ls) <= size_repeated size ls <= (b + 6) * Z.of_nat (length ls).
Proof.
  intros Hb. induction 1 as [|a ls Ha _ IH]; [cbn; lia|]. rewrite size_repeated_cons.
  assert (Hp : 0 <= (size a).1) by lia.
  assert (Hl : small_len (size a).1) by (unfold small_len; lia).
  pose proof (LengthDelimitedSize_le _ Hp). pose proof (LengthDelimitedSize_max _ Hl).
  cbn [length]. lia.
Qed.

(** The message that [ParseFromArray] leaves. *)
Lemma parsed_ok {X V} `{PbMessage X V} (bs : list byte) :
  m_ok (m_Clear m_new) -> parser_keeps m_ok m_parse ->
  m_ok (ParseWhole m_Clear m_parse m_new bs).1.
Proof. intros Hn Hk. rewrite ParseWhole_parses. by apply Hk. Qed.

Import PbWire.

Lemma request_parsed_ok (bs : list byte) :
  let req := ParseFromArray (A := lbrss.GetRouteRequest) bs in
  is_i32 (lbrss.grq_modid req) /\ is_i32 (lbrss.grq_cmdid req).
Proof.
  cbv zeta. assert (Hok := parsed_ok (X := GetRouteRequest) bs).
  apply Hok; [|apply GetRouteRequest_keeps].
  change (GetRouteRequest_ok (GetRouteRequest_Clear GetRouteRequest_new)).
  unfold GetRouteRequest_ok, is_i32. cbn. lia.
Qed.
End Types.

(** ** Witness *)

Import Varint.

(** A response that breaks off inside a host, after an [int32] of 64 bits: what
    has been read so far is in range, and comes back when it is sent on. *)
Lemma codec_types_exact_witness :
  let bs := byte_of_Z <$> [8; 135; 128; 128; 128; 240; 1; 26; 2; 8; 9; 26; 4; 8; 200] in
  let v := GetRouteResponse_value (GetRouteResponse_InternalParse GetRouteResponse_new bs).1 in
  (GetRouteResponse_InternalParse GetRouteResponse_new bs).2 = Failed /\
  GetRouteResponse_ok (GetRouteResponse_of v) /\
  v = lbrss.mkGetRouteResponse 7 0 [lbrss.mkHostInfo 9 0; lbrss.mkHostInfo 0 0] /\
  GetRouteResponse_value (GetRouteResponse_InternalParse GetRouteResponse_new
    (GetRouteResponse_InternalSerialize (GetRouteResponse_ByteSizeLong
      (GetRouteResponse_of v)).2)).1
    = v.
Proof.
  cbv zeta. destruct codec_types_exact as (_ & _ & Ht & _).
  destruct (Ht GetRouteResponse_new) as (Hok & _ & Hb).
  split; [vm_compute; reflexivity|]. split; [apply Hok|]. split; [vm_compute; reflexivity|].
  apply Hb. by vm_compute.
Defined.
