(* ===== verification/LbrssPbAccess.v ===== *)
(** * LbrssPbAccess: accessors, copies and moves of the generated messages
    (base/proto/lbrss.pb.h, base/proto/lbrss.pb.cpp)

    The methods through which the services read and build messages.  A pointer
    into a message ([mutable_x], [add_x]) is given as what the caller does with
    it.  No message is on an arena.  The messages that are built through the
    setters are the ones that [Proto]'s records stand for ([messages_built]),
    and a copy is what [CopyFrom] makes ([copies_agree]). *)

From S2P Require Import Prelude CInt.
From S2P Require Import Protobuf.
From S2P Require Import LbrssPb.
From S2P Require Import Proto.
From S2P Require Import LbrssPbSpec.
From Stdlib Require Import Strings.Byte.
Import Pb.
Local Open Scope Z_scope.

(** [RepeatedPtrField::Get] and [Mutable]: an index outside is undefined. *)
Definition elem_at {A : Type} (index : Z) (ls : list A) : res A :=
  check OutOfBounds (0 <=? index);;
  match ls !! Z.to_nat index with Some a => Ret a | None => Fault OutOfBounds end.

Definition change_at {A : Type} (index : Z) (f : A -> A) (ls : list A) : res (list A) :=
  elem_at index ls;;
  Ret (alter f (Z.to_nat index) ls).

(** ** Enumerations *)

Definition MessageId_IsValid (value : Z) : bool := bool_decide (value ∈ seqZ 0 9).
Definition RetCode_IsValid (value : Z) : bool := bool_decide (value ∈ seqZ 0 4).

Section Access.
Context {PB : PbRuntime}.

(** ** HostInfo *)

Definition HostInfo_clear_ip (m : HostInfo) : HostInfo := hi_set_ip 0 m.
Definition HostInfo_ip (m : HostInfo) : Z := hi_ip_ m.
Definition HostInfo_set_ip (value : Z) (m : HostInfo) : HostInfo := hi_set_ip value m.

Definition HostInfo_clear_port (m : HostInfo) : HostInfo := hi_set_port 0 m.
Definition HostInfo_port (m : HostInfo) : Z := hi_port_ m.
Definition HostInfo_set_port (value : Z) (m : HostInfo) : HostInfo := hi_set_port value m.

Definition HostInfo_copy (from : HostInfo) : HostInfo :=
  mkHostInfo (hi_ip_ from) (hi_port_ from)
    (ufs_merge ufs_empty (hi_metadata from)) 0.
Definition HostInfo_InternalSwap (m other : HostInfo) : HostInfo * HostInfo :=
  (mkHostInfo (hi_ip_ other) (hi_port_ other) (hi_metadata other) (hi_cached_size m),
   mkHostInfo (hi_ip_ m) (hi_port_ m) (hi_metadata m) (hi_cached_size other)).
Definition HostInfo_IsInitialized (m : HostInfo) : bool := true.
Definition HostInfo_assign (m from : HostInfo) : HostInfo := HostInfo_CopyFrom m from.
Definition HostInfo_move (m from : HostInfo) : HostInfo * HostInfo := HostInfo_InternalSwap m
    from.
Definition HostInfo_move_new (from : HostInfo) : HostInfo * HostInfo := HostInfo_move
    HostInfo_new from.
Definition HostInfo_Swap (m other : HostInfo) : HostInfo * HostInfo := HostInfo_InternalSwap m
    other.

(** ** GetRouteRequest *)

Definition GetRouteRequest_clear_modid (m : GetRouteRequest) : GetRouteRequest := gq_set_modid 0
    m.
Definition GetRouteRequest_modid (m : GetRouteRequest) : Z := gq_modid_ m.
Definition GetRouteRequest_set_modid (value : Z) (m : GetRouteRequest) : GetRouteRequest :=
    gq_set_modid value m.

Definition GetRouteRequest_clear_cmdid (m : GetRouteRequest) : GetRouteRequest := gq_set_cmdid 0
    m.
Definition GetRouteRequest_cmdid (m : GetRouteRequest) : Z := gq_cmdid_ m.
Definition GetRouteRequest_set_cmdid (value : Z) (m : GetRouteRequest) : GetRouteRequest :=
    gq_set_cmdid value m.

Definition GetRouteRequest_copy (from : GetRouteRequest) : GetRouteRequest :=
  mkGetRouteRequest (gq_modid_ from) (gq_cmdid_ from)
    (ufs_merge ufs_empty (gq_metadata from)) 0.
Definition GetRouteRequest_InternalSwap (m other : GetRouteRequest) : GetRouteRequest *
    GetRouteRequest :=
  (mkGetRouteRequest (gq_modid_ other) (gq_cmdid_ other) (gq_metadata other) (gq_cached_size m),
   mkGetRouteRequest (gq_modid_ m) (gq_cmdid_ m) (gq_metadata m) (gq_cached_size other)).
Definition GetRouteRequest_IsInitialized (m : GetRouteRequest) : bool := true.
Definition GetRouteRequest_assign (m from : GetRouteRequest) : GetRouteRequest :=
    GetRouteRequest_CopyFrom m from.
Definition GetRouteRequest_move (m from : GetRouteRequest) : GetRouteRequest * GetRouteRequest :=
    GetRouteRequest_InternalSwap m from.
Definition GetRouteRequest_move_new (from : GetRouteRequest) : GetRouteRequest * GetRouteRequest
    := GetRouteRequest_move GetRouteRequest_new from.
Definition GetRouteRequest_Swap (m other : GetRouteRequest) : GetRouteRequest * GetRouteRequest
    := GetRouteRequest_InternalSwap m other.

(** ** GetRouteResponse *)

Definition GetRouteResponse_clear_modid (m : GetRouteResponse) : GetRouteResponse := gs_set_modid
    0 m.
Definition GetRouteResponse_modid (m : GetRouteResponse) : Z := gs_modid_ m.
Definition GetRouteResponse_set_modid (value : Z) (m : GetRouteResponse) : GetRouteResponse :=
    gs_set_modid value m.

Definition GetRouteResponse_clear_cmdid (m : GetRouteResponse) : GetRouteResponse := gs_set_cmdid
    0 m.
Definition GetRouteResponse_cmdid (m : GetRouteResponse) : Z := gs_cmdid_ m.
Definition GetRouteResponse_set_cmdid (value : Z) (m : GetRouteResponse) : GetRouteResponse :=
    gs_set_cmdid value m.

Definition GetRouteResponse_host_size (m : GetRouteResponse) : Z := Z.of_nat (length (gs_host_
    m)).
Definition GetRouteResponse_clear_host (m : GetRouteResponse) : GetRouteResponse := gs_set_host
    [] m.
Definition GetRouteResponse_mutable_host_at (index : Z) (f : HostInfo -> HostInfo) (m :
    GetRouteResponse)
    : res GetRouteResponse :=
  change_at index f (gs_host_ m) ≫= fun ls => Ret (gs_set_host ls m).
Definition GetRouteResponse_mutable_host (f : list HostInfo -> list HostInfo) (m :
    GetRouteResponse)
    : GetRouteResponse :=
  gs_set_host (f (gs_host_ m)) m.
Definition GetRouteResponse_host_at (index : Z) (m : GetRouteResponse) : res HostInfo :=
  elem_at index (gs_host_ m).
Definition GetRouteResponse_add_host (f : HostInfo -> HostInfo) (m : GetRouteResponse) :
    GetRouteResponse :=
  gs_add_host (f HostInfo_new) m.
Definition GetRouteResponse_host (m : GetRouteResponse) : list HostInfo := gs_host_ m.

Definition GetRouteResponse_copy (from : GetRouteResponse) : GetRouteResponse :=
  mkGetRouteResponse (HostInfo_MergeFrom HostInfo_new <$> gs_host_ from) (gs_modid_ from)
    (gs_cmdid_ from)
    (ufs_merge ufs_empty (gs_metadata from)) 0.
Definition GetRouteResponse_InternalSwap (m other : GetRouteResponse) : GetRouteResponse *
    GetRouteResponse :=
  (mkGetRouteResponse (gs_host_ other) (gs_modid_ other) (gs_cmdid_ other) (gs_metadata other)
    (gs_cached_size m),
   mkGetRouteResponse (gs_host_ m) (gs_modid_ m) (gs_cmdid_ m) (gs_metadata m) (gs_cached_size
    other)).
Definition GetRouteResponse_IsInitialized (m : GetRouteResponse) : bool := true.
Definition GetRouteResponse_assign (m from : GetRouteResponse) : GetRouteResponse :=
    GetRouteResponse_CopyFrom m from.
Definition GetRouteResponse_move (m from : GetRouteResponse) : GetRouteResponse *
    GetRouteResponse := GetRouteResponse_InternalSwap m from.
Definition GetRouteResponse_move_new (from : GetRouteResponse) : GetRouteResponse *
    GetRouteResponse := GetRouteResponse_move GetRouteResponse_new from.
Definition GetRouteResponse_Swap (m other : GetRouteResponse) : GetRouteResponse *
    GetRouteResponse := GetRouteResponse_InternalSwap m other.

(** ** HostCallResult *)

Definition HostCallResult_clear_ip (m : HostCallResult) : HostCallResult := cr_set_ip 0 m.
Definition HostCallResult_ip (m : HostCallResult) : Z := cr_ip_ m.
Definition HostCallResult_set_ip (value : Z) (m : HostCallResult) : HostCallResult := cr_set_ip
    value m.

Definition HostCallResult_clear_port (m : HostCallResult) : HostCallResult := cr_set_port 0 m.
Definition HostCallResult_port (m : HostCallResult) : Z := cr_port_ m.
Definition HostCallResult_set_port (value : Z) (m : HostCallResult) : HostCallResult :=
    cr_set_port value m.

Definition HostCallResult_clear_succ (m : HostCallResult) : HostCallResult := cr_set_succ 0 m.
Definition HostCallResult_succ (m : HostCallResult) : Z := cr_succ_ m.
Definition HostCallResult_set_succ (value : Z) (m : HostCallResult) : HostCallResult :=
    cr_set_succ value m.

Definition HostCallResult_clear_err (m : HostCallResult) : HostCallResult := cr_set_err 0 m.
Definition HostCallResult_err (m : HostCallResult) : Z := cr_err_ m.
Definition HostCallResult_set_err (value : Z) (m : HostCallResult) : HostCallResult := cr_set_err
    value m.

Definition HostCallResult_clear_overload (m : HostCallResult) : HostCallResult := cr_set_overload
    false m.
Definition HostCallResult_overload (m : HostCallResult) : bool := cr_overload_ m.
Definition HostCallResult_set_overload (value : bool) (m : HostCallResult) : HostCallResult :=
    cr_set_overload value m.

Definition HostCallResult_copy (from : HostCallResult) : HostCallResult :=
  mkHostCallResult (cr_ip_ from) (cr_port_ from) (cr_succ_ from) (cr_err_ from) (cr_overload_
    from)
    (ufs_merge ufs_empty (cr_metadata from)) 0.
Definition HostCallResult_InternalSwap (m other : HostCallResult) : HostCallResult *
    HostCallResult :=
  (mkHostCallResult (cr_ip_ other) (cr_port_ other) (cr_succ_ other) (cr_err_ other)
    (cr_overload_ other) (cr_metadata other) (cr_cached_size m),
   mkHostCallResult (cr_ip_ m) (cr_port_ m) (cr_succ_ m) (cr_err_ m) (cr_overload_ m)
    (cr_metadata m) (cr_cached_size other)).
Definition HostCallResult_IsInitialized (m : HostCallResult) : bool := true.
Definition HostCallResult_assign (m from : HostCallResult) : HostCallResult :=
    HostCallResult_CopyFrom m from.
Definition HostCallResult_move (m from : HostCallResult) : HostCallResult * HostCallResult :=
    HostCallResult_InternalSwap m from.
Definition HostCallResult_move_new (from : HostCallResult) : HostCallResult * HostCallResult :=
    HostCallResult_move HostCallResult_new from.
Definition HostCallResult_Swap (m other : HostCallResult) : HostCallResult * HostCallResult :=
    HostCallResult_InternalSwap m other.

(** ** ReportStatusRequest *)

Definition ReportStatusRequest_clear_modid (m : ReportStatusRequest) : ReportStatusRequest :=
    sr_set_modid 0 m.
Definition ReportStatusRequest_modid (m : ReportStatusRequest) : Z := sr_modid_ m.
Definition ReportStatusRequest_set_modid (value : Z) (m : ReportStatusRequest) :
    ReportStatusRequest := sr_set_modid value m.

Definition ReportStatusRequest_clear_cmdid (m : ReportStatusRequest) : ReportStatusRequest :=
    sr_set_cmdid 0 m.
Definition ReportStatusRequest_cmdid (m : ReportStatusRequest) : Z := sr_cmdid_ m.
Definition ReportStatusRequest_set_cmdid (value : Z) (m : ReportStatusRequest) :
    ReportStatusRequest := sr_set_cmdid value m.

Definition ReportStatusRequest_clear_caller (m : ReportStatusRequest) : ReportStatusRequest :=
    sr_set_caller 0 m.
Definition ReportStatusRequest_caller (m : ReportStatusRequest) : Z := sr_caller_ m.
Definition ReportStatusRequest_set_caller (value : Z) (m : ReportStatusRequest) :
    ReportStatusRequest := sr_set_caller value m.

Definition ReportStatusRequest_results_size (m : ReportStatusRequest) : Z := Z.of_nat (length
    (sr_results_ m)).
Definition ReportStatusRequest_clear_results (m : ReportStatusRequest) : ReportStatusRequest :=
    sr_set_results [] m.
Definition ReportStatusRequest_mutable_results_at (index : Z) (f : HostCallResult ->
    HostCallResult) (m : ReportStatusRequest)
    : res ReportStatusRequest :=
  change_at index f (sr_results_ m) ≫= fun ls => Ret (sr_set_results ls m).
Definition ReportStatusRequest_mutable_results (f : list HostCallResult -> list HostCallResult)
    (m : ReportStatusRequest)
    : ReportStatusRequest :=
  sr_set_results (f (sr_results_ m)) m.
Definition ReportStatusRequest_results_at (index : Z) (m : ReportStatusRequest) : res
    HostCallResult :=
  elem_at index (sr_results_ m).
Definition ReportStatusRequest_add_results (f : HostCallResult -> HostCallResult) (m :
    ReportStatusRequest) : ReportStatusRequest :=
  sr_add_results (f HostCallResult_new) m.
Definition ReportStatusRequest_results (m : ReportStatusRequest) : list HostCallResult :=
    sr_results_ m.

Definition ReportStatusRequest_clear_ts (m : ReportStatusRequest) : ReportStatusRequest :=
    sr_set_ts 0 m.
Definition ReportStatusRequest_ts (m : ReportStatusRequest) : Z := sr_ts_ m.
Definition ReportStatusRequest_set_ts (value : Z) (m : ReportStatusRequest) : ReportStatusRequest
    := sr_set_ts value m.

Definition ReportStatusRequest_copy (from : ReportStatusRequest) : ReportStatusRequest :=
  mkReportStatusRequest (HostCallResult_MergeFrom HostCallResult_new <$> sr_results_ from)
    (sr_modid_ from) (sr_cmdid_ from) (sr_caller_ from) (sr_ts_ from)
    (ufs_merge ufs_empty (sr_metadata from)) 0.
Definition ReportStatusRequest_InternalSwap (m other : ReportStatusRequest) : ReportStatusRequest
    * ReportStatusRequest :=
  (mkReportStatusRequest (sr_results_ other) (sr_modid_ other) (sr_cmdid_ other) (sr_caller_
    other) (sr_ts_ other) (sr_metadata other) (sr_cached_size m),
   mkReportStatusRequest (sr_results_ m) (sr_modid_ m) (sr_cmdid_ m) (sr_caller_ m) (sr_ts_ m)
    (sr_metadata m) (sr_cached_size other)).
Definition ReportStatusRequest_IsInitialized (m : ReportStatusRequest) : bool := true.
Definition ReportStatusRequest_assign (m from : ReportStatusRequest) : ReportStatusRequest :=
    ReportStatusRequest_CopyFrom m from.
Definition ReportStatusRequest_move (m from : ReportStatusRequest) : ReportStatusRequest *
    ReportStatusRequest := ReportStatusRequest_InternalSwap m from.
Definition ReportStatusRequest_move_new (from : ReportStatusRequest) : ReportStatusRequest *
    ReportStatusRequest := ReportStatusRequest_move ReportStatusRequest_new from.
Definition ReportStatusRequest_Swap (m other : ReportStatusRequest) : ReportStatusRequest *
    ReportStatusRequest := ReportStatusRequest_InternalSwap m other.

(** ** GetHostRequest *)

Definition GetHostRequest_clear_seq (m : GetHostRequest) : GetHostRequest := hq_set_seq 0 m.
Definition GetHostRequest_seq (m : GetHostRequest) : Z := hq_seq_ m.
Definition GetHostRequest_set_seq (value : Z) (m : GetHostRequest) : GetHostRequest := hq_set_seq
    value m.

Definition GetHostRequest_clear_modid (m : GetHostRequest) : GetHostRequest := hq_set_modid 0 m.
Definition GetHostRequest_modid (m : GetHostRequest) : Z := hq_modid_ m.
Definition GetHostRequest_set_modid (value : Z) (m : GetHostRequest) : GetHostRequest :=
    hq_set_modid value m.

Definition GetHostRequest_clear_cmdid (m : GetHostRequest) : GetHostRequest := hq_set_cmdid 0 m.
Definition GetHostRequest_cmdid (m : GetHostRequest) : Z := hq_cmdid_ m.
Definition GetHostRequest_set_cmdid (value : Z) (m : GetHostRequest) : GetHostRequest :=
    hq_set_cmdid value m.

Definition GetHostRequest_copy (from : GetHostRequest) : GetHostRequest :=
  mkGetHostRequest (hq_seq_ from) (hq_modid_ from) (hq_cmdid_ from)
    (ufs_merge ufs_empty (hq_metadata from)) 0.
Definition GetHostRequest_InternalSwap (m other : GetHostRequest) : GetHostRequest *
    GetHostRequest :=
  (mkGetHostRequest (hq_seq_ other) (hq_modid_ other) (hq_cmdid_ other) (hq_metadata other)
    (hq_cached_size m),
   mkGetHostRequest (hq_seq_ m) (hq_modid_ m) (hq_cmdid_ m) (hq_metadata m) (hq_cached_size
    other)).
Definition GetHostRequest_IsInitialized (m : GetHostRequest) : bool := true.
Definition GetHostRequest_assign (m from : GetHostRequest) : GetHostRequest :=
    GetHostRequest_CopyFrom m from.
Definition GetHostRequest_move (m from : GetHostRequest) : GetHostRequest * GetHostRequest :=
    GetHostRequest_InternalSwap m from.
Definition GetHostRequest_move_new (from : GetHostRequest) : GetHostRequest * GetHostRequest :=
    GetHostRequest_move GetHostRequest_new from.
Definition GetHostRequest_Swap (m other : GetHostRequest) : GetHostRequest * GetHostRequest :=
    GetHostRequest_InternalSwap m other.

(** ** GetHostResponse *)

Definition GetHostResponse_clear_seq (m : GetHostResponse) : GetHostResponse := hs_set_seq 0 m.
Definition GetHostResponse_seq (m : GetHostResponse) : Z := hs_seq_ m.
Definition GetHostResponse_set_seq (value : Z) (m : GetHostResponse) : GetHostResponse :=
    hs_set_seq value m.

Definition GetHostResponse_clear_modid (m : GetHostResponse) : GetHostResponse := hs_set_modid 0
    m.
Definition GetHostResponse_modid (m : GetHostResponse) : Z := hs_modid_ m.
Definition GetHostResponse_set_modid (value : Z) (m : GetHostResponse) : GetHostResponse :=
    hs_set_modid value m.

Definition GetHostResponse_clear_cmdid (m : GetHostResponse) : GetHostResponse := hs_set_cmdid 0
    m.
Definition GetHostResponse_cmdid (m : GetHostResponse) : Z := hs_cmdid_ m.
Definition GetHostResponse_set_cmdid (value : Z) (m : GetHostResponse) : GetHostResponse :=
    hs_set_cmdid value m.

Definition GetHostResponse_clear_retcode (m : GetHostResponse) : GetHostResponse :=
    hs_set_retcode 0 m.
Definition GetHostResponse_retcode (m : GetHostResponse) : Z := hs_retcode_ m.
Definition GetHostResponse_set_retcode (value : Z) (m : GetHostResponse) : GetHostResponse :=
    hs_set_retcode value m.

Definition GetHostResponse_has_host (m : GetHostResponse) : bool :=
  match hs_host_ m with Some _ => true | None => false end.
Definition GetHostResponse_clear_host (m : GetHostResponse) : GetHostResponse := hs_set_host None
    m.
Definition GetHostResponse_host (m : GetHostResponse) : HostInfo := default HostInfo_new
    (hs_host_ m).
Definition GetHostResponse_unsafe_arena_set_allocated_host (h : option HostInfo) (m :
    GetHostResponse)
    : GetHostResponse :=
  hs_set_host h m.
Definition GetHostResponse_release_host (m : GetHostResponse) : option HostInfo * GetHostResponse
    :=
  (hs_host_ m, hs_set_host None m).
Definition GetHostResponse_unsafe_arena_release_host (m : GetHostResponse) : option HostInfo *
    GetHostResponse :=
  (hs_host_ m, hs_set_host None m).
Definition GetHostResponse_mutable_host (f : HostInfo -> HostInfo) (m : GetHostResponse) :
    GetHostResponse :=
  hs_set_host (Some (f (hs_mutable_host m))) m.
Definition GetHostResponse_set_allocated_host (h : option HostInfo) (m : GetHostResponse) :
    GetHostResponse :=
  hs_set_host h m.

Definition GetHostResponse_copy (from : GetHostResponse) : GetHostResponse :=
  mkGetHostResponse (HostInfo_copy <$> hs_host_ from) (hs_seq_ from) (hs_modid_ from) (hs_cmdid_
    from) (hs_retcode_ from)
    (ufs_merge ufs_empty (hs_metadata from)) 0.
Definition GetHostResponse_InternalSwap (m other : GetHostResponse) : GetHostResponse *
    GetHostResponse :=
  (mkGetHostResponse (hs_host_ other) (hs_seq_ other) (hs_modid_ other) (hs_cmdid_ other)
    (hs_retcode_ other) (hs_metadata other) (hs_cached_size m),
   mkGetHostResponse (hs_host_ m) (hs_seq_ m) (hs_modid_ m) (hs_cmdid_ m) (hs_retcode_ m)
    (hs_metadata m) (hs_cached_size other)).
Definition GetHostResponse_IsInitialized (m : GetHostResponse) : bool := true.
Definition GetHostResponse_assign (m from : GetHostResponse) : GetHostResponse :=
    GetHostResponse_CopyFrom m from.
Definition GetHostResponse_move (m from : GetHostResponse) : GetHostResponse * GetHostResponse :=
    GetHostResponse_InternalSwap m from.
Definition GetHostResponse_move_new (from : GetHostResponse) : GetHostResponse * GetHostResponse
    := GetHostResponse_move GetHostResponse_new from.
Definition GetHostResponse_Swap (m other : GetHostResponse) : GetHostResponse * GetHostResponse
    := GetHostResponse_InternalSwap m other.

(** ** ReportRequest *)

Definition ReportRequest_clear_modid (m : ReportRequest) : ReportRequest := rr_set_modid 0 m.
Definition ReportRequest_modid (m : ReportRequest) : Z := rr_modid_ m.
Definition ReportRequest_set_modid (value : Z) (m : ReportRequest) : ReportRequest :=
    rr_set_modid value m.

Definition ReportRequest_clear_cmdid (m : ReportRequest) : ReportRequest := rr_set_cmdid 0 m.
Definition ReportRequest_cmdid (m : ReportRequest) : Z := rr_cmdid_ m.
Definition ReportRequest_set_cmdid (value : Z) (m : ReportRequest) : ReportRequest :=
    rr_set_cmdid value m.

Definition ReportRequest_has_host (m : ReportRequest) : bool :=
  match rr_host_ m with Some _ => true | None => false end.
Definition ReportRequest_clear_host (m : ReportRequest) : ReportRequest := rr_set_host None m.
Definition ReportRequest_host (m : ReportRequest) : HostInfo := default HostInfo_new (rr_host_ m).
Definition ReportRequest_unsafe_arena_set_allocated_host (h : option HostInfo) (m : ReportRequest)
    : ReportRequest :=
  rr_set_host h m.
Definition ReportRequest_release_host (m : ReportRequest) : option HostInfo * ReportRequest :=
  (rr_host_ m, rr_set_host None m).
Definition ReportRequest_unsafe_arena_release_host (m : ReportRequest) : option HostInfo *
    ReportRequest :=
  (rr_host_ m, rr_set_host None m).
Definition ReportRequest_mutable_host (f : HostInfo -> HostInfo) (m : ReportRequest) :
    ReportRequest :=
  rr_set_host (Some (f (rr_mutable_host m))) m.
Definition ReportRequest_set_allocated_host (h : option HostInfo) (m : ReportRequest) :
    ReportRequest :=
  rr_set_host h m.

Definition ReportRequest_clear_retcode (m : ReportRequest) : ReportRequest := rr_set_retcode 0 m.
Definition ReportRequest_retcode (m : ReportRequest) : Z := rr_retcode_ m.
Definition ReportRequest_set_retcode (value : Z) (m : ReportRequest) : ReportRequest :=
    rr_set_retcode value m.

Definition ReportRequest_copy (from : ReportRequest) : ReportRequest :=
  mkReportRequest (HostInfo_copy <$> rr_host_ from) (rr_modid_ from) (rr_cmdid_ from)
    (rr_retcode_ from)
    (ufs_merge ufs_empty (rr_metadata from)) 0.
Definition ReportRequest_InternalSwap (m other : ReportRequest) : ReportRequest * ReportRequest :=
  (mkReportRequest (rr_host_ other) (rr_modid_ other) (rr_cmdid_ other) (rr_retcode_ other)
    (rr_metadata other) (rr_cached_size m),
   mkReportRequest (rr_host_ m) (rr_modid_ m) (rr_cmdid_ m) (rr_retcode_ m) (rr_metadata m)
    (rr_cached_size other)).
Definition ReportRequest_IsInitialized (m : ReportRequest) : bool := true.
Definition ReportRequest_assign (m from : ReportRequest) : ReportRequest :=
    ReportRequest_CopyFrom m from.
Definition ReportRequest_move (m from : ReportRequest) : ReportRequest * ReportRequest :=
    ReportRequest_InternalSwap m from.
Definition ReportRequest_move_new (from : ReportRequest) : ReportRequest * ReportRequest :=
    ReportRequest_move ReportRequest_new from.
Definition ReportRequest_Swap (m other : ReportRequest) : ReportRequest * ReportRequest :=
    ReportRequest_InternalSwap m other.

End Access.

(** ** What the setters build *)

Section Built.
Context `{PL : PbLaws}.

(** [add_host()], and the setters of the new host; likewise a result. *)
Definition fill_host (h : lbrss.HostInfo) (m : HostInfo) : HostInfo :=
  HostInfo_set_port (lbrss.hi_port h) (HostInfo_set_ip (lbrss.hi_ip h) m).
Definition fill_result (r : lbrss.HostCallResult) (m : HostCallResult) : HostCallResult :=
  HostCallResult_set_overload (lbrss.hcr_overload r) (HostCallResult_set_err (lbrss.hcr_err r)
    (HostCallResult_set_succ (lbrss.hcr_succ r) (HostCallResult_set_port (lbrss.hcr_port r)
    (HostCallResult_set_ip (lbrss.hcr_ip r) m)))).

Lemma fill_host_of h : fill_host h HostInfo_new = HostInfo_of h.
Proof. done. Qed.

Lemma add_hosts_of hs : forall m,
  foldl (fun m h => GetRouteResponse_add_host (fill_host h) m) m hs =
    gs_set_host (gs_host_ m ++ (HostInfo_of <$> hs)) m.
Proof.
  induction hs as [|h hs IH]; intros m; cbn [foldl fmap list_fmap].
  - rewrite app_nil_r. by destruct m.
  - rewrite IH. unfold GetRouteResponse_add_host, gs_add_host. cbn. by rewrite <- app_assoc.
Qed.

Lemma add_results_of rs : forall m,
  foldl (fun m r => ReportStatusRequest_add_results (fill_result r) m) m rs =
    sr_set_results (sr_results_ m ++ (HostCallResult_of <$> rs)) m.
Proof.
  induction rs as [|r rs IH]; intros m; cbn [foldl fmap list_fmap].
  - rewrite app_nil_r. by destruct m.
  - rewrite IH. unfold ReportStatusRequest_add_results, sr_add_results. cbn.
    by rewrite <- app_assoc.
Qed.

(** The messages that the generated setters build from a new object, one call
    for each field and one [add_host], [add_results] or [mutable_host] for each
    message inside, are the ones that the records of [Proto] stand for: so what
    the codec's theorems say of a record holds of the object that the program
    serializes.  A response whose host is never set is one without
    host, and [mutable_host] makes one. *)
Lemma messages_built :
  (forall v, fold_right id GetRouteRequest_new
     [GetRouteRequest_set_cmdid (lbrss.grq_cmdid v); GetRouteRequest_set_modid (lbrss.grq_modid v)]
     = GetRouteRequest_of v) /\
  (forall v, foldl (fun m h => GetRouteResponse_add_host (fill_host h) m)
     (GetRouteResponse_set_cmdid (lbrss.grs_cmdid v)
        (GetRouteResponse_set_modid (lbrss.grs_modid v) GetRouteResponse_new)) (lbrss.grs_host v)
     = GetRouteResponse_of v) /\
  (forall v, ReportStatusRequest_set_ts (lbrss.rsr_ts v)
     (foldl (fun m r => ReportStatusRequest_add_results (fill_result r) m)
        (ReportStatusRequest_set_caller (lbrss.rsr_caller v)
           (ReportStatusRequest_set_cmdid (lbrss.rsr_cmdid v)
              (ReportStatusRequest_set_modid (lbrss.rsr_modid v) ReportStatusRequest_new)))
        (lbrss.rsr_results v))
     = ReportStatusRequest_of v) /\
  (forall v, GetHostRequest_set_cmdid (lbrss.ghq_cmdid v)
     (GetHostRequest_set_modid (lbrss.ghq_modid v)
        (GetHostRequest_set_seq (lbrss.ghq_seq v) GetHostRequest_new))
     = GetHostRequest_of v) /\
  (forall v,
     let m := GetHostResponse_set_retcode (lbrss.ghs_retcode v)
       (GetHostResponse_set_cmdid (lbrss.ghs_cmdid v)
          (GetHostResponse_set_modid (lbrss.ghs_modid v)
             (GetHostResponse_set_seq (lbrss.ghs_seq v) GetHostResponse_new))) in
     match lbrss.ghs_host v with
     | None => m
     | Some h => GetHostResponse_mutable_host (fill_host h) m
     end = GetHostResponse_of v) /\
  (forall v,
     let m := ReportRequest_set_retcode (lbrss.rr_retcode v)
       (ReportRequest_set_cmdid (lbrss.rr_cmdid v)
          (ReportRequest_set_modid (lbrss.rr_modid v) ReportRequest_new)) in
     match lbrss.rr_host v with
     | None => m
     | Some h => ReportRequest_mutable_host (fill_host h) m
     end = ReportRequest_of v).
Proof.
  split_and!; intros v; try done.
  - rewrite add_hosts_of. by destruct v.
  - rewrite add_results_of. by destruct v.
  - destruct v as [? ? ? ? [h|]]; done.
  - destruct v as [? ? [h|] ?]; done.
Qed.

(** What the getters read is what the record of a message has. *)
Lemma messages_read :
  (forall m, HostInfo_value m = lbrss.mkHostInfo (HostInfo_ip m) (HostInfo_port m)) /\
  (forall m, lbrss.grs_host (GetRouteResponse_value m) = HostInfo_value <$> GetRouteResponse_host
    m) /\
  (forall m i, 0 <= i < GetRouteResponse_host_size m -> exists h,
     GetRouteResponse_host_at i m = Ret h /\
     lbrss.grs_host (GetRouteResponse_value m) !! Z.to_nat i = Some (HostInfo_value h)) /\
  (forall m, HostInfo_value (GetHostResponse_host m) =
     lbrss.host_or_default (lbrss.ghs_host (GetHostResponse_value m))) /\
  (forall m, HostInfo_value (ReportRequest_host m) =
     lbrss.host_or_default (lbrss.rr_host (ReportRequest_value m))).
Proof.
  split_and!; try done.
  - intros m i Hi. unfold GetRouteResponse_host_size in Hi.
    unfold GetRouteResponse_host_at, elem_at.
    rewrite (proj2 (Z.leb_le 0 i)) by lia. cbn [check mbind res_bind].
    destruct (lookup_lt_is_Some_2 (gs_host_ m) (Z.to_nat i)) as [h Hh]; [lia|]. rewrite Hh.
    exists h. split; [done|]. cbn. by rewrite list_lookup_fmap, Hh.
  - intros m. unfold GetHostResponse_host. by destruct m as [[h|]].
  - intros m. unfold ReportRequest_host. by destruct m as [[h|]].
Qed.

(** ** Copies and moves *)

Ltac copy_fields :=
  cbn; unfold merge_Z, merge_bool;
  repeat (case_match; try match goal with H : (_ =? _) = true |- _ => apply Z.eqb_eq in H end);
  subst; try done.

Lemma HostInfo_copy_eq m : HostInfo_copy m = HostInfo_CopyFrom HostInfo_new m.
Proof. destruct m. unfold HostInfo_copy, HostInfo_CopyFrom, HostInfo_MergeFrom. copy_fields. Qed.

(** A copy constructor makes what an assignment to a new object makes. *)
Lemma copies_agree :
  (forall m, HostInfo_copy m = HostInfo_assign HostInfo_new m) /\
  (forall m, GetRouteRequest_copy m = GetRouteRequest_assign GetRouteRequest_new m) /\
  (forall m, GetRouteResponse_copy m = GetRouteResponse_assign GetRouteResponse_new m) /\
  (forall m, HostCallResult_copy m = HostCallResult_assign HostCallResult_new m) /\
  (forall m, ReportStatusRequest_copy m = ReportStatusRequest_assign ReportStatusRequest_new m) /\
  (forall m, GetHostRequest_copy m = GetHostRequest_assign GetHostRequest_new m) /\
  (forall m, GetHostResponse_copy m = GetHostResponse_assign GetHostResponse_new m) /\
  (forall m, ReportRequest_copy m = ReportRequest_assign ReportRequest_new m).
Proof.
  split_and!; intros m; [apply HostInfo_copy_eq|..]; destruct m.
  - unfold GetRouteRequest_copy, GetRouteRequest_assign, GetRouteRequest_CopyFrom,
      GetRouteRequest_MergeFrom. copy_fields.
  - unfold GetRouteResponse_copy, GetRouteResponse_assign, GetRouteResponse_CopyFrom,
      GetRouteResponse_MergeFrom. copy_fields.
  - unfold HostCallResult_copy, HostCallResult_assign, HostCallResult_CopyFrom,
      HostCallResult_MergeFrom. copy_fields.
  - unfold ReportStatusRequest_copy, ReportStatusRequest_assign, ReportStatusRequest_CopyFrom,
      ReportStatusRequest_MergeFrom. copy_fields.
  - unfold GetHostRequest_copy, GetHostRequest_assign, GetHostRequest_CopyFrom,
      GetHostRequest_MergeFrom. copy_fields.
  - unfold GetHostResponse_copy, GetHostResponse_assign, GetHostResponse_CopyFrom,
      GetHostResponse_MergeFrom. destruct hs_host_; cbn -[HostInfo_copy HostInfo_MergeFrom];
      [rewrite HostInfo_copy_eq|]; copy_fields.
  - unfold ReportRequest_copy, ReportRequest_assign, ReportRequest_CopyFrom,
      ReportRequest_MergeFrom. destruct rr_host_; cbn -[HostInfo_copy HostInfo_MergeFrom];
      [rewrite HostInfo_copy_eq|]; copy_fields.
Qed.

(** A move leaves a new object behind; the cached sizes stay where they are. *)
Lemma move_new_takes m :
  GetRouteResponse_value (GetRouteResponse_move_new m).1 = GetRouteResponse_value m /\
  GetRouteResponse_move_new m =
    (gs_set_cached_size 0 m, gs_set_cached_size (gs_cached_size m) GetRouteResponse_new).
Proof. done. Qed.
End Built.

(** The identifiers of the messages that the routers know, and no others but
    [ID_UNKNOW], are valid. *)
Lemma MessageId_IsValid_iff v : MessageId_IsValid v = true <-> 0 <= v <= 8.
Proof. unfold MessageId_IsValid. rewrite bool_decide_eq_true, elem_of_seqZ. lia. Qed.

Lemma RetCode_IsValid_iff v : RetCode_IsValid v = true <-> 0 <= v <= 3.
Proof. unfold RetCode_IsValid. rewrite bool_decide_eq_true, elem_of_seqZ. lia. Qed.
