(* ===== verification/Descriptor.v ===== *)
(** * Descriptor: what the generated code says of itself

    Each generated file holds the description of its .proto file, as the bytes
    of a [FileDescriptorProto] in a C string literal.  The literals are here as
    they are written (a quote as its octal escape), with the reader of C escapes
    and the reader of the wire format that turn them into lists of messages and
    enumerations.  [descriptor_of_proto]: the description in lbrss.pb.cpp is that
    of lbrss.proto, but for one value of an enumeration that was added later. *)

From Stdlib Require Import Strings.Byte Strings.Ascii Strings.String.
From stdpp Require Import strings.
From S2P Require Import Prelude CInt.
From S2P Require Import Protobuf.
From S2P Require Import Varint.
From S2P Require Import Proto.
Local Open Scope Z_scope.

(** ** C string literals *)

Definition octal (a b c : ascii) : byte :=
  let d x := Z.of_nat (nat_of_ascii x) - 48 in
  byte_of_Z (64 * d a + 8 * d b + d c).

(** The bytes of a literal.  An octal escape has three digits, as the
    generator writes them. *)
Fixpoint c_literal (s : string) : list byte :=
  match s with
  | EmptyString => []
  | String "\" (String "n" s) => byte_of_Z 10 :: c_literal s
  | String "\" (String "t" s) => byte_of_Z 9 :: c_literal s
  | String "\" (String "r" s) => byte_of_Z 13 :: c_literal s
  | String "\" (String "\" s) => byte_of_Z 92 :: c_literal s
  | String "\" (String a (String b (String c s))) => octal a b c :: c_literal s
  | String c s => byte_of_ascii c :: c_literal s
  end.

(** Adjacent literals are one. *)
Definition c_literals (ls : list string) : list byte := ls ≫= c_literal.

Definition descriptor_table_protodef_lbrss_2eproto : list byte := c_literals
  ["\n\013lbrss.proto\022\005lbrss\042$\n\010HostInfo\022\n\n\002ip\030\001";
   " \001(\005\022\014\n\004port\030\002 \001(\005\042/\n\017GetRouteRequest\022\r\n";
   "\005modid\030\001 \001(\005\022\r\n\005cmdid\030\002 \001(\005\042O\n\020GetRouteR";
   "esponse\022\r\n\005modid\030\001 \001(\005\022\r\n\005cmdid\030\002 \001(\005\022\035\n";
   "\004host\030\003 \003(\0132\017.lbrss.HostInfo\042W\n\016HostCall";
   "Result\022\n\n\002ip\030\001 \001(\005\022\014\n\004port\030\002 \001(\005\022\014\n\004succ";
   "\030\003 \001(\r\022\013\n\003err\030\004 \001(\r\022\020\n\010overload\030\005 \001(\010\042w\n";
   "\023ReportStatusRequest\022\r\n\005modid\030\001 \001(\005\022\r\n\005c";
   "mdid\030\002 \001(\005\022\016\n\006caller\030\003 \001(\005\022&\n\007results\030\004 ";
   "\003(\0132\025.lbrss.HostCallResult\022\n\n\002ts\030\005 \001(\r\042;";
   "\n\016GetHostRequest\022\013\n\003seq\030\001 \001(\r\022\r\n\005modid\030\002";
   " \001(\005\022\r\n\005cmdid\030\003 \001(\005\042l\n\017GetHostResponse\022\013";
   "\n\003seq\030\001 \001(\r\022\r\n\005modid\030\002 \001(\005\022\r\n\005cmdid\030\003 \001(";
   "\005\022\017\n\007retcode\030\004 \001(\005\022\035\n\004host\030\005 \001(\0132\017.lbrss";
   ".HostInfo\042]\n\rReportRequest\022\r\n\005modid\030\001 \001(";
   "\005\022\r\n\005cmdid\030\002 \001(\005\022\035\n\004host\030\003 \001(\0132\017.lbrss.H";
   "ostInfo\022\017\n\007retcode\030\004 \001(\005*\345\001\n\tMessageId\022\r";
   "\n\tID_UNKNOW\020\000\022\026\n\022ID_GetRouteRequest\020\001\022\027\n";
   "\023ID_GetRouteResponse\020\002\022\032\n\026ID_ReportStatu";
   "sRequest\020\003\022\025\n\021ID_GetHostRequest\020\004\022\026\n\022ID_";
   "GetHostResponse\020\005\022\024\n\020ID_ReportRequest\020\006\022";
   "\032\n\026ID_API_GetRouteRequest\020\007\022\033\n\027ID_API_Ge";
   "tRouteResponse\020\010*P\n\007RetCode\022\014\n\010RET_SUCC\020";
   "\000\022\020\n\014RET_OVERLOAD\020\001\022\024\n\020RET_SYSTEM_ERROR\020";
   "\002\022\017\n\013RET_NOEXIST\020\003b\006proto3"]%string.

(** The length that the descriptor table gives for it. *)
Definition descriptor_table_size : Z := 986.

(** The same in lars.pb.cpp and lbrpc.pb.cpp. *)
Definition descriptor_table_protodef_lars_2eproto : list byte := c_literals
  ["\n\nlars.proto\022\004lars\042$\n\010HostInfo\022\n\n\002ip\030\001 \001";
   "(\005\022\014\n\004port\030\002 \001(\005\042/\n\017GetRouteRequest\022\r\n\005m";
   "odid\030\001 \001(\005\022\r\n\005cmdid\030\002 \001(\005\042N\n\020GetRouteRes";
   "ponse\022\r\n\005modid\030\001 \001(\005\022\r\n\005cmdid\030\002 \001(\005\022\034\n\004h";
   "ost\030\003 \003(\0132\016.lars.HostInfo\042W\n\016HostCallRes";
   "ult\022\n\n\002ip\030\001 \001(\005\022\014\n\004port\030\002 \001(\005\022\014\n\004succ\030\003 ";
   "\001(\r\022\013\n\003err\030\004 \001(\r\022\020\n\010overload\030\005 \001(\010\042v\n\023Re";
   "portStatusRequest\022\r\n\005modid\030\001 \001(\005\022\r\n\005cmdi";
   "d\030\002 \001(\005\022\016\n\006caller\030\003 \001(\005\022%\n\007results\030\004 \003(\013";
   "2\024.lars.HostCallResult\022\n\n\002ts\030\005 \001(\r\042;\n\016Ge";
   "tHostRequest\022\013\n\003seq\030\001 \001(\r\022\r\n\005modid\030\002 \001(\005";
   "\022\r\n\005cmdid\030\003 \001(\005\042k\n\017GetHostResponse\022\013\n\003se";
   "q\030\001 \001(\r\022\r\n\005modid\030\002 \001(\005\022\r\n\005cmdid\030\003 \001(\005\022\017\n";
   "\007retcode\030\004 \001(\005\022\034\n\004host\030\005 \001(\0132\016.lars.Host";
   "Info\042\\\n\rReportRequest\022\r\n\005modid\030\001 \001(\005\022\r\n\005";
   "cmdid\030\002 \001(\005\022\034\n\004host\030\003 \001(\0132\016.lars.HostInf";
   "o\022\017\n\007retcode\030\004 \001(\005*\345\001\n\tMessageId\022\r\n\tID_U";
   "NKNOW\020\000\022\026\n\022ID_GetRouteRequest\020\001\022\027\n\023ID_Ge";
   "tRouteResponse\020\002\022\032\n\026ID_ReportStatusReque";
   "st\020\003\022\025\n\021ID_GetHostRequest\020\004\022\026\n\022ID_GetHos";
   "tResponse\020\005\022\024\n\020ID_ReportRequest\020\006\022\032\n\026ID_";
   "API_GetRouteRequest\020\007\022\033\n\027ID_API_GetRoute";
   "Response\020\010*T\n\013LarsRetCode\022\014\n\010RET_SUCC\020\000\022";
   "\020\n\014RET_OVERLOAD\020\001\022\024\n\020RET_SYSTEM_ERROR\020\002\022";
   "\017\n\013RET_NOEXIST\020\003b\006proto3"]%string.
Definition descriptor_table_size_lars : Z := 984.

Definition descriptor_table_protodef_lbrpc_2eproto : list byte := c_literals
  ["\n\013lbrpc.proto\022\005lbrpc\042$\n\010HostInfo\022\n\n\002ip\030\001";
   " \001(\005\022\014\n\004port\030\002 \001(\005\042/\n\017GetRouteRequest\022\r\n";
   "\005modid\030\001 \001(\005\022\r\n\005cmdid\030\002 \001(\005\042O\n\020GetRouteR";
   "esponse\022\r\n\005modid\030\001 \001(\005\022\r\n\005cmdid\030\002 \001(\005\022\035\n";
   "\004host\030\003 \003(\0132\017.lbrpc.HostInfo\042W\n\016HostCall";
   "Result\022\n\n\002ip\030\001 \001(\005\022\014\n\004port\030\002 \001(\005\022\014\n\004succ";
   "\030\003 \001(\r\022\013\n\003err\030\004 \001(\r\022\020\n\010overload\030\005 \001(\010\042w\n";
   "\023ReportStatusRequest\022\r\n\005modid\030\001 \001(\005\022\r\n\005c";
   "mdid\030\002 \001(\005\022\016\n\006caller\030\003 \001(\005\022&\n\007results\030\004 ";
   "\003(\0132\025.lbrpc.HostCallResult\022\n\n\002ts\030\005 \001(\r\042;";
   "\n\016GetHostRequest\022\013\n\003seq\030\001 \001(\r\022\r\n\005modid\030\002";
   " \001(\005\022\r\n\005cmdid\030\003 \001(\005\042l\n\017GetHostResponse\022\013";
   "\n\003seq\030\001 \001(\r\022\r\n\005modid\030\002 \001(\005\022\r\n\005cmdid\030\003 \001(";
   "\005\022\017\n\007retcode\030\004 \001(\005\022\035\n\004host\030\005 \001(\0132\017.lbrpc";
   ".HostInfo\042]\n\rReportRequest\022\r\n\005modid\030\001 \001(";
   "\005\022\r\n\005cmdid\030\002 \001(\005\022\035\n\004host\030\003 \001(\0132\017.lbrpc.H";
   "ostInfo\022\017\n\007retcode\030\004 \001(\005*\345\001\n\tMessageId\022\r";
   "\n\tID_UNKNOW\020\000\022\026\n\022ID_GetRouteRequest\020\001\022\027\n";
   "\023ID_GetRouteResponse\020\002\022\032\n\026ID_ReportStatu";
   "sRequest\020\003\022\025\n\021ID_GetHostRequest\020\004\022\026\n\022ID_";
   "GetHostResponse\020\005\022\024\n\020ID_ReportRequest\020\006\022";
   "\032\n\026ID_API_GetRouteRequest\020\007\022\033\n\027ID_API_Ge";
   "tRouteResponse\020\010*T\n\013LarsRetCode\022\014\n\010RET_S";
   "UCC\020\000\022\020\n\014RET_OVERLOAD\020\001\022\024\n\020RET_SYSTEM_ER";
   "ROR\020\002\022\017\n\013RET_NOEXIST\020\003b\006proto3"]%string.
Definition descriptor_table_size_lbrpc : Z := 990.

(** ** Descriptions of messages *)

(** [FieldDescriptorProto], [DescriptorProto], [EnumDescriptorProto] and
    [FileDescriptorProto] of the library, the fields that occur. *)
Record FieldDescriptorProto : Type := mkField {
  f_name : string; f_number : Z; f_label : Z; f_type : Z; f_type_name : string }.
Record DescriptorProto : Type := mkDescriptor {
  d_name : string; d_field : list FieldDescriptorProto }.
Record EnumDescriptorProto : Type := mkEnum {
  e_name : string; e_value : list (string * Z) }.
Record FileDescriptorProto : Type := mkFile {
  fd_name : string; fd_package : string; fd_message_type : list DescriptorProto;
  fd_enum_type : list EnumDescriptorProto; fd_syntax : string }.

Definition LABEL_OPTIONAL : Z := 1.
Definition LABEL_REPEATED : Z := 3.
Definition TYPE_INT32 : Z := 5.
Definition TYPE_BOOL : Z := 8.
Definition TYPE_MESSAGE : Z := 11.
Definition TYPE_UINT32 : Z := 13.

(** ** The wire format *)

Inductive wire : Type := WVarint (n : Z) | WBytes (bs : list byte).

(** The fields of a message: tags with a number and a wire type, 0 or 2.  Every
    turn reads at least one byte. *)
Fixpoint wire_fields (fuel : nat) (bs : list byte) : option (list (Z * wire)) :=
  match bs, fuel with
  | [], _ => Some []
  | _, O => None
  | _, S fuel =>
      '(tag, bs) ← read_varint 5 bs;
      match Z.land tag 7 with
      | 0 => '(n, bs) ← read_varint 10 bs; fs ← wire_fields fuel bs;
             Some ((Z.shiftr tag 3, WVarint n) :: fs)
      | 2 => '(n, bs) ← read_varint 5 bs;
             if n <=? Z.of_nat (Datatypes.length bs) then
               fs ← wire_fields fuel (drop (Z.to_nat n) bs);
               Some ((Z.shiftr tag 3, WBytes (take (Z.to_nat n) bs)) :: fs)
             else None
      | _ => None
      end
  end.

Definition message_fields (bs : list byte) : option (list (Z * wire)) :=
  wire_fields (Datatypes.length bs) bs.

(** The values of a field, in their order. *)
Definition ints (f : Z) (fs : list (Z * wire)) : list Z :=
  omap (fun '(g, w) => match w with WVarint n => if g =? f then Some n else None
                                  | WBytes _ => None end) fs.
Definition strs (f : Z) (fs : list (Z * wire)) : list (list byte) :=
  omap (fun '(g, w) => match w with WBytes bs => if g =? f then Some bs else None
                                  | WVarint _ => None end) fs.

(** A field that is not repeated: the last value, or the default. *)
Definition int_field (f : Z) (fs : list (Z * wire)) : Z := default 0 (last (ints f fs)).
Definition str_field (f : Z) (fs : list (Z * wire)) : string :=
  string_of_list_byte (default [] (last (strs f fs))).

(** Nothing but these fields. *)
Definition only (known : list Z) (fs : list (Z * wire)) : option unit :=
  if forallb (fun x => bool_decide (x.1 ∈ known)) fs then Some () else None.

Definition read_field (bs : list byte) : option FieldDescriptorProto :=
  fs ← message_fields bs; only [1; 3; 4; 5; 6] fs;;
  Some (mkField (str_field 1 fs) (int_field 3 fs) (int_field 4 fs) (int_field 5 fs)
    (str_field 6 fs)).
Definition read_descriptor (bs : list byte) : option DescriptorProto :=
  fs ← message_fields bs; only [1; 2] fs;; ds ← mapM read_field (strs 2 fs);
  Some (mkDescriptor (str_field 1 fs) ds).
Definition read_value (bs : list byte) : option (string * Z) :=
  fs ← message_fields bs; only [1; 2] fs;; Some (str_field 1 fs, int_field 2 fs).
Definition read_enum (bs : list byte) : option EnumDescriptorProto :=
  fs ← message_fields bs; only [1; 2] fs;; vs ← mapM read_value (strs 2 fs);
  Some (mkEnum (str_field 1 fs) vs).
Definition read_file (bs : list byte) : option FileDescriptorProto :=
  fs ← message_fields bs; only [1; 2; 4; 5; 12] fs;;
  ds ← mapM read_descriptor (strs 4 fs); es ← mapM read_enum (strs 5 fs);
  Some (mkFile (str_field 1 fs) (str_field 2 fs) ds es (str_field 12 fs)).

(** ** The .proto files *)

Section File.
Local Open Scope string_scope.

Definition int32 (name : string) (n : Z) : FieldDescriptorProto :=
  mkField name n LABEL_OPTIONAL TYPE_INT32 "".
Definition uint32 (name : string) (n : Z) : FieldDescriptorProto :=
  mkField name n LABEL_OPTIONAL TYPE_UINT32 "".
Definition boolean (name : string) (n : Z) : FieldDescriptorProto :=
  mkField name n LABEL_OPTIONAL TYPE_BOOL "".

(** The package, and what differs between the three files: the name of the
    second enumeration and the values at the end of the first one. *)
Variables (package RetCode : string) (more_ids : list (string * Z)).

Definition message (name : string) (n : Z) (type : string) : FieldDescriptorProto :=
  mkField name n LABEL_OPTIONAL TYPE_MESSAGE ("." ++ package ++ "." ++ type).
Definition repeated (name : string) (n : Z) (type : string) : FieldDescriptorProto :=
  mkField name n LABEL_REPEATED TYPE_MESSAGE ("." ++ package ++ "." ++ type).

Definition proto_messages : list DescriptorProto :=
  [mkDescriptor "HostInfo" [int32 "ip" 1; int32 "port" 2];
   mkDescriptor "GetRouteRequest" [int32 "modid" 1; int32 "cmdid" 2];
   mkDescriptor "GetRouteResponse"
     [int32 "modid" 1; int32 "cmdid" 2; repeated "host" 3 "HostInfo"];
   mkDescriptor "HostCallResult"
     [int32 "ip" 1; int32 "port" 2; uint32 "succ" 3; uint32 "err" 4; boolean "overload" 5];
   mkDescriptor "ReportStatusRequest"
     [int32 "modid" 1; int32 "cmdid" 2; int32 "caller" 3; repeated "results" 4 "HostCallResult";
      uint32 "ts" 5];
   mkDescriptor "GetHostRequest" [uint32 "seq" 1; int32 "modid" 2; int32 "cmdid" 3];
   mkDescriptor "GetHostResponse"
     [uint32 "seq" 1; int32 "modid" 2; int32 "cmdid" 3; int32 "retcode" 4;
      message "host" 5 "HostInfo"];
   mkDescriptor "ReportRequest"
     [int32 "modid" 1; int32 "cmdid" 2; message "host" 3 "HostInfo"; int32 "retcode" 4]].

Definition proto_enums : list EnumDescriptorProto :=
  [mkEnum "MessageId"
     ([("ID_UNKNOW", 0); ("ID_GetRouteRequest", 1); ("ID_GetRouteResponse", 2);
       ("ID_ReportStatusRequest", 3); ("ID_GetHostRequest", 4); ("ID_GetHostResponse", 5);
       ("ID_ReportRequest", 6); ("ID_API_GetRouteRequest", 7);
       ("ID_API_GetRouteResponse", 8)]%Z ++ more_ids)%list;
   mkEnum RetCode
     [("RET_SUCC", 0); ("RET_OVERLOAD", 1); ("RET_SYSTEM_ERROR", 2); ("RET_NOEXIST", 3)]%Z].

Definition proto_file : FileDescriptorProto :=
  mkFile (package ++ ".proto") package proto_messages proto_enums "proto3".
End File.

(** lbrss.proto *)
Definition lbrss_proto : FileDescriptorProto :=
  proto_file "lbrss" "RetCode" [("ID_API_NOEXIST"%string, 9)].

(** What lbrss.pb.cpp was generated from. *)
Definition lbrss_described : FileDescriptorProto := proto_file "lbrss" "RetCode" [].

(** The literals have the lengths that their tables give. *)
Lemma descriptor_sizes :
  Z.of_nat (length descriptor_table_protodef_lbrss_2eproto) = descriptor_table_size /\
  Z.of_nat (length descriptor_table_protodef_lars_2eproto) = descriptor_table_size_lars /\
  Z.of_nat (length descriptor_table_protodef_lbrpc_2eproto) = descriptor_table_size_lbrpc.
Proof. by vm_compute. Qed.

(** The description embedded in lbrss.pb.cpp is that of lbrss.proto, but for
    [ID_API_NOEXIST]. *)
Lemma descriptor_of_proto :
  read_file descriptor_table_protodef_lbrss_2eproto = Some lbrss_described /\
  fd_message_type lbrss_described = fd_message_type lbrss_proto /\
  lbrss_described <> lbrss_proto.
Proof. split; [by vm_compute|]. by split. Qed.

(** The two older packages have the same messages and numbers, under their own
    names. *)
Lemma older_descriptors :
  read_file descriptor_table_protodef_lars_2eproto = Some (proto_file "lars" "LarsRetCode" []) /\
  read_file descriptor_table_protodef_lbrpc_2eproto =
    Some (proto_file "lbrpc" "LarsRetCode" []).
Proof. split; by vm_compute. Qed.

(** The identifiers that the services use are those of the description. *)
Lemma described_ids :
  (snd <$> (fd_enum_type lbrss_described ≫= e_value)) =
    [0; ID_GetRouteRequest; ID_GetRouteResponse; ID_ReportStatusRequest; ID_GetHostRequest;
     ID_GetHostResponse; ID_ReportRequest; ID_API_GetRouteRequest; ID_API_GetRouteResponse;
     RET_SUCC; RET_OVERLOAD; RET_SYSTEM_ERROR; RET_NOEXIST].
Proof. done. Qed.
