(* ===== verification/DynCodec.v ===== *)
(** * DynCodec: messages by their description

    What the protocol says of a message whose class is known by its description
    only ([DynamicMessage] of the library): a value for each field, in the order
    of the description, and parsing, writing, merging and clearing directed by
    it.  This is the reference that [LbrssPbDescriptor] compares the generated
    classes with.  The [_sim] lemmas say when a class with members of its own is
    simulated: each of its cases has to be that of the described field. *)

From S2P Require Import Prelude CInt.
From S2P Require Import Protobuf.
From S2P Require Import Descriptor.
From stdpp Require Import strings.
From Stdlib Require Import Strings.Byte.
Local Open Scope Z_scope.

(** ** Values *)

Section Dyn.
Context {PB : PbRuntime}.

Inductive dyn : Type := Dyn (vals : list dval) (unknown : UnknownFieldSet)
with dval : Type :=
  | DInt (v : Z)
  | DBool (b : bool)
  | DMsg (o : option dyn)
  | DRep (ms : list dyn).

Definition d_vals (m : dyn) : list dval := let 'Dyn vs _ := m in vs.
Definition d_unknown (m : dyn) : UnknownFieldSet := let 'Dyn _ u := m in u.
Definition d_set_unknown (u : UnknownFieldSet) (m : dyn) : dyn := Dyn (d_vals m) u.
Definition d_set (i : nat) (v : dval) (m : dyn) : dyn := Dyn (<[i := v]> (d_vals m)) (d_unknown m).

(** ** Fields *)

Context (file : FileDescriptorProto).

Inductive kind : Type :=
  | KInt32 | KUInt32 | KBool
  | KMessage (d : DescriptorProto)
  | KRepeated (d : DescriptorProto).

(** The message that a [type_name] refers to. *)
Definition message_named (name : string) : option DescriptorProto :=
  find (fun d => String.eqb (d_name d) name) (fd_message_type file).
Definition message_type (type_name : string) : option DescriptorProto :=
  find (fun d => String.eqb ("." ++ fd_package file ++ "." ++ d_name d) type_name)
    (fd_message_type file).

(** The types that occur: scalars that are not repeated, messages. *)
Definition field_kind (f : FieldDescriptorProto) : option kind :=
  if f_label f =? LABEL_REPEATED then
    if f_type f =? TYPE_MESSAGE then KRepeated <$> message_type (f_type_name f) else None
  else if f_type f =? TYPE_INT32 then Some KInt32
  else if f_type f =? TYPE_UINT32 then Some KUInt32
  else if f_type f =? TYPE_BOOL then Some KBool
  else if f_type f =? TYPE_MESSAGE then KMessage <$> message_type (f_type_name f)
  else None.

Definition default_value (k : kind) : dval :=
  match k with
  | KInt32 | KUInt32 => DInt 0
  | KBool => DBool false
  | KMessage _ => DMsg None
  | KRepeated _ => DRep []
  end.

Definition kinds (d : DescriptorProto) : list kind := omap field_kind (d_field d).

(** A message with all fields at their defaults. *)
Definition dyn_new (d : DescriptorProto) : dyn := Dyn (default_value <$> kinds d) ufs_empty.

(** Tags: the number of the field and the wire type of its kind. *)
Definition wire_type (k : kind) : Z :=
  match k with KInt32 | KUInt32 | KBool => 0 | KMessage _ | KRepeated _ => 2 end.

(** The field with a number, and its index. *)
Fixpoint field_numbered (i : nat) (n : Z) (fs : list FieldDescriptorProto)
    : option (nat * FieldDescriptorProto) :=
  match fs with
  | [] => None
  | f :: fs => if f_number f =? n then Some (i, f) else field_numbered (S i) n fs
  end.

(** ** Parsing *)

Definition sub_message (d : DescriptorProto) (i : nat) (m : dyn) : dyn :=
  match d_vals m !! i with Some (DMsg (Some a)) => a | _ => dyn_new d end.
Definition add_message (i : nat) (a : dyn) (m : dyn) : dyn :=
  match d_vals m !! i with Some (DRep ms) => d_set i (DRep (ms ++ [a])) m | _ => m end.

(** A field of the input, onto the message that has been parsed so far: scalars
    are replaced, messages parsed onto the one that is there, elements added. *)
Definition dyn_case (parse : DescriptorProto -> dyn -> list byte -> dyn * outcome)
    (d : DescriptorProto) (tag : Z) (m : dyn) (bs : list byte)
    : option (dyn * pointer) :=
  '(i, f) ← field_numbered 0 (Z.shiftr tag 3) (d_field d);
  k ← field_kind f;
  if tag =? 8 * f_number f + wire_type k then
    match k with
    | KInt32 => int32_case (fun v => d_set i (DInt v)) m bs
    | KUInt32 => uint32_case (fun v => d_set i (DInt v)) m bs
    | KBool => bool_case (fun b => d_set i (DBool b)) m bs
    | KMessage s => message_case (sub_message s i) (parse s) (fun a => d_set i (DMsg (Some a))) m bs
    | KRepeated s => repeated_case tag (dyn_new s) (parse s) (add_message i) m bs
    end
  else None.

(** Messages may be nested as deep as [depth]. *)
Fixpoint dyn_parse (depth : nat) (d : DescriptorProto) : dyn -> list byte -> dyn * outcome :=
  match depth with
  | O => fun m _ => (m, Failed)
  | S depth => run d_unknown d_set_unknown (dyn_case (dyn_parse depth) d)
  end.

(** ** Writing *)

(** Fields at their defaults are left out; lengths are those of the bodies. *)
Definition write_field (write : DescriptorProto -> dyn -> list byte) (f : FieldDescriptorProto)
    (v : dval) : list byte :=
  let put s a := InternalWriteMessage (f_number f) (Z.of_nat (length (write s a))) (write s a) in
  match field_kind f, v with
  | Some KInt32, DInt v => put_int32 (f_number f) v
  | Some KUInt32, DInt v => put_uint32 (f_number f) v
  | Some KBool, DBool b => put_bool (f_number f) b
  | Some (KMessage s), DMsg (Some a) => put s a
  | Some (KRepeated s), DRep ms => mjoin (put s <$> ms)
  | _, _ => []
  end.

Fixpoint dyn_write (depth : nat) (d : DescriptorProto) (m : dyn) : list byte :=
  match depth with
  | O => []
  | S depth =>
      mjoin (zip_with (write_field (dyn_write depth)) (d_field d) (d_vals m)) ++
      put_unknown (d_unknown m)
  end.

(** ** Merging *)

Definition merge_value (merge : DescriptorProto -> dyn -> dyn -> dyn) (k : kind) (v from : dval)
    : dval :=
  match k, v, from with
  | (KInt32 | KUInt32), DInt v, DInt w => DInt (if w =? 0 then v else w)
  | KBool, DBool b, DBool c => DBool (b || c)
  | KMessage s, DMsg o, DMsg (Some a) => DMsg (Some (merge s (default (dyn_new s) o) a))
  | KRepeated s, DRep ms, DRep ns => DRep (ms ++ (merge s (dyn_new s) <$> ns))
  | _, _, _ => v
  end.

Fixpoint merge_values (merge : DescriptorProto -> dyn -> dyn -> dyn) (ks : list kind)
    (vs from : list dval) : list dval :=
  match ks, vs, from with
  | k :: ks, v :: vs, w :: from => merge_value merge k v w :: merge_values merge ks vs from
  | _, _, _ => []
  end.

Fixpoint dyn_merge (depth : nat) (d : DescriptorProto) (m from : dyn) : dyn :=
  match depth with
  | O => m
  | S depth =>
      Dyn (merge_values (dyn_merge depth) (kinds d) (d_vals m) (d_vals from))
        (ufs_merge (d_unknown m) (d_unknown from))
  end.
End Dyn.

(** ** Simulation

    [r] shows a message object as described; a parser is simulated when each
    case of its [switch] is. *)

Section Sim.
Context `{PL : PbLaws} {M N : Type} (r : M -> N).

(** What a case leaves, seen through [r]. *)
Definition shown (x : option (M * pointer)) : option (N * pointer) :=
  (fun y => (r y.1, y.2)) <$> x.

Lemma run_sim meta set_meta field meta' set_meta' field' :
  (forall m, meta' (r m) = meta m) -> (forall u m, set_meta' u (r m) = r (set_meta u m)) ->
  (forall tag m bs, field' tag (r m) bs = shown (field tag m bs)) ->
  forall m bs, run meta' set_meta' field' (r m) bs =
    (r (run meta set_meta field m bs).1, (run meta set_meta field m bs).2).
Proof.
  intros Hm Hs Hf m bs. unfold run. generalize (length bs). intros n. revert m bs.
  induction n as [|n IH]; intros m [|b bs]; cbn [parse_loop]; [done..|].
  destruct (ReadTag _) as [[tag bs1]|]; [|done]. rewrite Hf.
  destruct (field tag m bs1) as [[m1 [bs2| |]]|]; cbn [shown fmap option_fmap option_map fst snd];
    [apply IH|done|done|].
  destruct (ends_message tag); [done|]. rewrite Hm.
  destruct (UnknownFieldParse _ _ _) as [u [bs2|]]; rewrite Hs; [apply IH|done].
Qed.

Lemma int32_sim set set' m bs : (forall v, set' v (r m) = r (set v m)) ->
  int32_case set' (r m) bs = shown (int32_case set m bs).
Proof. intros H. unfold int32_case. destruct (ReadVarint64 bs). by rewrite H. Qed.

Lemma uint32_sim set set' m bs : (forall v, set' v (r m) = r (set v m)) ->
  uint32_case set' (r m) bs = shown (uint32_case set m bs).
Proof. intros H. unfold uint32_case. destruct (ReadVarint32 bs). by rewrite H. Qed.

Lemma bool_sim set set' m bs : (forall v, set' v (r m) = r (set v m)) ->
  bool_case set' (r m) bs = shown (bool_case set m bs).
Proof. intros H. unfold bool_case. destruct (ReadVarint64 bs). by rewrite H. Qed.

Context {A B : Type} (s : A -> B) (parse : A -> list byte -> A * outcome).
Context (parse' : B -> list byte -> B * outcome).
Context (Hparse : forall a bs, parse' (s a) bs = (s (parse a bs).1, (parse a bs).2)).

Lemma message_sim get get' set set' m bs :
  get' (r m) = s (get m) -> (forall a, set' (s a) (r m) = r (set a m)) ->
  message_case get' parse' set' (r m) bs = shown (message_case get parse set m bs).
Proof.
  intros Hg Hs. unfold message_case.
  rewrite Hg, (ParseMessage_natural _ _ s parse parse') by done.
  destruct (ParseMessage parse _ bs). cbn. by rewrite Hs.
Qed.

Lemma repeated_sim tag fresh add add' m bs : (forall a m, add' (s a) (r m) = r (add a m)) ->
  repeated_case tag (s fresh) parse' add' (r m) bs = shown (repeated_case tag fresh parse add m bs).
Proof.
  intros Ha. unfold repeated_case, shown. cbn [fmap option_fmap option_map]. f_equal.
  generalize (S (length bs)). intros n. revert m bs.
  induction n as [|n IH]; intros m bs; cbn [repeated_loop]; [done|].
  rewrite (ParseMessage_natural _ _ s parse parse') by done.
  destruct (ParseMessage parse fresh bs) as [a [bs1|]]; cbn [fst snd]; rewrite Ha; [|done].
  destruct (_ && _); [apply IH|done].
Qed.
End Sim.

(** A tag of a field with a small number fits a byte. *)
Lemma u8_tag tag n : Z.shiftr tag 3 = n -> 0 <= n < 16 -> u8 tag = tag.
Proof.
  intros <- Hn. unfold u8. rewrite Z.shiftr_div_pow2 in Hn by lia.
  pose proof (Z.div_mod tag (2 ^ 3) ltac:(lia)). pose proof (Z.mod_pos_bound tag (2 ^ 3)).
  apply Z.mod_small. lia.
Qed.
