(* ===== verification/LbrssPbDescriptor.v ===== *)
(** * LbrssPbDescriptor: the generated classes are what their descriptions say

    The offset tables of lbrss.pb.cpp show a message object field by field, in
    the order of its description ([reflect]).  Seen so, every generated class
    parses, writes, merges and clears as the protocol says of the description
    that is embedded in the same file ([codec_follows_descriptor]). *)

From S2P Require Import Prelude CInt.
From S2P Require Import Protobuf.
From S2P Require Import Varint.
From S2P Require Import LbrssPb.
From S2P Require Import LbrssPbSpec.
From S2P Require Import Descriptor DynCodec.
From stdpp Require Import strings.
From Stdlib Require Import Strings.Byte.
Import Pb.
Local Open Scope Z_scope.

(** ** The offset tables *)

Section Offsets.
Context {PB : PbRuntime}.

(** An entry of [TableStruct::offsets]: [~0u], or the offset of a member, as
    what is found there. *)
Inductive offset (M : Type) : Type :=
  | NoOffset
  | MetadataOffset (get : M -> UnknownFieldSet)
  | FieldOffset (get : M -> dval).
Arguments NoOffset {M}.
Arguments MetadataOffset {M} get.
Arguments FieldOffset {M} get.

(** The fields of a message that reflection reads through a table, and its
    unknown fields. *)
Definition reflect {M : Type} (table : list (offset M)) (m : M) : dyn :=
  Dyn (omap (fun o => match o with FieldOffset get => Some (get m) | _ => None end) table)
    (default ufs_empty
       (head (omap (fun o => match o with MetadataOffset get => Some (get m) | _ => None end)
          table))).

(** [_has_bits_], [_internal_metadata_], [_extensions_], [_oneof_case_] and
    [_weak_field_map_], and then the fields. *)
Definition HostInfo_offsets : list (offset HostInfo) :=
  [NoOffset; MetadataOffset hi_metadata; NoOffset; NoOffset; NoOffset;
   FieldOffset (fun m => DInt (hi_ip_ m));
   FieldOffset (fun m => DInt (hi_port_ m))].

Definition GetRouteRequest_offsets : list (offset GetRouteRequest) :=
  [NoOffset; MetadataOffset gq_metadata; NoOffset; NoOffset; NoOffset;
   FieldOffset (fun m => DInt (gq_modid_ m));
   FieldOffset (fun m => DInt (gq_cmdid_ m))].

Definition GetRouteResponse_offsets : list (offset GetRouteResponse) :=
  [NoOffset; MetadataOffset gs_metadata; NoOffset; NoOffset; NoOffset;
   FieldOffset (fun m => DInt (gs_modid_ m));
   FieldOffset (fun m => DInt (gs_cmdid_ m));
   FieldOffset (fun m => DRep (reflect HostInfo_offsets <$> gs_host_ m))].

Definition HostCallResult_offsets : list (offset HostCallResult) :=
  [NoOffset; MetadataOffset cr_metadata; NoOffset; NoOffset; NoOffset;
   FieldOffset (fun m => DInt (cr_ip_ m));
   FieldOffset (fun m => DInt (cr_port_ m));
   FieldOffset (fun m => DInt (cr_succ_ m));
   FieldOffset (fun m => DInt (cr_err_ m));
   FieldOffset (fun m => DBool (cr_overload_ m))].

Definition ReportStatusRequest_offsets : list (offset ReportStatusRequest) :=
  [NoOffset; MetadataOffset sr_metadata; NoOffset; NoOffset; NoOffset;
   FieldOffset (fun m => DInt (sr_modid_ m));
   FieldOffset (fun m => DInt (sr_cmdid_ m));
   FieldOffset (fun m => DInt (sr_caller_ m));
   FieldOffset (fun m => DRep (reflect HostCallResult_offsets <$> sr_results_ m));
   FieldOffset (fun m => DInt (sr_ts_ m))].

Definition GetHostRequest_offsets : list (offset GetHostRequest) :=
  [NoOffset; MetadataOffset hq_metadata; NoOffset; NoOffset; NoOffset;
   FieldOffset (fun m => DInt (hq_seq_ m));
   FieldOffset (fun m => DInt (hq_modid_ m));
   FieldOffset (fun m => DInt (hq_cmdid_ m))].

Definition GetHostResponse_offsets : list (offset GetHostResponse) :=
  [NoOffset; MetadataOffset hs_metadata; NoOffset; NoOffset; NoOffset;
   FieldOffset (fun m => DInt (hs_seq_ m));
   FieldOffset (fun m => DInt (hs_modid_ m));
   FieldOffset (fun m => DInt (hs_cmdid_ m));
   FieldOffset (fun m => DInt (hs_retcode_ m));
   FieldOffset (fun m => DMsg (reflect HostInfo_offsets <$> hs_host_ m))].

Definition ReportRequest_offsets : list (offset ReportRequest) :=
  [NoOffset; MetadataOffset rr_metadata; NoOffset; NoOffset; NoOffset;
   FieldOffset (fun m => DInt (rr_modid_ m));
   FieldOffset (fun m => DInt (rr_cmdid_ m));
   FieldOffset (fun m => DMsg (reflect HostInfo_offsets <$> rr_host_ m));
   FieldOffset (fun m => DInt (rr_retcode_ m))].

(** Where the table of each class starts, and its [_has_bits_] indices ([-1]:
    none); the [sizeof] of the class is not modelled. *)
Definition schemas : list (Z * Z) :=
  [(0, -1); (7, -1); (14, -1); (22, -1); (32, -1); (42, -1); (50, -1); (60, -1)].

Definition table_lengths : list nat :=
  [length HostInfo_offsets; length GetRouteRequest_offsets; length GetRouteResponse_offsets;
    length HostCallResult_offsets; length ReportStatusRequest_offsets; length
      GetHostRequest_offsets; length GetHostResponse_offsets; length ReportRequest_offsets].

Lemma schemas_ok : schemas.*1 =
  Z.of_nat <$> ((fun i => sum_list (take i table_lengths)) <$> seq 0 (length schemas)).
Proof. done. Qed.
End Offsets.

(** ** The classes and their descriptions *)

Section Described.
Context `{PL : PbLaws}.
Local Abbreviation lbrss := lbrss_described.

(** The description of the [i]th message. *)
Definition desc (i : nat) : DescriptorProto := nth i (fd_message_type lbrss) (mkDescriptor "" []).

Ltac compute_in t := let v := eval vm_compute in t in change t with v.

(** The cases of a [switch], each against the field with its number. *)
Ltac described_fields :=
  intros tag m bs; unfold dyn_case; destruct (Z.shiftr tag 3) as [|p|p] eqn:Hn; [done| |done];
  repeat (match goal with p : positive |- _ => destruct p as [p|p|] end; try done);
  rewrite (u8_tag _ _ Hn) by lia;
  match goal with |- context [field_numbered ?i ?n ?fs] => compute_in (field_numbered i n fs) end;
  cbn [mbind option_bind];
  match goal with |- context [field_kind ?f ?x] => compute_in (field_kind f x) end;
  cbn [mbind option_bind wire_type f_number];
  match goal with |- context [tag =? ?a * ?b + ?c] => compute_in (a * b + c) end;
  match goal with |- context [tag =? ?t] => destruct (Z.eqb_spec tag t) as [->|]; [|done] end;
  first [ by apply int32_sim | by apply uint32_sim | by apply bool_sim | idtac ].

Lemma HostInfo_parse_sim n : forall m bs,
  dyn_parse lbrss (S n) (desc 0) (reflect HostInfo_offsets m) bs =
    (reflect HostInfo_offsets (HostInfo_InternalParse m bs).1,
     (HostInfo_InternalParse m bs).2).
Proof.
  apply (run_sim (reflect HostInfo_offsets)); [done..|].
  unfold HostInfo_case. described_fields.
Qed.

Lemma GetRouteRequest_parse_sim n : forall m bs,
  dyn_parse lbrss (S n) (desc 1) (reflect GetRouteRequest_offsets m) bs =
    (reflect GetRouteRequest_offsets (GetRouteRequest_InternalParse m bs).1,
     (GetRouteRequest_InternalParse m bs).2).
Proof.
  apply (run_sim (reflect GetRouteRequest_offsets)); [done..|].
  unfold GetRouteRequest_case. described_fields.
Qed.

Lemma GetRouteResponse_parse_sim n : forall m bs,
  dyn_parse lbrss (S (S n)) (desc 2) (reflect GetRouteResponse_offsets m) bs =
    (reflect GetRouteResponse_offsets (GetRouteResponse_InternalParse m bs).1,
     (GetRouteResponse_InternalParse m bs).2).
Proof.
  apply (run_sim (reflect GetRouteResponse_offsets)); [done..|].
  unfold GetRouteResponse_case. described_fields.
  apply (repeated_sim _ (reflect HostInfo_offsets) HostInfo_InternalParse
    (dyn_parse lbrss (S n) (desc 0)) (HostInfo_parse_sim n) 26 HostInfo_new).
  intros a m'. change (reflect GetRouteResponse_offsets (gs_add_host a m')) with
    (d_set 2 (DRep (reflect HostInfo_offsets <$> (gs_host_ m' ++ [a])))
      (reflect GetRouteResponse_offsets m')).
  by rewrite fmap_app.
Qed.

Lemma HostCallResult_parse_sim n : forall m bs,
  dyn_parse lbrss (S n) (desc 3) (reflect HostCallResult_offsets m) bs =
    (reflect HostCallResult_offsets (HostCallResult_InternalParse m bs).1,
     (HostCallResult_InternalParse m bs).2).
Proof.
  apply (run_sim (reflect HostCallResult_offsets)); [done..|].
  unfold HostCallResult_case. described_fields.
Qed.

Lemma ReportStatusRequest_parse_sim n : forall m bs,
  dyn_parse lbrss (S (S n)) (desc 4) (reflect ReportStatusRequest_offsets m) bs =
    (reflect ReportStatusRequest_offsets (ReportStatusRequest_InternalParse m bs).1,
     (ReportStatusRequest_InternalParse m bs).2).
Proof.
  apply (run_sim (reflect ReportStatusRequest_offsets)); [done..|].
  unfold ReportStatusRequest_case. described_fields.
  apply (repeated_sim _ (reflect HostCallResult_offsets) HostCallResult_InternalParse
    (dyn_parse lbrss (S n) (desc 3)) (HostCallResult_parse_sim n) 34 HostCallResult_new).
  intros a m'. change (reflect ReportStatusRequest_offsets (sr_add_results a m')) with
    (d_set 3 (DRep (reflect HostCallResult_offsets <$> (sr_results_ m' ++ [a])))
      (reflect ReportStatusRequest_offsets m')).
  by rewrite fmap_app.
Qed.

Lemma GetHostRequest_parse_sim n : forall m bs,
  dyn_parse lbrss (S n) (desc 5) (reflect GetHostRequest_offsets m) bs =
    (reflect GetHostRequest_offsets (GetHostRequest_InternalParse m bs).1,
     (GetHostRequest_InternalParse m bs).2).
Proof.
  apply (run_sim (reflect GetHostRequest_offsets)); [done..|].
  unfold GetHostRequest_case. described_fields.
Qed.

Lemma GetHostResponse_parse_sim n : forall m bs,
  dyn_parse lbrss (S (S n)) (desc 6) (reflect GetHostResponse_offsets m) bs =
    (reflect GetHostResponse_offsets (GetHostResponse_InternalParse m bs).1,
     (GetHostResponse_InternalParse m bs).2).
Proof.
  apply (run_sim (reflect GetHostResponse_offsets)); [done..|].
  unfold GetHostResponse_case. described_fields.
  apply (message_sim _ (reflect HostInfo_offsets) HostInfo_InternalParse
    (dyn_parse lbrss (S n) (desc 0)) (HostInfo_parse_sim n)); [|done].
  by destruct m as [[h|]].
Qed.

Lemma ReportRequest_parse_sim n : forall m bs,
  dyn_parse lbrss (S (S n)) (desc 7) (reflect ReportRequest_offsets m) bs =
    (reflect ReportRequest_offsets (ReportRequest_InternalParse m bs).1,
     (ReportRequest_InternalParse m bs).2).
Proof.
  apply (run_sim (reflect ReportRequest_offsets)); [done..|].
  unfold ReportRequest_case. described_fields.
  apply (message_sim _ (reflect HostInfo_offsets) HostInfo_InternalParse
    (dyn_parse lbrss (S n) (desc 0)) (HostInfo_parse_sim n)); [|done].
  by destruct m as [[h|]].
Qed.

(** *** Writing *)

(** The parts of [dyn_write], each against the one that the class writes. *)
Ltac written_fields shown :=
  cbn [dyn_write]; rewrite shown; cbn [d_vals d_unknown];
  match goal with |- context [zip_with _ ?fs _] => compute_in fs end;
  cbn [zip_with]; unfold write_field;
  repeat match goal with |- context [field_kind ?f ?x] => compute_in (field_kind f x) end;
  cbv iota beta zeta; cbn [f_number mjoin list_join]; rewrite ?app_nil_r, <- ?app_assoc.

Lemma HostInfo_shown m :
  reflect HostInfo_offsets m =
    Dyn [DInt (hi_ip_ m); DInt (hi_port_ m)] (hi_metadata m).
Proof. done. Qed.

Lemma HostInfo_write_sim n m :
  HostInfo_InternalSerialize (HostInfo_ByteSizeLong m).2 =
    dyn_write lbrss (S n) (desc 0) (reflect HostInfo_offsets m).
Proof. written_fields HostInfo_shown. done. Qed.

Lemma GetRouteRequest_shown m :
  reflect GetRouteRequest_offsets m =
    Dyn [DInt (gq_modid_ m); DInt (gq_cmdid_ m)] (gq_metadata m).
Proof. done. Qed.

Lemma GetRouteRequest_write_sim n m :
  GetRouteRequest_InternalSerialize (GetRouteRequest_ByteSizeLong m).2 =
    dyn_write lbrss (S n) (desc 1) (reflect GetRouteRequest_offsets m).
Proof. written_fields GetRouteRequest_shown. done. Qed.

Lemma GetRouteResponse_shown m :
  reflect GetRouteResponse_offsets m =
    Dyn [DInt (gs_modid_ m); DInt (gs_cmdid_ m); DRep (reflect HostInfo_offsets <$> gs_host_ m)]
      (gs_metadata m).
Proof. done. Qed.

Lemma HostCallResult_shown m :
  reflect HostCallResult_offsets m =
    Dyn [DInt (cr_ip_ m); DInt (cr_port_ m); DInt (cr_succ_ m); DInt (cr_err_ m); DBool
      (cr_overload_ m)] (cr_metadata m).
Proof. done. Qed.

Lemma HostCallResult_write_sim n m :
  HostCallResult_InternalSerialize (HostCallResult_ByteSizeLong m).2 =
    dyn_write lbrss (S n) (desc 3) (reflect HostCallResult_offsets m).
Proof. written_fields HostCallResult_shown. done. Qed.

Lemma ReportStatusRequest_shown m :
  reflect ReportStatusRequest_offsets m =
    Dyn [DInt (sr_modid_ m); DInt (sr_cmdid_ m); DInt (sr_caller_ m); DRep
      (reflect HostCallResult_offsets <$> sr_results_ m); DInt (sr_ts_ m)] (sr_metadata m).
Proof. done. Qed.

Lemma GetHostRequest_shown m :
  reflect GetHostRequest_offsets m =
    Dyn [DInt (hq_seq_ m); DInt (hq_modid_ m); DInt (hq_cmdid_ m)] (hq_metadata m).
Proof. done. Qed.

Lemma GetHostRequest_write_sim n m :
  GetHostRequest_InternalSerialize (GetHostRequest_ByteSizeLong m).2 =
    dyn_write lbrss (S n) (desc 5) (reflect GetHostRequest_offsets m).
Proof. written_fields GetHostRequest_shown. done. Qed.

Lemma GetHostResponse_shown m :
  reflect GetHostResponse_offsets m =
    Dyn [DInt (hs_seq_ m); DInt (hs_modid_ m); DInt (hs_cmdid_ m); DInt (hs_retcode_ m); DMsg
      (reflect HostInfo_offsets <$> hs_host_ m)] (hs_metadata m).
Proof. done. Qed.

Lemma ReportRequest_shown m :
  reflect ReportRequest_offsets m =
    Dyn [DInt (rr_modid_ m); DInt (rr_cmdid_ m); DMsg (reflect HostInfo_offsets <$> rr_host_ m);
      DInt (rr_retcode_ m)] (rr_metadata m).
Proof. done. Qed.

(** A message inside: the cached size is the length of the body. *)
Section Sub.
Context {A : Type} (size : A -> Z * A) (write : A -> list byte) (cached : A -> Z).
Context (range : A -> Prop).
Context (Hwrite : forall a, range a -> Z.of_nat (length (write (size a).2)) = (size a).1).
Context (Hcached : forall a, cached (size a).2 = ToCachedSize (size a).1).
Context (r : A -> dyn) (write' : dyn -> list byte).
Context (Hsim : forall a, write (size a).2 = write' (r a)).
Local Abbreviation put f a := (InternalWriteMessage f (Z.of_nat (length (write' a))) (write' a)).

Lemma put_message_sim f a : range a -> small_len (size a).1 ->
  InternalWriteMessage f (cached (size a).2) (write (size a).2) = put f (r a).
Proof.
  intros Hr Hs. destruct (sub_cached size write cached range Hwrite Hcached a Hr Hs) as [-> _].
  by rewrite Hsim.
Qed.

Lemma put_repeated_sim f ls : Forall range ls -> small_len (size_repeated size ls) ->
  put_repeated f cached write ((fun a => (size a).2) <$> ls) =
    mjoin ((fun a => put f a) <$> (r <$> ls)).
Proof.
  induction ls as [|a ls IH]; intros Hr Hs; [done|].
  destruct (size_repeated_elem size write range Hwrite a ls Hr Hs) as [Ha Hls].
  apply Forall_cons in Hr as [Hra Hr]. unfold put_repeated in *.
  cbn [fmap list_fmap mjoin list_join]. f_equal; [by apply put_message_sim|by apply IH].
Qed.
End Sub.

Lemma GetRouteResponse_write_sim n m : GetRouteResponse_ok m -> small_len
  (GetRouteResponse_ByteSizeLong m).1 ->
  GetRouteResponse_InternalSerialize (GetRouteResponse_ByteSizeLong m).2 =
    dyn_write lbrss (S (S n)) (desc 2) (reflect GetRouteResponse_offsets m).
Proof.
  intros Hok Hs. pose proof (GetRouteResponse_sub_small m Hok Hs) as Hsub. destruct Hok as [Hls _].
  written_fields GetRouteResponse_shown.
  rewrite <- (put_repeated_sim _ _ hi_cached_size _ HostInfo_size_write (fun _ => eq_refl)
    (reflect HostInfo_offsets) _ (HostInfo_write_sim n) _ _ Hls Hsub). done.
Qed.

Lemma ReportStatusRequest_write_sim n m : ReportStatusRequest_ok m -> small_len
  (ReportStatusRequest_ByteSizeLong m).1 ->
  ReportStatusRequest_InternalSerialize (ReportStatusRequest_ByteSizeLong m).2 =
    dyn_write lbrss (S (S n)) (desc 4) (reflect ReportStatusRequest_offsets m).
Proof.
  intros Hok Hs. pose proof (ReportStatusRequest_sub_small m Hok Hs) as Hsub. destruct Hok as
    [Hls _].
  written_fields ReportStatusRequest_shown.
  rewrite <- (put_repeated_sim _ _ cr_cached_size _ HostCallResult_size_write (fun _ => eq_refl)
    (reflect HostCallResult_offsets) _ (HostCallResult_write_sim n) _ _ Hls Hsub). done.
Qed.

Lemma GetHostResponse_write_sim n m : GetHostResponse_ok m -> small_len
  (GetHostResponse_ByteSizeLong m).1 ->
  GetHostResponse_InternalSerialize (GetHostResponse_ByteSizeLong m).2 =
    dyn_write lbrss (S (S n)) (desc 6) (reflect GetHostResponse_offsets m).
Proof.
  intros Hok Hs. pose proof (GetHostResponse_sub_small m) as Hsub.
  written_fields GetHostResponse_shown. unfold GetHostResponse_InternalSerialize,
    GetHostResponse_ByteSizeLong.
  destruct m as [[h|]]; [|done]. destruct (Hsub h Hok Hs eq_refl) as [Hh Hl].
  cbn [hs_host_ fmap option_fmap option_map].
  rewrite <- (put_message_sim _ _ hi_cached_size _ HostInfo_size_write (fun _ => eq_refl)
    (reflect HostInfo_offsets) _ (HostInfo_write_sim n) _ _ Hh Hl). done.
Qed.

Lemma ReportRequest_write_sim n m : ReportRequest_ok m -> small_len
  (ReportRequest_ByteSizeLong m).1 ->
  ReportRequest_InternalSerialize (ReportRequest_ByteSizeLong m).2 =
    dyn_write lbrss (S (S n)) (desc 7) (reflect ReportRequest_offsets m).
Proof.
  intros Hok Hs. pose proof (ReportRequest_sub_small m) as Hsub.
  written_fields ReportRequest_shown. unfold ReportRequest_InternalSerialize,
    ReportRequest_ByteSizeLong.
  destruct m as [[h|]]; [|done]. destruct (Hsub h Hok Hs eq_refl) as [Hh Hl].
  cbn [rr_host_ fmap option_fmap option_map].
  rewrite <- (put_message_sim _ _ hi_cached_size _ HostInfo_size_write (fun _ => eq_refl)
    (reflect HostInfo_offsets) _ (HostInfo_write_sim n) _ _ Hh Hl). done.
Qed.

(** *** Merging *)

Ltac merged_fields shown m from :=
  cbn [dyn_merge]; rewrite !shown; cbn [d_vals d_unknown];
  match goal with |- context [merge_values _ _ ?ks _ _] => compute_in ks end;
  destruct m, from; cbn -[dyn_merge reflect dyn_new desc fmap app];
  unfold merge_Z, merge_bool;
  repeat match goal with |- context [?v =? 0] => destruct (v =? 0) end.

Lemma HostInfo_merge_sim n m from :
  reflect HostInfo_offsets (HostInfo_MergeFrom m from) =
    dyn_merge lbrss (S n) (desc 0) (reflect HostInfo_offsets m) (reflect HostInfo_offsets from).
Proof.
  unfold HostInfo_MergeFrom. merged_fields HostInfo_shown m from; done.
Qed.

Lemma HostInfos_merge_sim n ls ls' :
  reflect HostInfo_offsets <$> (ls ++ (HostInfo_MergeFrom HostInfo_new <$> ls')) =
    (reflect HostInfo_offsets <$> ls) ++
    (dyn_merge lbrss (S n) (desc 0) (dyn_new lbrss (desc 0)) <$>
      (reflect HostInfo_offsets <$> ls')).
Proof.
  rewrite fmap_app, <- !list_fmap_compose. f_equal. apply list_fmap_ext. intros _ a _.
  apply HostInfo_merge_sim.
Qed.

Lemma HostCallResult_merge_sim n m from :
  reflect HostCallResult_offsets (HostCallResult_MergeFrom m from) =
    dyn_merge lbrss (S n) (desc 3) (reflect HostCallResult_offsets m)
      (reflect HostCallResult_offsets from).
Proof.
  unfold HostCallResult_MergeFrom. merged_fields HostCallResult_shown m from; try done;
    repeat match goal with b : bool |- _ => destruct b end; done.
Qed.

Lemma HostCallResults_merge_sim n ls ls' :
  reflect HostCallResult_offsets <$> (ls ++ (HostCallResult_MergeFrom HostCallResult_new <$> ls')) =
    (reflect HostCallResult_offsets <$> ls) ++
    (dyn_merge lbrss (S n) (desc 3) (dyn_new lbrss (desc 3)) <$>
      (reflect HostCallResult_offsets <$> ls')).
Proof.
  rewrite fmap_app, <- !list_fmap_compose. f_equal. apply list_fmap_ext. intros _ a _.
  apply HostCallResult_merge_sim.
Qed.

Lemma GetRouteRequest_merge_sim n m from :
  reflect GetRouteRequest_offsets (GetRouteRequest_MergeFrom m from) =
    dyn_merge lbrss (S n) (desc 1) (reflect GetRouteRequest_offsets m)
      (reflect GetRouteRequest_offsets from).
Proof.
  unfold GetRouteRequest_MergeFrom. merged_fields GetRouteRequest_shown m from; done.
Qed.

Lemma GetRouteResponse_merge_sim n m from :
  reflect GetRouteResponse_offsets (GetRouteResponse_MergeFrom m from) =
    dyn_merge lbrss (S (S n)) (desc 2) (reflect GetRouteResponse_offsets m)
      (reflect GetRouteResponse_offsets from).
Proof.
  unfold GetRouteResponse_MergeFrom. merged_fields GetRouteResponse_shown m from;
    cbn -[dyn_merge reflect dyn_new desc fmap app]; by rewrite (HostInfos_merge_sim n).
Qed.

Lemma ReportStatusRequest_merge_sim n m from :
  reflect ReportStatusRequest_offsets (ReportStatusRequest_MergeFrom m from) =
    dyn_merge lbrss (S (S n)) (desc 4) (reflect ReportStatusRequest_offsets m)
      (reflect ReportStatusRequest_offsets from).
Proof.
  unfold ReportStatusRequest_MergeFrom. merged_fields ReportStatusRequest_shown m from;
    cbn -[dyn_merge reflect dyn_new desc fmap app]; by rewrite (HostCallResults_merge_sim n).
Qed.

Lemma GetHostRequest_merge_sim n m from :
  reflect GetHostRequest_offsets (GetHostRequest_MergeFrom m from) =
    dyn_merge lbrss (S n) (desc 5) (reflect GetHostRequest_offsets m)
      (reflect GetHostRequest_offsets from).
Proof.
  unfold GetHostRequest_MergeFrom. merged_fields GetHostRequest_shown m from; done.
Qed.

Lemma GetHostResponse_merge_sim n m from :
  reflect GetHostResponse_offsets (GetHostResponse_MergeFrom m from) =
    dyn_merge lbrss (S (S n)) (desc 6) (reflect GetHostResponse_offsets m)
      (reflect GetHostResponse_offsets from).
Proof.
  unfold GetHostResponse_MergeFrom. merged_fields GetHostResponse_shown m from;
    repeat match goal with o : option HostInfo |- _ => destruct o end;
    cbn -[dyn_merge reflect dyn_new desc]; by rewrite ?(HostInfo_merge_sim n).
Qed.

Lemma ReportRequest_merge_sim n m from :
  reflect ReportRequest_offsets (ReportRequest_MergeFrom m from) =
    dyn_merge lbrss (S (S n)) (desc 7) (reflect ReportRequest_offsets m)
      (reflect ReportRequest_offsets from).
Proof.
  unfold ReportRequest_MergeFrom. merged_fields ReportRequest_shown m from;
    repeat match goal with o : option HostInfo |- _ => destruct o end;
    cbn -[dyn_merge reflect dyn_new desc]; by rewrite ?(HostInfo_merge_sim n).
Qed.

(** ** The classes follow their descriptions *)

(** The class of the message [name] of [file], seen through its offset table:
    constructing, clearing, parsing any bytes onto any message, writing and
    merging are what the protocol says of the description.  Messages may be
    nested [n + 2] deep. *)
Definition follows (file : FileDescriptorProto) (n : nat) (name : string) {X : Type}
    (table : list (offset X)) (new : X) (Clear : X -> X) (parse : X -> list byte -> X * outcome)
    (size : X -> Z * X) (write : X -> list byte) (merge : X -> X -> X) (ok : X -> Prop) : Prop :=
  exists d, message_named file name = Some d /\
    let r := reflect table in
    r new = dyn_new file d /\
    (forall m, r (Clear m) = dyn_new file d) /\
    (forall m bs, dyn_parse file (S (S n)) d (r m) bs = (r (parse m bs).1, (parse m bs).2)) /\
    (forall m, ok m -> small_len (size m).1 ->
       write (size m).2 = dyn_write file (S (S n)) d (r m)) /\
    (forall m from, r (merge m from) = dyn_merge file (S (S n)) d (r m) (r from)).

(** C21. The generated classes are what the description in the same file says:
    the bytes of [descriptor_table_protodef_lbrss_2eproto] are a
    [FileDescriptorProto], and every class, seen field by field through its
    offset table, is the dynamic message of its description.  On all bytes, its
    parser leaves the same fields and ends the same way as the parser that only
    knows the description; what it writes (fields in range, shorter than 2^31
    bytes) is what the description makes of its fields; merging, clearing and
    constructing agree. *)
Theorem codec_follows_descriptor (n : nat) :
  exists file, read_file descriptor_table_protodef_lbrss_2eproto = Some file /\
  follows file n "HostInfo" HostInfo_offsets HostInfo_new HostInfo_Clear
    HostInfo_InternalParse HostInfo_ByteSizeLong HostInfo_InternalSerialize
    HostInfo_MergeFrom HostInfo_ok /\
  follows file n "GetRouteRequest" GetRouteRequest_offsets GetRouteRequest_new GetRouteRequest_Clear
    GetRouteRequest_InternalParse GetRouteRequest_ByteSizeLong GetRouteRequest_InternalSerialize
    GetRouteRequest_MergeFrom GetRouteRequest_ok /\
  follows file n "GetRouteResponse" GetRouteResponse_offsets GetRouteResponse_new
    GetRouteResponse_Clear
    GetRouteResponse_InternalParse GetRouteResponse_ByteSizeLong GetRouteResponse_InternalSerialize
    GetRouteResponse_MergeFrom GetRouteResponse_ok /\
  follows file n "HostCallResult" HostCallResult_offsets HostCallResult_new HostCallResult_Clear
    HostCallResult_InternalParse HostCallResult_ByteSizeLong HostCallResult_InternalSerialize
    HostCallResult_MergeFrom HostCallResult_ok /\
  follows file n "ReportStatusRequest" ReportStatusRequest_offsets ReportStatusRequest_new
    ReportStatusRequest_Clear
    ReportStatusRequest_InternalParse ReportStatusRequest_ByteSizeLong
      ReportStatusRequest_InternalSerialize
    ReportStatusRequest_MergeFrom ReportStatusRequest_ok /\
  follows file n "GetHostRequest" GetHostRequest_offsets GetHostRequest_new GetHostRequest_Clear
    GetHostRequest_InternalParse GetHostRequest_ByteSizeLong GetHostRequest_InternalSerialize
    GetHostRequest_MergeFrom GetHostRequest_ok /\
  follows file n "GetHostResponse" GetHostResponse_offsets GetHostResponse_new GetHostResponse_Clear
    GetHostResponse_InternalParse GetHostResponse_ByteSizeLong GetHostResponse_InternalSerialize
    GetHostResponse_MergeFrom GetHostResponse_ok /\
  follows file n "ReportRequest" ReportRequest_offsets ReportRequest_new ReportRequest_Clear
    ReportRequest_InternalParse ReportRequest_ByteSizeLong ReportRequest_InternalSerialize
    ReportRequest_MergeFrom ReportRequest_ok.
Proof.
  exists lbrss. split; [exact (proj1 descriptor_of_proto)|].
  split_and!.
  - exists (desc 0). split; [by vm_compute|]. split_and!; [done|done|..].
    + apply (HostInfo_parse_sim (S n)).
    + intros; apply (HostInfo_write_sim (S n)).
    + apply (HostInfo_merge_sim (S n)).
  - exists (desc 1). split; [by vm_compute|]. split_and!; [done|done|..].
    + apply (GetRouteRequest_parse_sim (S n)).
    + intros; apply (GetRouteRequest_write_sim (S n)).
    + apply (GetRouteRequest_merge_sim (S n)).
  - exists (desc 2). split; [by vm_compute|]. split_and!; [done|done|..].
    + apply (GetRouteResponse_parse_sim n).
    + apply (GetRouteResponse_write_sim n).
    + apply (GetRouteResponse_merge_sim n).
  - exists (desc 3). split; [by vm_compute|]. split_and!; [done|done|..].
    + apply (HostCallResult_parse_sim (S n)).
    + intros; apply (HostCallResult_write_sim (S n)).
    + apply (HostCallResult_merge_sim (S n)).
  - exists (desc 4). split; [by vm_compute|]. split_and!; [done|done|..].
    + apply (ReportStatusRequest_parse_sim n).
    + apply (ReportStatusRequest_write_sim n).
    + apply (ReportStatusRequest_merge_sim n).
  - exists (desc 5). split; [by vm_compute|]. split_and!; [done|done|..].
    + apply (GetHostRequest_parse_sim (S n)).
    + intros; apply (GetHostRequest_write_sim (S n)).
    + apply (GetHostRequest_merge_sim (S n)).
  - exists (desc 6). split; [by vm_compute|]. split_and!; [done|done|..].
    + apply (GetHostResponse_parse_sim n).
    + apply (GetHostResponse_write_sim n).
    + apply (GetHostResponse_merge_sim n).
  - exists (desc 7). split; [by vm_compute|]. split_and!; [done|done|..].
    + apply (ReportRequest_parse_sim n).
    + apply (ReportRequest_write_sim n).
    + apply (ReportRequest_merge_sim n).
Qed.
End Described.

(** ** Witness: a host with a negative address *)

Import Varint.

Lemma codec_follows_descriptor_witness :
  exists d,
    dyn_parse lbrss_described 2 d (dyn_new lbrss_described d)
      (HostInfo_InternalSerialize (HostInfo_ByteSizeLong (mkHostInfo (-1) 80 [] 0)).2) =
    (Dyn [DInt (-1); DInt 80] [], AtLimit).
Proof.
  destruct (codec_follows_descriptor 0) as (file & Hf & (d & Hd & Hn & _ & Hp & _) & _).
  pose proof (f_equal (default lbrss_described)
    (eq_trans (eq_sym Hf) (proj1 descriptor_of_proto))) as E.
  cbn [default from_option id] in E. clear Hf. subst file.
  exists d. rewrite <- Hn. rewrite Hp. reflexivity.
Defined.
