(* ===== verification/HostInfo.v ===== *)
(** * HostInfo: the counters of one proxied host and the agent's thresholds
    (lb_agent/include/host_info.h, lb_agent/src/host_info.cpp, the record
    LBConfig of lb_agent/include/main_server.h)

    The counters are [uint32_t] and wrap.  The rates are [double]s: binary64
    arithmetic of [SpecFloat]; a [float] threshold is the [double] it is
    promoted to.  The constructor does not initialise [idle_ts] and
    [overload_ts]: their contents are arguments, the [junk] of the memory. *)

From S2P Require Import Prelude CInt.
From Stdlib Require Import Floats.SpecFloat.
Local Open Scope Z_scope.

(** ** double *)

Abbreviation double := spec_float.

Definition d_of_Z (n : Z) : double := binary_normalize 53 1024 n 0 false.
(** The [double] m * 2^e. *)
Definition d_lit (m e : Z) : double := binary_normalize 53 1024 m e false.
Definition d_mul : double -> double -> double := SFmul 53 1024.
Definition d_div : double -> double -> double := SFdiv 53 1024.
Definition d_lt (a b : double) : bool := SFltb a b.
Definition d_le (a b : double) : bool := SFleb a b.

(** [x * 1.0 / (x + y)] for [uint32_t] x and y: the sum wraps. *)
Definition rate (x y : Z) : double := d_div (d_mul (d_of_Z x) (d_of_Z 1)) (d_of_Z (u32 (x + y))).

(** ** LBConfig *)

Record LBConfig : Type := mkLBConfig {
  probe_num : Z;
  init_succ_cnt : Z;
  init_err_cnt : Z;
  err_rate : double;
  succ_rate : double;
  con_err_limit : Z;
  con_succ_limit : Z;
  local_ip : Z;
  window_err_rate : double;
  idle_timeout : Z;
  overload_timeout : Z;
  update_timeout : Z
}.

(** ** HostInfo *)

Record HostInfo : Type := mkHost {
  ip : Z;
  port : Z;
  vsucc : Z;
  verr : Z;
  rsucc : Z;
  rerr : Z;
  con_succ : Z;
  con_err : Z;
  overload : bool;
  idle_ts : Z;
  overload_ts : Z
}.

(** [HostInfo(ip, port, init_vsucc)]; [junk] is what the memory holds. *)
Definition HostInfo_new (ip port init_vsucc : Z) (junk : Z * Z) : HostInfo :=
  mkHost ip port init_vsucc 0 0 0 0 0 false junk.1 junk.2.

Definition set_idle (cfg : LBConfig) (now : Z) (h : HostInfo) : HostInfo :=
  mkHost (ip h) (port h) (u32 (init_succ_cnt cfg)) 0 0 0 0 0 false now (overload_ts h).

Definition set_overload (cfg : LBConfig) (now : Z) (h : HostInfo) : HostInfo :=
  mkHost (ip h) (port h) 0 (u32 (init_err_cnt cfg)) 0 0 0 0 true (idle_ts h) now.

Definition check_window (cfg : LBConfig) (h : HostInfo) : bool :=
  if u32 (rsucc h + rerr h) =? 0 then false
  else if d_le (window_err_rate cfg) (rate (rerr h) (rsucc h)) then true
  else false.

(** The key of a host in [host_map_]. *)
Definition host_key (h : HostInfo) : Z := pack64 (ip h) (port h).

Lemma host_key_set_idle cfg now h : host_key (set_idle cfg now h) = host_key h.
Proof. done. Qed.

Lemma host_key_set_overload cfg now h : host_key (set_overload cfg now h) = host_key h.
Proof. done. Qed.

Lemma check_window_no_calls cfg h :
  rsucc h = 0 -> rerr h = 0 -> check_window cfg h = false.
Proof. unfold check_window. by intros -> ->. Qed.
