(* ===== verification/LoadBalance.v ===== *)
(** * LoadBalance: the hosts of one modid/cmdid and the choice among them
    (lb_agent/include/load_balance.h, lb_agent/src/load_balance.cpp)

    [host_map_] and the two lists hold pointers: locations of [hosts], the live
    [HostInfo] objects ([new] takes the next location, [delete] removes the
    object and no location is used twice, so every use of a deleted pointer is
    seen).  A [hash_map] is a [gmap]; the order of a loop over it is that of
    [HashOrder].  The results of [time(NULL)] are arguments. *)

From S2P Require Import Prelude CInt HashOrder.
From S2P Require Import ThreadQueue.
From S2P Require Import Proto HostInfo.
From stdpp Require Import sorting.
Local Open Scope Z_scope.

Abbreviation loc := positive.

Inductive STATUS : Type := PULLING | NEW.
#[global] Instance STATUS_eq_dec : EqDecision STATUS.
Proof. solve_decision. Defined.

Record LoadBalance : Type := mkLB {
  status_ : STATUS;
  last_update_time_ : Z;
  modid_ : Z;
  cmdid_ : Z;
  access_cnt_ : Z;
  host_map_ : gmap Z loc;
  idle_list_ : list loc;
  overload_list_ : list loc;
  hosts : gmap loc HostInfo;
  next_host : loc
}.

(** The constructor does not initialise [access_cnt_]; [junk] is what it holds. *)
Definition LoadBalance_new (modid cmdid junk : Z) : LoadBalance :=
  mkLB PULLING 0 modid cmdid junk ∅ [] [] ∅ 1%positive.

(** ** Assignments *)

Definition set_status (s : STATUS) (lb : LoadBalance) : LoadBalance :=
  mkLB s (last_update_time_ lb) (modid_ lb) (cmdid_ lb) (access_cnt_ lb) (host_map_ lb)
    (idle_list_ lb) (overload_list_ lb) (hosts lb) (next_host lb).

Definition set_access (n : Z) (lb : LoadBalance) : LoadBalance :=
  mkLB (status_ lb) (last_update_time_ lb) (modid_ lb) (cmdid_ lb) n (host_map_ lb)
    (idle_list_ lb) (overload_list_ lb) (hosts lb) (next_host lb).

Definition set_lists (il ol : list loc) (lb : LoadBalance) : LoadBalance :=
  mkLB (status_ lb) (last_update_time_ lb) (modid_ lb) (cmdid_ lb) (access_cnt_ lb)
    (host_map_ lb) il ol (hosts lb) (next_host lb).

Definition set_hosts (hs : gmap loc HostInfo) (lb : LoadBalance) : LoadBalance :=
  mkLB (status_ lb) (last_update_time_ lb) (modid_ lb) (cmdid_ lb) (access_cnt_ lb)
    (host_map_ lb) (idle_list_ lb) (overload_list_ lb) hs (next_host lb).

(** [*hi] *)
Definition host_at (l : loc) (lb : LoadBalance) : res HostInfo :=
  match hosts lb !! l with Some h => Ret h | None => Fault UseAfterFree end.

(** [*hi = h] *)
Definition put (l : loc) (h : HostInfo) (lb : LoadBalance) : LoadBalance :=
  set_hosts (<[l := h]> (hosts lb)) lb.

(** [std::list::remove] *)
Definition list_remove (l : loc) (ls : list loc) : list loc := filter (fun x => x <> l) ls.

(** ** Operations *)

Definition empty (lb : LoadBalance) : bool := bool_decide (host_map_ lb = ∅).

Definition get_host_from_list (rsp : lbrss.GetHostResponse) (ls : list loc)
    (lb : LoadBalance) : res (lbrss.GetHostResponse * list loc) :=
  match ls with
  | [] => Fault EmptyFront
  | l :: ls' =>
      host ← host_at l lb;
      Ret (set_host (i32 (ip host)) (port host) rsp, ls' ++ [l])
  end.

Definition pick_one_host (cfg : LBConfig) (rsp : lbrss.GetHostResponse) (lb : LoadBalance)
    : res (Z * lbrss.GetHostResponse * LoadBalance) :=
  match idle_list_ lb with
  | [] =>
      if probe_num cfg <=? access_cnt_ lb then
        let lb := set_access 0 lb in
        '(rsp, ol) ← get_host_from_list rsp (overload_list_ lb) lb;
        Ret (RET_SUCC, rsp, set_lists (idle_list_ lb) ol lb)
      else
        n ← int_add (access_cnt_ lb) 1;
        Ret (RET_OVERLOAD, rsp, set_access n lb)
  | _ :: _ =>
      if negb (bool_decide (overload_list_ lb = [])) && (probe_num cfg <=? access_cnt_ lb) then
        let lb := set_access 0 lb in
        '(rsp, ol) ← get_host_from_list rsp (overload_list_ lb) lb;
        Ret (RET_SUCC, rsp, set_lists (idle_list_ lb) ol lb)
      else
        n ← int_add (access_cnt_ lb) 1;
        let lb := set_access n lb in
        '(rsp, il) ← get_host_from_list rsp (idle_list_ lb) lb;
        Ret (RET_SUCC, rsp, set_lists il (overload_list_ lb) lb)
  end.

Section Queues.
Context {F LOOP : Type} `{EventFd F}.

(** [pull()]: [dns_queue] is a global pointer, [None] for [NULL]. *)
Definition pull (dns_queue : option (ThreadQueue lbrss.GetRouteRequest F LOOP))
    (lb : LoadBalance)
    : res (option (ThreadQueue lbrss.GetRouteRequest F LOOP) * LoadBalance) :=
  match dns_queue with
  | None => Fault NullDeref
  | Some q =>
      Ret (Some (send (lbrss.mkGetRouteRequest (modid_ lb) (cmdid_ lb)) q),
           set_status PULLING lb)
  end.

Definition call_results (over : bool) (lb : LoadBalance) (ls : list loc)
    : res (list lbrss.HostCallResult) :=
  foldr (fun l rest =>
    hi ← host_at l lb; rs ← rest;
    Ret (lbrss.mkHostCallResult (i32 (ip hi)) (port hi) (rsucc hi) (rerr hi) over :: rs))
    (Ret []) ls.

Definition commit (cfg : LBConfig) (now : Z)
    (report_queue : option (ThreadQueue lbrss.ReportStatusRequest F LOOP)) (lb : LoadBalance)
    : res (option (ThreadQueue lbrss.ReportStatusRequest F LOOP)) :=
  if empty lb then Ret report_queue
  else
    rs1 ← call_results false lb (idle_list_ lb);
    rs2 ← call_results true lb (overload_list_ lb);
    match report_queue with
    | None => Fault NullDeref
    | Some q =>
        Ret (Some (send (lbrss.mkReportStatusRequest (modid_ lb) (cmdid_ lb)
                           (i32 (local_ip cfg)) (rs1 ++ rs2) (u32 now)) q))
    end.
End Queues.

(** ** update *)

(** One round of the first loop. *)
Definition insert_host (cfg : LBConfig) (junk : loc -> Z * Z) (h : lbrss.HostInfo)
    (st : LoadBalance * gset Z) : LoadBalance * gset Z :=
  let '(lb, remote_hosts) := st in
  let key := pack64 (lbrss.hi_ip h) (lbrss.hi_port h) in
  let remote_hosts := {[key]} ∪ remote_hosts in
  match host_map_ lb !! key with
  | Some _ => (lb, remote_hosts)
  | None =>
      let l := next_host lb in
      let hi := HostInfo_new (u32 (lbrss.hi_ip h)) (lbrss.hi_port h)
                  (u32 (init_succ_cnt cfg)) (junk l) in
      (mkLB (status_ lb) (last_update_time_ lb) (modid_ lb) (cmdid_ lb) (access_cnt_ lb)
         (<[key := l]> (host_map_ lb)) (idle_list_ lb ++ [l]) (overload_list_ lb)
         (<[l := hi]> (hosts lb)) (Pos.succ l),
       remote_hosts)
  end.

Definition insert_hosts (cfg : LBConfig) (junk : loc -> Z * Z) (hs : list lbrss.HostInfo)
    (st : LoadBalance * gset Z) : LoadBalance * gset Z :=
  foldl (fun st h => insert_host cfg junk h st) st hs.

(** [need_delete], a [std::set]: ascending, whatever the order of the loop that
    fills it. *)
Definition need_delete (remote_hosts : gset Z) (lb : LoadBalance) : list Z :=
  merge_sort Z.le (filter (fun key => key ∉ remote_hosts) ((map_to_list (host_map_ lb)).*1)).

(** One round of the third loop. *)
Definition delete_host (key : Z) (lb : LoadBalance) : res LoadBalance :=
  match host_map_ lb !! key with
  | None => Fault NullDeref
  | Some hi =>
      h ← host_at hi lb;
      let lb :=
        if overload h
        then set_lists (idle_list_ lb) (list_remove hi (overload_list_ lb)) lb
        else set_lists (list_remove hi (idle_list_ lb)) (overload_list_ lb) lb in
      Ret (set_hosts (delete hi (hosts lb)) lb)
  end.

Fixpoint delete_hosts (keys : list Z) (lb : LoadBalance) : res LoadBalance :=
  match keys with
  | [] => Ret lb
  | key :: keys' => lb ← delete_host key lb; delete_hosts keys' lb
  end.

Definition update (cfg : LBConfig) (now : Z) (junk : loc -> Z * Z)
    (rsp : lbrss.GetRouteResponse) (lb : LoadBalance) : res LoadBalance :=
  c_assert (negb (bool_decide (lbrss.grs_host rsp = [])));;
  let '(lb, remote_hosts) := insert_hosts cfg junk (lbrss.grs_host rsp) (lb, ∅) in
  lb ← delete_hosts (need_delete remote_hosts lb) lb;
  Ret (mkLB NEW now (modid_ lb) (cmdid_ lb) (access_cnt_ lb) (host_map_ lb)
         (idle_list_ lb) (overload_list_ lb) (hosts lb) (next_host lb)).

(** ** report *)

(** The counting of a call's result. *)
Definition count_call (retcode : Z) (h : HostInfo) : HostInfo :=
  if retcode =? RET_SUCC then
    mkHost (ip h) (port h) (u32 (vsucc h + 1)) (verr h) (u32 (rsucc h + 1)) (rerr h)
      (u32 (con_succ h + 1)) 0 (overload h) (idle_ts h) (overload_ts h)
  else
    mkHost (ip h) (port h) (vsucc h) (u32 (verr h + 1)) (rsucc h) (u32 (rerr h + 1))
      0 (u32 (con_err h + 1)) (overload h) (idle_ts h) (overload_ts h).

(** The condition for an idle host to become overloaded. *)
Definition becomes_overload (cfg : LBConfig) (h : HostInfo) : bool :=
  d_lt (err_rate cfg) (rate (verr h) (vsucc h)) || (u32 (con_err_limit cfg) <=? con_err h).

(** The condition for an overloaded host to become idle. *)
Definition becomes_idle (cfg : LBConfig) (h : HostInfo) : bool :=
  d_lt (succ_rate cfg) (rate (vsucc h) (verr h)) || (u32 (con_succ_limit cfg) <=? con_succ h).

(** [hi->set_overload()] and the move to the other list *)
Definition to_overload (cfg : LBConfig) (now : Z) (hi : loc) (h : HostInfo)
    (lb : LoadBalance) : LoadBalance :=
  put hi (set_overload cfg now h)
    (set_lists (list_remove hi (idle_list_ lb)) (overload_list_ lb ++ [hi]) lb).

Definition to_idle (cfg : LBConfig) (now : Z) (hi : loc) (h : HostInfo)
    (lb : LoadBalance) : LoadBalance :=
  put hi (set_idle cfg now h)
    (set_lists (idle_list_ lb ++ [hi]) (list_remove hi (overload_list_ lb)) lb).

(** The window and timeout part. *)
Definition window_check (cfg : LBConfig) (current_time now : Z) (hi : loc) (h : HostInfo)
    (lb : LoadBalance) : LoadBalance :=
  if overload h then
    if overload_timeout cfg <=? current_time - overload_ts h
    then to_idle cfg now hi h lb else lb
  else
    if idle_timeout cfg <=? current_time - idle_ts h then
      if check_window cfg h then to_overload cfg now hi h lb
      else put hi (set_idle cfg now h) lb
    else lb.

(** [report(ip, port, retcode)]; [current_time] is the clock at its start,
    [now] the one in [set_idle] or [set_overload]. *)
Definition report (cfg : LBConfig) (current_time now ip port retcode : Z)
    (lb : LoadBalance) : res LoadBalance :=
  let key := pack64 ip port in
  match host_map_ lb !! key with
  | None => Ret lb
  | Some hi =>
      h ← host_at hi lb;
      let h := count_call retcode h in
      let lb := put hi h lb in
      if negb (overload h) && negb (retcode =? RET_SUCC) then
        if becomes_overload cfg h then Ret (to_overload cfg now hi h lb)
        else Ret (window_check cfg current_time now hi h lb)
      else if overload h && (retcode =? RET_SUCC) then
        if becomes_idle cfg h then Ret (to_idle cfg now hi h lb)
        else Ret (window_check cfg current_time now hi h lb)
      else Ret (window_check cfg current_time now hi h lb)
  end.

(** ** get_all_hosts *)

Definition get_all_hosts `{HO : HashOrder} (vec : list loc) (lb : LoadBalance) : list loc :=
  vec ++ (map_order (pack64 (modid_ lb) (cmdid_ lb)) (host_map_ lb)).*2.
