(* ===== verification/LoadBalanceInv.v ===== *)
(** * LoadBalanceInv: the invariant of a LoadBalance and its lemmas

    Every entry of [host_map_] points to a live host with that key, and the two
    lists partition these hosts by their [overload] flag. *)

From S2P Require Import Prelude CInt.
From S2P Require Import Proto HostInfo LoadBalance.
Local Open Scope Z_scope.

Record lb_ok (lb : LoadBalance) : Prop := {
  ok_map k l : host_map_ lb !! k = Some l ->
    exists h, hosts lb !! l = Some h /\ host_key h = k;
  ok_nodup : NoDup (idle_list_ lb ++ overload_list_ lb);
  ok_idle l : l ∈ idle_list_ lb <->
    exists k h, host_map_ lb !! k = Some l /\ hosts lb !! l = Some h /\ overload h = false;
  ok_over l : l ∈ overload_list_ lb <->
    exists k h, host_map_ lb !! k = Some l /\ hosts lb !! l = Some h /\ overload h = true;
  ok_next l h : hosts lb !! l = Some h -> (l < next_host lb)%positive
}.

(** The hosts by key: what the lists and pointers stand for. *)
Definition view (lb : LoadBalance) : gmap Z HostInfo :=
  omap (fun l => hosts lb !! l) (host_map_ lb).

(** A state that differs from [lb] only in fields that the invariant ignores. *)
Lemma lb_ok_ext lb lb' :
  host_map_ lb' = host_map_ lb -> hosts lb' = hosts lb ->
  idle_list_ lb' = idle_list_ lb -> overload_list_ lb' = overload_list_ lb ->
  next_host lb' = next_host lb -> lb_ok lb -> lb_ok lb'.
Proof.
  intros E1 E2 E3 E4 E5 [? ? ? ? ?].
  constructor; rewrite ?E1, ?E2, ?E3, ?E4, ?E5; done.
Qed.

Lemma LoadBalance_new_ok m c junk : lb_ok (LoadBalance_new m c junk).
Proof.
  constructor; cbn; try set_solver. constructor.
Qed.

Section Inv.
Context (lb : LoadBalance) (Hok : lb_ok lb).

Lemma lb_key_inj k k' l :
  host_map_ lb !! k = Some l -> host_map_ lb !! k' = Some l -> k = k'.
Proof.
  intros H1 H2. destruct (ok_map _ Hok _ _ H1) as (h & Hh & <-).
  destruct (ok_map _ Hok _ _ H2) as (h' & Hh' & <-). congruence.
Qed.

Lemma lb_view_lookup k l h :
  host_map_ lb !! k = Some l -> hosts lb !! l = Some h -> view lb !! k = Some h.
Proof. intros H1 H2. unfold view. by rewrite lookup_omap, H1. Qed.

Lemma lb_view_inv k h :
  view lb !! k = Some h -> exists l, host_map_ lb !! k = Some l /\ hosts lb !! l = Some h.
Proof.
  unfold view. rewrite lookup_omap. destruct (host_map_ lb !! k); [eauto|done].
Qed.

Lemma lb_view_none k : host_map_ lb !! k = None <-> view lb !! k = None.
Proof.
  unfold view. rewrite lookup_omap. destruct (host_map_ lb !! k) as [l|] eqn:E; [|done].
  destruct (ok_map _ Hok _ _ E) as (h & Hh & _). cbn. by rewrite Hh.
Qed.

Lemma lb_idle_host l : l ∈ idle_list_ lb ->
  exists h, hosts lb !! l = Some h /\ overload h = false /\ host_map_ lb !! host_key h = Some l.
Proof.
  intros (k & h & Hk & Hh & Ho)%(ok_idle _ Hok). exists h.
  destruct (ok_map _ Hok _ _ Hk) as (h' & Hh' & <-). by simplify_eq.
Qed.

Lemma lb_over_host l : l ∈ overload_list_ lb ->
  exists h, hosts lb !! l = Some h /\ overload h = true /\ host_map_ lb !! host_key h = Some l.
Proof.
  intros (k & h & Hk & Hh & Ho)%(ok_over _ Hok). exists h.
  destruct (ok_map _ Hok _ _ Hk) as (h' & Hh' & <-). by simplify_eq.
Qed.

(** A host is in the list of its flag. *)
Lemma lb_listed k l h : host_map_ lb !! k = Some l -> hosts lb !! l = Some h ->
  if overload h then l ∈ overload_list_ lb /\ l ∉ idle_list_ lb
  else l ∈ idle_list_ lb /\ l ∉ overload_list_ lb.
Proof.
  intros Hk Hh. pose proof (ok_nodup _ Hok) as [_ [Hd _]]%NoDup_app.
  destruct (overload h) eqn:E.
  - assert (l ∈ overload_list_ lb) by (apply (ok_over _ Hok); eauto). split; [done|].
    intros ?. by eapply Hd.
  - assert (l ∈ idle_list_ lb) by (apply (ok_idle _ Hok); eauto). split; [done|].
    intros ?. by eapply Hd.
Qed.

Lemma lb_all_empty : idle_list_ lb = [] -> overload_list_ lb = [] -> host_map_ lb = ∅.
Proof.
  intros Hi Ho. apply map_empty. intros k. destruct (host_map_ lb !! k) as [l|] eqn:E; [|done].
  destruct (ok_map _ Hok _ _ E) as (h & Hh & _).
  pose proof (lb_listed _ _ _ E Hh) as Hl. rewrite Hi, Ho in Hl.
  destruct (overload h); set_solver.
Qed.

(** Replacing the host of a key, with the lists rearranged accordingly. *)
Lemma lb_ok_relist k l h il ol :
  host_map_ lb !! k = Some l -> host_key h = k -> NoDup (il ++ ol) ->
  (forall x, x ∈ il <-> (x <> l /\ x ∈ idle_list_ lb) \/ (x = l /\ overload h = false)) ->
  (forall x, x ∈ ol <-> (x <> l /\ x ∈ overload_list_ lb) \/ (x = l /\ overload h = true)) ->
  lb_ok (put l h (set_lists il ol lb)).
Proof.
  intros Hk Hh Hnd Hil Hol.
  assert (Hcase : forall b x,
    (x <> l /\ (exists k h', host_map_ lb !! k = Some x /\ hosts lb !! x = Some h' /\ overload
      h' = b)
     \/ x = l /\ overload h = b) <->
    exists k h', host_map_ lb !! k = Some x /\ <[l:=h]> (hosts lb) !! x = Some h' /\ overload
      h' = b).
  { intros b x. split.
    - intros [(Hx & k' & h' & ? & ? & ?)|[-> Hb]].
      + exists k', h'. by rewrite lookup_insert_ne by done.
      + exists k, h. by rewrite lookup_insert_eq.
    - intros (k' & h' & ? & Hlk & ?). destruct (decide (x = l)) as [->|Hx].
      + rewrite lookup_insert_eq in Hlk. simplify_eq. by right.
      + rewrite lookup_insert_ne in Hlk by done. left. eauto 10. }
  constructor; cbn.
  - intros k' l' Hk'. destruct (decide (l' = l)) as [->|Hl].
    + exists h. rewrite lookup_insert_eq. split; [done|].
      rewrite Hh. by eapply lb_key_inj.
    + rewrite lookup_insert_ne by done. by apply (ok_map _ Hok).
  - done.
  - intros x. rewrite Hil, (ok_idle _ Hok). apply Hcase.
  - intros x. rewrite Hol, (ok_over _ Hok). apply Hcase.
  - intros x h' Hx. destruct (decide (x = l)) as [->|Hl].
    + destruct (ok_map _ Hok _ _ Hk) as (h0 & Hh0 & _). by apply (ok_next _ Hok) in Hh0.
    + rewrite lookup_insert_ne in Hx by done. by apply (ok_next _ Hok) in Hx.
Qed.

Lemma lb_view_put k l h il ol :
  host_map_ lb !! k = Some l -> view (put l h (set_lists il ol lb)) = <[k := h]> (view lb).
Proof.
  intros Hk. apply map_eq. intros k'. unfold view. cbn.
  destruct (decide (k' = k)) as [->|Hne].
  - rewrite lookup_insert_eq, lookup_omap, Hk. cbn. by rewrite lookup_insert_eq.
  - rewrite lookup_insert_ne by done. rewrite !lookup_omap.
    destruct (host_map_ lb !! k') as [l'|] eqn:E; [|done]. cbn.
    apply lookup_insert_ne. intros <-. apply Hne. by eapply lb_key_inj.
Qed.

(** A new pair of lists with the same elements. *)
Lemma lb_ok_perm il ol n :
  il ≡ₚ idle_list_ lb -> ol ≡ₚ overload_list_ lb ->
  lb_ok (set_lists il ol (set_access n lb)).
Proof.
  intros Hi Ho. pose proof (ok_idle _ Hok) as H1. pose proof (ok_over _ Hok) as H2.
  constructor; cbn; [apply Hok| | | |apply Hok].
  - rewrite Hi, Ho. apply Hok.
  - intros l. by rewrite <- H1, Hi.
  - intros l. by rewrite <- H2, Ho.
Qed.
End Inv.

(** ** list_remove *)

Lemma elem_of_list_remove x l ls : x ∈ list_remove l ls <-> x <> l /\ x ∈ ls.
Proof. unfold list_remove. by rewrite list_elem_of_filter. Qed.

Lemma list_remove_not_in l ls : l ∉ ls -> list_remove l ls = ls.
Proof.
  induction ls as [|x ls IH]; intros Hl; [done|]. unfold list_remove in *.
  rewrite filter_cons, decide_True by set_solver. f_equal. apply IH. set_solver.
Qed.

Lemma NoDup_move l (xs ys : list loc) :
  NoDup (xs ++ ys) -> l ∈ xs -> NoDup (list_remove l xs ++ ys ++ [l]).
Proof.
  intros [Hx [Hd Hy]]%NoDup_app Hl. apply NoDup_app. split_and!.
  - by apply NoDup_filter.
  - intros x [Hn Hin]%elem_of_list_remove. specialize (Hd x Hin). set_solver.
  - apply NoDup_app. split_and!; [done| |apply NoDup_singleton].
    intros x Hxy ->%list_elem_of_singleton. by apply (Hd l).
Qed.

(** ** The two moves of a host *)

Lemma to_overload_ok cfg now k l h lb :
  lb_ok lb -> host_map_ lb !! k = Some l -> hosts lb !! l = Some h -> overload h = false ->
  lb_ok (to_overload cfg now l h lb) /\
  view (to_overload cfg now l h lb) = <[k := set_overload cfg now h]> (view lb).
Proof.
  intros Hok Hk Hh Hov. unfold to_overload. split; [|by apply lb_view_put].
  destruct (ok_map _ Hok _ _ Hk) as (h0 & Hh0 & Hkey).
  pose proof (lb_listed _ Hok _ _ _ Hk Hh) as Hl. rewrite Hov in Hl. destruct Hl as [Hi Ho].
  apply (lb_ok_relist _ Hok k); [done|rewrite host_key_set_overload; congruence| | |].
  - apply NoDup_move; [apply Hok|done].
  - intros x. rewrite elem_of_list_remove. cbn. naive_solver.
  - intros x. rewrite elem_of_app, list_elem_of_singleton. cbn.
    split; [|naive_solver]. intros [Hx| ->]; [left|by right]. split; [|done]. by intros ->.
Qed.

Lemma to_idle_ok cfg now k l h lb :
  lb_ok lb -> host_map_ lb !! k = Some l -> hosts lb !! l = Some h -> overload h = true ->
  lb_ok (to_idle cfg now l h lb) /\
  view (to_idle cfg now l h lb) = <[k := set_idle cfg now h]> (view lb).
Proof.
  intros Hok Hk Hh Hov. unfold to_idle. split; [|by apply lb_view_put].
  destruct (ok_map _ Hok _ _ Hk) as (h0 & Hh0 & Hkey).
  pose proof (lb_listed _ Hok _ _ _ Hk Hh) as Hl. rewrite Hov in Hl. destruct Hl as [Ho Hi].
  apply (lb_ok_relist _ Hok k); [done|rewrite host_key_set_idle; congruence| | |].
  - rewrite Permutation_app_comm. apply NoDup_move; [|done].
    rewrite Permutation_app_comm. apply Hok.
  - intros x. rewrite elem_of_app, list_elem_of_singleton. cbn.
    split; [|naive_solver]. intros [Hx| ->]; [left|by right]. split; [|done]. by intros ->.
  - intros x. rewrite elem_of_list_remove. cbn. naive_solver.
Qed.

(** A host changed in place. *)
Lemma put_ok k l h h' lb :
  lb_ok lb -> host_map_ lb !! k = Some l -> hosts lb !! l = Some h ->
  overload h' = overload h -> host_key h' = host_key h ->
  lb_ok (put l h' lb) /\ view (put l h' lb) = <[k := h']> (view lb).
Proof.
  intros Hok Hk Hh Hov Hkey.
  replace (put l h' lb) with (put l h' (set_lists (idle_list_ lb) (overload_list_ lb) lb))
    by done.
  split; [|by apply lb_view_put].
  destruct (ok_map _ Hok _ _ Hk) as (h0 & Hh0 & Hk0).
  pose proof (lb_listed _ Hok _ _ _ Hk Hh) as Hl. rewrite <- Hov in Hl.
  apply (lb_ok_relist _ Hok k); [done|congruence|apply Hok| |];
    intros x; destruct (decide (x = l)) as [->|]; destruct (overload h'); naive_solver.
Qed.
