(* ===== verification/LoadBalanceUpdate.v ===== *)
(** * LoadBalanceUpdate: what update makes of the answer of the dns service

    The hosts of the answer are merged in; the hosts that are missing in it are
    taken off the lists and deleted.  Their keys stay in [host_map_] with
    pointers to the deleted objects: [removed_host_faults] shows what the later
    calls do with them. *)

From S2P Require Import Prelude CInt.
From S2P Require Import Proto HostInfo LoadBalance LoadBalanceInv.
From stdpp Require Import sorting.
From Stdlib Require Import Floats.SpecFloat.
Local Open Scope Z_scope.

Definition msg_key (h : lbrss.HostInfo) : Z := pack64 (lbrss.hi_ip h) (lbrss.hi_port h).
Definition rsp_keys (rsp : lbrss.GetRouteResponse) : gset Z :=
  list_to_set (msg_key <$> lbrss.grs_host rsp).

(** ** The first loop *)

(** [lb'] extends [lb] by new idle hosts. *)
Record extends (lb lb' : LoadBalance) : Prop := {
  ex_map : host_map_ lb ⊆ host_map_ lb';
  ex_hosts l h : hosts lb !! l = Some h -> hosts lb' !! l = Some h;
  ex_dead l : (l < next_host lb)%positive -> hosts lb !! l = None -> hosts lb' !! l = None;
  ex_next : (next_host lb <= next_host lb')%positive;
  ex_idle : exists new, idle_list_ lb' = idle_list_ lb ++ new;
  ex_over : overload_list_ lb' = overload_list_ lb
}.

Lemma extends_refl lb : extends lb lb.
Proof. constructor; try done. exists []. by rewrite app_nil_r. Qed.

Lemma extends_trans lb1 lb2 lb3 : extends lb1 lb2 -> extends lb2 lb3 -> extends lb1 lb3.
Proof.
  intros [A1 B1 C1 D1 [n1 E1] F1] [A2 B2 C2 D2 [n2 E2] F2]. constructor; try (by etrans).
  - eauto.
  - intros l Hl Hn. apply C2; [lia|eauto].
  - exists (n1 ++ n2). by rewrite E2, E1, app_assoc.
Qed.

Section Insert.
Context (cfg : LBConfig) (junk : loc -> Z * Z).

(** A host that the first loop creates. *)
Definition fresh (lb : LoadBalance) (k : Z) (h : HostInfo) : Prop :=
  exists m l, msg_key m = k /\
    h = HostInfo_new (u32 (lbrss.hi_ip m)) (lbrss.hi_port m) (u32 (init_succ_cnt cfg)) (junk l).

Lemma insert_host_extends m lb seen :
  (forall l h, hosts lb !! l = Some h -> (l < next_host lb)%positive) ->
  let lb' := (insert_host cfg junk m (lb, seen)).1 in
  extends lb lb' /\ (forall l h, hosts lb' !! l = Some h -> (l < next_host lb')%positive).
Proof.
  intros Hnext lb'. subst lb'. unfold insert_host.
  destruct (host_map_ lb !! _) as [l|] eqn:E; cbn; [split; [apply extends_refl|done]|].
  split; [constructor; cbn|].
  - by apply insert_subseteq.
  - intros l h Hl. pose proof (Hnext _ _ Hl). rewrite lookup_insert_ne by lia. done.
  - intros l Hl Hn. by rewrite lookup_insert_ne by lia.
  - lia.
  - eauto.
  - done.
  - intros l h. destruct (decide (l = next_host lb)) as [->|Hne]; [lia|].
    rewrite lookup_insert_ne by done. intros Hl. pose proof (Hnext _ _ Hl). lia.
Qed.

Lemma insert_host_ok m lb seen :
  lb_ok lb ->
  let '(lb', seen') := insert_host cfg junk m (lb, seen) in
  lb_ok lb' /\ seen' = {[msg_key m]} ∪ seen /\
  dom (view lb') = {[msg_key m]} ∪ dom (view lb) /\
  (forall k h, view lb' !! k = Some h -> view lb !! k = Some h \/
     view lb !! k = None /\ fresh lb k h).
Proof.
  intros Hok. unfold insert_host. fold (msg_key m).
  destruct (host_map_ lb !! msg_key m) as [l0|] eqn:E; cbv beta iota zeta.
  { destruct (ok_map _ Hok _ _ E) as (h & Hh & _).
    pose proof (lb_view_lookup _ _ _ _ E Hh) as Hv. split_and!; try done; [|eauto].
    apply elem_of_dom_2 in Hv. set_solver. }
  set (l := next_host lb). set (hi := HostInfo_new _ _ _ _).
  assert (Hl : hosts lb !! l = None).
  { destruct (hosts lb !! l) eqn:Hl; [|done]. apply (ok_next _ Hok) in Hl. subst l. lia. }
  assert (Hfresh : forall k x, host_map_ lb !! k = Some x -> x <> l).
  { intros k x Hk ->. destruct (ok_map _ Hok _ _ Hk) as (? & ? & _). congruence. }
  assert (Hkey : host_key hi = msg_key m).
  { unfold host_key, hi, HostInfo_new, msg_key. cbn. apply pack64_u32_hi. }
  set (lb' := mkLB _ _ _ _ _ _ _ _ _ _).
  assert (Hview : view lb' = <[msg_key m := hi]> (view lb)).
  { apply map_eq. intros k. unfold view, lb'. cbn. rewrite lookup_omap.
    destruct (decide (k = msg_key m)) as [->|Hne].
    - rewrite !lookup_insert_eq. cbn. by rewrite lookup_insert_eq.
    - rewrite !lookup_insert_ne, lookup_omap by done.
      destruct (host_map_ lb !! k) as [x|] eqn:Hk; [|done].
      cbn. rewrite lookup_insert_ne; [done|]. intros <-. by apply (Hfresh k l). }
  assert (Hmem : forall b x,
    (exists k h, <[msg_key m := l]> (host_map_ lb) !! k = Some x /\
       <[l := hi]> (hosts lb) !! x = Some h /\ overload h = b) <->
    (exists k h, host_map_ lb !! k = Some x /\ hosts lb !! x = Some h /\ overload h = b)
    \/ (x = l /\ b = false)).
  { intros b x. split.
    - intros (k & h & Hk & Hh & Hb). destruct (decide (k = msg_key m)) as [->|Hne].
      + rewrite lookup_insert_eq in Hk. injection Hk as <-. rewrite lookup_insert_eq in Hh.
        injection Hh as <-. right. by rewrite <- Hb.
      + rewrite lookup_insert_ne in Hk by done. pose proof (Hfresh _ _ Hk).
        rewrite lookup_insert_ne in Hh by done. left. eauto.
    - intros [(k & h & Hk & Hh & Hb)|[-> ->]].
      + exists k, h. pose proof (Hfresh _ _ Hk). split_and!; [|by rewrite lookup_insert_ne|done].
        rewrite lookup_insert_ne; [done|]. intros <-. congruence.
      + exists (msg_key m), hi. by rewrite !lookup_insert_eq. }
  split_and!; [| done| |].
  - constructor; cbn.
    + intros k x Hk. destruct (decide (k = msg_key m)) as [->|Hne].
      * rewrite lookup_insert_eq in Hk. injection Hk as <-. exists hi.
        by rewrite lookup_insert_eq.
      * rewrite lookup_insert_ne in Hk by done. destruct (ok_map _ Hok _ _ Hk) as (h & Hh & Hhk).
        exists h. rewrite lookup_insert_ne; [done|]. intros <-. by apply (Hfresh k l).
    + pose proof (ok_nodup _ Hok) as Hnd. rewrite <- app_assoc.
      rewrite (Permutation_app_comm [l]), app_assoc. apply NoDup_app.
      split_and!; [done| |apply NoDup_singleton].
      intros x [Hx|Hx]%elem_of_app ->%list_elem_of_singleton.
      * apply (lb_idle_host lb Hok) in Hx as (h & Hh & _). congruence.
      * apply (lb_over_host lb Hok) in Hx as (h & Hh & _). congruence.
    + intros x. rewrite elem_of_app, list_elem_of_singleton, (ok_idle _ Hok), Hmem. naive_solver.
    + intros x. rewrite (ok_over _ Hok), Hmem. naive_solver.
    + intros x h Hx. destruct (decide (x = l)) as [->|Hne]; [lia|].
      rewrite lookup_insert_ne in Hx by done. apply (ok_next _ Hok) in Hx. subst l. lia.
  - by rewrite Hview, dom_insert_L.
  - intros k h. rewrite Hview. destruct (decide (k = msg_key m)) as [->|Hne].
    + rewrite lookup_insert_eq. intros [= <-]. right. split; [by apply (lb_view_none lb Hok)|].
      exists m, l. done.
    + rewrite lookup_insert_ne by done. by left.
Qed.

(** The whole loop, on a state that satisfies the invariant. *)
Lemma insert_hosts_ok ms lb seen :
  lb_ok lb ->
  let '(lb', seen') := insert_hosts cfg junk ms (lb, seen) in
  lb_ok lb' /\ seen' = seen ∪ list_to_set (msg_key <$> ms) /\
  dom (view lb') = dom (view lb) ∪ list_to_set (msg_key <$> ms) /\
  (forall k h, view lb' !! k = Some h -> view lb !! k = Some h \/
     view lb !! k = None /\ fresh lb k h).
Proof.
  revert lb seen. induction ms as [|m ms IH]; intros lb seen Hok.
  { cbn. split_and!; try done; [set_solver|set_solver|eauto]. }
  cbn [insert_hosts foldl fmap list_fmap list_to_set].
  pose proof (insert_host_ok m lb seen Hok) as H1.
  destruct (insert_host cfg junk m (lb, seen)) as [lb1 seen1].
  destruct H1 as (Hok1 & -> & Hd1 & Hv1).
  specialize (IH lb1 ({[msg_key m]} ∪ seen) Hok1). unfold insert_hosts in IH.
  destruct (foldl _ _ ms) as [lb2 seen2]. destruct IH as (Hok2 & -> & Hd2 & Hv2).
  split_and!; [done|set_solver|rewrite Hd2, Hd1; set_solver|].
  intros k h [Hk|[Hn Hf]]%Hv2; [by apply Hv1|]. right. split; [|done].
  apply not_elem_of_dom in Hn. apply not_elem_of_dom. rewrite Hd1 in Hn. set_solver.
Qed.

(** The whole loop, on any state. *)
Lemma insert_hosts_extends ms lb seen :
  (forall l h, hosts lb !! l = Some h -> (l < next_host lb)%positive) ->
  let '(lb', seen') := insert_hosts cfg junk ms (lb, seen) in
  extends lb lb' /\ seen' = seen ∪ list_to_set (msg_key <$> ms).
Proof.
  revert lb seen. induction ms as [|m ms IH]; intros lb seen Hn.
  { cbn. split; [apply extends_refl|set_solver]. }
  cbn [insert_hosts foldl fmap list_fmap list_to_set].
  destruct (insert_host_extends m lb seen Hn) as [H1 Hn1].
  assert (Hs : (insert_host cfg junk m (lb, seen)).2 = {[msg_key m]} ∪ seen).
  { unfold insert_host. by destruct (host_map_ lb !! _). }
  destruct (insert_host cfg junk m (lb, seen)) as [lb1 seen1]. cbn in H1, Hn1, Hs. subst seen1.
  specialize (IH lb1 ({[msg_key m]} ∪ seen) Hn1). unfold insert_hosts in IH.
  destruct (foldl _ _ ms) as [lb2 seen2]. destruct IH as [H2 ->].
  split; [by eapply extends_trans|set_solver].
Qed.
End Insert.

(** ** The deletion *)

(** The locations of some keys. *)
Definition locs_of (lb : LoadBalance) (keys : list Z) : list loc :=
  omap (fun k => host_map_ lb !! k) keys.

Lemma elem_of_locs_of lb keys l :
  l ∈ locs_of lb keys <-> exists k, k ∈ keys /\ host_map_ lb !! k = Some l.
Proof. unfold locs_of. by rewrite list_elem_of_omap. Qed.

Lemma need_delete_spec seen lb :
  NoDup (need_delete seen lb) /\
  forall k, k ∈ need_delete seen lb <-> is_Some (host_map_ lb !! k) /\ k ∉ seen.
Proof.
  unfold need_delete.
  pose proof (merge_sort_Permutation Z.le
    (filter (fun key => key ∉ seen) ((map_to_list (host_map_ lb)).*1))) as Hp.
  split.
  - rewrite Hp. apply NoDup_filter, NoDup_fst_map_to_list.
  - intros k. rewrite Hp, list_elem_of_filter, list_elem_of_fmap. split.
    + intros [Hs ([k' l] & -> & Hk%elem_of_map_to_list)]. cbn in *. eauto.
    + intros [[l Hk] Hs]. split; [done|]. exists (k, l). split; [done|].
      by apply elem_of_map_to_list.
Qed.

Lemma filter_all (P : loc -> Prop) `{!forall x, Decision (P x)} (xs : list loc) :
  (forall x, x ∈ xs -> P x) -> filter P xs = xs.
Proof.
  induction xs as [|x xs IH]; intros HP; [done|].
  rewrite filter_cons, decide_True by (apply HP; by left).
  f_equal. apply IH. intros y ?. apply HP. by right.
Qed.

Lemma filter_not_in_cons l ls (xs : list loc) :
  filter (fun x => x ∉ l :: ls) xs = filter (fun x => x ∉ ls) (list_remove l xs).
Proof.
  unfold list_remove. rewrite list_filter_filter. apply list_filter_iff.
  intros x. set_solver.
Qed.

(** The whole loop, when every key still has its host. *)
Lemma delete_hosts_ok keys lb :
  NoDup keys ->
  (forall k k' l, host_map_ lb !! k = Some l -> host_map_ lb !! k' = Some l -> k = k') ->
  (forall k, k ∈ keys -> exists l h, host_map_ lb !! k = Some l /\ hosts lb !! l = Some h /\
     if overload h then l ∉ idle_list_ lb else l ∉ overload_list_ lb) ->
  exists lb', delete_hosts keys lb = Ret lb' /\
    host_map_ lb' = host_map_ lb /\ next_host lb' = next_host lb /\
    (forall l, hosts lb' !! l = if decide (l ∈ locs_of lb keys) then None else hosts lb !! l) /\
    idle_list_ lb' = filter (fun x => x ∉ locs_of lb keys) (idle_list_ lb) /\
    overload_list_ lb' = filter (fun x => x ∉ locs_of lb keys) (overload_list_ lb).
Proof.
  revert lb. induction keys as [|k keys IH]; intros lb Hnd Hinj Hlive.
  { exists lb. unfold locs_of. cbn [omap list_omap delete_hosts].
    split_and!; try done;
      by rewrite filter_all by (intros; apply not_elem_of_nil). }
  apply NoDup_cons in Hnd as [Hk Hnd].
  destruct (Hlive k) as (l & h & Hl & Hh & Hside); [by left|].
  cbn [delete_hosts]. unfold delete_host. rewrite Hl. unfold host_at. rewrite Hh.
  cbn [mbind res_bind].
  set (lb1 := set_hosts _ _).
  assert (E : host_map_ lb1 = host_map_ lb /\ next_host lb1 = next_host lb /\
    hosts lb1 = delete l (hosts lb) /\ idle_list_ lb1 = list_remove l (idle_list_ lb) /\
    overload_list_ lb1 = list_remove l (overload_list_ lb)).
  { subst lb1. destruct (overload h); cbn.
    - by rewrite (list_remove_not_in l (idle_list_ lb)).
    - by rewrite (list_remove_not_in l (overload_list_ lb)). }
  clearbody lb1. destruct E as (Em & En & Eh & Ei & Eo).
  destruct (IH lb1) as (lb' & E' & Em' & En' & Eh' & Ei' & Eo').
  { done. } { by rewrite Em. }
  { intros k' Hk'. destruct (Hlive k') as (l' & h' & Hl' & Hh' & Hs'); [by right|].
    exists l', h'. rewrite Em, Eh, Ei, Eo, lookup_delete_ne;
      [|intros <-; apply Hk; by rewrite (Hinj _ _ _ Hl Hl')].
    split_and!; [done|done|]. pose proof (elem_of_list_remove l' l) as Hr.
    destruct (overload h'); naive_solver. }
  exists lb'. split; [done|]. unfold locs_of in *. rewrite Em in *.
  cbn [omap list_omap]. rewrite Hl.
  split_and!; [done|congruence| | |].
  - intros x. rewrite Eh', Eh. destruct (decide (x = l)) as [->|Hne].
    + rewrite lookup_delete_eq, (decide_True (P := l ∈ l :: _)) by left. by case_decide.
    + rewrite lookup_delete_ne by done. apply decide_ext. rewrite elem_of_cons. naive_solver.
  - by rewrite filter_not_in_cons, Ei', Ei.
  - by rewrite filter_not_in_cons, Eo', Eo.
Qed.

(** The whole loop, when some key's host is deleted already. *)
Lemma delete_hosts_dangling keys lb k l :
  (forall k', k' ∈ keys -> is_Some (host_map_ lb !! k')) ->
  k ∈ keys -> host_map_ lb !! k = Some l -> hosts lb !! l = None ->
  delete_hosts keys lb = Fault UseAfterFree.
Proof.
  revert lb. induction keys as [|k0 keys IH]; intros lb Hin Hk Hl Hd; [by apply not_elem_of_nil
    in Hk|].
  destruct (Hin k0) as [l0 Hl0]; [by left|].
  cbn [delete_hosts]. unfold delete_host. rewrite Hl0. unfold host_at.
  destruct (hosts lb !! l0) as [h|] eqn:Hh; [|done]. cbn [mbind res_bind].
  set (lb1 := set_hosts _ _).
  assert (E : host_map_ lb1 = host_map_ lb /\ hosts lb1 = delete l0 (hosts lb)).
  { subst lb1. by destruct (overload h). }
  clearbody lb1. destruct E as [Em Eh].
  apply IH; rewrite ?Em, ?Eh.
  - intros k' ?. apply Hin. by right.
  - apply elem_of_cons in Hk as [->|Hk]; [|done]. congruence.
  - done.
  - destruct (decide (l = l0)) as [->|]; [by rewrite lookup_delete_eq|by rewrite
    lookup_delete_ne].
Qed.

(** ** update *)

(** What [update] leaves: the merged state [lb1], and the result of deleting
    from it what the answer does not have. *)
Record updated (cfg : LBConfig) (now : Z) (junk : loc -> Z * Z) (ks : gset Z)
    (lb lb1 lb' : LoadBalance) : Prop := {
  up_ok : lb_ok lb1;
  up_ext : extends lb lb1;
  up_dom : dom (view lb1) = dom (view lb) ∪ ks;
  up_view k h : view lb1 !! k = Some h ->
    view lb !! k = Some h \/ view lb !! k = None /\ fresh cfg junk lb k h;
  up_status : status_ lb' = NEW /\ last_update_time_ lb' = now;
  up_map : host_map_ lb' = host_map_ lb1;
  up_next : next_host lb' = next_host lb1;
  up_hosts l : hosts lb' !! l =
    if decide (l ∈ locs_of lb1 (need_delete ks lb1)) then None else hosts lb1 !! l;
  up_idle : idle_list_ lb' =
    filter (fun x => x ∉ locs_of lb1 (need_delete ks lb1)) (idle_list_ lb1);
  up_over : overload_list_ lb' =
    filter (fun x => x ∉ locs_of lb1 (need_delete ks lb1)) (overload_list_ lb1)
}.

Section Update.
Context (cfg : LBConfig) (now : Z) (junk : loc -> Z * Z).

Lemma update_updated rsp lb :
  lb_ok lb -> lbrss.grs_host rsp <> [] ->
  exists lb1 lb', update cfg now junk rsp lb = Ret lb' /\
    updated cfg now junk (rsp_keys rsp) lb lb1 lb'.
Proof.
  intros Hok Hne. unfold update. rewrite bool_decide_eq_false_2 by done.
  cbn [negb c_assert mbind res_bind].
  pose proof (insert_hosts_ok cfg junk (lbrss.grs_host rsp) lb ∅ Hok) as H1.
  pose proof (insert_hosts_extends cfg junk (lbrss.grs_host rsp) lb ∅ (ok_next _ Hok)) as H2.
  destruct (insert_hosts _ _ _ _) as [lb1 seen]. destruct H1 as (Hok1 & -> & Hd & Hv).
  destruct H2 as [Hext _]. rewrite union_empty_l_L. fold (rsp_keys rsp) in *.
  destruct (need_delete_spec (rsp_keys rsp) lb1) as [Hnd Hin].
  destruct (delete_hosts_ok (need_delete (rsp_keys rsp) lb1) lb1)
    as (lb2 & -> & Em & En & Eh & Ei & Eo); [done|by apply lb_key_inj| |].
  { intros k [[l Hl] _]%Hin. destruct (ok_map _ Hok1 _ _ Hl) as (h & Hh & _).
    exists l, h. split_and!; [done|done|]. pose proof (lb_listed _ Hok1 _ _ _ Hl Hh) as Hli.
    destruct (overload h); apply Hli. }
  exists lb1. eexists. split; [reflexivity|]. by constructor.
Qed.

Lemma updated_dead ks lb lb1 lb' k l :
  updated cfg now junk ks lb lb1 lb' -> host_map_ lb1 !! k = Some l ->
  l ∈ locs_of lb1 (need_delete ks lb1) <-> k ∉ ks.
Proof.
  intros Hu Hk. rewrite elem_of_locs_of. destruct (need_delete_spec ks lb1) as [_ Hin].
  split.
  - intros (k' & [_ Hs]%Hin & Hk'). by rewrite (lb_key_inj _ (up_ok _ _ _ _ _ _ _ Hu) _ _ _ Hk
    Hk').
  - intros Hs. exists k. split; [|done]. apply Hin. by rewrite Hk.
Qed.

Lemma updated_view ks lb lb1 lb' k :
  updated cfg now junk ks lb lb1 lb' ->
  view lb' !! k = if decide (k ∈ ks) then view lb1 !! k else None.
Proof.
  intros Hu. unfold view. rewrite (up_map _ _ _ _ _ _ _ Hu), !lookup_omap.
  destruct (host_map_ lb1 !! k) as [l|] eqn:E; cbn; [|by case_decide].
  rewrite (up_hosts _ _ _ _ _ _ _ Hu). rewrite (decide_ext _ _ _ _ (updated_dead _ _ _ _ _ _ Hu
    E)).
  destruct (decide (k ∈ ks)); [by rewrite decide_False by tauto|by rewrite decide_True].
Qed.
End Update.

(** What one [update] does. *)
Lemma update_step cfg now junk rsp lb :
  lb_ok lb -> lbrss.grs_host rsp <> [] ->
  exists lb', update cfg now junk rsp lb = Ret lb' /\
    status_ lb' = NEW /\ last_update_time_ lb' = now /\
    dom (view lb') = rsp_keys rsp /\
    (forall k h, view lb' !! k = Some h ->
       view lb !! k = Some h \/ view lb !! k = None /\ fresh cfg junk lb k h) /\
    NoDup (idle_list_ lb' ++ overload_list_ lb') /\
    (forall l, l ∈ idle_list_ lb' ++ overload_list_ lb' <->
       exists k h, host_map_ lb' !! k = Some l /\ hosts lb' !! l = Some h) /\
    (exists gone new : list loc, idle_list_ lb' = filter (fun l => l ∉ gone) (idle_list_ lb ++
      new) /\
       overload_list_ lb' = filter (fun l => l ∉ gone) (overload_list_ lb) /\
       forall l, l ∈ gone -> hosts lb' !! l = None) /\
    (dom (view lb) ⊆ rsp_keys rsp -> lb_ok lb').
Proof.
  intros Hok Hne.
  destruct (update_updated cfg now junk rsp lb Hok Hne) as (lb1 & lb' & E & Hu).
  exists lb'.
  assert (Hv : forall k, view lb' !! k = if decide (k ∈ rsp_keys rsp) then view lb1 !! k else
    None)
    by (intros k; by eapply updated_view).
  destruct Hu as [Hok1 Hext Hdom Hview [Hs Ht] Hmap Hnext Hhosts Hidle Hover].
  destruct (ex_idle _ _ Hext) as [new Hnew].
  split_and!; [done|done|done| | | | | |].
  - apply set_eq. intros k. rewrite !elem_of_dom, Hv.
    case_decide as Hk; [|by split; [intros []|]].
    split; [done|]. intros _. apply elem_of_dom. rewrite Hdom. set_solver.
  - intros k h. rewrite Hv. case_decide; [|done]. apply Hview.
  - rewrite Hidle, Hover, <- filter_app. apply NoDup_filter, Hok1.
  - intros l. rewrite Hidle, Hover, <- filter_app, list_elem_of_filter, elem_of_app, Hmap.
    split.
    + intros [Hg Hl]. assert (exists k h, host_map_ lb1 !! k = Some l /\ hosts lb1 !! l = Some h)
        as (k & h & Hk & Hh).
      { destruct Hl as [(h & ? & _ & ?)%lb_idle_host|(h & ? & _ & ?)%lb_over_host]; eauto. }
      exists k, h. split; [done|]. by rewrite Hhosts, decide_False.
    + intros (k & h & Hk & Hh). rewrite Hhosts in Hh. case_decide; [done|]. split; [done|].
      pose proof (lb_listed _ Hok1 _ _ _ Hk Hh). destruct (overload h); naive_solver.
  - eexists _, new. rewrite <- Hnew. rewrite <- (ex_over _ _ Hext).
    split_and!; [done|done|]. intros l Hl. by rewrite Hhosts, decide_True.
  - intros Hsub. assert (Hnone : need_delete (rsp_keys rsp) lb1 = []).
    { destruct (need_delete_spec (rsp_keys rsp) lb1) as [_ Hin].
      apply elem_of_nil_inv. intros k [[l Hl] Hk]%Hin.
      apply Hk. destruct (ok_map _ Hok1 _ _ Hl) as (h & Hh & _).
      pose proof (lb_view_lookup _ _ _ _ Hl Hh) as Hkv%elem_of_dom_2.
      rewrite Hdom in Hkv. set_solver. }
    rewrite Hnone in *. cbn [locs_of omap list_omap] in *.
    rewrite filter_all in Hidle, Hover by (intros; apply not_elem_of_nil).
    apply (lb_ok_ext lb1); try done. apply map_eq. intros l.
    by rewrite Hhosts, decide_False by apply not_elem_of_nil.
Qed.

(** C19. An answer with hosts replaces the set of hosts: afterwards the hosts
    on the two lists are exactly those of the answer, each once; a host that
    was known keeps its counters, its list and its place in it, a new one is
    fresh and at the back of the idle list; the status is [NEW] and the time is
    taken.  When the answer has every known host the invariant holds again. *)
Theorem update_replaces cfg now junk rsp lb :
  lb_ok lb -> lbrss.grs_host rsp <> [] ->
  exists lb', update cfg now junk rsp lb = Ret lb' /\
    status_ lb' = NEW /\ last_update_time_ lb' = now /\
    dom (view lb') = rsp_keys rsp /\
    (forall k h, view lb' !! k = Some h ->
       view lb !! k = Some h \/ view lb !! k = None /\ fresh cfg junk lb k h) /\
    NoDup (idle_list_ lb' ++ overload_list_ lb') /\
    (forall l, l ∈ idle_list_ lb' ++ overload_list_ lb' <->
       exists k h, host_map_ lb' !! k = Some l /\ hosts lb' !! l = Some h) /\
    (exists gone new : list loc, idle_list_ lb' = filter (fun l => l ∉ gone) (idle_list_ lb ++
      new) /\
       overload_list_ lb' = filter (fun l => l ∉ gone) (overload_list_ lb) /\
       forall l, l ∈ gone -> hosts lb' !! l = None) /\
    (dom (view lb) ⊆ rsp_keys rsp -> lb_ok lb').
Proof. apply update_step. Qed.

(** ** The keys that update leaves behind *)

(** [k] is in [host_map_] with a pointer to a deleted host. *)
Definition dangling (k : Z) (lb : LoadBalance) : Prop :=
  exists l, host_map_ lb !! k = Some l /\ hosts lb !! l = None.

(** All live locations are below the next one. *)
Definition bounded (lb : LoadBalance) : Prop :=
  (forall l h, hosts lb !! l = Some h -> (l < next_host lb)%positive) /\
  (forall k l, host_map_ lb !! k = Some l -> (l < next_host lb)%positive).

Lemma insert_hosts_bounded cfg junk ms lb seen :
  bounded lb -> bounded (insert_hosts cfg junk ms (lb, seen)).1.
Proof.
  revert lb seen. induction ms as [|m ms IH]; intros lb seen Hb; [done|].
  cbn [insert_hosts foldl]. unfold insert_hosts in IH.
  destruct (insert_host cfg junk m (lb, seen)) as [lb1 seen1] eqn:E. apply IH.
  unfold insert_host in E. destruct (host_map_ lb !! _); injection E as <- <-; [done|].
  destruct Hb as [Hh Hm]. split; cbn.
  - intros l h. rewrite lookup_insert. case_decide; [intros _; lia|].
    intros Hl. pose proof (Hh _ _ Hl). lia.
  - intros k l. rewrite lookup_insert. case_decide; [intros [= <-]; lia|].
    intros Hl. pose proof (Hm _ _ Hl). lia.
Qed.

Lemma delete_hosts_keeps keys lb lb' :
  delete_hosts keys lb = Ret lb' ->
  host_map_ lb' = host_map_ lb /\ next_host lb' = next_host lb /\ hosts lb' ⊆ hosts lb.
Proof.
  revert lb. induction keys as [|k keys IH]; intros lb; cbn; [by intros [= <-]|].
  unfold delete_host, host_at. destruct (host_map_ lb !! k) as [l|]; [|done].
  destruct (hosts lb !! l) as [h|]; [|done]. cbn.
  intros (E1 & E2 & E3)%IH. rewrite E1, E2. destruct (overload h); cbn in *;
    split_and!; try done; (etrans; [exact E3|]); apply delete_subseteq.
Qed.

Section Dangling.
Context (cfg : LBConfig) (junk : loc -> Z * Z).

Lemma report_dangling ct now ip port retcode lb :
  dangling (pack64 ip port) lb ->
  report cfg ct now ip port retcode lb = Fault UseAfterFree.
Proof. intros (l & Hk & Hl). unfold report, host_at. by rewrite Hk, Hl. Qed.

Lemma update_dangling now k rsp lb :
  bounded lb -> dangling k lb -> lbrss.grs_host rsp <> [] ->
  (k ∉ rsp_keys rsp -> update cfg now junk rsp lb = Fault UseAfterFree) /\
  (forall lb', update cfg now junk rsp lb = Ret lb' -> bounded lb' /\ dangling k lb').
Proof.
  intros Hb (l & Hk & Hl) Hne. unfold update. rewrite bool_decide_eq_false_2 by done.
  cbn [negb c_assert mbind res_bind].
  pose proof (insert_hosts_extends cfg junk (lbrss.grs_host rsp) lb ∅ (proj1 Hb)) as H1.
  pose proof (insert_hosts_bounded cfg junk (lbrss.grs_host rsp) lb ∅ Hb) as Hb1.
  destruct (insert_hosts _ _ _ _) as [lb1 seen]. destruct H1 as [Hext ->]. cbn in Hb1.
  assert (Hk1 : host_map_ lb1 !! k = Some l) by (eapply lookup_weaken; [exact Hk|apply Hext]).
  assert (Hl1 : hosts lb1 !! l = None) by (apply (ex_dead _ _ Hext); [by eapply (proj2 Hb)|done]).
  rewrite union_empty_l_L. fold (rsp_keys rsp).
  destruct (need_delete_spec (rsp_keys rsp) lb1) as [_ Hin]. split.
  - intros Hks. rewrite (delete_hosts_dangling _ _ k l); [done| | |done|done].
    + by intros k' [? _]%Hin.
    + apply Hin. by rewrite Hk1.
  - intros lb' E. destruct (delete_hosts _ lb1) as [lb2|] eqn:Ed; [|done].
    apply delete_hosts_keeps in Ed as (E1 & E2 & E3). injection E as <-.
    split; [split; cbn; rewrite ?E1, ?E2; [|apply Hb1]|].
    + intros x h Hx. eapply (proj1 Hb1), lookup_weaken; eauto.
    + exists l. cbn. rewrite E1. split; [done|]. by eapply lookup_weaken_None.
Qed.

(** A sequence of answers, each at its time. *)
Fixpoint updates (rsps : list (Z * lbrss.GetRouteResponse)) (lb : LoadBalance) : res
  LoadBalance :=
  match rsps with
  | [] => Ret lb
  | (now, rsp) :: rsps' => lb ← update cfg now junk rsp lb; updates rsps' lb
  end.

Lemma updates_dangling k rsps lb lb' :
  bounded lb -> dangling k lb -> Forall (fun rsp => lbrss.grs_host rsp.2 <> []) rsps ->
  updates rsps lb = Ret lb' -> bounded lb' /\ dangling k lb'.
Proof.
  revert lb. induction rsps as [|[now rsp] rsps IH]; intros lb Hb Hd Hne; cbn.
  { by intros [= <-]. }
  apply Forall_cons in Hne as [Hne1 Hne]. destruct (update _ _ _ _ _) as [lb1|] eqn:E; [|done].
  cbn. destruct (update_dangling now k rsp lb Hb Hd Hne1) as [_ H2].
  destruct (H2 _ E). by apply IH.
Qed.
End Dangling.

Lemma lb_ok_bounded lb : lb_ok lb -> bounded lb.
Proof.
  intros Hok. split; [apply Hok|]. intros k l Hk.
  destruct (ok_map _ Hok _ _ Hk) as (h & Hh & _). by apply (ok_next _ Hok) in Hh.
Qed.

(** C35. A host that an answer drops is deleted, but its key stays in
    [host_map_]: every later report of a call to it, whatever answers come in
    between, and every later answer that does not have it either, is a use of
    the deleted object; and an answer that has it again does not bring it
    back. *)
Theorem removed_host_faults cfg now junk rsp lb k :
  lb_ok lb -> lbrss.grs_host rsp <> [] -> k ∈ dom (view lb) -> k ∉ rsp_keys rsp ->
  exists lb', update cfg now junk rsp lb = Ret lb' /\
    forall rsps lb'', Forall (fun rsp => lbrss.grs_host rsp.2 <> []) rsps ->
      updates cfg junk rsps lb' = Ret lb'' ->
      view lb'' !! k = None /\
      (forall ct now' ip port retcode, pack64 ip port = k ->
         report cfg ct now' ip port retcode lb'' = Fault UseAfterFree) /\
      (forall now' rsp', lbrss.grs_host rsp' <> [] -> k ∉ rsp_keys rsp' ->
         update cfg now' junk rsp' lb'' = Fault UseAfterFree).
Proof.
  intros Hok Hne Hk Hks.
  destruct (update_updated cfg now junk rsp lb Hok Hne) as (lb1 & lb' & E & Hu).
  exists lb'. split; [done|].
  assert (Hd : dangling k lb').
  { apply elem_of_dom in Hk as [h (l & Hl & Hh)%lb_view_inv].
    assert (Hl1 : host_map_ lb1 !! k = Some l)
      by (eapply lookup_weaken; [exact Hl|apply (up_ext _ _ _ _ _ _ _ Hu)]).
    exists l. rewrite (up_map _ _ _ _ _ _ _ Hu), (up_hosts _ _ _ _ _ _ _ Hu).
    split; [done|]. by rewrite decide_True by (by eapply updated_dead). }
  assert (Hb : bounded lb').
  { destruct (lb_ok_bounded _ (up_ok _ _ _ _ _ _ _ Hu)) as [H1 H2].
    split; rewrite (up_next _ _ _ _ _ _ _ Hu), ?(up_map _ _ _ _ _ _ _ Hu); [|done].
    intros l h. rewrite (up_hosts _ _ _ _ _ _ _ Hu). case_decide; [done|apply H1]. }
  intros rsps lb'' Hall Hups.
  destruct (updates_dangling cfg junk k rsps lb' lb'' Hb Hd Hall Hups) as [Hb' Hd'].
  split_and!.
  - destruct Hd' as (l & Hl & Hn). unfold view. by rewrite lookup_omap, Hl.
  - intros ct now' ip port retcode <-. by apply report_dangling.
  - intros now' rsp' Hne' Hks'. by eapply update_dangling.
Qed.

(** ** A concrete agent *)

Module LbExample.
(** The thresholds of conf/lb_agent.conf, as [init_lb_agent] loads them:
    [init_err_cnt] is never assigned and stays zero. *)
Definition cfg : LBConfig :=
  mkLBConfig 10 100 0 (d_lit 13421773 (-27)) (d_lit 1 (-1)) 15 15 2130706433
    (d_lit 11744051 (-24)) 15 15 15.
Definition junk : loc -> Z * Z := fun _ => (0, 0).
Definition h1 : lbrss.HostInfo := lbrss.mkHostInfo 16777343 8081.
Definition h2 : lbrss.HostInfo := lbrss.mkHostInfo (-1062731519) 8082.
Definition h3 : lbrss.HostInfo := lbrss.mkHostInfo 16777343 8083.
(** A balancer with the hosts [h1], [h2] and [h3] idle. *)
Definition lb : LoadBalance :=
  (insert_hosts cfg junk [h1; h2; h3] (LoadBalance_new 1 2 0, ∅)).1.

Lemma lb_example_ok : lb_ok lb.
Proof.
  pose proof (insert_hosts_ok cfg junk [h1; h2; h3] (LoadBalance_new 1 2 0) ∅
    (LoadBalance_new_ok 1 2 0)) as H. unfold lb.
  destruct (insert_hosts _ _ _ _). apply H.
Qed.

Definition answer : lbrss.GetRouteResponse := lbrss.mkGetRouteResponse 1 2 [h1; h3].
End LbExample.

Lemma update_replaces_witness :
  lbrss.grs_host LbExample.answer <> [] /\
  exists lb', update LbExample.cfg 1000 LbExample.junk LbExample.answer LbExample.lb = Ret lb' /\
    dom (view lb') = rsp_keys LbExample.answer.
Proof.
  split; [done|].
  destruct (update_replaces LbExample.cfg 1000 LbExample.junk LbExample.answer LbExample.lb
    LbExample.lb_example_ok ltac:(done)) as (lb' & E & _ & _ & Hd & _).
  exists lb'. split; [exact E|exact Hd].
Defined.

Lemma removed_host_faults_witness :
  exists lb', update LbExample.cfg 1000 LbExample.junk LbExample.answer LbExample.lb = Ret lb' /\
    report LbExample.cfg 1001 1001 (-1062731519) 8082 0 lb' = Fault UseAfterFree.
Proof.
  destruct (removed_host_faults LbExample.cfg 1000 LbExample.junk LbExample.answer LbExample.lb
    (msg_key LbExample.h2) LbExample.lb_example_ok) as (lb' & E & H).
  - done.
  - apply elem_of_dom. eexists. vm_compute. reflexivity.
  - vm_compute. intros Hin. by vm_compute in Hin.
  - exists lb'. split; [exact E|].
    destruct (H [] lb' (List.Forall_nil _) eq_refl) as (_ & Hr & _).
    apply Hr. reflexivity.
Defined.
