(* ===== verification/LoadBalanceSpec.v ===== *)
(** * LoadBalanceSpec: what report, pick_one_host and update do

    The state machine of one host ([host_report]) and the refinement of
    [report] to it; the round robin and the probing of [pick_one_host]; the
    contents of the lists after [update], and the pointers it leaves behind. *)

From S2P Require Import Prelude CInt.
From S2P Require Import Proto HostInfo LoadBalance LoadBalanceInv LoadBalanceUpdate.
From stdpp Require Import sorting.
From Stdlib Require Import Floats.SpecFloat.
Local Open Scope Z_scope.

(** ** report *)

(** The life of one host: what a reported call makes of it. *)
Definition host_report (cfg : LBConfig) (current_time now retcode : Z) (h : HostInfo) :
  HostInfo :=
  let h := count_call retcode h in
  let failed := negb (retcode =? RET_SUCC) in
  if negb (overload h) && failed && becomes_overload cfg h then set_overload cfg now h
  else if overload h && negb failed && becomes_idle cfg h then set_idle cfg now h
  else if overload h then
    if overload_timeout cfg <=? current_time - overload_ts h then set_idle cfg now h else h
  else if idle_timeout cfg <=? current_time - idle_ts h then
    if check_window cfg h then set_overload cfg now h else set_idle cfg now h
  else h.

Lemma count_call_key ret h : host_key (count_call ret h) = host_key h.
Proof. unfold count_call. by destruct (_ =? _). Qed.

Lemma count_call_overload ret h : overload (count_call ret h) = overload h.
Proof. unfold count_call. by destruct (_ =? _). Qed.

(** What [report] leaves when the host [l] becomes [h']. *)
Definition moved (l : loc) (h h' : HostInfo) (lb lb' : LoadBalance) : Prop :=
  match overload h, overload h' with
  | false, true => idle_list_ lb' = list_remove l (idle_list_ lb) /\
                   overload_list_ lb' = overload_list_ lb ++ [l]
  | true, false => overload_list_ lb' = list_remove l (overload_list_ lb) /\
                   idle_list_ lb' = idle_list_ lb ++ [l]
  | _, _ => idle_list_ lb' = idle_list_ lb /\ overload_list_ lb' = overload_list_ lb
  end.

Lemma moved_refl l h h' lb lb' : overload h' = overload h ->
  idle_list_ lb' = idle_list_ lb -> overload_list_ lb' = overload_list_ lb ->
  moved l h h' lb lb'.
Proof. unfold moved. intros ->. by destruct (overload h). Qed.

Section Report.
Context (cfg : LBConfig) (current_time now retcode : Z).

(** The tail of [report] on a counted host. *)
Lemma window_check_refines k l h lb :
  lb_ok lb -> host_map_ lb !! k = Some l -> hosts lb !! l = Some h ->
  let lb' := window_check cfg current_time now l h lb in
  exists h', lb_ok lb' /\ view lb' = <[k := h']> (view lb) /\ moved l h h' lb lb' /\
    host_map_ lb' = host_map_ lb /\
    h' = if overload h
         then if overload_timeout cfg <=? current_time - overload_ts h
              then set_idle cfg now h else h
         else if idle_timeout cfg <=? current_time - idle_ts h
              then if check_window cfg h then set_overload cfg now h else set_idle cfg now h
              else h.
Proof.
  intros Hok Hk Hh lb'. subst lb'. unfold window_check.
  assert (Hid : view lb = <[k := h]> (view lb)).
  { symmetry. apply insert_id. by eapply lb_view_lookup. }
  destruct (overload h) eqn:Ho; [destruct (_ <=? _)|destruct (_ <=? _); [destruct (check_window
    _ _)|]].
  - destruct (to_idle_ok cfg now k l h lb) as [H1 H2]; try done.
    exists (set_idle cfg now h). split_and!; try done. unfold moved. by rewrite Ho.
  - exists h. split_and!; try done. by apply moved_refl.
  - destruct (to_overload_ok cfg now k l h lb) as [H1 H2]; try done.
    exists (set_overload cfg now h). split_and!; try done. unfold moved. by rewrite Ho.
  - destruct (put_ok k l h (set_idle cfg now h) lb) as [H1 H2]; try done.
    exists (set_idle cfg now h). split_and!; try done. by apply moved_refl.
  - exists h. split_and!; try done. by apply moved_refl.
Qed.

Lemma report_host_at k l h lb : lb_ok lb -> host_map_ lb !! k = Some l ->
  hosts lb !! l = Some h ->
  let lb1 := put l (count_call retcode h) lb in
  lb_ok lb1 /\ view lb1 = <[k := count_call retcode h]> (view lb) /\
  host_map_ lb1 !! k = Some l /\ hosts lb1 !! l = Some (count_call retcode h).
Proof.
  intros Hok Hk Hh lb1. destruct (put_ok k l h (count_call retcode h) lb) as [H1 H2];
    try done; [apply count_call_overload|apply count_call_key|].
  split_and!; try done. subst lb1. cbn. by rewrite lookup_insert_eq.
Qed.
End Report.

(** What one [report] does. *)
Lemma report_step cfg current_time now ip port retcode lb :
  lb_ok lb ->
  exists lb', report cfg current_time now ip port retcode lb = Ret lb' /\ lb_ok lb' /\
    view lb' = alter (host_report cfg current_time now retcode) (pack64 ip port) (view lb) /\
    host_map_ lb' = host_map_ lb /\
    forall l h, host_map_ lb !! pack64 ip port = Some l -> hosts lb !! l = Some h ->
      moved l h (host_report cfg current_time now retcode h) lb lb'.
Proof.
  intros Hok. unfold report. set (key := pack64 ip port).
  destruct (host_map_ lb !! key) as [l|] eqn:Hk.
  2: { exists lb. split_and!; try done. symmetry. apply map_eq. intros k'.
       destruct (decide (k' = key)) as [->|]; [|by rewrite lookup_alter_ne].
       apply (lb_view_none lb Hok) in Hk. by rewrite lookup_alter_eq, Hk. }
  destruct (ok_map _ Hok _ _ Hk) as (h & Hh & Hkey). unfold host_at. rewrite Hh.
  assert (Hv : view lb !! key = Some h) by by eapply lb_view_lookup.
  assert (Halt : forall f, alter f key (view lb) = <[key := f h]> (view lb)).
  { intros f. apply map_eq. intros k'. destruct (decide (k' = key)) as [->|].
    - by rewrite lookup_alter_eq, lookup_insert_eq, Hv.
    - by rewrite lookup_alter_ne, lookup_insert_ne. }
  rewrite Halt. cbn [mbind res_bind].
  destruct (report_host_at retcode key l h lb Hok Hk Hh) as (Hok1 & Hv1 & Hk1 & Hh1).
  unfold host_report. cbv zeta. rewrite count_call_overload.
  pose proof (count_call_overload retcode h) as Ho.
  set (h1 := count_call retcode h) in *. set (lb1 := put l h1 lb) in *.
  destruct (window_check_refines cfg current_time now key l h1 lb1 Hok1 Hk1 Hh1)
    as (h2 & Hok2 & Hv2 & Hm2 & Hmap2 & Eh2). rewrite Ho in Eh2.
  assert (Hfix : forall h' lb', moved l h1 h' lb1 lb' -> moved l h h' lb lb').
  { intros h' lb'. unfold moved. by rewrite Ho. }
  destruct (overload h) eqn:Eo, (retcode =? RET_SUCC) eqn:Er; cbn [negb andb];
    [destruct (becomes_idle cfg h1) eqn:Eb| | |destruct (becomes_overload cfg h1) eqn:Eb].
  2,3,4,6: eexists; split_and!; [reflexivity|done| |done|];
    [by rewrite Hv2, Hv1, insert_insert_eq, Eh2
    |intros l' h' [= <-]; rewrite Hh; intros [= <-]; fold h1; rewrite Ho; cbn [negb andb];
     rewrite ?Eb; rewrite <- Eh2; by apply Hfix].
  - destruct (to_idle_ok cfg now key l h1 lb1) as [H1 H2]; try done.
    eexists; split_and!; [reflexivity|done|by rewrite H2, Hv1, insert_insert_eq|done|].
    intros l' h' [= <-]; rewrite Hh; intros [= <-]. fold h1.
    rewrite Ho. cbn [negb andb]. rewrite Eb. unfold moved. by rewrite Eo.
  - destruct (to_overload_ok cfg now key l h1 lb1) as [H1 H2]; try done.
    eexists; split_and!; [reflexivity|done|by rewrite H2, Hv1, insert_insert_eq|done|].
    intros l' h' [= <-]; rewrite Hh; intros [= <-]. fold h1.
    rewrite Ho. cbn [negb andb]. rewrite Eb. unfold moved. by rewrite Eo.
Qed.

(** C11. [report] refines the state machine of the host: it never faults, only
    the reported host changes and becomes [host_report] of what it was, a host
    whose [overload] flag flips moves to the back of the other list while the
    order of the rest is kept, and the invariant holds again; a host that is
    not in [host_map_] is ignored. *)
Theorem report_refines cfg current_time now ip port retcode lb :
  lb_ok lb ->
  exists lb', report cfg current_time now ip port retcode lb = Ret lb' /\ lb_ok lb' /\
    view lb' = alter (host_report cfg current_time now retcode) (pack64 ip port) (view lb) /\
    host_map_ lb' = host_map_ lb /\
    forall l h, host_map_ lb !! pack64 ip port = Some l -> hosts lb !! l = Some h ->
      moved l h (host_report cfg current_time now retcode h) lb lb'.
Proof. apply report_step. Qed.

(** ** pick_one_host *)

(** The [HostInfo] message of a host. *)
Definition host_msg (h : HostInfo) : lbrss.HostInfo := lbrss.mkHostInfo (i32 (ip h)) (port h).

(** The host of a location, as a message. *)
Definition msg_at (lb : LoadBalance) (l : loc) : option lbrss.HostInfo :=
  host_msg <$> hosts lb !! l.

(** [n] requests, each with a fresh response [rsp]: the return codes with the
    hosts in the responses. *)
Fixpoint picks (n : nat) (cfg : LBConfig) (rsp : lbrss.GetHostResponse) (lb : LoadBalance)
    : res (list (Z * option lbrss.HostInfo) * LoadBalance) :=
  match n with
  | O => Ret ([], lb)
  | S n' =>
      '(ret, rsp', lb) ← pick_one_host cfg rsp lb;
      '(rs, lb) ← picks n' cfg rsp lb;
      Ret ((ret, lbrss.ghs_host rsp') :: rs, lb)
  end.

(** Moving the first element to the back shifts the positions by one. *)
Lemma rotate_lookup {A} (x : A) xs j :
  let len := length (x :: xs) in
  (xs ++ [x]) !! (j mod len)%nat = (x :: xs) !! (S j mod len)%nat.
Proof.
  intros len. assert (0 < len)%nat as Hpos by (subst len; cbn; lia).
  assert (S j mod len = S (j mod len) mod len)%nat as ->.
  { rewrite <- (Nat.add_1_r j), <- (Nat.add_1_r (j mod len)).
    by rewrite Nat.Div0.add_mod_idemp_l. }
  pose proof (Nat.mod_upper_bound j len ltac:(lia)) as Hj. set (i := (j mod len)%nat) in *.
  assert (len = S (length xs)) as Hl by done. clearbody len i.
  destruct (decide (S i = len)) as [El|El].
  - rewrite El, Nat.Div0.mod_same. cbn. rewrite lookup_app_r by lia.
    by replace (i - length xs)%nat with 0%nat by lia.
  - rewrite (Nat.mod_small (S _)) by lia. cbn. by rewrite lookup_app_l by lia.
Qed.

Section Picks.
Context (cfg : LBConfig) (rsp : lbrss.GetHostResponse).

Lemma picks_app n m lb rs1 lb1 rs2 lb2 :
  picks n cfg rsp lb = Ret (rs1, lb1) -> picks m cfg rsp lb1 = Ret (rs2, lb2) ->
  picks (n + m) cfg rsp lb = Ret (rs1 ++ rs2, lb2).
Proof.
  revert lb rs1. induction n as [|n IH]; intros lb rs1; cbn.
  - by intros [= <- <-].
  - destruct (pick_one_host cfg rsp lb) as [[[ret r] lb']|]; cbn; [|done].
    destruct (picks n cfg rsp lb') as [[rs lb'']|] eqn:E; cbn; [|done].
    intros [= <- <-] H2. rewrite (IH lb' rs E H2). done.
Qed.

(** A request served from the front of the idle list. *)
Lemma pick_idle l il h lb :
  idle_list_ lb = l :: il -> hosts lb !! l = Some h ->
  (overload_list_ lb = [] \/ access_cnt_ lb < probe_num cfg) ->
  is_i32 (access_cnt_ lb + 1) ->
  pick_one_host cfg rsp lb =
    Ret (RET_SUCC, set_host (i32 (ip h)) (port h) rsp,
         set_lists (il ++ [l]) (overload_list_ lb) (set_access (access_cnt_ lb + 1) lb)).
Proof.
  intros Hi Hh Hc Hint. unfold pick_one_host. rewrite Hi.
  replace (negb (bool_decide (overload_list_ lb = [])) && (probe_num cfg <=? access_cnt_ lb))
    with false.
  2: { destruct Hc as [->|Hlt]; [done|].
       replace (probe_num cfg <=? access_cnt_ lb) with false by lia. by rewrite andb_false_r. }
  rewrite int_add_ok by done. cbn. rewrite Hi. cbn. unfold host_at. cbn. by rewrite Hh.
Qed.

(** A request served by probing the front of the overload list. *)
Lemma pick_probe l ol h lb :
  overload_list_ lb = l :: ol -> hosts lb !! l = Some h -> probe_num cfg <= access_cnt_ lb ->
  pick_one_host cfg rsp lb =
    Ret (RET_SUCC, set_host (i32 (ip h)) (port h) rsp,
         set_lists (idle_list_ lb) (ol ++ [l]) (set_access 0 lb)).
Proof.
  intros Ho Hh Hc. unfold pick_one_host.
  replace (probe_num cfg <=? access_cnt_ lb) with true by lia.
  destruct (idle_list_ lb) eqn:Hi; cbn; rewrite Ho; cbn; unfold host_at; cbn; rewrite Hh; cbn;
    unfold set_lists; cbn; by rewrite ?Hi.
Qed.

(** A refused request. *)
Lemma pick_refused lb :
  idle_list_ lb = [] -> access_cnt_ lb < probe_num cfg -> is_i32 (access_cnt_ lb + 1) ->
  pick_one_host cfg rsp lb = Ret (RET_OVERLOAD, rsp, set_access (access_cnt_ lb + 1) lb).
Proof.
  intros Hi Hc Hint. unfold pick_one_host. rewrite Hi.
  replace (probe_num cfg <=? access_cnt_ lb) with false by lia.
  by rewrite int_add_ok.
Qed.

Lemma picks_idle n lb :
  idle_list_ lb <> [] -> (forall l, l ∈ idle_list_ lb -> is_Some (hosts lb !! l)) ->
  0 <= access_cnt_ lb -> access_cnt_ lb + Z.of_nat n < 2 ^ 31 ->
  (overload_list_ lb = [] \/ access_cnt_ lb + Z.of_nat n <= probe_num cfg) ->
  let len := length (idle_list_ lb) in
  exists il, picks n cfg rsp lb =
    Ret ((fun k => (RET_SUCC, l ← idle_list_ lb !! (k mod len)%nat; msg_at lb l)) <$> seq 0 n,
         set_lists il (overload_list_ lb) (set_access (access_cnt_ lb + Z.of_nat n) lb)) /\
    il ≡ₚ idle_list_ lb /\
    forall j, (j < len)%nat -> il !! j = idle_list_ lb !! ((j + n) mod len)%nat.
Proof.
  revert lb. induction n as [|n IH]; intros lb Hne Hlive Ha Hb Hc len.
  { exists (idle_list_ lb). cbn. rewrite Z.add_0_r. split; [by destruct lb|].
    split; [done|]. intros j Hj. by rewrite Nat.add_0_r, Nat.mod_small. }
  destruct (idle_list_ lb) as [|l il0] eqn:Hi; [done|].
  destruct (Hlive l) as [h Hh]; [by left|].
  cbn [picks]. rewrite (pick_idle l il0 h lb Hi Hh); [|intuition lia|unfold is_i32; lia].
  cbn [mbind res_bind]. set (lb1 := set_lists _ _ _).
  destruct (IH lb1) as (il & E & Hperm & Hrot).
  { by destruct il0. }
  { intros x Hx. cbn in Hx |- *. apply Hlive. rewrite Permutation_cons_append in *. done. }
  { cbn. lia. } { cbn. lia. } { cbn. intuition lia. }
  assert (Hlen : length (idle_list_ lb1) = len).
  { cbn. rewrite length_app. cbn. subst len. cbn. lia. }
  assert (Hshift : forall j, idle_list_ lb1 !! (j mod len)%nat = (l :: il0) !! (S j mod len)%nat).
  { intros j. apply rotate_lookup. }
  rewrite Hlen in *. exists il. rewrite E. cbn [mbind res_bind]. split; [|split].
  - f_equal. f_equal; [|cbn; by replace (access_cnt_ lb + 1 + Z.of_nat n)
      with (access_cnt_ lb + Z.of_nat (S n)) by lia].
    change (seq 0 (S n)) with (0%nat :: seq 1 n). rewrite fmap_cons. cbv beta.
    rewrite Nat.Div0.mod_0_l. f_equal.
    + unfold msg_at. cbn [lookup list_lookup mbind option_bind]. by rewrite Hh.
    + rewrite <- fmap_S_seq, <- list_fmap_compose. apply list_fmap_ext. intros _ k _.
      unfold compose. by rewrite Hshift.
  - rewrite Hperm. cbn. by rewrite Permutation_app_comm.
  - intros j Hj. rewrite Hrot by done. rewrite Hshift.
    do 2 f_equal. lia.
Qed.

Lemma picks_refused n lb :
  idle_list_ lb = [] -> 0 <= access_cnt_ lb -> access_cnt_ lb + Z.of_nat n <= probe_num cfg ->
  access_cnt_ lb + Z.of_nat n < 2 ^ 31 ->
  picks n cfg rsp lb = Ret (replicate n (RET_OVERLOAD, lbrss.ghs_host rsp),
                            set_access (access_cnt_ lb + Z.of_nat n) lb).
Proof.
  revert lb. induction n as [|n IH]; intros lb Hi Ha Hc Hb.
  { cbn. rewrite Z.add_0_r. by destruct lb. }
  cbn [picks]. rewrite pick_refused; [|done|lia|unfold is_i32; lia]. cbn [mbind res_bind].
  rewrite IH by (cbn; first [done|lia]). cbn [mbind res_bind replicate].
  do 2 f_equal. unfold set_access. cbn.
  by replace (access_cnt_ lb + 1 + Z.of_nat n) with (access_cnt_ lb + Z.of_nat (S n)) by lia.
Qed.
End Picks.

(** C29. With no overloaded host, [n] requests are served by the idle hosts in
    strict round robin from the front of the list, and the list is left rotated
    by [n]; this holds until [access_cnt_], which nothing resets meanwhile,
    reaches the largest [int]: the request after that overflows. *)
Theorem healthy_round_robin cfg rsp lb n :
  lb_ok lb -> idle_list_ lb <> [] -> overload_list_ lb = [] ->
  0 <= access_cnt_ lb -> access_cnt_ lb + Z.of_nat n < 2 ^ 31 ->
  let il := idle_list_ lb in let len := length il in
  exists il' lb', picks n cfg rsp lb =
      Ret ((fun k => (RET_SUCC, l ← il !! (k mod len)%nat; msg_at lb l)) <$> seq 0 n, lb') /\
    lb' = set_lists il' [] (set_access (access_cnt_ lb + Z.of_nat n) lb) /\ lb_ok lb' /\
    (forall j, (j < len)%nat -> il' !! j = il !! ((j + n) mod len)%nat) /\
    (access_cnt_ lb + Z.of_nat n = 2 ^ 31 - 1 ->
     pick_one_host cfg rsp lb' = Fault IntOverflow).
Proof.
  intros Hok Hne Ho Ha Hb il len.
  destruct (picks_idle cfg rsp n lb) as (il' & E & Hp & Hrot); try done; [|by left|].
  { intros l (h & Hh & _)%(lb_idle_host lb Hok). by rewrite Hh. }
  rewrite Ho in E. eexists il', _. split; [exact E|]. split; [done|]. split_and!.
  - apply lb_ok_perm; [done|done|by rewrite Ho].
  - done.
  - intros Hmax. unfold pick_one_host. cbn [idle_list_ overload_list_ access_cnt_ set_lists
    set_access].
    destruct il' as [|x il'].
    { symmetry in Hp. by apply Permutation_nil_r in Hp. }
    cbn [bool_decide negb andb]. rewrite Hmax. reflexivity.
Qed.

(** C30. When some host is overloaded, a full turn of [probe_num + 1] requests
    from a zero [access_cnt_] consists of [probe_num] requests that go to the
    idle hosts in round robin, or are refused with [RET_OVERLOAD] when none is
    idle, and then exactly one probe of the overloaded host that waited
    longest, which goes to the back of its list; the next turn starts from zero
    again. *)
Theorem probe_cycle cfg rsp lb o ol :
  lb_ok lb -> overload_list_ lb = o :: ol -> access_cnt_ lb = 0 ->
  0 <= probe_num cfg < 2 ^ 31 ->
  let il := idle_list_ lb in let len := length il in
  let n := Z.to_nat (probe_num cfg) in
  exists il' lb', picks (n + 1) cfg rsp lb =
      Ret ((if decide (il = []) then replicate n (RET_OVERLOAD, lbrss.ghs_host rsp)
            else (fun k => (RET_SUCC, l ← il !! (k mod len)%nat; msg_at lb l)) <$> seq 0 n)
             ++ [(RET_SUCC, msg_at lb o)], lb') /\
    lb' = set_lists il' (ol ++ [o]) (set_access 0 lb) /\ lb_ok lb' /\
    (forall j, (j < len)%nat -> il' !! j = il !! ((j + n) mod len)%nat).
Proof.
  intros Hok Ho Ha Hp il len n.
  destruct (lb_over_host lb Hok o) as (h & Hh & _); [rewrite Ho; by left|].
  assert (Hn : Z.of_nat n = probe_num cfg) by (subst n; lia).
  assert (exists rs il', picks n cfg rsp lb =
      Ret (rs, set_lists il' (overload_list_ lb) (set_access (Z.of_nat n) lb)) /\
    rs = (if decide (il = []) then replicate n (RET_OVERLOAD, lbrss.ghs_host rsp)
          else (fun k => (RET_SUCC, l ← il !! (k mod len)%nat; msg_at lb l)) <$> seq 0 n) /\
    il' ≡ₚ il /\ forall j, (j < len)%nat -> il' !! j = il !! ((j + n) mod len)%nat)
    as (rs & il' & E & Ers & Hperm & Hrot).
  { case_decide as Hi.
    - eexists _, []. rewrite (picks_refused cfg rsp n lb) by (done || lia). rewrite Ha.
      split; [|by rewrite Hi; split_and!; [..|intros j Hj; subst len; rewrite Hi in Hj; cbn in
        Hj; lia]].
      f_equal. f_equal. unfold set_access, set_lists. cbn. by rewrite <- Hi.
    - destruct (picks_idle cfg rsp n lb) as (il' & E & Hp' & Hrot); [done| |lia|lia|right; lia|].
      { intros l (h' & Hh' & _)%(lb_idle_host lb Hok). by rewrite Hh'. }
      rewrite Ha in E. eauto 10. }
  eexists il', _. split_and!.
  - rewrite <- Ers. eapply picks_app; [exact E|]. cbn [picks].
    rewrite (pick_probe cfg rsp o ol h); [|done|done|cbn; lia].
    cbn [mbind res_bind]. do 4 f_equal. unfold msg_at. by rewrite Hh.
  - done.
  - apply (lb_ok_perm lb Hok il' (ol ++ [o]) 0); [done|].
    rewrite Ho. by rewrite Permutation_app_comm.
  - done.
Qed.

(** ** Witnesses *)

Lemma report_refines_witness :
  exists lb', report LbExample.cfg 1000 1000 16777343 8081 1 LbExample.lb = Ret lb' /\
    lb_ok lb'.
Proof.
  destruct (report_refines LbExample.cfg 1000 1000 16777343 8081 1 LbExample.lb
    LbExample.lb_example_ok) as (lb' & E & Hok & _).
  exists lb'. split; [exact E|exact Hok].
Defined.

Lemma healthy_round_robin_witness :
  exists il' lb', picks 4 LbExample.cfg (lbrss.mkGetHostResponse 7 1 2 0 None) LbExample.lb =
    Ret ([(0, Some LbExample.h1); (0, Some LbExample.h2); (0, Some LbExample.h3);
          (0, Some LbExample.h1)], lb') /\
    lb' = set_lists il' [] (set_access 4 LbExample.lb).
Proof.
  destruct (healthy_round_robin LbExample.cfg (lbrss.mkGetHostResponse 7 1 2 0 None)
    LbExample.lb 4 LbExample.lb_example_ok) as (il' & lb' & E & Hl & _); [done|done|done|done|].
  exists il', lb'. split; [exact E|exact Hl].
Defined.

Module OverloadExample.
Definition host : HostInfo := HostInfo_new 16777343 8081 100 (0, 0).
Definition lb : LoadBalance := to_overload LbExample.cfg 1000 1%positive host LbExample.lb.
Lemma overload_lb_ok : lb_ok lb.
Proof.
  refine (proj1 (to_overload_ok LbExample.cfg 1000 (msg_key LbExample.h1) 1%positive host
    LbExample.lb LbExample.lb_example_ok _ _ _)); reflexivity.
Qed.
End OverloadExample.

Lemma probe_cycle_witness :
  exists il' lb', picks 11 LbExample.cfg (lbrss.mkGetHostResponse 7 1 2 0 None)
      OverloadExample.lb =
    Ret (mjoin (replicate 5 [(0, Some LbExample.h2); (0, Some LbExample.h3)])
           ++ [(0, Some LbExample.h1)], lb') /\
    lb' = set_lists il' [1%positive] (set_access 0 OverloadExample.lb).
Proof.
  destruct (probe_cycle LbExample.cfg (lbrss.mkGetHostResponse 7 1 2 0 None)
    OverloadExample.lb 1%positive [] OverloadExample.overload_lb_ok)
    as (il' & lb' & E & Hl & _); [reflexivity|reflexivity|by vm_compute|].
  exists il', lb'. split; [exact E|exact Hl].
Defined.
