(* ===== verification/RouteLB.v ===== *)
(** * RouteLB and the agent (lb_agent/src/route_lb.cpp, agent_udp_server.cpp,
    dns_client.cpp, reporter_client.cpp, main_server.cpp)

    A [RouteLB] owns the balancers of its modid/cmdid pairs; each method holds
    its mutex from the lookup to the end and is one atomic step.  The agent has
    three of them and the two message queues; the UDP handlers are [run_msg]
    functions of [Udp], whose application state is the agent. *)

From S2P Require Import Prelude CInt HashOrder.
From S2P Require Import Message ThreadQueue Udp.
From S2P Require Import Proto HostInfo LoadBalance.
From Stdlib Require Import Strings.Byte.
Local Open Scope Z_scope.

(** ** RouteLB *)

(** The [LoadBalance] objects are reached through [route_lb_map_] only. *)
Record RouteLB : Type := mkRouteLB {
  route_lb_map_ : gmap Z LoadBalance;
  id_ : Z
}.

Definition RouteLB_new (id : Z) : RouteLB := mkRouteLB ∅ id.

Definition set_lb (key : Z) (lb : LoadBalance) (rl : RouteLB) : RouteLB :=
  mkRouteLB (<[key := lb]> (route_lb_map_ rl)) (id_ rl).

Definition reset_lb_status (rl : RouteLB) : RouteLB :=
  mkRouteLB ((fun lb => if decide (status_ lb = PULLING) then set_status NEW lb else lb)
               <$> route_lb_map_ rl) (id_ rl).

Section RouteLB.
Context {F LOOP : Type} `{EventFd F}.
Context `{HO : HashOrder}.
Context (cfg : LBConfig).
Abbreviation DnsQueue := (option (ThreadQueue lbrss.GetRouteRequest F LOOP)).
Abbreviation ReportQueue := (option (ThreadQueue lbrss.ReportStatusRequest F LOOP)).

(** The condition for pulling a route again. *)
Definition expired (now : Z) (lb : LoadBalance) : bool :=
  bool_decide (status_ lb = NEW) && (update_timeout cfg <? now - last_update_time_ lb).

Definition pull_if_expired (now : Z) (dq : DnsQueue) (lb : LoadBalance)
    : res (DnsQueue * LoadBalance) :=
  if expired now lb then pull dq lb else Ret (dq, lb).

(** The balancer of a new key, pulled; [junk] is its [access_cnt_]. *)
Definition new_lb (modid cmdid junk : Z) (dq : DnsQueue) (rl : RouteLB)
    : res (DnsQueue * RouteLB) :=
  let key := pack64 modid cmdid in
  '(dq, lb) ← pull dq (LoadBalance_new modid cmdid junk);
  Ret (dq, set_lb key lb rl).

Definition get_host (now junk modid cmdid : Z) (rsp : lbrss.GetHostResponse)
    (dq : DnsQueue) (rl : RouteLB)
    : res (Z * lbrss.GetHostResponse * DnsQueue * RouteLB) :=
  let key := pack64 modid cmdid in
  match route_lb_map_ rl !! key with
  | Some lb =>
      if empty lb then
        c_assert (bool_decide (status_ lb = PULLING));;
        Ret (RET_SUCC, set_retcode RET_NOEXIST rsp, dq, rl)
      else
        '(ret, rsp, lb) ← pick_one_host cfg rsp lb;
        let rsp := set_retcode ret rsp in
        '(dq, lb) ← pull_if_expired now dq lb;
        Ret (ret, rsp, dq, set_lb key lb rl)
  | None =>
      '(dq, rl) ← new_lb modid cmdid junk dq rl;
      Ret (RET_NOEXIST, set_retcode RET_NOEXIST rsp, dq, rl)
  end.

(** The loop over [vec]. *)
Definition add_hosts (lb : LoadBalance) (vec : list loc) (rsp : lbrss.GetRouteResponse)
    : res lbrss.GetRouteResponse :=
  foldl (fun acc l =>
    rsp ← acc; hi ← host_at l lb;
    Ret (add_host (lbrss.mkHostInfo (i32 (ip hi)) (port hi)) rsp)) (Ret rsp) vec.

Definition get_route (now junk modid cmdid : Z) (rsp : lbrss.GetRouteResponse)
    (dq : DnsQueue) (rl : RouteLB)
    : res (Z * lbrss.GetRouteResponse * DnsQueue * RouteLB) :=
  let key := pack64 modid cmdid in
  match route_lb_map_ rl !! key with
  | Some lb =>
      rsp ← add_hosts lb (get_all_hosts [] lb) rsp;
      '(dq, lb) ← pull_if_expired now dq lb;
      Ret (RET_SUCC, rsp, dq, set_lb key lb rl)
  | None =>
      '(dq, rl) ← new_lb modid cmdid junk dq rl;
      Ret (RET_NOEXIST, rsp, dq, rl)
  end.

Definition update_host (now : Z) (junk : loc -> Z * Z) (modid cmdid : Z)
    (rsp : lbrss.GetRouteResponse) (rl : RouteLB) : res RouteLB :=
  let key := pack64 modid cmdid in
  match route_lb_map_ rl !! key with
  | Some lb =>
      if bool_decide (lbrss.grs_host rsp = []) then
        Ret (mkRouteLB (delete key (route_lb_map_ rl)) (id_ rl))
      else
        lb ← update cfg now junk rsp lb;
        Ret (set_lb key lb rl)
  | None => Ret rl
  end.

Definition report_host (current_time now : Z) (req : lbrss.ReportRequest)
    (rq : ReportQueue) (rl : RouteLB) : res (ReportQueue * RouteLB) :=
  let key := pack64 (lbrss.rr_modid req) (lbrss.rr_cmdid req) in
  match route_lb_map_ rl !! key with
  | Some lb =>
      lb ← report cfg current_time now (lbrss.hi_ip (lbrss.host_or_default (lbrss.rr_host req)))
             (lbrss.hi_port (lbrss.host_or_default (lbrss.rr_host req))) (lbrss.rr_retcode req)
               lb;
      rq ← commit cfg now rq lb;
      Ret (rq, set_lb key lb rl)
  | None => Ret (rq, rl)
  end.

(** ** The agent *)

Record Agent : Type := mkAgent {
  r_lb : list RouteLB;
  dns_queue : DnsQueue;
  report_queue : ReportQueue
}.

Definition create_route_lb : list RouteLB := RouteLB_new <$> [1; 2; 3].

(** The global state when [main] calls [start_UDP_servers]: the queues are
    created only after it. *)
Definition init_agent : Agent := mkAgent create_route_lb None None.

(** [r_lb[index]] *)
Definition r_lb_at (index : Z) (ag : Agent) : res RouteLB :=
  check OutOfBounds (0 <=? index);;
  match r_lb ag !! Z.to_nat index with Some rl => Ret rl | None => Fault OutOfBounds end.

Definition set_r_lb (index : Z) (rl : RouteLB) (ag : Agent) : Agent :=
  mkAgent (<[Z.to_nat index := rl]> (r_lb ag)) (dns_queue ag) (report_queue ag).

(** ** dns_client.cpp *)

(** [conn_init]: the hook of a (re)connection to the dns service *)
Definition conn_init (ag : Agent) : Agent :=
  mkAgent (reset_lb_status <$> r_lb ag) (dns_queue ag) (report_queue ag).

Context `{Wire lbrss.GetRouteRequest, Wire lbrss.GetRouteResponse}.
Context `{Wire lbrss.ReportStatusRequest, Wire lbrss.ReportRequest}.
Context `{Wire lbrss.GetHostRequest, Wire lbrss.GetHostResponse}.

(** The loops of [new_dns_request] and [new_report_request]: the calls of
    [client->send_message]; [send] is one of them. *)
Fixpoint send_all {A W : Type} `{Wire A} (send : list byte -> Z -> Z -> W -> res (Z * W))
    (id : Z) (msgs : list A) (w : W) : res W :=
  match msgs with
  | [] => Ret w
  | req :: msgs' =>
      let requestString := SerializeToString req in
      '(_, w) ← send requestString (Z.of_nat (length requestString)) id w;
      send_all send id msgs' w
  end.

Definition new_dns_request {W : Type} (send : list byte -> Z -> Z -> W -> res (Z * W))
    (ag : Agent) (w : W) : res (Agent * W) :=
  match dns_queue ag with
  | None => Fault NullDeref
  | Some q =>
      let '(msgs, q) := recv [] q in
      w ← send_all send ID_GetRouteRequest msgs w;
      Ret (mkAgent (r_lb ag) (Some q) (report_queue ag), w)
  end.

Definition new_report_request {W : Type} (send : list byte -> Z -> Z -> W -> res (Z * W))
    (ag : Agent) (w : W) : res (Agent * W) :=
  match report_queue ag with
  | None => Fault NullDeref
  | Some q =>
      let '(msgs, q) := recv [] q in
      w ← send_all send ID_ReportStatusRequest msgs w;
      Ret (mkAgent (r_lb ag) (dns_queue ag) (Some q), w)
  end.

Definition deal_recv_route (now : Z) (junk : loc -> Z * Z) (data : list byte) (len : Z)
    (ag : Agent) : res Agent :=
  let rsp := ParseFromArray (take (Z.to_nat len) data) in
  let modid := lbrss.grs_modid rsp in
  let cmdid := lbrss.grs_cmdid rsp in
  s ← int_add modid cmdid;
  let index := Z.rem s 3 in
  rl ← r_lb_at index ag;
  rl ← update_host now junk modid cmdid rsp rl;
  Ret (set_r_lb index rl ag).

(** ** agent_udp_server.cpp *)

(** The handlers and their argument, a pointer [r_lb[i]]. *)
Inductive agent_v : Type := get_host_f | get_route_f | report_f | arg_lb (i : Z).

Context {ADDR : Type}.
Abbreviation Server := (Udp ADDR agent_v Agent).

Definition set_user (ag : Agent) (w : Server) : Server :=
  mkUdp (_read_buf w) (_client_addr w) (u_router w) (u_sent w) ag.

(** The clock at the start and at the end of a call, the junk of a new
    balancer, and whether [sendto] succeeds. *)
Context (current_time now junk : Z) (ok : bool).

Definition get_host_cb (data : list byte) (len : Z) (i : Z) (w : Server) : res Server :=
  let req := ParseFromArray (take (Z.to_nat len) data) in
  let modid := lbrss.ghq_modid req in
  let cmdid := lbrss.ghq_cmdid req in
  let rsp := lbrss.mkGetHostResponse (lbrss.ghq_seq req) modid cmdid 0 None in
  let ag := u_user w in
  rl ← r_lb_at i ag;
  '(_, rsp, dq, rl) ← get_host now junk modid cmdid rsp (dns_queue ag) rl;
  let w := set_user (set_r_lb i rl (mkAgent (r_lb ag) dq (report_queue ag))) w in
  let responseString := SerializeToString rsp in
  '(_, w) ← send_message ok responseString (Z.of_nat (length responseString))
    ID_GetHostResponse w;
  Ret w.

Definition get_route_cb (data : list byte) (len : Z) (i : Z) (w : Server) : res Server :=
  let req := ParseFromArray (take (Z.to_nat len) data) in
  let modid := lbrss.grq_modid req in
  let cmdid := lbrss.grq_cmdid req in
  let rsp := lbrss.mkGetRouteResponse modid cmdid [] in
  let ag := u_user w in
  rl ← r_lb_at i ag;
  '(_, rsp, dq, rl) ← get_route now junk modid cmdid rsp (dns_queue ag) rl;
  let w := set_user (set_r_lb i rl (mkAgent (r_lb ag) dq (report_queue ag))) w in
  let responseString := SerializeToString rsp in
  '(_, w) ← send_message ok responseString (Z.of_nat (length responseString))
              ID_API_GetRouteResponse w;
  Ret w.

Definition report_cb (data : list byte) (len : Z) (i : Z) (w : Server) : res Server :=
  let req := ParseFromArray (take (Z.to_nat len) data) in
  let ag := u_user w in
  rl ← r_lb_at i ag;
  '(rq, rl) ← report_host current_time now req (report_queue ag) rl;
  Ret (set_user (set_r_lb i rl (mkAgent (r_lb ag) (dns_queue ag) rq)) w).

(** The call of a handler with its [user_data]. *)
Definition agent_msg (cb : agent_v) (data : list byte) (len id : Z) (arg : option agent_v)
    (w : Server) : res Server :=
  match arg with
  | Some (arg_lb i) =>
      match cb with
      | get_host_f => get_host_cb data len i w
      | get_route_f => get_route_cb data len i w
      | report_f => report_cb data len i w
      | arg_lb _ => Fault NullDeref
      end
  | _ => Fault NullDeref
  end.

(** The router of the server that [agent_server_main] starts for [index]. *)
Definition agent_router (index : Z) : MsgRouter agent_v agent_v :=
  register_all [(ID_GetHostRequest, get_host_f, Some (arg_lb index));
                (ID_ReportRequest, report_f, Some (arg_lb index));
                (ID_API_GetRouteRequest, get_route_f, Some (arg_lb index))] MsgRouter_new.
End RouteLB.
Arguments Agent : clear implicits.
