(* ===== verification/RouteLBSpec.v ===== *)
(** * RouteLBSpec: what the agent guarantees, and what breaks it

    No sequence of requests, reports and growing answers faults
    ([agent_never_faults]); a reconnection to the dns service between a first
    request and its answer does ([reconnect_aborts_agent]); the answer to a
    datagram with a request ([agent_answers_get_host]); the routing of answers
    ([deal_recv_route_index]). *)

From S2P Require Import Prelude CInt HashOrder.
From S2P Require Import ReactorBuf Message Framing ThreadQueue Udp.
From S2P Require Import Proto HostInfo LoadBalance.
From S2P Require Import LoadBalanceInv LoadBalanceUpdate LoadBalanceSpec RouteLB.
From Stdlib Require Import Strings.Byte.
Local Open Scope Z_scope.

(** ** The invariant of a RouteLB *)

(** Every balancer satisfies its invariant, has counted at most [n] requests,
    and is being pulled while it has no host. *)
Definition lb_fit (n : Z) (lb : LoadBalance) : Prop :=
  lb_ok lb /\ 0 <= access_cnt_ lb <= n /\ (empty lb = true -> status_ lb = PULLING).

Definition rl_ok (n : Z) (rl : RouteLB) : Prop :=
  map_Forall (fun _ lb => lb_fit n lb) (route_lb_map_ rl).

Lemma RouteLB_new_ok id n : rl_ok n (RouteLB_new id).
Proof. apply map_Forall_empty. Qed.

Lemma lb_fit_mono n m lb : n <= m -> lb_fit n lb -> lb_fit m lb.
Proof. intros ? (? & ? & ?). split_and!; (done || lia). Qed.

Lemma rl_ok_mono n m rl : n <= m -> rl_ok n rl -> rl_ok m rl.
Proof. intros Hn Hr k lb Hk. eapply lb_fit_mono; [done|by eapply Hr]. Qed.

Lemma set_lb_ok n key lb rl : rl_ok n rl -> lb_fit n lb -> rl_ok n (set_lb key lb rl).
Proof. intros. by apply map_Forall_insert_2. Qed.

Lemma empty_false_lists lb : lb_ok lb -> empty lb = false ->
  idle_list_ lb <> [] \/ overload_list_ lb <> [].
Proof.
  intros Hok He. destruct (idle_list_ lb) eqn:Ei; [|by left].
  destruct (overload_list_ lb) eqn:Eo; [|by right].
  unfold empty in He. apply bool_decide_eq_false in He. by destruct He; apply lb_all_empty.
Qed.

(** A pick on a balancer with hosts. *)
Lemma pick_total cfg rsp n lb :
  lb_fit n lb -> n < 2 ^ 31 - 1 -> empty lb = false ->
  exists ret rsp' lb', pick_one_host cfg rsp lb = Ret (ret, rsp', lb') /\
    lb_fit (n + 1) lb' /\ empty lb' = false.
Proof.
  intros (Hok & Ha & Hs) Hn He.
  assert (Hfit : forall il ol a, il ≡ₚ idle_list_ lb -> ol ≡ₚ overload_list_ lb ->
    0 <= a <= n + 1 -> lb_fit (n + 1) (set_lists il ol (set_access a lb))).
  { intros il ol a Hi Ho Ha'. split_and!; [by apply lb_ok_perm|cbn; lia..|].
    intros Ht. by rewrite (He : empty (set_lists il ol (set_access a lb)) = false) in Ht. }
  assert (Hint : is_i32 (access_cnt_ lb + 1)) by (unfold is_i32; lia).
  destruct (decide (overload_list_ lb <> [] /\ probe_num cfg <= access_cnt_ lb)) as [[Hne Hp]|Hc].
  - destruct (overload_list_ lb) as [|l ol] eqn:Eo; [done|].
    destruct (lb_over_host lb Hok l) as (h & Hh & _); [rewrite Eo; by left|].
    eexists _, _, _. rewrite (pick_probe cfg rsp l ol h) by done. split; [done|].
    split; [|done]. apply Hfit; [done|by rewrite Permutation_app_comm|lia].
  - destruct (idle_list_ lb) as [|l il] eqn:Ei.
    + assert (overload_list_ lb <> []) as Hne
        by (destruct (empty_false_lists lb Hok He); [congruence|done]).
      assert (access_cnt_ lb < probe_num cfg).
      { destruct (Z.lt_ge_cases (access_cnt_ lb) (probe_num cfg)); [done|]. by destruct Hc. }
      eexists _, _, _. rewrite pick_refused by done. split; [done|]. split; [|done].
      replace (set_access _ lb) with
        (set_lists [] (overload_list_ lb) (set_access (access_cnt_ lb + 1) lb))
        by (unfold set_access, set_lists; cbn; by rewrite Ei).
      apply Hfit; [done|done|lia].
    + destruct (lb_idle_host lb Hok l) as (h & Hh & _); [rewrite Ei; by left|].
      eexists _, _, _. rewrite (pick_idle cfg rsp l il h); [| done | done | | done].
      2: { destruct (decide (overload_list_ lb = [])); [by left|right].
           destruct (Z.lt_ge_cases (access_cnt_ lb) (probe_num cfg)); [done|]. by destruct Hc. }
      split; [done|]. split; [|done].
      apply Hfit; [by rewrite Permutation_app_comm, ?Ei|done|lia].
Qed.

Section Agent.
Context {F LOOP : Type} `{EventFd F}.
Context `{HO : HashOrder}.
Context (cfg : LBConfig).
Abbreviation DnsQueue := (option (ThreadQueue lbrss.GetRouteRequest F LOOP)).
Abbreviation ReportQueue := (option (ThreadQueue lbrss.ReportStatusRequest F LOOP)).

Lemma pull_if_expired_ok now n (q : ThreadQueue lbrss.GetRouteRequest F LOOP) lb :
  lb_fit n lb ->
  exists q' lb', pull_if_expired cfg now (Some q) lb = Ret (Some q', lb') /\ lb_fit n lb'.
Proof.
  intros Hfit. unfold pull_if_expired. destruct (expired _ _ _); [|eauto].
  eexists _, _. split; [reflexivity|]. destruct Hfit as (Hok & Ha & Hs).
  split_and!; cbn; [by apply (lb_ok_ext lb)|lia..|done].
Qed.

Lemma new_lb_ok n modid cmdid junk (q : ThreadQueue lbrss.GetRouteRequest F LOOP) rl :
  rl_ok n rl -> 0 <= junk <= n ->
  exists q' rl', new_lb modid cmdid junk (Some q) rl = Ret (Some q', rl') /\ rl_ok n rl'.
Proof.
  intros Hr Hj. eexists _, _. split; [reflexivity|]. apply set_lb_ok; [done|].
  split_and!; cbn; [|lia..|done].
  by apply (lb_ok_ext _ _ eq_refl eq_refl eq_refl eq_refl eq_refl (LoadBalance_new_ok modid
    cmdid junk)).
Qed.

Lemma get_host_total now junk modid cmdid rsp n (q : ThreadQueue lbrss.GetRouteRequest F LOOP)
  rl :
  rl_ok n rl -> n < 2 ^ 31 - 1 -> 0 <= junk <= n ->
  exists ret rsp' q' rl',
    get_host cfg now junk modid cmdid rsp (Some q) rl = Ret (ret, rsp', Some q', rl') /\
    rl_ok (n + 1) rl'.
Proof.
  intros Hr Hn Hj. unfold get_host. set (key := pack64 modid cmdid).
  destruct (route_lb_map_ rl !! key) as [lb|] eqn:E.
  - pose proof (Hr _ _ E) as Hfit. cbn in Hfit. destruct (empty lb) eqn:Ee.
    + destruct Hfit as (_ & _ & Hs). rewrite bool_decide_eq_true_2 by auto. cbn.
      eexists _, _, _, _. split; [reflexivity|]. by apply (rl_ok_mono n); [lia|].
    + destruct (pick_total cfg rsp n lb Hfit Hn Ee) as (ret & rsp' & lb' & -> & Hfit' & _).
      cbn [mbind res_bind].
      destruct (pull_if_expired_ok now (n + 1) q lb' Hfit') as (q' & lb'' & -> & Hfit'').
      eexists _, _, _, _. split; [reflexivity|]. apply set_lb_ok; [|done].
      by apply (rl_ok_mono n); [lia|].
  - destruct (new_lb_ok n modid cmdid junk q rl Hr Hj) as (q' & rl' & -> & Hr').
    eexists _, _, _, _. split; [reflexivity|]. by apply (rl_ok_mono n); [lia|].
Qed.

Lemma add_hosts_total lb vec rsp :
  (forall l, l ∈ vec -> is_Some (hosts lb !! l)) ->
  exists rsp', add_hosts lb vec rsp = Ret rsp' /\
    lbrss.grs_modid rsp' = lbrss.grs_modid rsp /\ lbrss.grs_cmdid rsp' = lbrss.grs_cmdid rsp.
Proof.
  revert rsp. unfold add_hosts. induction vec as [|l vec IH]; intros rsp Hl; [eexists; done|].
  destruct (Hl l) as [h Hh]; [by left|]. cbn [foldl mbind res_bind]. unfold host_at at 2.
  rewrite Hh. cbn [mbind res_bind].
  destruct (IH (add_host (lbrss.mkHostInfo (i32 (ip h)) (port h)) rsp)) as (rsp' & -> & ? & ?);
    [intros; apply Hl; by right|eauto].
Qed.

Lemma get_route_total now junk modid cmdid rsp n (q : ThreadQueue lbrss.GetRouteRequest F LOOP)
  rl :
  rl_ok n rl -> 0 <= junk <= n ->
  exists ret rsp' q' rl',
    get_route cfg now junk modid cmdid rsp (Some q) rl = Ret (ret, rsp', Some q', rl') /\
    rl_ok n rl'.
Proof.
  intros Hr Hj. unfold get_route. set (key := pack64 modid cmdid).
  destruct (route_lb_map_ rl !! key) as [lb|] eqn:E.
  - pose proof (Hr _ _ E) as Hfit. cbn in Hfit.
    destruct (add_hosts_total lb (get_all_hosts [] lb) rsp) as (rsp' & -> & _).
    { intros l. unfold get_all_hosts. cbn. intros ([k l'] & ->
      & Hk%elem_of_map_order)%list_elem_of_fmap.
      destruct (ok_map _ (proj1 Hfit) _ _ Hk) as (h & Hh & _). cbn. by rewrite Hh. }
    cbn [mbind res_bind].
    destruct (pull_if_expired_ok now n q lb Hfit) as (q' & lb' & -> & Hfit').
    eexists _, _, _, _. split; [reflexivity|]. by apply set_lb_ok.
  - destruct (new_lb_ok n modid cmdid junk q rl Hr Hj) as (q' & rl' & -> & Hr').
    eexists _, _, _, _. split; [reflexivity|done].
Qed.

Lemma call_results_total over lb ls :
  (forall l, l ∈ ls -> is_Some (hosts lb !! l)) ->
  exists rs, call_results over lb ls = Ret rs /\ length rs = length ls.
Proof.
  induction ls as [|l ls IH]; intros Hl; [by exists []|].
  destruct (Hl l) as [h Hh]; [by left|]. destruct IH as (rs & E & Hn); [intros; apply Hl; by
    right|].
  change (call_results over lb (l :: ls)) with
    (hi ← host_at l lb; rs ← call_results over lb ls;
     Ret (lbrss.mkHostCallResult (i32 (ip hi)) (port hi) (rsucc hi) (rerr hi) over :: rs)).
  unfold host_at. rewrite Hh, E.
  eexists. split; [reflexivity|]. cbn. by rewrite Hn.
Qed.

Lemma commit_total now (q : ThreadQueue lbrss.ReportStatusRequest F LOOP) lb :
  lb_ok lb -> exists q', commit cfg now (Some q) lb = Ret (Some q').
Proof.
  intros Hok. unfold commit. destruct (empty lb); [eauto|].
  destruct (call_results_total false lb (idle_list_ lb)) as (rs & -> & _).
  { intros l (h & Hh & _)%(lb_idle_host lb Hok). by rewrite Hh. }
  destruct (call_results_total true lb (overload_list_ lb)) as (rs' & -> & _).
  { intros l (h & Hh & _)%(lb_over_host lb Hok). by rewrite Hh. }
  cbn. eauto.
Qed.

(** [report] leaves the rest of the balancer alone. *)
Lemma report_frame ct now ip port ret lb lb' :
  report cfg ct now ip port ret lb = Ret lb' ->
  access_cnt_ lb' = access_cnt_ lb /\ status_ lb' = status_ lb /\ host_map_ lb' = host_map_ lb.
Proof.
  unfold report, window_check, to_idle, to_overload.
  destruct (host_map_ lb !! _) as [l|]; [|by intros [= <-]].
  unfold host_at. destruct (hosts lb !! l) as [h|]; [|done]. cbn [mbind res_bind].
  repeat case_match; intros [= <-]; done.
Qed.

Lemma report_host_total ct now req n (q : ThreadQueue lbrss.ReportStatusRequest F LOOP) rl :
  rl_ok n rl ->
  exists q' rl', report_host cfg ct now req (Some q) rl = Ret (Some q', rl') /\ rl_ok n rl'.
Proof.
  intros Hr. unfold report_host. destruct (route_lb_map_ rl !! _) as [lb|] eqn:E; [|eauto].
  destruct (Hr _ _ E) as (Hok & Ha & Hs).
  destruct (report_step cfg ct now (lbrss.hi_ip (lbrss.host_or_default (lbrss.rr_host req)))
    (lbrss.hi_port (lbrss.host_or_default (lbrss.rr_host req))) (lbrss.rr_retcode req) lb Hok)
      as (lb' & Er & Hok' & _).
  rewrite Er. cbn [mbind res_bind]. destruct (commit_total now q lb' Hok') as (q' & ->).
  eexists _, _. split; [reflexivity|]. apply set_lb_ok; [done|].
  apply report_frame in Er as (Ea & Es & Em). split_and!; [done|lia..|].
  unfold empty. rewrite Em, Es. apply Hs.
Qed.

Lemma update_frame now junk rsp lb lb' :
  update cfg now junk rsp lb = Ret lb' -> access_cnt_ lb' = access_cnt_ lb.
Proof.
  unfold update. destruct (bool_decide _); [done|]. cbn [negb c_assert mbind res_bind].
  assert (Hi : forall ms st, access_cnt_ (insert_hosts cfg junk ms st).1 = access_cnt_ st.1).
  { induction ms as [|m ms IH]; intros st; [done|]. cbn. unfold insert_hosts in IH. rewrite IH.
    destruct st as [lb0 seen]. unfold insert_host. by destruct (host_map_ lb0 !! _). }
  specialize (Hi (lbrss.grs_host rsp) (lb, ∅)). destruct (insert_hosts _ _ _ _) as [lb1 seen].
  assert (Hd : forall ks a b, delete_hosts ks a = Ret b -> access_cnt_ b = access_cnt_ a).
  { induction ks as [|k ks IH]; intros a b; cbn; [by intros [= <-]|].
    unfold delete_host, host_at. repeat (case_match; try done); intros ->%IH; by case_match. }
  destruct (delete_hosts _ lb1) as [lb2|] eqn:Ed; [|done]. apply Hd in Ed. intros [= <-].
  cbn in *.
  congruence.
Qed.

(** An answer that has every host the balancer knows, or none. *)
Definition grows (modid cmdid : Z) (rsp : lbrss.GetRouteResponse) (rl : RouteLB) : Prop :=
  forall lb, route_lb_map_ rl !! pack64 modid cmdid = Some lb ->
    lbrss.grs_host rsp = [] \/ dom (view lb) ⊆ rsp_keys rsp.

Lemma update_host_total now junk modid cmdid rsp n rl :
  rl_ok n rl -> grows modid cmdid rsp rl ->
  exists rl', update_host cfg now junk modid cmdid rsp rl = Ret rl' /\ rl_ok n rl'.
Proof.
  intros Hr Hg. unfold update_host.
  destruct (route_lb_map_ rl !! _) as [lb|] eqn:E; [|eauto]. case_bool_decide as Hne.
  { eexists. split; [reflexivity|]. intros k lb' Hk. cbn in Hk.
    apply lookup_delete_Some in Hk as [_ Hk]. by apply (Hr k). }
  destruct (Hg lb E) as [|Hsub]; [done|]. destruct (Hr _ _ E) as (Hok & Ha & Hs).
  destruct (update_step cfg now junk rsp lb Hok Hne) as
    (lb' & Eu & _ & _ & Hdom & _ & _ & _ & _ & Hok').
  rewrite Eu. eexists. split; [reflexivity|]. apply set_lb_ok; [done|].
  apply update_frame in Eu. split_and!; [by apply Hok'|lia..|].
  intros He. exfalso. apply bool_decide_eq_true in He.
  destruct (lbrss.grs_host rsp) as [|m ms] eqn:Em; [done|].
  assert (msg_key m ∈ dom (view lb')) as Hin by (rewrite Hdom; unfold rsp_keys; rewrite Em;
    set_solver).
  apply elem_of_dom in Hin as [h (l & Hl & _)%lb_view_inv]. by rewrite He in Hl.
Qed.
End Agent.

(** ** Runs of one RouteLB *)

Section Runs.
Context {F LOOP : Type} `{EventFd F}.
Context `{HO : HashOrder}.
Context (cfg : LBConfig).
Abbreviation DnsQueue := (option (ThreadQueue lbrss.GetRouteRequest F LOOP)).
Abbreviation ReportQueue := (option (ThreadQueue lbrss.ReportStatusRequest F LOOP)).
Abbreviation St := (DnsQueue * ReportQueue * RouteLB)%type.

(** A call of a method, under the mutex, by any thread. *)
Inductive rl_op : Type :=
  | OGetHost (now junk modid cmdid : Z) (rsp : lbrss.GetHostResponse)
  | OGetRoute (now junk modid cmdid : Z) (rsp : lbrss.GetRouteResponse)
  | OReport (current_time now : Z) (req : lbrss.ReportRequest)
  | OUpdate (now : Z) (junk : loc -> Z * Z) (modid cmdid : Z) (rsp : lbrss.GetRouteResponse)
  | OReset.

Definition rl_step (op : rl_op) (st : St) : res St :=
  let '(dq, rq, rl) := st in
  match op with
  | OGetHost now junk m c rsp =>
      '(_, _, dq, rl) ← get_host cfg now junk m c rsp dq rl; Ret (dq, rq, rl)
  | OGetRoute now junk m c rsp =>
      '(_, _, dq, rl) ← get_route cfg now junk m c rsp dq rl; Ret (dq, rq, rl)
  | OReport ct now req =>
      '(rq, rl) ← report_host cfg ct now req rq rl; Ret (dq, rq, rl)
  | OUpdate now junk m c rsp =>
      rl ← update_host cfg now junk m c rsp rl; Ret (dq, rq, rl)
  | OReset => Ret (dq, rq, reset_lb_status rl)
  end.

(** The calls that the guarantee is about: the answers drop no host (or all of
    them), the dns connection is not made anew, and a new balancer's
    [access_cnt_] is not negative and at most [J]. *)
Definition allowed (J : Z) (op : rl_op) (rl : RouteLB) : Prop :=
  match op with
  | OGetHost _ junk _ _ _ | OGetRoute _ junk _ _ _ => 0 <= junk <= J
  | OReport _ _ _ => True
  | OUpdate _ _ m c rsp => grows m c rsp rl
  | OReset => False
  end.

(** [reachable J n st]: [n] allowed calls lead from an agent whose queues
    exist to [st]. *)
Inductive reachable (J : Z) : nat -> St -> Prop :=
  | reach_init q1 q2 id : reachable J 0 (Some q1, Some q2, RouteLB_new id)
  | reach_step n op st st' :
      reachable J n st -> allowed J op st.2 -> rl_step op st = Ret st' ->
      reachable J (S n) st'.

Definition st_ok (n : Z) (st : St) : Prop :=
  is_Some st.1.1 /\ is_Some st.1.2 /\ rl_ok n st.2.

Lemma rl_step_ok J n op st :
  st_ok (J + Z.of_nat n) st -> allowed J op st.2 -> J + Z.of_nat n < 2 ^ 31 - 1 ->
  exists st', rl_step op st = Ret st' /\ st_ok (J + Z.of_nat (S n)) st'.
Proof.
  destruct st as [[dq rq] rl]. unfold st_ok. cbn [fst snd].
  intros ([q ->] & [q2 ->] & Hr) Hall Hn.
  assert (Hmono : forall rl', rl_ok (J + Z.of_nat n) rl' -> rl_ok (J + Z.of_nat (S n)) rl')
    by (intros; eapply rl_ok_mono; [|done]; lia).
  destruct op as [now junk m c rsp|now junk m c rsp|ct now req|now junk m c rsp|];
    cbn [allowed rl_step] in *.
  - destruct (get_host_total cfg now junk m c rsp _ q rl Hr Hn) as (? & ? & ? & rl' & ->
    & Hr'); [lia|].
    eexists. split; [reflexivity|]. split_and!; [done..|].
    by replace (J + Z.of_nat (S n)) with (J + Z.of_nat n + 1) by lia.
  - destruct (get_route_total cfg now junk m c rsp _ q rl Hr) as (? & ? & ? & rl' & ->
    & Hr'); [lia|].
    eexists. split; [reflexivity|]. split_and!; eauto.
  - destruct (report_host_total cfg ct now req _ q2 rl Hr) as (? & rl' & -> & Hr').
    eexists. split; [reflexivity|]. split_and!; eauto.
  - destruct (update_host_total cfg now junk m c rsp _ rl Hr Hall) as (rl' & -> & Hr').
    eexists. split; [reflexivity|]. split_and!; eauto.
  - done.
Qed.

Lemma reachable_ok J n st : reachable J n st -> J + Z.of_nat n < 2 ^ 31 ->
  st_ok (J + Z.of_nat n) st.
Proof.
  induction 1 as [q1 q2 id|n op st st' Hr IH Hall Hst]; intros Hn.
  { split_and!; [by eexists..|]. apply RouteLB_new_ok. }
  destruct (rl_step_ok J n op st) as (st'' & E & Hok); [apply IH; lia|done|lia|].
  congruence.
Qed.

(** C12. The agent's balancers are safe as long as the dns service only adds
    hosts (or removes all of a pair) and its connection lasts: after any
    sequence of at most about 2^31 calls of [get_host], [get_route],
    [report_host] and [update_host], in any order and by any threads, every
    balancer keeps each live host in exactly the list of its state, and the
    next such call returns: no assertion fails, no deleted host is used and no
    [front()] of an empty list is taken. *)
Theorem agent_never_faults J n st op :
  reachable J n st -> J + Z.of_nat n < 2 ^ 31 - 1 -> allowed J op st.2 ->
  map_Forall (fun _ lb => lb_ok lb) (route_lb_map_ st.2) /\
  exists st', rl_step op st = Ret st'.
Proof.
  intros Hr Hn Hall. pose proof (reachable_ok J n st Hr ltac:(lia)) as Hok. split.
  - destruct Hok as (_ & _ & Hm). intros k lb Hk. by destruct (Hm k lb Hk).
  - destruct (rl_step_ok J n op st Hok Hall Hn) as (st' & -> & _). eauto.
Qed.

(** C36. A connection to the dns service that is made (or made anew) between
    the first request for a pair and its answer aborts the agent: [conn_init]
    marks the balancer, which has no host yet, as [NEW], and the assertion of
    the next request for that pair fails. *)
Theorem reconnect_aborts_agent now junk modid cmdid rsp q rq rl :
  route_lb_map_ rl !! pack64 modid cmdid = None ->
  exists st, rl_step (OGetHost now junk modid cmdid rsp) (Some q, rq, rl) = Ret st /\
    exists st', rl_step OReset st = Ret st' /\
    forall now' junk' rsp',
      rl_step (OGetHost now' junk' modid cmdid rsp') st' = Fault AssertFail.
Proof.
  intros Hk. eexists. split.
  { unfold rl_step, get_host. rewrite Hk. reflexivity. }
  eexists. split; [reflexivity|]. intros now' junk' rsp'.
  unfold rl_step, get_host, reset_lb_status, set_lb. cbn [route_lb_map_].
  by rewrite lookup_fmap, lookup_insert_eq.
Qed.
End Runs.

(** ** The answer to a request *)

Section Answer.
Context {F LOOP : Type} `{EventFd F}.
Context `{HO : HashOrder}.
Context (cfg : LBConfig).

Lemma get_host_from_list_host rsp ls lb rsp' ls' :
  get_host_from_list rsp ls lb = Ret (rsp', ls') ->
  exists l h, l ∈ ls /\ hosts lb !! l = Some h /\ rsp' = set_host (i32 (ip h)) (port h) rsp.
Proof.
  unfold get_host_from_list. destruct ls as [|l ls0]; [done|]. unfold host_at.
  destruct (hosts lb !! l) as [h|] eqn:E; [|done]. cbn. intros [= <- <-].
  exists l, h. split; [by left|done].
Qed.

Lemma pick_answer rsp lb ret rsp' lb' :
  lb_ok lb -> pick_one_host cfg rsp lb = Ret (ret, rsp', lb') ->
  (ret = RET_OVERLOAD /\ rsp' = rsp) \/
  (ret = RET_SUCC /\ exists h, view lb !! host_key h = Some h /\
     rsp' = set_host (i32 (ip h)) (port h) rsp).
Proof.
  intros Hok.
  assert (Hhost : forall (a : Z) ls rsp1 ls', (ls = idle_list_ lb \/ ls = overload_list_ lb) ->
    get_host_from_list rsp ls (set_access a lb) = Ret (rsp1, ls') ->
    exists h, view lb !! host_key h = Some h /\ rsp1 = set_host (i32 (ip h)) (port h) rsp).
  { intros a ls rsp1 ls' Hls (l & h & Hl & Hh & ->)%get_host_from_list_host. exists h.
  split; [|done].
    destruct Hls as [-> | ->].
    - apply (lb_idle_host lb Hok) in Hl as (h' & Hh' & _ & Hm). cbn in Hh. simplify_eq.
      by eapply lb_view_lookup.
    - apply (lb_over_host lb Hok) in Hl as (h' & Hh' & _ & Hm). cbn in Hh. simplify_eq.
      by eapply lb_view_lookup. }
  unfold pick_one_host. destruct (idle_list_ lb) as [|l il] eqn:Ei; case_match; cbv zeta;
    intros Hp; inv_res; try (by left; done); right; (split; [done|]);
    (eapply Hhost; [|eassumption]); cbn; rewrite ?Ei; auto.
Qed.

(** Whatever the balancer answers: the request's fields come back, and a
    successful answer names a host of the pair. *)
Lemma get_host_answer now junk modid cmdid rsp dq n rl ret rsp' dq' rl' :
  rl_ok n rl ->
  get_host (F := F) (LOOP := LOOP) cfg now junk modid cmdid rsp dq rl = Ret (ret, rsp', dq',
    rl') ->
  lbrss.ghs_seq rsp' = lbrss.ghs_seq rsp /\ lbrss.ghs_modid rsp' = lbrss.ghs_modid rsp /\
  lbrss.ghs_cmdid rsp' = lbrss.ghs_cmdid rsp /\
  lbrss.ghs_retcode rsp' ∈ [RET_SUCC; RET_OVERLOAD; RET_NOEXIST] /\
  (lbrss.ghs_retcode rsp' = RET_SUCC -> exists lb h,
     route_lb_map_ rl !! pack64 modid cmdid = Some lb /\
     view lb !! host_key h = Some h /\ lbrss.ghs_host rsp' = Some (host_msg h)) /\
  (lbrss.ghs_retcode rsp' <> RET_SUCC -> lbrss.ghs_host rsp' = lbrss.ghs_host rsp).
Proof.
  intros Hr. unfold get_host. destruct (route_lb_map_ rl !! _) as [lb|] eqn:E.
  - destruct (empty lb).
    + intros Hg. inv_res. cbn. split_and!; [done..|set_solver|done|done].
    + destruct (pick_one_host cfg rsp lb) as [[[r p] lb1]|] eqn:Ep; [|done]. cbn [mbind res_bind].
      apply pick_answer in Ep; [|by eapply Hr].
      destruct (pull_if_expired cfg now dq lb1) as [[dq1 lb2]|]; [|done]. intros [= <- <- <- <-].
      destruct Ep as [[-> ->]|(-> & h & Hv & ->)]; cbn; (split_and!; [done..|set_solver| |]);
        [done|done|intros _; eauto|done].
  - destruct (new_lb _ _ _ _ _) as [[dq1 rl1]|]; [|done]. intros [= <- <- <- <-]. cbn.
    split_and!; [done..|set_solver|done|done].
Qed.

Context `{Wire lbrss.GetRouteRequest, Wire lbrss.GetRouteResponse}.
Context `{Wire lbrss.ReportStatusRequest, Wire lbrss.ReportRequest}.
Context `{!Wire lbrss.GetHostRequest, !WireLaws lbrss.GetHostRequest, Wire lbrss.GetHostResponse}.
Context {ADDR : Type}.

(** A datagram with a [GetHostRequest] is answered by exactly one datagram to
    its sender: a [GetHostResponse] with the sequence number and the pair of
    the request, whose return code is [RET_SUCC] only with a host of the pair;
    the agent's state is the one [get_host] leaves.  (Both messages have to fit
    the 65519 bytes of a datagram.) *)
Lemma agent_answers_get_host ct now junk (req : lbrss.GetHostRequest) (from : ADDR) i n rl q
    (w : Udp ADDR agent_v (Agent F LOOP)) :
  let body := SerializeToString req in
  wire_ok req -> length (_read_buf w) = Z.to_nat UDP_BUF -> Z.of_nat (length body) <= 65519 ->
  (forall ret rsp dq rl',
     get_host cfg now junk (lbrss.ghq_modid req) (lbrss.ghq_cmdid req)
       (lbrss.mkGetHostResponse (lbrss.ghq_seq req) (lbrss.ghq_modid req) (lbrss.ghq_cmdid req)
         0 None)
       (Some q) rl = Ret (ret, rsp, dq, rl') ->
     Z.of_nat (length (SerializeToString rsp)) <= 65519) ->
  u_router w = agent_router i -> r_lb_at i (u_user w) = Ret rl ->
  dns_queue (u_user w) = Some q -> rl_ok n rl -> n < 2 ^ 31 - 1 -> 0 <= junk <= n ->
  exists rsp w' tr q' rl',
    do_read (agent_msg cfg ct now junk true)
      [RecvData (frame_bytes (mkFrame ID_GetHostRequest body)) from; RecvErr EAGAIN] [] w
      = Ret (w', tr) /\
    u_sent w' = u_sent w ++
      [(from, frame_bytes (mkFrame ID_GetHostResponse (SerializeToString rsp)))] /\
    u_user w' = set_r_lb i rl' (mkAgent (r_lb (u_user w)) (Some q') (report_queue (u_user w))) /\
    rl_ok (n + 1) rl' /\
    (exists ret, get_host cfg now junk (lbrss.ghq_modid req) (lbrss.ghq_cmdid req)
       (lbrss.mkGetHostResponse (lbrss.ghq_seq req) (lbrss.ghq_modid req) (lbrss.ghq_cmdid req)
         0 None)
       (Some q) rl = Ret (ret, rsp, Some q', rl')) /\
    lbrss.ghs_seq rsp = lbrss.ghq_seq req /\ lbrss.ghs_modid rsp = lbrss.ghq_modid req /\
    lbrss.ghs_cmdid rsp = lbrss.ghq_cmdid req /\
    lbrss.ghs_retcode rsp ∈ [RET_SUCC; RET_OVERLOAD; RET_NOEXIST] /\
    (lbrss.ghs_retcode rsp = RET_SUCC -> exists lb h,
       route_lb_map_ rl !! pack64 (lbrss.ghq_modid req) (lbrss.ghq_cmdid req) = Some lb /\
       view lb !! host_key h = Some h /\ lbrss.ghs_host rsp = Some (host_msg h)).
Proof.
  intros body Hok Hbuf Hlen Hrsp Hrouter Hrl Hdq Hr Hn Hj.
  set (rsp0 := lbrss.mkGetHostResponse (lbrss.ghq_seq req) (lbrss.ghq_modid req)
                 (lbrss.ghq_cmdid req) 0 None).
  destruct (get_host_total cfg now junk (lbrss.ghq_modid req) (lbrss.ghq_cmdid req) rsp0 n q rl
    Hr Hn Hj)
    as (ret & rsp & q' & rl' & Eg & Hr').
  destruct (get_host_answer _ _ _ _ _ _ _ _ _ _ _ _ Hr Eg) as (Hs & Hm & Hc & Hrc & Hh & _).
  set (f := mkFrame ID_GetHostRequest body).
  set (buf := received (frame_bytes f) (_read_buf w)).
  set (body' := SerializeToString rsp).
  assert (Hone : forall w', get_host_cb cfg now junk true (drop 8 buf)
      (Z.of_nat (length body)) i (set_received buf from w) = Ret w' ->
    do_read (agent_msg cfg ct now junk true) [RecvData (frame_bytes f) from; RecvErr EAGAIN] [] w
      = Ret (w', [(from, f)])).
  { intros w' Hw'.
    eapply (do_read_one _ f from EAGAIN get_host_f (Some (arg_lb i)));
      [done|by vm_compute| |by rewrite Hrouter|exact Hw'].
    rewrite frame_bytes_length. cbn [f_data f]. fold body.
    unfold UDP_BUF, MESSAGE_LENGTH_LIMIT, MESSAGE_HEAD_LEN. lia. }
  assert (Ht : take (length body) (drop 8 buf) = body).
  { unfold buf, received. rewrite (take_ge (frame_bytes f)).
    - unfold frame_bytes. rewrite <- app_assoc. by apply take_app_length.
    - rewrite frame_bytes_length. cbn [f_data f]. fold body.
      unfold UDP_BUF, MESSAGE_LENGTH_LIMIT, MESSAGE_HEAD_LEN. lia. }
  eexists rsp, _, _, q', rl'. split.
  - apply Hone. unfold get_host_cb. rewrite Nat2Z.id, Ht. unfold body.
    rewrite parse_serialize by done.
    cbn [u_user set_received]. rewrite Hrl, Hdq. fold rsp0. cbn [mbind res_bind]. rewrite Eg.
    cbn [mbind res_bind]. fold body'. rewrite udp_send.
    pose proof (Hrsp _ _ _ _ Eg) as Hb'. fold body' in Hb'.
    rewrite (proj2 (Z.ltb_ge 65527 _)), (proj2 (Z.ltb_ge 65519 _)) by lia.
    cbn [mbind res_bind]. reflexivity.
  - cbn [u_sent add_sent set_user set_received u_user _client_addr]. split_and!; eauto.
Qed.
End Answer.

(** ** The routing of answers *)

Section Route.
Context {F LOOP : Type} `{EventFd F}.
Context `{HO : HashOrder}.
Context (cfg : LBConfig).
Context `{!Wire lbrss.GetRouteResponse}.

(** An answer of the dns service goes to the balancers of
    [(modid + cmdid) % 3] only when that sum is not negative: a sum that
    overflows an [int] is undefined, and for a negative sum that is not a
    multiple of 3 the index is negative and [r_lb] is read out of bounds. *)
Lemma deal_recv_route_index now junk data (ag : Agent F LOOP) :
  length (r_lb ag) = 3%nat ->
  let rsp := ParseFromArray data in
  let s := lbrss.grs_modid rsp + lbrss.grs_cmdid rsp in
  deal_recv_route cfg now junk data (Z.of_nat (length data)) ag =
    if negb (i32_ok s) then Fault IntOverflow
    else if (s <? 0) && negb (s mod 3 =? 0) then Fault OutOfBounds
    else rl ← r_lb_at (s mod 3) ag;
         rl ← update_host cfg now junk (lbrss.grs_modid rsp) (lbrss.grs_cmdid rsp) rsp rl;
         Ret (set_r_lb (s mod 3) rl ag).
Proof.
  intros Hlen rsp s. unfold deal_recv_route. rewrite Nat2Z.id, firstn_all. fold rsp.
  unfold int_add. fold s. destruct (i32_ok s); [|done]. cbn [negb mbind res_bind].
  destruct ((s <? 0) && negb (s mod 3 =? 0)) eqn:E.
  - apply andb_true_iff in E as [E1%Z.ltb_lt E2%negb_true_iff%Z.eqb_neq].
    assert (Z.rem s 3 < 0) by (Z.to_euclidean_division_equations; lia).
    unfold r_lb_at. by rewrite (proj2 (Z.leb_gt 0 (Z.rem s 3))).
  - assert (Z.rem s 3 = s mod 3) as ->; [|done].
    apply andb_false_iff in E as [E%Z.ltb_ge|E%negb_false_iff%Z.eqb_eq];
      Z.to_euclidean_division_equations; lia.
Qed.
End Route.

(** ** Witnesses *)

Module AgentExample.
Definition Q := ThreadQueue lbrss.GetRouteRequest N unit.
Definition RQ := ThreadQueue lbrss.ReportStatusRequest N unit.
Definition q : Q := ThreadQueue_new 0%N.
Definition rq : RQ := ThreadQueue_new 0%N.
(** The pair 1/2 is served by the hosts of [LbExample]. *)
Definition rl : RouteLB := set_lb (pack64 1 2) LbExample.lb (RouteLB_new 1).
Definition ag : Agent N unit := mkAgent [rl; RouteLB_new 2; RouteLB_new 3] (Some q) (Some rq).

Lemma rl_is_ok n : 0 <= n -> rl_ok n rl.
Proof.
  intros Hn. apply set_lb_ok; [apply RouteLB_new_ok|].
  split; [apply LbExample.lb_example_ok|]. split; [by vm_compute; split|]. by vm_compute.
Qed.

Definition req : lbrss.GetHostRequest := lbrss.mkGetHostRequest 7 1 2.
End AgentExample.
Import AgentExample FixedOrder.

Lemma agent_never_faults_witness :
  exists st', rl_step (F := N) (LOOP := unit) LbExample.cfg
    (OGetHost 1000 0 1 2 (lbrss.mkGetHostResponse 7 1 2 0 None))
    (Some q, Some rq, RouteLB_new 1) = Ret st'.
Proof.
  refine (proj2 (agent_never_faults LbExample.cfg 0 0 (Some q, Some rq, RouteLB_new 1)
    (OGetHost 1000 0 1 2 (lbrss.mkGetHostResponse 7 1 2 0 None)) _ _ _)).
  - constructor.
  - reflexivity.
  - cbn. lia.
Defined.

Lemma reconnect_aborts_agent_witness :
  exists st, rl_step (F := N) (LOOP := unit) LbExample.cfg
      (OGetHost 1000 0 1 2 (lbrss.mkGetHostResponse 7 1 2 0 None))
      (Some q, Some rq, RouteLB_new 1) = Ret st /\
    exists st', rl_step LbExample.cfg OReset st = Ret st' /\
      forall now junk rsp, rl_step LbExample.cfg (OGetHost now junk 1 2 rsp) st' = Fault
        AssertFail.
Proof.
  exact (reconnect_aborts_agent LbExample.cfg 1000 0 1 2
    (lbrss.mkGetHostResponse 7 1 2 0 None) q (Some rq) (RouteLB_new 1) eq_refl).
Defined.
