(* ===== verification/Links.v ===== *)
(** * Links: what the round trips between the processes share

    The environment of a round trip (kernels that take what is written, in any
    portions, and a network that delivers it in any pieces), and the client's
    side: a queue of requests is drained into the client's output. *)

From S2P Require Import Prelude CInt.
From S2P Require Import IOBuf BufAlloc BufPool ReactorBuf Message ThreadQueue NetState Framing.
From S2P Require Import TcpConnInv.
From S2P Require TcpClient.
From S2P Require Import TcpClientSpec.
From S2P Require Import EventLoop.
From S2P Require Import Proto RouteLB.
From Stdlib Require Import Strings.Byte.
Local Open Scope Z_scope.

(** The answers of the kernel to [n] bytes that are to be written: in the end
    all of them are. *)
Definition takes_all (ws : nat -> list wr_ans) : Prop := forall n, drain (ws n) n = Some (1, n).

Section Delivery.
Context {P : Type} `{BufAlloc P}.

(** How the network delivers a stream: in pieces that fit. *)
Definition delivers (cut : list byte -> list (list byte)) : Prop := forall bs,
  concat (cut bs) = bs /\
  Forall (fun d => d <> [] /\ Z.of_nat (length d) + 65535 <= ba_max) (cut bs).
End Delivery.

Lemma frames_parse fs : Forall frame_ok fs -> parse (concat (frame_bytes <$> fs)) = (fs, More []).
Proof.
  intros Hf. pose proof (parse_frames fs [] Hf) as Hp.
  by rewrite !app_nil_r, parse_nil, app_nil_r in Hp.
Qed.

(** *** The client's queue *)

Section SendAll.
Context {E V U : Type} `{EL : EpollLaws E} {A : Type} `{Wire A}.
Local Abbreviation Cli := (TcpClient.Cli E V U).

Definition msg_frame (id : Z) (a : A) : frame := mkFrame id (SerializeToString a).
Definition msg_bytes (id : Z) (msgs : list A) : list byte :=
  concat (frame_bytes <$> (msg_frame id <$> msgs)).

(** When they all fit into the client's buffer, the messages are queued behind
    one another. *)
Lemma send_all_ok id msgs : forall (w : Cli) ib ob,
  cli_ok w ib ob -> TcpClient.connected (TcpClient.cl w) = Some true ->
  Z.of_nat (length ob + length (msg_bytes id msgs)) <= TcpClient.CLIENT_BUF ->
  safe (send_all TcpClient.send_message id msgs w) (fun w' =>
    cli_ok w' ib (ob ++ msg_bytes id msgs) /\
    TcpClient.connected (TcpClient.cl w') = Some true /\
    TcpClient._router (TcpClient.cl w') = TcpClient._router (TcpClient.cl w) /\
    TcpClient.cl_user w' = TcpClient.cl_user w).
Proof.
  induction msgs as [|a msgs IH]; intros w ib ob Hok Hcn Hfit.
  { cbn. by rewrite app_nil_r. }
  change (msg_bytes id (a :: msgs)) with (frame_bytes (msg_frame id a) ++ msg_bytes id msgs) in *.
  rewrite length_app, frame_bytes_length in Hfit. cbn [f_data msg_frame] in Hfit.
  cbn [send_all]. set (data := SerializeToString a) in *.
  unfold TcpClient.CLIENT_BUF in Hfit.
  pose proof (send_step data id w ib ob Hok ltac:(lia)) as Hs. rewrite Hcn in Hs.
  unfold TcpClient.CLIENT_BUF in Hs. rewrite (proj2 (Z.ltb_ge _ _)) in Hs by lia.
  eapply safe_bind; [exact Hs|]. intros [ret w1] (_ & Hok1 & _ & Hcn1 & Hrt1 & Hu1 & _).
  eapply safe_mono; [apply (IH w1 ib _ Hok1 Hcn1)|].
  - rewrite length_app, frame_bytes_length. cbn [f_data]. fold data.
    unfold TcpClient.CLIENT_BUF. lia.
  - intros w' (Hok' & Hcn' & Hrt' & Hu'). rewrite <- app_assoc in Hok'.
    split; [exact Hok'|]. split; [done|]. split; congruence.
Qed.
End SendAll.

(** *** An environment *)

(** The kernel takes everything at once; the network delivers single bytes. *)
Definition whole (n : nat) : list wr_ans := [WrOk (Z.of_nat n)].
Definition single (bs : list byte) : list (list byte) := (fun b => [b]) <$> bs.

Lemma whole_takes_all : takes_all whole.
Proof.
  intros [|n]; [done|]. unfold whole. cbn [drain].
  rewrite (proj2 (Z.eqb_neq _ _)) by lia. rewrite (proj2 (Z.ltb_ge (Z.of_nat (S n)) 0)) by lia.
  rewrite (proj2 (Z.ltb_ge (Z.of_nat (S n)) (Z.of_nat (S n)))) by lia. cbn [orb].
  rewrite Nat2Z.id, Nat.sub_diag. cbn. by rewrite Nat.add_0_r.
Qed.

Lemma single_delivers : delivers (P := BufPool) single.
Proof.
  intros bs. split.
  - induction bs as [|b bs IH]; [done|]. cbn. by f_equal.
  - apply Forall_fmap, Forall_forall. intros b _. split; [done|].
    change ba_max with m8M. unfold m8M. cbn. lia.
Qed.
