(* ===== verification/ClientLoop.v ===== *)
(** * ClientLoop: the thread of a TCP client (reactor/src/tcp_client.cpp,
    eventloop.cpp)

    A thread that runs [event_process] on the loop of one [TCPClient] and of one
    message queue, as dns_client_thread and report_client_thread do.  The
    invariant [cli_watched] says what the client has received and not processed
    and what it has to send, and that the loop watches the socket for reading,
    for writing exactly while there is something to send, and the queue.  Each
    event that the kernel can report then is handled without a fault, and its
    effect is given exactly. *)

From S2P Require Import Prelude CInt.
From S2P Require Import Mem IOBuf ReactorBuf Message EventLoop NetState Framing TcpConnInv.
From S2P Require Import ServerLoop.
From S2P Require Import TcpClient TcpClientSpec.
From S2P Require Import Proto RouteLB.
From S2P Require Import Links.
From Stdlib Require Import Strings.Byte.
Local Open Scope Z_scope.

(** What the kernel answers to a callback: to [ioctl] and [read] and, should the
    connection be lost, to the reconnection; to the writes and to theirs; to
    [getsockopt]. *)
Inductive cli_answer : Type :=
  | CliRead (ioctl : option Z) (rs : list rd_ans) (a : sock_ans)
  | CliWrite (ws : list wr_ans) (cs : list sock_ans)
  | CliConnect (result : Z).

Section Thread.
Context {E V U : Type} `{Epoll E}.
Local Abbreviation Cli := (Cli E V U).
Local Abbreviation Loop := (EventLoop (io_cb V) (io_arg V) (V * option V) E).

(** The client with its loop, the answers to come, and what the thread has done:
    the messages handed to the router, the bytes written with their sockets. *)
Record CliThread : Type := mkCliThread {
  ct_cli : Cli;
  ct_in : list cli_answer;
  ct_calls : list (Z * option (list byte));
  ct_sent : list (Z * list byte)
}.

Definition ct_loop (t : CliThread) : Loop := cl_loop (ct_cli t).
Definition set_ctloop (L : Loop) (t : CliThread) : CliThread :=
  mkCliThread (set_cloop L (ct_cli t)) (ct_in t) (ct_calls t) (ct_sent t).

Variable run_msg : V -> option (list byte) -> Z -> Z -> option V -> Cli -> res Cli.
Variable run_hook : V -> Cli -> res Cli.
(** The callbacks of the application, which get the client. *)
Variable run_user : V -> Cli -> res Cli.
Variable run_task : V * option V -> CliThread -> res CliThread.

(** The callbacks on a client's loop. *)
Definition cli_cb (cb : io_cb V) (fd : Z) (arg : option (io_arg V)) (t : CliThread)
    : res CliThread :=
  match cb, arg, ct_in t with
  | cli_read_callback, Some arg_client, CliRead ioctl rs a :: ins =>
      '(_, w, tr) ← do_read run_msg run_hook ioctl rs a (ct_cli t);
      Ret (mkCliThread w ins (ct_calls t ++ tr) (ct_sent t))
  | cli_write_callback, Some arg_client, CliWrite ws cs :: ins =>
      '(w, out) ← do_write run_hook ws cs (ct_cli t);
      Ret (mkCliThread w ins (ct_calls t) (ct_sent t ++ out))
  | cli_connection_delay, Some arg_client, CliConnect result :: ins =>
      w ← connection_delay run_hook fd result (ct_cli t);
      Ret (mkCliThread w ins (ct_calls t) (ct_sent t))
  | user_cb v, Some arg_client, ins =>
      w ← run_user v (ct_cli t);
      Ret (mkCliThread w ins (ct_calls t) (ct_sent t))
  | _, _, _ => Fault Blocked
  end.

(** One turn of the loop, for the events that [epoll_wait] reports. *)
Definition cli_turn (fired : list (Z * Z)) (t : CliThread) : res CliThread :=
  event_process ct_loop set_ctloop cli_cb run_task fired t.

Definition with_cli_answers (ins : list cli_answer) (t : CliThread) : CliThread :=
  mkCliThread (ct_cli t) ins (ct_calls t) (ct_sent t).
End Thread.
Arguments CliThread : clear implicits.

(** ** The invariant *)

Section Inv.
Context {E V U : Type} `{EL : EpollLaws E}.
Local Abbreviation Cli := (Cli E V U).
Local Abbreviation CliThread := (CliThread E V U).

(** How the socket is watched while [ob] is to be sent. *)
Definition sock_watched (ob : list byte) (ev : IOEvent (io_cb V) (io_arg V)) : Prop :=
  read_callback ev = Some cli_read_callback /\ rcb_args ev = Some arg_client /\
  has_in (mask ev) = true /\ has_out (mask ev) = negb (bool_decide (ob = [])) /\
  (ob <> [] -> write_callback ev = Some cli_write_callback /\ wcb_args ev = Some arg_client).

(** The client on the socket [fd] and the queue's descriptor [qfd] with its
    callback [qcb]. *)
Record cli_watched (fd qfd : Z) (qcb : V) (w : Cli) ib ob : Prop := {
  cw_ok : cli_ok w ib ob;
  cw_conn : connected (cl w) = Some true;
  cw_fd : _sockfd (cl w) = fd;
  cw_ne : fd <> qfd;
  cw_sock : exists ev, io_evs (cl_loop w) !! fd = Some ev /\ sock_watched ob ev;
  cw_queue : exists ev, io_evs (cl_loop w) !! qfd = Some ev /\
    read_callback ev = Some (user_cb qcb) /\ rcb_args ev = Some arg_client;
  cw_tasks : elts (ready_tasks (cl_loop w)) = []
}.

(** Only the input buffer and the application's state differ. *)
Definition same_out (w w' : Cli) : Prop :=
  _obuf (cl w') = _obuf (cl w) /\ _sockfd (cl w') = _sockfd (cl w) /\
  connected (cl w') = connected (cl w) /\ _router (cl w') = _router (cl w) /\
  cl_loop w' = cl_loop w.

(** *** Sending *)

(** [send_message] changes the output buffer, and watches the socket if it was
    empty. *)
Lemma send_message_frame data len id (w : Cli) ret w' :
  send_message data len id w = Ret (ret, w') ->
  _ibuf (cl w') = _ibuf (cl w) /\ _sockfd (cl w') = _sockfd (cl w) /\
  connected (cl w') = connected (cl w) /\ _router (cl w') = _router (cl w) /\
  cl_user w' = cl_user w /\
  cl_loop w' =
    (if (ret =? 0) && (io_length (_obuf (cl w)) =? 0)
     then add_io_event (_sockfd (cl w)) cli_write_callback EPOLLOUT (Some arg_client) (cl_loop w)
     else cl_loop w).
Proof.
  unfold send_message. destruct (connected (cl w)) as [[]|] eqn:Ec; cbn;
    [|by intros [= <- <-]|done].
  destruct (int_add len MESSAGE_HEAD_LEN) as [sz|]; [|done]. cbn [mbind res_bind].
  destruct (_ <? sz); [by intros [= <- <-]|].
  destruct (append _ _) as [b1|]; [|done]. cbn [mbind res_bind].
  destruct (check _ _); [|done]. cbn [mbind res_bind].
  destruct (append _ b1) as [b2|]; [|done]. cbn [mbind res_bind]. intros [= <- <-].
  destruct (io_length (_obuf (cl w)) =? 0); cbn; rewrite ?Ec; done.
Qed.

Lemma watch_out fd a (L : EventLoop (io_cb V) (io_arg V) (V * option V) E) ev bs :
  a = Some arg_client -> bs <> [] -> io_evs L !! fd = Some ev -> sock_watched [] ev ->
  exists ev', io_evs (add_io_event fd cli_write_callback EPOLLOUT a L) !! fd = Some ev' /\
    sock_watched bs ev'.
Proof.
  intros -> Hbs Hev (Hr & Ha & Hin & _). eexists. split; [by apply add_io_event_out|].
  unfold sock_watched. cbn. rewrite has_in_lor, has_out_lor, Hin, orb_true_r.
  by rewrite bool_decide_eq_false_2.
Qed.

Lemma send_watched fd qfd qcb data id (w : Cli) ib ob :
  cli_watched fd qfd qcb w ib ob -> Z.of_nat (length data) <= 2 ^ 30 ->
  let n := Z.of_nat (length ob) + 8 + Z.of_nat (length data) in
  safe (send_message data (Z.of_nat (length data)) id w) (fun '(_, w') =>
    cli_watched fd qfd qcb w' ib
      (if CLIENT_BUF <? n then ob else ob ++ frame_bytes (mkFrame id data)) /\
    _router (cl w') = _router (cl w) /\ cl_user w' = cl_user w).
Proof.
  intros I Hd n. pose proof (send_step data id w ib ob (cw_ok _ _ _ _ _ _ I) Hd) as Hs.
  rewrite (cw_conn _ _ _ _ _ _ I) in Hs. fold n in Hs.
  destruct (CLIENT_BUF <? n); [by rewrite Hs|].
  apply safe_Ret in Hs as ([ret w'] & Es & -> & Hok & Hfd & Hcn & Hrt & Hu & _).
  rewrite Es. cbn. split; [|done].
  apply send_message_frame in Es as (_ & _ & _ & _ & _ & El).
  rewrite (buf_ok_length _ _ (ck_out _ _ _ (cw_ok _ _ _ _ _ _ I))) in El. cbn [Z.eqb andb] in El.
  destruct I as [Hok0 Hcn0 Hfd0 Hne (ev & Hev & Hsw) (qev & Hqev & Hq) Ht].
  rewrite Hfd0 in El, Hfd.
  assert (Hfr : ob ++ frame_bytes (mkFrame id data) <> []).
  { intros He. apply (f_equal length) in He. rewrite length_app, frame_bytes_length in He. cbn in
      He.
    lia. }
  split; [done|done|done|done| | |].
  - rewrite El. destruct (Z.eqb_spec (Z.of_nat (length ob)) 0) as [E0|E0].
    + apply (watch_out fd _ _ ev); [done|exact Hfr|done|]. by destruct ob.
    + exists ev. split; [done|]. destruct Hsw as (? & ? & ? & Hout & Hw).
      assert (ob <> []) by (by intros ->). unfold sock_watched.
      rewrite bool_decide_eq_false_2 in Hout |- * by done. naive_solver.
  - exists qev. rewrite El. split; [|done].
    destruct (Z.of_nat (length ob) =? 0); [by rewrite add_io_event_other|done].
  - rewrite El. destruct (Z.of_nat (length ob) =? 0); [by rewrite add_io_event_tasks|done].
Qed.

(** Of the messages of a queue, those that find room are sent; the others are
    refused and lost. *)
Section SendAll.
Context {A : Type} `{Wire A}.

Fixpoint accepted (room : Z) (msgs : list A) : list A :=
  match msgs with
  | [] => []
  | a :: msgs =>
      let n := 8 + Z.of_nat (length (SerializeToString a)) in
      if room <? n then accepted room msgs else a :: accepted (room - n) msgs
  end.

Lemma accepted_all room msgs id :
  Z.of_nat (length (msg_bytes id msgs)) <= room -> accepted room msgs = msgs.
Proof.
  revert room. induction msgs as [|a msgs IH]; intros room Hr; [done|].
  change (msg_bytes id (a :: msgs)) with (frame_bytes (msg_frame id a) ++ msg_bytes id msgs) in Hr.
  rewrite length_app, frame_bytes_length in Hr. cbn [f_data msg_frame] in Hr. cbn [accepted].
  rewrite (proj2 (Z.ltb_ge _ _)) by lia. f_equal. apply IH. lia.
Qed.

Lemma accepted_sublist room msgs : accepted room msgs `sublist_of` msgs.
Proof.
  revert room. induction msgs as [|a msgs IH]; intros room; cbn; [done|].
  case_match; by constructor.
Qed.

Lemma send_all_watched fd qfd qcb id msgs : forall (w : Cli) ib ob,
  cli_watched fd qfd qcb w ib ob ->
  Forall (fun a => Z.of_nat (length (SerializeToString a)) <= 2 ^ 30) msgs ->
  safe (send_all send_message id msgs w) (fun w' =>
    cli_watched fd qfd qcb w' ib
      (ob ++ msg_bytes id (accepted (CLIENT_BUF - Z.of_nat (length ob)) msgs)) /\
    _router (cl w') = _router (cl w) /\ cl_user w' = cl_user w).
Proof.
  induction msgs as [|a msgs IH]; intros w ib ob I Hm; cbn [send_all accepted].
  { cbn. by rewrite app_nil_r. }
  apply Forall_cons in Hm as [Ha Hm]. set (data := SerializeToString a) in *.
  eapply safe_bind; [by apply (send_watched fd qfd qcb data id w ib ob)|].
  intros [ret w1] (I1 & Hrt1 & Hu1). cbv zeta in I1.
  set (n := 8 + Z.of_nat (length data)).
  assert (En : (CLIENT_BUF - Z.of_nat (length ob) <? n) =
    (CLIENT_BUF <? Z.of_nat (length ob) + 8 + Z.of_nat (length data))).
  { unfold n. destruct (Z.ltb_spec (CLIENT_BUF - Z.of_nat (length ob))
      (8 + Z.of_nat (length data)));
      symmetry; [apply Z.ltb_lt|apply Z.ltb_ge]; lia. }
  rewrite En. destruct (CLIENT_BUF <? _).
  - eapply safe_mono; [by apply (IH w1 ib ob I1)|]. intros w' (? & ? & ?).
    split; [done|]. split; congruence.
  - eapply safe_mono; [by apply (IH w1 ib _ I1)|]. intros w' (I' & ? & ?).
    split; [|split; congruence]. rewrite <- app_assoc in I'.
    change (msg_bytes id (a :: ?x)) with (frame_bytes (mkFrame id data) ++ msg_bytes id x).
    rewrite length_app, frame_bytes_length in I'. cbn [f_data] in I'.
    replace (CLIENT_BUF - Z.of_nat (length ob) - n) with
      (CLIENT_BUF - Z.of_nat (length ob + (8 + length data))) by (unfold n; lia).
    exact I'.
Qed.
End SendAll.
End Inv.

(** ** The turns *)

Section Turns.
Context {E V U : Type} `{EL : EpollLaws E}.
Local Abbreviation Cli := (Cli E V U).
Local Abbreviation CliThread := (CliThread E V U).
Context (run_msg : V -> option (list byte) -> Z -> Z -> option V -> Cli -> res Cli).
Context (run_hook : V -> Cli -> res Cli) (run_user : V -> Cli -> res Cli).
Context (run_task : V * option V -> CliThread -> res CliThread).
Local Abbreviation turn := (cli_turn run_msg run_hook run_user run_task).

(** The handlers only work on the application's state, and do not exit. *)
Context (hmsg : V -> option (list byte) -> Z -> Z -> option V -> U -> res U).
Hypothesis run_msg_user : forall cb data len id arg w,
  run_msg cb data len id arg w = (u ← hmsg cb data len id arg (cl_user w); Ret (set_cuser u w)).
Hypothesis run_msg_stays : forall cb data len id arg w,
  run_msg cb data len id arg w <> Fault ExitFail.

(** What the handlers make of the messages [fs]. *)
Fixpoint handle_frames (rt : MsgRouter V V) (fs : list frame) (u : U) : res U :=
  match fs with
  | [] => Ret u
  | f :: fs =>
      u ← (match call (f_id f) rt with
           | None => Ret u
           | Some (cb, arg) =>
               hmsg cb (Some (f_data f)) (Z.of_nat (length (f_data f))) (f_id f) arg u
           end);
      handle_frames rt fs u
  end.

Lemma cli_read_loop_stays fuel : forall tr w, cli_read_loop run_msg fuel tr w <> Fault ExitFail.
Proof.
  induction fuel as [|fuel IH]; intros tr w; [done|]. cbn [cli_read_loop].
  destruct (_ <? _); [done|]. destruct (in_array _ _ _); [|done]. cbn [check mbind res_bind].
  destruct (_ ≫= _); [|done]. unfold cli_call.
  destruct (call _ _) as [[cb arg]|]; cbn [mbind res_bind]; [|apply IH].
  destruct (run_msg _ _ _ _ _ _) eqn:Er; cbn [mbind res_bind]; [apply IH|].
  intros [= ->]. by apply run_msg_stays in Er.
Qed.

Lemma adjust_stays b : adjust b <> Fault ExitFail.
Proof.
  unfold adjust. destruct (_ =? 0); [done|]. destruct (_ =? 0); [done|].
  by destruct (in_array _ _ _).
Qed.

Lemma do_read_stays n bs rs a w :
  bs <> [] -> do_read run_msg run_hook (Some n) (RdData bs :: rs) a w <> Fault ExitFail.
Proof.
  intros Hbs. unfold do_read. destruct (connected (cl w)) as [[]|]; [|done..].
  cbn [mbind res_bind c_assert]. destruct (n <=? _); [|done].
  cbn [c_assert mbind res_bind read_retry]. destruct bs as [|x bs]; [done|].
  destruct (_ =? n); [|done]. cbn [c_assert mbind res_bind].
  destruct (append _ _) as [b|f] eqn:Ea; cbn [mbind res_bind].
  2: { unfold append, check in Ea. destruct (in_array _ _ _); cbn in Ea; by simplify_eq. }
  destruct (cli_read_loop _ _ _ _) as [[w' tr]|f] eqn:El; cbn [mbind res_bind].
  2: { intros [= ->]. by apply cli_read_loop_stays in El. }
  destruct (adjust _) as [b'|f] eqn:Eb; cbn [mbind res_bind]; [done|].
  intros [= ->]. by apply adjust_stays in Eb.
Qed.

Lemma exits_or_safe {A} (m : res A) Q : exits_or m Q -> m <> Fault ExitFail -> safe m Q.
Proof. by destruct m as [|[]]. Qed.

(** The handlers see the messages one after another. *)
Lemma frames_handled w u' :
  handles run_msg (fun fs w' => same_out w w' /\
    handle_frames (_router (cl w)) fs (cl_user w') = Ret u').
Proof.
  split; [by intros fs w1 b|]. intros f fs w1 [Hs Hh] len Hd. cbn [handle_frames] in Hh.
  unfold cli_call. pose proof Hs as (Ho & Hfd & Hcn & Hrt & Hl). rewrite Hrt.
  destruct (call (f_id f) (_router (cl w))) as [[cb arg]|]; [|done].
  rewrite run_msg_user, Hd. fold len in Hh.
  destruct (decide (is_u32 len)) as [Hu|Hu].
  - rewrite u32_id by done. destruct (hmsg _ _ _ _ _ _) as [u1|]; [|done]. done.
  - exfalso. unfold cli_data in Hd. destruct (in_array _ _ _) eqn:Ea; [|done].
    apply in_array_spec in Ea. apply mread_length in Hd. unfold len, is_u32 in *.
    pose proof (u32_is (Z.of_nat (length (f_data f)))). unfold is_u32 in *. lia.
Qed.

Lemma read_handled data rs a w ib ob fs tl u' :
  cli_ok w ib ob -> connected (cl w) = Some true -> data <> [] ->
  Z.of_nat (length ib + length data) <= CLIENT_BUF ->
  ib ++ data = concat (frame_bytes <$> fs) ++ tl -> Forall TcpClientSpec.wire_ok fs ->
    (length tl < 8)%nat ->
  handle_frames (_router (cl w)) fs (cl_user w) = Ret u' ->
  safe (do_read run_msg run_hook (Some (Z.of_nat (length data))) (RdData data :: rs) a w)
    (fun '(_, w', tr) => tr = (delivered <$> fs) /\ cli_ok w' tl ob /\ same_out w w' /\
      cl_user w' = u').
Proof.
  intros Hok Hcn Hd Hfit Hcut Hfs Htl Hh. apply exits_or_safe; [|by apply do_read_stays].
  eapply exits_or_mono.
  - by apply (read_step run_msg run_hook _ (frames_handled w u') data rs a w ib ob fs tl).
  - intros [[ret w'] tr] (_ & -> & Hi & Hs & [= Hu]). split; [done|]. split; [|done].
    split; [done|]. destruct Hs as (-> & _). apply Hok.
Qed.

(** A turn whose callback leaves no task. *)
Lemma quiet_turn fd m t t' :
  dispatch ct_loop set_ctloop (cli_cb run_msg run_hook run_user) fd m t = Ret t' ->
  elts (ready_tasks (ct_loop t')) = [] ->
  turn [(fd, m)] t = Ret (set_ctloop (clear_tasks (ct_loop t')) t').
Proof.
  intros Hd Ht. unfold cli_turn, event_process. cbn [dispatch_all]. rewrite Hd.
  cbn [mbind res_bind dispatch_all]. unfold execute_ready_tasks.
  destruct (vcap _); cbn [exec_tasks]; by rewrite Ht.
Qed.

Lemma watched_clear fd qfd (qcb : V) (w : Cli) ib ob :
  cli_watched fd qfd qcb w ib ob ->
  cli_watched fd qfd qcb (set_cloop (clear_tasks (cl_loop w)) w) ib ob.
Proof.
  intros [[Hi Ho] Hcn Hfd Hne Hs Hq Ht].
  split; [by split|exact Hcn|exact Hfd|exact Hne|exact Hs|exact Hq|done].
Qed.

(** The read callback of a watched socket or queue. *)
Lemma dispatch_read fd m t ev cb arg :
  io_evs (ct_loop t) !! fd = Some ev -> is_read m = true ->
  read_callback ev = Some cb -> rcb_args ev = arg ->
  dispatch ct_loop set_ctloop (cli_cb run_msg run_hook run_user) fd m t =
    cli_cb run_msg run_hook run_user cb fd arg t.
Proof.
  intros Hev Hm Hr <-. unfold dispatch. rewrite Hev, Hr. unfold is_read, has_in, has_out in Hm.
  destruct (negb (Z.land m EPOLLIN =? 0)); [done|]. cbn [orb] in Hm.
  apply andb_true_iff in Hm as [Hm1 Hm2]. apply negb_true_iff in Hm1. by rewrite Hm1, Hm2.
Qed.

Lemma dispatch_write fd m t ev cb arg :
  io_evs (ct_loop t) !! fd = Some ev -> is_write m = true ->
  write_callback ev = Some cb -> wcb_args ev = arg ->
  dispatch ct_loop set_ctloop (cli_cb run_msg run_hook run_user) fd m t =
    cli_cb run_msg run_hook run_user cb fd arg t.
Proof.
  intros Hev Hm Hr <-. unfold dispatch. rewrite Hev, Hr. unfold is_write, has_in, has_out in Hm.
  apply andb_true_iff in Hm as [Hm1 Hm2]. apply negb_true_iff in Hm1. by rewrite Hm1, Hm2.
Qed.

Context (fd qfd : Z) (qcb : V).
Local Abbreviation watched t := (cli_watched fd qfd qcb (ct_cli t)).

(** Data arrives that ends with a whole message or inside a head: the messages
    are handed to the router, in order, and nothing else changes. *)
Lemma read_turn m data rs a t ib ob fs tl u' :
  watched t ib ob -> is_read m = true -> data <> [] ->
  Z.of_nat (length ib + length data) <= CLIENT_BUF ->
  ib ++ data = concat (frame_bytes <$> fs) ++ tl -> Forall TcpClientSpec.wire_ok fs ->
    (length tl < 8)%nat ->
  handle_frames (_router (cl (ct_cli t))) fs (cl_user (ct_cli t)) = Ret u' ->
  safe (turn [(fd, m)] (with_cli_answers
          [CliRead (Some (Z.of_nat (length data))) (RdData data :: rs) a] t))
    (fun t' => watched t' tl ob /\ cl_user (ct_cli t') = u' /\
      _router (cl (ct_cli t')) = _router (cl (ct_cli t)) /\
      ct_calls t' = ct_calls t ++ (delivered <$> fs) /\ ct_sent t' = ct_sent t).
Proof.
  intros I Hm Hd Hfit Hcut Hfs Htl Hh. pose proof I as [Hok Hcn Hfd Hne (ev & Hev & Hsw) Hq Ht].
  pose proof (read_handled data rs a _ ib ob fs tl u' Hok Hcn Hd Hfit Hcut Hfs Htl Hh) as Hr.
  apply safe_Ret in Hr as ([[ret w'] tr] & Er & -> & Hok' & Hs & Hu).
  destruct Hs as (_ & Hfd' & Hcn' & Hrt & Hl).
  assert (I' : cli_watched fd qfd qcb w' tl ob).
  { split; [done|congruence|congruence|done|rewrite Hl; eauto|by rewrite Hl|by rewrite Hl]. }
  erewrite quiet_turn.
  2: { erewrite dispatch_read; [|exact Hev|exact Hm|apply Hsw|apply Hsw].
       cbn [cli_cb ct_in with_cli_answers ct_cli]. rewrite Er. cbn [mbind res_bind]. reflexivity. }
  - cbn. split; [by apply watched_clear|done].
  - apply I'.
Qed.

(** There is something to send: the kernel takes [s] bytes of it. *)
Lemma write_turn m ws cs t ib ob r s :
  watched t ib ob -> is_write m = true -> ob <> [] ->
  drain ws (length ob) = Some (r, s) -> r <> -1 ->
  safe (turn [(fd, m)] (with_cli_answers [CliWrite ws cs] t))
    (fun t' => watched t' ib (drop s ob) /\ cl_user (ct_cli t') = cl_user (ct_cli t) /\
      _router (cl (ct_cli t')) = _router (cl (ct_cli t)) /\ ct_calls t' = ct_calls t /\
      exists out, ct_sent t' = ct_sent t ++ out /\ Forall (fun x => x.1 = fd) out /\
        concat out.*2 = take s ob).
Proof.
  intros I Hm Hne Hd Hr. pose proof I as [Hok Hcn Hfd Hnq (ev & Hev & Hsw) (qev & Hqev & Hq) Ht].
  pose proof (client_do_write_drains run_hook ws cs _ ib ob r s Hok Hne Hd Hr) as Hw.
  apply safe_Ret in Hw as ([w' tr] & Ew & Hok' & Htr & Hs & Hcn' & Hrt & Hu).
  assert (Hlw : _sockfd (cl w') = fd /\ cl_loop w' =
    if bool_decide (drop s ob = []) then del_io_event_mask fd EPOLLOUT (cl_loop (ct_cli t))
    else cl_loop (ct_cli t)).
  { unfold do_write in Ew. destruct (c_assert _); [|done]. cbn [mbind res_bind] in Ew.
    pose proof (cli_write_loop_ok run_hook ws cs _ ob [] r s (ck_out _ _ _ Hok) Hd Hr) as Hl.
    apply safe_Ret in Hl as ([w1 tr1] & E1 & b & sent & -> & Hb & _). rewrite E1 in Ew.
    cbn [mbind res_bind] in Ew. cbn [cl set_obuf set_cl _obuf] in Ew.
    rewrite (buf_ok_length _ _ Hb) in Ew.
    destruct (Z.eqb_spec (Z.of_nat (length (drop s ob))) 0) as [E0|E0]; injection Ew as <- <-;
      (split; [exact Hfd|]); cbn [cl_loop set_cloop set_obuf set_cl _sockfd cl].
    - rewrite (bool_decide_eq_true_2 (drop s ob = [])) by (apply nil_length_inv; lia).
      by rewrite Hfd.
    - rewrite (bool_decide_eq_false_2 (drop s ob = [])); [done|].
      intros Hz. by rewrite Hz in E0. }
  destruct Hlw as [Hfd' Hl].
  assert (I' : cli_watched fd qfd qcb w' ib (drop s ob)).
  { destruct Hsw as (Hrd & Hra & Hin & Hout & Hwr). destruct (Hwr Hne) as [Hwc Hwa].
    split; [done|congruence|done|done| | |].
    - rewrite Hl. case_bool_decide as He.
      + eexists. split; [by apply (del_io_event_mask_out _ _ ev)|]. unfold sock_watched. cbn.
        rewrite has_in_land, has_out_land, Hin, andb_false_r. by rewrite bool_decide_eq_true_2.
      + exists ev. split; [done|]. unfold sock_watched.
        rewrite bool_decide_eq_false_2 in Hout |- * by done. done.
    - exists qev. rewrite Hl. split; [|done].
      case_bool_decide; [by rewrite del_io_event_mask_other|done].
    - rewrite Hl. case_bool_decide; [by rewrite del_io_event_mask_tasks|done]. }
  destruct Hsw as (_ & _ & _ & _ & Hwr). destruct (Hwr Hne) as [Hwc Hwa].
  erewrite quiet_turn.
  2: { erewrite dispatch_write; [|exact Hev|exact Hm|exact Hwc|exact Hwa].
       cbn [cli_cb ct_in with_cli_answers ct_cli]. rewrite Ew. cbn [mbind res_bind]. reflexivity. }
  - cbn. split; [by apply watched_clear|]. split_and!; [done..|]. exists tr.
    split; [done|]. split; [|done]. by rewrite <- Hfd.
  - apply I'.
Qed.

(** The queue has something: its callback runs. *)
Lemma queue_turn m t ib ob ib' ob' (Q : U -> MsgRouter V V -> Prop) :
  watched t ib ob -> is_read m = true ->
  safe (run_user qcb (ct_cli t)) (fun w' => cli_watched fd qfd qcb w' ib' ob' /\
    Q (cl_user w') (_router (cl w'))) ->
  safe (turn [(qfd, m)] (with_cli_answers [] t))
    (fun t' => watched t' ib' ob' /\ Q (cl_user (ct_cli t')) (_router (cl (ct_cli t'))) /\
      ct_calls t' = ct_calls t /\ ct_sent t' = ct_sent t).
Proof.
  intros I Hm Hu. pose proof I as [Hok Hcn Hfd Hnq _ (qev & Hqev & Hq & Hqa) Ht].
  apply safe_Ret in Hu as (w' & Eu & I' & HQ).
  erewrite quiet_turn.
  2: { erewrite dispatch_read; [|exact Hqev|exact Hm|exact Hq|exact Hqa].
       cbn [cli_cb ct_in with_cli_answers ct_cli]. rewrite Eu. cbn [mbind res_bind]. reflexivity. }
  - cbn. split; [by apply watched_clear|done].
  - apply I'.
Qed.
End Turns.

(** ** The start *)

Section Start.
Context {E V U : Type} `{EL : EpollLaws E}.
Local Abbreviation Cli := (Cli E V U).
Local Abbreviation CliThread := (CliThread E V U).
Context (run_msg : V -> option (list byte) -> Z -> Z -> option V -> Cli -> res Cli).
Context (run_hook : V -> Cli -> res Cli) (run_user : V -> Cli -> res Cli).
Context (run_task : V * option V -> CliThread -> res CliThread).
Context (fd qfd : Z) (qcb : V) (Hne : fd <> qfd).
Local Abbreviation turn := (cli_turn run_msg run_hook run_user run_task).

(** The connection of [TCPClient()] is there, or under way. *)
Definition conn_begins (r : conn_ans) : Prop := r = ConnOk \/ r = ConnErr EINPROGRESS.

(** A new client that watches the queue: its buffers are empty, and the socket is
    watched for reading, or for the end of [connect]. *)
Record cli_new (r : conn_ans) (w : Cli) : Prop := {
  cn_ok : cli_ok w [] [];
  cn_fd : _sockfd (cl w) = fd;
  cn_ev : exists ev, io_evs (cl_loop w) !! fd = Some ev /\
    match r with
    | ConnOk => connected (cl w) = Some true /\ sock_watched [] ev
    | _ => write_callback ev = Some cli_connection_delay /\ wcb_args ev = Some arg_client
    end;
  cn_queue : exists ev, io_evs (cl_loop w) !! qfd = Some ev /\
    read_callback ev = Some (user_cb qcb) /\ rcb_args ev = Some arg_client;
  cn_tasks : elts (ready_tasks (cl_loop w)) = []
}.

Lemma client_created (e : E) (u : U) r : conn_begins r ->
  exists w, TCPClient_new run_hook (EventLoop_new e) u (Some fd, r) = Ret w /\
    cli_new r (watch_cli qfd (user_cb qcb) EPOLLIN w) /\ cl_user w = u /\
    _conn_start_cb (cl w) = None /\ _router (cl w) = MsgRouter_new.
Proof.
  assert (Hb : buf_ok (IOBuf_new CLIENT_BUF) []) by (split; [by apply IOBuf_new_holds|done]).
  intros [-> | ->]; (eexists; split; [reflexivity|]); (split; [split|done]); cbn
    -[EPOLLIN EPOLLOUT];
    try done; try (by split); rewrite ?add_io_event_tasks; try done.
  - eexists. rewrite add_io_event_other by done.
    split; [by apply add_io_event_in|]. by vm_compute.
  - eexists. split; [apply add_io_event_in; by rewrite add_io_event_other|done].
  - eexists. rewrite add_io_event_other by done. split; [by apply add_io_event_new_out|done].
  - eexists. split; [apply add_io_event_in; by rewrite add_io_event_other|done].
Qed.

Lemma connected_watched w : cli_new ConnOk w -> cli_watched fd qfd qcb w [] [].
Proof. intros [? ? (ev & Hev & ? & ?) ? ?]. split; eauto. Qed.

(** The socket becomes writable without an error: the connection is there. *)
Lemma delayed_turn r w u :
  cli_new r w -> r <> ConnOk ->
  (forall w1, run_chook run_hook (_conn_start_cb (cl w)) w1 = Ret (set_cuser (u (cl_user w1)) w1))
    ->
  exists t', turn [(fd, EPOLLOUT)] (mkCliThread w [CliConnect 0] [] []) = Ret t' /\
    cli_watched fd qfd qcb (ct_cli t') [] [] /\ cl_user (ct_cli t') = u (cl_user w) /\
    _router (cl (ct_cli t')) = _router (cl w) /\ ct_calls t' = [] /\ ct_sent t' = [].
Proof.
  intros [[Hi Ho] Hfd (ev & Hev & Hcb) (qev & Hqev & Hq) Ht] Hr Hh.
  assert (Hw : write_callback ev = Some cli_connection_delay /\ wcb_args ev = Some arg_client)
    by (by destruct r).
  destruct Hw as [Hwc Hwa].
  set (L := add_io_event fd cli_read_callback EPOLLIN (Some arg_client)
              (del_io_event fd (cl_loop w))).
  set (w' := set_cloop L (set_cuser (u (cl_user w)) (set_connected true w))).
  assert (Ed : connection_delay run_hook fd 0 w = Ret w').
  { unfold connection_delay. cbn [Z.eqb]. cbn -[watch_connected]. rewrite Hh.
    cbn [mbind res_bind]. unfold watch_connected. cbn -[EPOLLIN io_length].
    by rewrite (buf_ok_length _ _ Ho). }
  assert (I : cli_watched fd qfd qcb w' [] []).
  { split; [by split|done|done|done| | |].
    - eexists. split; [apply add_io_event_in; by rewrite del_io_event_lookup, decide_True|].
      by vm_compute.
    - exists qev. cbn -[EPOLLIN]. unfold L.
      by rewrite add_io_event_other, del_io_event_lookup, decide_False by done.
    - cbn -[EPOLLIN]. unfold L. by rewrite add_io_event_tasks. }
  eexists. split.
  { apply (quiet_turn run_msg run_hook run_user run_task).
    - erewrite dispatch_write; [|exact Hev|by vm_compute|exact Hwc|exact Hwa].
      cbn [cli_cb ct_in ct_cli]. rewrite Ed. cbn [mbind res_bind]. reflexivity.
    - apply I. }
  cbn. split; [by apply watched_clear|done].
Qed.
End Start.
