(* ===== verification/DnsRoute.v ===== *)
(** * Route: the route table of the dns service (dns/include/dns_route.h,
    dns/src/dns_route.cpp)

    The two maps that [data_pointer_] and [temp_pointer_] point to are the
    fields [map_A] and [map_B]; [data_is_A] says which is which.  MySQL is
    outside: a query answers an error, no result, or rows.  The columns that the
    service reads are integer columns, so a row is the integers that their text
    denotes; [atoi] takes them modulo 2^32 (it is [(int)strtol] on the platforms
    of the service). *)

From S2P Require Import Prelude CInt.
Local Open Scope Z_scope.

Abbreviation route_map := (gmap Z (gset Z)).
Abbreviation host_set := (gset Z).

Definition atoi (n : Z) : Z := i32 n.

(** A row of RouteData: modid, cmdid, serverip, serverport. *)
Record RouteRow : Type := mkRow { r_modid : Z; r_cmdid : Z; r_ip : Z; r_port : Z }.

(** [mysql_real_query] fails, [mysql_store_result] is [NULL], or the rows. *)
Inductive answer (R : Type) : Type :=
  | QueryErr
  | NoResult
  | Rows (rs : list R).
Arguments QueryErr {R}.
Arguments NoResult {R}.
Arguments Rows {R} rs.

Record Route : Type := mkRoute {
  map_A : route_map;
  map_B : route_map;
  data_is_A : bool;
  version_ : Z
}.

Definition data_map (r : Route) : route_map := if data_is_A r then map_A r else map_B r.
Definition temp_map (r : Route) : route_map := if data_is_A r then map_B r else map_A r.

(** Assignments to [*data_pointer_] and [*temp_pointer_]. *)
Definition set_data (m : route_map) (r : Route) : Route :=
  if data_is_A r then mkRoute m (map_B r) true (version_ r) else mkRoute (map_A r) m false
    (version_ r).
Definition set_temp (m : route_map) (r : Route) : Route :=
  if data_is_A r then mkRoute (map_A r) m true (version_ r) else mkRoute m (map_B r) false
    (version_ r).

(** [m[key].insert(value)] *)
Definition map_insert {K : Type} `{Countable K} (key : Z) (value : K) (m : gmap Z (gset K))
    : gmap Z (gset K) :=
  <[key := {[value]} ∪ default ∅ (m !! key)]> m.

(** The body of the loops of [build_maps] and [load_route_data]. *)
Definition insert_row (m : route_map) (row : RouteRow) : route_map :=
  let modid := atoi (r_modid row) in
  let cmdid := atoi (r_cmdid row) in
  let ip := u32 (atoi (r_ip row)) in
  let port := atoi (r_port row) in
  map_insert (pack64 modid cmdid) (pack64 ip port) m.

Definition load_rows (rows : list RouteRow) (m : route_map) : route_map :=
  foldl insert_row m rows.

(** [build_maps]; a [NULL] result is dereferenced. *)
Definition build_maps (a : answer RouteRow) (r : Route) : res Route :=
  match a with
  | QueryErr => Fault ExitFail
  | NoResult => Fault NullDeref
  | Rows rows => Ret (set_data (load_rows rows (data_map r)) r)
  end.

Definition get_hosts (modid cmdid : Z) (r : Route) : host_set :=
  match data_map r !! pack64 modid cmdid with Some hosts => hosts | None => ∅ end.

(** [load_version]; a row is the version. *)
Definition load_version (a : answer Z) (r : Route) : Z * Route :=
  match a with
  | QueryErr | NoResult | Rows [] => (-1, r)
  | Rows (new_version :: _) =>
      if new_version =? version_ r then (0, r)
      else (1, mkRoute (map_A r) (map_B r) (data_is_A r) new_version)
  end.

(** [load_route_data] clears the map before it asks. *)
Definition load_route_data (a : answer RouteRow) (r : Route) : Z * Route :=
  let r := set_temp ∅ r in
  match a with
  | QueryErr | NoResult => (-1, r)
  | Rows rows => (0, set_temp (load_rows rows (temp_map r)) r)
  end.

Definition swap (r : Route) : Route :=
  mkRoute (map_A r) (map_B r) (negb (data_is_A r)) (version_ r).

(** [load_changes(change_list)]; a row is modid, cmdid. *)
Definition load_changes (a : answer (Z * Z)) (change_list : gset Z) : gset Z :=
  match a with
  | QueryErr | NoResult | Rows [] => change_list
  | Rows rows =>
      foldl (fun l '(modid, cmdid) => {[pack64 (atoi modid) (atoi cmdid)]} ∪ l) change_list rows
  end.

(** The constructor. *)
Definition Route_new (va : answer Z) (da : answer RouteRow) : res Route :=
  let r := mkRoute ∅ ∅ true 0 in
  let '(ret, r) := load_version va r in
  if ret =? -1 then Fault ExitFail else build_maps da r.

(** ** check_route_changes *)

(** What the database answers in one round, in the order of the queries. *)
Record round : Type := mkRound {
  rd_time : Z;
  rd_version : answer Z;
  rd_data : answer RouteRow;
  rd_changes : answer (Z * Z)
}.

(** The DELETE statements that were sent: all changes, or those up to a version. *)
Inductive delete_stmt : Type := DeleteAll | DeleteUpTo (version : Z).

Definition remove_changes (remove_all : bool) (r : Route) : delete_stmt :=
  if remove_all then DeleteAll else DeleteUpTo (version_ r).

(** The backend thread: the table, [last_load_time], and what it has done to the
    outside: the sets that were published and the statements that were sent. *)
Record Backend : Type := mkBackend {
  route : Route;
  last_load_time : Z;
  published : list (gset Z);
  deleted : list delete_stmt
}.

(** The reload that both branches make. *)
Definition reload (now : Z) (a : answer RouteRow) (b : Backend) : Backend :=
  let '(ret, r) := load_route_data a (route b) in
  if ret =? 0 then mkBackend (swap r) now (published b) (deleted b)
  else mkBackend r (last_load_time b) (published b) (deleted b).

(** One round of the loop. *)
Definition check_round (wait_time : Z) (d : round) (b : Backend) : Backend :=
  let current_time := rd_time d in
  let '(ret, r) := load_version (rd_version d) (route b) in
  let b := mkBackend r (last_load_time b) (published b) (deleted b) in
  if ret =? 1 then
    let b := reload current_time (rd_data d) b in
    let changes := load_changes (rd_changes d) ∅ in
    mkBackend (route b) (last_load_time b) (published b ++ [changes])
      (deleted b ++ [remove_changes false (route b)])
  else if wait_time <=? current_time - last_load_time b then reload current_time (rd_data d) b
  else b.

(** [check_route_changes] up to its loop, then some rounds of it. *)
Definition check_start (now : Z) (r : Route) : Backend :=
  mkBackend r now [] [remove_changes true r].

Definition check_route_changes (wait_time : Z) (ds : list round) (b : Backend) : Backend :=
  foldl (fun b d => check_round wait_time d b) b ds.

(** ** The table of a list of rows *)

Definition row_value (row : RouteRow) : Z := pack64 (u32 (atoi (r_ip row))) (atoi (r_port row)).
Definition row_key (row : RouteRow) : Z := pack64 (atoi (r_modid row)) (atoi (r_cmdid row)).

(** [v] is a host of [modid/cmdid] in [rows]. *)
Definition row_host (rows : list RouteRow) (modid cmdid v : Z) : Prop :=
  exists row, row ∈ rows /\ atoi (r_modid row) = modid /\ atoi (r_cmdid row) = cmdid /\
    v = row_value row.

Lemma map_insert_lookup {K} `{Countable K} key (value x : K) m k :
  x ∈ default ∅ (map_insert key value m !! k) <->
  (k = key /\ x = value) \/ x ∈ default ∅ (m !! k).
Proof.
  unfold map_insert. destruct (decide (k = key)) as [->|Hne].
  - rewrite lookup_insert_eq. cbn [default from_option]. set_solver.
  - rewrite lookup_insert_ne by done. naive_solver.
Qed.

Lemma load_rows_lookup rows m k v :
  v ∈ default ∅ (load_rows rows m !! k) <->
  (exists row, row ∈ rows /\ row_key row = k /\ v = row_value row) \/ v ∈ default ∅ (m !! k).
Proof.
  revert m. induction rows as [|row rows IH]; intros m; cbn [load_rows foldl].
  { split; [by right|]. intros [(row & Hin & _)|Hv]; [by apply not_elem_of_nil in Hin|done]. }
  fold (load_rows rows (insert_row m row)). rewrite IH. unfold insert_row at 1. cbv zeta.
  rewrite map_insert_lookup. fold (row_key row). fold (row_value row). split.
  - intros [(r & Hr & ? & ?)|[[? ?]|Hv]]; [left; exists r|left; exists row|by right].
    + split; [by right|done].
    + split; [by left|done].
  - intros [(r & [-> |Hr]%elem_of_cons & Hk & Hv)|Hv]; [|left; eauto|auto].
    right. left. done.
Qed.

Lemma atoi_is n : is_i32 (atoi n).
Proof. apply i32_is. Qed.

Lemma get_hosts_rows rows modid cmdid r v :
  is_i32 modid -> is_i32 cmdid -> data_map r = load_rows rows ∅ ->
  v ∈ get_hosts modid cmdid r <-> row_host rows modid cmdid v.
Proof.
  intros Hm Hc E. unfold get_hosts. rewrite E.
  assert (forall o : option host_set, match o with Some h => h | None => ∅ end = default ∅ o)
    as ->
    by (by intros []).
  rewrite load_rows_lookup, lookup_empty. cbn [default from_option]. unfold row_host. split.
  - intros [(row & Hr & Hk & Hv)|Hv]; [|by apply elem_of_empty in Hv]. exists row.
    unfold row_key in Hk. apply pack64_inj in Hk as [H1 H2]; [|apply atoi_is|apply
      atoi_is|exact Hm|exact Hc].
    split; [exact Hr|]. split; [exact H1|]. split; [exact H2|exact Hv].
  - intros (row & Hr & <- & <- & Hv). left. exists row. split; [exact Hr|].
    split; [reflexivity|exact Hv].
Qed.

(** ** Readers against the backend thread

    A load is a sequence of small steps (the clearing, one insertion per row,
    the swap under the write lock), between which the reader threads may call
    [get_hosts]. *)

Inductive micro : Type := MClear | MInsert (row : RouteRow) | MSwap.

Definition exec (op : micro) (r : Route) : Route :=
  match op with
  | MClear => set_temp ∅ r
  | MInsert row => set_temp (insert_row (temp_map r) row) r
  | MSwap => swap r
  end.

Definition load_prog (a : answer RouteRow) : list micro :=
  match a with
  | QueryErr | NoResult => [MClear]
  | Rows rows => MClear :: (MInsert <$> rows) ++ [MSwap]
  end.

(** A schedule: the backend's next step ([None]), or a read. *)
Fixpoint run (prog : list micro) (sch : list (option (Z * Z))) (r : Route)
    : list (Z * Z * host_set) :=
  match sch with
  | [] => []
  | Some (m, c) :: sch' => (m, c, get_hosts m c r) :: run prog sch' r
  | None :: sch' =>
      match prog with
      | [] => run [] sch' r
      | op :: prog' => run prog' sch' (exec op r)
      end
  end.

Lemma set_temp_data m r : data_map (set_temp m r) = data_map r.
Proof. unfold set_temp, data_map. by destruct r as [? ? [] ?]. Qed.
Lemma set_temp_temp m r : temp_map (set_temp m r) = m.
Proof. unfold set_temp, temp_map. by destruct r as [? ? [] ?]. Qed.
Lemma swap_data r : data_map (swap r) = temp_map r.
Proof. unfold swap, data_map, temp_map. by destruct r as [? ? [] ?]. Qed.
Lemma set_temp_set_temp m m' r : set_temp m (set_temp m' r) = set_temp m r.
Proof. unfold set_temp. by destruct r as [? ? [] ?]. Qed.

Lemma exec_inserts rows r :
  foldl (fun r op => exec op r) r (MInsert <$> rows) =
    set_temp (load_rows rows (temp_map r)) r.
Proof.
  revert r. induction rows as [|row rows IH]; intros r; cbn [fmap list_fmap foldl load_rows].
  { unfold set_temp, temp_map. by destruct r as [? ? [] ?]. }
  rewrite IH. cbn [exec]. by rewrite set_temp_temp, set_temp_set_temp.
Qed.

(** The small steps add up to the reload of [check_route_changes]. *)
Lemma exec_load_prog a r :
  foldl (fun r op => exec op r) r (load_prog a) =
    let '(ret, r') := load_route_data a r in if ret =? 0 then swap r' else r'.
Proof.
  destruct a as [| |rows]; [done|done|]. unfold load_prog, load_route_data.
  cbn [foldl]. rewrite foldl_app, exec_inserts. cbn [foldl exec Z.eqb]. reflexivity.
Qed.

Section Readers.
Context (good : list (list RouteRow)).

(** The remaining steps of a load whose rows are [good], from a temporary map
    with the rows inserted so far. *)
Definition rest_ok (prog : list micro) (r : Route) : Prop :=
  prog = [] \/
  exists part rows, prog = (MInsert <$> rows) ++ [MSwap] /\
    temp_map r = load_rows part ∅ /\ part ++ rows ∈ good.

Lemma run_snapshots (loads : list (answer RouteRow)) sch : forall prog r cur,
  (forall rows, Rows rows ∈ loads -> rows ∈ good) ->
  rest_ok prog r -> cur ∈ good -> data_map r = load_rows cur ∅ ->
  Forall (fun '(m, c, hs) => exists rows r', rows ∈ good /\ data_map r' = load_rows rows ∅ /\
            hs = get_hosts m c r') (run (prog ++ mjoin (load_prog <$> loads)) sch r).
Proof.
  revert loads. induction sch as [|[[m c]|] sch IH]; intros loads prog r cur Hgood Hrest Hcur
    Hdata;
    cbn [run]; [done|constructor; eauto|].
  destruct Hrest as [-> |(part & rows & -> & Ht & Hp)].
  - destruct loads as [|a loads]; cbn [fmap list_fmap mjoin list_join app].
    { apply (IH [] [] r cur); [done|by left|done|done]. }
    assert (Hgood' : forall rows, Rows rows ∈ loads ->
      rows ∈ good) by (intros; apply Hgood; by right).
    assert (Hskip : Forall (fun '(m, c, hs) => exists rows r', rows ∈ good /\
        data_map r' = load_rows rows ∅ /\ hs = get_hosts m c r')
      (run ([] ++ mjoin (load_prog <$> loads)) sch (set_temp ∅ r))).
    { apply (IH loads [] _ cur); [done|by left|done|by rewrite set_temp_data]. }
    destruct a as [| |rows]; [exact Hskip|exact Hskip|]. cbn [load_prog app exec].
    apply (IH loads ((MInsert <$> rows) ++ [MSwap]) _ cur); [done| |done|by rewrite
      set_temp_data].
    right. exists [], rows. rewrite set_temp_temp. split_and!; [done|done|].
    apply Hgood. by left.
  - destruct rows as [|row rows]; cbn [fmap list_fmap app exec].
    + apply (IH loads [] _ part); [done|by left|by rewrite app_nil_r in Hp|by rewrite swap_data].
    + apply (IH loads ((MInsert <$> rows) ++ [MSwap]) _ cur); [done| |done|by rewrite
      set_temp_data].
      right. exists (part ++ [row]), rows. rewrite set_temp_temp, <- app_assoc.
      split_and!; [done| |done]. rewrite Ht. unfold load_rows. by rewrite foldl_app.
Qed.
End Readers.

(** C17. The double buffering works: whatever the schedule of the reader
    threads against the backend's loads, successful or failed, every
    [get_hosts] returns exactly the hosts that one complete load (or the table
    at the start) has for the pair; no reader ever sees a cleared or a
    partially filled map. *)
Theorem readers_see_snapshots rows0 loads sch r :
  data_map r = load_rows rows0 ∅ ->
  Forall (fun '(m, c, hs) => is_i32 m -> is_i32 c ->
     exists rows, (rows = rows0 \/ Rows rows ∈ loads) /\
       forall v, v ∈ hs <-> row_host rows m c v)
    (run (mjoin (load_prog <$> loads)) sch r).
Proof.
  intros Hd.
  set (good := rows0 :: omap (fun a => match a with Rows rows => Some rows | _ => None end)
    loads).
  assert (Hin : forall rows, rows ∈ good <-> rows = rows0 \/ Rows rows ∈ loads).
  { intros rows. unfold good. rewrite elem_of_cons, list_elem_of_omap. split.
    - intros [->|([| |rows'] & Ha & E)]; [by left|done|done|]. injection E as ->. by right.
    - intros [->|Ha]; [by left|]. right. by exists (Rows rows). }
  assert (Hrun : Forall (fun '(m, c, hs) => exists rows r', rows ∈ good /\
      data_map r' = load_rows rows ∅ /\ hs = get_hosts m c r')
    (run ([] ++ mjoin (load_prog <$> loads)) sch r)).
  { apply (run_snapshots good loads sch [] r rows0);
      [intros rows Hr; apply Hin; by right|by left|by left|done]. }
  eapply Forall_impl; [exact Hrun|]. intros [[m c] hs] (rows & r' & Hg & Hr' & ->) Hm Hc.
  exists rows. split; [by apply Hin|]. intros v. by apply get_hosts_rows.
Qed.

Lemma readers_see_snapshots_witness :
  let load := Rows [mkRow 1 2 10 80; mkRow 1 2 11 81] in
  Forall (fun '(m, c, hs) => is_i32 m -> is_i32 c ->
     exists rows, (rows = [mkRow 1 2 9 79] \/ Rows rows ∈ [load]) /\
       forall v, v ∈ hs <-> row_host rows m c v)
    (run (mjoin (load_prog <$> [load]))
       [None; Some (1, 2); None; Some (1, 2); None; None; Some (1, 2)]
       (mkRoute (load_rows [mkRow 1 2 9 79] ∅) ∅ true 0)).
Proof.
  intros load. exact (readers_see_snapshots [mkRow 1 2 9 79] [load] _
    (mkRoute (load_rows [mkRow 1 2 9 79] ∅) ∅ true 0) eq_refl).
Defined.

(** ** A version whose data cannot be loaded *)

Lemma reload_frame now a b :
  published (reload now a b) = published b /\ deleted (reload now a b) = deleted b /\
  version_ (route (reload now a b)) = version_ (route b).
Proof.
  unfold reload, load_route_data, swap, set_temp.
  destruct b as [[ma mb [] v] t p d], a; done.
Qed.

Lemma reload_failed now a b :
  a = QueryErr \/ a = NoResult ->
  data_map (route (reload now a b)) = data_map (route b) /\
  last_load_time (reload now a b) = last_load_time b.
Proof.
  unfold reload, load_route_data, set_temp.
  destruct b as [[ma mb [] v] t p d]; by intros [-> | ->].
Qed.

(** Rounds without a new version publish nothing. *)
Lemma same_version_rounds wait ds b :
  Forall (fun d => exists vs, rd_version d = Rows (version_ (route b) :: vs)) ds ->
  let b' := check_route_changes wait ds b in
  published b' = published b /\ deleted b' = deleted b /\
  (Forall (fun d => rd_time d < last_load_time b + wait) ds ->
   data_map (route b') = data_map (route b)).
Proof.
  revert b. induction ds as [|d ds IH]; intros b Hds; [done|].
  apply Forall_cons in Hds as [[vs Hv] Hds]. cbn [check_route_changes foldl].
  assert (E : check_round wait d b =
    if wait <=? rd_time d - last_load_time b then reload (rd_time d) (rd_data d) b else b).
  { unfold check_round, load_version. rewrite Hv, Z.eqb_refl. cbn. by destruct b. }
  rewrite E. destruct (Z.leb_spec wait (rd_time d - last_load_time b)) as [Hle|Hlt].
  - destruct (reload_frame (rd_time d) (rd_data d) b) as (Hp & Hd & Hver).
    destruct (IH (reload (rd_time d) (rd_data d) b)) as (Hp' & Hd' & _); [by rewrite Hver|].
    unfold check_route_changes in Hp', Hd'. rewrite Hp', Hd'. split_and!; [done|done|].
    intros [Ht _]%Forall_cons. lia.
  - destruct (IH b Hds) as (Hp' & Hd' & Hm'). split_and!; [done|done|].
    intros [_ Ht]%Forall_cons. by apply Hm'.
Qed.

(** C37. A new version whose RouteData query fails is lost for the subscribers:
    [version_] is already the new one, so the service publishes the changed
    pairs with the old hosts, deletes their change records, and in all later
    rounds of that version publishes nothing more; [get_hosts] keeps answering
    from the old table until the periodic reload, which pushes nothing. *)
Theorem failed_load_loses_update wait d ds v vs b :
  rd_version d = Rows (v :: vs) -> v <> version_ (route b) -> rd_data d = QueryErr ->
  Forall (fun d => exists vs, rd_version d = Rows (v :: vs)) ds ->
  let b' := check_route_changes wait (d :: ds) b in
  published b' = published b ++ [load_changes (rd_changes d) ∅] /\
  deleted b' = deleted b ++ [DeleteUpTo v] /\
  (Forall (fun d => rd_time d < last_load_time b + wait) ds ->
   data_map (route b') = data_map (route b)).
Proof.
  intros Hv Hne Hd Hds b'. subst b'. cbn [check_route_changes foldl].
  set (r1 := mkRoute (map_A (route b)) (map_B (route b)) (data_is_A (route b)) v).
  set (b0 := mkBackend r1 (last_load_time b) (published b) (deleted b)).
  set (b1 := check_round wait d b).
  assert (E : b1 = let b2 := reload (rd_time d) QueryErr b0 in
    mkBackend (route b2) (last_load_time b2) (published b2 ++ [load_changes (rd_changes d) ∅])
      (deleted b2 ++ [DeleteUpTo (version_ (route b2))])).
  { unfold b1, check_round, load_version. rewrite Hv.
    rewrite (proj2 (Z.eqb_neq v (version_ (route b)))) by done. rewrite Hd. reflexivity. }
  destruct (reload_frame (rd_time d) QueryErr b0) as (Hp & Hdl & Hver).
  destruct (reload_failed (rd_time d) QueryErr b0) as [Hm Ht]; [by left|].
  cbv zeta in E. rewrite Hp, Hdl, Hver, Ht in E.
  destruct (same_version_rounds wait ds b1) as (Hp' & Hd' & Hm').
  { rewrite E. cbn [route]. by rewrite Hver. }
  unfold check_route_changes in *. rewrite Hp', Hd', E. split_and!; [done|done|].
  intros Hts. rewrite E in Hm'. rewrite Hm' by done. cbn [route]. rewrite Hm. done.
Qed.

Lemma failed_load_loses_update_witness :
  let b := check_start 100 (mkRoute (load_rows [mkRow 1 2 10 80] ∅) ∅ true 1) in
  let d := mkRound 101 (Rows [2]) QueryErr (Rows [(1, 2)]) in
  let ok := mkRound 102 (Rows [2]) (Rows [mkRow 1 2 11 81]) (Rows []) in
  let b' := check_route_changes 10 [d; ok] b in
  published b' = [{[pack64 1 2]}] /\ data_map (route b') = data_map (route b).
Proof.
  intros b d ok b'.
  destruct (failed_load_loses_update 10 d [ok] 2 [] b) as (Hp & _ & Hm).
  - reflexivity.
  - discriminate.
  - reflexivity.
  - repeat constructor. by exists [].
  - split; [exact Hp|apply Hm]. repeat constructor.
Defined.
