(* ===== verification/Subscribe.v ===== *)
(** * SubscribeList and the dns service (dns/include/subscribe.h,
    dns/src/subscribe.cpp, dns/src/dns_service.cpp)

    The subscriptions, the push list and the handlers of the service.  The
    methods of [SubscribeList] hold its mutexes and are atomic steps.  The
    sub-list that hangs on [conn->param] is owned by its connection alone: it is
    kept by descriptor.  Connections are reached through [send], the call of
    [conn->send_message].  The tables are hash tables: the order of the loops over
    them is that of [HashOrder]. *)

From S2P Require Import Prelude CInt HashOrder.
From S2P Require Import ThreadQueue.
From S2P Require Import Proto DnsRoute.
From Stdlib Require Import Strings.Byte.
Local Open Scope Z_scope.

(** [fd -> mods] and [md -> fds] *)
Abbreviation subscribe_map := (gmap Z (gset Z)).
Abbreviation publish_map := (gmap Z (gset Z)).
Abbreviation client_sub_mod_list := (gset Z).

Record SubscribeList : Type := mkSub {
  _book_list : subscribe_map;
  _push_list : publish_map
}.

Definition SubscribeList_new : SubscribeList := mkSub ∅ ∅.

Definition subscribe (md fd : Z) (sl : SubscribeList) : SubscribeList :=
  mkSub (map_insert md fd (_book_list sl)) (_push_list sl).

Definition unsubscribe (md fd : Z) (sl : SubscribeList) : SubscribeList :=
  match _book_list sl !! md with
  | None => sl
  | Some fds =>
      let fds := fds ∖ {[fd]} in
      mkSub (if decide (fds = ∅) then delete md (_book_list sl)
             else <[md := fds]> (_book_list sl)) (_push_list sl)
  end.

(** The loop of [make_publish_map] over [_push_list]; after [erase(it)] the
    loop's [it++] reads the erased node. *)
Fixpoint publish_loop (its : list (Z * gset Z)) (online_fds : gset Z)
    (need_publish push : publish_map) : res (publish_map * publish_map) :=
  match its with
  | [] => Ret (need_publish, push)
  | (fd, mods) :: its' =>
      if decide (fd ∈ online_fds) then Fault IterInvalid
      else publish_loop its' online_fds need_publish push
  end.

Section Loops.
Context `{HO : HashOrder}.

Definition make_publish_map (online_fds : gset Z) (need_publish : publish_map)
    (sl : SubscribeList) : res (publish_map * SubscribeList) :=
  '(need_publish, push) ←
    publish_loop (map_order 0 (_push_list sl)) online_fds need_publish (_push_list sl);
  Ret (need_publish, mkSub (_book_list sl) push).

(** The loops of [publish]. *)
Definition mark_mod (sl : SubscribeList) (push : publish_map) (md : Z) : publish_map :=
  match _book_list sl !! md with
  | None => push
  | Some fds => foldl (fun push fd => map_insert fd md push) push (set_order md fds)
  end.

Definition mark_mods (change_mods : gset Z) (sl : SubscribeList) : SubscribeList :=
  mkSub (_book_list sl) (foldl (mark_mod sl) (_push_list sl) (set_order 0 change_mods)).

Section Publish.
Context {CB ARG F LOOP : Type} `{EventFd F}.
Context (push_task : CB) (this : ARG).

(** [publish(change_mods)]; [pool] is the server's thread pool. *)
Definition publish (change_mods : gset Z) (sl : SubscribeList)
    (pool : option (ThreadPool (TaskMsg CB ARG) F LOOP))
    : res (SubscribeList * option (ThreadPool (TaskMsg CB ARG) F LOOP)) :=
  let sl := mark_mods change_mods sl in
  match pool with
  | None => Fault NullDeref
  | Some tp => Ret (sl, Some (send_task (NEW_TASK push_task this) tp))
  end.
End Publish.

(** ** Messages *)

(** The loop that both [get_route] and [push_change_task] run over the hosts, in the
    order of the set that is stored under [key]. *)
Definition add_host_set (key : Z) (hosts : host_set) (rsp : lbrss.GetRouteResponse)
    : lbrss.GetRouteResponse :=
  foldl (fun rsp v => add_host (lbrss.mkHostInfo (i32 (unpack_hi_u v)) (unpack_lo v)) rsp)
    rsp (set_order key hosts).

Definition route_response (r : Route) (modid cmdid : Z) : lbrss.GetRouteResponse :=
  add_host_set (pack64 modid cmdid) (get_hosts modid cmdid r)
    (lbrss.mkGetRouteResponse modid cmdid []).

(** The message for one entry of the push list. *)
Definition push_message (r : Route) (md : Z) : lbrss.GetRouteResponse :=
  route_response r (unpack_hi md) (unpack_lo md).

Section Service.
Context `{Wire lbrss.GetRouteRequest, Wire lbrss.GetRouteResponse}.
Context {W : Type}.
(** [conn->send_message(data, len, msgid)] on the connection of a descriptor *)
Variable send : Z -> list byte -> Z -> Z -> W -> res W.

(** [TCPServer::conns], as far as it is looked at: its length, and which
    entries are not [NULL]. *)
Variable conns : list bool.

(** The inner part of the last loop of [push_change_task]. *)
Definition push_one (r : Route) (fd md : Z) (w : W) : res W :=
  let responseString := SerializeToString (push_message r md) in
  match conns !! Z.to_nat fd with
  | None => Fault OutOfBounds
  | Some false => Ret w
  | Some true =>
      send fd responseString (Z.of_nat (length responseString)) ID_GetRouteResponse w
  end.

Definition push_all (r : Route) (need_publish : publish_map) (w : W) : res W :=
  foldl (fun w '(fd, mods) =>
    foldl (fun w md => w ← w; push_one r fd md w) w (set_order fd mods))
    (Ret w) (map_order 1 need_publish).

(** [push_change_task(loop, subscribe)]; [online_fds] is what
    [loop->get_listen_fds] gives. *)
Definition push_change_task (online_fds : gset Z) (r : Route) (sl : SubscribeList) (w : W)
    : res (SubscribeList * W) :=
  '(need_publish, sl) ← make_publish_map online_fds ∅ sl;
  w ← push_all r need_publish w;
  Ret (sl, w).

(** ** The service *)

(** [params] is [conn->param] by descriptor, for the connections there are. *)
Record Dns : Type := mkDns {
  d_route : Route;
  d_sub : SubscribeList;
  params : gmap Z (option client_sub_mod_list)
}.

(** The first half of the handler: the subscription; [None] when it returns
    because there is no list. *)
Definition get_route_subscribe (fd md : Z) (d : Dns) : option Dns :=
  match params d !! fd with
  | Some (Some sub_list) =>
      Some (if decide (md ∈ sub_list) then d
            else mkDns (d_route d) (subscribe md fd (d_sub d))
                   (<[fd := Some ({[md]} ∪ sub_list)]> (params d)))
  | _ => None
  end.

Definition get_route (data : list byte) (len : Z) (fd : Z) (d : Dns) (w : W) : res (Dns * W) :=
  let req := ParseFromArray (take (Z.to_nat len) data) in
  let modid := lbrss.grq_modid req in
  let cmdid := lbrss.grq_cmdid req in
  match get_route_subscribe fd (pack64 modid cmdid) d with
  | None => Ret (d, w)
  | Some d =>
      let responseString := SerializeToString (route_response (d_route d) modid cmdid) in
      w ← send fd responseString (Z.of_nat (length responseString)) ID_GetRouteResponse w;
      Ret (d, w)
  end.

Definition create_subscribe (fd : Z) (d : Dns) : Dns :=
  mkDns (d_route d) (d_sub d) (<[fd := Some ∅]> (params d)).

Definition clear_subscribe (fd : Z) (d : Dns) : res Dns :=
  match params d !! fd with
  | Some (Some sub_list) =>
      Ret (mkDns (d_route d)
             (foldl (fun sl md => unsubscribe md fd sl) (d_sub d) (set_order fd sub_list))
             (<[fd := None]> (params d)))
  | _ => Fault NullDeref
  end.
End Service.
End Loops.
