(* ===== verification/SubscribeSpec.v ===== *)
(** * SubscribeSpec: the subscriptions are exact, and how a push goes wrong *)

From S2P Require Import Prelude CInt HashOrder.
From S2P Require Import ThreadQueue.
From S2P Require Import Protobuf.
From S2P Require Import Varint.
From S2P Require Import LbrssPbSpec.
From S2P Require Import Proto DnsRoute Subscribe.
From Stdlib Require Import Strings.Byte.
Local Open Scope Z_scope.

(** ** The maps *)

(** [fd] is subscribed to [md] in the book. *)
Definition booked (md fd : Z) (sl : SubscribeList) : Prop := fd ∈ default ∅ (_book_list sl !! md).
(** [md] is to be pushed to [fd]. *)
Definition marked (md fd : Z) (sl : SubscribeList) : Prop := md ∈ default ∅ (_push_list sl !! fd).
(** [md] is in the list of the connection [fd]. *)
Definition listed (md fd : Z) (d : Dns) : Prop :=
  exists l, params d !! fd = Some (Some l) /\ md ∈ l.

Lemma booked_subscribe md fd md' fd' sl :
  booked md' fd' (subscribe md fd sl) <-> (md' = md /\ fd' = fd) \/ booked md' fd' sl.
Proof. unfold booked, subscribe. cbn. apply map_insert_lookup. Qed.

Lemma booked_unsubscribe md fd md' fd' sl :
  booked md' fd' (unsubscribe md fd sl) <-> booked md' fd' sl /\ ~ (md' = md /\ fd' = fd).
Proof.
  unfold booked, unsubscribe. destruct (_book_list sl !! md) as [fds|] eqn:E; cbn.
  2: { split; [|naive_solver]. intros Hb. split; [done|]. intros [-> ->]. rewrite E in Hb.
       by apply elem_of_empty in Hb. }
  destruct (decide (md' = md)) as [->|Hne].
  - rewrite E. cbn. destruct (decide (fds ∖ {[fd]} = ∅)) as [He|He].
    + rewrite lookup_delete_eq. cbn. set_solver.
    + rewrite lookup_insert_eq. cbn. set_solver.
  - case_decide; [rewrite lookup_delete_ne by done|rewrite lookup_insert_ne by done];
    naive_solver.
Qed.

Lemma unsubscribe_push md fd sl : _push_list (unsubscribe md fd sl) = _push_list sl.
Proof. unfold unsubscribe. by destruct (_book_list sl !! md). Qed.

Lemma booked_unsubscribe_all mds fd md' fd' sl :
  booked md' fd' (foldl (fun sl md => unsubscribe md fd sl) sl mds) <->
  booked md' fd' sl /\ ~ (md' ∈ mds /\ fd' = fd).
Proof.
  revert sl. induction mds as [|md mds IH]; intros sl; cbn [foldl].
  - split; [|naive_solver]. intros. split; [done|]. intros [Hin _].
    by apply not_elem_of_nil in Hin.
  - rewrite IH, booked_unsubscribe, elem_of_cons. naive_solver.
Qed.

Lemma map_inserts_lookup (ks : list Z) (v x : Z) (m : gmap Z (gset Z)) k :
  x ∈ default ∅ (foldl (fun m k => map_insert k v m) m ks !! k) <->
  (k ∈ ks /\ x = v) \/ x ∈ default ∅ (m !! k).
Proof.
  revert m. induction ks as [|k0 ks IH]; intros m; cbn [foldl].
  - split; [by right|]. intros [[Hin _]|]; [by apply not_elem_of_nil in Hin|done].
  - rewrite IH, map_insert_lookup, elem_of_cons. naive_solver.
Qed.

Section Orders.
Context `{HO : HashOrder}.

Lemma mark_mod_lookup sl push md fd x :
  x ∈ default ∅ (mark_mod sl push md !! fd) <-> (booked md fd sl /\ x = md) \/ x ∈ default ∅
    (push !! fd).
Proof.
  unfold mark_mod, booked. destruct (_book_list sl !! md) as [fds|] eqn:E; cbn.
  - rewrite map_inserts_lookup, elem_of_set_order. done.
  - split; [by right|]. intros [[Hin _]|]; [by apply elem_of_empty in Hin|done].
Qed.

Lemma marked_mark_mods changes sl md fd :
  marked md fd (mark_mods changes sl) <-> marked md fd sl \/ (md ∈ changes /\ booked md fd sl).
Proof.
  unfold marked, mark_mods. cbn. rewrite <- (elem_of_set_order 0 changes).
  generalize (set_order 0 changes) as mds. intros mds. generalize (_push_list sl) as push.
  induction mds as [|md0 mds IH]; intros push; cbn [foldl].
  - split; [by left|]. intros [|[Hin _]]; [done|by apply not_elem_of_nil in Hin].
  - rewrite IH, mark_mod_lookup, elem_of_cons. naive_solver.
Qed.

(** ** Runs of the service *)

(** What happens to the subscriptions: a connection opens, asks for a pair, the
    backend publishes, a connection closes. *)
Inductive dns_op : Type :=
  | DOpen (fd : Z)
  | DRequest (fd md : Z)
  | DPublish (changes : gset Z)
  | DClose (fd : Z).

Definition dns_step (op : dns_op) (d : Dns) : res Dns :=
  match op with
  | DOpen fd => Ret (create_subscribe fd d)
  | DRequest fd md => Ret (default d (get_route_subscribe fd md d))
  | DPublish changes => Ret (mkDns (d_route d) (mark_mods changes (d_sub d)) (params d))
  | DClose fd => clear_subscribe fd d
  end.

(** The life of a connection: [set_conn_start]'s hook runs on a descriptor
    whose last connection was closed with [set_conn_close]'s hook. *)
Definition op_ok (op : dns_op) (d : Dns) : Prop :=
  match op with
  | DOpen fd => forall l, params d !! fd <> Some (Some l)
  | DClose fd => exists l, params d !! fd = Some (Some l)
  | _ => True
  end.

Inductive dns_reachable (r : Route) : Dns -> Prop :=
  | dr_init : dns_reachable r (mkDns r SubscribeList_new ∅)
  | dr_step op d d' : dns_reachable r d -> op_ok op d -> dns_step op d = Ret d' ->
    dns_reachable r d'.

(** The book has exactly what the connections' lists have, and no empty entry. *)
Definition book_ok (d : Dns) : Prop :=
  (forall md fd, booked md fd (d_sub d) <-> listed md fd d) /\
  (forall md, _book_list (d_sub d) !! md <> Some ∅).

Lemma subscribe_nonempty md fd sl :
  (forall m, _book_list sl !! m <> Some ∅) -> forall m, _book_list (subscribe md fd sl) !! m <>
    Some ∅.
Proof.
  intros Hne m. cbn. unfold map_insert. rewrite lookup_insert. case_decide; [|by apply Hne].
  intros [= He]. assert (fd ∈ (∅ : gset Z)) by (rewrite <- He; set_solver). set_solver.
Qed.

Lemma unsubscribe_nonempty md fd sl :
  (forall m, _book_list sl !! m <> Some ∅) -> forall m, _book_list (unsubscribe md fd sl) !! m
    <> Some ∅.
Proof.
  intros Hne m. unfold unsubscribe. destruct (_book_list sl !! md) as [fds|]; [|by apply Hne].
  cbn.
  case_decide as He; [rewrite lookup_delete|rewrite lookup_insert]; case_decide; (congruence ||
    by apply Hne).
Qed.

Lemma unsubscribe_all_nonempty mds fd sl :
  (forall m, _book_list sl !! m <> Some ∅) ->
  forall m, _book_list (foldl (fun sl md => unsubscribe md fd sl) sl mds) !! m <> Some ∅.
Proof.
  revert sl. induction mds as [|md mds IH]; intros sl Hne; [done|]. cbn.
  by apply IH, unsubscribe_nonempty.
Qed.

Lemma dns_step_ok op d d' : book_ok d -> op_ok op d -> dns_step op d = Ret d' -> book_ok d'.
Proof.
  intros [Hb Hne] Hop. destruct op as [fd|fd md|changes|fd]; cbn [dns_step].
  - intros [= <-]. split; [|done]. intros md' fd'. unfold create_subscribe. cbn [d_sub].
    rewrite Hb. unfold listed. cbn [params]. destruct (decide (fd' = fd)) as [->|Hf].
    + rewrite lookup_insert_eq. cbn in Hop. split; [naive_solver|].
      intros (l & [= <-] & Hl). by apply elem_of_empty in Hl.
    + by rewrite lookup_insert_ne.
  - intros [= <-]. unfold get_route_subscribe.
    destruct (params d !! fd) as [[l|]|] eqn:E; cbn [default from_option id]; [|by split..].
    case_decide as Hl; cbn [default from_option id]; [by split|].
    split; cbn [d_sub]; [|by apply subscribe_nonempty].
    intros md' fd'. rewrite booked_subscribe, Hb. unfold listed. cbn [params].
    destruct (decide (fd' = fd)) as [->|Hf].
    + rewrite lookup_insert_eq. split.
      * intros [[-> _]|(l' & E' & Hl')]; eexists; (split; [done|]); [set_solver|].
        assert (l' = l) by congruence. set_solver.
      * intros (l' & [= <-] & [->%elem_of_singleton|Hl']%elem_of_union); [by left|right; eauto].
    + rewrite lookup_insert_ne by done. naive_solver.
  - intros [= <-]. by split.
  - unfold clear_subscribe. destruct (params d !! fd) as [[l|]|] eqn:E; [|done..].
    intros [= <-]. split; cbn [d_sub]; [|by apply unsubscribe_all_nonempty].
    intros md' fd'. rewrite booked_unsubscribe_all, Hb, elem_of_set_order. unfold listed.
    cbn [params].
    destruct (decide (fd' = fd)) as [->|Hf].
    + rewrite lookup_insert_eq, E. naive_solver.
    + rewrite lookup_insert_ne by done. naive_solver.
Qed.

Lemma dns_reachable_ok r d : dns_reachable r d -> book_ok d.
Proof.
  induction 1 as [|op d d' _ IH Hop Hst]; [|by eapply dns_step_ok].
  split; [|intros md; cbn; by rewrite lookup_empty].
  intros md fd. unfold booked, listed. cbn. rewrite !lookup_empty. cbn.
  split; [intros Hin; by apply elem_of_empty in Hin|naive_solver].
Qed.


(** ** The push *)

Lemma publish_loop_spec its online need push :
  publish_loop its online need push =
    if decide (Exists (fun fd => fd ∈ online) its.*1) then Fault IterInvalid else Ret (need,
      push).
Proof.
  induction its as [|[fd mods] its IH]; cbn [publish_loop fmap list_fmap fst].
  - rewrite decide_False; [done|]. intros Hex. inversion Hex.
  - destruct (decide (fd ∈ online)) as [Hfd|Hfd].
    + rewrite decide_True; [done|]. by constructor.
    + rewrite IH. apply decide_ext. rewrite Exists_cons. tauto.
Qed.

(** [push_change_task] never delivers a change: if one of its loop's
    online clients is on the push list, the loop of [make_publish_map] goes on
    with the iterator it has just erased; if none is, nothing is sent.  So
    every thread with an online subscriber of a changed pair runs into the
    invalid iterator. *)
Lemma push_never_delivers `{Wire lbrss.GetRouteResponse} {W} send conns online r sl (w : W) :
  push_change_task send conns online r sl w =
    (if decide (dom (_push_list sl) ∩ online = ∅) then Ret (sl, w) else Fault IterInvalid) /\
  (forall changes md fd, md ∈ changes -> booked md fd sl -> fd ∈ online ->
     push_change_task send conns online r (mark_mods changes sl) w = Fault IterInvalid).
Proof.
  assert (Hspec : forall sl, push_change_task send conns online r sl w =
    if decide (dom (_push_list sl) ∩ online = ∅) then Ret (sl, w) else Fault IterInvalid).
  { intros sl0. unfold push_change_task, make_publish_map. rewrite publish_loop_spec.
    assert (Hin : forall fd, fd ∈ (map_order 0 (_push_list sl0)).*1 <-> fd ∈ dom (_push_list
      sl0)).
    { intros fd. rewrite list_elem_of_fmap, elem_of_dom. split.
      - intros ([fd' ms] & -> & Hm%elem_of_map_order). cbn. by rewrite Hm.
      - intros [ms Hm]. exists (fd, ms). split; [done|]. by rewrite elem_of_map_order. }
    destruct (decide (dom (_push_list sl0) ∩ online = ∅)) as [He|He].
    - rewrite decide_False.
      { cbn [mbind res_bind]. unfold push_all. rewrite map_order_empty. by destruct sl0. }
      intros (fd & Hfd%Hin & Ho)%Exists_exists. set_solver.
    - rewrite decide_True; [done|].
      apply set_choose_L in He as [fd [Hd Ho]%elem_of_intersection]. apply Exists_exists.
      exists fd. by rewrite Hin. }
  split; [apply Hspec|]. intros changes md fd Hmd Hb Ho. rewrite Hspec, decide_False; [done|].
  intros He. assert (Hm : marked md fd (mark_mods changes sl)) by (apply marked_mark_mods; by
    right).
  unfold marked in Hm.
  destruct (_push_list (mark_mods changes sl) !! fd) as [ms|] eqn:E;
    [|by apply elem_of_empty in Hm].
  apply elem_of_dom_2 in E. set_solver.
Qed.

(** The hosts of a message. *)
Lemma add_host_set_hosts key hosts rsp :
  lbrss.grs_modid (add_host_set key hosts rsp) = lbrss.grs_modid rsp /\
  lbrss.grs_cmdid (add_host_set key hosts rsp) = lbrss.grs_cmdid rsp /\
  lbrss.grs_host (add_host_set key hosts rsp) = lbrss.grs_host rsp ++
    ((fun v => lbrss.mkHostInfo (i32 (unpack_hi_u v)) (unpack_lo v)) <$> set_order key hosts).
Proof.
  unfold add_host_set. generalize (set_order key hosts) as vs. intros vs. revert rsp.
  induction vs as [|v vs IH]; intros rsp; cbn [foldl fmap list_fmap]; [by rewrite app_nil_r|].
  destruct (IH (add_host (lbrss.mkHostInfo (i32 (unpack_hi_u v)) (unpack_lo v)) rsp)) as (E1 &
    E2 & E3).
  rewrite E1, E2, E3. cbn. by rewrite <- app_assoc.
Qed.

(** The hosts of a response, of a table loaded from rows with ports that are
    not negative: the address and port of every row of the pair. *)
Lemma route_response_hosts r rows modid cmdid :
  is_i32 modid -> is_i32 cmdid -> data_map r = load_rows rows ∅ ->
  Forall (fun row => 0 <= atoi (r_port row)) rows ->
  forall ip port, lbrss.mkHostInfo ip port ∈ lbrss.grs_host (route_response r modid cmdid) <->
    exists row, row ∈ rows /\ atoi (r_modid row) = modid /\ atoi (r_cmdid row) = cmdid /\
      ip = atoi (r_ip row) /\ port = atoi (r_port row).
Proof.
  intros Hm Hc Hd Hports ip port. unfold route_response.
  destruct (add_host_set_hosts (pack64 modid cmdid) (get_hosts modid cmdid r)
    (lbrss.mkGetRouteResponse modid cmdid
    []))
    as (_ & _ & ->). cbn [lbrss.grs_host app]. rewrite list_elem_of_fmap.
  rewrite Forall_forall in Hports.
  assert (Hval : forall row, row ∈ rows ->
    i32 (unpack_hi_u (row_value row)) = atoi (r_ip row) /\ unpack_lo (row_value row) = atoi
      (r_port row)).
  { intros row Hrow. unfold row_value. pose proof (Hports _ Hrow) as Hp.
    pose proof (atoi_is (r_port row)) as Hpi.
    rewrite unpack_hi_u_pack, unpack_lo_pack by (first [apply u32_is|done|unfold is_i32 in *;
      lia]).
    rewrite i32_u32. split; [|done]. apply i32_id, atoi_is. }
  split.
  - intros (v & Eq & Hv). apply elem_of_set_order in Hv.
    apply (get_hosts_rows rows) in Hv as (row & Hrow & Hrm & Hrc & ->); [|done..].
    destruct (Hval row Hrow) as [V1 V2]. rewrite V1, V2 in Eq. injection Eq as -> ->.
    by exists row.
  - intros (row & Hrow & Hrm & Hrc & -> & ->). exists (row_value row).
    destruct (Hval row Hrow) as [V1 V2]. rewrite V1, V2. split; [done|].
    apply elem_of_set_order, (get_hosts_rows rows); [done..|]. by exists row.
Qed.

(** The message that is made for a changed pair: it has the right cmdid,
    but the modid one too small when the cmdid is negative (the packed key
    borrows from its upper half), and then the hosts of that other pair.  For a
    cmdid that is not negative it has the pair itself and, of a table loaded
    from rows with ports that are not negative, exactly the address and port
    of every row of the pair. *)
Lemma push_message_pair r rows modid cmdid :
  is_i32 modid -> is_i32 cmdid -> data_map r = load_rows rows ∅ ->
  let rsp := push_message r (pack64 modid cmdid) in
  lbrss.grs_cmdid rsp = cmdid /\
  lbrss.grs_modid rsp = (if 0 <=? cmdid then modid else i32 (modid - 1)) /\
  rsp = route_response r (lbrss.grs_modid rsp) cmdid /\
  (0 <= cmdid -> Forall (fun row => 0 <= atoi (r_port row)) rows ->
   forall ip port, lbrss.mkHostInfo ip port ∈ lbrss.grs_host rsp <->
     exists row, row ∈ rows /\ atoi (r_modid row) = modid /\ atoi (r_cmdid row) = cmdid /\
       ip = atoi (r_ip row) /\ port = atoi (r_port row)).
Proof.
  intros Hm Hc Hd rsp. subst rsp. unfold push_message.
  rewrite unpack_lo_pack, unpack_hi_pack by done. set (m' := if 0 <=? cmdid then modid else _).
  destruct (add_host_set_hosts (pack64 m' cmdid) (get_hosts m' cmdid r)
    (lbrss.mkGetRouteResponse m' cmdid []))
    as (E1 & E2 & Eh). fold (route_response r m' cmdid) in E1, E2, Eh.
  cbn [lbrss.grs_modid lbrss.grs_cmdid lbrss.grs_host] in E1, E2, Eh. rewrite E1, E2.
  split; [done|]. split; [done|]. split; [done|]. intros Hpos Hports.
  assert (m' = modid) as -> by (subst m'; by rewrite (proj2 (Z.leb_le 0 cmdid))).
  by apply route_response_hosts.
Qed.

End Orders.

(** ** Witnesses *)

Module PushExample.
Definition sl : SubscribeList := subscribe (pack64 1 2) 5 SubscribeList_new.
End PushExample.
Import Varint PbWire FixedOrder.

Lemma push_never_delivers_witness :
  push_change_task (fun _ _ _ _ w => Ret w) [] {[5]} (mkRoute ∅ ∅ true 0)
    (mark_mods {[pack64 1 2]} PushExample.sl) tt = Fault IterInvalid.
Proof.
  refine (proj2 (push_never_delivers (fun _ _ _ _ w => Ret w) [] {[5]} (mkRoute ∅ ∅ true 0)
    PushExample.sl tt) {[pack64 1 2]} (pack64 1 2) 5 _ _ _).
  - by apply elem_of_singleton.
  - apply booked_subscribe. by left.
  - by apply elem_of_singleton.
Defined.


Lemma push_message_pair_witness :
  let rows := [mkRow 1 2 10 80; mkRow 1 3 11 81] in
  let r := mkRoute (load_rows rows ∅) ∅ true 0 in
  lbrss.grs_modid (push_message r (pack64 1 2)) = 1 /\
  lbrss.grs_modid (push_message r (pack64 1 (-2))) = i32 (1 - 1).
Proof.
  intros rows r.
  assert (H1 : is_i32 1) by (unfold is_i32; lia).
  assert (H2 : is_i32 2) by (unfold is_i32; lia).
  assert (H3 : is_i32 (-2)) by (unfold is_i32; lia).
  split.
  - exact (proj1 (proj2 (push_message_pair r rows 1 2 H1 H2 eq_refl))).
  - exact (proj1 (proj2 (push_message_pair r rows 1 (-2) H1 H3 eq_refl))).
Defined.
