(* ===== verification/DnsNet.v ===== *)
(** * DnsNet: the dns service on its server (dns/src/dns_service.cpp)

    The handler and the hooks of [Subscribe] registered with the server of
    [TcpConn]: the application's state is [Dns], and a reply goes to the
    connection that asked.  They meet the contracts of the reactor, with the
    effect [dns_eff], so that what holds of a stream of bytes ([TcpConnInv])
    holds of a stream of requests; in particular no request, well-formed or
    not, makes the handler fail. *)

From S2P Require Import Prelude CInt HashOrder.
From S2P Require Import IOBuf BufAlloc ReactorBuf Message EventLoop NetState Framing.
From S2P Require Import TcpConn TcpConnInv.
From S2P Require Import Protobuf.
From S2P Require Import Varint.
From S2P Require Import LbrssPb.
From S2P Require Import Proto.
From S2P Require Import LbrssPbSpec.
From S2P Require Import LbrssPbTypes.
From S2P Require Import DnsRoute Subscribe SubscribeSpec.
From Stdlib Require Import Strings.Byte.
Local Open Scope Z_scope.

(** ** Registration *)

(** The functions that [main] registers, and the task that is sent to the
    threads when routes change. *)
Inductive dns_v : Type :=
  | get_route_f
  | create_subscribe_f
  | clear_subscribe_f
  | push_change_task_f.

Definition dns_router : MsgRouter dns_v dns_v :=
  (register_msg_router ID_GetRouteRequest get_route_f None MsgRouter_new).2.

Definition dns_cfg : option dns_v * option dns_v * MsgRouter dns_v dns_v :=
  (Some create_subscribe_f, Some clear_subscribe_f, dns_router).

Section DnsNet.
Context {P E : Type} `{BufAlloc P} `{Epoll E} `{HO : HashOrder}.
Context `{Wire lbrss.GetRouteRequest, Wire lbrss.GetRouteResponse}.
Local Abbreviation Net := (Net P E dns_v Dns).

(** [conn->send_message(...)], its result ignored. *)
Definition send_on (c fd : Z) (data : list byte) (len id : Z) (w : Net) : res Net :=
  '(_, w) ← send_message data len id c w; Ret w.

(** The calls through the registered pointers. *)
Definition dns_msg (cb : dns_v) (data : option (list byte)) (len id c : Z) (arg : option dns_v)
    (w : Net) : res Net :=
  match cb with
  | get_route_f =>
      fd ← get_fd c w;
      '(d, w) ← get_route (send_on c) (default [] data) len fd (nt_user w) w;
      Ret (set_ntuser d w)
  | _ => Fault NullDeref
  end.

Definition dns_hook (h : dns_v) (c : Z) (w : Net) : res Net :=
  fd ← get_fd c w;
  match h with
  | create_subscribe_f => Ret (set_ntuser (create_subscribe fd (nt_user w)) w)
  | clear_subscribe_f => d ← clear_subscribe fd (nt_user w); Ret (set_ntuser d w)
  | get_route_f | push_change_task_f => Fault NullDeref
  end.
End DnsNet.

(** ** Sizes *)

(** The most hosts a pair may have: the response for them fits into the client's
    buffer, and two of them into the largest buffer of the pool. *)
Definition MAX_HOSTS : Z := 100000.

(** No pair has more than [hm] hosts. *)
Definition hosts_fit (hm : Z) (r : Route) : Prop :=
  hm <= MAX_HOSTS /\ forall modid cmdid, Z.of_nat (size (get_hosts modid cmdid r)) <= hm.

(** What a response adds to the output then. *)
Definition route_grow (hm : Z) : Z := 30 + 28 * hm.

(** A table of at most as many rows is one. *)
Lemma rows_fit rows hm r :
  data_map r = load_rows rows ∅ -> Z.of_nat (length rows) <= hm <= MAX_HOSTS -> hosts_fit hm r.
Proof.
  intros Hd Hl. split; [lia|]. intros modid cmdid.
  assert (Hsub : get_hosts modid cmdid r ⊆ list_to_set (row_value <$> rows)).
  { intros v Hv. apply elem_of_list_to_set, list_elem_of_fmap. unfold get_hosts in Hv.
  rewrite Hd in Hv.
    assert (Hin : v ∈ default ∅ (load_rows rows ∅ !! pack64 modid cmdid))
      by by destruct (_ !! _).
    apply load_rows_lookup in Hin as [(row & Hrow & _ & ->)|Hin]; [by exists row|].
    rewrite lookup_empty in Hin. by apply elem_of_empty in Hin. }
  apply subseteq_size in Hsub. pose proof (size_list_to_set_le (row_value <$> rows)) as Hs.
  rewrite length_fmap in Hs. lia.
Qed.

Import Pb PbWire.

Section Sizes.
Context `{PL : PbLaws} `{HO : HashOrder}.

Lemma size_repeated_hosts hs :
  Forall (fun h => HostInfo_ok h /\ hi_metadata h = ufs_empty) hs ->
  0 <= size_repeated HostInfo_ByteSizeLong hs <= 28 * Z.of_nat (length hs).
Proof.
  intros Hh. pose proof (size_repeated_max HostInfo_ByteSizeLong 22 hs) as Hs.
  enough (Z.of_nat (length hs) <= size_repeated HostInfo_ByteSizeLong hs <=
    (22 + 6) * Z.of_nat (length hs)) by lia.
  apply Hs; [lia|]. eapply Forall_impl; [exact Hh|]. intros h [Hok Hu].
  by apply HostInfo_size_max.
Qed.

(** The response of the service is in range, and small if the pair has not too
    many hosts. *)
Lemma route_response_ok hm r modid cmdid :
  is_i32 modid -> is_i32 cmdid -> hosts_fit hm r ->
  let rsp := route_response r modid cmdid in
  GetRouteResponse_ok (GetRouteResponse_of rsp) /\
  0 <= (GetRouteResponse_ByteSizeLong (GetRouteResponse_of rsp)).1 <= 22 + 28 * hm.
Proof.
  intros Hm Hc [Hmax Hf] rsp. destruct (add_host_set_hosts (pack64 modid cmdid)
    (get_hosts modid cmdid r)
    (lbrss.mkGetRouteResponse modid cmdid [])) as (E1 & E2 & E3).
  fold (route_response r modid cmdid) in E1, E2, E3. fold rsp in E1, E2, E3.
  cbn [lbrss.grs_modid lbrss.grs_cmdid lbrss.grs_host app] in E1, E2, E3.
  specialize (Hf modid cmdid).
  rewrite <- (length_set_order (pack64 modid cmdid) (get_hosts modid cmdid r)) in Hf.
  assert (Hh : Forall (fun h => HostInfo_ok h /\ hi_metadata h = ufs_empty)
    (HostInfo_of <$> lbrss.grs_host rsp)).
  { rewrite E3, !Forall_fmap. apply Forall_forall. intros v _. split; [|done].
    split; cbn; apply i32_is. }
  split.
  - split; [|cbn; by rewrite E1, E2]. eapply Forall_impl; [exact Hh|]. by intros h [? _].
  - unfold GetRouteResponse_ByteSizeLong. cbn [fst gs_metadata gs_host_ gs_modid_ gs_cmdid_
      GetRouteResponse_of]. rewrite E1, E2. unfold size_total. rewrite have_unknown_empty.
    pose proof (size_repeated_hosts _ Hh) as Hs. rewrite length_fmap, E3, length_fmap in Hs.
    rewrite E3. pose proof (size_int32_range _ Hm). pose proof (size_int32_range _ Hc). lia.
Qed.

Lemma route_response_wire hm r modid cmdid :
  is_i32 modid -> is_i32 cmdid -> hosts_fit hm r ->
  let rsp := route_response r modid cmdid in
  wire_ok rsp /\ Z.of_nat (length (SerializeToString rsp)) <= 22 + 28 * hm.
Proof.
  intros Hm Hc Hf rsp. destruct (route_response_ok hm r modid cmdid Hm Hc Hf) as [Hok Hs].
  destruct Hf as [Hmax _].
  fold rsp in Hok, Hs. unfold MAX_HOSTS in *.
  assert (Hl : small_len (GetRouteResponse_ByteSizeLong (GetRouteResponse_of rsp)).1)
    by (unfold small_len; lia).
  split; [by split|].
  change (SerializeToString rsp) with (SerializeMessage GetRouteResponse_ByteSizeLong
    GetRouteResponse_InternalSerialize (GetRouteResponse_of rsp)).
  rewrite SerializeMessage_runs by done. rewrite GetRouteResponse_size_write by done. lia.
Qed.
End Sizes.

(** ** The contracts of the reactor *)

Section Contract.
Context {P E : Type} `{LP : BufAllocLaws P} `{LE : EpollLaws E} `{PL : PbLaws} `{HO : HashOrder}.
Context (K : kernel_accepts (E := E)).
Local Abbreviation Net := (Net P E dns_v Dns).
(** The table. *)
Variable r : Route.

(** The connection on [fd] has its list of pairs. *)
Definition opened (fd : Z) (d : Dns) : Prop := exists l, params d !! fd = Some (Some l).

(** The checking thread may have loaded the same table again. *)
Definition same_table (r' r : Route) : Prop :=
  data_map r' = data_map r /\ version_ r' = version_ r.

(** The open connections are those with a list, and what they have in their
    lists is what is booked. *)
Definition dns_ui (cfg : option dns_v * option dns_v * MsgRouter dns_v dns_v) (fds : gset Z)
    (d : Dns) : Prop :=
  cfg = dns_cfg /\ (forall fd, fd ∈ fds <-> opened fd d) /\ book_ok d /\ same_table (d_route d) r.

Lemma same_table_response r' modid cmdid :
  same_table r' r -> route_response r' modid cmdid = route_response r modid cmdid.
Proof. intros [Hd _]. unfold route_response, get_hosts. by rewrite Hd. Qed.

(** The effect of a request: the subscription, and the response. *)
Definition dns_eff (cb : dns_v) (arg : option dns_v) (f : frame) (fd : Z) (d d' : Dns)
    (out : list byte) : Prop :=
  let req := ParseFromArray (f_data f) in
  let modid := lbrss.grq_modid req in
  let cmdid := lbrss.grq_cmdid req in
  get_route_subscribe fd (pack64 modid cmdid) d = Some d' /\
  out = frame_bytes (mkFrame ID_GetRouteResponse
                       (SerializeToString (route_response r modid cmdid))).

(** The effects of the hooks. *)
Definition dns_hooked (h : dns_v) (fd : Z) (d d' : Dns) : Prop :=
  match h with
  | create_subscribe_f => d' = create_subscribe fd d
  | clear_subscribe_f => clear_subscribe fd d = Ret d'
  | get_route_f | push_change_task_f => False
  end.

Lemma dns_ui_request cfg fds fd md d :
  dns_ui cfg fds d -> fd ∈ fds ->
  exists d', get_route_subscribe fd md d = Some d' /\ dns_ui cfg fds d'.
Proof.
  intros (Hcfg & Hp & Hb & Hr) Hfd. destruct (proj1 (Hp fd) Hfd) as [l Hl].
  assert (E1 : exists d', get_route_subscribe fd md d = Some d' /\ d_route d' = d_route d /\
    forall fd', opened fd' d' <-> opened fd' d).
  { unfold get_route_subscribe. rewrite Hl. case_decide; eexists;
      (split; [done|]); (split; [done|]);
      [done|]. intros fd'. unfold opened. cbn [params]. rewrite lookup_insert.
    case_decide as He; [subst fd'; rewrite Hl; naive_solver|done]. }
  destruct E1 as (d' & E1 & Er & Ho). exists d'. split; [done|].
  split; [done|]. split; [intros fd'; by rewrite Ho|]. split; [|by rewrite Er].
  apply (dns_step_ok (DRequest fd md) d); [done|done|]. cbn [dns_step]. by rewrite E1.
Qed.

Lemma dns_ui_open cfg fds fd d :
  dns_ui cfg fds d -> fd ∉ fds -> dns_ui cfg ({[fd]} ∪ fds) (create_subscribe fd d).
Proof.
  intros (Hcfg & Hp & Hb & Hf) Hfd. split; [done|]. split; [|split; [|done]].
  - intros fd'. rewrite elem_of_union, elem_of_singleton, Hp. unfold opened, create_subscribe.
    cbn [params]. rewrite lookup_insert. case_decide; naive_solver.
  - apply (dns_step_ok (DOpen fd) d); [done| |done]. intros l Hl. apply Hfd, Hp. by exists l.
Qed.

Lemma dns_ui_close cfg fds fd d :
  dns_ui cfg fds d -> fd ∈ fds ->
  exists d', clear_subscribe fd d = Ret d' /\ dns_ui cfg (fds ∖ {[fd]}) d'.
Proof.
  intros (Hcfg & Hp & Hb & Hf) Hfd. destruct (proj1 (Hp fd) Hfd) as [l Hl].
  pose proof (dns_step_ok (DClose fd) d) as Hs. cbn [dns_step op_ok] in Hs.
  unfold clear_subscribe in Hs |- *. rewrite Hl in Hs |- *. eexists. split; [done|].
  specialize (Hs _ Hb ltac:(by exists l) eq_refl). split; [done|]. split; [|by split].
  intros fd'. rewrite elem_of_difference, elem_of_singleton, Hp. unfold opened. cbn [params].
  rewrite lookup_insert. case_decide; naive_solver.
Qed.

(** The handler meets its contract on every message: it never fails. *)
Lemma dns_msg_ok hm : hosts_fit hm r ->
  msg_ok dns_ui (dns_msg (P := P) (E := E)) (Z.to_nat (route_grow hm)) dns_eff.
Proof.
  intros Hfit cb data len id c arg w cn ib ob rest I Hcall Hl Hd Hg.
  pose proof (ci_user _ _ _ _ _ _ _ _ I) as Hui. destruct (Hui) as (Hcfg & _ & _ & Hr).
  rewrite (f_equal snd Hcfg : router (nt_srv w) = dns_router) in Hcall.
  assert (cb = get_route_f) as ->.
  { unfold dns_router in Hcall. rewrite call_register in Hcall. cbn in Hcall.
    case_decide; [by injection Hcall|done]. }
  cbn [dns_msg]. unfold get_fd. rewrite (conn_inv_get _ _ _ _ _ _ _ _ I). cbn [mbind res_bind].
  set (bs := take (Z.to_nat len) (default [] data)).
  unfold get_route. fold bs. destruct (request_parsed_ok bs) as [Hm Hc]. set (req :=
    ParseFromArray bs) in *.
  destruct (dns_ui_request _ _ (_connfd cn) (pack64 (lbrss.grq_modid req) (lbrss.grq_cmdid req))
    (nt_user w) Hui (ci_listed _ _ _ _ _ _ _ _ I)) as (d' & Es & Hui'). rewrite Es.
  destruct (Hui') as (_ & _ & _ & Hsame). rewrite (same_table_response _ _ _ Hsame).
  destruct (route_response_wire hm r _ _ Hm Hc Hfit) as [_ Hlen].
  set (rsp := SerializeToString _) in *. unfold send_on. unfold route_grow, MAX_HOSTS in *.
  pose proof (send_message_fits dns_ui K _ _ _ _ _ _ _ rsp ID_GetRouteResponse I ltac:(lia)) as
    Hs.
  destruct (send_message _ _ _ _ _) as [[ret w1]|fl]; cbn [mbind res_bind]; [|by destruct fl].
  destruct Hs as (_ & cn1 & Hib & Hfd & _ & Hsrv & Hu & I1). cbn.
  exists cn1. eexists. split.
  { apply conn_inv_user; [exact I1|]. by rewrite Hsrv. }
  split_and!; [done|done|done| |by split].
  rewrite length_app, head_bytes_length. lia.
Qed.

(** The hooks *)
Lemma dns_hook_runs h c (w : Net) cn d (Q : Dns -> Prop) :
  nt_conns w !! c = Some cn ->
  dns_hook h c w = Ret (set_ntuser d w) -> Q d -> hook_runs dns_hook (Some h) c w cn Q.
Proof.
  intros Hc E1 HQ. exists (param cn), d. split; [|done]. cbn [run_opt_hook]. rewrite E1.
  f_equal. destruct w as [p L cs n s op u], cn. unfold set_conn, set_param. cbn in *.
  by rewrite insert_id.
Qed.

(** The closing hook finds the list that the opening hook has made. *)
Lemma dns_hook_ok : hook_ok dns_ui (dns_hook (P := P) (E := E)) dns_hooked.
Proof.
  intros c w cn s Hc Hfd Hui. unfold s in *. pose proof Hui as (Hcfg & _).
  rewrite (f_equal (fun x => x.1.2) Hcfg : conn_close_cb (nt_srv w) = Some clear_subscribe_f).
  destruct (dns_ui_close _ _ _ _ Hui Hfd) as (d' & Ed & Hui').
  apply (dns_hook_runs _ _ _ _ d'); [done| |split; [done|exact Ed]].
  unfold dns_hook, get_fd, get_conn. rewrite Hc. cbn [mbind res_bind]. by rewrite Ed.
Qed.

Lemma dns_start_ok : start_ok dns_ui (dns_hook (P := P) (E := E)) dns_hooked dns_cfg.
Proof.
  intros c w cn s Hc Hcfg Hfd Hui. unfold s in *.
  rewrite (f_equal (fun x => x.1.1) Hcfg : conn_start_cb (nt_srv w) = Some create_subscribe_f).
  apply (dns_hook_runs _ _ _ _ (create_subscribe (_connfd cn) (nt_user w))); [done| |].
  - unfold dns_hook, get_fd, get_conn. by rewrite Hc.
  - split; [by apply dns_ui_open|done].
Qed.
End Contract.
