(* ===== verification/DnsService.v ===== *)
(** * DnsService: the dns service and all its clients

    A worker of the service as [main] (dns/src/dns_service.cpp) sets it up, on
    [ServerLoop]: what each client is sent is a function of the table and of
    the client's own bytes ([dns_service_answers]). *)

From S2P Require Import Prelude CInt HashOrder.
From S2P Require Import IOBuf BufAlloc BufPool ReactorBuf Message EventLoop ThreadQueue.
From S2P Require Import NetState Framing TcpConn TcpConnInv TcpConnSpec TcpServer ServerLoop.
From S2P Require Import Protobuf.
From S2P Require Import Varint.
From S2P Require Import LbrssPb.
From S2P Require Import Proto.
From S2P Require Import LbrssPbSpec.
From S2P Require Import DnsRoute Subscribe SubscribeSpec DnsNet.
From Stdlib Require Import Strings.Byte.
Import Pb PbWire.
Local Open Scope Z_scope.

Section Service.
Context {P E F LOOP : Type} `{LP : BufAllocLaws P} `{LE : EpollLaws E} `{EventFd F} `{PL : PbLaws}.
Context `{HO : HashOrder}.
Context (K : kernel_accepts (E := E)).
Local Abbreviation Net := (Net P E dns_v Dns).
Local Abbreviation Worker := (Worker P E dns_v Dns F LOOP).

(** ** The start *)

(** The server that the constructor leaves, with the hooks and the handler of
    [main]. *)
Definition dns_server (max_conns : Z) : TCPServer dns_v :=
  mkServer ∅ max_conns 0 dns_cfg.1.1 dns_cfg.1.2 dns_cfg.2.

(** The service with a loaded table and no clients, and a worker of it. *)
Definition dns_net (p : P) (e : E) (max_conns : Z) (r : Route) : Net :=
  mkNet p (EventLoop_new e) ∅ 0 (dns_server max_conns) ∅ (mkDns r SubscribeList_new ∅).

Definition dns_worker (evfd_num : F -> Z) (f : F) (p : P) (e : E) (max_conns : Z) (r : Route)
    : Worker :=
  let q := ThreadQueue_new f in
  mkWorker (thread_main evfd_num e q (dns_net p e max_conns r)) q [] [] [].

(** ** What clients are owed *)

(** The reply to a message: to a request, the route of its pair. *)
Definition reply (r : Route) (f : frame) : list byte :=
  if decide (f_id f = ID_GetRouteRequest) then
    let req := ParseFromArray (f_data f) in
    frame_bytes (mkFrame ID_GetRouteResponse
      (SerializeToString (route_response r (lbrss.grq_modid req) (lbrss.grq_cmdid req))))
  else [].

Lemma answered_reply r fd fs out :
  answered dns_cfg (dns_eff r) fd fs out -> out = mjoin (reply r <$> fs).
Proof.
  induction 1 as [|f fs u u' out1 out2 Hs _ IH]; [done|]. cbn. rewrite IH. f_equal.
  unfold serve in Hs. cbn [snd dns_cfg] in Hs. unfold dns_router in Hs. rewrite call_register in
    Hs. unfold reply.
  destruct (decide (f_id f = ID_GetRouteRequest)) as [Hf|Hf].
  - rewrite decide_True in Hs by done. by destruct Hs as [_ ->].
  - rewrite decide_False in Hs by done. cbn in Hs. by destruct Hs as [_ ->].
Qed.

Context (r : Route) (hm : Z) (Hfit : hosts_fit hm r).
Context (vgrow : nat -> nat) (run_task : dns_v * option dns_v -> Worker -> res Worker).

(** A run of the worker *)
Definition dns_work (evfd_num : F -> Z) (f : F) (its : list wk_item) (wk : Worker) : res Worker :=
  work dns_msg dns_hook vgrow run_task (evfd_num f) its wk.

(** What the kernel may report during the run. *)
Definition dns_fits (lim qfd : Z) (its : list wk_item) : Prop :=
  run_fits dns_cfg (dns_eff r) dns_hooked (Z.to_nat (route_grow hm)) ba_max lim qfd its
    (mkServing ∅ [] (mkDns r SubscribeList_new ∅)).

(** The state before the first client *)
Lemma dns_ui_start : dns_ui r dns_cfg ∅ (mkDns r SubscribeList_new ∅).
Proof.
  split; [done|]. split; [|split; [by eapply dns_reachable_ok; constructor|by split]].
  intros fd. unfold opened. cbn. rewrite lookup_empty.
  split; [by intros ?%not_elem_of_empty|by intros [? ?]].
Qed.

Lemma dns_worker_inv evfd_num f p e max_conns :
  interest e = ∅ -> ba_view p ∅ -> 0 <= max_conns < 2 ^ 30 ->
  worker_inv (dns_ui r) dns_cfg (max_conns + 3) (evfd_num f)
    (mkServing ∅ [] (mkDns r SubscribeList_new ∅)) (dns_worker evfd_num f p e max_conns r).
Proof.
  intros He Hv Hm.
  apply (thread_main_ok K (dns_ui r) dns_cfg (max_conns + 3) (evfd_num f) evfd_num e
    (ThreadQueue_new f) (dns_net p e max_conns r) ∅); try done.
  apply dns_ui_start.
Qed.

(** Only open connections are booked. *)
Lemma booked_open cfg lim qfd S (wk : Worker) md fd :
  worker_inv (dns_ui r) cfg lim qfd S wk -> booked md fd (d_sub (nt_user (wk_net wk))) ->
  is_Some (s_conns S !! fd).
Proof.
  intros Hwk Hb. destruct (worker_inv_user _ _ _ _ _ _ Hwk) as (_ & Hp & [Hbk _] & _).
  apply Hbk in Hb as (l & Hl & _). apply elem_of_dom, Hp. by exists l.
Qed.

(** The dns service serves every client.  Started without clients on a table
    in which no pair has too many hosts, and for all events that fit
    ([dns_fits]: clients come and go, and their bytes are cut and interleaved in
    any way, but buffers have room and no message is empty), the
    service does not fail (unless the pool's memory is used up); and each client that neither
      leaves nor breaks
    off is sent, in order and byte for byte, the replies to the complete
    requests in its own stream, the route of the pair in the table for
    each, apart from the end that is still pending; and whoever is booked for a
    pair is connected. *)
Lemma dns_service_answers evfd_num f p e max_conns its :
  interest e = ∅ -> ba_view p ∅ -> 0 <= max_conns < 2 ^ 30 ->
  dns_fits (max_conns + 3) (evfd_num f) its ->
  exits_or (dns_work evfd_num f its (dns_worker evfd_num f p e max_conns r)) (fun wk' =>
    exists S', worker_inv (dns_ui r) dns_cfg (max_conns + 3) (evfd_num f) S' wk' /\
    (forall md fd, booked md fd (d_sub (nt_user (wk_net wk'))) -> is_Some (s_conns S' !! fd)) /\
    forall fd fs rest, Forall (quiet fd) its -> parse (stream_of fd its) = (fs, More rest) ->
      Forall (fun f => f_data f <> []) fs ->
      exists pending, conn_of fd S' = (rest, pending) /\
        concat (of_fd fd (wk_sent wk')) ++ pending = mjoin (reply r <$> fs)).
Proof.
  intros He Hv Hm Hf.
  pose proof (dns_worker_inv evfd_num f p e max_conns He Hv Hm) as Hwk.
  eapply exits_or_mono; [apply (work_ok K dns_hook (dns_ui r) dns_cfg (max_conns + 3) (evfd_num f)
    dns_hooked (dns_start_ok r) vgrow dns_msg run_task _ _ (dns_hook_ok r)
      (dns_msg_ok K r hm Hfit) its _ _
    Hwk Hf)|].
  intros wk' (S' & cs & sn & Hr & Hwk' & _ & Es). cbn [wk_sent dns_worker app] in Es. subst sn.
  exists S'. split; [done|]. split; [intros md fd; by apply (booked_open _ _ _ _ _ _ _ Hwk')|].
  intros fd fs rest Hq Hp Hne.
  destruct (sruns_alone _ _ _ fd _ _ _ _ _ Hr Hq [] [] fs rest eq_refl parse_nil Hp Hne)
    as (_ & o' & out & Hc & Ha & Ho).
  exists o'. split; [done|]. rewrite Ho. exact (answered_reply _ _ _ _ Ha).
Qed.
End Service.

(** ** Witness *)

Import TableKernel CounterFd Varint FixedOrder.

(** A client arrives and asks for 1/2, in two pieces. *)
Definition svc_rows : list RouteRow := [mkRow 1 2 16777343 8081; mkRow 1 2 16777343 8090].
Definition svc_route : Route := mkRoute (load_rows svc_rows ∅) ∅ true 1.
Definition svc_request : frame :=
  mkFrame ID_GetRouteRequest (SerializeToString (lbrss.mkGetRouteRequest 1 2)).
Definition svc_items : list wk_item :=
  [Arrive 7; Turn [ENew 1];
   Turn [EData 7 1 (take 5 (frame_bytes svc_request)) [];
         EData 7 1 (drop 5 (frame_bytes svc_request)) []]].

Lemma svc_hosts : hosts_fit 2 svc_route.
Proof. apply (rows_fit svc_rows); [done|]. unfold MAX_HOSTS. cbn. lia. Qed.

Lemma svc_fits : dns_fits (P := BufPool) svc_route 2 13 4 svc_items.
Proof.
  unfold dns_fits. change ba_max with m8M.
  cbn [run_fits svc_items s_conns s_waiting s_user app]. unfold new_fd. cbn [s_conns s_waiting].
  split; [split_and!; try lia; [done|by apply not_elem_of_nil]|].
  split; [done|]. intros S1 cs1 sn1 Hs1. inversion Hs1; subst. clear Hs1. cbn [all_fit run_fits].
  split.
  { split; [done|]. split; [done|]. exists [], []. split; [reflexivity|].
    split; [vm_compute; discriminate|]. vm_compute. split; [discriminate|done]. }
  intros S2 cs2 sn2 Hs2. inversion Hs2 as [|? ? ? ? ? ? ? ? i o fs r out Hc Hp Hsv
    |? ? ? ? ? ? ? ? ? i o fs ? Hc Hp| | |]; subst; clear Hs2;
    [|vm_compute in Hc; injection Hc as <- <-; vm_compute in Hp; discriminate].
  assert (E1 : i = [] /\ o = [] /\ fs = [] /\ r = take 5 (frame_bytes svc_request)).
  { vm_compute in Hc. injection Hc as <- <-. vm_compute in Hp. injection Hp as <- <-. done. }
  destruct E1 as (-> & -> & -> & ->). inversion Hsv; subst. clear Hc Hp Hsv.
  split; [|done]. split; [done|]. split; [done|]. exists (take 5 (frame_bytes svc_request)), [].
  split; [apply lookup_insert_eq|].
  split; [vm_compute; discriminate|]. vm_compute. split; [discriminate|done].
Qed.

Definition svc_task (t : dns_v * option dns_v) (wk : Worker BufPool (gmap Z Z) dns_v Dns N unit)
    : res (Worker BufPool (gmap Z Z) dns_v Dns N unit) := Ret wk.

Lemma dns_service_answers_witness :
  exits_or (dns_work S svc_task (fun _ => 4) 0%N svc_items
      (dns_worker (fun _ => 4) 0%N init_pool ∅ 10 svc_route)) (fun wk' =>
    exists pending, concat (of_fd 7 (wk_sent wk')) ++ pending = reply svc_route svc_request).
Proof.
  eapply exits_or_mono.
  - exact (dns_service_answers table_accepts svc_route 2 svc_hosts S svc_task (fun _ => 4) 0%N
      init_pool ∅ 10 svc_items eq_refl (BufPool_new_view _ init_pool_eq) ltac:(lia) svc_fits).
  - intros wk' (S' & _ & _ & Hr). destruct (Hr 7 [svc_request] []) as (pending & _ & Hp).
    + repeat constructor.
    + vm_compute. reflexivity.
    + by repeat constructor.
    + exists pending. rewrite Hp. apply app_nil_r.
Defined.
