(* ===== verification/RouteTrip.v ===== *)
(** * RouteTrip: a route from the table to a balancer

    The dns client thread of the agent (lb_agent/src/dns_client.cpp) on its
    [TcpClient], together with the dns service on its server ([DnsNet]): a
    request that waits in the agent's queue is sent, answered and taken over
    ([route_lookup_end_to_end]), down to the bytes on the connection. *)

From S2P Require Import Prelude CInt HashOrder.
From S2P Require Import IOBuf BufAlloc BufPool ReactorBuf Message EventLoop ThreadQueue.
From S2P Require Import NetState Framing.
From S2P Require Import TcpConn TcpConnInv TcpConnSpec.
From S2P Require TcpClient.
From S2P Require Import TcpClientSpec.
From S2P Require Import Protobuf.
From S2P Require Import Varint.
From S2P Require Import LbrssPb.
From S2P Require Import Proto.
From S2P Require Import LbrssPbSpec.
From S2P Require Import LbrssPbTypes.
From S2P Require Import HostInfo LoadBalance.
From S2P Require Import LoadBalanceInv LoadBalanceUpdate LoadBalanceSpec RouteLB RouteLBSpec.
From S2P Require Import Links.
From S2P Require Import DnsRoute Subscribe SubscribeSpec.
From S2P Require Import DnsNet.
From Stdlib Require Import Strings.Byte.
Import Pb PbWire.
Local Open Scope Z_scope.

(** ** The dns client *)

(** The functions that [dns_client_thread] registers. *)
Inductive dnsc_v : Type := deal_recv_route_f | conn_init_f | new_dns_request_f.

(** Its handlers *)
Definition client_router : MsgRouter dnsc_v dnsc_v :=
  (register_msg_router ID_GetRouteResponse deal_recv_route_f None MsgRouter_new).2.

Section Client.
Context {E F LOOP : Type} `{Epoll E} `{EventFd F}.
Context `{Wire lbrss.GetRouteRequest, Wire lbrss.GetRouteResponse}.
Context (cfg : LBConfig) (now : Z) (junk : loc -> Z * Z).
Local Abbreviation Cli := (TcpClient.Cli E dnsc_v (Agent F LOOP)).

Definition client_msg (cb : dnsc_v) (data : option (list byte)) (len id : Z) (arg : option dnsc_v)
    (w : Cli) : res Cli :=
  match cb, data with
  | deal_recv_route_f, Some bs =>
      ag ← deal_recv_route cfg now junk bs len (TcpClient.cl_user w);
      Ret (TcpClient.set_cuser ag w)
  | deal_recv_route_f, None => Fault Uninit
  | _, _ => Fault NullDeref
  end.

Definition client_hook (h : dnsc_v) (w : Cli) : res Cli :=
  match h with
  | conn_init_f => Ret (TcpClient.set_cuser (conn_init (TcpClient.cl_user w)) w)
  | _ => Fault NullDeref
  end.

(** The callback of the queue's event: [new_dns_request] with this client. *)
Definition client_request (w : Cli) : res Cli :=
  '(ag, w) ← new_dns_request TcpClient.send_message (TcpClient.cl_user w) w;
  Ret (TcpClient.set_cuser ag w).
End Client.

(** ** The round trip *)

Section Trip.
Context {P E F LOOP : Type} `{LP : BufAllocLaws P} `{LE : EpollLaws E} `{EventFd F} `{PL :
  PbLaws}.
Context `{HO : HashOrder}.
Context (K : kernel_accepts (E := E)).
Context (cfg : LBConfig) (now : Z) (junk : loc -> Z * Z).
(** The table of the service; no pair has more than [hm] hosts. *)
Context (r : Route) (hm : Z) (Hfit : hosts_fit hm r).
Local Abbreviation Cli := (TcpClient.Cli E dnsc_v (Agent F LOOP)).
Local Abbreviation Net := (Net P E dns_v Dns).

(** The events on the two sides: the queue of the client, its socket writable,
    the connection [c] of the service readable (once for each piece), writable,
    and the client's socket readable. *)
Definition route_round_trip (ws1 ws2 : nat -> list wr_ans) (cut : list byte -> list (list byte))
    (c : Z) (w : Cli) (s : Net) : res (Cli * Net) :=
  w ← client_request w;
  '(w, tr) ← TcpClient.do_write client_hook
               (ws1 (Z.to_nat (io_length (TcpClient._obuf (TcpClient.cl w))))) [] w;
  '(s, _) ← reads dns_hook dns_msg (cut (concat tr.*2)) c s;
  cn ← get_conn c s;
  n ← rb_length (obuf cn) (nt_pool s);
  '(s, sent) ← do_write dns_hook c (ws2 (Z.to_nat n)) s;
  '(_, w, _) ← TcpClient.do_read (client_msg cfg now junk) client_hook
                 (Some (Z.of_nat (length sent))) [RdData sent] (None, TcpClient.ConnOk) w;
  Ret (w, s).

(** *** The request *)

Lemma route_request_wire modid cmdid :
  is_i32 modid -> is_i32 cmdid ->
  let req := lbrss.mkGetRouteRequest modid cmdid in
  wire_ok req /\ Z.of_nat (length (SerializeToString req)) = size_int32 modid + size_int32 cmdid.
Proof.
  intros Hm Hc req. pose proof (size_int32_range _ Hm). pose proof (size_int32_range _ Hc).
  assert (Hs : (GetRouteRequest_ByteSizeLong (GetRouteRequest_of req)).1 =
    size_int32 modid + size_int32 cmdid).
  { unfold GetRouteRequest_ByteSizeLong. cbn. unfold size_total. by rewrite have_unknown_empty. }
  assert (Hok : GetRouteRequest_ok (GetRouteRequest_of req)) by done.
  assert (Hl : small_len (GetRouteRequest_ByteSizeLong (GetRouteRequest_of req)).1)
    by (rewrite Hs; unfold small_len; lia).
  split; [by split|].
  change (SerializeToString req) with (SerializeMessage GetRouteRequest_ByteSizeLong
    GetRouteRequest_InternalSerialize (GetRouteRequest_of req)).
  by rewrite SerializeMessage_runs, GetRouteRequest_size_write, Hs by done.
Qed.

(** Only the request for the pair 0/0 is empty. *)
Lemma request_wire_ok modid cmdid :
  is_i32 modid -> is_i32 cmdid -> (modid <> 0 \/ cmdid <> 0) ->
  let req := lbrss.mkGetRouteRequest modid cmdid in
  wire_ok req /\ 1 <= Z.of_nat (length (SerializeToString req)) <= 22.
Proof.
  intros Hm Hc Hne req. destruct (route_request_wire modid cmdid Hm Hc) as [Hw Hl]. split; [done|].
  fold req in Hl. rewrite Hl. pose proof (size_int32_range _ Hm).
  pose proof (size_int32_range _ Hc).
  assert (Hp : forall v, is_i32 v -> v <> 0 -> 1 <= size_int32 v).
  { intros v Hv Hv0. unfold size_int32. rewrite (proj2 (Z.eqb_neq v 0)) by done.
    pose proof (Int32Size_range v Hv). lia. }
  destruct Hne as [Hn|Hn]; [pose proof (Hp _ Hm Hn)|pose proof (Hp _ Hc Hn)]; lia.
Qed.

Lemma request_zero : SerializeToString (lbrss.mkGetRouteRequest 0 0) = [].
Proof.
  destruct (route_request_wire 0 0) as [_ Hl]; [unfold is_i32; lia..|].
  destruct (SerializeToString _); [done|]. cbn in Hl. lia.
Qed.

Definition request_frame (modid cmdid : Z) : frame :=
  mkFrame ID_GetRouteRequest (SerializeToString (lbrss.mkGetRouteRequest modid cmdid)).
Definition response_frame (r : Route) (modid cmdid : Z) : frame :=
  mkFrame ID_GetRouteResponse (SerializeToString (route_response r modid cmdid)).

(** The client takes the request out of the queue and has it to send. *)
Lemma client_request_ok (w : Cli) modid cmdid q :
  is_i32 modid -> is_i32 cmdid ->
  cli_ok w [] [] -> TcpClient.connected (TcpClient.cl w) = Some true ->
  dns_queue (TcpClient.cl_user w) = Some q -> queue q = [lbrss.mkGetRouteRequest modid cmdid] ->
  safe (client_request w) (fun w' => cli_ok w' [] (frame_bytes (request_frame modid cmdid)) /\
    TcpClient.connected (TcpClient.cl w') = Some true /\
    TcpClient._router (TcpClient.cl w') = TcpClient._router (TcpClient.cl w) /\
    r_lb (TcpClient.cl_user w') = r_lb (TcpClient.cl_user w) /\
    exists q', dns_queue (TcpClient.cl_user w') = Some q' /\ queue q' = []).
Proof.
  intros Hm Hc Hok Hcn Hq Hreq. unfold client_request, new_dns_request. rewrite Hq.
  unfold recv. rewrite Hreq.
  destruct (route_request_wire modid cmdid Hm Hc) as [_ Hlen].
  pose proof (size_int32_range _ Hm). pose proof (size_int32_range _ Hc).
  assert (Eb : msg_bytes ID_GetRouteRequest [lbrss.mkGetRouteRequest modid cmdid] =
    frame_bytes (request_frame modid cmdid)) by apply app_nil_r.
  pose proof (send_all_ok ID_GetRouteRequest [lbrss.mkGetRouteRequest modid cmdid] w [] [] Hok
    Hcn)
    as Hs. rewrite Eb, frame_bytes_length in Hs. cbn [length f_data request_frame app] in Hs.
  unfold TcpClient.CLIENT_BUF in Hs. specialize (Hs ltac:(lia)).
  apply safe_Ret in Hs as (w' & E1 & Hok' & Hcn' & Hrt & Hu).
  rewrite E1. cbn. split; [by destruct Hok'|]. split; [done|]. split; [done|].
  split; [done|]. eexists. split; [done|]. done.
Qed.

(** *** The answer of the service *)

Lemma serve_request d fd modid cmdid d' out :
  is_i32 modid -> is_i32 cmdid -> (modid <> 0 \/ cmdid <> 0) ->
  served (dns_eff r) dns_router fd [request_frame modid cmdid] d d' out ->
  get_route_subscribe fd (pack64 modid cmdid) d = Some d' /\
  out = frame_bytes (response_frame r modid cmdid).
Proof.
  intros Hm Hc Hne Hs. inversion Hs as [|f fs u u1 u2 o1 o2 Hf Hnil]; subst.
  inversion Hnil; subst. rewrite app_nil_r. unfold serve, dns_router in Hf.
  rewrite call_register in Hf. cbn [f_id request_frame] in Hf.
  change (call ID_GetRouteRequest MsgRouter_new) with (@None (dns_v * option dns_v)) in Hf.
  rewrite decide_True in Hf by done. unfold dns_eff in Hf. cbn [f_data request_frame] in Hf.
  destruct (request_wire_ok modid cmdid Hm Hc Hne) as [Hw _].
  by rewrite (parse_serialize _ Hw) in Hf.
Qed.

Lemma subscribe_booked d fd md d' l :
  book_ok d -> params d !! fd = Some (Some l) -> get_route_subscribe fd md d = Some d' ->
  booked md fd (d_sub d').
Proof.
  intros [Hb _] Hl Hg. unfold get_route_subscribe in Hg. rewrite Hl in Hg.
  case_decide as Hin; injection Hg as <-.
  - apply Hb. by exists l.
  - apply booked_subscribe. by left.
Qed.

(** *** The agent takes the answer over *)

(** What an answer makes of the balancer [key]: it is dropped, or its hosts are
    exactly those of the answer. *)
Definition taken_over (key : Z) (rsp : lbrss.GetRouteResponse) (rl rl' : RouteLB) : Prop :=
  (lbrss.grs_host rsp = [] -> route_lb_map_ rl' !! key = None) /\
  (lbrss.grs_host rsp <> [] -> exists lb', route_lb_map_ rl' !! key = Some lb' /\
     status_ lb' = NEW /\ last_update_time_ lb' = now /\ dom (view lb') = rsp_keys rsp) /\
  (forall k, k <> key -> route_lb_map_ rl' !! k = route_lb_map_ rl !! k).

Lemma update_host_taken modid cmdid rsp rl lb :
  route_lb_map_ rl !! pack64 modid cmdid = Some lb -> lb_ok lb ->
  exists rl', update_host cfg now junk modid cmdid rsp rl = Ret rl' /\
    taken_over (pack64 modid cmdid) rsp rl rl'.
Proof.
  intros Hlb Hok. unfold update_host, taken_over. rewrite Hlb. case_bool_decide as He.
  - eexists. split; [reflexivity|]. cbn. rewrite lookup_delete_eq. split_and!; [done|done|].
    intros k Hk. by rewrite lookup_delete_ne.
  - destruct (update_step cfg now junk rsp lb Hok He) as (lb' & -> & Hs & Ht & Hd & _). cbn.
    eexists. split; [reflexivity|]. unfold set_lb. cbn. rewrite lookup_insert_eq.
    split_and!; [done|by exists lb'|]. intros k Hk. by rewrite lookup_insert_ne.
Qed.

Lemma deal_answer (ag : Agent F LOOP) rsp rl lb :
  let i := (lbrss.grs_modid rsp + lbrss.grs_cmdid rsp) mod 3 in
  let key := pack64 (lbrss.grs_modid rsp) (lbrss.grs_cmdid rsp) in
  0 <= lbrss.grs_modid rsp + lbrss.grs_cmdid rsp < 2 ^ 31 -> wire_ok rsp ->
  length (r_lb ag) = 3%nat -> r_lb_at i ag = Ret rl ->
  route_lb_map_ rl !! key = Some lb -> lb_ok lb ->
  exists rl', deal_recv_route cfg now junk (SerializeToString rsp)
      (Z.of_nat (length (SerializeToString rsp))) ag = Ret (set_r_lb i rl' ag) /\
    taken_over key rsp rl rl'.
Proof.
  intros i key Hsum Hw Hlen Hrl Hlb Hok.
  rewrite (deal_recv_route_index _ _ _ _ _ Hlen). rewrite (parse_serialize _ Hw).
  rewrite (proj2 (i32_ok_spec _)) by (unfold is_i32; lia). cbn [negb].
  rewrite (proj2 (Z.ltb_ge _ 0)) by lia. cbn [andb]. fold i. rewrite Hrl. cbn [mbind res_bind].
  destruct (update_host_taken _ _ rsp rl lb Hlb Hok) as (rl' & -> & Ht). cbn [mbind res_bind].
  by exists rl'.
Qed.

(** The client's handler, on the answer. *)
Definition answer_pending (rf : frame) (ag ag' : Agent F LOOP) (fs : list frame) (w : Cli) :
  Prop :=
  TcpClient._router (TcpClient.cl w) = client_router /\
  ((fs = [rf] /\ TcpClient.cl_user w = ag) \/ (fs = [] /\ TcpClient.cl_user w = ag')).

Lemma answer_handled (rsp : lbrss.GetRouteResponse) ag ag' :
  let data := SerializeToString rsp in
  Z.of_nat (length data) < 2 ^ 32 ->
  deal_recv_route cfg now junk data (Z.of_nat (length data)) ag = Ret ag' ->
  handles (client_msg cfg now junk) (answer_pending (mkFrame ID_GetRouteResponse data) ag ag').
Proof.
  intros data Hlen Hd. split; [done|].
  intros f fs w [Hrt [[Hf Hu]|[Hf _]]]; [|done]. injection Hf as -> ->. cbn [f_data f_id].
  intros Hdata. unfold TcpClient.cli_call. rewrite Hrt. unfold client_router.
  rewrite call_register. change (call ID_GetRouteResponse MsgRouter_new) with
    (@None (dnsc_v * option dnsc_v)). rewrite decide_True by done. rewrite Hdata.
  rewrite u32_id by (unfold is_u32; lia). cbn [client_msg]. rewrite Hu, Hd. cbn.
  split; [done|]. split; [done|]. by right.
Qed.

(** *** Both sides *)

Lemma request_frame_ok modid cmdid :
  is_i32 modid -> is_i32 cmdid -> (modid <> 0 \/ cmdid <> 0) ->
    frame_ok (request_frame modid cmdid).
Proof.
  intros Hm Hc Hne. destruct (request_wire_ok modid cmdid Hm Hc Hne) as [_ Hl].
  unfold frame_ok. cbn [f_id f_data request_frame].
  unfold is_i32, MESSAGE_LENGTH_LIMIT, MESSAGE_HEAD_LEN.
  split; [unfold ID_GetRouteRequest; lia|]. split; [|lia]. intros He. rewrite He in Hl.
  cbn in Hl. lia.
Qed.

(** The service reads the request, however it is cut, and queues the answer. *)
Lemma service_answers cut c cn s rest modid cmdid :
  is_i32 modid -> is_i32 cmdid -> (modid <> 0 \/ cmdid <> 0) -> delivers (P := P) cut ->
  2 * route_grow hm <= ba_max -> conn_inv (dns_ui r) true c cn s [] [] rest ->
  exits_or (reads dns_hook dns_msg (cut (frame_bytes (request_frame modid cmdid))) c s)
    (fun '(s', _) => exists cn', conn_inv (dns_ui r) true c cn' s' []
       (frame_bytes (response_frame r modid cmdid)) rest /\
       _connfd cn' = _connfd cn /\ booked (pack64 modid cmdid) (_connfd cn) (d_sub (nt_user s'))).
Proof.
  intros Hm Hc Hne Hcut Hg I. destruct (Hcut (frame_bytes (request_frame modid cmdid)))
    as [Hcc Hch].
  destruct (ci_user _ _ _ _ _ _ _ _ I) as (Hcfg & Hp & Hbook & _).
  destruct (proj1 (Hp _) (ci_listed _ _ _ _ _ _ _ _ I)) as [l Hl].
  eapply exits_or_mono.
  - eapply (reads_ok dns_hook (dns_ui r) dns_hooked (dns_hook_ok r) dns_msg _ (dns_eff r)
      (dns_msg_ok K r hm Hfit) c rest [] _ s cn [] [] [request_frame modid cmdid] I Hch);
      [done| | | |done].
    + cbn [app]. rewrite Hcc. rewrite <- (app_nil_r (frame_bytes _)).
      apply (frames_parse [request_frame modid cmdid]), Forall_singleton.
      by apply request_frame_ok.
    + apply Forall_singleton. by apply request_frame_ok.
    + unfold route_grow in *. pose proof (ba_max_ok (P := P)). cbn [length]. lia.
  - intros [s' tr] (_ & cn' & out & I' & Hfd & Hsrv & Hsv & _).
    rewrite (f_equal snd Hcfg : router (nt_srv s) = dns_router) in Hsv.
    apply serve_request in Hsv as [Hsub ->]; [|done..].
    exists cn'. split; [exact I'|]. split; [done|]. by eapply subscribe_booked.
Qed.

(** The row is one of the pair. *)
Definition of_pair (modid cmdid : Z) (row : RouteRow) : Prop :=
  atoi (r_modid row) = modid /\ atoi (r_cmdid row) = cmdid.

(** The balancer of a pair has what the table has for it. *)
Definition has_hosts (rows : list RouteRow) (modid cmdid : Z) (o : option LoadBalance) : Prop :=
  match o with
  | None => Forall (fun row => ~ of_pair modid cmdid row) rows
  | Some lb => status_ lb = NEW /\ last_update_time_ lb = now /\
      forall k, k ∈ dom (view lb) <-> exists row, row ∈ rows /\ of_pair modid cmdid row /\
        k = pack64 (atoi (r_ip row)) (atoi (r_port row))
  end.

Lemma taken_has_hosts rows modid cmdid rl rl' :
  is_i32 modid -> is_i32 cmdid -> data_map r = load_rows rows ∅ ->
  Forall (fun row => 0 <= atoi (r_port row)) rows ->
  taken_over (pack64 modid cmdid) (route_response r modid cmdid) rl rl' ->
  has_hosts rows modid cmdid (route_lb_map_ rl' !! pack64 modid cmdid).
Proof.
  intros Hm Hc Hd Hp (Hnone & Hsome & _).
  pose proof (route_response_hosts r rows modid cmdid Hm Hc Hd Hp) as Hh.
  destruct (decide (lbrss.grs_host (route_response r modid cmdid) = [])) as [He|He].
  - rewrite (Hnone He). apply Forall_forall. intros row Hrow [Hr1 Hr2]. rewrite He in Hh.
    by apply (not_elem_of_nil (lbrss.mkHostInfo (atoi (r_ip row)) (atoi (r_port row)))), Hh;
      exists row.
  - destruct (Hsome He) as (lb & -> & Hs & Ht & Hdom). split; [done|]. split; [done|]. intros k.
    rewrite Hdom. unfold rsp_keys. rewrite elem_of_list_to_set, list_elem_of_fmap. split.
    + intros ([ip port] & -> & (row & Hrow & Hr1 & Hr2 & -> & ->)%Hh). by exists row.
    + intros (row & Hrow & [Hr1 Hr2] & ->).
      exists (lbrss.mkHostInfo (atoi (r_ip row)) (atoi (r_port row))). split; [done|].
      apply Hh. by exists row.
Qed.

(** The client reads the answer in one piece. *)
Lemma client_takes_answer (w : Cli) ob modid cmdid rl lb :
  let i := (modid + cmdid) mod 3 in
  let bs := frame_bytes (response_frame r modid cmdid) in
  is_i32 modid -> is_i32 cmdid -> 0 <= modid + cmdid < 2 ^ 31 ->
  cli_ok w [] ob -> TcpClient.connected (TcpClient.cl w) = Some true ->
  TcpClient._router (TcpClient.cl w) = client_router ->
  length (r_lb (TcpClient.cl_user w)) = 3%nat -> r_lb_at i (TcpClient.cl_user w) = Ret rl ->
  route_lb_map_ rl !! pack64 modid cmdid = Some lb -> lb_ok lb ->
  exits_or (TcpClient.do_read (client_msg cfg now junk) client_hook (Some (Z.of_nat (length bs)))
      [RdData bs] (None, TcpClient.ConnOk) w)
    (fun '(_, w', _) => exists rl',
       TcpClient.cl_user w' = set_r_lb i rl' (TcpClient.cl_user w) /\
       taken_over (pack64 modid cmdid) (route_response r modid cmdid) rl rl').
Proof.
  intros i bs Hm Hc Hsum Hok Hcn Hrt Hlen Hrl Hlb Hlbok.
  destruct (route_response_wire hm r modid cmdid Hm Hc Hfit) as [Hw Hsize].
  destruct (add_host_set_hosts (pack64 modid cmdid) (get_hosts modid cmdid r)
    (lbrss.mkGetRouteResponse modid cmdid [])) as (E1 & E2 & _).
  fold (route_response r modid cmdid) in E1, E2.
  cbn [lbrss.grs_modid lbrss.grs_cmdid] in E1, E2.
  pose proof (proj1 Hfit) as Hmax. unfold MAX_HOSTS in Hmax.
  destruct (deal_answer (TcpClient.cl_user w) (route_response r modid cmdid) rl lb)
    as (rl' & Ed & Ht);
    rewrite ?E1, ?E2; [done..|]. rewrite E1, E2 in *. fold i in Ed.
  set (data := SerializeToString (route_response r modid cmdid)) in *.
  assert (Hbl : length bs = (8 + length data)%nat) by apply frame_bytes_length.
  eapply exits_or_mono.
  - assert (Hdl : Z.of_nat (length data) < 2 ^ 32) by lia.
    apply (read_step _ _ _ (answer_handled (route_response r modid cmdid) _ _ Hdl Ed)
      bs [] (None, TcpClient.ConnOk) w [] ob [response_frame r modid cmdid] [] Hok Hcn).
    + intros He. rewrite He in Hbl. cbn in Hbl. lia.
    + unfold TcpClient.CLIENT_BUF. cbn [length]. lia.
    + cbn [app fmap list_fmap concat]. by rewrite !app_nil_r.
    + apply Forall_singleton. split; cbn [f_id f_data response_frame]; [done|]. fold data. lia.
    + cbn. lia.
    + split; [done|]. by left.
  - intros [[ret w'] tr] (_ & _ & _ & _ & [[Hf _]|[_ Hu]]); [done|]. exists rl'. by split.
Qed.

(** C9. A route travels from the table to the balancer. The agent has queued the
    request for a pair (not 0/0, with a sum that is an [int] and not negative),
    of which it has a balancer in order; its client and a connection of the
    service are idle; no pair has too many hosts, so that two replies fit into
    the pool's largest buffer, and no row has a negative port. Then, whatever
    partial writes the kernels make, as long as all is written in the end, and
    however the network cuts the request, the client sends it, the service
    subscribes the connection to the pair and answers, and the client, which
    reads the answer as a whole, hands it to the agent, where the balancer of
    the pair now has exactly the hosts of the pair's rows in the table, or is
    dropped when there is no such row; no other balancer changes. (The only
    other outcome is [exit], when the pool's memory is used up.) *)
Theorem route_lookup_end_to_end ws1 ws2 cut c (w : Cli) (s : Net) cn rest rows modid cmdid q
    rl lb :
  let i := (modid + cmdid) mod 3 in
  let key := pack64 modid cmdid in
  is_i32 modid -> is_i32 cmdid -> 0 <= modid + cmdid < 2 ^ 31 -> (modid <> 0 \/ cmdid <> 0) ->
  takes_all ws1 -> takes_all ws2 -> delivers (P := P) cut -> 2 * route_grow hm <= ba_max ->
  cli_ok w [] [] -> TcpClient.connected (TcpClient.cl w) = Some true ->
  TcpClient._router (TcpClient.cl w) = client_router ->
  dns_queue (TcpClient.cl_user w) = Some q -> queue q = [lbrss.mkGetRouteRequest modid cmdid] ->
  length (r_lb (TcpClient.cl_user w)) = 3%nat -> r_lb_at i (TcpClient.cl_user w) = Ret rl ->
  route_lb_map_ rl !! key = Some lb -> lb_ok lb ->
  conn_inv (dns_ui r) true c cn s [] [] rest ->
  data_map r = load_rows rows ∅ ->
  Forall (fun row => 0 <= atoi (r_port row)) rows ->
  exits_or (route_round_trip ws1 ws2 cut c w s) (fun '(w', s') =>
    booked key (_connfd cn) (d_sub (nt_user s')) /\
    exists rl', r_lb (TcpClient.cl_user w') = 
        <[Z.to_nat i := rl']> (r_lb (TcpClient.cl_user w)) /\
      has_hosts rows modid cmdid (route_lb_map_ rl' !! key) /\
      forall k, k <> key -> route_lb_map_ rl' !! k = route_lb_map_ rl !! k).
Proof.
  intros i key Hm Hc Hsum Hne Hws1 Hws2 Hcut Hg Hok Hcn Hrt Hq Hreq Hlen Hrl Hlb Hlbok I Hd Hp.
  unfold route_round_trip.
  eapply exits_or_bind; [by apply safe_exits_or, (client_request_ok w modid cmdid q)|].
  intros w1 (Hok1 & Hcn1 & Hrt1 & Hu1 & _). rewrite (buf_ok_length _ _ (ck_out _ _ _ Hok1)),
    Nat2Z.id.
  set (rq := frame_bytes (request_frame modid cmdid)) in *.
  eapply exits_or_bind.
  { apply safe_exits_or, (client_do_write_drains client_hook _ [] w1 [] rq 1 (length rq) Hok1);
      [done|apply Hws1|done]. }
  intros [w2 tr] (Hok2 & _ & Etr & Hcn2 & Hrt2 & Hu2). rewrite Etr, firstn_all.
  eapply exits_or_bind; [by apply (service_answers cut c cn s rest)|].
  intros [s1 tr1] (cn1 & I1 & Hfd1 & Hbk).
  rewrite (conn_inv_get _ _ _ _ _ _ _ _ I1). cbn [mbind res_bind].
  rewrite (conn_inv_olen _ _ _ _ _ _ _ _ I1). cbn [mbind res_bind]. rewrite Nat2Z.id.
  set (bs := frame_bytes (response_frame _ _ _)) in *.
  eapply exits_or_bind.
  { apply safe_exits_or, (do_write_ok (dns_ui r) K dns_hook dns_hooked (dns_hook_ok r) _ _ _ _ _ _
      _ _ _ _ I1
    (Hws2 _)). }
  intros [s2 sent]. cbn [Z.eqb]. intros (-> & _ & Hu3). rewrite firstn_all.
  eapply exits_or_bind.
  { apply (client_takes_answer w2 (drop (length rq) rq) modid cmdid rl lb); try done.
    - congruence.
    - congruence.
    - by rewrite Hu2, Hu1.
    - unfold r_lb_at in *. by rewrite Hu2, Hu1. }
  intros [[ret w3] tr3] (rl' & Hu & Ht). cbn. rewrite Hu3. split; [done|]. exists rl'.
  rewrite Hu. cbn [r_lb set_r_lb]. rewrite Hu2, Hu1. split; [done|].
  split; [by eapply taken_has_hosts|]. apply Ht.
Qed.

(** C32. An agent that asks for the pair 0/0 stops the dns service.  The request
    serialises to no bytes, so that a head with [msglen = 0] is all that is
    sent; when it arrives, in whatever pieces, the [assert] of the service's
    input buffer fails (unless the pool has called [exit] before), and with
    it every other agent loses the service. *)
Theorem zero_pair_stops_service ws1 ws2 cut c (w : Cli) (s : Net) cn rest q :
  takes_all ws1 -> delivers (P := P) cut -> route_grow hm <= ba_max ->
  cli_ok w [] [] -> TcpClient.connected (TcpClient.cl w) = Some true ->
  dns_queue (TcpClient.cl_user w) = Some q -> queue q = [lbrss.mkGetRouteRequest 0 0] ->
  conn_inv (dns_ui r) true c cn s [] [] rest ->
  let m := route_round_trip ws1 ws2 cut c w s in
  m = Fault AssertFail \/ m = Fault ExitFail.
Proof.
  intros Hws1 Hcut Hg Hok Hcn Hq Hreq I m. assert (Hz : is_i32 0) by (unfold is_i32; lia).
  pose proof (client_request_ok w 0 0 q Hz Hz Hok Hcn Hq Hreq) as Hs.
  apply safe_Ret in Hs as (w1 & E1 & Hok1 & _).
  assert (Ef : frame_bytes (request_frame 0 0) = frame_bytes (mkFrame ID_GetRouteRequest []))
    by (unfold request_frame; by rewrite request_zero).
  rewrite Ef in Hok1. set (bs := frame_bytes _) in Hok1.
  pose proof (client_do_write_drains client_hook _ [] w1 [] bs 1 (length bs) Hok1 ltac:(done)
    (Hws1 _) ltac:(done)) as Hs.
  apply safe_Ret in Hs as ([w2 tr] & E2 & _ & _ & Etr & _). rewrite firstn_all in Etr.
  unfold m, route_round_trip. rewrite E1. cbn [mbind res_bind].
  rewrite (buf_ok_length _ _ (ck_out _ _ _ Hok1)), Nat2Z.id, E2. cbn [mbind res_bind].
  rewrite Etr.
  destruct (Hcut bs) as [Hcc Hch].
  destruct (reads_empty_message dns_hook (dns_ui r) dns_hooked (dns_hook_ok r) dns_msg 
    (Z.to_nat (route_grow hm)) (dns_eff r) (dns_msg_ok K r hm Hfit) c rest ID_GetRouteRequest
    (cut bs) s cn [] []) as [-> | ->];
    [by unfold is_i32, ID_GetRouteRequest; lia|done|done|exact Hcc|cbn; lia| |by left|by right].
  unfold route_grow in *. pose proof (ba_max_ok (P := P)). cbn [length]. lia.
Qed.
End Trip.

(** ** Witness *)

Import TableKernel AgentExample Varint FixedOrder.

(** The client on descriptor 6, the request for 1/2 in its agent's queue. *)
Definition trip_agent : Agent N unit :=
  mkAgent [rl; RouteLB_new 2; RouteLB_new 3]
    (Some (mkQueue 0%N None [lbrss.mkGetRouteRequest 1 2])) None.

Definition trip_client : TcpClient.Cli (gmap Z Z) dnsc_v (Agent N unit) :=
  TcpClient.mkCli (TcpClient.mkClient (Some true) (IOBuf_new TcpClient.CLIENT_BUF)
      (IOBuf_new TcpClient.CLIENT_BUF) 6 (Some conn_init_f) None client_router)
    (EventLoop_new ∅) [] trip_agent.

(** The service with two rows for 1/2, and the connection 100 on descriptor 5. *)
Definition trip_rows : list RouteRow := [mkRow 1 2 16777343 8081; mkRow 1 2 16777343 8090].

Definition trip_dns : Dns :=
  mkDns (mkRoute (load_rows trip_rows ∅) ∅ true 1) SubscribeList_new {[5 := Some ∅]}.

Definition trip_conn : TCPConn dns_v := mkConn 5 None None None.

Definition trip_server : Net BufPool (gmap Z Z) dns_v Dns :=
  mkNet init_pool
    (add_io_event 5 conn_rd_callback EPOLLIN (Some (arg_conn 100)) (EventLoop_new ∅))
    {[100 := trip_conn]} 101
    (mkServer {[5 := Some 100]} 10 1 (Some create_subscribe_f) (Some clear_subscribe_f)
      dns_router)
    {[5]} trip_dns.

Lemma trip_fit : hosts_fit 2 (d_route trip_dns).
Proof. apply (rows_fit trip_rows); [done|]. unfold MAX_HOSTS. cbn. lia. Qed.

Lemma trip_book : book_ok trip_dns.
Proof.
  split; [|intros md; cbn; by rewrite lookup_empty].
  intros md fd. unfold booked, listed, trip_dns. cbn.
  rewrite lookup_empty. split; [intros Hin; by apply elem_of_empty in Hin|].
  intros (l & Hl & Hin). apply lookup_singleton_Some in Hl as [_ [= <-]].
  by apply elem_of_empty in Hin.
Qed.

(** What there is besides the connection. *)
Definition trip_rest : Rest := others 100 5 ∅ trip_server.

Lemma trip_inv :
  conn_inv (dns_ui (d_route trip_dns)) true 100 trip_conn trip_server [] [] trip_rest.
Proof.
  assert (El : NetState.listed (nt_srv trip_server) = {[5]}) by (vm_compute; reflexivity).
  split; cbn -[trip_dns].
  - done.
  - exists ∅, ∅. split; [exact (BufPool_new_view _ init_pool_eq)|done].
  - apply (reg_run_inv (RAdd 5 conn_rd_callback false (Some (arg_conn 100)))
      (EventLoop_new ∅) table_accepts). by apply EventLoop_new_inv.
  - eexists. split; [vm_compute; reflexivity|]. unfold watch_ev. split_and!; reflexivity || done.
  - change (table_ok (nt_srv trip_server)). split; [by rewrite El, size_singleton| |cbn; lia].
    rewrite El. intros fd ->%elem_of_singleton. done.
  - change (5 ∈ NetState.listed (nt_srv trip_server)). rewrite El. by apply elem_of_singleton.
  - change (dns_ui (d_route trip_dns) dns_cfg (NetState.listed (nt_srv trip_server)) trip_dns).
    rewrite El. split; [done|]. split; [|split; [apply trip_book|done]].
    intros fd. rewrite elem_of_singleton. unfold opened, trip_dns. cbn [params].
    rewrite lookup_singleton. case_decide; naive_solver.
  - done.
Qed.

Lemma route_lookup_end_to_end_witness :
  exits_or (route_round_trip LbExample.cfg 1000 LbExample.junk whole whole single 100 trip_client
      trip_server) (fun '(w', s') =>
    booked (pack64 1 2) 5 (d_sub (nt_user s')) /\
    exists rl', r_lb (TcpClient.cl_user w') = [rl'; RouteLB_new 2; RouteLB_new 3] /\
      has_hosts 1000 trip_rows 1 2 (route_lb_map_ rl' !! pack64 1 2) /\
      forall k, k <> pack64 1 2 -> route_lb_map_ rl' !! k = route_lb_map_ rl !! k).
Proof.
  apply (route_lookup_end_to_end table_accepts LbExample.cfg 1000 LbExample.junk
    (d_route trip_dns) 2
    trip_fit whole whole
    single
    100 trip_client trip_server trip_conn trip_rest trip_rows 1 2 (mkQueue 0%N None
      [lbrss.mkGetRouteRequest 1 2])
    rl LbExample.lb).
  - unfold is_i32. lia.
  - unfold is_i32. lia.
  - lia.
  - by left.
  - apply whole_takes_all.
  - apply whole_takes_all.
  - apply single_delivers.
  - change ba_max with m8M. unfold m8M, route_grow. lia.
  - split; (split; [by apply IOBuf_new_holds|done]).
  - done.
  - done.
  - done.
  - done.
  - done.
  - done.
  - by vm_compute.
  - apply LbExample.lb_example_ok.
  - apply trip_inv.
  - done.
  - repeat constructor; vm_compute; discriminate.
Defined.

(** The same with the request for 0/0. *)
Definition zero_client : TcpClient.Cli (gmap Z Z) dnsc_v (Agent N unit) :=
  TcpClient.set_cuser (mkAgent [] (Some (mkQueue 0%N None [lbrss.mkGetRouteRequest 0 0])) None)
    trip_client.

Lemma zero_pair_stops_service_witness :
  let m := route_round_trip LbExample.cfg 1000 LbExample.junk whole whole single 100 zero_client
             trip_server in
  m = Fault AssertFail \/ m = Fault ExitFail.
Proof.
  apply (zero_pair_stops_service table_accepts LbExample.cfg 1000 LbExample.junk
    (d_route trip_dns) 2
    trip_fit whole whole
    single
    100 zero_client trip_server trip_conn trip_rest
    (mkQueue 0%N None [lbrss.mkGetRouteRequest 0 0])).
  - apply whole_takes_all.
  - apply single_delivers.
  - change ba_max with m8M. unfold m8M, route_grow. lia.
  - split; (split; [by apply IOBuf_new_holds|done]).
  - done.
  - done.
  - done.
  - apply trip_inv.
Defined.
