(* ===== verification/Reporter.v ===== *)
(** * Reporter: the storing of call results (reporter/src/reporter_service.cpp,
    reporter/src/store_thread.cpp, reporter/src/store_report.cpp)

    [get_report_status] deals the reports to the store threads,
    [thread_report] drains a thread's queue, [store] makes one SQL statement of
    every host of a report.  MySQL only sees the statements: its answers change
    nothing but what is logged.  [StoreThreadPool] has the code of [ThreadPool]
    and shares its model. *)

From S2P Require Import Prelude CInt.
From S2P Require Import ThreadQueue ConfigFile.
From S2P Require Import Proto.
From S2P Require Import Protobuf.
From S2P Require Import Varint.
From S2P Require Import LbrssPbSpec.
From stdpp Require Import strings.
From Stdlib Require Import Strings.Byte Ascii.
Local Open Scope Z_scope.

(** ** printf *)

(** The [n] low decimal digits of [z], without leading zeros. *)
Fixpoint dec_digits (n : nat) (z : Z) (acc : str) : str :=
  match n with
  | O => acc
  | S n' =>
      let acc := ascii_of_N (Z.to_N (48 + z mod 10)) :: acc in
      if z <? 10 then acc else dec_digits n' (z / 10) acc
  end.

(** [%u] of a 32-bit argument, and [%d]; ten digits are enough. *)
Definition fmt_u (z : Z) : str := dec_digits 10 (u32 z) [].
Definition fmt_d (z : Z) : str :=
  if i32 z <? 0 then "-"%char :: dec_digits 10 (- i32 z) [] else dec_digits 10 (i32 z) [].

(** [snprintf(sql, n, ...)] keeps [n - 1] characters. *)
Definition snprintf (n : nat) (text : str) : str := take (n - 1) text.

(** ** StoreReport::store *)

(** The formatted text of one statement. *)
Definition insert_text (req : lbrss.ReportStatusRequest) (result : lbrss.HostCallResult) : str :=
  let overload := if lbrss.hcr_overload result then 1 else 0 in
  lit "INSERT INTO ServerCallStatus"
  ++ lit "(modid, cmdid, ip, port, caller, succ_cnt, err_cnt, ts, overload) " ++ lit "VALUES ("
  ++ fmt_d (lbrss.rsr_modid req) ++ lit ", " ++ fmt_d (lbrss.rsr_cmdid req)
  ++ lit ", " ++ fmt_u (lbrss.hcr_ip result) ++ lit ", " ++ fmt_u (lbrss.hcr_port result)
  ++ lit ", " ++ fmt_u (lbrss.rsr_caller req) ++ lit ", " ++ fmt_u (lbrss.hcr_succ result)
  ++ lit ", " ++ fmt_u (lbrss.hcr_err result) ++ lit ", " ++ fmt_u (lbrss.rsr_ts req)
  ++ lit ", " ++ fmt_d overload ++ lit ") ON DUPLICATE KEY UPDATE succ_cnt = "
  ++ fmt_u (lbrss.hcr_succ result) ++ lit ", err_cnt = " ++ fmt_u (lbrss.hcr_err result)
  ++ lit ", ts = " ++ fmt_u (lbrss.rsr_ts req) ++ lit ", overload = " ++ fmt_d overload.

(** [store(req)]: the statements it runs, in order, failed ones included. *)
Definition store (req : lbrss.ReportStatusRequest) : list str :=
  (fun result => snprintf 1024 (insert_text req result)) <$> lbrss.rsr_results req.

(** ** The threads *)

Section Threads.
Context {F LOOP : Type} `{EventFd F}.
Context `{Wire lbrss.ReportStatusRequest}.
Abbreviation Queue := (ThreadQueue lbrss.ReportStatusRequest F LOOP).
Abbreviation StoreThreadPool := (ThreadPool lbrss.ReportStatusRequest F LOOP).

(** [StoreThreadPool(thread_cnt)] *)
Definition StoreThreadPool_new (thread_cnt : Z) (evfds : list (option F)) : res StoreThreadPool :=
  ThreadPool_new thread_cnt evfds.

Definition get_store_thread (tp : StoreThreadPool) : res (Z * StoreThreadPool) := get_thread tp.

(** [thread_report]: the statements it runs, and the queue after it. *)
Definition thread_report (q : Queue) : list str * Queue :=
  let '(report_msgs, q) := recv [] q in
  (mjoin (store <$> report_msgs), q).

(** [get_report_status(data, len, ...)]; [thread_pool] may be [NULL]. *)
Definition get_report_status (data : list byte) (len : Z) (thread_pool : option StoreThreadPool)
    : res (option StoreThreadPool) :=
  let req := ParseFromArray (take (Z.to_nat len) data) in
  match thread_pool with
  | None => Fault NullDeref
  | Some tp =>
      '(i, tp) ← get_store_thread tp;
      Ret (Some (send_to i req tp))
  end.

(** The messages of several connections, in the order of their handling. *)
Fixpoint get_reports (msgs : list (list byte)) (tp : option StoreThreadPool)
    : res (option StoreThreadPool) :=
  match msgs with
  | [] => Ret tp
  | data :: msgs' =>
      tp ← get_report_status data (Z.of_nat (length data)) tp; get_reports msgs' tp
  end.

(** ** The pipeline *)

Lemma get_reports_deal msgs tp tp' :
  get_reports msgs (Some tp) = Ret tp' <->
  exists tp1, tp' = Some tp1 /\ deal (ParseFromArray <$> msgs) tp = Ret tp1.
Proof.
  revert tp. induction msgs as [|data msgs IH]; intros tp; cbn [get_reports deal fmap list_fmap].
  { split; [intros [= <-]; eauto|]. by intros (tp1 & -> & [= ->]). }
  unfold get_report_status, get_store_thread. rewrite Nat2Z.id, firstn_all.
  destruct (get_thread tp) as [[i tp1]|]; cbn [mbind res_bind]; [apply IH|].
  split; [done|]. by intros (? & _ & ?).
Qed.

Lemma alter_send_concat i (t : lbrss.ReportStatusRequest) (qs : list Queue) :
  (i < length qs)%nat ->
  mjoin (queue <$> alter (send t) i qs) ≡ₚ mjoin (queue <$> qs) ++ [t].
Proof.
  revert i. induction qs as [|q qs IH]; intros i Hi; [cbn in Hi; lia|].
  destruct i as [|i]; cbn [alter list_alter fmap list_fmap mjoin list_join].
  - cbn [send queue]. rewrite <- !app_assoc. f_equiv. by rewrite Permutation_app_comm.
  - cbn in Hi. rewrite <- app_assoc. f_equiv. apply IH. lia.
Qed.

Lemma deal_ok ts (tp : StoreThreadPool) :
  pool_ok tp ->
  exists tp', deal ts tp = Ret tp' /\ pool_ok tp' /\ _thread_cnt tp' = _thread_cnt tp /\
    mjoin (queue <$> _queues tp') ≡ₚ mjoin (queue <$> _queues tp) ++ ts.
Proof.
  revert tp. induction ts as [|t ts IH]; intros tp Hok; cbn [deal].
  { exists tp. by rewrite app_nil_r. }
  destruct (get_thread_ok tp Hok) as (tp1 & -> & Hok1 & Hq & Hc & _). cbn [mbind res_bind].
  destruct Hok as [Hcnt Hidx].
  destruct (IH (send_to (_index tp) t tp1)) as (tp' & E & Hok' & Hc' & Hp).
  { destruct Hok1 as [H1 H2]. split; cbn; [by rewrite length_alter|done]. }
  exists tp'. split_and!; [done|done|by rewrite Hc'|]. rewrite Hp. cbn [send_to _queues].
  rewrite Hq, alter_send_concat by lia. by rewrite <- app_assoc.
Qed.

(** All threads run [thread_report] once. *)
Definition drain (qs : list Queue) : list str * list Queue :=
  (mjoin ((fun q => (thread_report q).1) <$> qs), (fun q => (thread_report q).2) <$> qs).

(** The store threads run the statements of what is queued, and leave nothing. *)
Lemma drain_statements (qs : list (Queue)) :
  (drain qs).1 ≡ₚ mjoin (store <$> mjoin (queue <$> qs)) /\
  Forall (fun q => queue q = []) (drain qs).2.
Proof.
  split; [|by apply Forall_fmap, Forall_true]. unfold drain, thread_report. cbn [fst recv].
  induction qs as [|q qs IH]; [done|]. cbn. rewrite fmap_app, join_app. by f_equiv.
Qed.

Context `{!WireLaws lbrss.ReportStatusRequest}.

Lemma reports_dealt reqs (tp : StoreThreadPool) :
  pool_ok tp -> Forall wire_ok reqs ->
  exists tp', get_reports (SerializeToString <$> reqs) (Some tp) = Ret (Some tp') /\
    mjoin (queue <$> _queues tp') ≡ₚ mjoin (queue <$> _queues tp) ++ reqs.
Proof.
  intros Hok Hw. destruct (deal_ok reqs tp Hok) as (tp' & E1 & _ & _ & Hp).
  exists tp'. split; [|done]. apply get_reports_deal. exists tp'. split; [done|].
  rewrite <- list_fmap_compose, (list_fmap_ext _ id), list_fmap_id; [done|].
  intros i x Hx. apply parse_serialize. by apply (Forall_lookup_1 _ _ _ _ Hw Hx).
Qed.

(** No report is lost or stored twice: the requests that connections send
    to a reporter with [n > 0] store threads are all accepted, and when the
    threads have drained their queues, which are then empty, the statements
    that were run are, up to the order between threads, exactly one for each
    host of each request. *)
Lemma reports_stored_once n evfds (tp : StoreThreadPool) reqs :
  StoreThreadPool_new n evfds = Ret tp ->
  Forall wire_ok reqs ->
  exists tp', get_reports (SerializeToString <$> reqs) (Some tp) = Ret (Some tp') /\
    (drain (_queues tp')).1 ≡ₚ mjoin (store <$> reqs) /\
    Forall (fun q => queue q = []) (drain (_queues tp')).2.
Proof.
  intros Hnew Hreqs. destruct (ThreadPool_new_ok _ _ _ Hnew) as (Hok & _ & Hq).
  destruct (reports_dealt reqs tp Hok Hreqs) as (tp' & E & Hp). exists tp'. split; [done|].
  destruct (drain_statements (_queues tp')) as [Hs He]. split; [|done]. rewrite Hs, Hp.
  assert (mjoin (queue <$> _queues tp) = []) as ->; [|done].
  clear -Hq. induction Hq as [|q qs E _ IH]; [done|]. cbn. by rewrite E.
Qed.
End Threads.

(** ** The SQL buffer *)

Lemma dec_digits_length n z acc : (length (dec_digits n z acc) <= n + length acc)%nat.
Proof.
  revert z acc. induction n as [|n IH]; intros z acc; cbn [dec_digits]; [lia|].
  case_match; [cbn; lia|]. etrans; [apply IH|]. cbn. lia.
Qed.

Lemma fmt_u_length z : (length (fmt_u z) <= 10)%nat.
Proof. unfold fmt_u. etrans; [apply dec_digits_length|]. cbn. lia. Qed.

Lemma fmt_d_length z : (length (fmt_d z) <= 11)%nat.
Proof.
  unfold fmt_d. case_match; cbn [length].
  - pose proof (dec_digits_length 10 (- i32 z) []). cbn [length] in *. lia.
  - pose proof (dec_digits_length 10 (i32 z) []). cbn [length] in *. lia.
Qed.

(** The value of a string of digits. *)
Definition digits_value (s : str) (v : Z) : Z :=
  foldl (fun v c => v * 10 + default 0 (is_digit c)) v s.

Lemma dec_digits_value n z acc v :
  0 <= z < 10 ^ Z.of_nat n -> (0 < n)%nat ->
  exists k : nat, digits_value (dec_digits n z acc) v = digits_value acc (v * 10 ^ Z.of_nat k +
    z).
Proof.
  revert z acc. induction n as [|n IH]; intros z acc Hz Hn; [lia|]. cbn [dec_digits].
  pose proof (Z.mod_pos_bound z 10 ltac:(lia)) as Hm.
  pose proof (Z.div_mod z 10 ltac:(lia)) as Hdm.
  destruct (Z.ltb_spec z 10) as [Hlt|Hge].
  - exists 1%nat. unfold digits_value. cbn [foldl]. rewrite is_digit_digit by lia.
    cbn [default from_option id].
    f_equal. rewrite (Z.mod_small z) by lia. change (10 ^ Z.of_nat 1) with 10. lia.
  - assert (n <> 0)%nat by (intros ->; cbn in Hz; lia).
    rewrite Nat2Z.inj_succ, Z.pow_succ_r in Hz by lia.
    destruct (IH (z / 10) (ascii_of_N (Z.to_N (48 + z mod 10)) :: acc)) as [k E].
    { split; [apply Z.div_pos; lia|]. apply Z.div_lt_upper_bound; lia. }
    { lia. }
    exists (S k). rewrite E. unfold digits_value. cbn [foldl]. rewrite is_digit_digit by lia.
    cbn [default from_option id]. f_equal. rewrite Nat2Z.inj_succ, Z.pow_succ_r by lia. nia.
Qed.

(** C31. The statements fit: the text of every statement, whatever the values,
    is shorter than the 1024 bytes of [sql] and is sent whole; and the numbers
    in it are right: a [%u] argument reads back as its value modulo 2^32 (a
    negative [ip], [port] or [caller] is stored as that), a [%d] argument that
    is not negative as itself. *)
Theorem store_statements_whole req :
  store req = insert_text req <$> lbrss.rsr_results req /\
  (forall z, digits_value (fmt_u z) 0 = u32 z) /\
  (forall z, 0 <= i32 z -> digits_value (fmt_d z) 0 = i32 z).
Proof.
  assert (Hv : forall z, 0 <= z < 2 ^ 32 -> digits_value (dec_digits 10 z []) 0 = z).
  { intros z Hz. destruct (dec_digits_value 10 z [] 0) as [k ->]; [|lia|].
    - split; [lia|]. etrans; [apply Hz|]. reflexivity.
    - cbn. lia. }
  split_and!.
  - apply list_fmap_ext. intros _ result _. unfold snprintf. apply take_ge.
    unfold insert_text. cbv zeta. rewrite !length_app.
    repeat match goal with
    | |- context [length (fmt_u ?z)] =>
        let n := fresh "n" in pose proof (fmt_u_length z);
        set (n := length (fmt_u z)) in *; clearbody n
    | |- context [length (fmt_d ?z)] =>
        let n := fresh "n" in pose proof (fmt_d_length z);
        set (n := length (fmt_d z)) in *; clearbody n
    end.
    cbn [lit String.list_ascii_of_string length]. lia.
  - intros z. apply Hv, u32_is.
  - intros z Hz. unfold fmt_d. rewrite (proj2 (Z.ltb_ge _ _)) by lia. apply Hv.
    pose proof (i32_is z). unfold is_i32 in *. lia.
Qed.

(** ** Witnesses *)

Module ReporterExample.
Definition req : lbrss.ReportStatusRequest :=
  lbrss.mkReportStatusRequest 1 2 3 [lbrss.mkHostCallResult 10 80 5 0 false] 100.
End ReporterExample.
Import ReporterExample Varint PbWire.

Lemma req_wire_ok : wire_ok req.
Proof.
  assert (Hres : HostCallResult_ok (HostCallResult_of (lbrss.mkHostCallResult 10 80 5 0 false))).
  { unfold HostCallResult_ok, is_i32, is_u32. cbn. lia. }
  split; [|vm_compute; by split].
  change (ReportStatusRequest_ok (ReportStatusRequest_of req)).
  split; [exact (Forall_cons_2 _ _ _ Hres (Forall_nil_2 _))|]. cbn. unfold is_i32, is_u32. lia.
Qed.

Lemma reports_stored_once_witness :
  exists tp', get_reports (F := N) (LOOP := unit) (SerializeToString <$> [req; req])
      (Some (mkThreadPool (ThreadQueue_new <$> [0%N; 0%N]) 2 0)) = Ret (Some tp') /\
    (drain (_queues tp')).1 ≡ₚ mjoin (store <$> [req; req]).
Proof.
  destruct (reports_stored_once (F := N) (LOOP := unit) 2 [Some 0%N; Some 0%N]
    (mkThreadPool [ThreadQueue_new 0%N; ThreadQueue_new 0%N] 2 0) [req; req] eq_refl
      (Forall_cons_2 _ _ _ req_wire_ok (Forall_cons_2 _ _ _ req_wire_ok (Forall_nil_2 _))))
    as (tp' & E & Hp & _).
  exists tp'. split; [exact E|exact Hp].
Defined.

Lemma store_statements_whole_witness : digits_value (fmt_d 1024) 0 = 1024.
Proof. exact (proj2 (proj2 (store_statements_whole req)) 1024 ltac:(done)). Defined.
