(* ===== verification/ReportTrip.v ===== *)
(** * ReportTrip: call results from the agent to the database

    The report client thread of the agent (lb_agent/src/reporter_client.cpp) on
    its [TcpClient], the reporter's handler on its server
    (reporter/src/reporter_service.cpp) and the store threads: the reports that
    wait in the agent's queue become statements, each of them once
    ([reports_end_to_end]), down to the bytes on the connection. *)

From S2P Require Import Prelude CInt.
From S2P Require Import IOBuf BufAlloc BufPool ReactorBuf Message EventLoop ThreadQueue.
From S2P Require Import NetState Framing.
From S2P Require Import TcpConn TcpConnInv TcpConnSpec.
From S2P Require TcpClient.
From S2P Require Import TcpClientSpec.
From S2P Require Import ConfigFile.
From S2P Require Import Proto RouteLB.
From S2P Require Import Links Reporter.
From S2P Require Import Protobuf.
From S2P Require Import Varint.
From S2P Require Import LbrssPbSpec.
From Stdlib Require Import Strings.Byte.
Local Open Scope Z_scope.

(** ** The reporter on its server *)

(** The function that [main] registers; there are no hooks. *)
Inductive rep_v : Type := get_report_status_f.

Definition rep_router : MsgRouter rep_v rep_v :=
  (register_msg_router ID_ReportStatusRequest get_report_status_f None MsgRouter_new).2.

Definition rep_cfg : option rep_v * option rep_v * MsgRouter rep_v rep_v :=
  (None, None, rep_router).

Section Service.
Context {P E F LOOP : Type} `{LP : BufAllocLaws P} `{LE : EpollLaws E} `{EventFd F}.
Context `{Wire lbrss.ReportStatusRequest}.
Local Abbreviation Pool := (ThreadPool lbrss.ReportStatusRequest F LOOP).
(** The application's state is the variable [thread_pool]. *)
Local Abbreviation Net := (Net P E rep_v (option Pool)).

Definition rep_msg (cb : rep_v) (data : option (list byte)) (len id c : Z) (arg : option rep_v)
    (w : Net) : res Net :=
  tp ← get_report_status (default [] data) len (nt_user w); Ret (set_ntuser tp w).

Definition rep_hook (h : rep_v) (c : Z) (w : Net) : res Net := Fault NullDeref.

(** *** The contracts of the reactor *)

(** There are no hooks. *)
Definition rep_hooked (h : rep_v) (fd : Z) (u u' : option Pool) : Prop := False.

Definition rep_ui (cfg : option rep_v * option rep_v * MsgRouter rep_v rep_v) (fds : gset Z)
    (u : option Pool) : Prop :=
  cfg = rep_cfg /\ exists tp, u = Some tp /\ pool_ok tp.

(** The effect of a report: it is in the queue of a thread; nothing is answered. *)
Definition rep_eff (cb : rep_v) (arg : option rep_v) (f : frame) (fd : Z) (u u' : option Pool)
    (out : list byte) : Prop :=
  get_report_status (f_data f) (Z.of_nat (length (f_data f))) u = Ret u' /\ out = [].

Lemma report_queued data tp : pool_ok tp ->
  exists tp', get_report_status (LOOP := LOOP) (F := F) data (Z.of_nat (length data)) (Some tp) =
    Ret (Some tp') /\ pool_ok tp'.
Proof.
  intros Hok. destruct (deal_ok [ParseFromArray data] tp Hok) as (tp' & E1 & Hok' & _).
  exists tp'. split; [|done].
  assert (Hg : get_reports [data] (Some tp) = Ret (Some tp')) by (apply get_reports_deal; eauto).
  cbn [get_reports] in Hg. by destruct (get_report_status _ _ _).
Qed.

Lemma rep_msg_ok : msg_ok rep_ui rep_msg 0 rep_eff.
Proof.
  intros cb data len id c arg w cn ib ob rest I Hcall Hl Hd Hg.
  destruct (ci_user _ _ _ _ _ _ _ _ I) as (Hcfg & tp & Htp & Hok).
  set (bs := take (Z.to_nat len) (default [] data)).
  assert (Hbl : Z.of_nat (length bs) = len) by (unfold bs; rewrite length_take; lia).
  destruct (report_queued bs tp Hok) as (tp' & E1 & Hok'). rewrite Hbl in E1.
  assert (E2 : get_report_status (default [] data) len (nt_user w) = Ret (Some tp')).
  { rewrite <- E1, Htp. unfold get_report_status, bs. by rewrite take_take, Nat.min_id. }
  unfold rep_msg. rewrite E2. cbn. exists cn, []. rewrite app_nil_r. split.
  { apply conn_inv_user; [done|]. split; [done|by exists tp']. }
  split_and!; [done|done|done|cbn; lia|]. split; [|done]. cbn [f_data]. by rewrite Hbl, Htp.
Qed.

Lemma rep_hook_ok : hook_ok rep_ui rep_hook rep_hooked.
Proof.
  intros c w cn s Hc _ Hui. unfold s. pose proof Hui as (Hcfg & _).
  rewrite (f_equal (fun x => x.1.2) Hcfg : conn_close_cb (nt_srv w) = None).
  by apply hook_runs_None.
Qed.

Lemma rep_start_ok : start_ok rep_ui rep_hook rep_hooked rep_cfg.
Proof.
  intros c w cn s Hc Hcfg _ Hui. unfold s.
  rewrite (f_equal (fun x => x.1.1) Hcfg : conn_start_cb (nt_srv w) = None).
  by apply hook_runs_None.
Qed.

(** A run of reports *)
Lemma served_reports fd reqs (u u' : option Pool) out :
  served rep_eff rep_router fd (msg_frame ID_ReportStatusRequest <$> reqs) u u' out ->
  out = [] /\ get_reports (SerializeToString <$> reqs) u = Ret u'.
Proof.
  revert u out. induction reqs as [|req reqs IH]; intros u out Hs.
  { by inversion Hs; subst. }
  cbn [fmap list_fmap] in Hs. inversion Hs as [|f fs u0 u1 u2 o1 o2 Hf Hr]; subst.
  unfold serve, rep_router in Hf. rewrite call_register in Hf. cbn [f_id msg_frame] in Hf.
  change (call ID_ReportStatusRequest MsgRouter_new) with (@None (rep_v * option rep_v)) in Hf.
  rewrite decide_True in Hf by done. destruct Hf as [Hg ->]. apply IH in Hr as [-> Hr].
  split; [done|]. cbn [fmap list_fmap get_reports]. cbn [f_data msg_frame] in Hg. by rewrite Hg.
Qed.
End Service.

(** ** The report client *)

(** It has neither handlers nor hooks, only the callback of its queue. *)
Inductive repc_v : Type := new_report_request_f.

Section Client.
Context {E F LOOP : Type} `{Epoll E} `{EventFd F}.
Context `{Wire lbrss.ReportStatusRequest, Wire lbrss.GetRouteRequest}.
Local Abbreviation Cli := (TcpClient.Cli E repc_v (Agent F LOOP)).

Definition repc_hook (h : repc_v) (w : Cli) : res Cli := Fault NullDeref.

(** The callback of the queue's event: [new_report_request] with this client. *)
Definition report_request (w : Cli) : res Cli :=
  '(ag, w) ← new_report_request TcpClient.send_message (TcpClient.cl_user w) w;
  Ret (TcpClient.set_cuser ag w).
End Client.

(** ** The trip *)

Section Trip.
Context {P E F LOOP LOOP' : Type} `{LP : BufAllocLaws P} `{LE : EpollLaws E} `{EventFd F}.
Context `{WL : WireLaws lbrss.ReportStatusRequest}.
Local Abbreviation Cli := (TcpClient.Cli E repc_v (Agent F LOOP)).
Local Abbreviation Pool := (ThreadPool lbrss.ReportStatusRequest F LOOP').
Local Abbreviation Net := (Net P E rep_v (option Pool)).

(** The events: the queue of the client, its socket writable, the connection [c]
    of the reporter readable (once for each piece), and the store threads; with
    the statements that they run. *)
Definition report_trip (ws : nat -> list wr_ans) (cut : list byte -> list (list byte)) (c : Z)
    (w : Cli) (s : Net) : res (Cli * list str * Net) :=
  w ← report_request w;
  '(w, tr) ← TcpClient.do_write repc_hook
               (ws (Z.to_nat (io_length (TcpClient._obuf (TcpClient.cl w))))) [] w;
  '(s, _) ← reads rep_hook rep_msg (cut (concat tr.*2)) c s;
  match nt_user s with
  | None => Fault NullDeref
  | Some tp =>
      let '(stmts, qs) := drain (_queues tp) in
      Ret (w, stmts, set_ntuser (Some (mkThreadPool qs (_thread_cnt tp) (_index tp))) s)
  end.

(** A report that the protocol can carry. *)
Definition reportable (req : lbrss.ReportStatusRequest) : Prop :=
  wire_ok req /\ 0 < Z.of_nat (length (SerializeToString req)) <= MESSAGE_LENGTH_LIMIT.

Lemma report_frames_ok reqs :
  Forall reportable reqs -> Forall frame_ok (msg_frame ID_ReportStatusRequest <$> reqs).
Proof.
  intros Hr. apply Forall_fmap. eapply Forall_impl; [exact Hr|]. intros req [_ Hl].
  unfold compose, frame_ok. cbn [f_id f_data msg_frame].
  unfold MESSAGE_LENGTH_LIMIT, MESSAGE_HEAD_LEN in *.
  split; [done|]. split; [|lia].
  intros He. rewrite He in Hl. cbn in Hl. lia.
Qed.

Lemma report_request_ok (w : Cli) q reqs :
  cli_ok w [] [] -> TcpClient.connected (TcpClient.cl w) = Some true ->
  report_queue (TcpClient.cl_user w) = Some q -> queue q = reqs ->
  Z.of_nat (length (msg_bytes ID_ReportStatusRequest reqs)) <= TcpClient.CLIENT_BUF ->
  safe (report_request w) (fun w' => cli_ok w' [] (msg_bytes ID_ReportStatusRequest reqs) /\
    TcpClient.cl_user w' = mkAgent (r_lb (TcpClient.cl_user w)) (dns_queue (TcpClient.cl_user w))
                             (Some (recv [] q).2)).
Proof.
  intros Hok Hcn Hq Hreq Hfit. unfold report_request, new_report_request. rewrite Hq.
  unfold recv. rewrite Hreq.
  pose proof (send_all_ok ID_ReportStatusRequest reqs w [] [] Hok Hcn Hfit) as Hs.
  apply safe_Ret in Hs as (w' & E1 & Hok' & _ & _ & Hu).
  cbn [app] in *. rewrite E1. cbn. split; [by destruct Hok'|done].
Qed.

End Trip.

(** ** Witness *)

Import ReporterExample Varint PbWire TableKernel.

(** The agent with two reports; the reporter with two threads, and the
    connection 100 on descriptor 5. *)
Definition rtrip_agent : Agent N unit :=
  mkAgent [] None (Some (mkQueue 0%N None [req; req])).

Definition rtrip_client : TcpClient.Cli (gmap Z Z) repc_v (Agent N unit) :=
  TcpClient.mkCli (TcpClient.mkClient (Some true) (IOBuf_new TcpClient.CLIENT_BUF)
      (IOBuf_new TcpClient.CLIENT_BUF) 6 None None MsgRouter_new)
    (EventLoop_new ∅) [] rtrip_agent.

Definition rtrip_pool : ThreadPool lbrss.ReportStatusRequest N unit :=
  mkThreadPool (ThreadQueue_new <$> [0%N; 0%N]) 2 0.

Definition rtrip_conn : TCPConn rep_v := mkConn 5 None None None.

Definition rtrip_server : Net BufPool (gmap Z Z) rep_v (option (ThreadPool _ N unit)) :=
  mkNet init_pool (add_io_event 5 conn_rd_callback EPOLLIN (Some (arg_conn 100)) (EventLoop_new
    ∅))
    {[100 := rtrip_conn]} 101 (mkServer {[5 := Some 100]} 10 1 None None rep_router)
    {[5]} (Some rtrip_pool).

(** What there is besides the connection. *)
Definition rtrip_rest : Rest := others 100 5 ∅ rtrip_server.

Lemma rtrip_inv : conn_inv rep_ui true 100 rtrip_conn rtrip_server [] [] rtrip_rest.
Proof.
  assert (El : NetState.listed (nt_srv rtrip_server) = {[5]}) by (vm_compute; reflexivity).
  split; cbn -[rtrip_pool].
  - done.
  - exists ∅, ∅. split; [exact (BufPool_new_view _ init_pool_eq)|done].
  - apply (reg_run_inv (RAdd 5 conn_rd_callback false (Some (arg_conn 100)))
      (EventLoop_new ∅) table_accepts). by apply EventLoop_new_inv.
  - eexists. split; [vm_compute; reflexivity|]. unfold watch_ev. split_and!; reflexivity || done.
  - change (table_ok (nt_srv rtrip_server)). split; [by rewrite El, size_singleton| |cbn; lia].
    rewrite El. intros fd ->%elem_of_singleton. done.
  - change (5 ∈ NetState.listed (nt_srv rtrip_server)). rewrite El. by apply elem_of_singleton.
  - split; [done|]. exists rtrip_pool. split; [done|].
    by apply (ThreadPool_new_ok 2 [Some 0%N; Some 0%N]).
  - done.
Qed.

