(* ===== verification/DnsThreads.v ===== *)
(** * DnsThreads: the subscriptions of the dns service with all its threads

    What the server of [ServerThreads] makes of the subscriptions of the dns
    service: a connected client is booked for exactly the pairs that its own
    complete requests have named ([asked_booked]). *)

From S2P Require Import Prelude CInt HashOrder.
From S2P Require Import IOBuf BufAlloc ReactorBuf Message EventLoop ThreadQueue NetState Framing.
From S2P Require Import TcpConn TcpConnInv TcpConnSpec TcpServer ServerLoop ServerThreads.
From S2P Require Import Protobuf.
From S2P Require Import LbrssPb.
From S2P Require Import Proto.
From S2P Require Import LbrssPbSpec.
From S2P Require Import DnsRoute Subscribe SubscribeSpec DnsNet DnsService.
From Stdlib Require Import Strings.Byte.
Import Pb PbWire.
Local Open Scope Z_scope.

Section Subscriptions.
Context `{PL : PbLaws} `{HO : HashOrder}.
Variable r : Route.

(** The pairs that messages ask for. *)
Definition pair_of (f : frame) : option Z :=
  if decide (f_id f = ID_GetRouteRequest) then
    let req := ParseFromArray (f_data f) in
    Some (pack64 (lbrss.grq_modid req) (lbrss.grq_cmdid req))
  else None.
Definition requested (fs : list frame) : list Z := omap pair_of fs.

Lemma subscribe_listed fd' m d d' fd md :
  get_route_subscribe fd' m d = Some d' ->
  listed md fd d' <-> listed md fd d \/ (fd = fd' /\ md = m).
Proof.
  unfold get_route_subscribe, listed. destruct (params d !! fd') as [[l|]|] eqn:El; [|done..].
  case_decide as Hin; intros [= <-]; cbn [params].
  { split; [by left|]. intros [?|[-> ->]]; [done|by exists l]. }
  destruct (decide (fd = fd')) as [->|Hne].
  - rewrite lookup_insert_eq, El. split.
    + intros (l' & [= <-] & [->%elem_of_singleton|Hl]%elem_of_union); [by right|left; by exists l].
    + intros [(l' & [= <-] & Hl)|[_ ->]]; eexists; (split; [done|]); apply elem_of_union;
        [by right|left; by apply elem_of_singleton].
  - rewrite lookup_insert_ne by done. naive_solver.
Qed.

Lemma served_listed fd' fs d d' out fd md :
  served (dns_eff r) dns_router fd' fs d d' out ->
  listed md fd d' <-> listed md fd d \/ (fd = fd' /\ md ∈ requested fs).
Proof.
  induction 1 as [d|f fs d d1 d2 o1 o2 Hf _ IH].
  { split; [by left|]. intros [?|[_ ?%not_elem_of_nil]]; done. }
  rewrite IH. unfold requested, pair_of. cbn [omap list_omap].
  unfold serve, dns_router in Hf. rewrite call_register in Hf.
  destruct (decide (f_id f = ID_GetRouteRequest)) as [Hid|Hid].
  - rewrite decide_True in Hf by done. destruct Hf as [Hs _].
    rewrite (subscribe_listed _ _ _ _ fd md Hs), elem_of_cons. naive_solver.
  - rewrite decide_False in Hf by by apply not_eq_sym. by destruct Hf as [-> _].
Qed.

Lemma closed_listed fd' d d' fd md :
  clear_subscribe fd' d = Ret d' -> fd <> fd' -> listed md fd d' <-> listed md fd d.
Proof.
  unfold clear_subscribe. destruct (params d !! fd') as [[l|]|]; [|done..]. intros [= <-] Hne.
  unfold listed. cbn [params]. by rewrite lookup_insert_ne.
Qed.

Lemma opened_listed W d d' fd md :
  all_opened dns_cfg dns_hooked W d d' -> (fd ∈ W -> forall md, ~ listed md fd d) ->
  listed md fd d' <-> listed md fd d.
Proof.
  revert d. induction W as [|fd' W IH]; intros d; cbn; [by intros ->|].
  intros (d1 & -> & Ho) HW.
  assert (H1 : forall md, listed md fd (create_subscribe fd' d) <-> listed md fd d).
  { intros md'. unfold listed, create_subscribe. cbn [params].
    destruct (decide (fd = fd')) as [->|Hne]; [|by rewrite lookup_insert_ne].
    rewrite lookup_insert_eq. split; [intros (l & [= <-] & ?%not_elem_of_empty); done|].
    intros Hl. exfalso. eapply (HW ltac:(by left) md'), Hl. }
  rewrite (IH _ Ho); [apply H1|]. intros Hin md'. rewrite H1. apply HW. by right.
Qed.

(** A descriptor that waits is not connected. *)
Lemma waiting_not_open lim busy (T : Serve Dns) j C W fd :
  spec_ok lim busy T -> ts_workers T !! j = Some (C, W) -> fd ∈ W -> all_conns T !! fd = None.
Proof.
  intros Hok Hj Hfd. apply eq_None_not_Some. intros [x Hx].
  apply (all_conns_Some _ _ _ _ _ Hok) in Hx as (k & C2 & W2 & Hk & Hx).
  assert (j = k) as <-.
  { apply (so_one _ _ _ Hok fd); [exists C, W|exists C2, W2]; (split; [done|]);
      [by right|left; by eexists]. }
  rewrite Hj in Hk. injection Hk as <- <-. destruct (so_wait _ _ _ Hok j C W Hj) as [_ Hw].
  destruct (Hw fd Hfd). congruence.
Qed.

(** What an event of a worker makes of the list of the client [fd], which has
    [i] when the event comes. *)
Lemma sstep_listed S e S' cs sn fd md i fs rest :
  sstep dns_cfg (dns_eff r) dns_hooked S e S' cs sn -> quiet_event fd e ->
  (fd ∈ s_waiting S -> forall md, ~ listed md fd (s_user S)) ->
  (forall x, s_conns S !! fd = Some x -> x.1 = i) -> parse i = ([], More i) ->
  parse (i ++ event_data fd e) = (fs, More rest) ->
  listed md fd (s_user S') <-> listed md fd (s_user S) \/ md ∈ requested fs.
Proof.
  intros Hst Hq Hw Hc Hi Hp.
  assert (Hno : event_data fd e = [] -> forall P : Prop,
    P <-> listed md fd (s_user S) -> P <-> listed md fd (s_user S) \/ md ∈ requested fs).
  { intros He P ->. rewrite He, app_nil_r, Hi in Hp. injection Hp as <- _.
    split; [by left|]. intros [?|?%not_elem_of_nil]; done. }
  destruct Hst as [C W u u' m Ho|C W u u' fd' m data rs i' o' fs' r' out Hc' Hp' Hsv
    |C W u u1 u' fd' m data rs i' o' fs' out Hc' Hp' Hsv Hcl|C W u u' fd' m ioctl rs Hcl
    |C W u fd' m ws i' o' r' n Hc' Hd Hr|C W u u' fd' m ws i' o' n Hc' Hd Hcl];
    cbn [s_user s_conns s_waiting event_data quiet_event] in *.
  - apply Hno; [done|]. by apply (opened_listed W).
  - destruct (decide (fd' = fd)) as [->|Hne].
    + pose proof (Hc _ Hc') as Hii. cbn in Hii. subst i'. rewrite Hp' in Hp. injection Hp as <- _.
      rewrite (served_listed _ _ _ _ _ fd md Hsv). naive_solver.
    + apply Hno; [done|]. rewrite (served_listed _ _ _ _ _ fd md Hsv). naive_solver.
  - destruct (decide (fd' = fd)) as [->|Hne].
    + pose proof (Hc _ Hc') as Hii. cbn in Hii. subst i'. by rewrite Hp' in Hp.
    + apply Hno; [done|]. rewrite (closed_listed fd' u1 u' fd md) by (done || by apply not_eq_sym).
      rewrite (served_listed _ _ _ _ _ fd md Hsv). naive_solver.
  - apply Hno; [done|]. by apply (closed_listed fd'); [|apply not_eq_sym].
  - by apply Hno.
  - apply Hno; [done|]. apply (closed_listed fd'); [done|]. intros ->. by eapply Hq.
Qed.

Lemma tstep_listed lim busy max T it T' cs sn fd md i o fs rest :
  tstep dns_cfg (dns_eff r) dns_hooked max T it T' cs sn -> spec_ok lim busy T ->
  dns_ui r dns_cfg (dom (all_conns T)) (ts_user T) -> th_quiet fd it ->
  conn_all fd T = (i, o) -> parse i = ([], More i) ->
  parse (i ++ th_data fd it) = (fs, More rest) ->
  listed md fd (ts_user T') <-> listed md fd (ts_user T) \/ md ∈ requested fs.
Proof.
  intros Hst Hok (_ & Hui & _) Hq Hc Hi Hp.
  assert (Hno : th_data fd it = [] -> ts_user T' = ts_user T ->
    listed md fd (ts_user T') <-> listed md fd (ts_user T) \/ md ∈ requested fs).
  { intros He ->. rewrite He, app_nil_r, Hi in Hp. injection Hp as <- _.
    split; [by left|]. intros [?|?%not_elem_of_nil]; done. }
  destruct Hst as [ws u n j e C W C' W' u' cs sn Hj Hst|T j|T m answers];
    [|by apply Hno|apply Hno; [done|apply let_all_in_user]].
  apply (sstep_listed _ _ _ _ _ fd md i fs rest Hst Hq); cbn [s_waiting s_user s_conns]; try done.
  - intros Hfd md' (l & Hl & _). pose proof (waiting_not_open _ _ _ _ _ _ fd Hok Hj Hfd) as Hn.
    assert (Hin : fd ∈ dom (all_conns (mkServe ws u n))) by (apply Hui; by exists l).
    apply elem_of_dom in Hin as [x Hx]. congruence.
  - intros x Hx. unfold conn_all in Hc.
    rewrite (all_conns_in lim busy _ j C W fd Hok Hj), Hx in Hc by by eexists.
    cbn in Hc. by subst x.
Qed.
End Subscriptions.

(** ** Runs *)

Section Runs.
Context {P E F LOOP : Type} `{LP : BufAllocLaws P} `{LE : EpollLaws E} `{EventFd F} `{PL : PbLaws}.
Context `{HO : HashOrder}.
Local Abbreviation Threads := (Threads P E dns_v Dns F LOOP).
Context (r : Route) (lim lfd : Z) (busy : gset Z).
Local Abbreviation threads_inv := (threads_inv (dns_ui r) dns_cfg lim lfd busy).

(** The pairs of each client that neither leaves nor breaks off: those it had,
    and those it asks for. *)
Definition asked (T : Serve Dns) (its : list th_item) (T' : Serve Dns) : Prop :=
  forall fd i o ms rest md, Forall (th_quiet fd) its -> conn_all fd T = (i, o) ->
    parse i = ([], More i) -> parse (i ++ th_stream fd its) = (ms, More rest) ->
    Forall (fun f => f_data f <> []) ms ->
    listed md fd (ts_user T') <-> listed md fd (ts_user T) \/ md ∈ requested ms.

(** From the start: a client is booked for what it asks for. *)
Lemma asked_booked (T0 T : Serve Dns) (s : Threads) its fd ms rest md :
  threads_inv T s -> asked T0 its T -> params (ts_user T0) = ∅ -> conn_all fd T0 = ([], []) ->
  Forall (th_quiet fd) its -> parse (th_stream fd its) = (ms, More rest) ->
  Forall (fun f => f_data f <> []) ms ->
  booked md fd (d_sub (nt_user (th_net s))) <-> md ∈ requested ms.
Proof.
  intros Hs Hask Hno Hc Hq Hp Hne.
  destruct (threads_inv_user _ _ _ _ _ _ _ Hs) as (_ & _ & [Hbk _] & _).
  destruct Hs as [A I]. rewrite Hbk, <- (ti_user _ _ _ _ _ _ _ _ I).
  rewrite (Hask fd [] [] ms rest md Hq Hc parse_nil Hp Hne). split; [|by right].
  intros [(l & Hl & _)|?]; [|done]. by rewrite Hno, lookup_empty in Hl.
Qed.

Lemma asked_nil T : asked T [] T.
Proof.
  intros fd i o ms rest md _ Hc Hi Hp _. unfold th_stream in Hp.
  cbn [fmap list_fmap mjoin list_join] in Hp. rewrite app_nil_r, Hi in Hp.
  injection Hp as <- _. split; [by left|]. intros [?|?%not_elem_of_nil]; done.
Qed.

Lemma asked_cons (T0 T1 T2 : Serve Dns) (s0 s1 : Threads) it its cs sn :
  threads_inv T0 s0 -> threads_inv T1 s1 ->
  tstep dns_cfg (dns_eff r) dns_hooked (lim - 3) T0 it T1 cs sn ->
  asked T1 its T2 -> asked T0 (it :: its) T2.
Proof.
  intros Hs0 [A1 I1] Hst IH fd i o ms rest md [Hq Hqs]%Forall_cons Hc Hi Hp Hne.
  pose proof (threads_inv_user _ _ _ _ _ _ _ Hs0) as Hui. destruct Hs0 as [A0 I0].
  rewrite <- (ti_user _ _ _ _ _ _ _ _ I0) in Hui. pose proof (ti_spec _ _ _ _ _ _ _ _ I0) as Hok.
  unfold th_stream in Hp. cbn [fmap list_fmap mjoin list_join] in Hp. rewrite app_assoc in Hp.
  destruct (parse_prefix _ _ _ _ Hp Hne) as (fs1 & r1 & Ep1 & fs2 & Ep2 & ->).
  apply Forall_app in Hne as [Hne1 Hne2].
  destruct (tstep_alone _ _ _ lim (lim - 3) busy _ _ _ _ _ fd Hst Hok
    (ti_spec _ _ _ _ _ _ _ _ I1) Hq i o fs1 r1 Hc Hi Ep1 Hne1) as (_ & o1 & _ & Hc1 & _).
  rewrite (IH fd r1 o1 fs2 rest md Hqs Hc1 (parse_left _ _ _ Ep1) Ep2 Hne2).
  rewrite (tstep_listed r lim busy _ _ _ _ _ _ fd md i o fs1 r1 Hst Hok Hui Hq Hc Hi Ep1).
  unfold requested. rewrite omap_app, elem_of_app. tauto.
Qed.
End Runs.
