(* ===== verification/DnsCheck.v ===== *)
(** * DnsCheck: the dns service with its checking thread

    The threads of the server, and beside them the thread that [main] of
    dns/src/dns_service.cpp starts on [check_route_changes]
    (dns/src/dns_route.cpp).  A round of it works on the table that the workers
    read ([round_step]); the changes that it finds are published
    ([dns_publish], [publish] of dns/src/subscribe.cpp) as a task for every
    worker ([dns_task]).  As long as its rounds find no new version, and a
    reload the same rows, the clients do not see it ([service_steps_ok]). *)

From S2P Require Import Prelude CInt HashOrder.
From S2P Require Import IOBuf BufAlloc BufPool ReactorBuf Message EventLoop ThreadQueue.
From S2P Require Import NetState Framing TcpConn TcpConnInv TcpConnSpec TcpServer ServerLoop.
From S2P Require Import ServerThreads.
From S2P Require Import Protobuf.
From S2P Require Import Varint.
From S2P Require Import LbrssPb.
From S2P Require Import Proto LbrssPbSpec.
From S2P Require Import DnsRoute Subscribe SubscribeSpec DnsNet DnsService DnsThreads.
From Stdlib Require Import Strings.Byte.
Local Open Scope Z_scope.

Section Publish.
Context {P E F LOOP : Type} `{BufAlloc P} `{Epoll E} `{EventFd F}.
Context `{HO : HashOrder}.
Context `{Wire lbrss.GetRouteResponse}.
Local Abbreviation Net := (Net P E dns_v Dns).
Local Abbreviation Worker := (Worker P E dns_v Dns F LOOP).
Local Abbreviation Threads := (Threads P E dns_v Dns F LOOP).

(** The array [TCPServer::conns]. *)
Definition conn_cell (s : TCPServer dns_v) (fd : Z) : option Z := default None (conns s !! fd).
Definition conn_cells (s : TCPServer dns_v) : list bool :=
  (fun i => bool_decide (is_Some (conn_cell s (Z.of_nat i)))) <$> seq 0 (Z.to_nat (conns_size s)).

(** [conn->send_message] on [conns[fd]] *)
Definition send_fd (fd : Z) (data : list byte) (len id : Z) (w : Net) : res Net :=
  match conn_cell (nt_srv w) fd with
  | Some c => '(_, w) ← send_message data len id c w; Ret w
  | None => Fault NullDeref
  end.

Definition set_sub (sl : SubscribeList) (d : Dns) : Dns := mkDns (d_route d) sl (params d).

(** A task of a worker of the service; the only one is [push_change_task]. *)
Definition dns_task (t : dns_v * option dns_v) (wk : Worker) : res Worker :=
  match t.1 with
  | push_change_task_f =>
      let w := wk_net wk in
      let d := nt_user w in
      '(sl, w) ← push_change_task send_fd (conn_cells (nt_srv w)) (get_listen_fds (nt_loop w))
                   (d_route d) (d_sub d) w;
      Ret (set_wknet (set_ntuser (set_sub sl (nt_user w)) w) wk)
  | _ => Fault NullDeref
  end.

(** [publish(change_mods)] in the backend thread; [None] is the list itself. *)
Definition dns_publish (changes : gset Z) (s : Threads) : res Threads :=
  let d := nt_user (th_net s) in
  '(sl, tp) ← publish push_change_task_f None changes (d_sub d) (Some (th_pool s));
  match tp with
  | Some tp =>
      Ret (mkThreads (set_ntuser (set_sub sl d) (th_net s)) tp (th_threads s) (th_calls s)
             (th_sent s))
  | None => Fault NullDeref
  end.
End Publish.


(** ** Rounds among the callbacks *)

Section Steps.
Context {P E F LOOP : Type} `{BufAlloc P} `{Epoll E} `{EventFd F} `{HO : HashOrder}.
Context `{Wire lbrss.GetRouteRequest, Wire lbrss.GetRouteResponse}.
Local Abbreviation Threads := (Threads P E dns_v Dns F LOOP).

(** A callback of one of the server's threads, or a round of the checking
    thread, with what the clock and the database answer. *)
Inductive dns_item : Type :=
  | DThread (it : th_item)
  | DCheck (d : round).

(** The server's threads; [wait_time] and the state of the checking thread, if
    it was started. *)
Record Service : Type := mkService {
  sv_threads : Threads;
  sv_checker : option (Z * Backend)
}.

(** The calls of [publish] that a round has made. *)
Fixpoint publish_all (css : list (gset Z)) (s : Threads) : res Threads :=
  match css with
  | [] => Ret s
  | changes :: css => s ← dns_publish changes s; publish_all css s
  end.

(** [Route::instance()] is the same object for all threads. *)
Definition round_step (wait_time : Z) (d : round) (b : Backend) (s : Threads)
    : res (Backend * Threads) :=
  let u := nt_user (th_net s) in
  let b := mkBackend (d_route u) (last_load_time b) (published b) (deleted b) in
  let b' := check_round wait_time d b in
  let s := set_thuser (mkDns (route b') (d_sub u) (params u)) s in
  s ← publish_all (drop (length (published b)) (published b')) s;
  Ret (b', s).

Variable vgrow : nat -> nat.
(** The listening socket *)
Variable lfd : Z.

Definition service_step (it : dns_item) (sv : Service) : res Service :=
  match it with
  | DThread it =>
      s ← thread_step dns_msg dns_hook vgrow dns_task lfd it (sv_threads sv);
      Ret (mkService s (sv_checker sv))
  | DCheck d =>
      match sv_checker sv with
      | None => Fault Blocked
      | Some (wait_time, b) =>
          '(b, s) ← round_step wait_time d b (sv_threads sv);
          Ret (mkService s (Some (wait_time, b)))
      end
  end.

Fixpoint service_steps (its : list dns_item) (sv : Service) : res Service :=
  match its with
  | [] => Ret sv
  | it :: its => sv ← service_step it sv; service_steps its sv
  end.
End Steps.
Arguments Service : clear implicits.

(** The callbacks among the items. *)
Definition thread_items (its : list dns_item) : list th_item :=
  omap (fun it => match it with DThread it => Some it | DCheck _ => None end) its.

(** ** Rounds without a new version *)

(** The version is the old one, or cannot be read; and if the table is loaded
    again, because it was not for long, MySQL answers the rows [da] as before, or
    fails. *)
Definition quiet_round (r : Route) (da : answer RouteRow) (d : round) : Prop :=
  (forall v vs, rd_version d = Rows (v :: vs) -> v = version_ r) /\
  (forall rows, rd_data d = Rows rows -> da = Rows rows).

(** [r] is what [da] loads. *)
Definition loaded (da : answer RouteRow) (r : Route) : Prop :=
  forall rows, da = Rows rows -> data_map r = load_rows rows ∅.

Lemma Route_new_loaded va da r : Route_new va da = Ret r -> loaded da r.
Proof.
  unfold Route_new. intros Hr rows ->. destruct (load_version _ _) as [ret r1] eqn:E1.
  destruct (ret =? -1); [done|]. cbn in Hr. injection Hr as <-.
  assert (data_map r1 = ∅ /\ data_is_A r1 = true) as [Hd Ha].
  { unfold load_version in E1. destruct va as [| |[|v vs]]; try (by injection E1 as <- <-).
    destruct (_ =? _); by injection E1 as <- <-. }
  rewrite Hd. unfold set_data, data_map. by rewrite Ha.
Qed.

Lemma same_table_refl r : same_table r r.
Proof. by split. Qed.

Lemma quiet_reload r da now a b :
  loaded da r -> (forall rows, a = Rows rows -> da = Rows rows) -> same_table (route b) r ->
  let b' := reload now a b in
  same_table (route b') r /\ published b' = published b /\ deleted b' = deleted b.
Proof.
  intros Hda Ha [Hd Hv] b'. subst b'. unfold reload, load_route_data.
  destruct a as [| |rows]; cbn [fst snd Z.eqb route published deleted].
  1,2: split; [split; [by rewrite set_temp_data|by rewrite <- Hv; destruct (route b) as [? ? []]]|].
  1,2: done.
  split; [|done]. split.
  - rewrite swap_data, !set_temp_temp. symmetry. by apply Hda, Ha.
  - rewrite <- Hv. by destruct (route b) as [? ? []].
Qed.

(** Such a round leaves the table, and does nothing outside. *)
Lemma quiet_round_same r da wait_time d b :
  loaded da r -> quiet_round r da d -> same_table (route b) r ->
  let b' := check_round wait_time d b in
  same_table (route b') r /\ published b' = published b /\ deleted b' = deleted b.
Proof.
  intros Hda [Hver Hrows] Hb b'. subst b'. unfold check_round.
  assert (Hl : exists ret, load_version (rd_version d) (route b) = (ret, route b) /\ ret <> 1).
  { unfold load_version. destruct (rd_version d) as [| |[|v vs]] eqn:Ev; try (by eexists).
    destruct Hb as [_ ->]. rewrite (Hver v vs eq_refl), Z.eqb_refl. by eexists. }
  destruct Hl as (ret & -> & Hne). rewrite (proj2 (Z.eqb_neq ret 1) Hne).
  set (b0 := mkBackend _ _ _ _).
  destruct (wait_time <=? _); [by apply (quiet_reload r da _ _ b0)|done].
Qed.

(** ** The service with quiet rounds *)

Import Pb PbWire.

Section Runs.
Context {P E F LOOP : Type} `{LP : BufAllocLaws P} `{LE : EpollLaws E} `{EventFd F} `{PL : PbLaws}.
Context `{HO : HashOrder}.
Local Abbreviation Threads := (Threads P E dns_v Dns F LOOP).
Local Abbreviation Service := (Service P E F LOOP).
Context (K : kernel_accepts (E := E)) (vgrow : nat -> nat).
Context (r : Route) (da : answer RouteRow) (Hda : loaded da r).
Context (hm : Z) (Hfit : hosts_fit hm r) (lim lfd : Z) (busy : gset Z).
Local Abbreviation threads_inv := (threads_inv (dns_ui r) dns_cfg lim lfd busy).

(** [it] can be reported in a state of the server, and fits. *)
Local Abbreviation dns_item_fits :=
  (item_fits (lim - 3) (Z.to_nat (route_grow hm)) ba_max lim busy).
Local Abbreviation dns_tstep := (tstep dns_cfg (dns_eff r) dns_hooked (lim - 3)).

(** What may happen from [T] on: callbacks that fit, and quiet rounds. *)
Fixpoint service_fits (its : list dns_item) (T : Serve Dns) : Prop :=
  match its with
  | [] => True
  | DThread it :: its =>
      dns_item_fits T it /\ forall T' cs sn, dns_tstep T it T' cs sn -> service_fits its T'
  | DCheck d :: its =>
      quiet_round r da d /\ forall r', same_table r' r ->
        service_fits its (with_user (mkDns r' (d_sub (ts_user T)) (params (ts_user T))) T)
  end.

(** What the run [its] makes of each client that neither leaves nor breaks off. *)
Definition clients_served (T : Serve Dns) (its : list th_item) (T' : Serve Dns)
    (cs : list (Z * frame)) (sn : list (Z * list byte)) : Prop :=
  (forall fd, Forall (th_quiet fd) its ->
     alone dns_cfg (dns_eff r) fd (th_stream fd its) (conn_all fd T) (conn_all fd T') cs sn) /\
  asked T its T'.

Lemma served_nil T : clients_served T [] T [] [].
Proof. split; [intros fd _; apply alone_nil|apply asked_nil]. Qed.

Lemma served_cons (T T1 T2 : Serve Dns) (s s1 : Threads) it its cs1 sn1 cs2 sn2 :
  threads_inv T s -> threads_inv T1 s1 -> dns_tstep T it T1 cs1 sn1 ->
  clients_served T1 its T2 cs2 sn2 ->
  clients_served T (it :: its) T2 (cs1 ++ cs2) (sn1 ++ sn2).
Proof.
  intros Hs Hs1 Hst [Ha Hask]. split; [|by apply (asked_cons r lim lfd busy T T1 T2 s s1 it its
    cs1 sn1)].
  destruct Hs as [A I], Hs1 as [A1 I1]. intros fd [Hq Hqs]%Forall_cons.
  apply (alone_app _ _ _ (th_data fd it) _ _ (conn_all fd T1)); [|by apply Ha].
  apply (tstep_alone _ _ _ lim (lim - 3) busy _ _ _ _ _ _ Hst); [by apply I|by apply I1|done].
Qed.

(** A quiet round is seen by none of them. *)
Lemma round_ok wait_time d b T (s : Threads) :
  threads_inv T s -> quiet_round r da d ->
  exists b' r', same_table r' r /\ published b' = published b /\ deleted b' = deleted b /\
    let u := mkDns r' (d_sub (ts_user T)) (params (ts_user T)) in
    round_step wait_time d b s = Ret (b', set_thuser u s) /\
    threads_inv (with_user u T) (set_thuser u s).
Proof.
  intros Hs Hq. pose proof (threads_inv_user _ _ _ _ _ _ _ Hs) as (Hcfg & Hp & Hb & Hr).
  assert (Eu : ts_user T = nt_user (th_net s)) by (destruct Hs as [A I]; apply I).
  unfold round_step. rewrite Eu. set (b0 := mkBackend _ _ _ _).
  destruct (quiet_round_same r da wait_time d b0 Hda Hq Hr) as (Hr' & Ep & Ed).
  exists (check_round wait_time d b0), (route (check_round wait_time d b0)). do 3 (split; [done|]).
  split.
  - rewrite Ep, drop_all. done.
  - apply (threads_inv_set_user (dns_ui r)); [done|]. by split_and!.
Qed.

(** What the checking thread has done to the outside. *)
Definition checker_did (sv : Service) : option (Z * list (gset Z) * list delete_stmt) :=
  (fun '(wait_time, b) => (wait_time, published b, deleted b)) <$> sv_checker sv.

Lemma service_step_ok it T (sv : Service) :
  threads_inv T (sv_threads sv) -> dns_item_fits T it ->
  exits_or (service_step vgrow lfd (DThread it) sv) (fun sv' =>
    sv_checker sv' = sv_checker sv /\ exists T' cs sn, dns_tstep T it T' cs sn /\
      threads_inv T' (sv_threads sv') /\
      th_sent (sv_threads sv') = th_sent (sv_threads sv) ++ sn).
Proof.
  intros Hs Hf. cbn [service_step]. eapply exits_or_bind.
  { by apply (step_ok K dns_hook (dns_ui r) dns_cfg lim lfd busy dns_hooked (dns_start_ok r) vgrow
      dns_msg dns_task _ _ (dns_hook_ok r) (dns_msg_ok K r hm Hfit) T). }
  intros s1 (T1 & cs1 & sn1 & Hst & Hs1 & _ & Es1). split; [done|]. by exists T1, cs1, sn1.
Qed.

Lemma service_steps_ok its : forall T (sv : Service),
  threads_inv T (sv_threads sv) -> is_Some (sv_checker sv) -> service_fits its T ->
  exits_or (service_steps vgrow lfd its sv) (fun sv' => checker_did sv' = checker_did sv /\
    exists T' cs sn, clients_served T (thread_items its) T' cs sn /\
      threads_inv T' (sv_threads sv') /\
      th_sent (sv_threads sv') = th_sent (sv_threads sv) ++ sn).
Proof.
  induction its as [|[it|d] its IH]; intros T sv Hs Hc Hf; cbn [service_steps].
  { split; [done|]. exists T, [], []. rewrite app_nil_r. by split; [apply served_nil|]. }
  - destruct Hf as [Hit Hf]. eapply exits_or_bind; [by apply (service_step_ok it T)|].
    intros sv1 (Ec1 & T1 & cs1 & sn1 & Hst & Hs1 & Es1).
    eapply exits_or_mono; [apply (IH T1); [done|by rewrite Ec1|by apply (Hf _ _ _ Hst)]|].
    intros sv2 (Ec2 & T2 & cs2 & sn2 & Hsv & Hs2 & Es2).
    split; [rewrite Ec2; unfold checker_did; by rewrite Ec1|].
    exists T2, (cs1 ++ cs2), (sn1 ++ sn2).
    split; [by apply (served_cons T T1 T2 (sv_threads sv) (sv_threads sv1))|].
    split; [done|]. by rewrite Es2, Es1, app_assoc.
  - destruct Hf as [Hq Hf]. destruct Hc as [[wait_time b] Hc].
    destruct (round_ok wait_time d b T _ Hs Hq) as (b' & r' & Hr' & Ep & Ed & E1 & Hs1).
    cbn [service_step]. rewrite Hc, E1. cbn [mbind res_bind].
    eapply exits_or_mono.
    { apply (IH _ (mkService _ (Some (wait_time, b'))) Hs1); [by eexists|by apply Hf]. }
    intros sv2 (Ec2 & T2 & cs2 & sn2 & [Ha Hask] & Hs2 & Es2).
    split; [rewrite Ec2; unfold checker_did; cbn; by rewrite Hc, Ep, Ed|].
    exists T2, cs2, sn2. by split.
Qed.
End Runs.
