(* ===== verification/Setup.v ===== *)
(** * Setup: how the processes start

    The [main] functions and the threads they start, up to their loops
    (dns/src/dns_service.cpp, reporter/src/reporter_service.cpp,
    lb_agent/src/main_server.cpp, agent_udp_server.cpp, dns_client.cpp): the
    configuration file is an argument, and so are the answers of the operating
    system and of MySQL. *)

From S2P Require Import Prelude CInt HashOrder.
From S2P Require Import IOBuf BufAlloc BufPool ReactorBuf Message EventLoop ThreadQueue.
From S2P Require Import NetState Framing TcpConn TcpConnInv TcpConnSpec TcpServer ServerLoop.
From S2P Require Import ServerThreads.
From S2P Require TcpClient.
From S2P Require Udp.
From S2P Require Import ConfigFile ConfigFloat.
From S2P Require Import Protobuf.
From S2P Require Import Varint.
From S2P Require Import LbrssPb.
From S2P Require Import Proto.
From S2P Require Import LbrssPbSpec.
From S2P Require Import HostInfo LoadBalance RouteLB.
From S2P Require Import DnsRoute Subscribe SubscribeSpec DnsNet DnsService DnsThreads.
From S2P Require Import DnsCheck.
From S2P Require Import RouteTrip ReportTrip Reporter.
From stdpp Require Import strings.
From Stdlib Require Import Strings.Byte Strings.Ascii Floats.SpecFloat.
Import Pb PbWire.
Local Open Scope Z_scope.

(** ** MySQL *)

(** What [mysql_options] and [mysql_real_connect] are given; the port is an
    [unsigned int] there. *)
Record DbConn : Type := mkDbConn {
  db_host : str;
  db_port : Z;
  db_user : str;
  db_passwd : str;
  db_name : str;
  db_timeout : str;
  db_reconnect : bool
}.

(** The settings, with a default password; the port is a [short] in between. *)
Definition db_settings (passwd : str) (map : STR_MAP) : DbConn :=
  mkDbConn
    (GetString (lit "mysql") (lit "db_host") (lit "127.0.0.1") map)
    (u32 (i16 (GetNumber (lit "mysql") (lit "db_port") 3306 map)))
    (GetString (lit "mysql") (lit "db_user") (lit "root") map)
    (GetString (lit "mysql") (lit "db_passwd") passwd map)
    (GetString (lit "mysql") (lit "db_name") (lit "dns") map)
    (GetString (lit "mysql") (lit "db_timeout") (lit "30") map)
    (GetBool (lit "mysql") (lit "db_reconnect") true map).

(** A [db_port] from 2^15 on becomes a number that is no port. *)
Lemma db_port_wraps passwd map n :
  GetNumber (lit "mysql") (lit "db_port") 3306 map = n -> 0 <= n < 2 ^ 16 ->
  db_port (db_settings passwd map) = if n <? 2 ^ 15 then n else 2 ^ 32 - 2 ^ 16 + n.
Proof.
  intros Hn Hr. unfold db_settings. cbn [db_port]. rewrite Hn. unfold i16, u32.
  destruct (Z.ltb_spec n (2 ^ 15)).
  - rewrite (Z.mod_small (n + 2 ^ 15)), Z.mod_small by lia. lia.
  - rewrite <- (Z.mod_unique (n + 2 ^ 15) (2 ^ 16) 1 (n - 2 ^ 15)) by lia.
    rewrite <- (Z.mod_unique (n - 2 ^ 15 - 2 ^ 15) (2 ^ 32) (-1) (2 ^ 32 - 2 ^ 16 + n)); lia.
Qed.

(** [Route::connect_db()] *)
Definition connect_db (connected : bool) (map : STR_MAP) : res DbConn :=
  let db := db_settings (lit "12345") map in
  check ExitFail connected;; Ret db.

(** [StoreReport()] *)
Definition StoreReport_new (connected : bool) (map : STR_MAP) : res DbConn :=
  let db := db_settings (lit "123456") map in
  check ExitFail connected;; Ret db.

(** [Route()], with the answers to its two queries. *)
Definition Route_open (connected : bool) (va : answer Z) (da : answer RouteRow) (map : STR_MAP)
    : res Route :=
  connect_db connected map;; Route_new va da.

(** ** Servers *)

(** The answers that the constructor of a [TCPServer] gets from the system. *)
Record sys_ans : Type := mkSys { sys_sock : option Z; sys_bind : bool; sys_listen : bool }.

Section Servers.
Context {P E V U F LOOP : Type} `{BufAlloc P} `{Epoll E} `{EventFd F}.
Local Abbreviation Net := (Net P E V U).

(** The static members of [TCPServer] when the process starts. *)
Definition TCPServer_init : TCPServer V := mkServer ∅ 0 0 None None MsgRouter_new.

Definition set_conn_start (cb : V) (w : Net) : Net :=
  let s := nt_srv w in
  set_ntsrv (mkServer (conns s) (_max_conns s) (_curr_conns s) (Some cb) (conn_close_cb s)
               (router s)) w.

Definition set_conn_close (cb : V) (w : Net) : Net :=
  let s := nt_srv w in
  set_ntsrv (mkServer (conns s) (_max_conns s) (_curr_conns s) (conn_start_cb s) (Some cb)
               (router s)) w.

Definition add_msg_router (id : Z) (cb : V) (user_data : option V) (w : Net) : Net :=
  let s := nt_srv w in
  set_ntsrv (mkServer (conns s) (_max_conns s) (_curr_conns s) (conn_start_cb s)
               (conn_close_cb s) (register_msg_router id cb user_data (router s)).2) w.

(** [TCPServer(&loop, ip, port)], with the numbers that it reads itself. *)
Definition server_start (sys : sys_ans) (evfds : list (option F)) (map : STR_MAP) (w : Net)
    : res (pool_ptr (ThreadPool (TaskMsg V (option V)) F LOOP) * Net) :=
  TCPServer_new (sys_sock sys) (sys_bind sys) (sys_listen sys)
    (i32 (GetNumber (lit "reactor") (lit "maxConn") 1024 map))
    (i32 (GetNumber (lit "reactor") (lit "threadNum") 4 map)) evfds w.

(** The address that is bound: [short port] is handed over as [uint16_t]. *)
Definition server_addr (port : Z) (map : STR_MAP) : str * Z :=
  (GetString (lit "reactor") (lit "ip") (lit "0.0.0.0") map,
   u16 (i16 (GetNumber (lit "reactor") (lit "port") port map))).
End Servers.

(** *** dns/src/dns_service.cpp *)

Section DnsMain.
Context {P E F LOOP : Type} `{BufAlloc P} `{Epoll E} `{EventFd F}.
Local Abbreviation Net := (Net P E dns_v Dns).
Local Abbreviation Pool := (ThreadPool (TaskMsg dns_v (option dns_v)) F LOOP).

(** The singletons before they are made. *)
Definition dns_unmade : Dns := mkDns (mkRoute ∅ ∅ true 0) SubscribeList_new ∅.

(** [main] up to its loop: the address, the server's threads, the state, and the
    thread on [check_route_changes], before its loop: its [wait_time] and what it
    starts with.  [thread] is what [pthread_create] returns: only -1 is taken
    for an error, and with any other number but 0 there is no such thread.
    [Route] and [SubscribeList] are made when they are first used; here that is
    before the first request, as when the thread has got to its loop by then. *)
Definition dns_main (file : option str) (ep : option E) (sys : sys_ans) (evfds : list (option F))
    (thread now : Z) (connected : bool) (va : answer Z) (da : answer RouteRow) (p : P)
    : res (str * Z * pool_ptr Pool * Net * option (Z * Backend)) :=
  L ← EventLoop_open ep;
  '(_, config) ← setPath file None;
  map ← instance config;
  '(tp, w) ← server_start sys evfds map (mkNet p L ∅ 0 TCPServer_init ∅ dns_unmade);
  let w := set_conn_start create_subscribe_f w in
  let w := set_conn_close clear_subscribe_f w in
  let w := add_msg_router ID_GetRouteRequest get_route_f None w in
  check ExitFail (negb (thread =? -1));;
  let wait_time := i32 (GetNumber (lit "dns") (lit "back_sche_time") 10 map) in
  r ← Route_open connected va da map;
  let checker := if thread =? 0 then Some (wait_time, check_start now r) else None in
  Ret (server_addr 7778 map, tp, set_ntuser (mkDns r SubscribeList_new ∅) w, checker).

(** The threads as they enter their loops. *)
Definition dns_threads (evfd_num : F -> Z) (es : list E) (tp : Pool) (w : Net)
    (checker : option (Z * Backend)) : Service P E F LOOP :=
  mkService (start_threads evfd_num es tp w) checker.
End DnsMain.

(** *** reporter/src/reporter_service.cpp *)

Section ReporterMain.
Context {P E F LOOP : Type} `{BufAlloc P} `{Epoll E} `{EventFd F}.
Local Abbreviation StorePool := (ThreadPool lbrss.ReportStatusRequest F LOOP).
Local Abbreviation Net := (Net P E rep_v (option StorePool)).
Local Abbreviation Pool := (ThreadPool (TaskMsg rep_v (option rep_v)) F LOOP).

(** [main] up to its loop; [evfds2] are for the store threads. *)
Definition reporter_main (file : option str) (ep : option E) (sys : sys_ans)
    (evfds evfds2 : list (option F)) (p : P) : res (str * Z * pool_ptr Pool * Net) :=
  L ← EventLoop_open ep;
  '(_, config) ← setPath file None;
  map ← instance config;
  '(tp, w) ← server_start sys evfds map (mkNet p L ∅ 0 TCPServer_init ∅ None);
  let thread_cnt := i32 (GetNumber (lit "reporter") (lit "db_thread_cnt") 3 map) in
  thread_pool ← (if 0 <? thread_cnt
                 then sp ← StoreThreadPool_new thread_cnt evfds2; Ret (Some sp)
                 else Ret None);
  let w := set_ntuser thread_pool w in
  let w := add_msg_router ID_ReportStatusRequest get_report_status_f None w in
  Ret (server_addr 7779 map, tp, w).
End ReporterMain.

(** ** The agent *)

(** The members that [init_lb_agent] assigns, in its order; the others of the
    global object are zero.  A [float] is the [double] it is promoted to. *)
Definition load_config (local_ip : Z) (map : STR_MAP) : LBConfig :=
  let num key n := GetNumber (lit "loadbalance") (lit key) n map in
  let flt key m e := GetFloat (lit "loadbalance") (lit key) (float_of false m e) map in
  {| probe_num := i32 (num "probe_num" 10);
     init_succ_cnt := i32 (num "init_succ_cnt" 180);
     init_err_cnt := 0;
     err_rate := flt "err_rate" 1 (-1);
     succ_rate := flt "succ_rate" 92 (-2);
     con_succ_limit := i32 (num "con_succ_limit" 10);
     con_err_limit := i32 (num "con_err_limit" 10);
     local_ip := local_ip;
     window_err_rate := flt "window_err_rate" 7 (-1);
     idle_timeout := num "idle_timeout" 15;
     overload_timeout := num "overload_timeout" 15;
     update_timeout := num "update_timeout" 15 |}.

(** 127.0.0.1 in host byte order *)
Definition LOOPBACK : Z := 2130706433.

(** [init_lb_agent()]: [host] is the address of the machine's name, if there is
    one ([gethostname], [gethostbyname]).  Also [start_port], which the
    committed [LBConfig] lacks. *)
Definition init_lb_agent (file : option str) (host : option Z)
    : res (LBConfig * Z * list RouteLB) :=
  '(_, config) ← setPath file None;
  map ← instance config;
  let local_ip := default 0 host in
  let local_ip := if local_ip =? 0 then LOOPBACK else local_ip in
  Ret (load_config local_ip map,
       i32 (GetNumber (lit "loadbalance") (lit "start_port") 8888 map), create_route_lb).

(** [main] of the agent up to its endless sleep, with the eventfds of its two
    queues: the UDP servers are started on [init_agent], before the queues are
    there, and the clients on what is returned. *)
Definition agent_main {F LOOP : Type} `{EventFd F} (file : option str) (host : option Z)
    (rfd dfd : option F) : res (LBConfig * Z * Agent F LOOP) :=
  '(lb_config, start_port, r_lb) ← init_lb_agent file host;
  report_queue ← ThreadQueue_open rfd;
  dns_queue ← ThreadQueue_open dfd;
  Ret (lb_config, start_port, mkAgent r_lb (Some dns_queue) (Some report_queue)).

Section Agent.
Context {E F LOOP ADDR : Type} `{Epoll E} `{EventFd F}.
Local Abbreviation Agent := (Agent F LOOP).
Local Abbreviation Server := (Udp.Udp ADDR agent_v Agent).
(** The callback of a UDP server's socket and its argument. *)
Inductive udp_cb : Type := udp_read_callback.
Inductive udp_arg : Type := this_server.

(** [agent_server_main(index)] up to its loop: the port, the server, the loop. *)
Definition agent_server_main (index start_port : Z) (ep : option E) (hup pipe : bool)
    (sock : option Z) (buf : list byte) (zero : ADDR) (ag : Agent)
    : res (Z * Server * EventLoop udp_cb udp_arg unit E) :=
  let port := i16 (index + start_port) in
  L ← EventLoop_open ep;
  '(_, w, L) ← Udp.UDPServer_new udp_read_callback this_server hup pipe sock buf zero ag L;
  lb ← int_add port (- start_port);
  r_lb_at lb ag;;
  let w := Udp.add_msg_router ID_GetHostRequest get_host_f (Some (arg_lb lb)) w in
  let w := Udp.add_msg_router ID_ReportRequest report_f (Some (arg_lb lb)) w in
  let w := Udp.add_msg_router ID_API_GetRouteRequest RouteLB.get_route_f (Some (arg_lb lb)) w in
  Ret (u16 port, w, L).

Context `{Wire lbrss.ReportStatusRequest, Wire lbrss.GetRouteRequest}.
(** The descriptor of a queue's eventfd. *)
Variable evfd_num : F -> Z.

Definition client_addr (section : str) (map : STR_MAP) : str * Z :=
  (GetString section (lit "ip") [] map, u16 (i16 (GetNumber section (lit "port") 0 map))).

(** [dns_client_thread] up to its loop: the address and the client, whose state
    holds the loop; [a] is how the connection starts. *)
Definition dns_client_thread (map : STR_MAP) (ep : option E) (a : TcpClient.sock_ans) (ag : Agent)
    : res (str * Z * TcpClient.Cli E dnsc_v Agent) :=
  L ← EventLoop_open ep;
  w ← TcpClient.TCPClient_new client_hook L ag a;
  match RouteLB.dns_queue ag with
  | None => Fault NullDeref
  | Some q =>
      let w := TcpClient.watch_cli (evfd_num (evfd q)) (user_cb new_dns_request_f) EPOLLIN w in
      let c := TcpClient.cl w in
      Ret (client_addr (lit "dns-server") map,
           TcpClient.set_cl
             (TcpClient.mkClient (TcpClient.connected c) (TcpClient._obuf c) (TcpClient._ibuf c)
                (TcpClient._sockfd c) (Some conn_init_f) (TcpClient._conn_close_cb c)
                (register_msg_router ID_GetRouteResponse deal_recv_route_f None
                   (TcpClient._router c)).2) w)
  end.

(** [report_client_thread] up to its loop *)
Definition report_client_thread (map : STR_MAP) (ep : option E) (a : TcpClient.sock_ans)
    (ag : Agent) : res (str * Z * TcpClient.Cli E repc_v Agent) :=
  L ← EventLoop_open ep;
  w ← TcpClient.TCPClient_new repc_hook L ag a;
  match RouteLB.report_queue ag with
  | None => Fault NullDeref
  | Some q =>
      Ret (client_addr (lit "reporter") map,
           TcpClient.watch_cli (evfd_num (evfd q)) (user_cb new_report_request_f) EPOLLIN w)
  end.
End Agent.

(** *** The ports of the agent *)

Section AgentPorts.
Context {E F LOOP ADDR : Type} `{LE : EpollLaws E} `{EventFd F}.
Local Abbreviation Agent := (Agent F LOOP).

(** The port that [agent_server_main] computes is [index + start_port] exactly
    while this is less than 2^15. *)
Lemma agent_port_wraps index start_port :
  0 <= index < 3 -> 0 <= start_port < 2 ^ 16 ->
  i16 (index + start_port) =
    if index + start_port <? 2 ^ 15 then index + start_port else index + start_port - 2 ^ 16.
Proof.
  intros Hi Hs. unfold i16. destruct (Z.ltb_spec (index + start_port) (2 ^ 15)).
  - rewrite Z.mod_small by lia. lia.
  - rewrite <- (Z.mod_unique (index + start_port + 2 ^ 15) (2 ^ 16) 1
      (index + start_port - 2 ^ 15)); lia.
Qed.

(** Each of the agent's three UDP servers listens on the port
    [start_port + index] and hands its requests to the balancer [index], the
    one that the client library sends them to, if that port is less than 2^15.
    With any larger one the agent reads outside of the array of balancers: the
    port is a [short], and the index is computed back from it. *)
Lemma agent_ports index start_port (e : E) sockfd buf (zero : ADDR) (ag : Agent) :
  0 <= index < 3 -> 0 <= start_port < 2 ^ 16 -> length (r_lb ag) = 3%nat ->
  let m := agent_server_main index start_port (Some e) true true (Some sockfd) buf zero ag in
  if index + start_port <? 2 ^ 15
  then exists w L, m = Ret (index + start_port, w, L) /\
    Udp.u_router w = agent_router index /\ Udp.u_user w = ag /\ Udp._read_buf w = buf /\
    Udp.u_sent w = [] /\ elts (ready_tasks L) = [] /\
    exists ev, io_evs L !! sockfd = Some ev /\
      read_callback ev = Some udp_read_callback /\ rcb_args ev = Some this_server
  else m = Fault OutOfBounds.
Proof.
  intros Hi Hs Hr m. subst m. unfold agent_server_main.
  rewrite agent_port_wraps by done.
  cbn [EventLoop_open mbind res_bind Udp.UDPServer_new check].
  destruct (Z.ltb_spec (index + start_port) (2 ^ 15)); rewrite int_add_ok by (unfold is_i32; lia);
    cbn [mbind res_bind]; unfold r_lb_at.
  - replace (index + start_port + - start_port) with index by lia.
    rewrite (proj2 (Z.leb_le 0 _)) by lia. cbn [check mbind res_bind].
    destruct (lookup_lt_is_Some_2 (r_lb ag) (Z.to_nat index)) as [rl ->]; [lia|].
    cbn [mbind res_bind]. eexists _, _.
    split; [unfold u16; rewrite Z.mod_small by lia; reflexivity|].
    split_and!; try done; [by rewrite add_io_event_tasks|].
    eexists. split; [by apply add_io_event_in|done].
  - by rewrite (proj2 (Z.leb_gt 0 _)) by lia.
Qed.
End AgentPorts.

(** ** The dns service starts *)

Section DnsStart.
Context {P E F LOOP : Type} `{LP : BufAllocLaws P} `{LE : EpollLaws E} `{EventFd F} `{PL : PbLaws}.
Context `{HO : HashOrder}.

(** What [main] leaves: the server with the hooks and the handler, one empty
    queue for each thread, the listening socket watched. *)
Lemma dns_main_ok file ok map (fs : list F) (e : E) sockfd now va da (p : P) r max :
  setPath file None = Ret (ok, Some map) -> Route_new va da = Ret r ->
  i32 (GetNumber (lit "reactor") (lit "maxConn") 1024 map) = max -> -3 <= max ->
  i32 (GetNumber (lit "reactor") (lit "threadNum") 4 map) = Z.of_nat (length fs) -> fs <> [] ->
  dns_main (LOOP := LOOP) file (Some e) (mkSys (Some sockfd) true true) (Some <$> fs) 0 now true
    va da p =
    Ret (server_addr 7778 map,
         PoolSet (mkThreadPool (ThreadQueue_new <$> fs) (Z.of_nat (length fs)) 0),
         set_ntloop (add_io_event sockfd accept_callback EPOLLIN (Some arg_server) (EventLoop_new
           e))
           (dns_net p e max r),
         Some (i32 (GetNumber (lit "dns") (lit "back_sche_time") 10 map), check_start now r)).
Proof.
  intros Hc Hr Hm Hm3 Ht Hne. unfold dns_main. cbn [EventLoop_open mbind res_bind]. rewrite Hc.
  cbn [mbind res_bind instance]. unfold server_start, TCPServer_new.
  cbn [sys_sock sys_bind sys_listen].
  cbn [check mbind res_bind]. rewrite Hm, Ht, (proj2 (Z.leb_le 0 _)) by lia.
  cbn [check mbind res_bind].
  rewrite (proj2 (Z.ltb_lt _ _)) by (destruct fs; [done|cbn; lia]).
  rewrite ThreadPool_new_runs by done. cbn [mbind res_bind check negb Z.eqb].
  unfold Route_open, connect_db. cbn [check mbind res_bind]. rewrite Hr. done.
Qed.

(** Only connected clients are booked. *)
Lemma threads_booked r lim lfd busy (T : Serve Dns) (s : Threads P E dns_v Dns F LOOP) md fd :
  threads_inv (dns_ui r) dns_cfg lim lfd busy T s ->
  booked md fd (d_sub (nt_user (th_net s))) -> is_Some (all_conns T !! fd).
Proof.
  intros Hs Hb. destruct (threads_inv_user _ _ _ _ _ _ _ Hs) as (_ & Hp & [Hbk _] & _).
  apply Hbk in Hb as (l & Hl & _). apply elem_of_dom, Hp. by exists l.
Qed.

(** What the kernel may report to the threads of the service, and the database to
    the checking thread, after the start with [n] workers. *)
Definition dns_items_fit (r : Route) (da : answer RouteRow) (hm max : Z) (busy : gset Z) (n : nat)
    (its : list dns_item) : Prop :=
  service_fits (P := P) r da hm (max + 3) busy its (serve_start n (mkDns r SubscribeList_new ∅)).

Context (K : kernel_accepts (E := E)).

(** [main] leaves the threads as they have to be, without clients. *)
Lemma dns_starts file ok map (fs : list F) (e : E) sockfd now va da (p : P) r max
    (evfd_num : F -> Z) es :
  setPath file None = Ret (ok, Some map) -> Route_new va da = Ret r ->
  i32 (GetNumber (lit "reactor") (lit "maxConn") 1024 map) = max -> 0 <= max < 2 ^ 30 ->
  i32 (GetNumber (lit "reactor") (lit "threadNum") 4 map) = Z.of_nat (length fs) -> fs <> [] ->
  ba_view p ∅ -> length es = length fs -> Forall (fun e => interest e = ∅) es ->
  let T0 := serve_start (length fs) (mkDns r SubscribeList_new ∅) in
  exists tp w,
    dns_main (LOOP := LOOP) file (Some e) (mkSys (Some sockfd) true true) (Some <$> fs) 0 now true
      va da p =
      Ret (server_addr 7778 map, PoolSet tp, w,
        Some (i32 (GetNumber (lit "dns") (lit "back_sche_time") 10 map), check_start now r)) /\
    threads_inv (dns_ui r) dns_cfg (max + 3) sockfd (list_to_set (evfd_num <$> fs)) T0
      (start_threads evfd_num es tp w) /\
    (forall fd, conn_all fd T0 = ([], [])) /\ th_sent (start_threads evfd_num es tp w) = [].
Proof.
  intros Hc Hr Hm Hmax Ht Hne Hv Hlen He T0. eexists _, _.
  split; [apply (dns_main_ok file ok map fs e sockfd now va da p r max); try done; lia|].
  split; [|split; [intros fd; unfold conn_all, T0; by rewrite serve_start_conns|done]].
  set (busy := list_to_set (evfd_num <$> fs)). set (tp := mkThreadPool _ _ _).
  set (w := set_ntloop _ _).
  pose proof (start_threads_ok K (dns_ui r) dns_cfg (max + 3) sockfd busy evfd_num es tp w ∅)
    as Hst. cbn [tp _queues] in Hst. rewrite length_fmap in Hst. apply Hst; try done.
  - by apply (ThreadPool_new_ok (Z.of_nat (length fs)) (Some <$> fs)), ThreadPool_new_runs.
  - by apply Forall_fmap, Forall_true.
  - apply Forall_fmap, Forall_forall. intros f Hin. cbn.
    by apply elem_of_list_to_set, list_elem_of_fmap_2.
  - apply dns_ui_start.
  - eexists. split; [by apply add_io_event_in|done].
Qed.

Context (vgrow : nat -> nat).

(** C5. The whole dns service, from [main] on: the accepting thread, the
    workers, and the thread that checks for changes. From any configuration file
    that loads, with a table in which no pair has more than [hm] hosts (at most
    100000), and when the system and the database answer the start: [main] binds
    the configured address and starts the configured number of workers and the
    checking thread. Then let the callbacks of the server's threads and the
    rounds of [check_route_changes] follow in any order, under these conditions
    ([dns_items_fit]). Of the server's threads, those of C3: a descriptor that
    is accepted is not in use and, unless it is refused, below [maxConn] + 3;
    events are on what is watched; a connection's unprocessed input, and its
    output with the replies, fit into 8 MB; no input ends with an empty message
    (C32). Of the rounds: the version in the database is still the one of the
    start, or cannot be read, and a reload of the table, when the time for it
    has come, gets the same rows or fails (with a new version the service stops,
    C38). In every such run the service does not fail, except that it exits when
    the pool's memory is used up or [accept] fails with an error that it does
    not expect; the checking thread has published nothing, and has sent only the
    deletion of all changes with which it starts; each client that neither
    leaves nor breaks off, and whose complete messages all have bodies, is sent
    the replies to the complete requests in its own stream, in order and byte
    for byte (for whatever order the hash sets give to their members), apart
    from the end that is still pending, whichever worker it was dealt to, and is
    booked for exactly the pairs that these requests name; and whoever is booked
    for a pair is connected. *)
Theorem dns_service_runs file ok map (fs : list F) (e : E) sockfd now va da (p : P) r hm max
    (evfd_num : F -> Z) es its :
  setPath file None = Ret (ok, Some map) -> Route_new va da = Ret r -> hosts_fit hm r ->
  i32 (GetNumber (lit "reactor") (lit "maxConn") 1024 map) = max -> 0 <= max < 2 ^ 30 ->
  i32 (GetNumber (lit "reactor") (lit "threadNum") 4 map) = Z.of_nat (length fs) -> fs <> [] ->
  ba_view p ∅ -> length es = length fs -> Forall (fun e => interest e = ∅) es ->
  dns_items_fit r da hm max (list_to_set (evfd_num <$> fs)) (length fs) its ->
  let callbacks := thread_items its in
  exists tp w checker,
    dns_main (LOOP := LOOP) file (Some e) (mkSys (Some sockfd) true true) (Some <$> fs) 0 now true
      va da p = Ret (server_addr 7778 map, PoolSet tp, w, checker) /\
    exits_or (service_steps vgrow sockfd its (dns_threads evfd_num es tp w checker)) (fun sv' =>
      let s' := sv_threads sv' in
      (exists wait_time, checker_did sv' = Some (wait_time, [], [DeleteAll])) /\
      exists T : Serve Dns,
      (forall md fd, booked md fd (d_sub (nt_user (th_net s'))) -> is_Some (all_conns T !! fd)) /\
      forall fd ms rest, Forall (th_quiet fd) callbacks ->
        parse (th_stream fd callbacks) = (ms, More rest) -> Forall (fun f => f_data f <> []) ms ->
        (exists pending, conn_all fd T = (rest, pending) /\
          concat (of_fd fd (th_sent s')) ++ pending = mjoin (reply r <$> ms)) /\
        forall md, booked md fd (d_sub (nt_user (th_net s'))) <-> md ∈ requested ms).
Proof.
  intros Hc Hr Hfit Hm Hmax Ht Hne Hv Hlen He Hf callbacks.
  destruct (dns_starts file ok map fs e sockfd now va da p r max evfd_num es)
    as (tp & w & Hmain & Hs & Hc0 & Hs0); try done. eexists tp, w, _. split; [exact Hmain|].
  eapply exits_or_mono.
  { apply (service_steps_ok K vgrow r da (Route_new_loaded _ _ _ Hr) hm Hfit (max + 3) sockfd _ its
      _ (dns_threads evfd_num es tp w _) Hs); [by eexists|exact Hf]. }
  intros sv' (Ec & T & cs & sn & [Ha Hask] & Hs' & Es). split; [by eexists; rewrite Ec|]. exists T.
  split; [intros md fd; by apply (threads_booked _ _ _ _ _ _ _ _ Hs')|].
  intros fd ms rest Hq Hp Hnem. cbn [dns_threads sv_threads] in Es. rewrite Hs0 in Es.
  cbn [app] in Es. subst sn. split.
  - destruct (Ha fd Hq [] [] ms rest (Hc0 fd) parse_nil Hp Hnem) as
      (_ & o' & out & Hco & Han & Ho).
    exists o'. split; [done|]. rewrite Ho. exact (answered_reply _ _ _ _ Han).
  - intros md. by apply (asked_booked r (max + 3) sockfd _ _ T _ callbacks fd ms rest md Hs' Hask).
Qed.
End DnsStart.

(** ** The committed configurations *)

Import TableKernel CounterFd Varint FixedOrder.

Definition conf_text (ls : list string) : str := mjoin ((fun l => lit l ++ [ascii_of_N 10]) <$> ls).

(** dns/conf/dns.conf *)
Definition dns_conf : str := conf_text
  ["[reactor]"; "maxConn = 1024"; "threadNum = 5"; "ip = 127.0.0.1"; "port = 7778"; "";
   "[dns]"; "back_sche_time = 10"; "";
   "[mysql]"; "db_host = 127.0.0.1"; "db_port = 3306"; "db_user = root"; "db_passwd = @Jiang123";
   "db_name = dns"; "db_timeout = 30"; "db_reconnect = true"]%string.

Definition conf_map (text : str) : STR_MAP :=
  match setPath (Some text) None with Ret (_, Some map) => map | _ => ∅ end.

Definition conf_good (text : str) : bool :=
  match setPath (Some text) None with Ret (true, Some _) => true | _ => false end.

Lemma conf_loads text :
  conf_good text = true -> setPath (Some text) None = Ret (true, Some (conf_map text)).
Proof. unfold conf_good, conf_map. by destruct (setPath _ _) as [[[] []]|]. Qed.

Lemma dns_conf_good : conf_good dns_conf = true.
Proof. vm_compute. reflexivity. Qed.

Lemma dns_conf_numbers :
  i32 (GetNumber (lit "reactor") (lit "maxConn") 1024 (conf_map dns_conf)) = 1024 /\
  i32 (GetNumber (lit "reactor") (lit "threadNum") 4 (conf_map dns_conf)) = 5.
Proof. split; vm_compute; reflexivity. Qed.

Lemma dns_conf_settings :
  db_settings (lit "12345") (conf_map dns_conf) =
    mkDbConn (lit "127.0.0.1") 3306 (lit "root") (lit "@Jiang123") (lit "dns") (lit "30") true /\
  server_addr 7778 (conf_map dns_conf) = (lit "127.0.0.1", 7778).
Proof. split; vm_compute; reflexivity. Qed.

(** lb_agent/conf/lb_agent.conf, without its comments *)
Definition lb_conf : str := conf_text
  ["[reporter]"; "ip = 127.0.0.1"; "port = 7779"; ""; "[dns-server]"; "ip = 127.0.0.1";
   "port = 7778"; ""; "[loadbalance]"; "probe_num = 10"; "start_port = 8888";
   "init_succ_cnt = 100"; "init_err_cnt = 5"; "err_rate = 0.1"; "succ_rate = 0.5";
   "con_err_limit = 15"; "con_succ_limit = 15"; "window_err_rate = 0.7"; "idle_timeout = 15";
   "overload_timeout = 15"; "update_timeout = 15"]%string.

(** The agent with the committed file: its [init_err_cnt] is not read.  The rates
    are the nearest [float]s of 0.1, 0.5 and 0.7. *)
Lemma lb_conf_config :
  init_lb_agent (Some lb_conf) None =
    Ret ({| probe_num := 10; init_succ_cnt := 100; init_err_cnt := 0;
            err_rate := S754_finite false 13421773 (-27);
            succ_rate := S754_finite false 8388608 (-24);
            con_succ_limit := 15; con_err_limit := 15; local_ip := LOOPBACK;
            window_err_rate := S754_finite false 11744051 (-24);
            idle_timeout := 15; overload_timeout := 15; update_timeout := 15 |},
         8888, create_route_lb).
Proof. vm_compute. reflexivity. Qed.

(** The clients of the agent connect to the addresses of that file. *)
Lemma lb_conf_addrs :
  client_addr (lit "dns-server") (conf_map lb_conf) = (lit "127.0.0.1", 7778) /\
  client_addr (lit "reporter") (conf_map lb_conf) = (lit "127.0.0.1", 7779).
Proof. split; vm_compute; reflexivity. Qed.

(** ** Witness: a client of the first of five workers *)

Definition run_fds : list N := [4; 5; 6; 7; 8]%N.
(** A client, half of its request, a round of the checking thread that loads the
    table again, the other half. *)
Definition run_items : list dns_item :=
  [DThread (SAccept 1 [AccFd 12; AccErr EAGAIN]); DThread (SEvent 0 (ENew 1));
   DThread (SEvent 0 (EData 12 1 (take 5 (frame_bytes svc_request)) []));
   DCheck (mkRound 200 (Rows [1]) (Rows svc_rows) QueryErr);
   DThread (SEvent 0 (EData 12 1 (drop 5 (frame_bytes svc_request)) []))].

Lemma run_fits :
  dns_items_fit (P := BufPool) svc_route (Rows svc_rows) 2 1024 (list_to_set (Z.of_N <$> run_fds)) 5
    run_items.
Proof.
  unfold dns_items_fit. change ba_max with m8M. cbn [service_fits run_items]. split.
  { split; [done|]. cbn [accept_fits]. split_and!; try lia; try set_solver. apply not_in_use.
    intros i C W [[= -> ->] _]%lookup_replicate. split; [done|apply not_elem_of_nil]. }
  intros T1 cs1 sn1 Hst1. inversion Hst1; subst. clear Hst1.
  set (T1 := let_all_in _ _ _). assert (H1 : ts_workers T1 !! 0%nat = Some (∅, [12])) by done.
  split; [by apply (fits_new _ _ _ _ _ _ _ ∅ [12])|]. intros T2 cs2 sn2 Hst2.
  pose proof (tstep_new _ _ _ _ _ _ _ _ _ _ _ H1 Hst2) as H2.
  split; [apply (fits_data _ _ _ _ _ _ _ _ _ _ _ H2); vm_compute; try split; done|].
  intros T3 cs3 sn3 Hst3.
  pose proof (tstep_part _ _ _ _ _ _ _ _ _ _ _ _ _ _ (take 5 (frame_bytes svc_request)) Hst3 H2
    ltac:(vm_compute; reflexivity)) as H3.
  split; [split; [intros v vs [= <- _]; reflexivity|intros rows [= <-]; reflexivity]|]. intros r' _.
  set (T4 := with_user _ T3). assert (H4 : ts_workers T4 !! 0%nat = _) by exact H3.
  split; [apply (fits_data _ _ _ _ _ _ _ _ _ _ _ H4); vm_compute; try split; done|done].
Qed.

Lemma dns_service_runs_witness :
  exists tp w checker,
    dns_main (P := BufPool) (LOOP := unit) (Some dns_conf) (Some ∅) (mkSys (Some 3) true true)
      (Some <$> run_fds) 0 100 true (Rows [1]) (Rows svc_rows) init_pool =
      Ret (server_addr 7778 (conf_map dns_conf), PoolSet tp, w, checker) /\
    exits_or (service_steps S 3 run_items (dns_threads Z.of_N (replicate 5 ∅) tp w checker))
      (fun sv' =>
      (exists pending, concat (of_fd 12 (th_sent (sv_threads sv'))) ++ pending =
        reply svc_route svc_request) /\
      booked (pack64 1 2) 12 (d_sub (nt_user (th_net (sv_threads sv'))))).
Proof.
  destruct (dns_service_runs (LOOP := unit) table_accepts S (Some dns_conf) true
    (conf_map dns_conf) run_fds ∅ 3 100 (Rows [1]) (Rows svc_rows) init_pool svc_route 2 1024 Z.of_N
    (replicate 5 ∅) run_items (conf_loads _ dns_conf_good) eq_refl svc_hosts
    (proj1 dns_conf_numbers) ltac:(lia) (proj2 dns_conf_numbers) ltac:(done)
    (BufPool_new_view _ init_pool_eq) eq_refl (Forall_replicate _ _ _ eq_refl) run_fits)
    as (tp & w & checker & E1 & Hr).
  exists tp, w, checker. split; [exact E1|]. eapply exits_or_mono; [exact Hr|].
  intros sv' (_ & T & _ & Hcl). destruct (Hcl 12 [svc_request] []) as [(pending & _ & Hp) Hb].
  - repeat constructor.
  - vm_compute. reflexivity.
  - by repeat constructor.
  - split; [exists pending; rewrite Hp; apply app_nil_r|]. apply Hb. vm_compute. by left.
Defined.
