(* ===== verification/DnsPublish.v ===== *)
(** * DnsPublish: the publication of changed routes in the running service

    When a round of the checking thread finds changes, [SubscribeList::publish]
    sends a task to every worker of the dns service ([DnsCheck]), and a worker
    runs [push_change_task] (dns/src/subscribe.cpp) at the end of the turn in
    which its queue woke it.  The first change of a pair that a connected client
    has asked for stops the service ([publication_stops_service]). *)

From S2P Require Import Prelude CInt HashOrder.
From S2P Require Import IOBuf BufAlloc BufPool ReactorBuf Message EventLoop ThreadQueue.
From S2P Require Import NetState Framing TcpConn TcpConnInv TcpConnSpec TcpServer ServerLoop.
From S2P Require Import ServerThreads.
From S2P Require Import ConfigFile Protobuf.
From S2P Require Import Varint.
From S2P Require Import LbrssPb.
From S2P Require Import Proto LbrssPbSpec.
From S2P Require Import DnsRoute Subscribe SubscribeSpec DnsNet DnsService DnsThreads DnsCheck.
From S2P Require Import Setup.
From stdpp Require Import strings.
From Stdlib Require Import Strings.Byte.
Import Pb PbWire.
Local Open Scope Z_scope.

(** A worker comes back as it was put. *)
Lemma thread_at_put {P E V U F LOOP : Type} `{BufAlloc P} `{Epoll E} `{EventFd F} i ins
    (wk : Worker P E V U F LOOP) (s : Threads P E V U F LOOP) t q :
  th_threads s !! i = Some t -> _queues (th_pool s) !! i = Some q ->
  thread_at i ins (put_thread i wk s) = Ret (with_answers ins wk).
Proof.
  intros Ht Hq. unfold thread_at, put_thread. cbn [th_threads th_pool _queues].
  rewrite list_lookup_alter_eq, Ht. cbn [fmap option_fmap option_map].
  rewrite list_lookup_insert_eq by by eapply lookup_lt_Some.
  by destruct wk as [[] ? ? ? ?].
Qed.

Lemma deal_tasks_app {P E V U : Type} `{BufAlloc P} `{Epoll E}
    (run_hook : V -> Z -> Net P E V U -> res (Net P E V U)) vgrow xs ys w :
  deal_tasks run_hook vgrow (xs ++ ys) w =
    deal_tasks run_hook vgrow xs w ≫= deal_tasks run_hook vgrow ys.
Proof.
  revert w. induction xs as [|[fd|cb args] xs IH]; intros w; cbn [app deal_tasks]; [done| |done].
  destruct (TCPConn_new _ _ _) as [[c w1]|]; cbn; [apply IH|done].
Qed.

Section Stops.
Context {P E F LOOP : Type} `{LP : BufAllocLaws P} `{LE : EpollLaws E} `{EventFd F} `{PL : PbLaws}.
Context `{HO : HashOrder}.
Local Abbreviation Worker := (Worker P E dns_v Dns F LOOP).
Local Abbreviation Threads := (Threads P E dns_v Dns F LOOP).
Context (K : kernel_accepts (E := E)) (vgrow : nat -> nat) (Hgrow : forall n, (n < vgrow n)%nat).
Context (r : Route) (lim lfd : Z) (busy : gset Z).
Local Abbreviation threads_inv := (threads_inv (dns_ui r) dns_cfg lim lfd busy).
Local Abbreviation dns_steps := (thread_steps dns_msg dns_hook vgrow dns_task lfd).

(** The subscriptions stay in order. *)
Lemma dns_ui_publish cfg fds d changes :
  dns_ui r cfg fds d -> dns_ui r cfg fds (set_sub (mark_mods changes (d_sub d)) d).
Proof.
  intros (Hcfg & Hp & Hb & Hr). split; [done|]. split; [done|]. split; [|done].
  by apply (dns_step_ok (DPublish changes) d).
Qed.

(** The opening hooks leave the book alone. *)
Lemma opened_sub W d d' : all_opened dns_cfg dns_hooked W d d' -> d_sub d' = d_sub d.
Proof.
  revert d. induction W as [|fd W IH]; intros d; cbn; [by intros ->|].
  intros (d1 & -> & Ho). by rewrite (IH _ Ho).
Qed.

(** A worker with the task in its loop, and a client on the push list. *)
Lemma task_faults (wk : Worker) ev fd md changes sl :
  elts (ready_tasks (wk_loop wk)) = [(push_change_task_f, None)] ->
  (0 < vcap (ready_tasks (wk_loop wk)))%nat -> loop_inv (wk_loop wk) ->
  io_evs (wk_loop wk) !! fd = Some ev ->
  d_sub (nt_user (wk_net wk)) = mark_mods changes sl -> md ∈ changes -> booked md fd sl ->
  execute_ready_tasks wk_loop set_wkloop dns_task wk = Fault IterInvalid.
Proof.
  intros Ht Hcap HL Hev Hsub Hmd Hb. unfold execute_ready_tasks.
  destruct (vcap _) as [|n]; [lia|]. cbn [exec_tasks]. rewrite Ht. cbn
    [lookup list_lookup dns_task fst].
  rewrite Hsub. unfold wk_loop in *.
  rewrite (proj2 (push_never_delivers send_fd (conn_cells (nt_srv (wk_net wk)))
    (get_listen_fds (nt_loop (wk_net wk))) (d_route (nt_user (wk_net wk))) sl (wk_net wk))
    changes md fd Hmd Hb); [done|].
  unfold get_listen_fds. rewrite (li_fds _ HL). by eapply elem_of_dom_2.
Qed.

(** The turn of worker [i] in which it takes the task. *)
Lemma publication_stops (T : Serve Dns) (s : Threads) i C W fd md changes m :
  threads_inv T s -> ts_workers T !! i = Some (C, W) -> is_Some (C !! fd) ->
  booked md fd (d_sub (nt_user (th_net s))) -> md ∈ changes -> is_read m = true ->
  exists s1, dns_publish changes s = Ret s1 /\
    dns_steps [SEvent i (ENew m); STasks i] s1 = Fault IterInvalid.
Proof.
  intros Hs Hi HC Hb Hmd Hm. eexists. split; [reflexivity|].
  set (d' := set_sub _ _). set (s1 := mkThreads _ _ _ _ _).
  pose proof (threads_inv_set_user _ (dns_ui r) _ _ _ _ T s d' Hs
    (dns_ui_publish _ _ _ _ (threads_inv_user _ _ _ _ _ _ _ Hs))) as [A I].
  destruct (ti_worker _ _ _ _ _ _ _ _ I i C W Hi) as
    (M & t & q & Ht & Hq & HM & HCM & IM & Eq & Hbusy).
  destruct (threads_beside _ _ _ _ _ A _ _ i C W [] M t q I Hi HM HCM IM Eq Hbusy)
    as (M1 & I1 & Ec & _ & _ & Hnd & Hopen). cbn [s_conns s_waiting wk_net] in Ec, I1, Hnd, Hopen.
  set (w1 := set_ntloop (t_loop t) _) in I1.
  set (wk1 := mkWorker w1 (send (NEW_TASK push_change_task_f None) q) [] (th_calls s1)
    (th_sent s1)).
  assert (Hat : thread_at i [] s1 = Ret wk1).
  { unfold thread_at. cbn [s1 th_threads th_pool]. cbn in Ht, Hq. rewrite Ht.
    unfold send_task. cbn [_queues]. by rewrite list_lookup_fmap, Hq. }
  assert (Hqfd : qfd_at i s1 = t_qfd t) by (unfold qfd_at; cbn in Ht |- *; by rewrite Ht).
  destruct (mv_queue _ _ _ (nv_mine _ _ _ _ _ _ _ I1)) as (_ & ev & Hev & Hcb & Harg).
  cbn [thread_steps thread_step answer_of fired_of]. rewrite Hat, Hqfd. cbn [mbind res_bind].
  rewrite (run_read dns_hook vgrow dns_msg (t_qfd t) m wk1 ev deal_task_message_cb Hm Hev Hcb),
    Harg.
  unfold worker_cb, deal_task_message. cbn [wk1 wk_queue wk_net recv send queue]. rewrite Eq.
  rewrite deal_tasks_app.
  pose proof (new_conns_ok K dns_hook (dns_ui r) dns_cfg lim (t_qfd t) dns_hooked (A ∖ M)
    (dns_start_ok r) vgrow W M1 w1 I1 Hnd Hopen) as Hn.
  apply safe_Ret in Hn as (w2 & -> & M2 & I2 & Ho & Hv). cbn [mbind res_bind deal_tasks].
  rewrite (thread_at_put i [] _ s1 t (send (NEW_TASK push_change_task_f None) q)).
  2: { exact Ht. }
  2: { cbn [s1 th_pool send_task _queues]. rewrite list_lookup_fmap. cbn in Hq. by rewrite Hq. }
  cbn [mbind res_bind].
  pose proof (nv_mine _ _ _ _ _ _ _ I2) as IM2.
  assert (Hl : is_Some (M2 !! fd)).
  { apply view_of_is_Some. rewrite Hv. apply lookup_union_is_Some. left. by rewrite <- Ec. }
  destruct Hl as [l Hl]. destruct (mv_watch _ _ _ IM2 fd l Hl) as (ev2 & Hev2 & _).
  rewrite (task_faults _ ev2 fd md changes (d_sub (nt_user (th_net s)))); try done.
  - cbn. by rewrite (mv_tasks _ _ _ IM2).
  - cbn. rewrite (mv_tasks _ _ _ IM2). cbn [length]. specialize (Hgrow (vcap (ready_tasks
      (nt_loop w2)))). case_decide; lia.
  - by destruct (mv_loop _ _ _ IM2).
  - cbn. by rewrite (opened_sub _ _ _ Ho).
Qed.
End Stops.

(** Callbacks without rounds between them *)
Lemma service_threads {P E F LOOP : Type} `{BufAlloc P} `{Epoll E} `{EventFd F} `{HO : HashOrder}
    `{Wire lbrss.GetRouteRequest, Wire lbrss.GetRouteResponse} vgrow lfd its
    (sv : Service P E F LOOP) :
  service_steps vgrow lfd (DThread <$> its) sv =
    (s ← thread_steps dns_msg dns_hook vgrow dns_task lfd its (sv_threads sv);
     Ret (mkService s (sv_checker sv))).
Proof.
  revert sv. induction its as [|it its IH]; intros sv; cbn [fmap list_fmap service_steps
    thread_steps]; [by destruct sv|].
  cbn [service_step]. destruct (thread_step _ _ _ _ _ _ _) as [s|f]; cbn [mbind res_bind]; [|done].
  by rewrite IH.
Qed.

(** A round that finds a new version publishes what has changed, whether or not
    it can load the table. *)
Lemma new_version_published wait_time d b v vs :
  rd_version d = Rows (v :: vs) -> v <> version_ (route b) ->
  published (check_round wait_time d b) = published b ++ [load_changes (rd_changes d) ∅].
Proof.
  intros Hd Hv. unfold check_round, load_version. rewrite Hd, (proj2 (Z.eqb_neq _ _) Hv).
  cbn [Z.eqb Pos.eqb published]. unfold reload.
  by destruct (load_route_data _ _) as [ret r1], (ret =? 0).
Qed.

Section Service.
Context {P E F LOOP : Type} `{LP : BufAllocLaws P} `{LE : EpollLaws E} `{EventFd F} `{PL : PbLaws}.
Context `{HO : HashOrder}.
Context (K : kernel_accepts (E := E)) (vgrow : nat -> nat) (Hgrow : forall n, (n < vgrow n)%nat).
Local Abbreviation threads_inv r lim lfd busy := (threads_inv (dns_ui r) dns_cfg lim lfd busy).
Local Abbreviation Service := (Service P E F LOOP).

(** The round, and the turn of the worker that has the client. *)
Lemma round_stops r lim lfd busy (T : Serve Dns) (sv : Service) md fd :
  threads_inv r lim lfd busy T (sv_threads sv) -> is_Some (sv_checker sv) ->
  booked md fd (d_sub (nt_user (th_net (sv_threads sv)))) ->
  exists i, forall d v vs, rd_version d = Rows (v :: vs) -> v <> version_ r ->
    md ∈ load_changes (rd_changes d) ∅ ->
    service_steps vgrow lfd [DCheck d; DThread (SEvent i (ENew EPOLLIN)); DThread (STasks i)] sv =
      Fault IterInvalid.
Proof.
  intros HsT [[wait_time b] Hc] Hb.
  destruct (threads_booked _ _ _ _ _ _ _ _ HsT Hb) as [x Hx]. pose proof HsT as [A I].
  apply (all_conns_Some _ _ _ _ _ (ti_spec _ _ _ _ _ _ _ _ I)) in Hx as (i & C & W & Hi & HC).
  exists i. intros d v vs Hd Hv Hmd. cbn [service_steps service_step]. rewrite Hc.
  pose proof (threads_inv_user _ _ _ _ _ _ _ HsT) as (Hcfg & Hp & Hbk & Hr).
  unfold round_step. set (u := nt_user _) in *. set (b0 := mkBackend _ _ _ _).
  rewrite (new_version_published wait_time d b0 v vs Hd) by (cbn; by rewrite (proj2 Hr)).
  cbn [published b0]. rewrite drop_app_length. set (b1 := check_round _ _ _).
  set (u1 := mkDns (route b1) _ _).
  pose proof (threads_inv_set_user _ (dns_ui (route b1)) _ _ _ _ T _ u1 HsT) as Hs1.
  destruct (publication_stops K vgrow Hgrow (route b1) lim lfd busy _ _ i C W fd md
    (load_changes (rd_changes d) ∅) EPOLLIN (Hs1 ltac:(by split_and!)) Hi) as (s1 & E1 & E2);
    [by eexists|done..|].
  cbn [publish_all]. rewrite E1. cbn [mbind res_bind].
  pose proof (service_threads vgrow lfd [SEvent i (ENew EPOLLIN); STasks i]
    (mkService s1 (Some (wait_time, b1)))) as Es. cbn [sv_threads] in Es.
  rewrite E2 in Es. exact Es.
Qed.

(** C38. One change of the table stops the dns service.  Take the service from
    its [main] on, under the conditions of [dns_service_runs], after any such run
    in which a client that neither leaves nor breaks off has asked for the pair
    [md].  When a round of the checking thread then finds a new version, and [md]
    among the changes, whatever it loads, the worker that has the client takes
    the task out of its queue, and at the end of that turn [push_change_task]
    goes on with the iterator of the entry that it has erased. *)
Theorem publication_stops_service file ok map (fs : list F) (e : E) sockfd now va da (p : P) r hm
    max (evfd_num : F -> Z) es its fd ms rest md :
  setPath file None = Ret (ok, Some map) -> Route_new va da = Ret r -> hosts_fit hm r ->
  i32 (GetNumber (lit "reactor") (lit "maxConn") 1024 map) = max -> 0 <= max < 2 ^ 30 ->
  i32 (GetNumber (lit "reactor") (lit "threadNum") 4 map) = Z.of_nat (length fs) -> fs <> [] ->
  ba_view p ∅ -> length es = length fs -> Forall (fun e => interest e = ∅) es ->
  dns_items_fit (P := P) r da hm max (list_to_set (evfd_num <$> fs)) (length fs) its ->
  Forall (th_quiet fd) (thread_items its) ->
  parse (th_stream fd (thread_items its)) = (ms, More rest) ->
  Forall (fun f => f_data f <> []) ms -> md ∈ requested ms ->
  let steps := service_steps vgrow sockfd in
  exists tp w checker,
    dns_main (LOOP := LOOP) file (Some e) (mkSys (Some sockfd) true true) (Some <$> fs) 0 now true
      va da p = Ret (server_addr 7778 map, PoolSet tp, w, checker) /\
    exits_or (steps its (dns_threads evfd_num es tp w checker)) (fun sv =>
      exists i, forall d v vs, rd_version d = Rows (v :: vs) -> v <> version_ r ->
        md ∈ load_changes (rd_changes d) ∅ ->
        steps [DCheck d; DThread (SEvent i (ENew EPOLLIN)); DThread (STasks i)] sv =
          Fault IterInvalid).
Proof.
  intros Hc Hr Hfit Hm Hmax Ht Hne Hv Hlen He Hf Hq Hp Hnem Hreq steps.
  destruct (dns_starts (LOOP := LOOP) K file ok map fs e sockfd now va da p r max evfd_num es)
    as (tp & w & Hmain & Hs & Hc0 & _); try done. eexists tp, w, _. split; [exact Hmain|].
  eapply exits_or_mono.
  { apply (service_steps_ok K vgrow r da (Route_new_loaded _ _ _ Hr) hm Hfit (max + 3) sockfd _ its
      _ (dns_threads evfd_num es tp w _) Hs); [by eexists|exact Hf]. }
  intros sv (Ec & T & cs & sn & [_ Hask] & HsT & _).
  apply (round_stops r (max + 3) sockfd _ T sv md fd HsT).
  - unfold checker_did in Ec. destruct (sv_checker sv) as [[wait_time b]|]; [by eexists|done].
  - by apply (asked_booked r (max + 3) sockfd _ _ T _ (thread_items its) fd ms rest md HsT Hask
      eq_refl (Hc0 fd)).
Qed.
End Service.

(** ** Witness: the client of [dns_service_runs] *)

Import TableKernel CounterFd Varint FixedOrder.

(** In a later round the pair has another host. *)
Definition change_round : round :=
  mkRound 300 (Rows [2]) (Rows [mkRow 1 2 16777343 8082]) (Rows [(1, 2)]).

Lemma publication_stops_service_witness :
  exists tp w checker,
    dns_main (P := BufPool) (E := gmap Z Z) (LOOP := unit) (Some dns_conf) (Some ∅)
      (mkSys (Some 3) true true) (Some <$> run_fds) 0 100 true (Rows [1]) (Rows svc_rows)
      init_pool = Ret (server_addr 7778 (conf_map dns_conf), PoolSet tp, w, checker) /\
    exits_or (service_steps S 3 run_items (dns_threads Z.of_N (replicate 5 ∅) tp w checker))
      (fun sv => exists i,
      service_steps S 3
        [DCheck change_round; DThread (SEvent i (ENew EPOLLIN)); DThread (STasks i)] sv =
        Fault IterInvalid).
Proof.
  destruct (publication_stops_service (LOOP := unit) table_accepts S Nat.lt_succ_diag_r
    (Some dns_conf) true (conf_map dns_conf) run_fds ∅ 3 100 (Rows [1]) (Rows svc_rows) init_pool
    svc_route 2 1024 Z.of_N (replicate 5 ∅) run_items 12 [svc_request] [] (pack64 1 2)
    (conf_loads _ dns_conf_good) eq_refl svc_hosts (proj1 dns_conf_numbers) ltac:(lia)
    (proj2 dns_conf_numbers) ltac:(done) (BufPool_new_view _ init_pool_eq) eq_refl
    (Forall_replicate _ _ _ eq_refl) run_fits) as (tp & w & checker & E1 & Hr).
  - repeat constructor.
  - vm_compute. reflexivity.
  - by repeat constructor.
  - vm_compute. by left.
  - exists tp, w, checker. split; [exact E1|]. eapply exits_or_mono; [exact Hr|].
    intros sv (i & Hi). exists i. apply (Hi change_round 2 []); [done|done|].
    change (pack64 1 2 ∈ ({[pack64 1 2]} ∪ ∅ : gset Z)). by apply elem_of_union_l,
      elem_of_singleton.
Defined.
