(* ===== verification/ReporterService.v ===== *)
(** * ReporterService: the whole reporter (reporter/src/reporter_service.cpp,
    reporter/src/store_thread.cpp)

    The server of [ServerThreads] with the handler of [ReportTrip], and the
    store threads beside it, in any interleaving: what the store threads have
    run and what still waits in their queues are the statements of the reports
    that the clients have sent ([reporter_service_runs]).  There a callback is
    one step.  The reporter's workers share its pool without a mutex, though,
    and in finer steps [get_thread] can leave its array ([store_pool_race]). *)

From S2P Require Import Prelude CInt.
From S2P Require Import IOBuf BufAlloc BufPool ReactorBuf Message EventLoop ThreadQueue.
From S2P Require Import NetState Framing TcpConn TcpConnInv TcpConnSpec TcpServer ServerLoop.
From S2P Require Import ServerThreads.
From S2P Require Import ConfigFile Protobuf.
From S2P Require Import Varint.
From S2P Require Import LbrssPb.
From S2P Require Import Proto LbrssPbSpec.
From S2P Require Import Reporter ReportTrip Setup.
From stdpp Require Import strings.
From Stdlib Require Import Strings.Byte Strings.Ascii.
Import Pb PbWire.
Local Open Scope Z_scope.

(** ** Schedules *)

(** A step of the server; or of a store thread, which is woken by its queue. *)
Inductive rep_item : Type :=
  | RServer (it : th_item)
  | RStore (i : nat).

(** The steps of the server. *)
Definition server_items (its : list rep_item) : list th_item :=
  omap (fun it => match it with RServer it => Some it | RStore _ => None end) its.

(** The connection [fd] sends something in a step. *)
Definition sender (fd : Z) (it : th_item) : Prop :=
  match it with SEvent _ (EData fd' _ _ _) => fd' = fd | _ => False end.

Lemma tstep_senders {V U} cfg eff (hooked : V -> Z -> U -> U -> Prop) max T it T' cs sn :
  tstep cfg eff hooked max T it T' cs sn -> Forall (fun x => sender x.1 it) cs.
Proof.
  assert (Hp : forall (fd : Z) (fs : list frame), Forall (fun x => fd = x.1) (pair fd <$> fs)).
  { intros fd fs. by apply Forall_fmap, Forall_true. }
  intros Hst. destruct Hst as [ws u n i e C W C' W' u' cs sn Hi Hst| |]; [|constructor..].
  by destruct Hst; try constructor; apply Hp.
Qed.

(** A trace is what it has of each of its descriptors. *)
Lemma of_fd_all {A} (tr : list (Z * A)) fds :
  NoDup fds -> Forall (fun x => x.1 ∈ fds) tr ->
  tr.*2 ≡ₚ mjoin ((fun fd => of_fd fd tr) <$> fds).
Proof.
  intros Hnd. induction 1 as [|[fd a] tr Hfd _ IH]; cbn.
  { clear. induction fds as [|fd fds IH]; [done|]. exact IH. }
  cbn [fst] in Hfd. apply list_elem_of_split in Hfd as (l1 & l2 & ->). rewrite IH.
  apply NoDup_app in Hnd as (_ & Hd & [Hni _]%NoDup_cons).
  assert (Hl : forall l : list Z, fd ∉ l ->
    (fun fd' => of_fd fd' ((fd, a) :: tr)) <$> l = (fun fd' => of_fd fd' tr) <$> l).
  { intros l Hn. apply list_fmap_ext. intros i fd' Hi%list_elem_of_lookup_2.
    unfold of_fd. cbn. rewrite decide_False; [done|]. by intros ->. }
  rewrite !fmap_app, !join_app. cbn. rewrite !Hl; [|done|].
  2: { intros Hin. apply (Hd fd Hin). by left. }
  unfold of_fd at 5. cbn. rewrite decide_True by done. cbn. by rewrite <- Permutation_middle.
Qed.

Section Service.
Context {P E F LOOP : Type} `{LP : BufAllocLaws P} `{LE : EpollLaws E} `{EventFd F}.
Context `{Wire lbrss.ReportStatusRequest}.
Local Abbreviation Pool := (ThreadPool lbrss.ReportStatusRequest F LOOP).
Local Abbreviation Threads := (Threads P E rep_v (option Pool) F LOOP).
Local Abbreviation Worker := (Worker P E rep_v (option Pool) F LOOP).

(** Store thread [i] is in [thread_report]. *)
Definition store_step (i : nat) (tp : Pool) : res (list str * Pool) :=
  match _queues tp !! i with
  | None => Fault Blocked
  | Some q =>
      let '(stmts, q) := thread_report q in
      Ret (stmts, mkThreadPool (<[i := q]> (_queues tp)) (_thread_cnt tp) (_index tp))
  end.

Variable vgrow : nat -> nat.
Variable run_task : rep_v * option rep_v -> Worker -> res Worker.
Variable lfd : Z.

(** The state of the process, and the statements that were run. *)
Definition rep_step (it : rep_item) (s : Threads) (stmts : list str) : res (Threads * list str) :=
  match it with
  | RServer it => s ← thread_step rep_msg rep_hook vgrow run_task lfd it s; Ret (s, stmts)
  | RStore i =>
      match nt_user (th_net s) with
      | None => Fault NullDeref
      | Some tp => '(out, tp) ← store_step i tp; Ret (set_thuser (Some tp) s, stmts ++ out)
      end
  end.

Fixpoint rep_steps (its : list rep_item) (s : Threads) (stmts : list str)
    : res (Threads * list str) :=
  match its with
  | [] => Ret (s, stmts)
  | it :: its => '(s, stmts) ← rep_step it s stmts; rep_steps its s stmts
  end.

(** *** What is owed *)

(** The reports among the messages that were handled. *)
Definition report_of (f : frame) : option lbrss.ReportStatusRequest :=
  if decide (f_id f = ID_ReportStatusRequest) then Some (ParseFromArray (f_data f)) else None.
Definition reports_of (fs : list frame) : list lbrss.ReportStatusRequest := omap report_of fs.

#[global] Instance reports_of_perm : Proper ((≡ₚ) ==> (≡ₚ)) reports_of.
Proof. intros fs fs' Hfs. unfold reports_of. by rewrite Hfs. Qed.

(** The reports that wait for a store thread. *)
Definition waiting (tp : Pool) : list lbrss.ReportStatusRequest := mjoin (queue <$> _queues tp).

Lemma served_dealt fd fs : forall (tp : Pool) u' out,
  served rep_eff rep_router fd fs (Some tp) u' out -> pool_ok tp ->
  exists tp', u' = Some tp' /\ pool_ok tp' /\ _thread_cnt tp' = _thread_cnt tp /\
    waiting tp' ≡ₚ waiting tp ++ reports_of fs.
Proof.
  induction fs as [|f fs IH]; intros tp u' out Hs Hok; inversion Hs as [|? ? ? u1 ? o1 o2 Hf Hr];
    subst.
  { exists tp. by rewrite app_nil_r. }
  assert (Hone : exists tp1, u1 = Some tp1 /\ pool_ok tp1 /\ _thread_cnt tp1 = _thread_cnt tp /\
    waiting tp1 ≡ₚ waiting tp ++ reports_of [f]).
  { unfold reports_of, report_of. cbn [omap list_omap]. unfold serve, rep_router in Hf.
    rewrite call_register in Hf. case_decide as Hid.
    - destruct Hf as [Hg _]. assert (Hgs : get_reports [f_data f] (Some tp) = Ret u1)
        by (cbn [get_reports]; by rewrite Hg).
      apply get_reports_deal in Hgs as (tp1 & -> & Hd).
      destruct (deal_ok [ParseFromArray (f_data f)] tp Hok) as (tp2 & Hd' & ? & ? & ?).
      cbn [fmap list_fmap] in Hd. rewrite Hd in Hd'. injection Hd' as ->. exists tp2. by rewrite
        decide_True by done.
    - destruct Hf as [-> _]. exists tp. by rewrite decide_False, app_nil_r by by apply not_eq_sym. }
  destruct Hone as (tp1 & -> & Hok1 & Ec1 & Hp1). destruct (IH tp1 u' o2 Hr Hok1)
    as (tp' & -> & Hok' & Ec & Hp). exists tp'. split_and!; [done|done|congruence|].
  unfold reports_of. rewrite Hp, Hp1, <- app_assoc. f_equiv.
  change (f :: fs) with ([f] ++ fs). by rewrite (omap_app _ [f] fs).
Qed.

(** A store thread runs the statements of its queue, whole. *)
Lemma store_step_ok i (tp : Pool) :
  pool_ok tp -> Z.of_nat i < _thread_cnt tp ->
  exists stmts tp', store_step i tp = Ret (stmts, tp') /\ pool_ok tp' /\
    _thread_cnt tp' = _thread_cnt tp /\
    stmts ++ mjoin (store <$> waiting tp') ≡ₚ mjoin (store <$> waiting tp).
Proof.
  intros [Hc Hi] Hlt. unfold store_step.
  destruct (lookup_lt_is_Some_2 (_queues tp) i) as [q Hq]; [lia|]. rewrite Hq. cbn.
  eexists _, _. split; [done|]. split; [split; cbn; by rewrite ?length_insert|]. split; [done|].
  unfold waiting. cbn [_queues].
  destruct (list_elem_of_split_length _ _ _ Hq) as (l1 & l2 & E1 & ->). rewrite E1.
  rewrite insert_app_r_alt, Nat.sub_diag by done. cbn.
  rewrite !fmap_app, !join_app. cbn. rewrite !fmap_app, !join_app. cbn.
  rewrite (app_assoc _ _ (mjoin (store <$> _))), Permutation_app_comm.
  solve_Permutation.
Qed.

(** What a step of the server makes of the queues: the reports that it hands to
    the router are dealt to them. *)
Lemma opened_none fds (u u' : option Pool) : all_opened rep_cfg rep_hooked fds u u' -> u' = u.
Proof. revert u. induction fds as [|fd fds IH]; intros u; cbn; [done|]. by intros
  (u1 & -> & ?%IH). Qed.

Lemma sstep_dealt S e S' cs sn (tp : Pool) :
  sstep rep_cfg rep_eff rep_hooked S e S' cs sn -> s_user S = Some tp -> pool_ok tp ->
  exists tp', s_user S' = Some tp' /\ pool_ok tp' /\ _thread_cnt tp' = _thread_cnt tp /\
    waiting tp' ≡ₚ waiting tp ++ reports_of cs.*2.
Proof.
  assert (Hsame : forall u', u' = Some tp -> pool_ok tp -> exists tp', u' = Some tp' /\ pool_ok
    tp' /\
    _thread_cnt tp' = _thread_cnt tp /\ waiting tp' ≡ₚ waiting tp ++ reports_of []).
  { intros u' -> Hok. exists tp. by rewrite app_nil_r. }
  intros Hst Hu Hok. destruct Hst as [C W u u' m Ho|C W u u' fd m data rs i o fs r out Hc Hp Hsv
    |C W u u1 u' fd m data rs i o fs out Hc Hp Hsv Hcl|C W u u' fd m ioctl rs Hcl
    |C W u fd m ws i o r n Hc Hd Hr|C W u u' fd m ws i o n Hc Hd Hcl]; cbn [s_user] in *; subst u;
    rewrite ?snd_pair; try by apply Hsame.
  - apply Hsame; [by apply opened_none in Ho|done].
  - by apply (served_dealt fd fs tp u' out).
  - unfold closed in Hcl. cbn in Hcl. subst u'. by apply (served_dealt fd fs tp u1 out).
Qed.

Lemma tstep_dealt max T it T' cs sn (tp : Pool) :
  tstep rep_cfg rep_eff rep_hooked max T it T' cs sn -> ts_user T = Some tp -> pool_ok tp ->
  exists tp', ts_user T' = Some tp' /\ pool_ok tp' /\ _thread_cnt tp' = _thread_cnt tp /\
    waiting tp' ≡ₚ waiting tp ++ reports_of cs.*2.
Proof.
  intros Hst Hu Hok. destruct Hst as [ws u n i e C W C' W' u' cs sn Hi Hst|T i|T m answers].
  - by apply (sstep_dealt _ _ _ _ _ tp Hst).
  - exists tp. by rewrite app_nil_r.
  - exists tp. rewrite app_nil_r. by rewrite let_all_in_user.
Qed.

(** *** Runs *)

Context (K : kernel_accepts (E := E)) (lim : Z) (busy : gset Z).
Local Abbreviation threads_inv := (threads_inv rep_ui rep_cfg lim lfd busy).
Local Abbreviation tstep := (tstep rep_cfg rep_eff rep_hooked (lim - 3)).

(** What the kernel may report; there are [n] store threads. *)
Fixpoint rep_fits (n : Z) (its : list rep_item) (T : Serve (option Pool)) : Prop :=
  match its with
  | [] => True
  | RServer it :: its => item_fits (lim - 3) 0 (ba_max (P := P)) lim busy T it /\
      forall T' cs sn, tstep T it T' cs sn -> rep_fits n its T'
  | RStore i :: its => Z.of_nat i < n /\
      forall u, rep_fits n its (mkServe (ts_workers T) u (ts_next T))
  end.

(** What items make of the process: the messages [cs] were handled, each
    connection by itself, and their reports are waiting or were stored. *)
Record went (n : Z) (its : list rep_item) (T T' : Serve (option Pool)) (s s' : Threads)
    (stmts stmts' : list str) : Prop := {
  we_inv : threads_inv T' s';
  we_out : exists cs sn tp tp', th_calls s' = th_calls s ++ cs /\ th_sent s' = th_sent s ++ sn /\
    nt_user (th_net s) = Some tp /\ nt_user (th_net s') = Some tp' /\ _thread_cnt tp' = n /\
    Forall (fun x => Exists (sender x.1) (server_items its)) cs /\
    stmts' ++ mjoin (store <$> waiting tp') ≡ₚ
      (stmts ++ mjoin (store <$> waiting tp)) ++ mjoin (store <$> reports_of cs.*2) /\
    forall fd, Forall (th_quiet fd) (server_items its) ->
      alone rep_cfg (rep_eff (F := F) (LOOP := LOOP)) fd (th_stream fd (server_items its))
        (conn_all fd T) (conn_all fd T')
        cs sn
}.

Lemma went_trans n its1 its2 T T1 T2 (s s1 s2 : Threads) st st1 st2 :
  went n its1 T T1 s s1 st st1 -> went n its2 T1 T2 s1 s2 st1 st2 ->
  went n (its1 ++ its2) T T2 s s2 st st2.
Proof.
  intros [_ (cs1 & sn1 & tp & tp1 & Ec1 & Es1 & Hu & Hu1 & _ & Hf1 & Hp1 & Ha1)]
    [I2 (cs2 & sn2 & tp1' & tp2 & Ec2 & Es2 & Hu1' & Hu2 & Hn & Hf2 & Hp2 & Ha2)].
  split; [done|]. rewrite Hu1 in Hu1'. injection Hu1' as <-.
  exists (cs1 ++ cs2), (sn1 ++ sn2), tp, tp2. rewrite Ec2, Ec1, Es2, Es1, !app_assoc.
  do 5 (split; [done|]). split; [|split].
  - unfold server_items in *. rewrite omap_app. apply Forall_app. split;
      (eapply Forall_impl; [eassumption|]); intros x Hx; apply Exists_app; [by left|by right].
  - rewrite Hp2, Hp1. unfold reports_of. by rewrite fmap_app, omap_app, fmap_app, join_app,
      app_assoc.
  - intros fd Hq. unfold server_items in *. rewrite omap_app in Hq |- *.
    apply Forall_app in Hq as [Hq1 Hq2]. unfold th_stream. rewrite fmap_app, join_app.
    apply (alone_app _ _ _ _ _ _ (conn_all fd T1)); [by apply Ha1|by apply Ha2].
Qed.

Lemma rep_step_ok n it its T s stmts tp :
  threads_inv T s -> rep_fits n (it :: its) T -> nt_user (th_net s) = Some tp ->
  _thread_cnt tp = n ->
  exits_or (rep_step it s stmts) (fun r => exists T',
    rep_fits n its T' /\ went n [it] T T' s r.1 stmts r.2).
Proof.
  intros Hs Hf Hu Hn.
  destruct (threads_inv_user _ _ _ _ _ _ _ Hs) as (_ & tp0 & Hu0 & Hok).
  rewrite Hu in Hu0. injection Hu0 as <-. destruct it as [it|i]; destruct Hf as [Hit Hf]; cbn.
  - eapply exits_or_bind; [by apply (step_ok K rep_hook rep_ui rep_cfg lim lfd busy rep_hooked
      rep_start_ok vgrow rep_msg run_task 0 rep_eff rep_hook_ok rep_msg_ok T s it)|].
    intros s1 (T1 & cs & sn & Hst & Hs1 & Ec & Es). cbn. exists T1. split; [by eapply Hf|].
    split; [done|]. destruct Hs as [A I]. pose proof Hs1 as [A1 I1].
    destruct (tstep_dealt _ _ _ _ _ _ tp Hst) as (tp1 & Hu1 & Hok1 & Hn1 & Hp);
      [by rewrite (ti_user _ _ _ _ _ _ _ _ I)|done|].
    exists cs, sn, tp, tp1. do 3 (split; [done|]).
    split; [by rewrite <- (ti_user _ _ _ _ _ _ _ _ I1)|]. split; [congruence|].
    split; [eapply Forall_impl; [by eapply tstep_senders|]; intros x Hx; by left|].
    split; [by rewrite Hp, fmap_app, join_app, app_assoc|].
    intros fd [Hq _]%Forall_cons. unfold th_stream. cbn. rewrite app_nil_r.
    apply (tstep_alone _ _ _ lim (lim - 3) busy _ _ _ _ _ _ Hst); [by apply I|by apply I1|done].
  - rewrite Hu. destruct (store_step_ok i tp Hok) as (out & tp1 & -> & Hok1 & Hn1 & Hp); [lia|].
    cbn. exists (mkServe (ts_workers T) (Some tp1) (ts_next T)). split; [by apply Hf|]. split.
    + apply (threads_inv_set_user rep_ui); [done|]. split; [done|]. by exists tp1.
    + exists [], [], tp, tp1. rewrite !app_nil_r. do 4 (split; [done|]). split; [congruence|].
      split; [constructor|].
      split; [by rewrite <- app_assoc, Hp|]. intros fd _. apply alone_nil.
Qed.

Lemma rep_steps_ok n its : forall T s stmts tp,
  threads_inv T s -> rep_fits n its T -> nt_user (th_net s) = Some tp -> _thread_cnt tp = n ->
  exits_or (rep_steps its s stmts) (fun r => exists T', went n its T T' s r.1 stmts r.2).
Proof.
  induction its as [|it its IH]; intros T s stmts tp Hs Hf Hu Hn; cbn [rep_steps].
  { exists T. split; [done|]. exists [], [], tp, tp. rewrite !app_nil_r. do 7 (split; [done|]).
    intros fd _. apply alone_nil. }
  eapply exits_or_bind; [by apply (rep_step_ok n it its T s stmts tp)|].
  intros [s1 st1] (T1 & Hf1 & Hw1). pose proof Hw1 as
    [Hs1 (? & ? & ? & tp1 & _ & _ & _ & Hu1 & Hn1 & _)].
  eapply exits_or_mono; [by apply (IH T1 s1 st1 tp1)|]. intros [s2 st2] (T2 & Hw2). exists T2.
  by apply (went_trans n [it] its T T1 T2 s s1 s2 stmts st1 st2).
Qed.
End Service.

(** ** The store threads start *)

Section StoreMain.
Context {E F LOOP : Type} `{Epoll E} `{EventFd F}.

(** The callback of a store thread's queue, with the queue and the database. *)
Inductive store_cb : Type := thread_report_f.
Inductive store_arg : Type := callback_args.

(** [store_main(queue)] up to its loop: the database connection, and a loop
    that watches the queue. *)
Definition store_main (evfd_num : F -> Z) (ep : option E) (connected : bool) (map : STR_MAP)
    (q : ThreadQueue lbrss.ReportStatusRequest F LOOP)
    : res (DbConn * EventLoop store_cb store_arg unit E) :=
  L ← EventLoop_open ep;
  sr ← StoreReport_new connected map;
  Ret (sr, add_io_event (evfd_num (evfd q)) thread_report_f EPOLLIN (Some callback_args) L).

(** A queue that has something wakes its thread for [thread_report]. *)
Lemma store_main_watches evfd_num e map q :
  exists sr L ev, store_main evfd_num (Some e) true map q = Ret (sr, L) /\
    sr = db_settings (lit "123456") map /\ io_evs L !! evfd_num (evfd q) = Some ev /\
    read_callback ev = Some thread_report_f.
Proof. eexists _, _, _. do 2 (split; [done|]). split; [by apply add_io_event_in|done]. Qed.
End StoreMain.

(** ** The reporter starts *)

Section Start.
Context {P E F LOOP : Type} `{LP : BufAllocLaws P} `{LE : EpollLaws E} `{EventFd F}.
Context `{Wire lbrss.ReportStatusRequest}.
Local Abbreviation Pool := (ThreadPool lbrss.ReportStatusRequest F LOOP).
Local Abbreviation Worker := (Worker P E rep_v (option Pool) F LOOP).

(** What [main] leaves: its server, and the store threads with empty queues. *)
Definition rep_pool_new (fs : list F) : Pool :=
  mkThreadPool (ThreadQueue_new <$> fs) (Z.of_nat (length fs)) 0.
Definition rep_net (p : P) (e : E) (sockfd max : Z) (fs : list F)
    : Net P E rep_v (option Pool) :=
  mkNet p (add_io_event sockfd accept_callback EPOLLIN (Some arg_server) (EventLoop_new e)) ∅ 0
    (mkServer ∅ max 0 None None rep_router) ∅ (Some (rep_pool_new fs)).

Lemma waiting_new fs : waiting (rep_pool_new fs) = [].
Proof. unfold waiting, rep_pool_new. cbn. by induction fs. Qed.

Lemma reporter_main_ok file ok map (fs fs2 : list F) (e : E) sockfd (p : P) max :
  setPath file None = Ret (ok, Some map) ->
  i32 (GetNumber (lit "reactor") (lit "maxConn") 1024 map) = max -> -3 <= max ->
  i32 (GetNumber (lit "reactor") (lit "threadNum") 4 map) = Z.of_nat (length fs) -> fs <> [] ->
  i32 (GetNumber (lit "reporter") (lit "db_thread_cnt") 3 map) = Z.of_nat (length fs2) ->
  fs2 <> [] ->
  reporter_main (LOOP := LOOP) file (Some e) (mkSys (Some sockfd) true true) (Some <$> fs)
      (Some <$> fs2) p =
    Ret (server_addr 7779 map,
         PoolSet (mkThreadPool (ThreadQueue_new <$> fs) (Z.of_nat (length fs)) 0),
         rep_net p e sockfd max fs2).
Proof.
  intros Hc Hm Hm3 Ht Hne Ht2 Hne2. unfold reporter_main. cbn [EventLoop_open mbind res_bind].
  rewrite Hc. cbn [mbind res_bind instance]. unfold server_start, TCPServer_new.
  cbn [sys_sock sys_bind sys_listen check mbind res_bind].
  rewrite Hm, Ht, Ht2, (proj2 (Z.leb_le 0 _)) by lia. cbn [check mbind res_bind].
  rewrite !(proj2 (Z.ltb_lt 0 _)) by (destruct fs, fs2; try done; cbn; lia).
  unfold StoreThreadPool_new. by rewrite !ThreadPool_new_runs.
Qed.

Context (K : kernel_accepts (E := E)) (vgrow : nat -> nat).
Context (run_task : rep_v * option rep_v -> Worker -> res Worker).

(** C6. The whole reporter, from [main] on. From any configuration file that
    loads, and when the system answers: [main] binds the configured address and
    starts the configured numbers of workers and store threads. Then let the
    accepting thread, the workers and the store threads interleave, callback by
    callback, in any way that keeps these conditions ([rep_fits]): a descriptor
    that is accepted is not in use and, unless it is refused, below [maxConn] +
    3 (with a larger one the connection table is overrun; the code does not
    look, and about [maxConn] clients can reach it); events are on what is
    watched; the unprocessed input of a connection fits into the pool's largest
    buffer (8 MB), and no input ends with an empty message (C32); calls of the
    store threads' pool follow one another (two at the same time can fail, C34).
    In every such run the reporter does not fail, except that it exits when the
    pool's memory is used up or [accept] fails with an error that it does not
    expect; and at any time the statements that the store threads have run, with
    those of the reports that still wait in their queues, are up to their order
    exactly those of the reports among the messages that were handled, each
    once. If the clients neither leave nor break off, and all their complete
    messages have bodies, these are the complete messages of their own streams.
    *)
Theorem reporter_service_runs file ok map (fs fs2 : list F) (e : E) sockfd (p : P) max
    (evfd_num : F -> Z) es its :
  setPath file None = Ret (ok, Some map) ->
  i32 (GetNumber (lit "reactor") (lit "maxConn") 1024 map) = max -> 0 <= max < 2 ^ 30 ->
  i32 (GetNumber (lit "reactor") (lit "threadNum") 4 map) = Z.of_nat (length fs) -> fs <> [] ->
  i32 (GetNumber (lit "reporter") (lit "db_thread_cnt") 3 map) = Z.of_nat (length fs2) ->
  fs2 <> [] -> ba_view p ∅ -> length es = length fs -> Forall (fun e => interest e = ∅) es ->
  rep_fits (P := P) (F := F) (LOOP := LOOP) (max + 3) (list_to_set (evfd_num <$> fs))
    (Z.of_nat (length fs2)) its (serve_start (length fs) (Some (rep_pool_new fs2))) ->
  exists tp w,
    reporter_main (LOOP := LOOP) file (Some e) (mkSys (Some sockfd) true true) (Some <$> fs)
      (Some <$> fs2) p = Ret (server_addr 7779 map, PoolSet tp, w) /\
    exits_or (rep_steps vgrow run_task sockfd its (start_threads evfd_num es tp w) [])
      (fun '(s', stmts) => exists sp, nt_user (th_net s') = Some sp /\
        stmts ++ mjoin (store <$> waiting sp) ≡ₚ mjoin (store <$> reports_of (th_calls s').*2) /\
        forall clients : list (Z * list frame), NoDup clients.*1 ->
          (forall fd, Exists (sender fd) (server_items its) -> fd ∈ clients.*1) ->
          Forall (fun '(fd, ms) => Forall (th_quiet fd) (server_items its) /\
            Forall (fun f => f_data f <> []) ms /\
            exists rest, parse (th_stream fd (server_items its)) = (ms, More rest)) clients ->
          stmts ++ mjoin (store <$> waiting sp) ≡ₚ
            mjoin (store <$> reports_of (mjoin clients.*2))).
Proof.
  intros Hc Hm Hmax Ht Hne Ht2 Hne2 Hv Hlen He Hf.
  eexists _, _. split; [by apply (reporter_main_ok file ok map fs fs2 e sockfd p max); try lia|].
  set (busy := list_to_set (evfd_num <$> fs)) in Hf. set (tp := mkThreadPool _ _ _).
  set (w := rep_net _ _ _ _ _).
  assert (Hpool : pool_ok (rep_pool_new fs2)).
  { by apply (ThreadPool_new_ok (Z.of_nat (length fs2)) (Some <$> fs2)), ThreadPool_new_runs. }
  assert (Hs : threads_inv rep_ui rep_cfg (max + 3) sockfd busy
    (serve_start (length fs) (Some (rep_pool_new fs2))) (start_threads evfd_num es tp w)).
  { pose proof (start_threads_ok K rep_ui rep_cfg (max + 3) sockfd busy evfd_num es tp w ∅)
      as Hst. cbn [tp _queues] in Hst. rewrite length_fmap in Hst. apply Hst; try done.
    - by apply (ThreadPool_new_ok (Z.of_nat (length fs)) (Some <$> fs)), ThreadPool_new_runs.
    - by apply Forall_fmap, Forall_true.
    - apply Forall_fmap, Forall_forall. intros f Hin. cbn.
      by apply elem_of_list_to_set, list_elem_of_fmap_2.
    - split; [done|]. by exists (rep_pool_new fs2).
    - eexists. split; [by apply add_io_event_in|done]. }
  eapply exits_or_mono; [by apply (rep_steps_ok vgrow run_task sockfd K (max + 3) busy _ its _ _ []
    (rep_pool_new fs2) Hs Hf)|].
  intros [s' stmts] (T & [_ (cs & sn & tp0 & sp & Ec & _ & Hu & Hu' & _ & Hsn & Hp & Ha)]).
  cbn in Hu. injection Hu as <-. cbn [fst snd app th_calls start_threads] in *. subst cs.
  rewrite waiting_new in Hp. exists sp. split; [done|]. split; [exact Hp|].
  intros clients Hnd Hall Hcl. rewrite Hp. cbn [app fmap list_fmap mjoin list_join].
  assert (Hms : (fun fd => of_fd fd (th_calls s')) <$> clients.*1 = clients.*2).
  { rewrite <- list_fmap_compose. apply list_fmap_ext. intros i [fd ms] Hi.
    rewrite Forall_lookup in Hcl. destruct (Hcl i _ Hi) as (Hq & Hn & rest & Hps).
    assert (Hc0 : conn_all fd (serve_start (length fs) (Some (rep_pool_new fs2))) = ([], []))
      by (unfold conn_all; by rewrite serve_start_conns).
    by apply (Ha fd Hq [] [] ms rest Hc0 parse_nil Hps Hn). }
  rewrite <- Hms, <- (of_fd_all (th_calls s') clients.*1 Hnd); [done|].
  eapply Forall_impl; [exact Hsn|]. intros x Hx. by apply Hall.
Qed.
End Start.

(** ** [get_thread] in finer steps *)

(** Where a call of [get_thread] is: it has read [index_], incremented it, read
    the queue, found the last index; or it returns. *)
Inductive gt_pc : Type :=
  | GCall
  | GRead (i : Z)
  | GNext (i : Z)
  | GTest (i : Z)
  | GLast (i : Z)
  | GDone (i : Z).

Section Race.
Context {T F LOOP : Type} `{EventFd F}.
Local Abbreviation Pool := (ThreadPool T F LOOP).
Implicit Types (tp : Pool).

Definition set_index (i : Z) tp : Pool := mkThreadPool (_queues tp) (_thread_cnt tp) i.

(** One access to the members of the pool. *)
Definition gt_step (pc : gt_pc) tp : res (gt_pc * Pool) :=
  match pc with
  | GCall => Ret (GRead (_index tp), tp)
  | GRead i => Ret (GNext i, set_index (i + 1) tp)
  | GNext i =>
      check OutOfBounds ((0 <=? i) && (i <? Z.of_nat (length (_queues tp))));;
      Ret (GTest i, tp)
  | GTest i => Ret (if _index tp =? _thread_cnt tp then GLast i else GDone i, tp)
  | GLast i => Ret (GDone i, set_index 0 tp)
  | GDone i => Fault Blocked
  end.

(** A call that is not interrupted, in at most [fuel] steps. *)
Fixpoint gt_call (fuel : nat) (pc : gt_pc) tp : res (Z * Pool) :=
  match pc, fuel with
  | GDone i, _ => Ret (i, tp)
  | _, O => Fault Blocked
  | _, S fuel => '(pc, tp) ← gt_step pc tp; gt_call fuel pc tp
  end.

(** The calls of several workers; [ws] says whose step is next. *)
Fixpoint gt_calls (ws : list nat) (pcs : list gt_pc) tp : res (list gt_pc * Pool) :=
  match ws with
  | [] => Ret (pcs, tp)
  | w :: ws =>
      match pcs !! w with
      | None => Fault Blocked
      | Some pc => '(pc, tp) ← gt_step pc tp; gt_calls ws (<[w := pc]> pcs) tp
      end
  end.

(** Alone, the steps are the function of [ThreadQueue]. *)
Lemma gt_call_alone tp : gt_call 5 GCall tp = get_thread tp.
Proof.
  unfold get_thread. cbn. destruct (_ && _); [|done]. cbn. by destruct (_ =? _).
Qed.

Lemma get_threads_last n : forall tp,
  pool_ok tp -> _index tp + Z.of_nat n = _thread_cnt tp - 1 ->
  exists js tp1, get_threads n tp = Ret (js, tp1) /\ pool_ok tp1 /\
    _index tp1 = _thread_cnt tp1 - 1.
Proof.
  induction n as [|n IH]; intros tp Hok Hi; cbn [get_threads].
  { exists [], tp. split_and!; [done|done|lia]. }
  destruct (get_thread_ok tp Hok) as (tp1 & -> & Hok1 & _ & Hc1 & Hi1). destruct Hok as [Hc Hx].
  rewrite Z.mod_small in Hi1 by lia.
  cbn [mbind res_bind].
  destruct (IH tp1 Hok1) as (js & tp2 & -> & Hok2 & Hi2); [lia|]. cbn. by eexists _, tp2.
Qed.

(** C34. Two workers of the reporter can stop it.  [get_thread] takes no mutex:
    whatever the number of store threads, after as many calls as bring the turn
    to the last of them, a call that comes between the increment and the test
    of another one reads behind the end of the array [queues_].  (One after the
    other, any number of calls succeed.) *)
Theorem store_pool_race tp :
  pool_ok tp ->
  exists n js tp1, get_threads n tp = Ret (js, tp1) /\ pool_ok tp1 /\
    gt_calls [0; 0; 1; 1; 1]%nat [GCall; GCall] tp1 = Fault OutOfBounds.
Proof.
  intros Hok. destruct (get_threads_last (Z.to_nat (_thread_cnt tp - 1 - _index tp)) tp Hok)
    as (js & tp1 & E1 & Hok1 & Hi); [destruct Hok; lia|].
  eexists _, js, tp1. split; [exact E1|]. split; [done|]. destruct Hok1 as [Hc _]. cbn.
  by rewrite (proj2 (Z.ltb_ge _ _)), andb_false_r by lia.
Qed.
End Race.

(** ** Witnesses *)

Import TableKernel CounterFd Varint ReporterExample.

Lemma store_pool_race_witness :
  exists n js tp1, get_threads n (rep_pool_new (LOOP := unit) [9%N; 10%N; 11%N]) = Ret (js, tp1) /\
    gt_calls [0; 0; 1; 1; 1]%nat [GCall; GCall] tp1 = Fault OutOfBounds.
Proof.
  destruct (store_pool_race (rep_pool_new (LOOP := unit) [9%N; 10%N; 11%N])) as
    (n & js & tp1 & E1 & _
    & Hr).
  - split; cbn; lia.
  - by exists n, js, tp1.
Defined.

(** reporter/conf/reporter.conf *)
Definition rep_conf : str := conf_text
  ["[reactor]"; "maxConn = 1024"; "threadNum = 5"; "ip = 127.0.0.1"; "port = 7779"; "";
   "[mysql]"; "db_host = 127.0.0.1"; "db_port = 3306"; "db_user = root"; "db_passwd = @Jiang123";
   "db_name = dns"; "db_timeout = 30"; "db_reconnect = true"; ""; "[repoter]";
   "db_thread_cnt = 3"]%string.

Lemma rep_conf_good : conf_good rep_conf = true.
Proof. vm_compute. reflexivity. Qed.

Lemma rep_conf_numbers :
  i32 (GetNumber (lit "reactor") (lit "maxConn") 1024 (conf_map rep_conf)) = 1024 /\
  i32 (GetNumber (lit "reactor") (lit "threadNum") 4 (conf_map rep_conf)) = 5 /\
  i32 (GetNumber (lit "reporter") (lit "db_thread_cnt") 3 (conf_map rep_conf)) = 3.
Proof. split_and!; vm_compute; reflexivity. Qed.

(** Two agents report, the message of one cut by a turn of a store thread. *)
Definition rep_frame : frame := mkFrame ID_ReportStatusRequest (SerializeToString req).
Definition rep_items : list rep_item :=
  [RServer (SAccept 1 [AccFd 12; AccErr EAGAIN]); RServer (SEvent 0 (ENew 1));
   RServer (SEvent 0 (EData 12 1 (take 5 (frame_bytes rep_frame)) [])); RStore 2;
   RServer (SEvent 0 (EData 12 1 (drop 5 (frame_bytes rep_frame)) [])); RStore 0].

Lemma rep_items_fit :
  rep_fits (P := BufPool) (F := N) (LOOP := unit) 1027 (list_to_set (Z.of_N <$> run_fds)) 3
    rep_items (serve_start 5 (Some (rep_pool_new [9%N; 10%N; 11%N]))).
Proof.
  change ba_max with m8M. cbn [rep_fits rep_items]. split.
  { split; [done|]. cbn [accept_fits]. split_and!; try lia; try set_solver. apply not_in_use.
    intros i C W [[= -> ->] _]%lookup_replicate. split; [done|apply not_elem_of_nil]. }
  intros T1 cs1 sn1 Hst1. inversion Hst1; subst. clear Hst1.
  set (T1 := let_all_in _ _ _). assert (H1 : ts_workers T1 !! 0%nat = Some (∅, [12])) by done.
  split; [by apply (fits_new _ _ _ _ _ _ _ ∅ [12])|]. intros T2 cs2 sn2 Hst2.
  pose proof (tstep_new _ _ _ _ _ _ _ _ _ _ _ H1 Hst2) as H2.
  split; [apply (fits_data _ _ _ _ _ _ _ _ _ _ _ H2); vm_compute; try split; done|].
  intros T3 cs3 sn3 Hst3.
  pose proof (tstep_part _ _ _ _ _ _ _ _ _ _ _ _ _ _ (take 5 (frame_bytes rep_frame)) Hst3 H2
    ltac:(vm_compute; reflexivity)) as H3.
  split; [lia|]. intros u.
  split; [apply (fits_data _ _ _ _ _ (mkServe _ u _) _ _ _ _ _ H3); vm_compute; try split; done|].
  intros T4 cs4 sn4 _. split; [lia|]. done.
Qed.

Definition rep_task (t : rep_v * option rep_v)
    (wk : Worker BufPool (gmap Z Z) rep_v (option (ThreadPool lbrss.ReportStatusRequest N unit)) N
      unit)
    : res (Worker BufPool (gmap Z Z) rep_v (option (ThreadPool lbrss.ReportStatusRequest N unit))
      N unit)
    := Ret wk.

(** The report is stored once, or waits. *)
Lemma reporter_service_runs_witness :
  exists tp w,
    reporter_main (P := BufPool) (F := N) (LOOP := unit) (Some rep_conf) (Some ∅)
      (mkSys (Some 3) true true) (Some <$> run_fds) (Some <$> [9%N; 10%N; 11%N]) init_pool =
      Ret (server_addr 7779 (conf_map rep_conf), PoolSet tp, w) /\
    exits_or (rep_steps S rep_task 3 rep_items (start_threads Z.of_N (replicate 5 ∅) tp w) [])
      (fun '(s', stmts) => exists sp, nt_user (th_net s') = Some sp /\
        stmts ++ mjoin (store <$> waiting sp) ≡ₚ store req).
Proof.
  destruct rep_conf_numbers as (Hn1 & Hn2 & Hn3).
  destruct (reporter_service_runs (LOOP := unit) table_accepts S rep_task (Some rep_conf) true
    (conf_map rep_conf) run_fds [9%N; 10%N; 11%N] ∅ 3 init_pool 1024 Z.of_N (replicate 5 ∅)
    rep_items (conf_loads _ rep_conf_good) Hn1 ltac:(lia) Hn2 ltac:(done) Hn3 ltac:(done)
    (BufPool_new_view _ init_pool_eq) eq_refl (Forall_replicate _ _ _ eq_refl) rep_items_fit)
    as (tp & w & E1 & Hr).
  exists tp, w. split; [exact E1|]. eapply exits_or_mono; [exact Hr|].
  intros [s' stmts] (sp & Hsp & _ & Hcl). exists sp. split; [done|].
  rewrite (Hcl [(12, [rep_frame])]).
  - vm_compute. reflexivity.
  - by apply NoDup_singleton.
  - intros fd Hfd. apply list_elem_of_singleton. unfold rep_items, server_items in Hfd.
    cbn [omap list_omap] in Hfd. rewrite !Exists_cons, Exists_nil in Hfd. cbn [sender] in Hfd.
    by intuition.
  - apply Forall_singleton. split; [by repeat constructor|]. split; [by repeat constructor|].
    exists []. vm_compute. reflexivity.
Defined.

(** The run itself: store thread 0 has the report. *)
Lemma rep_items_run :
  match reporter_main (P := BufPool) (F := N) (LOOP := unit) (Some rep_conf) (Some ∅)
      (mkSys (Some 3) true true) (Some <$> run_fds) (Some <$> [9%N; 10%N; 11%N]) init_pool with
  | Ret (_, PoolSet tp, w) =>
      snd <$> rep_steps S rep_task 3 rep_items (start_threads Z.of_N (replicate 5 ∅) tp w) []
  | _ => Fault Blocked
  end = Ret (store req).
Proof. vm_compute. reflexivity. Qed.
