(* ===== verification/Api.v ===== *)
(** * APIClient: the library of the callers (api/cpp/api/api.h,
    api/cpp/api/api.cpp)

    The three sockets are connected to the three servers of the agent;
    [sendto(2)] and [recvfrom(2)] answer from a script.  The conversions of
    <arpa/inet.h> are the interface [Inet]. *)

From S2P Require Import Prelude CInt.
From S2P Require Import Message Framing.
From S2P Require Import ConfigFile.
From S2P Require Import Proto.
From Stdlib Require Import Strings.Byte.
Local Open Scope Z_scope.

(** [inet_ntoa(addr)] and [inet_aton(str, &addr)], which fails on a string that
    is not an address; the text of an address is read back. *)
Class Inet : Type := {
  inet_ntoa : Z -> str;
  inet_aton : str -> option Z;
  inet_law a : is_u32 a -> inet_aton (inet_ntoa a) = Some a
}.

(** [sizeof(write_buf)] and [sizeof(read_buf)] *)
Definition WRITE_BUF : Z := 4096.
Definition READ_BUF : Z := 81920.

Abbreviation ip_port := (str * Z)%type.
Abbreviation route_set := (list ip_port).

Section Api.
Context `{Inet}.
Context `{Wire lbrss.GetHostRequest, Wire lbrss.GetRouteRequest, Wire lbrss.ReportRequest}.
Context `{Wire lbrss.GetHostResponse, Wire lbrss.GetRouteResponse}.

(** [a_sent] is what [sendto] was given, with the index of the socket. *)
Record APIClient : Type := mkAPI {
  seqid_ : Z;
  a_sent : list (Z * list byte)
}.

Definition APIClient_new : APIClient := mkAPI 0 [].

(** [sockfd_[index]] with [index = (modid + cmdid) % 3] *)
Definition sock_index (modid cmdid : Z) : res Z :=
  s ← int_add modid cmdid;
  let index := Z.rem s 3 in
  check OutOfBounds ((0 <=? index) && (index <? 3));;
  Ret index.

(** The head and the body in [write_buf], and [sendto]; [ok] says whether it
    succeeds.  The result is the return value (only -1 matters). *)
Definition send_request (ok : bool) (modid cmdid id : Z) (body : list byte) (c : APIClient)
    : res (Z * APIClient) :=
  let msglen := Z.of_nat (length body) in
  check OutOfBounds (msglen + MESSAGE_HEAD_LEN <=? WRITE_BUF);;
  index ← sock_index modid cmdid;
  if ok then
    Ret (msglen + MESSAGE_HEAD_LEN,
         mkAPI (seqid_ c) (a_sent c ++ [(index, head_bytes (mkHead id msglen) ++ body)]))
  else Ret (-1, c).

(** [recvfrom] into [read_buf]: the buffer and the length; [None] for -1. *)
Definition recv_into (d : list byte) (read_buf : list byte) : list byte * Z :=
  (take (Z.to_nat READ_BUF) d ++ drop (length d) read_buf, Z.min (Z.of_nat (length d)) READ_BUF).

(** The reading of a response of type [A] with the identifier [id]; [None] for
    the [RET_SYSTEM_ERROR] returns. *)
Definition read_response {A} `{Wire A} (id : Z) (d read_buf : list byte)
    : res (option A * list byte) :=
  let '(read_buf, message_len) := recv_into d read_buf in
  match head_of read_buf with
  | None => Fault OutOfBounds
  | Some head =>
      if negb (msgid head =? id) then Ret (None, read_buf)
      else
        check OutOfBounds (MESSAGE_HEAD_LEN <=? message_len);;
        let body := take (Z.to_nat (message_len - MESSAGE_HEAD_LEN)) (drop 8 read_buf) in
        if negb (parse_ok (A := A) body) then Ret (None, read_buf)
        else Ret (Some (ParseFromArray body), read_buf)
  end.

(** The loop of [get_host]: receive until a response is not older than [seq]. *)
Fixpoint recv_loop (answers : list (option (list byte))) (seq : Z) (read_buf : list byte)
    : res (option lbrss.GetHostResponse) :=
  match answers with
  | [] => Fault Blocked
  | None :: _ => Ret None
  | Some d :: answers =>
      '(r, read_buf) ← read_response ID_GetHostResponse d read_buf;
      match r with
      | None => Ret None
      | Some rsp => if lbrss.ghs_seq rsp <? seq then recv_loop answers seq read_buf
                    else Ret (Some rsp)
      end
  end.

(** [get_host(modid, cmdid, ip, port)]: the return value, and the new values of
    [ip] and [port] if they are assigned; [read_buf] is what the stack holds. *)
Definition get_host (ok : bool) (answers : list (option (list byte))) (read_buf : list byte)
    (modid cmdid : Z) (c : APIClient) : res (Z * option ip_port * APIClient) :=
  let seq := seqid_ c in
  let c := mkAPI (u32 (seqid_ c + 1)) (a_sent c) in
  let req := lbrss.mkGetHostRequest seq modid cmdid in
  '(ret, c) ← send_request ok modid cmdid ID_GetHostRequest (SerializeToString req) c;
  if ret =? -1 then Ret (RET_SYSTEM_ERROR, None, c)
  else
    r ← recv_loop answers seq read_buf;
    match r with
    | None => Ret (RET_SYSTEM_ERROR, None, c)
    | Some rsp =>
        if negb (lbrss.ghs_seq rsp =? seq) || negb (lbrss.ghs_modid rsp =? modid)
           || negb (lbrss.ghs_cmdid rsp =? cmdid)
        then Ret (RET_SYSTEM_ERROR, None, c)
        else if lbrss.ghs_retcode rsp =? 0 then
          let host := lbrss.host_or_default (lbrss.ghs_host rsp) in
          Ret (lbrss.ghs_retcode rsp,
               Some (inet_ntoa (u32 (lbrss.hi_ip host)), lbrss.hi_port host), c)
        else Ret (lbrss.ghs_retcode rsp, None, c)
    end.

(** [get_route(modid, cmdid, route)] *)
Definition get_route (ok : bool) (answer : option (option (list byte))) (read_buf : list byte)
    (modid cmdid : Z) (route : route_set) (c : APIClient) : res (Z * route_set * APIClient) :=
  let req := lbrss.mkGetRouteRequest modid cmdid in
  '(ret, c) ← send_request ok modid cmdid ID_API_GetRouteRequest (SerializeToString req) c;
  if ret =? -1 then Ret (RET_SYSTEM_ERROR, route, c)
  else
    match answer with
    | None => Fault Blocked
    | Some None => Ret (RET_SYSTEM_ERROR, route, c)
    | Some (Some d) =>
        '(r, _) ← read_response ID_API_GetRouteResponse d read_buf;
        match r with
        | None => Ret (RET_SYSTEM_ERROR, route, c)
        | Some rsp =>
            if negb (lbrss.grs_modid rsp =? modid) || negb (lbrss.grs_cmdid rsp =? cmdid)
            then Ret (RET_SYSTEM_ERROR, route, c)
            else
              Ret (RET_SUCC,
                   route ++ ((fun h => (inet_ntoa (u32 (lbrss.hi_ip h)), lbrss.hi_port h))
                               <$> lbrss.grs_host rsp), c)
        end
    end.

(** [reg_init]: at most [n] tries (the code's three), one answer each. *)
Fixpoint reg_loop (n : nat) (ok : bool) (answers : list (option (list byte)))
    (read_buf : list byte) (modid cmdid : Z) (c : APIClient) : res (route_set * APIClient) :=
  match n with
  | O => Ret ([], c)
  | S n' =>
      '(_, route, c) ← get_route ok (head answers) read_buf modid cmdid [] c;
      match route with
      | [] => reg_loop n' ok (drop 1 answers) read_buf modid cmdid c
      | _ :: _ => Ret (route, c)
      end
  end.

Definition reg_init (ok : bool) (answers : list (option (list byte))) (read_buf : list byte)
    (modid cmdid : Z) (c : APIClient) : res (Z * APIClient) :=
  '(route, c) ← reg_loop 3 ok answers read_buf modid cmdid c;
  Ret (match route with [] => RET_NOEXIST | _ :: _ => RET_SUCC end, c).

(** [report(modid, cmdid, ip, port, retcode)]; [junk] is what [inaddr] holds
    when [inet_aton] fails. *)
Definition report_message (junk modid cmdid : Z) (ip : str) (port retcode : Z) :
  lbrss.ReportRequest :=
  let s_addr := default junk (inet_aton ip) in
  lbrss.mkReportRequest modid cmdid (Some (lbrss.mkHostInfo (i32 s_addr) port)) retcode.

Definition report (ok : bool) (junk modid cmdid : Z) (ip : str) (port retcode : Z)
    (c : APIClient) : res APIClient :=
  let req := report_message junk modid cmdid ip port retcode in
  '(_, c) ← send_request ok modid cmdid ID_ReportRequest (SerializeToString req) c;
  Ret c.
End Api.
