(* ===== verification/ApiSpec.v ===== *)
(** * ApiSpec: what a caller gets

    A host that [get_host] returns comes from the answer to this very call
    ([get_host_own_answer]); and the client and the agent work together: the
    request is understood, the answer names a host of the pair, and a report of
    the call to that host reaches the same host ([api_call_any_codec]). *)

From S2P Require Import Prelude CInt HashOrder.
From S2P Require Import ReactorBuf Message Framing ThreadQueue Udp.
From S2P Require Import ConfigFile.
From S2P Require Import Proto HostInfo LoadBalance.
From S2P Require Import LoadBalanceInv LoadBalanceUpdate LoadBalanceSpec RouteLB RouteLBSpec.
From S2P Require Import Protobuf.
From S2P Require Import Varint.
From S2P Require Import LbrssPbSpec.
From S2P Require Import Api.
From Stdlib Require Import Strings.Byte Strings.Ascii.
Local Open Scope Z_scope.

(** ** Reading a response *)

(** The datagram [d] is a response: the head has the identifier and the rest is
    accepted and parsed. *)
Definition reads_as {A} `{Wire A} (id : Z) (d : list byte) (rsp : A) : Prop :=
  exists h, (8 <= length d)%nat /\ head_of d = Some h /\ msgid h = id /\
    parse_ok (A := A) (drop 8 d) = true /\ rsp = ParseFromArray (drop 8 d).

Section Read.
Context {A : Type} `{Wire A}.

Lemma recv_into_spec d buf :
  Z.of_nat (length d) <= READ_BUF -> length buf = Z.to_nat READ_BUF ->
  recv_into d buf = (d ++ drop (length d) buf, Z.of_nat (length d)) /\
  length (recv_into d buf).1 = Z.to_nat READ_BUF.
Proof.
  intros Hd Hb. unfold recv_into. rewrite take_ge, Z.min_l by lia. split; [done|].
  cbn [fst]. rewrite length_app, length_drop. lia.
Qed.

Lemma read_response_spec id d buf r buf' :
  Z.of_nat (length d) <= READ_BUF -> length buf = Z.to_nat READ_BUF ->
  read_response (A := A) id d buf = Ret (r, buf') ->
  length buf' = Z.to_nat READ_BUF /\ forall rsp, r = Some rsp -> reads_as id d rsp.
Proof.
  intros Hd Hb. unfold read_response. destruct (recv_into_spec d buf Hd Hb) as [E Hl].
  rewrite E in *. cbn [fst] in Hl. destruct (head_of _) as [h|] eqn:Eh; [|done].
  destruct (msgid h =? id) eqn:Ei; cbn [negb].
  2: { intros [= <- <-]. split; [exact Hl|done]. }
  unfold MESSAGE_HEAD_LEN. destruct (Z.leb_spec 8 (Z.of_nat (length d))) as [H8|H8]; [|done].
  cbn [check mbind res_bind].
  assert (Ebody : take (Z.to_nat (Z.of_nat (length d) - 8)) (drop 8 (d ++ drop (length d) buf))
    = drop 8 d).
  { rewrite drop_app_le by lia. apply take_app_length'. rewrite length_drop. lia. }
  rewrite Ebody. destruct (parse_ok (drop 8 d)) eqn:Ep; cbn [negb]; intros [= <- <-];
    (split; [exact Hl|]); [|done].
  intros rsp [= <-]. exists h. split; [lia|].
  destruct (head_of_Some d ltac:(lia)) as [h' Eh'].
  pose proof (head_of_app _ (drop (length d) buf) _ Eh') as E2.
  split; [congruence|]. split; [by apply Z.eqb_eq|done].
Qed.

(** A whole message of the other side is read back. *)
Lemma read_response_frame `{!WireLaws A} id (rsp : A) buf :
  is_i32 id -> 8 + Z.of_nat (length (SerializeToString rsp)) <= READ_BUF ->
  length buf = Z.to_nat READ_BUF -> wire_ok rsp ->
  exists buf', read_response id (frame_bytes (mkFrame id (SerializeToString rsp))) buf
    = Ret (Some rsp, buf') /\ length buf' = Z.to_nat READ_BUF.
Proof.
  intros Hid Hlen Hb Hok. set (body := SerializeToString rsp) in *.
  set (d := frame_bytes (mkFrame id body)).
  assert (Hl : length d = (8 + length body)%nat) by (unfold d; by rewrite frame_bytes_length).
  destruct (recv_into_spec d buf) as [E Hl']; [lia|done|].
  unfold read_response. rewrite E in *. cbn [fst] in Hl'.
  assert (Eh : head_of (d ++ drop (length d) buf) = Some (mkHead id (Z.of_nat (length body)))).
  { apply head_of_app. unfold d, frame_bytes. apply head_of_bytes; cbn; [done|].
    unfold READ_BUF in Hlen. unfold is_i32. lia. }
  rewrite Eh. cbn [msgid]. rewrite Z.eqb_refl. cbn [negb].
  unfold MESSAGE_HEAD_LEN. rewrite (proj2 (Z.leb_le 8 _)) by lia. cbn [check mbind res_bind].
  assert (Ebody : take (Z.to_nat (Z.of_nat (length d) - 8)) (drop 8 (d ++ drop (length d) buf))
    = body).
  { rewrite drop_app_le by lia. unfold d at 2, frame_bytes.
    change (drop 8 (head_bytes (mkHead id (Z.of_nat (length body))) ++ body)) with body.
    apply take_app_length'. lia. }
  cbn [f_id f_data] in Ebody. rewrite Ebody. unfold body.
  rewrite parse_ok_serialize, parse_serialize by done.
  cbn [negb]. eauto.
Qed.
End Read.

Section ApiSpec.
Context `{Inet}.
Context `{HO : HashOrder}.
Context `{Wire lbrss.GetHostRequest, Wire lbrss.GetRouteRequest, Wire lbrss.ReportRequest}.
Context `{Wire lbrss.GetHostResponse, Wire lbrss.GetRouteResponse}.

(** The datagrams that [recv_loop] skips, and the one it ends with. *)
Lemma recv_loop_inv answers seq buf rsp :
  Forall (fun a => match a with Some d => Z.of_nat (length d) <= READ_BUF | None => True end)
    answers ->
  length buf = Z.to_nat READ_BUF ->
  recv_loop answers seq buf = Ret (Some rsp) ->
  exists old d rest, answers = (Some <$> old) ++ Some d :: rest /\
    Forall (fun d => exists r, reads_as ID_GetHostResponse d r /\ lbrss.ghs_seq r < seq) old /\
    reads_as ID_GetHostResponse d rsp /\ seq <= lbrss.ghs_seq rsp.
Proof.
  revert buf. induction answers as [|[d|] answers IH]; intros buf Hall Hb; cbn [recv_loop];
    [done| |done].
  apply Forall_cons in Hall as [Hd Hall].
  destruct (read_response ID_GetHostResponse d buf) as [[r buf']|] eqn:E; [|done].
  destruct (read_response_spec _ _ _ _ _ Hd Hb E) as [Hb' Hr]. cbn [mbind res_bind].
  destruct r as [r|]; [|done]. destruct (Z.ltb_spec (lbrss.ghs_seq r) seq) as [Hlt|Hge].
  - intros Hrec. destruct (IH buf' Hall Hb' Hrec) as (old & d' & rest & -> & Hold & Hd' & Hs).
    exists (d :: old), d', rest. split_and!; [done| |done|done].
    constructor; [|done]. exists r. split; [by apply Hr|done].
  - intros [= <-]. exists [], d, answers. split_and!; [done|constructor|by apply Hr|done].
Qed.

(** The datagram of a response. *)
Definition rsp_dgram (r : lbrss.GetHostResponse) : list byte :=
  frame_bytes (mkFrame ID_GetHostResponse (SerializeToString r)).

(** A response in range that fits the buffer. *)
Definition readable `{!WireLaws lbrss.GetHostResponse} (r : lbrss.GetHostResponse) : Prop :=
  8 + Z.of_nat (length (SerializeToString r)) <= READ_BUF /\
  wire_ok r.

Lemma recv_loop_skip `{!WireLaws lbrss.GetHostResponse} olds rsp seq buf :
  Forall (fun r => readable r /\ lbrss.ghs_seq r < seq) olds ->
  readable rsp -> seq <= lbrss.ghs_seq rsp -> length buf = Z.to_nat READ_BUF ->
  recv_loop ((Some <$> (rsp_dgram <$> olds)) ++ [Some (rsp_dgram rsp)]) seq buf = Ret (Some rsp).
Proof.
  intros Hold Hr Hs. revert buf. induction olds as [|r olds IH]; intros buf Hb;
    cbn [fmap list_fmap app recv_loop].
  - destruct Hr as [Hlen Hp].
    destruct (read_response_frame ID_GetHostResponse rsp buf) as (buf' & E & _);
      [by vm_compute|done|done|done|]. fold (rsp_dgram rsp) in E. rewrite E. cbn [mbind res_bind].
    by rewrite (proj2 (Z.ltb_ge _ _)).
  - apply Forall_cons in Hold as [[[Hlen Hp] Hlt] Hold].
    destruct (read_response_frame ID_GetHostResponse r buf) as (buf' & E & Hb');
      [by vm_compute|done|done|done|]. fold (rsp_dgram r) in E. rewrite E. cbn [mbind res_bind].
    rewrite (proj2 (Z.ltb_lt _ _)) by done. by apply IH.
Qed.

Lemma sock_index_ok modid cmdid :
  is_i32 (modid + cmdid) -> 0 <= modid + cmdid ->
  sock_index modid cmdid = Ret ((modid + cmdid) mod 3).
Proof.
  intros Hi Hp. unfold sock_index. rewrite int_add_ok by done. cbn [mbind res_bind].
  rewrite Z.rem_mod_nonneg by lia. pose proof (Z.mod_pos_bound (modid + cmdid) 3 ltac:(lia)).
  by rewrite (proj2 (Z.leb_le 0 _)), (proj2 (Z.ltb_lt _ 3)) by lia.
Qed.

(** A negative sum that is not a multiple of 3 reads [sockfd_] out of bounds. *)
Lemma sock_index_negative modid cmdid :
  is_i32 (modid + cmdid) -> modid + cmdid < 0 -> (modid + cmdid) mod 3 <> 0 ->
  sock_index modid cmdid = Fault OutOfBounds.
Proof.
  intros Hi Hn Hm. unfold sock_index. rewrite int_add_ok by done. cbn [mbind res_bind].
  assert (Z.rem (modid + cmdid) 3 < 0) by (Z.to_euclidean_division_equations; lia).
  by rewrite (proj2 (Z.leb_gt 0 _)) by lia.
Qed.

(** C20. Whatever datagrams are waiting on the socket, stale, foreign or broken:
    if [get_host] assigns a host, then it returns [RET_SUCC] and the host is the
    one in a response to this very call (with its sequence number and its
    pair), and everything received before that response was a response to an
    earlier call, which was skipped. *)
Theorem get_host_own_answer ok answers buf modid cmdid c ret a c' :
  Forall (fun a => match a with Some d => Z.of_nat (length d) <= READ_BUF | None => True end)
    answers ->
  length buf = Z.to_nat READ_BUF ->
  get_host ok answers buf modid cmdid c = Ret (ret, Some a, c') ->
  ret = RET_SUCC /\ exists old d rest rsp, answers = (Some <$> old) ++ Some d :: rest /\
    Forall (fun d => exists r, reads_as ID_GetHostResponse d r /\ lbrss.ghs_seq r < seqid_ c)
      old /\
    reads_as ID_GetHostResponse d rsp /\
    lbrss.ghs_seq rsp = seqid_ c /\ lbrss.ghs_modid rsp = modid /\ lbrss.ghs_cmdid rsp = cmdid /\
    lbrss.ghs_retcode rsp = RET_SUCC /\
    let host := lbrss.host_or_default (lbrss.ghs_host rsp) in
    a = (inet_ntoa (u32 (lbrss.hi_ip host)), lbrss.hi_port host).
Proof.
  intros Hall Hb. unfold get_host. destruct (send_request _ _ _ _ _ _) as [[r0 c0]|]; [|done].
  cbn [mbind res_bind]. destruct (r0 =? -1); [done|].
  destruct (recv_loop answers (seqid_ c) buf) as [[rsp|]|] eqn:E; cbn [mbind res_bind]; [|done..].
  apply recv_loop_inv in E as (old & d & rest & -> & Hold & Hd & Hs); [|done..].
  destruct (lbrss.ghs_seq rsp =? seqid_ c) eqn:E1, (lbrss.ghs_modid rsp =? modid) eqn:E2,
    (lbrss.ghs_cmdid rsp =? cmdid) eqn:E3; try done. cbn [negb orb].
  destruct (lbrss.ghs_retcode rsp =? 0) eqn:E4; [|done]. intros [= <- <- <-].
  apply Z.eqb_eq in E1, E2, E3, E4. split; [done|]. exists old, d, rest, rsp. by split_and!.
Qed.

(** ** The client and the agent *)

Context `{Wire lbrss.ReportStatusRequest}.
Context `{!WireLaws lbrss.GetHostRequest, !WireLaws lbrss.GetHostResponse}.
Context {F LOOP : Type} `{EventFd F} {ADDR : Type}.

Lemma report_key junk modid cmdid retcode h :
  let host := lbrss.host_or_default (lbrss.rr_host
    (report_message junk modid cmdid (inet_ntoa (u32 (i32 (ip h)))) (port h) retcode)) in
  pack64 (lbrss.hi_ip host) (lbrss.hi_port host) = host_key h.
Proof.
  unfold report_message. cbn [lbrss.rr_host lbrss.host_or_default default from_option id
    lbrss.hi_ip lbrss.hi_port].
  rewrite inet_law by apply u32_is. cbn [default from_option id]. unfold host_key.
  rewrite <- (pack64_u32_hi (i32 _)), u32_i32, u32_i32.
  rewrite (u32_id (u32 (ip h))) by apply u32_is. apply pack64_u32_hi.
Qed.

(** The client and the agent fit together, whatever the codec of the messages.
For a pair with a sum that is
    not negative, [get_host] sends one datagram to the agent's server number
    [(modid + cmdid) % 3], which answers it with one datagram; after any number
    of late answers to earlier calls, [get_host] accepts that answer and
    returns its code: [RET_OVERLOAD] or [RET_NOEXIST] without a host, or
    [RET_SUCC] with the address and port of a host of the pair, and a report
    with that address and port has the key of that same host. *)
Lemma api_call_any_codec cfg ct now junk buf modid cmdid olds c (from : ADDR) n rl q
    (w : Udp ADDR agent_v (Agent F LOOP)) :
  let i := (modid + cmdid) mod 3 in
  let req := lbrss.mkGetHostRequest (seqid_ c) modid cmdid in
  is_i32 (modid + cmdid) -> 0 <= modid + cmdid ->
  length buf = Z.to_nat READ_BUF ->
  wire_ok req -> Z.of_nat (length (SerializeToString req)) <= 4088 ->
  Forall (fun r => readable r /\ lbrss.ghs_seq r < seqid_ c) olds ->
  length (_read_buf w) = Z.to_nat UDP_BUF ->
  (forall ret rsp dq rl',
     RouteLB.get_host cfg now junk modid cmdid
       (lbrss.mkGetHostResponse (seqid_ c) modid cmdid 0 None) (Some q) rl = Ret (ret, rsp, dq,
         rl') ->
     wire_ok rsp /\ Z.of_nat (length (SerializeToString rsp)) <= 65519) ->
  u_router w = agent_router i -> r_lb_at i (u_user w) = Ret rl ->
  dns_queue (u_user w) = Some q -> rl_ok n rl -> n < 2 ^ 31 - 1 -> 0 <= junk <= n ->
  exists d d' w' tr ret host c',
    get_host true ((Some <$> (rsp_dgram <$> olds)) ++ [Some d']) buf modid cmdid c
      = Ret (ret, host, c') /\ a_sent c' = a_sent c ++ [(i, d)] /\
    do_read (agent_msg cfg ct now junk true) [RecvData d from; RecvErr EAGAIN] [] w = Ret (w',
      tr) /\
    u_sent w' = u_sent w ++ [(from, d')] /\
    (host = None -> ret ∈ [RET_OVERLOAD; RET_NOEXIST]) /\
    (forall a, host = Some a -> ret = RET_SUCC /\ exists lb h,
       route_lb_map_ rl !! pack64 modid cmdid = Some lb /\ view lb !! host_key h = Some h /\
       a = (inet_ntoa (u32 (i32 (ip h))), port h) /\
       forall junk' retcode,
         let host := lbrss.host_or_default
           (lbrss.rr_host (report_message junk' modid cmdid a.1 a.2 retcode)) in
         pack64 (lbrss.hi_ip host) (lbrss.hi_port host) = host_key h).
Proof.
  intros i req Hsum Hpos Hbuf Hok Hreq Hold Hrb Hsize Hrouter Hrl Hdq Hr Hn Hj.
  destruct (agent_answers_get_host cfg ct now junk req from i n rl q w) as
    (rsp & w' & tr & q' & rl' & Edo & Esent & _ & _ & [ret Eg] & Es & Em & Ec & Hrc & Hhost);
    [done|done|lia|intros; by eapply Hsize|done..|].
  cbn [lbrss.ghq_seq lbrss.ghq_modid lbrss.ghq_cmdid req] in Eg, Es, Em, Ec, Hhost.
  destruct (Hsize _ _ _ _ Eg) as [Hwok Hlen].
  set (d := frame_bytes (mkFrame ID_GetHostRequest (SerializeToString req))) in *.
  set (c' := mkAPI (u32 (seqid_ c + 1)) (a_sent c ++ [(i, d)])).
  assert (Hget : get_host true ((Some <$> (rsp_dgram <$> olds)) ++ [Some (rsp_dgram rsp)]) buf
    modid cmdid c
    = Ret (lbrss.ghs_retcode rsp,
        if lbrss.ghs_retcode rsp =? 0 then
          let host := lbrss.host_or_default (lbrss.ghs_host rsp) in
          Some (inet_ntoa (u32 (lbrss.hi_ip host)), lbrss.hi_port host) else None, c')).
  { unfold get_host, send_request. fold req. cbn [a_sent seqid_].
    unfold MESSAGE_HEAD_LEN, WRITE_BUF. rewrite (proj2 (Z.leb_le _ 4096)) by lia.
    rewrite sock_index_ok by done. cbn [check mbind res_bind].
    rewrite (proj2 (Z.eqb_neq _ (-1))) by lia.
    rewrite recv_loop_skip; [|exact Hold|split; [unfold READ_BUF; lia|exact Hwok]|lia|exact Hbuf].
    cbn [mbind res_bind]. rewrite Es, Em, Ec, !Z.eqb_refl. cbn [negb orb]. by case_match. }
  exists d, (rsp_dgram rsp), w', tr. eexists _, _, c'. split; [exact Hget|].
  split_and!; [done..| |].
  - destruct (Z.eqb_spec (lbrss.ghs_retcode rsp) 0); [done|intros _].
    by apply elem_of_cons in Hrc as [?|Hrc].
  - intros a. destruct (Z.eqb_spec (lbrss.ghs_retcode rsp) 0) as [Hz|]; [|done]. intros [= <-].
    split; [done|]. destruct (Hhost Hz) as (lb & h & Hlb & Hv & ->). exists lb, h.
    split_and!; [done..|]. intros junk' retcode. apply report_key.
Qed.
End ApiSpec.

(** ** Witnesses *)

(** An address as the text of its four bytes. *)
Module InetExample.
Definition text (a : Z) : str := ascii_of_byte <$> le32 a.
Definition address (s : str) : option Z := u32 <$> de32 (byte_of_ascii <$> s).

Lemma address_text a : is_u32 a -> address (text a) = Some a.
Proof.
  intros Ha. unfold address, text. rewrite <- list_fmap_compose.
  rewrite (list_fmap_ext _ id), list_fmap_id by (intros; apply byte_of_ascii_of_byte).
  assert (Hb : forall x y, x `mod` 256 = y `mod` 256 -> byte_of_Z x = byte_of_Z y)
    by (intros x y E; unfold byte_of_Z; by rewrite E).
  assert (E : le32 a = le32 (i32 a)).
  { unfold le32. repeat (apply f_equal2; [apply Hb|]); [..|done]; change (2 ^ 8) with 256;
      change (2 ^ 24) with 16777216; zwrap. }
  rewrite E, de32_le32 by apply i32_is. cbn. by rewrite u32_i32, u32_id.
Qed.

#[export] Instance inet : Inet :=
  {| inet_ntoa := text; inet_aton := address; inet_law := address_text |}.

(** A late answer to call 6, and the answer to call 7. *)
Definition late : lbrss.GetHostResponse :=
  lbrss.mkGetHostResponse 6 1 2 0 (Some (lbrss.mkHostInfo 9 90)).
Definition answer : lbrss.GetHostResponse :=
  lbrss.mkGetHostResponse 7 1 2 0 (Some (lbrss.mkHostInfo 10 80)).
Definition buf : list byte := replicate (Z.to_nat READ_BUF) x00.
End InetExample.
Import InetExample Varint PbWire FixedOrder.

Lemma get_host_own_answer_witness :
  exists old d rest rsp,
    [Some (rsp_dgram late); Some (rsp_dgram answer)] = (Some <$> old) ++ Some d :: rest /\
    lbrss.ghs_seq rsp = 7.
Proof.
  destruct (get_host_own_answer true [Some (rsp_dgram late); Some (rsp_dgram answer)] buf 1 2
    (mkAPI 7 []) RET_SUCC (text 10, 80)
    (mkAPI 8 [(0, frame_bytes (mkFrame ID_GetHostRequest
                    (SerializeToString (lbrss.mkGetHostRequest 7 1 2))))]))
    as (_ & old & d & rest & rsp & E & _ & _ & Es & _).
  - repeat constructor; by vm_compute.
  - apply length_replicate.
  - by vm_compute.
  - by exists old, d, rest, rsp.
Defined.
