(* ===== verification/EndToEnd.v ===== *)
(** * EndToEnd: a call of the client library, through the generated codec

    [ApiSpec] and [RouteLBSpec] are proved against the interface [Wire];
    [LbrssPbSpec] implements it with the generated messages.  Put together they
    describe a whole call of [APIClient::get_host] down to the bytes of its
    datagrams ([api_call_end_to_end]); the sizes that the buffers have to hold
    are computed here. *)

From S2P Require Import Prelude CInt HashOrder.
From S2P Require Import ReactorBuf Message Framing ThreadQueue Udp.
From S2P Require Import ConfigFile.
From S2P Require Import Protobuf.
From S2P Require Import Varint.
From S2P Require Import LbrssPb.
From S2P Require Import Proto.
From S2P Require Import LbrssPbSpec.
From S2P Require Import LbrssPbTypes.
From S2P Require Import HostInfo LoadBalance.
From S2P Require Import LoadBalanceInv LoadBalanceUpdate LoadBalanceSpec RouteLB RouteLBSpec.
From S2P Require Import Api.
From S2P Require Import ApiSpec.
From Stdlib Require Import Strings.Byte.
Import Pb PbWire.
Local Open Scope Z_scope.

(** ** Sizes *)

Section Sizes.
Context `{PL : PbLaws}.

Lemma GetHostRequest_size_max v :
  GetHostRequest_ok (GetHostRequest_of v) ->
  0 <= (GetHostRequest_ByteSizeLong (GetHostRequest_of v)).1 <= 28.
Proof.
  intros (Hseq & Hmodid & Hcmdid). unfold GetHostRequest_ByteSizeLong. cbn [fst].
  pose proof (size_uint32_range _ Hseq). pose proof (size_int32_range _ Hmodid).
  pose proof (size_int32_range _ Hcmdid). unfold size_total. cbn [hq_metadata GetHostRequest_of].
  rewrite have_unknown_empty. lia.
Qed.

Lemma GetHostResponse_size_max v :
  GetHostResponse_ok (GetHostResponse_of v) ->
  0 <= (GetHostResponse_ByteSizeLong (GetHostResponse_of v)).1 <= 67.
Proof.
  intros (Hhost & Hseq & Hmodid & Hcmdid & Hret). unfold GetHostResponse_ByteSizeLong. cbn [fst].
  pose proof (size_uint32_range _ Hseq). pose proof (size_int32_range _ Hmodid).
  pose proof (size_int32_range _ Hcmdid). pose proof (size_int32_range _ Hret).
  unfold size_total. cbn [hs_metadata GetHostResponse_of]. rewrite have_unknown_empty.
  cbn [hs_host_ GetHostResponse_of] in Hhost |- *.
  destruct (lbrss.ghs_host v) as [h|]; cbn [fmap option_fmap option_map] in *; [|lia].
  destruct (HostInfo_size_max (HostInfo_of h) Hhost eq_refl) as [Hp Hmax].
  pose proof (LengthDelimitedSize_le _ Hp).
  assert (Hl : small_len (HostInfo_ByteSizeLong (HostInfo_of h)).1) by (unfold small_len; lia).
  pose proof (LengthDelimitedSize_max _ Hl). lia.
Qed.

(** In range is all that is needed: the messages of a call are small. *)
Lemma request_wire v : GetHostRequest_ok (GetHostRequest_of v) ->
  wire_ok v /\ Z.of_nat (length (SerializeToString v)) <= 28.
Proof.
  intros Hok. pose proof (GetHostRequest_size_max v Hok) as Hs.
  assert (Hsm : small_len (GetHostRequest_ByteSizeLong (GetHostRequest_of v)).1)
    by (unfold small_len; lia).
  split; [by split|].
  change (SerializeToString v) with (SerializeMessage GetHostRequest_ByteSizeLong
    GetHostRequest_InternalSerialize (GetHostRequest_of v)).
  rewrite SerializeMessage_runs by done.
  rewrite GetHostRequest_size_write by done. lia.
Qed.

Lemma response_wire v : GetHostResponse_ok (GetHostResponse_of v) ->
  wire_ok v /\ Z.of_nat (length (SerializeToString v)) <= 67.
Proof.
  intros Hok. pose proof (GetHostResponse_size_max v Hok) as Hs.
  assert (Hsm : small_len (GetHostResponse_ByteSizeLong (GetHostResponse_of v)).1)
    by (unfold small_len; lia).
  split; [by split|].
  change (SerializeToString v) with (SerializeMessage GetHostResponse_ByteSizeLong
    GetHostResponse_InternalSerialize (GetHostResponse_of v)).
  rewrite SerializeMessage_runs by done.
  rewrite GetHostResponse_size_write by done. lia.
Qed.
End Sizes.

(** ** A whole call *)

Section EndToEnd.
Context `{PL : PbLaws} `{Inet}.
Context `{HO : HashOrder}.
Context {F LOOP : Type} `{EventFd F} {ADDR : Type}.

(** The ports of the hosts are [int]s. *)
Definition ports_ok (rl : RouteLB) : Prop :=
  map_Forall (fun _ lb => map_Forall (fun _ h => is_i32 (port h)) (view lb)) (route_lb_map_ rl).

(** C8. One call of [get_host], from the client library through the agent and
    back.  For a pair with a sum that is not negative, [get_host] sends one
    datagram, to the agent's server number [(modid + cmdid) % 3]; the server,
    with its handlers registered and the agent in any state that satisfies its
    invariant ([rl_ok]), answers with one datagram; after any number of late answers to
    earlier calls [get_host] accepts that answer and returns [RET_OVERLOAD] or
    [RET_NOEXIST] without a host, or [RET_SUCC] with the address and the port
    of a host of the pair; and a report with that address and port arrives with
    the key of that same host.  The datagrams are the bytes of the generated
    codec, and every buffer is large enough for them. *)
Theorem api_call_end_to_end cfg ct now junk buf modid cmdid olds c (from : ADDR) n rl q
    (w : Udp ADDR agent_v (Agent F LOOP)) :
  let i := (modid + cmdid) mod 3 in
  is_i32 modid -> is_i32 cmdid -> is_i32 (modid + cmdid) -> 0 <= modid + cmdid ->
  is_u32 (seqid_ c) -> length buf = Z.to_nat READ_BUF ->
  Forall (fun r => GetHostResponse_ok (GetHostResponse_of r) /\ lbrss.ghs_seq r < seqid_ c)
    olds ->
  length (_read_buf w) = Z.to_nat UDP_BUF ->
  u_router w = agent_router i -> r_lb_at i (u_user w) = Ret rl ->
  dns_queue (u_user w) = Some q -> rl_ok n rl -> ports_ok rl -> n < 2 ^ 31 - 1 ->
    0 <= junk <= n ->
  exists d d' w' tr ret host c',
    get_host true ((Some <$> (rsp_dgram <$> olds)) ++ [Some d']) buf modid cmdid c
      = Ret (ret, host, c') /\ a_sent c' = a_sent c ++ [(i, d)] /\
    do_read (agent_msg cfg ct now junk true) [RecvData d from; RecvErr EAGAIN] [] w = Ret (w',
      tr) /\
    u_sent w' = u_sent w ++ [(from, d')] /\
    (host = None -> ret ∈ [RET_OVERLOAD; RET_NOEXIST]) /\
    (forall a, host = Some a -> ret = RET_SUCC /\ exists lb h,
       route_lb_map_ rl !! pack64 modid cmdid = Some lb /\ view lb !! host_key h = Some h /\
       a = (inet_ntoa (u32 (i32 (ip h))), port h) /\
       forall junk' retcode,
         let host := lbrss.host_or_default
           (lbrss.rr_host (report_message junk' modid cmdid a.1 a.2 retcode)) in
         pack64 (lbrss.hi_ip host) (lbrss.hi_port host) = host_key h).
Proof.
  intros i Hm Hc Hsum Hpos Hseq Hbuf Hold Hrb Hrouter Hrl Hdq Hr Hports Hn Hj.
  destruct (request_wire (lbrss.mkGetHostRequest (seqid_ c) modid cmdid)) as [Hok Hlen]; [done|].
  apply (api_call_any_codec cfg ct now junk buf modid cmdid olds c from n rl q w);
    [done|done|exact Hbuf|exact Hok|lia| |exact Hrb| |done..].
  - eapply Forall_impl; [exact Hold|]. intros r [Hr1 Hr2]. split; [|done].
    destruct (response_wire r Hr1) as [H1 H2]. split; [unfold READ_BUF; lia|exact H1].
  - intros ret rsp dq rl' Eg.
    destruct (get_host_answer _ _ _ _ _ _ _ _ _ _ _ _ _ Hr Eg) as (Es & Em & Ec & Hrc & Hhost &
      Hnone).
    cbn [lbrss.ghs_seq lbrss.ghs_modid lbrss.ghs_cmdid] in Es, Em, Ec, Hnone.
    enough (GetHostResponse_ok (GetHostResponse_of rsp)) as Hrok
      by (destruct (response_wire rsp Hrok); split; [done|lia]).
    unfold GetHostResponse_ok.
    cbn [hs_host_ hs_seq_ hs_modid_ hs_cmdid_ hs_retcode_ GetHostResponse_of].
    rewrite Es, Em, Ec. split_and!; [|done..|].
    + destruct (decide (lbrss.ghs_retcode rsp = RET_SUCC)) as [Hz|Hz].
      * destruct (Hhost Hz) as (lb & h & Hlb & Hv & ->). cbn. split; [apply i32_is|].
        exact (Hports _ _ Hlb _ _ Hv).
      * by rewrite (Hnone Hz).
    + repeat (apply elem_of_cons in Hrc as [->|Hrc]; [unfold is_i32; by vm_compute|]).
      by apply elem_of_nil in Hrc.
Qed.
End EndToEnd.

(** ** Witness *)

Import InetExample AgentExample Varint FixedOrder.

Lemma example_ports : ports_ok AgentExample.rl.
Proof.
  intros k lb Hk.
  change (<[pack64 1 2 := LbExample.lb]> (∅ : gmap Z LoadBalance) !! k = Some lb) in Hk.
  apply lookup_insert_Some in Hk as [[_ <-]|[_ Hk]]; [|by rewrite lookup_empty in Hk].
  assert (Hb : forallb (fun kh => i32_ok (port kh.2)) (map_to_list (view LbExample.lb)) = true)
    by by vm_compute.
  revert Hb. generalize (view LbExample.lb). clear. intros hosts Hb key h Hh.
  rewrite forallb_forall in Hb. apply i32_ok_spec, (Hb (key, h)).
  by apply list_elem_of_In, elem_of_map_to_list.
Qed.

(** The first answer to wait on the socket is late; the agent of [AgentExample]
    is asked for a host of the pair 1/2. *)
Lemma api_call_end_to_end_witness :
  exists d d' w' tr ret host c',
    get_host true [Some (rsp_dgram late); Some d'] InetExample.buf 1 2 (mkAPI 7 [])
      = Ret (ret, host, c') /\ a_sent c' = [(0, d)] /\
    do_read (ADDR := unit) (agent_msg LbExample.cfg 1000 1000 0 true)
      [RecvData d tt; RecvErr EAGAIN] []
      (mkUdp (replicate (Z.to_nat UDP_BUF) x00) tt (agent_router 0) [] AgentExample.ag)
      = Ret (w', tr) /\ u_sent w' = [(tt, d')].
Proof.
  destruct (api_call_end_to_end LbExample.cfg 1000 1000 0 InetExample.buf 1 2 [late] (mkAPI 7 [])
    tt 5 AgentExample.rl AgentExample.q
    (mkUdp (replicate (Z.to_nat UDP_BUF) x00) tt (agent_router 0) [] AgentExample.ag))
    as (d & d' & w' & tr & ret & host & c' & Eg & Es & Ed & Eu & _).
  1-5: cbn; unfold is_i32, is_u32; lia.
  - apply length_replicate.
  - apply Forall_singleton. split; [|cbn; lia].
    unfold GetHostResponse_ok, HostInfo_ok, is_i32, is_u32. cbn. lia.
  - apply length_replicate.
  - reflexivity.
  - reflexivity.
  - reflexivity.
  - by apply AgentExample.rl_is_ok.
  - apply example_ports.
  - lia.
  - lia.
  - exists d, d', w', tr, ret, host, c'.
    exact (conj Eg (conj Es (conj Ed Eu))).
Defined.
