(* ===== verification/AgentSpec.v ===== *)
(** * AgentSpec: what the agent's balancers look like from outside

    A [RouteLB] seen as the map [known] from the keys of its pairs to the keys of
    the pair's hosts.  Every method of route_lb.cpp is given by what it does to
    this map, what it asks the dns service for, what it reports and what it
    answers; [rl_inv] is the invariant of [RouteLBSpec] with the ranges of all
    values, so that the messages made of them can be sent. *)

From S2P Require Import Prelude CInt HashOrder.
From S2P Require Import ThreadQueue.
From S2P Require Import Protobuf.
From S2P Require Import LbrssPb.
From S2P Require Import Proto.
From S2P Require Import LbrssPbSpec LbrssPbTypes.
From S2P Require Import HostInfo LoadBalance.
From S2P Require Import LoadBalanceInv LoadBalanceUpdate LoadBalanceSpec RouteLB RouteLBSpec.
From S2P Require Import Message ReportTrip DnsNet EndToEnd.
From Stdlib Require Import Strings.Byte.
Import Pb PbWire.
Local Open Scope Z_scope.

(** The answers of the dns service are for at most this many hosts. *)
Definition AGENT_HOSTS : Z := 1500.

(** ** The invariant *)

Definition host_typed (h : HostInfo.HostInfo) : Prop :=
  is_i32 (port h) /\ is_u32 (rsucc h) /\ is_u32 (rerr h).

(** The balancer of the key [k]. *)
Record lb_typed (k : Z) (lb : LoadBalance) : Prop := {
  lt_key : pack64 (modid_ lb) (cmdid_ lb) = k;
  lt_mod : is_i32 (modid_ lb);
  lt_cmd : is_i32 (cmdid_ lb);
  lt_size : Z.of_nat (size (view lb)) <= AGENT_HOSTS;
  lt_hosts : map_Forall (fun _ h => host_typed h) (hosts lb)
}.

Definition rl_inv (n : Z) (rl : RouteLB) : Prop :=
  rl_ok n rl /\ map_Forall lb_typed (route_lb_map_ rl).

Definition known (rl : RouteLB) : gmap Z (gset Z) :=
  (fun lb => dom (view lb)) <$> route_lb_map_ rl.

(** A balancer with the same hosts for the same pair. *)
Definition same_hosts (lb lb' : LoadBalance) : Prop :=
  host_map_ lb' = host_map_ lb /\ hosts lb' = hosts lb /\ modid_ lb' = modid_ lb /\
  cmdid_ lb' = cmdid_ lb.

Lemma same_hosts_view lb lb' : same_hosts lb lb' -> view lb' = view lb.
Proof. unfold view. by intros (-> & -> & _). Qed.

Lemma same_hosts_typed k lb lb' : same_hosts lb lb' -> lb_typed k lb -> lb_typed k lb'.
Proof.
  intros Hs. pose proof (same_hosts_view _ _ Hs) as Hv. destruct Hs as (_ & Hh & Hm & Hc).
  intros [? ? ? ? ?]. split; rewrite ?Hv, ?Hh, ?Hm, ?Hc; done.
Qed.

Lemma same_hosts_trans lb1 lb2 lb3 : same_hosts lb1 lb2 -> same_hosts lb2 lb3 -> same_hosts lb1 lb3.
Proof. unfold same_hosts. intuition congruence. Qed.

Lemma RouteLB_new_inv id n : rl_inv n (RouteLB_new id).
Proof. split; [apply RouteLB_new_ok|apply map_Forall_empty]. Qed.

Lemma rl_inv_mono n m rl : n <= m -> rl_inv n rl -> rl_inv m rl.
Proof. intros ? [? ?]. split; [by eapply rl_ok_mono|done]. Qed.

Lemma known_lookup rl k : known rl !! k = (fun lb => dom (view lb)) <$> route_lb_map_ rl !! k.
Proof. unfold known. by rewrite lookup_fmap. Qed.

Lemma known_set key lb rl : known (set_lb key lb rl) = <[key := dom (view lb)]> (known rl).
Proof. unfold known. cbn [route_lb_map_ set_lb]. by rewrite fmap_insert. Qed.

(** A balancer whose hosts are the same is put back. *)
Lemma set_same n key lb lb' rl :
  rl_inv n rl -> route_lb_map_ rl !! key = Some lb -> lb_fit n lb' -> same_hosts lb lb' ->
  rl_inv n (set_lb key lb' rl) /\ known (set_lb key lb' rl) = known rl.
Proof.
  intros [Hok Ht] Hk Hf Hs. split; [split|].
  - by apply set_lb_ok.
  - apply map_Forall_insert_2; [|done]. by eapply same_hosts_typed, Ht.
  - rewrite known_set, (same_hosts_view _ _ Hs). apply insert_id. by rewrite known_lookup, Hk.
Qed.

Lemma empty_dom lb : lb_ok lb -> empty lb = bool_decide (dom (view lb) = ∅).
Proof.
  intros Hok. unfold empty. apply bool_decide_ext. rewrite dom_empty_iff_L. split.
  - intros He. unfold view. by rewrite He, omap_empty.
  - intros He. apply map_empty. intros k. apply (lb_view_none lb Hok). by rewrite He.
Qed.

Lemma fit_pulling n lb : lb_fit n lb -> dom (view lb) = ∅ -> status_ lb = PULLING.
Proof.
  intros (Hok & _ & Hs) He. apply Hs. rewrite empty_dom by done. by apply bool_decide_eq_true.
Qed.

(** ** What the calls do *)

Section Calls.
Context {F LOOP : Type} `{EventFd F}.
Context `{HO : HashOrder}.
Context (cfg : LBConfig).
Abbreviation DnsQueue := (ThreadQueue lbrss.GetRouteRequest F LOOP).
Abbreviation ReportQueue := (ThreadQueue lbrss.ReportStatusRequest F LOOP).

(** The requests to the dns service that a question for the pair makes: one if
    the pair is new, possibly one (the route is old) if it has hosts. *)
Definition asks (hs : option (gset Z)) (modid cmdid : Z) (reqs : list lbrss.GetRouteRequest)
    : Prop :=
  match hs with
  | None => reqs = [lbrss.mkGetRouteRequest modid cmdid]
  | Some ks => reqs = [] \/ ks <> ∅ /\ reqs = [lbrss.mkGetRouteRequest modid cmdid]
  end.

(** The pair is known from now on, if it was not. *)
Definition track (key : Z) (kn : gmap Z (gset Z)) : gmap Z (gset Z) :=
  match kn !! key with None => <[key := ∅]> kn | Some _ => kn end.

(** The answer to a question for a host. *)
Definition host_reply (hs : option (gset Z)) (rsp0 rsp : lbrss.GetHostResponse) : Prop :=
  lbrss.ghs_seq rsp = lbrss.ghs_seq rsp0 /\ lbrss.ghs_modid rsp = lbrss.ghs_modid rsp0 /\
  lbrss.ghs_cmdid rsp = lbrss.ghs_cmdid rsp0 /\
  let ks := default ∅ hs in
  if bool_decide (ks = ∅)
  then lbrss.ghs_retcode rsp = RET_NOEXIST /\ lbrss.ghs_host rsp = lbrss.ghs_host rsp0
  else lbrss.ghs_retcode rsp = RET_OVERLOAD /\ lbrss.ghs_host rsp = lbrss.ghs_host rsp0 \/
       lbrss.ghs_retcode rsp = RET_SUCC /\ exists h, lbrss.ghs_host rsp = Some h /\
         is_i32 (lbrss.hi_ip h) /\ is_i32 (lbrss.hi_port h) /\ msg_key h ∈ ks.

Lemma key_inj k lb modid cmdid :
  lb_typed k lb -> k = pack64 modid cmdid -> is_i32 modid -> is_i32 cmdid ->
  modid_ lb = modid /\ cmdid_ lb = cmdid.
Proof. intros [Hk Hm Hc _ _] -> ? ?. by apply pack64_inj. Qed.

Lemma host_msg_key h : msg_key (host_msg h) = host_key h.
Proof.
  unfold msg_key, host_msg, host_key. cbn.
  by rewrite <- (pack64_u32_hi (i32 (ip h))), u32_i32, pack64_u32_hi.
Qed.

Lemma pull_known now n modid cmdid (q : DnsQueue) lb :
  lb_fit n lb -> lb_typed (pack64 modid cmdid) lb -> is_i32 modid -> is_i32 cmdid ->
  exists q' lb' reqs, pull_if_expired cfg now (Some q) lb = Ret (Some q', lb') /\
    lb_fit n lb' /\ same_hosts lb lb' /\ queue q' = queue q ++ reqs /\
    asks (Some (dom (view lb))) modid cmdid reqs.
Proof.
  intros Hf Ht Hm Hc. destruct (key_inj _ _ modid cmdid Ht eq_refl Hm Hc) as [Em Ec].
  destruct (pull_if_expired_ok cfg now n q lb Hf) as (q' & lb' & Ep & Hf').
  rewrite Ep. exists q', lb'. unfold pull_if_expired in Ep.
  destruct (expired cfg now lb) eqn:Ee.
  - exists [lbrss.mkGetRouteRequest modid cmdid]. unfold pull in Ep. injection Ep as <- <-.
    split_and!; [done|done|done|cbn; by rewrite Em, Ec|]. right. split; [|done].
    intros He%(fit_pulling n lb Hf). unfold expired in Ee. by rewrite He in Ee.
  - exists []. injection Ep as <- <-. rewrite app_nil_r. split_and!; try done. by left.
Qed.

Lemma new_known n modid cmdid junk (q : DnsQueue) rl :
  rl_inv n rl -> 0 <= junk <= n -> is_i32 modid -> is_i32 cmdid ->
  exists q' rl', new_lb modid cmdid junk (Some q) rl = Ret (Some q', rl') /\ rl_inv n rl' /\
    known rl' = <[pack64 modid cmdid := ∅]> (known rl) /\
    queue q' = queue q ++ [lbrss.mkGetRouteRequest modid cmdid].
Proof.
  intros [Hr Ht] Hj Hm Hc. destruct (new_lb_ok n modid cmdid junk q rl Hr Hj) as
    (q' & rl' & Eq & Hr').
  exists q', rl'. split; [done|]. unfold new_lb, pull in Eq. cbn [mbind res_bind] in Eq.
  injection Eq as <- <-. split; [split; [done|]|].
  - apply map_Forall_insert_2; [|done]. split; [done|done|done| |apply map_Forall_empty].
    change (view _) with (∅ : gmap Z HostInfo.HostInfo). rewrite map_size_empty. unfold AGENT_HOSTS.
    lia.
  - rewrite known_set. change (view _) with (∅ : gmap Z HostInfo.HostInfo). by rewrite dom_empty_L.
Qed.

Lemma pick_frame rsp lb ret rsp' lb' :
  pick_one_host cfg rsp lb = Ret (ret, rsp', lb') -> same_hosts lb lb'.
Proof.
  unfold pick_one_host. destruct (idle_list_ lb); case_match; cbv zeta; intros Hp; inv_res; done.
Qed.

Lemma get_host_known now junk modid cmdid rsp n (q : DnsQueue) rl :
  let key := pack64 modid cmdid in
  rl_inv n rl -> n < 2 ^ 31 - 1 -> 0 <= junk <= n -> is_i32 modid -> is_i32 cmdid ->
  exists ret rsp' q' rl' reqs,
    get_host cfg now junk modid cmdid rsp (Some q) rl = Ret (ret, rsp', Some q', rl') /\
    rl_inv (n + 1) rl' /\ known rl' = track key (known rl) /\
    queue q' = queue q ++ reqs /\ asks (known rl !! key) modid cmdid reqs /\
    host_reply (known rl !! key) rsp rsp'.
Proof.
  intros key [Hr Ht] Hn Hj Hm Hc. unfold get_host, track. fold key.
  rewrite known_lookup. destruct (route_lb_map_ rl !! key) as [lb|] eqn:Ek; cbn
    [fmap option_fmap option_map].
  - pose proof (Hr _ _ Ek) as Hfit. pose proof (Ht _ _ Ek) as Htl. cbn in Hfit, Htl.
    unfold host_reply. cbn [default from_option id].
    rewrite (empty_dom lb) by apply Hfit. case_bool_decide as He.
    + rewrite bool_decide_eq_true_2 by by eapply fit_pulling. cbn [c_assert mbind res_bind].
      eexists _, _, _, _, []. split; [reflexivity|]. rewrite app_nil_r.
      split; [by apply (rl_inv_mono n); [lia|]|]. split_and!; try done. by left.
    + destruct (pick_total cfg rsp n lb Hfit Hn) as (ret & rsp' & lb' & Ep & Hf' & _).
      { rewrite empty_dom by apply Hfit. by apply bool_decide_eq_false. }
      rewrite Ep. cbn [mbind res_bind]. pose proof (pick_frame _ _ _ _ _ Ep) as Hs.
      destruct (pull_known now (n + 1) modid cmdid q lb') as
        (q' & lb2 & reqs & -> & Hf2 & Hs2 & Hq & Ha);
        [done|by eapply same_hosts_typed|done|done|]. cbn [mbind res_bind].
      destruct (set_same (n + 1) key lb lb2 rl) as [Hi Hkn];
        [apply (rl_inv_mono n); [lia|done]|done|done|by eapply same_hosts_trans|].
      eexists _, _, q', _, reqs. split; [reflexivity|]. split; [done|]. split; [done|].
      split; [done|]. rewrite (same_hosts_view _ _ Hs) in Ha. split; [done|].
      apply (pick_answer cfg) in Ep; [|apply Hfit].
      destruct Ep as [[-> ->]|(-> & h & Hv & ->)]; cbn; (split_and!; [done..|]); [by left|].
      right. split; [done|]. exists (host_msg h). split; [done|]. split; [apply i32_is|].
      split.
      { apply lb_view_inv in Hv as (l & _ & Hl). by apply (lt_hosts _ _ Htl l). }
      rewrite host_msg_key. by apply elem_of_dom_2 in Hv.
  - destruct (new_known n modid cmdid junk q rl) as (q' & rl' & -> & Hi & Hkn & Hq); [done..|].
    cbn [mbind res_bind]. eexists _, _, q', rl', _. split; [reflexivity|].
    split; [by apply (rl_inv_mono n); [lia|]|]. split; [done|]. split; [done|]. split; [done|].
    unfold host_reply. cbn. by rewrite bool_decide_eq_true_2.
Qed.

(** *** The hosts that messages are made of *)

(** The hosts at some locations. *)
Definition live (lb : LoadBalance) (vec : list loc) : list HostInfo.HostInfo :=
  omap (fun l => hosts lb !! l) vec.

Lemma live_length lb vec :
  (forall l, l ∈ vec -> is_Some (hosts lb !! l)) -> length (live lb vec) = length vec.
Proof.
  induction vec as [|l vec IH]; intros Hl; [done|]. unfold live in *. cbn.
  destruct (Hl l) as [h ->]; [by left|]. cbn. f_equal. apply IH. intros; apply Hl. by right.
Qed.

Lemma live_keys lb vec :
  lb_ok lb -> (forall l, l ∈ vec <-> exists k, host_map_ lb !! k = Some l) ->
  list_to_set (host_key <$> live lb vec) = dom (view lb).
Proof.
  intros Hok Hv. apply set_eq. intros k. rewrite elem_of_list_to_set, elem_of_dom.
  rewrite list_elem_of_fmap. split.
  - intros (h & -> & (l & [k' Hk]%Hv & Hh)%list_elem_of_omap).
    destruct (ok_map _ Hok _ _ Hk) as (h' & Hh' & <-). rewrite Hh in Hh'. injection Hh' as <-.
    rewrite (lb_view_lookup _ _ _ _ Hk Hh). eauto.
  - intros [h (l & Hk & Hh)%lb_view_inv]. exists h. split.
    + destruct (ok_map _ Hok _ _ Hk) as (h' & Hh' & <-). congruence.
    + apply list_elem_of_omap. exists l. split; [|done]. apply Hv. eauto.
Qed.

Lemma live_typed k lb vec : lb_typed k lb -> Forall host_typed (live lb vec).
Proof.
  intros Ht. apply Forall_forall. intros h (l & _ & Hl)%list_elem_of_omap.
  by apply (lt_hosts _ _ Ht l).
Qed.

Lemma view_size lb : lb_ok lb -> size (view lb) = size (host_map_ lb).
Proof.
  intros Hok. rewrite <- !(size_dom (D := gset Z)). f_equal. apply set_eq. intros k.
  rewrite !elem_of_dom, <- !not_eq_None_Some. by rewrite (lb_view_none lb Hok).
Qed.

(** Two ways to list all hosts: by the map, and by the two lists. *)
Lemma all_hosts_live lb : lb_ok lb ->
  let vec := get_all_hosts [] lb in
  (forall l, l ∈ vec <-> exists k, host_map_ lb !! k = Some l) /\
  (forall l, l ∈ vec -> is_Some (hosts lb !! l)) /\ length vec = size (view lb).
Proof.
  intros Hok vec.
  assert (Hin : forall l, l ∈ vec <-> exists k, host_map_ lb !! k = Some l).
  { intros l. unfold vec, get_all_hosts. cbn [app]. rewrite list_elem_of_fmap. split.
    - intros ([k l'] & -> & Hk%elem_of_map_order). eauto.
    - intros [k Hk]. exists (k, l). by rewrite elem_of_map_order. }
  split; [done|]. split.
  - intros l [k Hk]%Hin. destruct (ok_map _ Hok _ _ Hk) as (h & -> & _). eauto.
  - rewrite view_size by done. unfold vec, get_all_hosts. cbn [app].
    by rewrite length_fmap, length_map_order.
Qed.

Lemma lists_live lb : lb_ok lb ->
  let vec := idle_list_ lb ++ overload_list_ lb in
  (forall l, l ∈ vec <-> exists k, host_map_ lb !! k = Some l) /\
  (forall l, l ∈ vec -> is_Some (hosts lb !! l)) /\ (length vec <= size (view lb))%nat.
Proof.
  intros Hok vec. destruct (all_hosts_live lb Hok) as (Hall & Hsome & Hlen).
  assert (Hin : forall l, l ∈ vec <-> exists k, host_map_ lb !! k = Some l).
  { intros l. unfold vec. rewrite elem_of_app, (ok_idle _ Hok), (ok_over _ Hok). split.
    - naive_solver.
    - intros [k Hk]. destruct (ok_map _ Hok _ _ Hk) as (h & Hh & _).
      destruct (overload h) eqn:Eo; eauto 10. }
  split; [done|]. split; [by intros l Hl%Hin%Hall; apply Hsome|].
  rewrite <- Hlen. apply submseteq_length, NoDup_submseteq; [apply Hok|].
  by intros l Hl%Hin%Hall.
Qed.

(** *** get_route *)

Lemma add_hosts_live lb vec : forall rsp,
  (forall l, l ∈ vec -> is_Some (hosts lb !! l)) ->
  add_hosts lb vec rsp = Ret (lbrss.mkGetRouteResponse (lbrss.grs_modid rsp)
    (lbrss.grs_cmdid rsp) (lbrss.grs_host rsp ++ (host_msg <$> live lb vec))).
Proof.
  unfold add_hosts. induction vec as [|l vec IH]; intros rsp Hl.
  { cbn. rewrite app_nil_r. by destruct rsp. }
  destruct (Hl l) as [h Hh]; [by left|]. cbn [foldl mbind res_bind]. unfold host_at at 2.
  rewrite Hh. cbn [mbind res_bind]. rewrite IH by (intros; apply Hl; by right).
  unfold live. cbn [omap list_omap]. rewrite Hh.
  cbn [fmap list_fmap add_host lbrss.grs_host lbrss.grs_modid lbrss.grs_cmdid].
  by rewrite <- app_assoc.
Qed.

(** The answer to a question for a route: all hosts of the pair. *)
Definition route_reply (hs : option (gset Z)) (modid cmdid : Z) (rsp : lbrss.GetRouteResponse)
    : Prop :=
  lbrss.grs_modid rsp = modid /\ lbrss.grs_cmdid rsp = cmdid /\
  rsp_keys rsp = default ∅ hs /\ length (lbrss.grs_host rsp) = size (default ∅ hs) /\
  Forall (fun h => is_i32 (lbrss.hi_ip h) /\ is_i32 (lbrss.hi_port h)) (lbrss.grs_host rsp) /\
  Z.of_nat (length (lbrss.grs_host rsp)) <= AGENT_HOSTS.

Lemma get_route_known now junk modid cmdid n (q : DnsQueue) rl :
  let key := pack64 modid cmdid in
  rl_inv n rl -> 0 <= junk <= n -> is_i32 modid -> is_i32 cmdid ->
  exists ret rsp q' rl' reqs,
    get_route cfg now junk modid cmdid (lbrss.mkGetRouteResponse modid cmdid []) (Some q) rl
      = Ret (ret, rsp, Some q', rl') /\
    rl_inv n rl' /\ known rl' = track key (known rl) /\
    queue q' = queue q ++ reqs /\ asks (known rl !! key) modid cmdid reqs /\
    route_reply (known rl !! key) modid cmdid rsp.
Proof.
  intros key [Hr Ht] Hj Hm Hc. unfold get_route, track. fold key. rewrite known_lookup.
  destruct (route_lb_map_ rl !! key) as [lb|] eqn:Ek; cbn [fmap option_fmap option_map].
  - pose proof (Hr _ _ Ek) as Hfit. pose proof (Ht _ _ Ek) as Htl. cbn in Hfit, Htl.
    destruct (all_hosts_live lb (proj1 Hfit)) as (Hin & Hsome & Hlen).
    rewrite add_hosts_live by done. cbn [mbind res_bind lbrss.grs_modid lbrss.grs_cmdid
      lbrss.grs_host app].
    destruct (pull_known now n modid cmdid q lb) as (q' & lb' & reqs & -> & Hf' & Hs & Hq & Ha);
      [done..|]. cbn [mbind res_bind].
    destruct (set_same n key lb lb' rl) as [Hi Hkn]; [done..|].
    eexists _, _, q', _, reqs. split; [reflexivity|]. do 4 (split; [done|]).
    pose proof (live_length _ _ Hsome) as Hll. pose proof (lt_size _ _ Htl).
    unfold route_reply. cbn [lbrss.grs_modid lbrss.grs_cmdid lbrss.grs_host default from_option id].
    split_and!; [done|done| | | |].
    + unfold rsp_keys. cbn [lbrss.grs_host]. rewrite <- list_fmap_compose.
      rewrite <- (live_keys lb _ (proj1 Hfit) Hin). f_equal. apply list_fmap_ext.
      intros _ h _. apply host_msg_key.
    + rewrite length_fmap, Hll, Hlen. by rewrite size_dom.
    + apply Forall_fmap. eapply Forall_impl; [by apply (live_typed key)|]. intros h (? & _).
      split; [apply i32_is|done].
    + rewrite length_fmap, Hll, Hlen. done.
  - destruct (new_known n modid cmdid junk q rl) as (q' & rl' & -> & Hi & Hkn & Hq); [done..|].
    cbn [mbind res_bind]. eexists _, _, q', rl', _. split; [reflexivity|].
    split; [done|]. split; [done|]. split; [done|]. split; [done|].
    unfold route_reply, rsp_keys, AGENT_HOSTS. cbn. by split_and!.
Qed.

(** *** report_host *)

Definition result_of (over : bool) (h : HostInfo.HostInfo) : lbrss.HostCallResult :=
  lbrss.mkHostCallResult (i32 (ip h)) (port h) (rsucc h) (rerr h) over.
Definition result_key (r : lbrss.HostCallResult) : Z :=
  pack64 (lbrss.hcr_ip r) (lbrss.hcr_port r).

Lemma result_host_key over h : result_key (result_of over h) = host_key h.
Proof. exact (host_msg_key h). Qed.

Lemma call_results_live over lb ls :
  (forall l, l ∈ ls -> is_Some (hosts lb !! l)) ->
  call_results over lb ls = Ret (result_of over <$> live lb ls).
Proof.
  induction ls as [|l ls IH]; intros Hl; [done|].
  destruct (Hl l) as [h Hh]; [by left|].
  change (call_results over lb (l :: ls)) with
    (hi ← host_at l lb; rs ← call_results over lb ls;
     Ret (lbrss.mkHostCallResult (i32 (ip hi)) (port hi) (rsucc hi) (rerr hi) over :: rs)).
  unfold host_at. rewrite Hh, IH by (intros; apply Hl; by right).
  unfold live. cbn [omap list_omap]. by rewrite Hh.
Qed.

Definition result_typed (r : lbrss.HostCallResult) : Prop :=
  is_i32 (lbrss.hcr_ip r) /\ is_i32 (lbrss.hcr_port r) /\ is_u32 (lbrss.hcr_succ r) /\
  is_u32 (lbrss.hcr_err r).

(** The report on a pair: one result for each of its hosts. *)
Definition reported (now : Z) (ks : gset Z) (modid cmdid : Z) (r : lbrss.ReportStatusRequest)
    : Prop :=
  lbrss.rsr_modid r = modid /\ lbrss.rsr_cmdid r = cmdid /\
  lbrss.rsr_caller r = i32 (local_ip cfg) /\ lbrss.rsr_ts r = u32 now /\
  list_to_set (result_key <$> lbrss.rsr_results r) = ks /\
  (length (lbrss.rsr_results r) <= size ks)%nat /\
  Forall result_typed (lbrss.rsr_results r) /\ Z.of_nat (length (lbrss.rsr_results r)) <=
    AGENT_HOSTS.

(** The reports that a caller's report leads to. *)
Definition reports (now : Z) (hs : option (gset Z)) (modid cmdid : Z)
    (rs : list lbrss.ReportStatusRequest) : Prop :=
  if bool_decide (default ∅ hs = ∅) then rs = []
  else exists r, rs = [r] /\ reported now (default ∅ hs) modid cmdid r.

Lemma result_of_typed over h : host_typed h -> result_typed (result_of over h).
Proof. intros (? & ? & ?). split_and!; [apply i32_is|done..]. Qed.

Lemma commit_known now modid cmdid (q : ReportQueue) lb :
  lb_ok lb -> lb_typed (pack64 modid cmdid) lb -> is_i32 modid -> is_i32 cmdid ->
  exists q' rs, commit cfg now (Some q) lb = Ret (Some q') /\ queue q' = queue q ++ rs /\
    reports now (Some (dom (view lb))) modid cmdid rs.
Proof.
  intros Hok Ht Hm Hc. unfold commit, reports. cbn [default from_option id].
  rewrite empty_dom by done. case_bool_decide as He.
  { exists q, []. by rewrite app_nil_r. }
  destruct (lists_live lb Hok) as (Hin & Hsome & Hlen).
  rewrite !call_results_live by (intros; apply Hsome, elem_of_app; tauto).
  cbn [mbind res_bind]. eexists _, _. split; [reflexivity|]. split; [reflexivity|].
  eexists. split; [reflexivity|].
  destruct (key_inj _ _ modid cmdid Ht eq_refl Hm Hc) as [Em Ec].
  unfold reported. cbn [lbrss.rsr_modid lbrss.rsr_cmdid lbrss.rsr_caller lbrss.rsr_ts
    lbrss.rsr_results].
  assert (Hl : length ((result_of false <$> live lb (idle_list_ lb)) ++
    (result_of true <$> live lb (overload_list_ lb))) = length
      (idle_list_ lb ++ overload_list_ lb)).
  { rewrite !length_app, !length_fmap, !live_length; [done|..];
      (intros; apply Hsome, elem_of_app; tauto). }
  pose proof (lt_size _ _ Ht). split_and!; [done..| | | |].
  - rewrite fmap_app, <- !list_fmap_compose.
    rewrite <- (live_keys lb _ Hok Hin). unfold live at 3. rewrite omap_app, fmap_app. f_equal.
    f_equal; apply list_fmap_ext; intros _ h _; apply result_host_key.
  - rewrite Hl, size_dom. done.
  - apply Forall_app; split; apply Forall_fmap; (eapply Forall_impl;
      [by eapply live_typed|]); intros h ?; by apply result_of_typed.
  - rewrite Hl. lia.
Qed.

Lemma count_call_typed ret h : host_typed h -> host_typed (count_call ret h).
Proof.
  intros (Hp & Hs & He). unfold count_call. destruct (ret =? RET_SUCC); split_and!; cbn;
    (done || apply u32_is).
Qed.

Lemma set_idle_typed now h : host_typed h -> host_typed (set_idle cfg now h).
Proof. intros (Hp & _). split_and!; cbn; [done|unfold is_u32; lia..]. Qed.

Lemma set_overload_typed now h : host_typed h -> host_typed (set_overload cfg now h).
Proof. intros (Hp & _). split_and!; cbn; [done|unfold is_u32; lia..]. Qed.

(** [report] changes one host in place and moves it between the lists. *)
Lemma report_typed ct now ip port ret lb lb' :
  report cfg ct now ip port ret lb = Ret lb' ->
  map_Forall (fun _ h => host_typed h) (hosts lb) ->
  modid_ lb' = modid_ lb /\ cmdid_ lb' = cmdid_ lb /\
  map_Forall (fun _ h => host_typed h) (hosts lb').
Proof.
  intros Hr Hh. unfold report in Hr. destruct (host_map_ lb !! _) as [l|]; [|by injection Hr as <-].
  unfold host_at in Hr. destruct (hosts lb !! l) as [h|] eqn:El; [|done].
  cbn [mbind res_bind] in Hr. pose proof (count_call_typed ret h (Hh _ _ El)) as Hc.
  pose proof (set_idle_typed now _ Hc). pose proof (set_overload_typed now _ Hc).
  unfold window_check, to_idle, to_overload in Hr.
  repeat case_match; injection Hr as <-; cbn; (split; [done|]; split; [done|]);
    repeat (apply map_Forall_insert_2; [done|]); done.
Qed.

Lemma report_known ct now req n (q : ReportQueue) rl :
  let key := pack64 (lbrss.rr_modid req) (lbrss.rr_cmdid req) in
  rl_inv n rl -> is_i32 (lbrss.rr_modid req) -> is_i32 (lbrss.rr_cmdid req) ->
  exists q' rl' rs, report_host cfg ct now req (Some q) rl = Ret (Some q', rl') /\
    rl_inv n rl' /\ known rl' = known rl /\ queue q' = queue q ++ rs /\
    reports now (known rl !! key) (lbrss.rr_modid req) (lbrss.rr_cmdid req) rs.
Proof.
  intros key [Hr Ht] Hm Hc. unfold report_host. fold key. rewrite known_lookup.
  destruct (route_lb_map_ rl !! key) as [lb|] eqn:Ek; cbn [fmap option_fmap option_map].
  2: { exists q, rl, []. rewrite app_nil_r. unfold reports. cbn. by rewrite bool_decide_eq_true_2. }
  pose proof (Hr _ _ Ek) as Hfit. pose proof (Ht _ _ Ek) as Htl. cbn in Hfit, Htl.
  pose proof Hfit as (Hok & Ha & Hs).
  set (hip := lbrss.hi_ip _). set (hport := lbrss.hi_port _).
  destruct (report_step cfg ct now hip hport (lbrss.rr_retcode req) lb Hok)
    as (lb' & Er & Hok' & Hv & Hmap & _). rewrite Er. cbn [mbind res_bind].
  assert (Hd : dom (view lb') = dom (view lb)) by (rewrite Hv; apply dom_alter_L).
  destruct (report_typed _ _ _ _ _ _ _ Er (lt_hosts _ _ Htl)) as (Em & Ec & Hh).
  apply report_frame in Er as (Eac & Est & Emp).
  assert (Htl' : lb_typed key lb').
  { destruct Htl as [? ? ? Hsz _]. split; [by rewrite Em, Ec|by rewrite Em|by rewrite Ec| |done].
    rewrite <- (size_dom (D := gset Z)), Hd, size_dom. done. }
  destruct (commit_known now _ _ q lb' Hok' Htl' Hm Hc) as (q' & rs & -> & Hq & Hrs).
  cbn [mbind res_bind]. eexists q', _, rs. split; [reflexivity|]. rewrite Hd in Hrs.
  assert (Hf' : lb_fit n lb').
  { split; [done|]. split; [lia|]. rewrite Est. intros He. apply Hs. revert He.
    unfold empty. by rewrite Emp. }
  split; [split|split; [|done]].
  - by apply set_lb_ok.
  - by apply map_Forall_insert_2.
  - rewrite known_set, Hd. apply insert_id. by rewrite known_lookup, Ek.
Qed.

(** *** update_host *)

(** What an answer of the dns service makes of the map. *)
Definition take_answer (key : Z) (rsp : lbrss.GetRouteResponse) (kn : gmap Z (gset Z))
    : gmap Z (gset Z) :=
  match kn !! key with
  | None => kn
  | Some _ =>
      if bool_decide (lbrss.grs_host rsp = []) then delete key kn
      else <[key := rsp_keys rsp]> kn
  end.

(** The answer drops none of the hosts, or all of them (see [removed_host_faults]). *)
Definition answer_grows (key : Z) (rsp : lbrss.GetRouteResponse) (kn : gmap Z (gset Z)) : Prop :=
  forall ks, kn !! key = Some ks -> lbrss.grs_host rsp = [] \/ ks ⊆ rsp_keys rsp.

Definition hosts_typed (rsp : lbrss.GetRouteResponse) : Prop :=
  Forall (fun h => is_i32 (lbrss.hi_port h)) (lbrss.grs_host rsp) /\
  Z.of_nat (length (lbrss.grs_host rsp)) <= AGENT_HOSTS.

Lemma insert_hosts_typed junk ms : forall st,
  Forall (fun h => is_i32 (lbrss.hi_port h)) ms ->
  map_Forall (fun _ h => host_typed h) (hosts st.1) ->
  let lb' := (insert_hosts cfg junk ms st).1 in
  modid_ lb' = modid_ st.1 /\ cmdid_ lb' = cmdid_ st.1 /\
  map_Forall (fun _ h => host_typed h) (hosts lb').
Proof.
  induction ms as [|m ms IH]; intros [lb seen] Hm Hh; [done|].
  apply Forall_cons in Hm as [Hp Hm]. cbn [fst] in Hh.
  change (insert_hosts cfg junk (m :: ms) (lb, seen)) with
    (insert_hosts cfg junk ms (insert_host cfg junk m (lb, seen))).
  destruct (insert_host cfg junk m (lb, seen)) as [lb1 seen1] eqn:Ei.
  assert (H1 : modid_ lb1 = modid_ lb /\ cmdid_ lb1 = cmdid_ lb /\
    map_Forall (fun _ h => host_typed h) (hosts lb1)).
  { unfold insert_host in Ei. destruct (host_map_ lb !! _); injection Ei as <- <-; [done|].
    cbn. split; [done|]. split; [done|]. apply map_Forall_insert_2; [|done].
    split_and!; cbn; [done|unfold is_u32; lia..]. }
  destruct H1 as (E1 & E2 & Hh1). destruct (IH (lb1, seen1) Hm Hh1) as (E3 & E4 & Hh').
  cbn [fst] in *. split_and!; [congruence|congruence|done].
Qed.

Lemma delete_hosts_typed ks : forall lb lb',
  delete_hosts ks lb = Ret lb' ->
  map_Forall (fun _ h => host_typed h) (hosts lb) ->
  modid_ lb' = modid_ lb /\ cmdid_ lb' = cmdid_ lb /\
  map_Forall (fun _ h => host_typed h) (hosts lb').
Proof.
  induction ks as [|k ks IH]; intros lb lb'; cbn; [by intros [= <-]|].
  unfold delete_host, host_at. destruct (host_map_ lb !! k); [|done].
  destruct (hosts lb !! _) as [h|]; [|done]. cbn [mbind res_bind]. intros Hd Hh.
  apply IH in Hd; [|destruct (overload h); cbn; by apply map_Forall_delete].
  by destruct (overload h).
Qed.

Lemma update_typed now junk rsp lb lb' :
  update cfg now junk rsp lb = Ret lb' ->
  Forall (fun h => is_i32 (lbrss.hi_port h)) (lbrss.grs_host rsp) ->
  map_Forall (fun _ h => host_typed h) (hosts lb) ->
  modid_ lb' = modid_ lb /\ cmdid_ lb' = cmdid_ lb /\
  map_Forall (fun _ h => host_typed h) (hosts lb').
Proof.
  unfold update. intros Hu Hm Hh. destruct (c_assert _); [|done]. cbn [mbind res_bind] in Hu.
  pose proof (insert_hosts_typed junk (lbrss.grs_host rsp) (lb, ∅) Hm Hh) as Hi.
  destruct (insert_hosts _ _ _ _) as [lb1 seen]. destruct Hi as (E1 & E2 & Hh1).
  destruct (delete_hosts _ lb1) as [lb2|] eqn:Ed; [|done]. cbn [mbind res_bind] in Hu.
  injection Hu as <-. apply delete_hosts_typed in Ed as (E3 & E4 & Hh2); [|done].
  cbn in *. split_and!; [congruence|congruence|done].
Qed.

Lemma update_known now junk modid cmdid rsp n rl :
  let key := pack64 modid cmdid in
  rl_inv n rl -> hosts_typed rsp -> answer_grows key rsp (known rl) ->
  exists rl', update_host cfg now junk modid cmdid rsp rl = Ret rl' /\ rl_inv n rl' /\
    known rl' = take_answer key rsp (known rl).
Proof.
  intros key [Hr Ht] [Hp Hlen] Hg.
  destruct (update_host_total cfg now junk modid cmdid rsp n rl Hr) as (rl' & Eu & Hr').
  { intros lb Hlb. apply Hg. rewrite known_lookup. unfold key. by rewrite Hlb. }
  exists rl'. split; [done|]. unfold update_host in Eu. fold key in Eu. unfold take_answer.
  rewrite known_lookup. destruct (route_lb_map_ rl !! key) as [lb|] eqn:Ek;
    cbn [fmap option_fmap option_map].
  2: { by injection Eu as <-. }
  pose proof (Ht _ _ Ek) as Htl. cbn in Htl. pose proof (proj1 (Hr _ _ Ek)) as Hok.
  case_bool_decide as He; rewrite ?bool_decide_eq_true_2, ?bool_decide_eq_false_2 in Eu by done.
  - injection Eu as <-. split; [split; [done|]|].
    + by apply map_Forall_delete.
    + unfold known. cbn. by rewrite fmap_delete.
  - destruct (update cfg now junk rsp lb) as [lb'|] eqn:Eup; [|done]. injection Eu as <-.
    destruct (update_step cfg now junk rsp lb Hok He) as (lb2 & E2 & _ & _ & Hd & _).
    rewrite Eup in E2. injection E2 as <-. rewrite known_set, Hd. split; [split; [done|]|done].
    apply update_typed in Eup as (Em & Ec & Hh); [|done|apply Htl].
    apply map_Forall_insert_2; [|done]. destruct Htl as [? ? ? _ _].
    split; [by rewrite Em, Ec|by rewrite Em|by rewrite Ec| |done].
    rewrite <- (size_dom (D := gset Z)), Hd. unfold rsp_keys.
    pose proof (size_list_to_set_le (msg_key <$> lbrss.grs_host rsp)) as Hsz.
    rewrite length_fmap in Hsz. lia.
Qed.
End Calls.

(** ** The messages *)

Section Messages.
Context `{PL : PbLaws}.

Lemma host_reply_wire hs seq modid cmdid rsp :
  is_u32 seq -> is_i32 modid -> is_i32 cmdid ->
  host_reply hs (lbrss.mkGetHostResponse seq modid cmdid 0 None) rsp ->
  wire_ok rsp /\ Z.of_nat (length (SerializeToString rsp)) <= 67.
Proof.
  intros Hs Hm Hc (E1 & E2 & E3 & Hr). apply response_wire. unfold GetHostResponse_ok.
  cbn [hs_host_ hs_seq_ hs_modid_ hs_cmdid_ hs_retcode_ GetHostResponse_of].
  cbn [lbrss.ghs_seq lbrss.ghs_modid lbrss.ghs_cmdid lbrss.ghs_host] in E1, E2, E3, Hr.
  rewrite E1, E2, E3.
  case_bool_decide; [destruct Hr as [-> ->]|destruct Hr as [[-> ->]|(-> & h & -> & Hi & Hp & _)]];
    (split_and!; [done..|unfold is_i32; by vm_compute]).
Qed.

Lemma route_reply_wire hs modid cmdid rsp :
  is_i32 modid -> is_i32 cmdid -> route_reply hs modid cmdid rsp ->
  wire_ok rsp /\ Z.of_nat (length (SerializeToString rsp)) <= 65519.
Proof.
  intros Hm Hc (E1 & E2 & _ & _ & Ht & Hl). unfold AGENT_HOSTS in Hl.
  set (m := GetRouteResponse_of rsp).
  assert (Hh : Forall HostInfo_ok (gs_host_ m)) by (by apply Forall_fmap).
  assert (Hok : GetRouteResponse_ok m) by (split; [done|cbn; by rewrite E1, E2]).
  assert (Hs : 0 <= (GetRouteResponse_ByteSizeLong m).1 <= 65519).
  { unfold GetRouteResponse_ByteSizeLong. cbn [fst gs_metadata gs_host_ gs_modid_ gs_cmdid_ m
      GetRouteResponse_of]. rewrite E1, E2. unfold size_total. rewrite have_unknown_empty.
    pose proof (size_repeated_hosts (HostInfo_of <$> lbrss.grs_host rsp)) as Hs.
    rewrite length_fmap in Hs. pose proof (size_int32_range _ Hm).
    pose proof (size_int32_range _ Hc).
    assert (Hf : Forall (fun h => HostInfo_ok h /\ hi_metadata h = ufs_empty)
      (HostInfo_of <$> lbrss.grs_host rsp)).
    { apply Forall_fmap. eapply Forall_impl; [exact Ht|]. by intros h ?. }
    specialize (Hs Hf). lia. }
  assert (Hsm : small_len (GetRouteResponse_ByteSizeLong m).1) by (unfold small_len; lia).
  split; [by split|].
  change (SerializeToString rsp) with (SerializeMessage GetRouteResponse_ByteSizeLong
    GetRouteResponse_InternalSerialize m).
  rewrite SerializeMessage_runs, GetRouteResponse_size_write by done. lia.
Qed.

(** A report on a pair with hosts is one that the reporter takes. *)
Lemma reported_reportable cfg now ks modid cmdid r :
  is_i32 modid -> is_i32 cmdid -> ks <> ∅ -> reported cfg now ks modid cmdid r -> reportable r.
Proof.
  intros Hm Hc Hne (E1 & E2 & E3 & E4 & E5 & _ & Ht & Hl). unfold AGENT_HOSTS in Hl.
  set (m := ReportStatusRequest_of r).
  assert (Hh : Forall HostCallResult_ok (sr_results_ m)) by (by apply Forall_fmap).
  assert (Hcl : is_i32 (lbrss.rsr_caller r)) by (rewrite E3; apply i32_is).
  assert (Hts : is_u32 (lbrss.rsr_ts r)) by (rewrite E4; apply u32_is).
  assert (Hok : ReportStatusRequest_ok m)
    by (split; [done|]; cbn; rewrite E1, E2; split_and!; done).
  assert (Hpos : (0 < length (lbrss.rsr_results r))%nat).
  { destruct (lbrss.rsr_results r); [by rewrite <- E5 in Hne|cbn; lia]. }
  assert (Hs : 0 < (ReportStatusRequest_ByteSizeLong m).1 <= MESSAGE_LENGTH_LIMIT).
  { unfold ReportStatusRequest_ByteSizeLong. cbn [fst sr_metadata sr_results_ sr_modid_ sr_cmdid_
      sr_caller_ sr_ts_ m ReportStatusRequest_of]. rewrite E1, E2. unfold size_total.
    rewrite have_unknown_empty.
    pose proof (size_repeated_max HostCallResult_ByteSizeLong 36
      (HostCallResult_of <$> lbrss.rsr_results r) ltac:(lia)) as Hs.
    rewrite length_fmap in Hs.
    assert (Hf : Forall (fun a => 0 <= (HostCallResult_ByteSizeLong a).1 <= 36)
      (HostCallResult_of <$> lbrss.rsr_results r)).
    { apply Forall_fmap. eapply Forall_impl; [exact Ht|]. intros a Ha.
      by apply HostCallResult_size_max. }
    specialize (Hs Hf). pose proof (size_int32_range _ Hm). pose proof (size_int32_range _ Hc).
    pose proof (size_int32_range _ Hcl). pose proof (size_uint32_range _ Hts).
    unfold MESSAGE_LENGTH_LIMIT, MESSAGE_HEAD_LEN. lia. }
  unfold MESSAGE_LENGTH_LIMIT, MESSAGE_HEAD_LEN in Hs.
  assert (Hsm : small_len (ReportStatusRequest_ByteSizeLong m).1) by (unfold small_len; lia).
  split; [by split|].
  change (SerializeToString r) with (SerializeMessage ReportStatusRequest_ByteSizeLong
    ReportStatusRequest_InternalSerialize m).
  rewrite SerializeMessage_runs, ReportStatusRequest_size_write by done.
  unfold MESSAGE_LENGTH_LIMIT, MESSAGE_HEAD_LEN. lia.
Qed.

(** What the parsers leave is typed. *)
Lemma host_request_parsed (bs : list byte) :
  let req := ParseFromArray (A := lbrss.GetHostRequest) bs in
  is_u32 (lbrss.ghq_seq req) /\ is_i32 (lbrss.ghq_modid req) /\ is_i32 (lbrss.ghq_cmdid req).
Proof.
  cbv zeta. assert (Hok := parsed_ok (X := GetHostRequest) bs).
  apply Hok; [|apply GetHostRequest_keeps].
  change (GetHostRequest_ok (GetHostRequest_Clear GetHostRequest_new)).
  unfold GetHostRequest_ok, is_i32, is_u32. cbn. lia.
Qed.

Lemma report_request_parsed (bs : list byte) :
  let req := ParseFromArray (A := lbrss.ReportRequest) bs in
  is_i32 (lbrss.rr_modid req) /\ is_i32 (lbrss.rr_cmdid req).
Proof.
  cbv zeta. assert (Hok := parsed_ok (X := ReportRequest) bs).
  assert (Hr : ReportRequest_ok (ParseWhole ReportRequest_Clear ReportRequest_InternalParse
    ReportRequest_new bs).1).
  { apply Hok; [|apply ReportRequest_keeps].
    change (ReportRequest_ok (ReportRequest_Clear ReportRequest_new)).
    unfold ReportRequest_ok, is_i32. cbn. lia. }
  unfold ReportRequest_ok in Hr. naive_solver.
Qed.

Lemma route_response_parsed (bs : list byte) :
  let rsp := ParseFromArray (A := lbrss.GetRouteResponse) bs in
  is_i32 (lbrss.grs_modid rsp) /\ is_i32 (lbrss.grs_cmdid rsp) /\
  Forall (fun h => is_i32 (lbrss.hi_port h)) (lbrss.grs_host rsp).
Proof.
  cbv zeta. assert (Hok := parsed_ok (X := GetRouteResponse) bs).
  assert (Hr : GetRouteResponse_ok (ParseWhole GetRouteResponse_Clear GetRouteResponse_InternalParse
    GetRouteResponse_new bs).1).
  { apply Hok; [|apply GetRouteResponse_keeps].
    change (GetRouteResponse_ok (GetRouteResponse_Clear GetRouteResponse_new)).
    unfold GetRouteResponse_ok, is_i32. cbn. split; [constructor|lia]. }
  destruct Hr as (Hh & Hm & Hc). split; [exact Hm|]. split; [exact Hc|].
  change (lbrss.grs_host _) with (HostInfo_value <$> gs_host_ (ParseWhole GetRouteResponse_Clear
    GetRouteResponse_InternalParse GetRouteResponse_new bs).1).
  apply Forall_fmap. eapply Forall_impl; [exact Hh|]. by intros h [_ ?].
Qed.
End Messages.
