(* ===== verification/AgentService.v ===== *)
(** * AgentService: the agent from [main] on (lb_agent/src/main_server.cpp,
    agent_udp_server.cpp, dns_client.cpp, reporter_client.cpp)

    The five threads of the agent on their shared state: three UDP servers, each
    with its balancers, the dns client and the report client with their queues.
    A step is one callback of one thread; a read of several datagrams is the
    steps for each of them ([do_read_split]).  The specification ([astep]) is an
    agent without buffers, loops and counters: of each pair the hosts, the
    requests and reports that wait, what has been answered, and of each of the
    two connections the bytes. *)

From S2P Require Import Prelude CInt HashOrder.
From S2P Require Import Mem IOBuf ReactorBuf Message EventLoop ThreadQueue NetState Framing.
From S2P Require Import TcpConnInv ServerLoop.
From S2P Require Import TcpClientSpec.
From S2P Require TcpClient.
From S2P Require Udp.
From S2P Require Import ConfigFile ConfigFloat.
From S2P Require Import Protobuf.
From S2P Require Import Varint.
From S2P Require Import LbrssPb.
From S2P Require Import Proto.
From S2P Require Import LbrssPbSpec LbrssPbTypes.
From S2P Require Import HostInfo LoadBalance.
From S2P Require Import LoadBalanceUpdate RouteLB RouteLBSpec.
From S2P Require Import Links ClientLoop RouteTrip ReportTrip.
From S2P Require Import Setup AgentSpec.
From stdpp Require Import strings.
From Stdlib Require Import Strings.Byte.
Import Pb PbWire.
Local Open Scope Z_scope.

(** ** The process *)

(** What [epoll_wait] reports in a client's thread, with what the kernel answers
    then: the queue has something; data, with what a reconnection would meet;
    room for output. *)
Inductive cli_event : Type :=
  | CQueue (fd m : Z)
  | CData (fd m : Z) (data : list byte) (rs : list rd_ans) (a : TcpClient.sock_ans)
  | CWrite (fd m : Z) (ws : list wr_ans) (cs : list TcpClient.sock_ans).

Definition cli_fired (e : cli_event) : Z * Z :=
  match e with CQueue fd m | CData fd m _ _ _ | CWrite fd m _ _ => (fd, m) end.

Definition cli_answers (e : cli_event) : list cli_answer :=
  match e with
  | CQueue _ _ => []
  | CData _ _ data rs a => [CliRead (Some (Z.of_nat (length data))) (RdData data :: rs) a]
  | CWrite _ _ ws cs => [CliWrite ws cs]
  end.

(** One event of one thread, with the clocks: a datagram [d] from [from] at
    server [i] ([junk] is the [access_cnt_] of a new balancer, [ok] whether
    [sendto] succeeds); an event of the dns client ([junk] the members of a new
    host); one of the report client. *)
Inductive agent_item (ADDR : Type) : Type :=
  | IDatagram (i : nat) (fd m ct now junk : Z) (ok : bool) (from : ADDR) (d : list byte)
  | IDns (e : cli_event) (now : Z) (junk : loc -> Z * Z)
  | IReporter (e : cli_event).
Arguments IDatagram {ADDR} i fd m ct now junk ok from d.
Arguments IDns {ADDR} e now junk.
Arguments IReporter {ADDR} e.

Section Process.
Context {E F LOOP ADDR : Type} `{Epoll E} `{EventFd F} `{PB : PbRuntime}.
Context `{HO : HashOrder}.
Local Abbreviation Agent := (Agent F LOOP).
Local Abbreviation Server := (Udp.Udp ADDR agent_v Agent).
Local Abbreviation Loop := (EventLoop udp_cb udp_arg unit E).
Local Abbreviation DnsThread := (CliThread E dnsc_v Agent).
Local Abbreviation RepThread := (CliThread E repc_v Agent).

(** A thread of [agent_server_main], after it is set up. *)
Record UdpThread : Type := mkUdpThread {
  ut_port : Z;
  ut_fd : Z;
  ut_srv : Server;
  ut_loop : Loop
}.

Definition set_utloop (L : Loop) (t : UdpThread) : UdpThread :=
  mkUdpThread (ut_port t) (ut_fd t) (ut_srv t) L.
Definition set_utsrv (s : Server) (t : UdpThread) : UdpThread :=
  mkUdpThread (ut_port t) (ut_fd t) s (ut_loop t).

(** The globals and the threads; the threads' own copies of the globals are
    replaced by the shared ones when a thread runs. *)
Record Process : Type := mkProcess {
  pr_agent : Agent;
  pr_udp : list UdpThread;
  pr_dns : DnsThread;
  pr_rep : RepThread
}.

Context (cfg : LBConfig).

(** The callback on a UDP server's loop. *)
Definition agent_udp_cb (ct now junk : Z) (ok : bool) (answers : list (Udp.recv_ans ADDR))
    (cb : udp_cb) (fd : Z) (arg : option udp_arg) (t : UdpThread) : res UdpThread :=
  match cb, arg with
  | udp_read_callback, Some this_server =>
      '(s, _) ← Udp.do_read (agent_msg cfg ct now junk ok) answers [] (ut_srv t);
      Ret (set_utsrv s t)
  | _, None => Fault NullDeref
  end.

(** No thread of the agent has tasks. *)
Definition no_task {A W : Type} (t : A) (w : W) : res W := Fault NullDeref.

Definition udp_turn (ct now junk : Z) (ok : bool) (answers : list (Udp.recv_ans ADDR))
    (fired : list (Z * Z)) (t : UdpThread) : res UdpThread :=
  event_process ut_loop set_utloop (agent_udp_cb ct now junk ok answers) no_task fired t.

(** The callbacks of the queues. *)
Definition dns_user (cb : dnsc_v) (w : TcpClient.Cli E dnsc_v Agent)
    : res (TcpClient.Cli E dnsc_v Agent) :=
  match cb with new_dns_request_f => client_request w | _ => Fault NullDeref end.

Definition rep_user (cb : repc_v) (w : TcpClient.Cli E repc_v Agent)
    : res (TcpClient.Cli E repc_v Agent) :=
  match cb with new_report_request_f => report_request w end.

(** The report client has no handlers. *)
Definition repc_msg (cb : repc_v) (data : option (list byte)) (len id : Z) (arg : option repc_v)
    (w : TcpClient.Cli E repc_v Agent) : res (TcpClient.Cli E repc_v Agent) := Fault NullDeref.

Definition dns_turn (now : Z) (junk : loc -> Z * Z) (fired : list (Z * Z)) (t : DnsThread)
    : res DnsThread :=
  cli_turn (client_msg cfg now junk) client_hook dns_user no_task fired t.

Definition rep_turn (fired : list (Z * Z)) (t : RepThread) : res RepThread :=
  cli_turn repc_msg repc_hook rep_user no_task fired t.

(** A client's thread on the shared globals. *)
Definition on_agent {V : Type} (ag : Agent) (t : CliThread E V Agent) : CliThread E V Agent :=
  mkCliThread (TcpClient.set_cuser ag (ct_cli t)) (ct_in t) (ct_calls t) (ct_sent t).
Definition thread_agent {V : Type} (t : CliThread E V Agent) : Agent :=
  TcpClient.cl_user (ct_cli t).

(** One step of one thread. *)
Definition agent_step (it : agent_item ADDR) (p : Process) : res Process :=
  match it with
  | IDatagram i fd m ct now junk ok from d =>
      match pr_udp p !! i with
      | None => Fault Blocked
      | Some t =>
          t ← udp_turn ct now junk ok [Udp.RecvData d from; Udp.RecvErr EAGAIN] [(fd, m)]
                (set_utsrv (set_user (pr_agent p) (ut_srv t)) t);
          Ret (mkProcess (Udp.u_user (ut_srv t)) (<[i := t]> (pr_udp p)) (pr_dns p) (pr_rep p))
      end
  | IDns e now junk =>
      t ← dns_turn now junk [cli_fired e]
            (with_cli_answers (cli_answers e) (on_agent (pr_agent p) (pr_dns p)));
      Ret (mkProcess (thread_agent t) (pr_udp p) t (pr_rep p))
  | IReporter e =>
      t ← rep_turn [cli_fired e]
            (with_cli_answers (cli_answers e) (on_agent (pr_agent p) (pr_rep p)));
      Ret (mkProcess (thread_agent t) (pr_udp p) (pr_dns p) t)
  end.

Fixpoint agent_steps (its : list (agent_item ADDR)) (p : Process) : res Process :=
  match its with
  | [] => Ret p
  | it :: its => p ← agent_step it p; agent_steps its p
  end.
End Process.
Arguments UdpThread : clear implicits.
Arguments Process : clear implicits.

(** ** The start *)

Section Start.
Context {E F LOOP ADDR : Type} `{Epoll E} `{EventFd F} `{PB : PbRuntime}.
Context `{HO : HashOrder}.
Local Abbreviation Agent := (Agent F LOOP).
Local Abbreviation UdpThread := (UdpThread E F LOOP ADDR).
Local Abbreviation Process := (Process E F LOOP ADDR).
Variable evfd_num : F -> Z.

(** [start_UDP_servers]: for each server what [epoll_create1] and [socket]
    return, and what its buffer holds; [zero] is the address of zero bytes. *)
Fixpoint start_UDP_servers (index start_port : Z) (zero : ADDR)
    (us : list (option E * option Z * list byte)) : res (list UdpThread) :=
  match us with
  | [] => Ret []
  | (ep, sock, buf) :: us =>
      '(port, w, L) ← agent_server_main index start_port ep true true sock buf zero init_agent;
      ts ← start_UDP_servers (index + 1) start_port zero us;
      Ret (mkUdpThread port (default (-1) sock) w L :: ts)
  end.

(** A connection that is under way is established: its socket is writable, without error. *)
Definition established {V : Type} (turn : list (Z * Z) -> CliThread E V Agent -> res
  (CliThread E V Agent))
    (a : TcpClient.sock_ans) (w : TcpClient.Cli E V Agent) : res (CliThread E V Agent) :=
  match a with
  | (Some fd, TcpClient.ConnErr EINPROGRESS) =>
      turn [(fd, EPOLLOUT)] (mkCliThread w [CliConnect 0] [] [])
  | _ => Ret (mkCliThread w [] [] [])
  end.

(** [main] of the agent and its threads, up to their loops, and the two
    connections: [host] is the machine's own address, [rfd] and [dfd] are the
    eventfds of the queues, [dns] and [rep] how the two clients' loops and
    connections start.  The clients read the configuration that [agent_main] has
    loaded. *)
Definition agent_start (file : option str) (host : option Z) (rfd dfd : option F) (zero : ADDR)
    (us : list (option E * option Z * list byte)) (dns rep : option E * TcpClient.sock_ans)
    : res (LBConfig * (str * Z) * (str * Z) * Process) :=
  '(lb_config, start_port, ag) ← agent_main file host rfd dfd;
  ts ← start_UDP_servers 0 start_port zero us;
  '(_, config) ← setPath file None;
  map ← instance config;
  '(reporter, rw) ← report_client_thread evfd_num map rep.1 rep.2 ag;
  '(server, dw) ← dns_client_thread evfd_num map dns.1 dns.2 ag;
  rt ← established rep_turn rep.2 rw;
  dt ← established (dns_turn lb_config 0 (fun _ => (0, 0))) dns.2 dw;
  Ret (lb_config, server, reporter, mkProcess (thread_agent dt) ts dt rt).
End Start.

(** ** The specification *)

(** A connection: bytes received and not processed, bytes to send, bytes sent. *)
Record conn_spec : Type := mkConnSpec {
  cs_in : list byte;
  cs_out : list byte;
  cs_sent : list byte
}.

(** Of each server the pairs it knows, with the keys of their hosts; the requests
    and reports that wait; of each server what it has answered; the connections. *)
Record agent_spec (ADDR : Type) : Type := mkAgentSpec {
  as_known : list (gmap Z (gset Z));
  as_requests : list lbrss.GetRouteRequest;
  as_reports : list lbrss.ReportStatusRequest;
  as_replies : list (list (ADDR * list byte));
  as_dns : conn_spec;
  as_rep : conn_spec
}.
Arguments mkAgentSpec {ADDR} _ _ _ _ _ _.
Arguments as_known {ADDR} _.
Arguments as_requests {ADDR} _.
Arguments as_reports {ADDR} _.
Arguments as_replies {ADDR} _.
Arguments as_dns {ADDR} _.
Arguments as_rep {ADDR} _.

Section Spec.
Context {ADDR : Type} `{PL : PbLaws}.
Context (cfg : LBConfig).

Definition reply (ok : bool) (from : ADDR) (f : frame) : list (ADDR * list byte) :=
  if ok then [(from, frame_bytes f)] else [].

(** What a datagram leads to: requests, reports, replies, and the pairs known
    afterwards. *)
Inductive datagram (now : Z) (ok : bool) (from : ADDR) (d : list byte) (kn : gmap Z (gset Z))
    : list lbrss.GetRouteRequest -> list lbrss.ReportStatusRequest ->
      list (ADDR * list byte) -> gmap Z (gset Z) -> Prop :=
  | dg_dropped :
      (forall f, Udp.udp_frame d = Some f ->
         f_id f ∉ [ID_GetHostRequest; ID_ReportRequest; ID_API_GetRouteRequest]) ->
      datagram now ok from d kn [] [] [] kn
  | dg_host f rsp reqs :
      Udp.udp_frame d = Some f -> f_id f = ID_GetHostRequest ->
      let req : lbrss.GetHostRequest := ParseFromArray (f_data f) in
      let modid := lbrss.ghq_modid req in
      let cmdid := lbrss.ghq_cmdid req in
      let key := pack64 modid cmdid in
      asks (kn !! key) modid cmdid reqs ->
      host_reply (kn !! key) (lbrss.mkGetHostResponse (lbrss.ghq_seq req) modid cmdid 0 None) rsp ->
      wire_ok rsp ->
      datagram now ok from d kn reqs []
        (reply ok from (msg_frame ID_GetHostResponse rsp)) (track key kn)
  | dg_route f rsp reqs :
      Udp.udp_frame d = Some f -> f_id f = ID_API_GetRouteRequest ->
      let req : lbrss.GetRouteRequest := ParseFromArray (f_data f) in
      let modid := lbrss.grq_modid req in
      let cmdid := lbrss.grq_cmdid req in
      let key := pack64 modid cmdid in
      asks (kn !! key) modid cmdid reqs -> route_reply (kn !! key) modid cmdid rsp ->
      wire_ok rsp ->
      datagram now ok from d kn reqs []
        (reply ok from (msg_frame ID_API_GetRouteResponse rsp)) (track key kn)
  | dg_report f rs :
      Udp.udp_frame d = Some f -> f_id f = ID_ReportRequest ->
      let req : lbrss.ReportRequest := ParseFromArray (f_data f) in
      let modid := lbrss.rr_modid req in
      let cmdid := lbrss.rr_cmdid req in
      reports cfg now (kn !! pack64 modid cmdid) modid cmdid rs -> Forall reportable rs ->
      datagram now ok from d kn [] rs [] kn.

(** The answers of the dns service, one after another. *)
Definition answer_index (rsp : lbrss.GetRouteResponse) : nat :=
  Z.to_nat ((lbrss.grs_modid rsp + lbrss.grs_cmdid rsp) mod 3).
Definition answer_key (rsp : lbrss.GetRouteResponse) : Z :=
  pack64 (lbrss.grs_modid rsp) (lbrss.grs_cmdid rsp).

Definition take_frame (f : frame) (kns : list (gmap Z (gset Z))) : list (gmap Z (gset Z)) :=
  if bool_decide (f_id f = ID_GetRouteResponse) then
    let rsp : lbrss.GetRouteResponse := ParseFromArray (f_data f) in
    match kns !! answer_index rsp with
    | Some kn => <[answer_index rsp := take_answer (answer_key rsp) rsp kn]> kns
    | None => kns
    end
  else kns.

Definition take_frames (fs : list frame) (kns : list (gmap Z (gset Z))) :=
  foldl (fun kns f => take_frame f kns) kns fs.

(** An answer that the agent can take: [modid + cmdid] is not negative and an
    [int], it has not too many hosts and drops none that is known, or all. *)
Definition frame_fits (f : frame) (kns : list (gmap Z (gset Z))) : Prop :=
  f_id f = ID_GetRouteResponse ->
  let rsp : lbrss.GetRouteResponse := ParseFromArray (f_data f) in
  0 <= lbrss.grs_modid rsp + lbrss.grs_cmdid rsp < 2 ^ 31 /\
  Z.of_nat (length (lbrss.grs_host rsp)) <= AGENT_HOSTS /\
  forall kn, kns !! answer_index rsp = Some kn -> answer_grows (answer_key rsp) rsp kn.

Fixpoint frames_fit (fs : list frame) (kns : list (gmap Z (gset Z))) : Prop :=
  match fs with
  | [] => True
  | f :: fs => frame_fits f kns /\ frames_fit fs (take_frame f kns)
  end.

(** The waiting messages are sent, as far as there is room. *)
Definition queue_out {A : Type} `{Wire A} (id : Z) (msgs : list A) (c : conn_spec) : conn_spec :=
  mkConnSpec (cs_in c)
    (cs_out c ++
      msg_bytes id (accepted (TcpClient.CLIENT_BUF - Z.of_nat (length (cs_out c))) msgs))
    (cs_sent c).

(** The bytes that arrive make the messages [fs] and less than a head. *)
Definition arrives (data : list byte) (fs : list frame) (c c' : conn_spec) : Prop :=
  cs_in c ++ data = concat (frame_bytes <$> fs) ++ cs_in c' /\
  Forall TcpClientSpec.wire_ok fs /\ (length (cs_in c') < 8)%nat /\
  cs_out c' = cs_out c /\ cs_sent c' = cs_sent c.

(** The kernel takes bytes from the front. *)
Definition written (ws : list wr_ans) (c c' : conn_spec) : Prop :=
  exists r k, drain ws (length (cs_out c)) = Some (r, k) /\ r <> -1 /\
    c' = mkConnSpec (cs_in c) (drop k (cs_out c)) (cs_sent c ++ take k (cs_out c)).

Inductive astep : agent_spec ADDR -> agent_item ADDR -> agent_spec ADDR -> Prop :=
  | as_datagram i fd m ct now junk ok from d kns dq rq rps dns rep kn rp reqs rs out kn' :
      kns !! i = Some kn -> rps !! i = Some rp -> datagram now ok from d kn reqs rs out kn' ->
      astep (mkAgentSpec kns dq rq rps dns rep)
        (IDatagram i fd m ct now junk ok from d)
        (mkAgentSpec (<[i := kn']> kns) (dq ++ reqs) (rq ++ rs) (<[i := rp ++ out]> rps) dns rep)
  | as_dns_queue fd m now junk kns dq rq rps dns rep :
      astep (mkAgentSpec kns dq rq rps dns rep) (IDns (CQueue fd m) now junk)
        (mkAgentSpec kns [] rq rps (queue_out ID_GetRouteRequest dq dns) rep)
  | as_dns_data fd m data rd a now junk kns dq rq rps dns rep fs dns' :
      arrives data fs dns dns' ->
      astep (mkAgentSpec kns dq rq rps dns rep) (IDns (CData fd m data rd a) now junk)
        (mkAgentSpec (take_frames fs kns) dq rq rps dns' rep)
  | as_dns_write fd m ws cs now junk kns dq rq rps dns rep dns' :
      written ws dns dns' ->
      astep (mkAgentSpec kns dq rq rps dns rep) (IDns (CWrite fd m ws cs) now junk)
        (mkAgentSpec kns dq rq rps dns' rep)
  | as_rep_queue fd m kns dq rq rps dns rep :
      astep (mkAgentSpec kns dq rq rps dns rep) (IReporter (CQueue fd m))
        (mkAgentSpec kns dq [] rps dns (queue_out ID_ReportStatusRequest rq rep))
  | as_rep_data fd m data rd a kns dq rq rps dns rep fs rep' :
      arrives data fs rep rep' ->
      astep (mkAgentSpec kns dq rq rps dns rep) (IReporter (CData fd m data rd a))
        (mkAgentSpec kns dq rq rps dns rep')
  | as_rep_write fd m ws cs kns dq rq rps dns rep rep' :
      written ws rep rep' ->
      astep (mkAgentSpec kns dq rq rps dns rep) (IReporter (CWrite fd m ws cs))
        (mkAgentSpec kns dq rq rps dns rep').

Inductive asteps : agent_spec ADDR -> list (agent_item ADDR) -> agent_spec ADDR -> Prop :=
  | asteps_nil s : asteps s [] s
  | asteps_cons s it s' its s'' : astep s it s' -> asteps s' its s'' -> asteps s (it :: its) s''.

(** *** What the kernel can report, and what is assumed of the other processes *)

(** The descriptors: of the servers; of the two sockets and the two queues. *)
Context (ufds : list Z) (dfd dqfd rfd rqfd : Z).

(** An event on a connection; the connection stays up, and data comes in whole
    messages up to less than a head ([client_fragment_overruns]). *)
Definition event_fits (fd qfd : Z) (fits : list frame -> Prop) (c : conn_spec) (e : cli_event)
    : Prop :=
  match e with
  | CQueue fd' m => fd' = qfd /\ is_read m = true
  | CData fd' m data _ _ => fd' = fd /\ is_read m = true /\ data <> [] /\
      Z.of_nat (length (cs_in c) + length data) <= TcpClient.CLIENT_BUF /\
      exists fs c', arrives data fs c c' /\ fits fs
  | CWrite fd' m ws _ => fd' = fd /\ is_write m = true /\ cs_out c <> [] /\
      exists c', written ws c c'
  end.

(** A datagram is on the socket of its server and not longer than the buffer that
    [recvfrom] is given; [J] bounds the uninitialised counter of a new balancer.  Of the
    dns service it is assumed what [frame_fits] says, of the reporter nothing. *)
Definition item_fits (J : Z) (it : agent_item ADDR) (s : agent_spec ADDR) : Prop :=
  match it with
  | IDatagram i fd m _ _ junk _ _ d =>
      ufds !! i = Some fd /\ is_read m = true /\ 0 <= junk <= J /\
      Z.of_nat (length d) <= Udp.UDP_BUF
  | IDns e _ _ => event_fits dfd dqfd (fun fs => frames_fit fs (as_known s)) (as_dns s) e
  | IReporter e => event_fits rfd rqfd (fun _ => True) (as_rep s) e
  end.

(** Every item fits in each state that the specification can be in by then. *)
Fixpoint items_fit (J : Z) (its : list (agent_item ADDR)) (s : agent_spec ADDR) : Prop :=
  match its with
  | [] => True
  | it :: its => item_fits J it s /\ forall s', astep s it s' -> items_fit J its s'
  end.
End Spec.

(** ** The simulation *)

Section Simulation.
Context {E F LOOP ADDR : Type} `{EL : EpollLaws E} `{EventFd F} `{PL : PbLaws}.
Context `{HO : HashOrder}.
Local Abbreviation Agent := (Agent F LOOP).
Local Abbreviation Server := (Udp.Udp ADDR agent_v Agent).
Local Abbreviation UdpThread := (UdpThread E F LOOP ADDR).
Local Abbreviation Process := (Process E F LOOP ADDR).
Context (cfg : LBConfig).

(** *** The shared state *)

Definition asked (r : lbrss.GetRouteRequest) : Prop :=
  is_i32 (lbrss.grq_modid r) /\ is_i32 (lbrss.grq_cmdid r).

Record agent_ok (n : Z) (ag : Agent) (kns : list (gmap Z (gset Z)))
    (dq : list lbrss.GetRouteRequest) (rq : list lbrss.ReportStatusRequest) : Prop := {
  ao_len : length (r_lb ag) = 3%nat;
  ao_inv : Forall (rl_inv n) (r_lb ag);
  ao_known : known <$> r_lb ag = kns;
  ao_dq : exists q, RouteLB.dns_queue ag = Some q /\ queue q = dq;
  ao_rq : exists q, RouteLB.report_queue ag = Some q /\ queue q = rq;
  ao_asked : Forall asked dq;
  ao_reports : Forall reportable rq
}.

Lemma agent_ok_mono n m ag kns dq rq : n <= m -> agent_ok n ag kns dq rq -> agent_ok m ag kns dq rq.
Proof.
  intros Hn []. split; [done| |done..]. eapply Forall_impl; [done|]. intros. by eapply rl_inv_mono.
Qed.

Lemma agent_ok_at n ag kns dq rq i kn :
  agent_ok n ag kns dq rq -> kns !! i = Some kn ->
  exists rl, r_lb_at (Z.of_nat i) ag = Ret rl /\ rl_inv n rl /\ known rl = kn.
Proof.
  intros A Hi. rewrite <- (ao_known _ _ _ _ _ A), list_lookup_fmap in Hi.
  destruct (r_lb ag !! i) as [rl|] eqn:Er; [|done]. injection Hi as <-. exists rl.
  unfold r_lb_at. rewrite (proj2 (Z.leb_le 0 _)) by lia. cbn [check mbind res_bind].
  rewrite Nat2Z.id, Er. split; [done|]. split; [|done].
  pose proof (ao_inv _ _ _ _ _ A) as Hf. by eapply Forall_lookup_1 in Hf.
Qed.

Lemma agent_ok_set n ag kns dq rq i rl q rqq :
  agent_ok n ag kns dq rq -> rl_inv n rl -> Forall asked (queue q) ->
  Forall reportable (queue rqq) ->
  agent_ok n (set_r_lb (Z.of_nat i) rl (mkAgent (r_lb ag) (Some q) (Some rqq)))
    (<[i := known rl]> kns) (queue q) (queue rqq).
Proof.
  intros [] Hi Ha Hr. unfold set_r_lb. cbn. rewrite Nat2Z.id. split; cbn; try done.
  - by rewrite length_insert.
  - by apply Forall_insert.
  - rewrite list_fmap_insert. by f_equal.
  - by exists q.
  - by exists rqq.
Qed.

(** *** The handlers of a datagram *)

Lemma asks_asked hs modid cmdid reqs :
  is_i32 modid -> is_i32 cmdid -> asks hs modid cmdid reqs -> Forall asked reqs.
Proof.
  intros Hm Hc Ha.
  assert (Hr : reqs = [] \/ reqs = [lbrss.mkGetRouteRequest modid cmdid])
    by (destruct hs; cbn in Ha; tauto).
  destruct Hr as [-> | ->]; [by apply Forall_nil_2|by apply Forall_singleton].
Qed.

(** A reply is sent, or [sendto] fails. *)
Definition answered (ok : bool) (pkt : list byte) (w : Server) : Server :=
  if ok then Udp.add_sent (Udp._client_addr w, pkt) w else w.

Lemma send_answer ok data id (w : Server) :
  Z.of_nat (length data) <= 65519 ->
  exists ret, Udp.send_message ok data (Z.of_nat (length data)) id w =
    Ret (ret, answered ok (frame_bytes (mkFrame id data)) w).
Proof.
  intros Hl. rewrite Udp.udp_send. rewrite !(proj2 (Z.ltb_ge _ _)) by lia.
  unfold answered. destruct ok; eauto.
Qed.

Section Handlers.
Context (n : Z) (ag : Agent) (kns : list (gmap Z (gset Z))) (dq : list lbrss.GetRouteRequest)
  (rq : list lbrss.ReportStatusRequest) (A : agent_ok n ag kns dq rq) (i : nat)
  (kn : gmap Z (gset Z)) (Hkn : kns !! i = Some kn).
Context (ct now junk : Z) (ok : bool) (Hn : n < 2 ^ 31 - 1) (Hj : 0 <= junk <= n).
Context (body rest : list byte) (w : Server) (Hw : Udp.u_user w = ag).

Lemma take_body : take (Z.to_nat (Z.of_nat (length body))) (body ++ rest) = body.
Proof. rewrite Nat2Z.id. apply take_app_length. Qed.

Lemma get_host_datagram :
  let req : lbrss.GetHostRequest := ParseFromArray body in
  let modid := lbrss.ghq_modid req in
  let cmdid := lbrss.ghq_cmdid req in
  let key := pack64 modid cmdid in
  exists rsp reqs ag',
    get_host_cb cfg now junk ok (body ++ rest) (Z.of_nat (length body)) (Z.of_nat i) w =
      Ret (answered ok (frame_bytes (msg_frame ID_GetHostResponse rsp)) (set_user ag' w)) /\
    agent_ok (n + 1) ag' (<[i := track key kn]> kns) (dq ++ reqs) rq /\
    asks (kn !! key) modid cmdid reqs /\
    host_reply (kn !! key) (lbrss.mkGetHostResponse (lbrss.ghq_seq req) modid cmdid 0 None) rsp /\
    wire_ok rsp.
Proof.
  intros req modid cmdid key. destruct (host_request_parsed body) as (Hs & Hm & Hc).
  fold req in Hs, Hm, Hc. fold modid in Hm. fold cmdid in Hc.
  destruct (agent_ok_at _ _ _ _ _ _ _ A Hkn) as (rl & Hrl & Hi & <-).
  destruct (ao_dq _ _ _ _ _ A) as (q & Hq & Eq). destruct (ao_rq _ _ _ _ _ A) as (rqq & Hrq & Erq).
  set (rsp0 := lbrss.mkGetHostResponse (lbrss.ghq_seq req) modid cmdid 0 None).
  destruct (get_host_known cfg now junk modid cmdid rsp0 n q rl Hi Hn Hj Hm Hc)
    as (ret & rsp & q' & rl' & reqs & Eg & Hi' & Hk' & Eq' & Ha & Hr).
  fold key in Hk', Ha, Hr. destruct (host_reply_wire _ _ _ _ _ Hs Hm Hc Hr) as [Hwire Hlen].
  unfold get_host_cb. rewrite take_body. fold req modid cmdid rsp0. rewrite Hw, Hrl, Hq.
  cbn [mbind res_bind]. rewrite Eg. cbn [mbind res_bind].
  assert (Hfit : Z.of_nat (length (SerializeToString rsp)) <= 65519) by lia.
  destruct (send_answer ok (SerializeToString rsp) ID_GetHostResponse
    (set_user (set_r_lb (Z.of_nat i) rl' (mkAgent (r_lb ag) (Some q') (RouteLB.report_queue ag))) w)
    Hfit) as (sret & ->). cbn [mbind res_bind].
  exists rsp, reqs, (set_r_lb (Z.of_nat i) rl' (mkAgent (r_lb ag) (Some q') (Some rqq))).
  rewrite Hrq. split; [done|]. split; [|done].
  rewrite <- Hk', <- Eq, <- Eq', <- Erq. apply (agent_ok_set _ _ _ dq rq); [|done| |].
  - apply (agent_ok_mono n); [lia|done].
  - rewrite Eq', Eq. apply Forall_app. split; [apply A|exact (asks_asked _ _ _ _ Hm Hc Ha)].
  - rewrite Erq. apply A.
Qed.

Lemma get_route_datagram :
  let req : lbrss.GetRouteRequest := ParseFromArray body in
  let modid := lbrss.grq_modid req in
  let cmdid := lbrss.grq_cmdid req in
  let key := pack64 modid cmdid in
  exists rsp reqs ag',
    get_route_cb cfg now junk ok (body ++ rest) (Z.of_nat (length body)) (Z.of_nat i) w =
      Ret (answered ok (frame_bytes (msg_frame ID_API_GetRouteResponse rsp)) (set_user ag' w)) /\
    agent_ok (n + 1) ag' (<[i := track key kn]> kns) (dq ++ reqs) rq /\
    asks (kn !! key) modid cmdid reqs /\ route_reply (kn !! key) modid cmdid rsp /\ wire_ok rsp.
Proof.
  intros req modid cmdid key. destruct (request_parsed_ok body) as (Hm & Hc).
  fold req in Hm, Hc. fold modid in Hm. fold cmdid in Hc.
  destruct (agent_ok_at _ _ _ _ _ _ _ A Hkn) as (rl & Hrl & Hi & <-).
  destruct (ao_dq _ _ _ _ _ A) as (q & Hq & Eq). destruct (ao_rq _ _ _ _ _ A) as (rqq & Hrq & Erq).
  destruct (get_route_known cfg now junk modid cmdid n q rl Hi Hj Hm Hc)
    as (ret & rsp & q' & rl' & reqs & Eg & Hi' & Hk' & Eq' & Ha & Hr).
  fold key in Hk', Ha, Hr. destruct (route_reply_wire _ _ _ _ Hm Hc Hr) as [Hwire Hlen].
  unfold get_route_cb. rewrite take_body. fold req modid cmdid. rewrite Hw, Hrl, Hq.
  cbn [mbind res_bind]. rewrite Eg. cbn [mbind res_bind].
  destruct (send_answer ok (SerializeToString rsp) ID_API_GetRouteResponse
    (set_user (set_r_lb (Z.of_nat i) rl' (mkAgent (r_lb ag) (Some q') (RouteLB.report_queue ag))) w)
    Hlen) as (sret & ->). cbn [mbind res_bind].
  exists rsp, reqs, (set_r_lb (Z.of_nat i) rl' (mkAgent (r_lb ag) (Some q') (Some rqq))).
  rewrite Hrq. split; [done|]. split; [|done].
  rewrite <- Hk', <- Eq, <- Eq', <- Erq. apply (agent_ok_mono n); [lia|].
  apply (agent_ok_set _ _ _ dq rq); [done|done| |].
  - rewrite Eq', Eq. apply Forall_app. split; [apply A|exact (asks_asked _ _ _ _ Hm Hc Ha)].
  - rewrite Erq. apply A.
Qed.

Lemma report_datagram :
  let req : lbrss.ReportRequest := ParseFromArray body in
  let modid := lbrss.rr_modid req in
  let cmdid := lbrss.rr_cmdid req in
  exists rs ag',
    report_cb cfg ct now (body ++ rest) (Z.of_nat (length body)) (Z.of_nat i) w =
      Ret (set_user ag' w) /\
    agent_ok (n + 1) ag' (<[i := kn]> kns) dq (rq ++ rs) /\
    reports cfg now (kn !! pack64 modid cmdid) modid cmdid rs /\ Forall reportable rs.
Proof.
  intros req modid cmdid. destruct (report_request_parsed body) as (Hm & Hc).
  fold req in Hm, Hc.
  destruct (agent_ok_at _ _ _ _ _ _ _ A Hkn) as (rl & Hrl & Hi & <-).
  destruct (ao_dq _ _ _ _ _ A) as (q & Hq & Eq). destruct (ao_rq _ _ _ _ _ A) as (rqq & Hrq & Erq).
  destruct (report_known cfg ct now req n rqq rl Hi Hm Hc)
    as (rq' & rl' & rs & Er & Hi' & Hk' & Erq' & Hr).
  fold modid cmdid in Hm, Hc, Hr.
  assert (Hrs : Forall reportable rs).
  { unfold reports in Hr. case_bool_decide as He; [by subst rs|].
    destruct Hr as (r & -> & Hr). apply Forall_singleton.
    exact (reported_reportable cfg now _ modid cmdid r Hm Hc He Hr). }
  unfold report_cb. rewrite take_body. fold req. rewrite Hw, Hrl, Hrq.
  cbn [mbind res_bind]. rewrite Er. cbn [mbind res_bind]. rewrite Hq.
  exists rs, (set_r_lb (Z.of_nat i) rl' (mkAgent (r_lb ag) (Some q) (Some rq'))).
  split; [done|]. split; [|done].
  rewrite <- Hk', <- Eq, <- Erq, <- Erq'. apply (agent_ok_mono n); [lia|].
  apply (agent_ok_set _ _ _ dq rq); [done|done|rewrite Eq; apply A|].
  rewrite Erq', Erq. apply Forall_app. split; [apply A|done].
Qed.
End Handlers.

(** *** A datagram at a server *)

(** Server [i] watches its socket, with its handlers; it has answered [out]. *)
Record udp_watched (i : nat) (fd : Z) (out : list (ADDR * list byte)) (t : UdpThread) : Prop := {
  uw_loop : exists ev, io_evs (ut_loop t) !! fd = Some ev /\
    read_callback ev = Some udp_read_callback /\ rcb_args ev = Some this_server;
  uw_tasks : elts (ready_tasks (ut_loop t)) = [];
  uw_router : Udp.u_router (ut_srv t) = agent_router (Z.of_nat i);
  uw_buf : length (Udp._read_buf (ut_srv t)) = Z.to_nat Udp.UDP_BUF;
  uw_sent : Udp.u_sent (ut_srv t) = out
}.

Lemma udp_turn_reads ct now junk ok ans i fd out m (t : UdpThread) s tr :
  udp_watched i fd out t -> is_read m = true ->
  Udp.do_read (agent_msg cfg ct now junk ok) ans [] (ut_srv t) = Ret (s, tr) ->
  udp_turn cfg ct now junk ok ans [(fd, m)] t =
    Ret (set_utloop (clear_tasks (ut_loop t)) (set_utsrv s t)).
Proof.
  intros [(ev & Hev & Hr & Ha) Ht _ _ _] Hm Hd. unfold udp_turn, event_process.
  cbn [dispatch_all]. unfold dispatch. rewrite Hev, Hr, Ha. unfold is_read, has_in, has_out in Hm.
  assert (Ex : agent_udp_cb cfg ct now junk ok ans udp_read_callback fd (Some this_server) t =
    Ret (set_utsrv s t)) by (unfold agent_udp_cb; by rewrite Hd).
  assert (Et : forall w : UdpThread, w = set_utsrv s t ->
    execute_ready_tasks ut_loop set_utloop no_task w =
      Ret (set_utloop (clear_tasks (ut_loop t)) (set_utsrv s t))).
  { intros w ->. unfold execute_ready_tasks. destruct (vcap _); cbn [exec_tasks ut_loop set_utsrv];
      by rewrite Ht. }
  destruct (negb (Z.land m EPOLLIN =? 0)).
  - rewrite Ex. by apply Et.
  - cbn [orb] in Hm. apply andb_true_iff in Hm as [Hm1 Hm2]. apply negb_true_iff in Hm1.
    rewrite Hm1, Hm2, Ex. by apply Et.
Qed.

Lemma call_agent id i :
  call id (agent_router i) =
    if decide (id = ID_API_GetRouteRequest) then Some (get_route_f, Some (arg_lb i))
    else if decide (id = ID_ReportRequest) then Some (report_f, Some (arg_lb i))
    else if decide (id = ID_GetHostRequest) then Some (get_host_f, Some (arg_lb i)) else None.
Proof.
  repeat case_decide; try (by subst id).
  unfold agent_router, register_all. cbn [foldl]. rewrite !call_register. by rewrite !decide_False.
Qed.

(** The server after a turn. *)
Lemma udp_watched_turn i fd out out' (t : UdpThread) (s : Server) :
  udp_watched i fd out t -> Udp.u_router s = Udp.u_router (ut_srv t) ->
  length (Udp._read_buf s) = Z.to_nat Udp.UDP_BUF -> Udp.u_sent s = out' ->
  udp_watched i fd out' (set_utloop (clear_tasks (ut_loop t)) (set_utsrv s t)).
Proof.
  intros [Hl Ht Hr Hb Hs] Hr' Hb' Hs'. split; cbn; [done|done|by rewrite Hr'|done|done].
Qed.

Lemma answered_sent ok f from ag (w : Server) :
  Udp._client_addr w = from ->
  let s := answered ok (frame_bytes f) (set_user ag w) in
  Udp.u_sent s = Udp.u_sent w ++ reply ok from f /\ Udp.u_user s = ag /\
  Udp.u_router s = Udp.u_router w /\ Udp._read_buf s = Udp._read_buf w.
Proof. intros <-. unfold answered, reply. destruct ok; cbn; by rewrite ?app_nil_r. Qed.

(** The turn for the datagram [d], which server [i] with the pairs [kn] gets. *)
Definition turn_done (n : Z) kns dq rq i kn fd rp m ct now junk ok from d (t : UdpThread) : Prop :=
  exists t' reqs rs out kn',
    udp_turn cfg ct now junk ok [Udp.RecvData d from; Udp.RecvErr EAGAIN] [(fd, m)] t = Ret t' /\
    udp_watched i fd (rp ++ out) t' /\ datagram cfg now ok from d kn reqs rs out kn' /\
    agent_ok (n + 1) (Udp.u_user (ut_srv t')) (<[i := kn']> kns) (dq ++ reqs) (rq ++ rs).

(** It is done when the server's [do_read] is. *)
Lemma read_done n kns dq rq i kn fd rp m ct now junk ok from d (t : UdpThread) s tr w1 reqs rs out
    kn' :
  udp_watched i fd rp t -> is_read m = true ->
  Udp.do_read (agent_msg cfg ct now junk ok) [Udp.RecvData d from; Udp.RecvErr EAGAIN] []
    (ut_srv t) = Ret (s, tr) ->
  w1 = Udp.set_received (Udp.received d (Udp._read_buf (ut_srv t))) from (ut_srv t) ->
  length (Udp._read_buf w1) = Z.to_nat Udp.UDP_BUF ->
  Udp.u_router s = Udp.u_router w1 -> Udp._read_buf s = Udp._read_buf w1 ->
  Udp.u_sent s = Udp.u_sent w1 ++ out -> datagram cfg now ok from d kn reqs rs out kn' ->
  agent_ok (n + 1) (Udp.u_user s) (<[i := kn']> kns) (dq ++ reqs) (rq ++ rs) ->
  turn_done n kns dq rq i kn fd rp m ct now junk ok from d t.
Proof.
  intros W Hm Es -> Hb E1 E2 E3 Hdg Ha. eexists _, reqs, rs, out, kn'.
  split; [by eapply udp_turn_reads|]. split; [|done].
  apply (udp_watched_turn i fd rp); [done|done|by rewrite E2|].
  rewrite E3. cbn. by rewrite (uw_sent _ _ _ _ W).
Qed.

Lemma datagram_turn n ag kns dq rq i kn fd rp m ct now junk ok from d (t : UdpThread) :
  agent_ok n ag kns dq rq -> kns !! i = Some kn -> udp_watched i fd rp t ->
  Udp.u_user (ut_srv t) = ag -> is_read m = true -> n < 2 ^ 31 - 1 -> 0 <= junk <= n ->
  Z.of_nat (length d) <= Udp.UDP_BUF ->
  turn_done n kns dq rq i kn fd rp m ct now junk ok from d t.
Proof.
  intros A Hkn W Hu Hm Hn Hj Hd. pose proof W as [_ _ Hrt Hb Hs].
  set (w1 := Udp.set_received (Udp.received d (Udp._read_buf (ut_srv t))) from (ut_srv t)).
  assert (Hb1 : length (Udp._read_buf w1) = Z.to_nat Udp.UDP_BUF) by by apply Udp.received_length.
  pose proof (Udp.do_read_single (agent_msg cfg ct now junk ok) d from EAGAIN (ut_srv t)
    ltac:(done) Hb Hd) as Hread. cbv zeta in Hread. fold w1 in Hread.
  pose proof (fun s tr reqs rs out kn' H =>
    read_done n kns dq rq i kn fd rp m ct now junk ok from d t s tr w1 reqs rs out kn' W Hm H
      eq_refl
      Hb1) as Hfin.
  assert (Hdrop : agent_ok (n + 1) ag (<[i := kn]> kns) (dq ++ []) (rq ++ [])).
  { rewrite !app_nil_r, list_insert_id by done. apply (agent_ok_mono n); [lia|done]. }
  destruct (Udp.udp_frame d) as [f|] eqn:Ef.
  2: { eapply (Hfin w1 [] [] [] [] kn Hread); [done|done|by rewrite app_nil_r| |by rewrite <- Hu
    in Hdrop].
       apply dg_dropped. congruence. }
  unfold Udp.udp_call in Hread. change (Udp.u_router w1) with (Udp.u_router (ut_srv t)) in Hread.
  rewrite Hrt, call_agent in Hread. repeat case_decide; cbn [agent_msg mbind res_bind] in Hread.
  - destruct (get_route_datagram n ag kns dq rq A i kn Hkn now junk ok Hj (f_data f)
      (drop (length d) (Udp._read_buf (ut_srv t))) w1 Hu)
      as (rsp & reqs & ag' & Ex & A' & Ha & Hr & Hw).
    rewrite Ex in Hread. cbn [mbind res_bind] in Hread.
    destruct (answered_sent ok (msg_frame ID_API_GetRouteResponse rsp) from ag' w1 eq_refl)
      as (S1 & S2 & S3 & S4).
    eapply (Hfin _ _ reqs [] _ _ Hread S3 S4 S1).
    + by eapply dg_route.
    + rewrite S2, app_nil_r. exact A'.
  - destruct (report_datagram n ag kns dq rq A i kn Hkn ct now (f_data f)
      (drop (length d) (Udp._read_buf (ut_srv t))) w1 Hu) as (rs & ag' & Ex & A' & Hr & Hrs).
    rewrite Ex in Hread. cbn [mbind res_bind] in Hread.
    eapply (Hfin _ _ [] rs [] kn Hread); [done|done|by rewrite app_nil_r| |].
    + by eapply dg_report.
    + cbn. rewrite app_nil_r. exact A'.
  - destruct (get_host_datagram n ag kns dq rq A i kn Hkn now junk ok Hn Hj (f_data f)
      (drop (length d) (Udp._read_buf (ut_srv t))) w1 Hu)
      as (rsp & reqs & ag' & Ex & A' & Ha & Hr & Hw).
    rewrite Ex in Hread. cbn [mbind res_bind] in Hread.
    destruct (answered_sent ok (msg_frame ID_GetHostResponse rsp) from ag' w1 eq_refl)
      as (S1 & S2 & S3 & S4).
    eapply (Hfin _ _ reqs [] _ _ Hread S3 S4 S1).
    + by eapply dg_host.
    + rewrite S2, app_nil_r. exact A'.
  - eapply (Hfin w1 _ [] [] [] kn Hread); [done|done|by rewrite app_nil_r| |by rewrite <- Hu in
      Hdrop].
    apply dg_dropped. intros f' Hf'. rewrite Ef in Hf'. injection Hf' as <-. set_solver.
Qed.
End Simulation.

(** *** The clients' threads *)

Section Conn.
Context {E F LOOP V : Type} `{EL : EpollLaws E} `{EventFd F} `{PL : PbLaws}.
Local Abbreviation Agent := (Agent F LOOP).
Local Abbreviation Cli := (TcpClient.Cli E V Agent).
Local Abbreviation CliThread := (CliThread E V Agent).
Context (run_msg : V -> option (list byte) -> Z -> Z -> option V -> Cli -> res Cli).
Context (run_hook : V -> Cli -> res Cli) (run_user : V -> Cli -> res Cli).
Context (hmsg : V -> option (list byte) -> Z -> Z -> option V -> Agent -> res Agent).
Hypothesis run_msg_user : forall cb data len id arg w, run_msg cb data len id arg w =
  (u ← hmsg cb data len id arg (TcpClient.cl_user w); Ret (TcpClient.set_cuser u w)).
Hypothesis run_msg_stays : forall cb data len id arg w,
  run_msg cb data len id arg w <> Fault ExitFail.
Context (fd qfd : Z) (qcb : V) (rt : MsgRouter V V).
Local Abbreviation turn := (cli_turn run_msg run_hook run_user no_task).

(** The thread has the connection [c]. *)
Record conn_sim (t : CliThread) (c : conn_spec) : Prop := {
  cn_watched : cli_watched fd qfd qcb (ct_cli t) (cs_in c) (cs_out c);
  cn_router : TcpClient._router (TcpClient.cl (ct_cli t)) = rt;
  cn_sent : concat (ct_sent t).*2 = cs_sent c
}.

Lemma watched_user u (w : Cli) ib ob :
  cli_watched fd qfd qcb w ib ob -> cli_watched fd qfd qcb (TcpClient.set_cuser u w) ib ob.
Proof.
  intros [[Hi Ho] Hcn Hfd Hne Hs Hq Ht].
  split; [by split|exact Hcn|exact Hfd|exact Hne|exact Hs|exact Hq|exact Ht].
Qed.

Lemma conn_sim_agent ag t c : conn_sim t c -> conn_sim (on_agent ag t) c.
Proof. intros [Hw Hr Hs]. split; [by apply watched_user|done|done]. Qed.

Lemma conn_data ag ag' m data rs a fs t c c' :
  conn_sim t c -> is_read m = true -> data <> [] ->
  Z.of_nat (length (cs_in c) + length data) <= TcpClient.CLIENT_BUF ->
  arrives data fs c c' -> handle_frames hmsg rt fs ag = Ret ag' ->
  exists t', turn [(fd, m)] (with_cli_answers
      [CliRead (Some (Z.of_nat (length data))) (RdData data :: rs) a] (on_agent ag t)) = Ret t' /\
    conn_sim t' c' /\ thread_agent t' = ag'.
Proof.
  intros S Hm Hd Hfit (Hcut & Hfs & Htl & Ho & Hs) Hh.
  pose proof (conn_sim_agent ag t c S) as [Hw Hr Hse].
  pose proof (read_turn run_msg run_hook run_user no_task hmsg run_msg_user run_msg_stays fd qfd qcb
    m data rs a (on_agent ag t) (cs_in c) (cs_out c) fs (cs_in c') ag' Hw Hm Hd Hfit Hcut Hfs Htl)
    as Ht. rewrite Hr in Ht. specialize (Ht Hh).
  apply safe_Ret in Ht as (t' & Et & I' & Hu & Hr' & _ & Hs'). exists t'. split; [exact Et|].
  split; [|done]. split; [by rewrite Ho|done|by rewrite Hs', Hs].
Qed.

Lemma conn_write ag m ws cs t c c' :
  conn_sim t c -> is_write m = true -> cs_out c <> [] -> written ws c c' ->
  exists t', turn [(fd, m)] (with_cli_answers [CliWrite ws cs] (on_agent ag t)) = Ret t' /\
    conn_sim t' c' /\ thread_agent t' = ag.
Proof.
  intros S Hm Hne (r & k & Hdr & Hr & ->).
  pose proof (conn_sim_agent ag t c S) as [Hw Hrt Hse].
  pose proof (write_turn run_msg run_hook run_user no_task fd qfd qcb
    m ws cs (on_agent ag t) (cs_in c) (cs_out c) r k Hw Hm Hne Hdr Hr) as Ht.
  apply safe_Ret in Ht as (t' & Et & I' & Hu & Hr' & _ & out & Hs' & _ & Hout).
  exists t'. split; [exact Et|]. split; [|done]. split; [done|congruence|].
  cbn [cs_sent]. by rewrite Hs', fmap_app, concat_app, Hse, Hout.
Qed.

Lemma conn_queue ag m t c ag' c' :
  conn_sim t c -> is_read m = true ->
  safe (run_user qcb (ct_cli (on_agent ag t))) (fun w' =>
    cli_watched fd qfd qcb w' (cs_in c') (cs_out c') /\ TcpClient.cl_user w' = ag' /\
    TcpClient._router (TcpClient.cl w') = rt) ->
  cs_sent c' = cs_sent c ->
  exists t', turn [(qfd, m)] (with_cli_answers [] (on_agent ag t)) = Ret t' /\
    conn_sim t' c' /\ thread_agent t' = ag'.
Proof.
  intros S Hm Hu Hs. pose proof (conn_sim_agent ag t c S) as [Hw Hrt Hse].
  pose proof (queue_turn run_msg run_hook run_user no_task fd qfd qcb m (on_agent ag t)
    (cs_in c) (cs_out c) (cs_in c') (cs_out c') (fun u r => u = ag' /\ r = rt) Hw Hm Hu) as Ht.
  apply safe_Ret in Ht as (t' & Et & I' & (Hu' & Hr') & _ & Hs'). exists t'.
  split; [exact Et|]. split; [|done]. split; [done|done|by rewrite Hs', Hs].
Qed.
End Conn.

(** *** The whole process *)

Section Whole.
Context {E F LOOP ADDR : Type} `{EL : EpollLaws E} `{EventFd F} `{PL : PbLaws}.
Context `{HO : HashOrder}.
Local Abbreviation Agent := (Agent F LOOP).
Local Abbreviation Process := (Process E F LOOP ADDR).
Local Abbreviation agent_spec := (agent_spec ADDR).
Context (cfg : LBConfig) (ufds : list Z) (dfd dqfd rfd rqfd : Z).

(** What the handler of the dns client does to the globals. *)
Definition dns_hmsg (now : Z) (junk : loc -> Z * Z) (cb : dnsc_v) (data : option (list byte))
    (len id : Z) (arg : option dnsc_v) (ag : Agent) : res Agent :=
  match cb, data with
  | deal_recv_route_f, Some bs => deal_recv_route cfg now junk bs len ag
  | deal_recv_route_f, None => Fault Uninit
  | _, _ => Fault NullDeref
  end.

Lemma client_msg_user now junk cb data len id arg (w : TcpClient.Cli E dnsc_v Agent) :
  client_msg cfg now junk cb data len id arg w =
    (u ← dns_hmsg now junk cb data len id arg (TcpClient.cl_user w);
     Ret (TcpClient.set_cuser u w)).
Proof. by destruct cb, data. Qed.

Lemma update_host_stays now junk modid cmdid rsp rl :
  update_host cfg now junk modid cmdid rsp rl <> Fault ExitFail.
Proof.
  unfold update_host. destruct (route_lb_map_ rl !! _) as [lb|]; [|done].
  destruct (bool_decide _); [done|].
  assert (Hd : forall ks lb0, delete_hosts ks lb0 <> Fault ExitFail).
  { induction ks as [|k ks IH]; intros lb0; [done|]. cbn. unfold delete_host, host_at.
    destruct (host_map_ lb0 !! k); [|done]. destruct (hosts lb0 !! _); [|done]. apply IH. }
  unfold update. destruct (negb _); [|done]. cbn [c_assert mbind res_bind].
  destruct (insert_hosts _ _ _ _) as [lb1 seen].
  destruct (delete_hosts _ lb1) as [|f] eqn:Ed; [done|]. cbn. intros [= ->]. by apply Hd in Ed.
Qed.

Lemma client_msg_stays now junk cb data len id arg (w : TcpClient.Cli E dnsc_v Agent) :
  client_msg cfg now junk cb data len id arg w <> Fault ExitFail.
Proof.
  rewrite client_msg_user. destruct cb, data as [bs|]; try done. cbn [dns_hmsg].
  unfold deal_recv_route. unfold int_add. destruct (i32_ok _); [|done]. cbn [mbind res_bind].
  unfold r_lb_at. destruct (0 <=? _); [|done]. cbn [check mbind res_bind].
  destruct (r_lb _ !! _) as [rl|]; [|done]. cbn [mbind res_bind].
  destruct (update_host _ _ _ _ _ _ _) as [|f] eqn:Eu; [done|]. cbn.
  intros [= ->]. by apply update_host_stays in Eu.
Qed.

Lemma call_client id :
  call id client_router =
    if decide (ID_GetRouteResponse = id) then Some (deal_recv_route_f, None) else None.
Proof. unfold client_router. by rewrite call_register. Qed.

(** The dns client takes the answers over. *)
Lemma answers_taken n now junk dq rq fs : forall ag kns,
  agent_ok n ag kns dq rq -> frames_fit fs kns ->
  exists ag', handle_frames (dns_hmsg now junk) client_router fs ag = Ret ag' /\
    agent_ok n ag' (take_frames fs kns) dq rq.
Proof.
  induction fs as [|f fs IH]; intros ag kns A Hf; [by exists ag|]. destruct Hf as [Hff Hfs].
  cbn [handle_frames]. rewrite call_client.
  unfold take_frames. cbn [foldl]. fold (take_frames fs (take_frame f kns)).
  unfold take_frame in Hfs |- *. unfold frame_fits in Hff.
  destruct (decide (ID_GetRouteResponse = f_id f)) as [Hid|Hid].
  2: { cbn [mbind res_bind]. rewrite bool_decide_eq_false_2 in Hfs |- * by congruence.
       by apply IH. }
  rewrite bool_decide_eq_true_2 in Hfs |- * by done. specialize (Hff (eq_sym Hid)).
  cbv zeta in Hff, Hfs |- *. set (rsp := ParseFromArray (f_data f) : lbrss.GetRouteResponse) in *.
  destruct Hff as (Hsum & Hlen & Hg). cbn [dns_hmsg].
  rewrite (deal_recv_route_index cfg now junk (f_data f) ag (ao_len _ _ _ _ _ A)). fold rsp.
  rewrite (proj2 (i32_ok_spec _)) by (unfold is_i32; lia). cbn [negb].
  rewrite (proj2 (Z.ltb_ge _ 0)) by lia. cbn [andb].
  pose proof (Z.mod_pos_bound (lbrss.grs_modid rsp + lbrss.grs_cmdid rsp) 3 ltac:(lia)) as Hmod.
  destruct (kns !! answer_index rsp) as [kn|] eqn:Ekn.
  2: { exfalso. apply lookup_ge_None in Ekn. rewrite <- (ao_known _ _ _ _ _ A), length_fmap,
         (ao_len _ _ _ _ _ A) in Ekn. unfold answer_index in Ekn. lia. }
  destruct (agent_ok_at _ _ _ _ _ _ _ A Ekn) as (rl & Hrl & Hi & <-).
  unfold answer_index in Hrl. rewrite Z2Nat.id in Hrl by lia. rewrite Hrl. cbn [mbind res_bind].
  destruct (route_response_parsed (f_data f)) as (Hm & Hc & Hp). fold rsp in Hm, Hc, Hp.
  destruct (update_known cfg now junk (lbrss.grs_modid rsp) (lbrss.grs_cmdid rsp) rsp n rl Hi)
    as (rl' & -> & Hi' & Hk'); [by split|by apply Hg|]. cbn [mbind res_bind].
  fold (answer_key rsp) in Hk'. rewrite <- Hk' in Hfs |- *.
  destruct (ao_dq _ _ _ _ _ A) as (q & Hq & Eq). destruct (ao_rq _ _ _ _ _ A) as (rqq & Hrq & Erq).
  assert (Eag : ag = mkAgent (r_lb ag) (Some q) (Some rqq)) by (destruct ag; cbn in *; by subst).
  pose proof (agent_ok_set n ag kns dq rq (answer_index rsp) rl' q rqq A Hi') as A'.
  rewrite <- Eag, Eq, Erq in A'. specialize (A' (ao_asked _ _ _ _ _ A) (ao_reports _ _ _ _ _ A)).
  unfold answer_index in A' at 1. rewrite Z2Nat.id in A' by lia. by apply IH.
Qed.

(** The process does what the specification [s] says. *)
Record process_sim (n : Z) (p : Process) (s : agent_spec) : Prop := {
  ps_agent : agent_ok n (pr_agent p) (as_known s) (as_requests s) (as_reports s);
  ps_udp : forall i fd, ufds !! i = Some fd -> exists t rp, pr_udp p !! i = Some t /\
    as_replies s !! i = Some rp /\ udp_watched i fd rp t;
  ps_len : length ufds = 3%nat;
  ps_dns : conn_sim dfd dqfd new_dns_request_f client_router (pr_dns p) (as_dns s);
  ps_rep : conn_sim rfd rqfd new_report_request_f MsgRouter_new (pr_rep p) (as_rep s)
}.

Lemma asked_small reqs : Forall asked reqs ->
  Forall (fun a : lbrss.GetRouteRequest => Z.of_nat (length (SerializeToString a)) <= 2 ^ 30) reqs.
Proof.
  intros Hr. eapply Forall_impl; [exact Hr|]. intros [modid cmdid] [Hm Hc]. cbn in Hm, Hc.
  destruct (route_request_wire modid cmdid Hm Hc) as [_ Hl]. pose proof (size_int32_range _ Hm).
  pose proof (size_int32_range _ Hc). rewrite Hl. lia.
Qed.

Lemma reportable_small (rs : list lbrss.ReportStatusRequest) : Forall reportable rs ->
  Forall (fun a => Z.of_nat (length (SerializeToString a)) <= 2 ^ 30) rs.
Proof.
  intros Hr. eapply Forall_impl; [exact Hr|]. intros r [_ Hl].
  unfold MESSAGE_LENGTH_LIMIT, MESSAGE_HEAD_LEN in Hl. lia.
Qed.

(** The waiting requests go to the dns service, *)
Lemma dns_requests_out n (ag : Agent) kns dq rq (t : CliThread E dnsc_v Agent) c :
  agent_ok n ag kns dq rq ->
  conn_sim dfd dqfd new_dns_request_f client_router t c -> thread_agent t = ag ->
  exists ag', agent_ok n ag' kns [] rq /\
    safe (dns_user new_dns_request_f (ct_cli t)) (fun w' =>
      cli_watched dfd dqfd new_dns_request_f w' (cs_in (queue_out ID_GetRouteRequest dq c))
        (cs_out (queue_out ID_GetRouteRequest dq c)) /\
      TcpClient.cl_user w' = ag' /\
      TcpClient._router (TcpClient.cl w') = client_router).
Proof.
  intros A [Hw Hr _] Hag. destruct (ao_dq _ _ _ _ _ A) as (q & Hq & Eq).
  exists (mkAgent (r_lb ag) (Some (recv [] q).2) (RouteLB.report_queue ag)). split.
  { destruct A. split; cbn; try done. by eexists. }
  cbn [dns_user]. unfold client_request, new_dns_request. unfold thread_agent in Hag.
  rewrite Hag, Hq. unfold recv. rewrite Eq.
  pose proof (send_all_watched dfd dqfd new_dns_request_f ID_GetRouteRequest dq _ _ _ Hw
    (asked_small _ (ao_asked _ _ _ _ _ A))) as Hs.
  apply safe_Ret in Hs as (w' & -> & Hw' & Hr' & _). cbn [mbind res_bind safe].
  split; [by apply watched_user|]. split; [done|]. by rewrite <- Hr, <- Hr'.
Qed.

(** and the waiting reports to the reporter. *)
Lemma rep_reports_out n (ag : Agent) kns dq rq (t : CliThread E repc_v Agent) c :
  agent_ok n ag kns dq rq ->
  conn_sim rfd rqfd new_report_request_f MsgRouter_new t c -> thread_agent t = ag ->
  exists ag', agent_ok n ag' kns dq [] /\
    safe (rep_user new_report_request_f (ct_cli t)) (fun w' =>
      cli_watched rfd rqfd new_report_request_f w' (cs_in (queue_out ID_ReportStatusRequest rq c))
        (cs_out (queue_out ID_ReportStatusRequest rq c)) /\
      TcpClient.cl_user w' = ag' /\
      TcpClient._router (TcpClient.cl w') = MsgRouter_new).
Proof.
  intros A [Hw Hr _] Hag. destruct (ao_rq _ _ _ _ _ A) as (q & Hq & Eq).
  exists (mkAgent (r_lb ag) (RouteLB.dns_queue ag) (Some (recv [] q).2)). split.
  { destruct A. split; cbn; try done. by eexists. }
  cbn [rep_user]. unfold report_request, new_report_request. unfold thread_agent in Hag.
  rewrite Hag, Hq. unfold recv. rewrite Eq.
  pose proof (send_all_watched rfd rqfd new_report_request_f ID_ReportStatusRequest rq _ _ _ Hw
    (reportable_small _ (ao_reports _ _ _ _ _ A))) as Hs.
  apply safe_Ret in Hs as (w' & -> & Hw' & Hr' & _). cbn [mbind res_bind safe].
  split; [by apply watched_user|]. split; [done|]. by rewrite <- Hr, <- Hr'.
Qed.

(** *** One step *)

Lemma datagram_step J n p s i fd m ct now junk ok from d :
  process_sim n p s -> J <= n < 2 ^ 31 - 1 ->
  item_fits ufds dfd dqfd rfd rqfd J (IDatagram i fd m ct now junk ok from d) s ->
  exists p' s', agent_step cfg (IDatagram i fd m ct now junk ok from d) p = Ret p' /\
    astep cfg s (IDatagram i fd m ct now junk ok from d) s' /\ process_sim (n + 1) p' s'.
Proof.
  intros S Hn (Hfd & Hm & Hj & Hd). destruct S as [A Hudp Hlen Hdns Hrep].
  destruct (Hudp _ _ Hfd) as (t & rp & Ht & Hrp & W).
  destruct s as [kns dq rq rps dns rep]. cbn [as_known as_requests as_reports as_replies as_dns
    as_rep] in *.
  destruct (lookup_lt_is_Some_2 kns i) as [kn Hkn].
  { rewrite <- (ao_known _ _ _ _ _ A), length_fmap, (ao_len _ _ _ _ _ A), <- Hlen.
    by eapply lookup_lt_Some. }
  set (t1 := set_utsrv (set_user (pr_agent p) (ut_srv t)) t).
  assert (W1 : udp_watched i fd rp t1) by (by destruct W; split).
  destruct (datagram_turn cfg n (pr_agent p) kns dq rq i kn fd rp m ct now junk ok from d t1 A Hkn
    W1 eq_refl Hm ltac:(lia) ltac:(lia) Hd) as (t' & reqs & rs & out & kn' & Et & W' & Hdg & A').
  eexists _, _. split.
  { cbn [agent_step]. rewrite Ht. fold t1. rewrite Et. cbn [mbind res_bind]. reflexivity. }
  split; [by econstructor|].
  split; cbn [as_known as_requests as_reports as_replies as_dns as_rep pr_agent pr_udp pr_dns
    pr_rep];
    [exact A'| |done|exact Hdns|exact Hrep].
  intros j fd' Hj'. destruct (decide (i = j)) as [<-|Hne].
  - rewrite Hfd in Hj'. injection Hj' as <-. exists t', (rp ++ out).
    rewrite !list_lookup_insert_eq by (by eapply lookup_lt_Some). done.
  - destruct (Hudp _ _ Hj') as (t2 & rp2 & H2 & H3 & H4). exists t2, rp2.
    by rewrite !list_lookup_insert_ne by done.
Qed.

Lemma dns_step J n p s e now junk :
  process_sim n p s -> item_fits ufds dfd dqfd rfd rqfd J (IDns e now junk) s ->
  exists p' s', agent_step cfg (IDns e now junk) p = Ret p' /\ astep cfg s (IDns e now junk) s' /\
    process_sim n p' s'.
Proof.
  intros S Hfit. destruct S as [A Hudp Hlen Hdns Hrep]. cbn [item_fits] in Hfit.
  destruct s as [kns dq rq rps dns rep]. cbn [as_known as_requests as_reports as_replies as_dns
    as_rep] in *.
  cbn [agent_step]. unfold dns_turn. destruct e as [fd m|fd m data rs a|fd m ws cs];
    cbn [event_fits] in Hfit; cbn [cli_fired cli_answers].
  - destruct Hfit as [-> Hm].
    destruct (dns_requests_out n (pr_agent p) kns dq rq (on_agent (pr_agent p) (pr_dns p)) dns A)
      as (ag' & A' & Hu); [by apply conn_sim_agent|done|].
    destruct (conn_queue (client_msg cfg now junk) client_hook dns_user dfd dqfd new_dns_request_f
      client_router (pr_agent p) m (pr_dns p) dns ag' (queue_out ID_GetRouteRequest dq dns) Hdns
        Hm Hu
      eq_refl) as (t' & Et & S' & Hag).
    eexists _, _. split; [rewrite Et; reflexivity|]. split; [constructor|].
    split; cbn; [by rewrite Hag|done..].
  - destruct Hfit as (-> & Hm & Hd & Hl & fs & c' & Harr & Hfs).
    destruct (answers_taken n now junk dq rq fs _ _ A Hfs) as (ag' & Eh & A').
    destruct (conn_data (client_msg cfg now junk) client_hook dns_user (dns_hmsg now junk)
      (client_msg_user now junk) (client_msg_stays now junk) dfd dqfd new_dns_request_f
        client_router
      (pr_agent p) ag' m data rs a fs (pr_dns p) dns c' Hdns Hm Hd Hl Harr Eh) as
        (t' & Et & S' & Hag).
    eexists _, _. split; [rewrite Et; reflexivity|]. split; [by econstructor|].
    split; cbn; [by rewrite Hag|done..].
  - destruct Hfit as (-> & Hm & Hne & c' & Hw).
    destruct (conn_write (client_msg cfg now junk) client_hook dns_user dfd dqfd new_dns_request_f
      client_router (pr_agent p) m ws cs (pr_dns p) dns c' Hdns Hm Hne Hw) as (t' & Et & S' & Hag).
    eexists _, _. split; [rewrite Et; reflexivity|]. split; [by econstructor|].
    split; cbn; [by rewrite Hag|done..].
Qed.

(** The report client has no handlers: what arrives is dropped. *)
Lemma no_handlers {V : Type} (hmsg : V -> option (list byte) -> Z -> Z -> option V -> Agent -> res
  Agent)
  fs ag : handle_frames hmsg MsgRouter_new fs ag = Ret ag.
Proof. by induction fs as [|f fs IH]. Qed.

Lemma rep_step J n p s e :
  process_sim n p s -> item_fits ufds dfd dqfd rfd rqfd J (IReporter e) s ->
  exists p' s', agent_step cfg (IReporter e) p = Ret p' /\ astep cfg s (IReporter e) s' /\
    process_sim n p' s'.
Proof.
  intros S Hfit. destruct S as [A Hudp Hlen Hdns Hrep]. cbn [item_fits] in Hfit.
  destruct s as [kns dq rq rps dns rep]. cbn [as_known as_requests as_reports as_replies as_dns
    as_rep] in *.
  cbn [agent_step]. unfold rep_turn. destruct e as [fd m|fd m data rs a|fd m ws cs];
    cbn [event_fits] in Hfit; cbn [cli_fired cli_answers].
  - destruct Hfit as [-> Hm].
    destruct (rep_reports_out n (pr_agent p) kns dq rq (on_agent (pr_agent p) (pr_rep p)) rep A)
      as (ag' & A' & Hu); [by apply conn_sim_agent|done|].
    destruct (conn_queue repc_msg repc_hook rep_user rfd rqfd new_report_request_f
      MsgRouter_new (pr_agent p) m (pr_rep p) rep ag' (queue_out ID_ReportStatusRequest rq rep) Hrep
      Hm Hu eq_refl) as (t' & Et & S' & Hag).
    eexists _, _. split; [rewrite Et; reflexivity|]. split; [constructor|].
    split; cbn; [by rewrite Hag|done..].
  - destruct Hfit as (-> & Hm & Hd & Hl & fs & c' & Harr & _).
    destruct (conn_data repc_msg repc_hook rep_user (fun _ _ _ _ _ _ => Fault NullDeref)
      ltac:(done) ltac:(done) rfd rqfd new_report_request_f MsgRouter_new
      (pr_agent p) (pr_agent p) m data rs a fs (pr_rep p) rep c' Hrep Hm Hd Hl Harr
      (no_handlers _ _ _)) as (t' & Et & S' & Hag).
    eexists _, _. split; [rewrite Et; reflexivity|]. split; [by econstructor|].
    split; cbn; [by rewrite Hag|done..].
  - destruct Hfit as (-> & Hm & Hne & c' & Hw).
    destruct (conn_write repc_msg repc_hook rep_user rfd rqfd new_report_request_f
      MsgRouter_new (pr_agent p) m ws cs (pr_rep p) rep c' Hrep Hm Hne Hw) as (t' & Et & S' & Hag).
    eexists _, _. split; [rewrite Et; reflexivity|]. split; [by econstructor|].
    split; cbn; [by rewrite Hag|done..].
Qed.

Lemma process_sim_mono n m p s : n <= m -> process_sim n p s -> process_sim m p s.
Proof. intros Hn []. split; try done. by eapply agent_ok_mono. Qed.

Lemma agent_run J its : forall n p s,
  process_sim n p s -> J <= n -> n + Z.of_nat (length its) < 2 ^ 31 - 1 ->
  items_fit cfg ufds dfd dqfd rfd rqfd J its s ->
  exists p' s', agent_steps cfg its p = Ret p' /\ asteps cfg s its s' /\
    process_sim (n + Z.of_nat (length its)) p' s'.
Proof.
  induction its as [|it its IH]; intros n p s S HJ Hn Hfit.
  { exists p, s. rewrite Z.add_0_r. split; [done|]. split; [constructor|done]. }
  destruct Hfit as [Hit Hits]. cbn [length] in Hn.
  assert (Hstep : exists p' s', agent_step cfg it p = Ret p' /\ astep cfg s it s' /\
    process_sim (n + 1) p' s').
  { destruct it as [i fd m ct now junk ok from d|e now junk|e].
    - eapply (datagram_step J); [done|lia|done].
    - destruct (dns_step J n p s e now junk S Hit) as (p' & s' & ? & ? & S'). exists p', s'.
      split; [done|]. split; [done|]. eapply (process_sim_mono n); [lia|done].
    - destruct (rep_step J n p s e S Hit) as (p' & s' & ? & ? & S'). exists p', s'.
      split; [done|]. split; [done|]. eapply (process_sim_mono n); [lia|done]. }
  destruct Hstep as (p1 & s1 & E1 & Hs1 & S1).
  destruct (IH (n + 1) p1 s1 S1 ltac:(lia) ltac:(lia) (Hits _ Hs1)) as (p' & s' & E' & Hs' & S').
  exists p', s'. cbn [agent_steps]. rewrite E1. split; [done|]. split; [by econstructor|].
  cbn [length]. rewrite Nat2Z.inj_succ. by rewrite <- Z.add_1_l, Z.add_assoc.
Qed.
End Whole.

(** ** The start is right *)

Section Started.
Context {E F LOOP ADDR : Type} `{EL : EpollLaws E} `{EventFd F} `{PL : PbLaws}.
Context `{HO : HashOrder}.
Local Abbreviation Agent := (Agent F LOOP).
Local Abbreviation UdpThread := (UdpThread E F LOOP ADDR).

(** What the system gives to a server: an epoll, a socket, its buffer. *)
Record udp_sys : Type := mkUdpSys { us_ep : E; us_fd : Z; us_buf : list byte }.
Definition udp_given (u : udp_sys) : option E * option Z * list byte :=
  (Some (us_ep u), Some (us_fd u), us_buf u).

(** A server listens on [start_port + i]. *)
Definition listening (start_port : Z) (i : nat) (u : udp_sys) (t : UdpThread) : Prop :=
  ut_port t = start_port + Z.of_nat i /\ ut_fd t = us_fd u /\ udp_watched i (us_fd u) [] t.

Lemma servers_start start_port (zero : ADDR) us : forall k,
  0 <= start_port -> (k + length us <= 3)%nat ->
  start_port + Z.of_nat (k + length us) <= 2 ^ 15 ->
  Forall (fun u => length (us_buf u) = Z.to_nat Udp.UDP_BUF) us ->
  exists ts : list UdpThread,
    start_UDP_servers (Z.of_nat k) start_port zero (udp_given <$> us) = Ret ts /\
    forall i u, us !! i = Some u ->
      exists t, ts !! i = Some t /\ listening start_port (k + i) u t.
Proof.
  induction us as [|u us IH]; intros k Hs0 Hk Hp Hb; [by exists []|].
  apply Forall_cons in Hb as [Hu Hb]. cbn [length] in Hk, Hp.
  destruct (IH (S k) Hs0 ltac:(lia) ltac:(lia) Hb) as (ts & Es & Hts).
  pose proof (agent_ports (E := E) (F := F) (LOOP := LOOP) (Z.of_nat k) start_port (us_ep u)
    (us_fd u) (us_buf u) zero init_agent ltac:(lia) ltac:(lia) eq_refl) as Hs.
  cbv zeta in Hs. rewrite (proj2 (Z.ltb_lt _ _)) in Hs by lia.
  destruct Hs as (w & L & Em & Hr & _ & Hbuf & Hse & Ht & Hev).
  exists (mkUdpThread (Z.of_nat k + start_port) (us_fd u) w L :: ts). split.
  { cbn [fmap list_fmap start_UDP_servers udp_given]. rewrite Em. cbn [mbind res_bind].
    replace (Z.of_nat k + 1) with (Z.of_nat (S k)) by lia. by rewrite Es. }
  intros [|i] u' Hi; cbn in Hi.
  - injection Hi as <-. eexists. split; [done|]. rewrite Nat.add_0_r.
    split; [cbn; lia|]. split; [done|]. split; cbn; [done|done|done|congruence|done].
  - destruct (Hts _ _ Hi) as (t & Hti & Hl). exists t. split; [done|].
    by replace (k + S i)%nat with (S k + i)%nat by lia.
Qed.

(** Too large a port: the thread of the server that has no such port faults. *)
Lemma servers_fault start_port (zero : ADDR) us : forall k,
  0 <= start_port < 2 ^ 16 -> (k + length us <= 3)%nat -> us <> [] ->
  2 ^ 15 < start_port + Z.of_nat (k + length us) ->
  start_UDP_servers (F := F) (LOOP := LOOP) (Z.of_nat k) start_port zero (udp_given <$> us) =
    Fault OutOfBounds.
Proof.
  induction us as [|u us IH]; intros k Hs0 Hk Hne Hp; [done|]. cbn [length] in Hk, Hp.
  pose proof (agent_ports (E := E) (F := F) (LOOP := LOOP) (Z.of_nat k) start_port (us_ep u)
    (us_fd u) (us_buf u) zero init_agent ltac:(lia) ltac:(lia) eq_refl) as Hs. cbv zeta in Hs.
  cbn [fmap list_fmap start_UDP_servers udp_given].
  destruct (Z.ltb_spec (Z.of_nat k + start_port) (2 ^ 15)) as [Hlt|Hge].
  2: { by rewrite Hs. }
  destruct Hs as (w & L & -> & _). cbn [mbind res_bind].
  replace (Z.of_nat k + 1) with (Z.of_nat (S k)) by lia. rewrite IH; [done|lia|lia| |lia].
  intros ->. cbn in Hp. lia.
Qed.

(** *** The clients *)

Definition no_conn : conn_spec := mkConnSpec [] [] [].

Lemma connection_starts {V : Type} run_msg run_hook run_user fd qfd (qcb : V) r
    (w : TcpClient.Cli E V Agent) u :
  fd <> qfd -> conn_begins r -> cli_new fd qfd qcb r w ->
  (forall w1, TcpClient.run_chook run_hook (TcpClient._conn_start_cb (TcpClient.cl w)) w1 =
     Ret (TcpClient.set_cuser (u (TcpClient.cl_user w1)) w1)) ->
  u (TcpClient.cl_user w) = TcpClient.cl_user w ->
  exists t, established (cli_turn run_msg run_hook run_user no_task) (Some fd, r) w = Ret t /\
    conn_sim fd qfd qcb (TcpClient._router (TcpClient.cl w)) t no_conn /\
    thread_agent t = TcpClient.cl_user w.
Proof.
  intros Hne [-> | ->] Hw Hh Hu.
  - eexists. split; [reflexivity|]. split; [|done]. split; [|done|done].
    by apply connected_watched.
  - destruct (delayed_turn run_msg run_hook run_user no_task fd qfd qcb Hne
      (TcpClient.ConnErr EINPROGRESS) w u Hw ltac:(done) Hh) as (t & Et & Ht & Hut & Hr & _ & Hs).
    exists t. split; [exact Et|]. split; [split; [done|done|by rewrite Hs]|].
    unfold thread_agent. by rewrite Hut.
Qed.

Context (evfd_num : F -> Z) (map : STR_MAP).

Lemma reporter_starts (e : E) fd r (ag : Agent) q :
  RouteLB.report_queue ag = Some q -> fd <> evfd_num (evfd q) -> conn_begins r ->
  exists w t, report_client_thread evfd_num map (Some e) (Some fd, r) ag =
      Ret (client_addr (lit "reporter") map, w) /\
    established rep_turn (Some fd, r) w = Ret t /\ thread_agent t = ag /\
    conn_sim fd (evfd_num (evfd q)) new_report_request_f MsgRouter_new t no_conn.
Proof.
  intros Hq Hne Hr. unfold report_client_thread. cbn [EventLoop_open mbind res_bind].
  destruct (client_created repc_hook fd (evfd_num (evfd q)) new_report_request_f Hne e ag r Hr)
    as (w & -> & Hw & Hu & Hcb & Hrt).
  cbn [mbind res_bind]. rewrite Hq.
  destruct (connection_starts repc_msg repc_hook rep_user fd (evfd_num (evfd q))
    new_report_request_f r _ id Hne Hr Hw) as (t & Et & Hs & Ht); [|done|].
  - intros w1. cbn. rewrite Hcb. cbn. by destruct w1.
  - eexists _, t. split; [reflexivity|]. split; [exact Et|]. split; [by rewrite Ht|].
    cbn in Hs. by rewrite Hrt in Hs.
Qed.

(** [conn_init] finds the balancers still empty. *)
Lemma dns_client_starts cfg now junk (e : E) fd r (ag : Agent) q :
  RouteLB.dns_queue ag = Some q -> fd <> evfd_num (evfd q) -> conn_begins r ->
  conn_init ag = ag ->
  exists w t, dns_client_thread evfd_num map (Some e) (Some fd, r) ag =
      Ret (client_addr (lit "dns-server") map, w) /\
    established (dns_turn cfg now junk) (Some fd, r) w = Ret t /\ thread_agent t = ag /\
    conn_sim fd (evfd_num (evfd q)) new_dns_request_f client_router t no_conn.
Proof.
  intros Hq Hne Hr Hi. unfold dns_client_thread. cbn [EventLoop_open mbind res_bind].
  destruct (client_created client_hook fd (evfd_num (evfd q)) new_dns_request_f Hne e ag r Hr)
    as (w & -> & Hw & Hu & Hcb & Hrt).
  cbn [mbind res_bind]. rewrite Hq. cbv zeta. set (w1 := TcpClient.set_cl _ _).
  assert (Hw1 : cli_new fd (evfd_num (evfd q)) new_dns_request_f r w1)
    by (destruct Hw as [[? ?] ? ? ? ?]; by split; [split|..]).
  destruct (connection_starts (client_msg cfg now junk) client_hook dns_user fd
    (evfd_num (evfd q)) new_dns_request_f r w1 conn_init Hne Hr Hw1) as (t & Et & Hs & Ht).
  - done.
  - cbn. by rewrite Hu.
  - eexists _, t. split; [reflexivity|]. split; [exact Et|]. split; [by rewrite Ht|].
    cbn in Hs. by rewrite Hrt in Hs.
Qed.

(** The agent at first: no pair is known, nothing waits, nothing is sent. *)
Definition agent_begins : agent_spec ADDR :=
  mkAgentSpec [∅; ∅; ∅] [] [] [[]; []; []] no_conn no_conn.

(** What can be seen of a process is what the specification says. *)
Record shows (p : Process E F LOOP ADDR) (s : agent_spec ADDR) : Prop := {
  sh_known : known <$> r_lb (pr_agent p) = as_known s;
  sh_requests : exists q, RouteLB.dns_queue (pr_agent p) = Some q /\ queue q = as_requests s;
  sh_reports : exists q, RouteLB.report_queue (pr_agent p) = Some q /\ queue q = as_reports s;
  sh_replies : forall i, (i < 3)%nat -> exists t, pr_udp p !! i = Some t /\
    as_replies s !! i = Some (Udp.u_sent (ut_srv t));
  sh_dns : concat (ct_sent (pr_dns p)).*2 = cs_sent (as_dns s);
  sh_rep : concat (ct_sent (pr_rep p)).*2 = cs_sent (as_rep s)
}.

Lemma sim_shows ufds dfd dqfd rfd rqfd n p s :
  process_sim ufds dfd dqfd rfd rqfd n p s -> shows p s.
Proof.
  intros [A Hu Hl Hd Hr]. split.
  - apply A.
  - apply A.
  - apply A.
  - intros i Hi. destruct (lookup_lt_is_Some_2 ufds i) as [fd Hfd]; [lia|].
    destruct (Hu _ _ Hfd) as (t & rp & Ht & Hrp & W). exists t. split; [done|].
    by rewrite (uw_sent _ _ _ _ W).
  - apply Hd.
  - apply Hr.
Qed.

Lemma fresh_ok J (dq : ThreadQueue lbrss.GetRouteRequest F LOOP)
    (rq : ThreadQueue lbrss.ReportStatusRequest F LOOP) :
  queue dq = [] -> queue rq = [] ->
  agent_ok J (mkAgent create_route_lb (Some dq) (Some rq)) [∅; ∅; ∅] [] [].
Proof.
  intros Hd Hr. assert (Hi : forall i, rl_inv J (RouteLB_new i))
    by (intros i; split; by apply map_Forall_empty).
  split; [done| |done|by exists dq|by exists rq|by constructor..].
  by repeat (apply Forall_cons; split).
Qed.
End Started.

Section Runs.
Context {E F LOOP ADDR : Type} `{EL : EpollLaws E} `{EventFd F} `{PL : PbLaws}.
Context `{HO : HashOrder}.

(** C7. The agent, from [main] on. It reads its configuration, starts three UDP
    servers, on [start_port] and the two ports after it, and its two clients on
    the configured addresses, if these are ports below 2^15; with a larger
    [start_port] it reads outside of the array of balancers. From then on, as
    long as the events fit ([items_fit]), it does, in any order of the events of
    its five threads, without a fault what an agent without buffers and loops
    would: each datagram is answered from the hosts known for its pair, a pair
    that is not known is asked for, reports are counted and handed on, and what
    waits goes to the dns service and to the reporter as whole messages in
    order, byte for byte what the kernel takes. Events fit when they are on what
    is watched and: a datagram, whatever is in it, is not longer than the UDP
    buffer, and the uninitialised counter of the balancer that it may create
    does not reach the end of an [int] in the run; both connections stay up and
    no write fails (otherwise the agent is ended, C36, or goes on in the middle
    of a message, C40); the bytes that arrive on a connection, with what was
    kept, fit into the client's buffer and are whole messages up to less than a
    head (the body of a message that is cut later is read over the end, C39);
    and an answer of the dns service has a sum of [modid] and [cmdid] that is an
    [int] and not negative, has at most [AGENT_HOSTS] hosts (1500), and either
    is empty or has all hosts that the agent knows for the pair (with one that
    lacks some of them a later use fails, C35). *)
Theorem agent_service_runs file ok map host (rf df : F) (zero : ADDR) us (de re : E) dfd rfd dr rr
    (evfd_num : F -> Z) :
  let ip := default 0 host in
  let cfg := load_config (if ip =? 0 then LOOPBACK else ip) map in
  let start_port := i32 (GetNumber (lit "loadbalance") (lit "start_port") 8888 map) in
  let start := agent_start (LOOP := LOOP) evfd_num file host (Some rf) (Some df) zero
    (udp_given <$> us) (Some de, (Some dfd, dr)) (Some re, (Some rfd, rr)) in
  setPath file None = Ret (ok, Some map) -> 0 <= start_port < 2 ^ 16 ->
  length us = 3%nat -> Forall (fun u => length (us_buf u) = Z.to_nat Udp.UDP_BUF) us ->
  conn_begins dr -> conn_begins rr -> dfd <> evfd_num df -> rfd <> evfd_num rf ->
  if start_port + 2 <? 2 ^ 15
  then exists p, start = Ret (cfg, client_addr (lit "dns-server") map,
                              client_addr (lit "reporter") map, p) /\
    (forall i u, us !! i = Some u -> exists t, pr_udp p !! i = Some t /\
       ut_port t = start_port + Z.of_nat i /\ ut_fd t = us_fd u) /\
    forall J its, 0 <= J -> J + Z.of_nat (length its) < 2 ^ 31 - 1 ->
      items_fit cfg (us_fd <$> us) dfd (evfd_num df) rfd (evfd_num rf) J its agent_begins ->
      exists p' s, agent_steps cfg its p = Ret p' /\ asteps cfg agent_begins its s /\ shows p' s
  else start = Fault OutOfBounds.
Proof.
  intros ip cfg start_port start Hc Hp Hl Hb Hdr Hrr Hdf Hrf.
  assert (Em : agent_main (LOOP := LOOP) file host (Some rf) (Some df) = Ret (cfg, start_port,
    mkAgent create_route_lb (Some (ThreadQueue_new df)) (Some (ThreadQueue_new rf)))).
  { unfold agent_main, init_lb_agent. by rewrite Hc. }
  unfold start, agent_start. rewrite Em. cbn [mbind res_bind].
  destruct (Z.ltb_spec (start_port + 2) (2 ^ 15)).
  2: { change 0 with (Z.of_nat 0). rewrite servers_fault; [done|done|lia|by destruct us|lia]. }
  destruct (servers_start (F := F) (LOOP := LOOP) start_port zero us 0 ltac:(lia) ltac:(lia)
    ltac:(lia) Hb) as (ts & Es & Hts).
  change (Z.of_nat 0) with 0 in Es. rewrite Es. cbn [mbind res_bind]. rewrite Hc.
  cbn [mbind res_bind instance fst snd].
  destruct (reporter_starts evfd_num map re rfd rr
    (mkAgent (LOOP := LOOP) create_route_lb (Some (ThreadQueue_new df)) (Some (ThreadQueue_new rf)))
    (ThreadQueue_new rf) eq_refl Hrf Hrr) as (rw & rt & -> & Ert & _ & Srt).
  destruct (dns_client_starts evfd_num map cfg 0 (fun _ => (0, 0)) de dfd dr
    (mkAgent (LOOP := LOOP) create_route_lb (Some (ThreadQueue_new df)) (Some (ThreadQueue_new rf)))
    (ThreadQueue_new df) eq_refl Hdf Hdr eq_refl) as (dw & dt & -> & Edt & Hdt & Sdt).
  cbn [mbind res_bind]. rewrite Ert. cbn [mbind res_bind]. rewrite Edt. cbn [mbind res_bind].
  eexists. split; [reflexivity|]. split.
  { intros i u Hi. destruct (Hts _ _ Hi) as (t & Ht & Hpt & Hfd & _). by exists t. }
  intros J its HJ Hn Hfit.
  destruct (agent_run cfg (us_fd <$> us) dfd (evfd_num df) rfd (evfd_num rf) J its J
    (mkProcess (thread_agent dt) ts dt rt) agent_begins) as (p' & s & Ep & Hs & S); try done.
  - split; cbn; [rewrite Hdt; by apply fresh_ok| |by rewrite length_fmap|done|done].
    intros i fd Hi. rewrite list_lookup_fmap in Hi. destruct (us !! i) as [u|] eqn:Eu; [|done].
    injection Hi as <-. destruct (Hts _ _ Eu) as (t & Ht & _ & _ & W). exists t, [].
    split; [done|]. split; [|done]. apply lookup_lt_Some in Eu.
    destruct i as [|[|[|i]]]; [done..|lia].
  - exists p', s. split; [done|]. split; [done|]. by eapply sim_shows.
Qed.
End Runs.

(** ** Witness: a host is asked for twice *)

Import TableKernel CounterFd Varint FixedOrder.

(** The first question for 1/2 makes the agent ask the dns service; the second
    comes when its answer, one host, has arrived. *)
Definition ask_frame : frame :=
  msg_frame ID_GetHostRequest (lbrss.mkGetHostRequest 7 1 2).
Definition ask_again : agent_item unit :=
  IDatagram 0 20 EPOLLIN 3 1000 0 true tt (frame_bytes ask_frame).
Definition ask_route : lbrss.GetRouteRequest := lbrss.mkGetRouteRequest 1 2.
Definition ask_sent : list byte := frame_bytes (msg_frame ID_GetRouteRequest ask_route).
Definition ask_answer : frame :=
  msg_frame ID_GetRouteResponse
    (lbrss.mkGetRouteResponse 1 2 [lbrss.mkHostInfo 16777343 8081]).

Definition ask_items : list (agent_item unit) :=
  [ask_again;
   IDns (CQueue 8 EPOLLIN) 1000 (fun _ => (0, 0));
   IDns (CWrite 30 EPOLLOUT [WrOk (Z.of_nat (length ask_sent))] []) 1000 (fun _ => (0, 0));
   IDns (CData 30 EPOLLIN (frame_bytes ask_answer) [] (None, TcpClient.ConnOk)) 1001
     (fun _ => (0, 0));
   ask_again].

Definition ask_us : list (udp_sys (E := gmap Z Z)) :=
  (fun fd => mkUdpSys ∅ fd (replicate (Z.to_nat Udp.UDP_BUF) x00)) <$> [20; 21; 22].

(** The steps of the specification on these items. *)
Lemma ask_first cfg s :
  astep cfg agent_begins ask_again s ->
  exists out, s = mkAgentSpec [{[pack64 1 2 := ∅]}; ∅; ∅] [ask_route] [] [out; []; []]
    no_conn no_conn.
Proof.
  assert (Ef : Udp.udp_frame (frame_bytes ask_frame) = Some ask_frame)
    by (vm_compute; reflexivity).
  assert (Eq : ParseFromArray (f_data ask_frame) = lbrss.mkGetHostRequest 7 1 2)
    by (vm_compute; reflexivity).
  intros H. inversion H; subst. clear H.
  match goal with Hk : [_; _; _] !! 0%nat = Some ?kn |- _ => injection Hk as <- end.
  match goal with Hr : [_; _; _] !! 0%nat = Some ?rp |- _ => injection Hr as <- end.
  match goal with H : datagram _ _ _ _ _ _ _ _ _ _ |- _ => rename H into Hd end.
  inversion Hd as [Hf|f rsp reqs' Hf Hid ? ? ? ? Ha|f rsp reqs' Hf Hid|f rs' Hf Hid]; subst;
    try (rewrite Ef in Hf; injection Hf as <-; done).
  - exfalso. apply (Hf _ Ef). vm_compute. left.
  - rewrite Ef in Hf. injection Hf as <-. subst req modid cmdid key. rewrite Eq in *.
    unfold asks in Ha. rewrite lookup_empty in Ha. subst.
    unfold track. rewrite lookup_empty. cbn. by eexists.
Qed.

Lemma ask_parsed : ParseFromArray (f_data ask_answer) =
  lbrss.mkGetRouteResponse 1 2 [lbrss.mkHostInfo 16777343 8081].
Proof. vm_compute. reflexivity. Qed.

Lemma ask_fits cfg : items_fit cfg [20; 21; 22] 30 8 31 7 0 ask_items agent_begins.
Proof.
  assert (Hask : forall s, item_fits [20; 21; 22] 30 8 31 7 0 ask_again s)
    by (intros s; split_and!; [done|by vm_compute|lia..|vm_compute; discriminate]).
  cbn [items_fit ask_items]. split; [apply Hask|]. intros s1 H1.
  apply ask_first in H1 as (out & ->). split; [split; by vm_compute|]. intros s2 H2.
  inversion H2; subst. clear H2. split.
  { split; [done|]. split; [by vm_compute|]. split; [by vm_compute|].
    eexists _, 1, (length ask_sent). split; [vm_compute; reflexivity|]. done. }
  intros s3 H3. inversion H3; subst. clear H3.
  match goal with Hw : written _ _ _ |- _ => destruct Hw as (r & k & _ & _ & ->) end. split;
    [|intros s4 _; by split].
  split; [done|]. split; [by vm_compute|]. split; [by vm_compute|].
  split; [vm_compute; discriminate|].
  eexists [ask_answer], (mkConnSpec [] _ _). split.
  - split; [cbn [cs_in queue_out no_conn fmap list_fmap concat app]; by rewrite !app_nil_r|].
    split; [|split; [cbn; lia|done]]. apply Forall_singleton. vm_compute. split_and!; done.
  - split; [|done]. intros _. cbv zeta. rewrite ask_parsed.
    split; [by vm_compute|]. split; [by vm_compute|]. intros kn Hk ks Hks. right.
    change (answer_index _) with 0%nat in Hk. injection Hk as <-.
    change (answer_key _) with (pack64 1 2) in Hks. rewrite lookup_singleton_eq in Hks.
    injection Hks as <-. apply empty_subseteq.
Qed.

Lemma ask_run cfg s : asteps cfg agent_begins ask_items s -> cs_sent (as_dns s) = ask_sent.
Proof.
  intros H. inversion H as [|? ? s1 ? ? H1 R1]; subst. clear H. apply ask_first in H1 as (out & ->).
  inversion R1 as [|? ? s2 ? ? H2 R2]; subst. clear R1. inversion H2; subst. clear H2.
  inversion R2 as [|? ? s3 ? ? H3 R3]; subst. clear R2. inversion H3; subst. clear H3.
  match goal with Hw : written _ _ _ |- _ => destruct Hw as (r & k & Hd & _ & ->) end.
  assert (Hk : Some (r, k) = Some (1, length ask_sent))
    by (rewrite <- Hd; vm_compute; reflexivity).
  injection Hk as -> ->. clear Hd.
  inversion R3 as [|? ? s4 ? ? H4 R4]; subst. clear R3. inversion H4; subst. clear H4.
  match goal with Ha : arrives _ _ _ _ |- _ => destruct Ha as (_ & _ & _ & _ & Hs) end.
  inversion R4 as [|? ? s5 ? ? H5 R5]; subst. clear R4. inversion H5; subst. clear H5.
  inversion R5; subst. cbn [as_dns]. rewrite Hs. vm_compute. reflexivity.
Qed.

Lemma agent_service_runs_witness :
  exists cfg p p' s,
    agent_start (LOOP := unit) Z.of_N (Some lb_conf) None (Some 7%N) (Some 8%N) tt
      (udp_given <$> ask_us) (Some ∅, (Some 30, TcpClient.ConnErr EINPROGRESS))
      (Some ∅, (Some 31, TcpClient.ConnOk)) =
      Ret (cfg, client_addr (lit "dns-server") (conf_map lb_conf),
           client_addr (lit "reporter") (conf_map lb_conf), p) /\
    agent_steps cfg ask_items p = Ret p' /\ asteps cfg agent_begins ask_items s /\ shows p' s /\
    concat (ct_sent (pr_dns p')).*2 = ask_sent.
Proof.
  pose proof (agent_service_runs (LOOP := unit) (Some lb_conf) true (conf_map lb_conf) None
    7%N 8%N tt ask_us ∅ ∅ 30 31 (TcpClient.ConnErr EINPROGRESS) TcpClient.ConnOk Z.of_N) as H.
  cbv zeta in H.
  assert (Ep : i32 (GetNumber (lit "loadbalance") (lit "start_port") 8888 (conf_map lb_conf)) =
    8888)
    by (vm_compute; reflexivity).
  rewrite Ep in H. destruct H as (p & Es & _ & Hrun).
  - apply conf_loads. vm_compute. reflexivity.
  - lia.
  - done.
  - repeat constructor; apply length_replicate.
  - by right.
  - by left.
  - done.
  - done.
  - destruct (Hrun 0 ask_items ltac:(lia) ltac:(cbn; lia) (ask_fits _)) as
      (p' & s & Ep' & Hs & Hsh).
    eexists _, p, p', s. split; [exact Es|]. split; [exact Ep'|]. split; [exact Hs|].
    split; [exact Hsh|]. by rewrite (sh_dns _ _ Hsh), (ask_run _ _ Hs).
Defined.
